(* ===== verification/_CoqProject ===== *)
-Q . S2P
Prelude.v
Mem.v
CoapDefs.v
CoapGet.v
CoapSet.v
CoapTests.v
CoapTerm.v
CoapMessage.v
CoapGetFacts.v
CoapSetFacts.v
CoapOptionFacts.v
CoapClient.v
CoapExample.v
CoapExampleProps.v
DtlsFirst.v
DtlsRequest.v
DtlsRequestFacts.v
Dtls.v
DtlsToy.v
DtlsProps.v
CoapOverrun.v
CoapProps.v
Pal.v
ExoDefs.v
ExoBuild.v
ExoProcess.v
ExoRules.v
ExoBuildFacts.v
DtlsRequestProps.v
DtlsDownload.v
ExoSpec.v
ExoEnds.v
ExoTimer.v
ExoProps.v
ExoHandleFacts.v
ExoSafe.v
ExoSamples.v
ExoSafeProps.v
ExoSilent.v
ExoMsgProps.v
ExoSendProps.v
ExoRun.v
ExoLoss.v
ExoFlight.v
ExoQueue.v
Subscribe.v
SubscribeFacts.v
SubscribeRound.v
SubscribeProps.v
