(* ===== verification/Prelude.v ===== *)
(** * Verification of libexositecoap

    libexositecoap is a C library with which a small device exchanges values
    with a CoAP server over UDP.  This development models the library function
    by function and proves what its parts promise to each other and to the
    application.

    ** The program and the files that model it

    The library has three layers.  [exo_operate] is called by the application
    again and again; it reads datagrams through the platform layer, takes them
    apart with the getters of PicoCoAP, advances the application's requests, and
    builds and sends new datagrams with the setters of PicoCoAP.

    - PicoCoAP, [picocoap/src/coap.h] and [coap.c]: packets in a byte buffer.
      [CoapDefs] has the types and the inline accessors, [CoapGet] validation and
      the getters, [CoapSet] the setters.  [CoapMessage] is the abstract side: a
      [message] record, its [encode] to bytes and the relation [represents]
      between a packet and the message it holds.  [CoapGetFacts], [CoapSetFacts]
      and [CoapOptionFacts] prove each operation against [represents];
      [CoapTerm] proves that the operations terminate on arbitrary bytes,
      [CoapOverrun] what they do with an option that announces more than the packet
      holds.
      [CoapTests] runs the unit tests of [picocoap/tests/coap_test.c] on the
      model.  [CoapProps] has the theorems of this layer.
    - The platform layer, [pal/*/exosite_pal.h] and [.c]: [Pal] states it as the
      class [Pal] (the operations) and [PalLaws] (what the engine relies on), and
      gives two instances, [Posix] over a script of what the operating system
      answers, and [Template], the stubs.
    - The client, [src/exosite.h] and [exosite.c]: [ExoDefs] has the types, the
      operations on a request and the state of the program, [ExoBuild] the
      message builders, [ExoProcess] the engine.  [ExoSpec] is the abstract side:
      [op_step], the transition system a request goes through, and [advances],
      what the engine may do to the whole program.  [ExoRules] has the program
      logic for the state monad, [ExoEnds] proves that the engine refines
      [ExoSpec], [ExoTimer] what the pass over the active requests does to each of
      them, [ExoBuildFacts] and [ExoHandleFacts] prove the builders and the
      handlers on messages, [ExoSafe] that the engine has no undefined behaviour
      when the peer ([Peer]) sends messages.  [ExoProps], [ExoSafeProps],
      [ExoSilent], [ExoMsgProps], [ExoSendProps] and, for whole conversations with
      the server, [ExoRun], [ExoLoss], [ExoFlight] and [ExoQueue] have the theorems of
      this layer; [ExoSamples] has the concrete programs they are tried on.
    - The applications in the repository.  [Subscribe] is [examples/subscribe.c] on
      top of the model of the client, [SubscribeFacts] its invariant,
      [SubscribeProps] its theorems and [SubscribeRound] those about its rounds
      while notifications come in.  [CoapClient] has the printer and
      [CoapExample] the rest of [picocoap/examples/posix/client.c], a client of
      PicoCoAP alone, with its theorems in [CoapExampleProps].
      [picocoap/examples/posix/client_dtls.c] holds two programs: [DtlsFirst] is
      the first, a client for an earlier PicoCoAP ([old_coap]); [DtlsRequest]
      makes the requests of the second and [Dtls] is its handler, event loop and
      [main], over the libraries it is written against ([library]).
      [DtlsRequestFacts] has the laws of libcoap the requests rely on
      ([LibraryLaws]), [DtlsToy] an instance of them, [DtlsProps],
      [DtlsRequestProps] and [DtlsDownload] the theorems.
    - [Prelude] and [Mem] are shared: integers, outcomes, loops, and the byte
      buffers with [memcpy], [memmove], [memset] and [strlen].

    ** How C is modelled

    - Integers are [Z] with an explicit wrap ([u8], [u16], [u32], [u64],
      [size_t], [s32]) where the C type wraps; the target is LP64.  Enums are
      inductive types with a coercion to their values; a field read from a packet
      is the integer found there.
    - A byte buffer is a list of bytes and a pointer into it an offset; [None] is
      the null pointer.  An access outside of a buffer, a null dereference and an
      over-wide shift give [Fault]: undefined behaviour is an outcome that the
      theorems exclude or exhibit.  The numeric value of [pdu->buf] is a field of
      the packet, because [coap_get_option] subtracts that pointer from null.
    - The application's strings and value buffers are blocks of a heap, and a
      request holds block numbers, so two requests may share a buffer.  The
      static variables of [exosite.c], the heap, the request array and the
      platform are the record [world]; functions that change them are in the
      monad [M].
    - The contents of uninitialised packet buffers are parameters.
    - A loop runs for up to 2^64 iterations, counted by doubling ([iter2]), so
      that the bound costs nothing when a loop is evaluated.  No loop of the
      library can need more, because each runs over a buffer, a C string or the
      datagrams that wait; [ends] and [returns] both exclude [OutOfFuel], so every
      theorem stated with them also states termination.  The loop of [subscribe.c]
      around [exo_operate] need not end; theorems about it use [runs_or_hangs],
      which admits [OutOfFuel] and nothing else, and "hangs" means that the
      condition to leave the loop is false after every iteration.  The endless
      loops of the applications take the number of rounds, or the events that
      come, as an argument.
    - [returns c Q]: [c] has no undefined behaviour and its result satisfies [Q].
      [ends c Q]: [c] terminates, and its result satisfies [Q] unless the
      execution has undefined behaviour.  The theorems on well-formed packets use
      the first; the theorems on whatever the network sends use the second.

    ** What the theorems show

    - PicoCoAP on messages: building any well-formed message and reading it back
      gives the same fields (C3); each setter acts on the message the packet
      represents (C24, C25), the option header encoding inverts
      ([option_header_roundtrip]), the iterators visit exactly the options of a
      message (C26, C27).
    - PicoCoAP on arbitrary bytes: what validation accepts, exactly (C28); getters
      and setters terminate (C29, C30); the packets with an overrunning last option,
      which are accepted, and what reading and writing their payload does (C35).
    - The engine on arbitrary network input: a call of [exo_operate] terminates
      and refines the transition system of requests (C1); the invariant of every
      reachable request (C5); the meaning of the result (C6); finished requests stay
      finished (C7).
    - Programs that pass valid pointers, with a peer that sends CoAP messages, have
      no undefined behaviour in any call (C2), and no byte of memory changes outside
      of the value buffers that requests name (C4).
    - The engine over many calls of an activated device on a silent network: requests
      are given up after a bounded number of timeouts (C8), subscriptions never
      ([unconfirmed_subscription_never_idle]).
    - The engine on messages: the requests that are built (C17, C22), sent
      ([new_read_is_sent]) and retransmitted (C13), what every kind of answer does to
      a request, in all cases (C9, C10, C16, C34, C40), how notifications are told
      apart (C33), the reset (C14) and [exo_init] (C23).
    - Conversations over several calls of [exo_operate]: a read from its request,
      through lost datagrams and retransmissions, to the value in the caller's
      buffer (C11), any number of queued reads and writes to their answers, in
      whatever order these arrive (C12), a device without a CIK to an activated one
      (C15).
    - The applications: [subscribe.c] has no undefined behaviour (C18), what it
      reports (C20), which values of its subscription it prints and which it loses
      (C21), and when it hangs (C19, [subscribe_hangs_without_init]);
      [client.c] sends and judges what it should (C31, C32) and prints whole
      messages (C39); in [client_dtls.c] the requests are those of the client
      library (C37), a download in blocks saves what was sent if the file can be
      opened (C38), blocks are sent
      again a bounded number of times (C36) and its other requests never
      ([lost_request_never_retried]).
    - Where the code falls short of its documentation or its purpose, the behaviour
      is proved: C9, C10, C13, C19, C21, C27, C28, C34, C35, C40, and theorems next to them in [CoapProps],
      [ExoMsgProps], [ExoSendProps], [SubscribeProps], [DtlsProps] and [DtlsFirst].

    ** What is not modelled

    - In [picocoap/examples/posix/client_dtls.c], which declares two [main]s and
      uses variables it does not declare: the statements behind the [return] of
      [get_pdu_activate] and [get_pdu_download_content], which are never reached.
      libcoap, tinydtls and the PicoCoAP its first program was written for are
      parameters.
    - The cmocka framework and [tests/test.c], which only includes it.
    - [exosite_validate_cik] is declared and never defined; the data formats of
      [exosite.h] are never used.
    - Overflow of [int] in the difference of two times in [client_dtls.c], which
      needs clock values on both sides of the range of [int].
    - Text printed to the standard error stream, except that [CoapExample] records
      that there was some.

    ** Possible extensions

    The rounds of [subscribe.c] in which it also writes its uptime; subscriptions
    among the requests in flight. *)

From stdpp Require Export base numbers list.
From Stdlib Require Export ZArith Lia Bool.
From Stdlib Require String Ascii.
#[global] Open Scope Z_scope.

(** ** Fixed-width integers

    A C integer of width [w] is a [Z] kept in range by an explicit wrap.  The
    target is LP64: [size_t], [ptrdiff_t] and pointers are 64 bits wide, [int]
    is 32 bits wide. *)

Definition u8 (z : Z) : Z := z mod 256.
Definition u16 (z : Z) : Z := z mod 65536.
Definition u32 (z : Z) : Z := z mod 4294967296.
Definition u64 (z : Z) : Z := z mod 18446744073709551616.
Definition size_t (z : Z) : Z := u64 z.

(** Conversion to a signed type: two's complement. *)
Definition s8 (z : Z) : Z := (z + 128) mod 256 - 128.
Definition s32 (z : Z) : Z := (z + 2147483648) mod 4294967296 - 2147483648.

Definition is_byte (b : Z) : Prop := 0 <= b < 256.
Definition is_byteb (b : Z) : bool := (0 <=? b) && (b <? 256).
Abbreviation bytes := (Forall is_byte).

(** Length of a list as an integer: the unit of every pointer difference. *)
Definition zlen {A} (l : list A) : Z := Z.of_nat (length l).

(** The characters of a C string literal, without the terminating NUL. *)
Definition lit (s : String.string) : list Z :=
  List.map (fun c => Z.of_N (Ascii.N_of_ascii c)) (String.list_ascii_of_string s).
Export String.StringSyntax.
Arguments lit s%_string_scope.

(** ** Outcomes of C code

    [Fault] marks executions with undefined behaviour (an access outside an
    object, a dereference of a null pointer, a shift by at least the width of
    the type) and [OutOfFuel] marks a loop that did not finish within
    2^64 iterations. *)

Inductive fault :=
| OutOfBounds
| NullPointer
| BadShift
| OutOfFuel.

Inductive res (A : Type) :=
| Ok (a : A)
| Fault (f : fault).
Arguments Ok {A} a.
Arguments Fault {A} f.

Definition rbind {A B} (c : res A) (k : A -> res B) : res B :=
  match c with
  | Ok a => k a
  | Fault f => Fault f
  end.

Declare Scope c_scope.
Delimit Scope c_scope with c.
Notation "'let*' x := c 'in' k" := (rbind c (fun x => k))
  (at level 10, x binder, c at level 100, k at level 200) : c_scope.
#[global] Open Scope c_scope.

(** [returns c Q]: [c] has no undefined behaviour, terminates, and its result
    satisfies [Q]. *)
Definition returns {A} (c : res A) (Q : A -> Prop) : Prop :=
  match c with
  | Ok a => Q a
  | Fault _ => False
  end.

(** [ends c Q]: [c] terminates; when it has no undefined behaviour its result
    satisfies [Q]. *)
Definition ends {A} (c : res A) (Q : A -> Prop) : Prop :=
  match c with
  | Ok a => Q a
  | Fault f => f <> OutOfFuel
  end.

Definition terminates {A} (c : res A) : Prop := c <> Fault OutOfFuel.

(** [runs_or_hangs c Q]: [c] has no undefined behaviour; it returns a result that
    satisfies [Q] or does not terminate. *)
Definition runs_or_hangs {A} (c : res A) (Q : A -> Prop) : Prop :=
  match c with
  | Ok a => Q a
  | Fault f => f = OutOfFuel
  end.

(** ** Loops

    A loop body either asks for another iteration or leaves the loop.  [iter2 n]
    runs at most [2^n] iterations and stops at the first [Break]; a C loop is
    [loop], which allows [2^64] of them. *)

Inductive step (S R : Type) :=
| Continue (s : S)
| Break (r : R).
Arguments Continue {S R} s.
Arguments Break {S R} r.

Fixpoint iter2 {S R} (n : nat) (body : S -> res (step S R)) (s : S) : res (step S R) :=
  match n with
  | O => body s
  | S n' =>
      match iter2 n' body s with
      | Ok (Continue s') => iter2 n' body s'
      | r => r
      end
  end.

Definition loop {S R} (body : S -> res (step S R)) (s : S) : res R :=
  match iter2 64 body s with
  | Ok (Break r) => Ok r
  | Ok (Continue _) => Fault OutOfFuel
  | Fault f => Fault f
  end.

(** ** Tactics *)

Create HintDb cdb discriminated.
Create Rewrite HintDb zlen.

(** Split every boolean comparison of the goal or the hypotheses that decides an
    [if], turning it into a fact [lia] can use. *)
Ltac zcase :=
  match goal with
  | |- context [if ?b then _ else _] =>
      match b with
      | (?x <? ?y) => destruct (Z.ltb_spec x y)
      | (?x <=? ?y) => destruct (Z.leb_spec x y)
      | (?x =? ?y) => destruct (Z.eqb_spec x y)
      | _ => destruct b eqn:?
      end
  | H : context [if ?b then _ else _] |- _ =>
      match b with
      | (?x <? ?y) => destruct (Z.ltb_spec x y)
      | (?x <=? ?y) => destruct (Z.leb_spec x y)
      | (?x =? ?y) => destruct (Z.eqb_spec x y)
      | _ => destruct b eqn:?
      end
  end.
Ltac zcases := repeat (zcase; try lia).

(** Decide a comparison the context already settles. *)
Ltac zdecide :=
  repeat match goal with
  | |- context [?x <? ?y] =>
      first [ rewrite (proj2 (Z.ltb_lt x y)) by lia | rewrite (proj2 (Z.ltb_ge x y)) by lia ]
  | |- context [?x <=? ?y] =>
      first [ rewrite (proj2 (Z.leb_le x y)) by lia | rewrite (proj2 (Z.leb_gt x y)) by lia ]
  | |- context [?x =? ?y] =>
      first [ rewrite (proj2 (Z.eqb_eq x y)) by lia | rewrite (proj2 (Z.eqb_neq x y)) by lia ]
  end.

(** Evaluate the conditions that are closed. *)
Ltac eval_ifs :=
  repeat match goal with
  | |- context [if ?b then _ else _] =>
      let v := eval vm_compute in b in
      lazymatch v with true => idtac | false => idtac end;
      change b with v; cbv iota
  end.

(** Unfold the wraps and let [lia] see the divisions. *)
Ltac wrap_lia :=
  unfold size_t, u64, u32, u16, u8, s8, s32, is_byte in *;
  Z.div_mod_to_equations; lia.

(** ** Outcomes: rules *)

Lemma returns_Ok {A} (a : A) (Q : A -> Prop) : returns (Ok a) Q <-> Q a.
Proof. reflexivity. Qed.

Lemma returns_inv {A} (c : res A) (Q : A -> Prop) :
  returns c Q <-> exists a, c = Ok a /\ Q a.
Proof. destruct c; simpl; split; [eauto | intros (a' & [= ->] & H); done | done | intros (? & ? & ?); done]. Qed.

Lemma returns_bind {A B} (c : res A) (k : A -> res B) (P : A -> Prop) (Q : B -> Prop) :
  returns c P -> (forall a, P a -> returns (k a) Q) -> returns (rbind c k) Q.
Proof. destruct c; simpl; [eauto | done]. Qed.

Lemma returns_mono {A} (c : res A) (P Q : A -> Prop) :
  returns c P -> (forall a, P a -> Q a) -> returns c Q.
Proof. destruct c; simpl; eauto. Qed.

Lemma rbind_Ok {A B} (a : A) (k : A -> res B) : rbind (Ok a) k = k a.
Proof. reflexivity. Qed.

Lemma ends_bind {A B} (c : res A) (k : A -> res B) (P : A -> Prop) (Q : B -> Prop) :
  ends c P -> (forall a, P a -> ends (k a) Q) -> ends (rbind c k) Q.
Proof. destruct c; simpl; eauto. Qed.

Lemma ends_mono {A} (c : res A) (P Q : A -> Prop) :
  ends c P -> (forall a, P a -> Q a) -> ends c Q.
Proof. destruct c; simpl; eauto. Qed.

Lemma ends_Ok {A} (c : res A) (Q : A -> Prop) a : ends c Q -> c = Ok a -> Q a.
Proof. by intros H ->. Qed.

Lemma ends_terminates {A} (c : res A) (Q : A -> Prop) : ends c Q -> terminates c.
Proof. unfold terminates. destruct c; simpl; congruence. Qed.

Lemma hangs_bind {A B} (c : res A) (k : A -> res B) (P : A -> Prop) (Q : B -> Prop) :
  runs_or_hangs c P -> (forall a, P a -> runs_or_hangs (k a) Q) -> runs_or_hangs (rbind c k) Q.
Proof. destruct c; simpl; eauto. Qed.

Lemma hangs_mono {A} (c : res A) (P Q : A -> Prop) :
  runs_or_hangs c P -> (forall a, P a -> Q a) -> runs_or_hangs c Q.
Proof. destruct c; simpl; eauto. Qed.

Lemma returns_hangs {A} (c : res A) (Q : A -> Prop) : returns c Q -> runs_or_hangs c Q.
Proof. by destruct c. Qed.

Lemma only_hangs {A} (c : res A) : runs_or_hangs c (fun _ => False) -> c = Fault OutOfFuel.
Proof. destruct c; simpl; [done|congruence]. Qed.

Lemma returns_ends {A} (c : res A) (Q : A -> Prop) : returns c Q -> ends c Q.
Proof. by destruct c. Qed.

(** ** Loops: rules *)

Section LoopRules.
Context {S R : Type} (body : S -> res (step S R)).

(** The invariant [I k s] carries a bound [k] on the iterations left, which every
    iteration lowers. *)
Lemma iter2_bounded (I : Z -> S -> Prop) (Q : R -> Prop) :
  (forall k s, I k s -> returns (body s) (fun r =>
     match r with Continue s' => exists k', 0 <= k' < k /\ I k' s' | Break r => Q r end)) ->
  forall n k s, I k s ->
  returns (iter2 n body s) (fun r =>
     match r with
     | Continue s' => exists k', 0 <= k' /\ k' + 2 ^ Z.of_nat n <= k /\ I k' s'
     | Break r => Q r
     end).
Proof.
  intros Hb n. induction n as [|n IH]; intros k s Hs.
  - cbn [iter2]. eapply returns_mono; [apply (Hb k), Hs|].
    intros [s'|r]; [|done]. rewrite Nat2Z.inj_0, Z.pow_0_r.
    intros (k' & ? & ?). exists k'. repeat split; try done; lia.
  - cbn [iter2]. pose proof (IH k s Hs) as H1.
    destruct (iter2 n body s) as [[s'|r]|]; simpl in H1; [|exact H1|done].
    destruct H1 as (k' & Hk & Hle & HI). eapply returns_mono; [apply (IH k'), HI|].
    intros [s''|r]; [|done]. intros (k'' & ? & ? & ?). exists k''.
    rewrite Nat2Z.inj_succ, Z.pow_succ_r by lia. repeat split; try done; lia.
Qed.

(** Total correctness of a loop: an invariant with a bound below [2^64] and a
    postcondition. *)
Lemma loop_bounded (I : Z -> S -> Prop) (Q : R -> Prop) k s :
  (forall k s, I k s -> returns (body s) (fun r =>
     match r with Continue s' => exists k', 0 <= k' < k /\ I k' s' | Break r => Q r end)) ->
  I k s -> k < 2 ^ 64 ->
  returns (loop body s) Q.
Proof.
  intros Hb Hs Hk. pose proof (iter2_bounded I Q Hb 64 k s Hs) as H1.
  unfold loop. destruct (iter2 64 body s) as [[s'|r]|]; simpl in *; [|done|done].
  destruct H1 as (k' & ? & ? & _). lia.
Qed.

(** The same with the bound given as a measure of the state. *)
Lemma loop_total (I : S -> Prop) (m : S -> Z) (Q : R -> Prop) s :
  (forall s, I s -> returns (body s) (fun r =>
     match r with Continue s' => I s' /\ 0 <= m s' < m s | Break r => Q r end)) ->
  I s -> m s < 2 ^ 64 ->
  returns (loop body s) Q.
Proof.
  intros Hb Hs Hm. apply (loop_bounded (fun k s => I s /\ k = m s) Q (m s)); [|done|done].
  intros k s' [HI ->]. eapply returns_mono; [apply Hb, HI|].
  intros [s''|r]; [|done]. intros [? ?]. eauto.
Qed.

(** A loop that faults after finitely many iterations. *)
Lemma loop_faults (I : Z -> S -> Prop) (f : fault) k s :
  (forall k s, I k s -> body s = Fault f \/ exists s' k', body s = Ok (Continue s') /\ 0 <= k' < k /\ I k' s') ->
  I k s -> k < 2 ^ 64 -> loop body s = Fault f.
Proof.
  intros Hb Hs Hk.
  assert (Hn : forall n k s, I k s -> iter2 n body s = Fault f \/
    exists s' k', iter2 n body s = Ok (Continue s') /\ 0 <= k' /\ k' + 2 ^ Z.of_nat n <= k /\ I k' s').
  { induction n as [|n IH]; intros j x Hx; cbn [iter2].
    - destruct (Hb j x Hx) as [->|(x' & j' & -> & Hj & Hx')]; [by left|right]. exists x', j'.
      rewrite Nat2Z.inj_0, Z.pow_0_r. repeat split; try done; lia.
    - destruct (IH j x Hx) as [->|(x' & j' & -> & Hj & Hle & Hx')]; [by left|].
      destruct (IH j' x' Hx') as [->|(x2 & j2 & -> & Hj2 & Hle2 & Hx2)]; [by left|right]. exists x2, j2.
      rewrite Nat2Z.inj_succ, Z.pow_succ_r by lia. repeat split; try done; lia. }
  unfold loop. destruct (Hn 64%nat k s Hs) as [->|(s' & k' & -> & ? & ? & _)]; [done|lia].
Qed.

(** A loop that is left, or that faults, in its first iteration. *)
Lemma loop_first s : (forall s', body s <> Ok (Continue s')) ->
  loop body s = match body s with
                | Ok (Break r) => Ok r
                | Ok (Continue _) => Fault OutOfFuel
                | Fault f => Fault f
                end.
Proof.
  intros H. assert (E : forall n, iter2 n body s = body s).
  { intros n. induction n as [|n IH]; [done|]. cbn [iter2]. rewrite IH.
    destruct (body s) as [[s'|r]|]; [|done|done]. by destruct (H s'). }
  unfold loop. by rewrite E.
Qed.

(** An invariant without a bound: the loop may run forever. *)
Lemma iter2_invariant (I : S -> Prop) (Q : R -> Prop) :
  (forall s, I s -> returns (body s) (fun r => match r with Continue s' => I s' | Break r => Q r end)) ->
  forall n s, I s -> returns (iter2 n body s) (fun r => match r with Continue s' => I s' | Break r => Q r end).
Proof.
  intros Hb n. induction n as [|n IH]; intros s Hs; [by apply Hb|].
  cbn [iter2]. pose proof (IH s Hs) as H1. destruct (iter2 n body s) as [[s'|r]|]; [by apply IH|done|done].
Qed.

Lemma loop_invariant (I : S -> Prop) (Q : R -> Prop) s :
  (forall s, I s -> returns (body s) (fun r => match r with Continue s' => I s' | Break r => Q r end)) ->
  I s -> runs_or_hangs (loop body s) Q.
Proof.
  intros Hb Hs. pose proof (iter2_invariant I Q Hb 64 s Hs) as H1. unfold loop.
  by destruct (iter2 64 body s) as [[s'|r]|].
Qed.

(** Termination only: [Q] holds when the loop is left and faults are allowed. *)
Lemma iter2_ends (I : Z -> S -> Prop) (Q : R -> Prop) :
  (forall k s, I k s -> ends (body s) (fun r =>
     match r with Continue s' => exists k', 0 <= k' < k /\ I k' s' | Break r => Q r end)) ->
  forall n k s, I k s -> ends (iter2 n body s) (fun r =>
     match r with
     | Continue s' => exists k', 0 <= k' /\ k' + 2 ^ Z.of_nat n <= k /\ I k' s'
     | Break r => Q r
     end).
Proof.
  intros Hb n. induction n as [|n IH]; intros k s Hs.
  - cbn [iter2]. eapply ends_mono; [apply (Hb k), Hs|]. intros [s'|r]; [|done].
    rewrite Nat2Z.inj_0, Z.pow_0_r. intros (k' & ? & ?). exists k'. repeat split; try done; lia.
  - cbn [iter2]. pose proof (IH k s Hs) as H1.
    destruct (iter2 n body s) as [[s'|r]|]; [|done|done].
    destruct H1 as (k' & Hk & Hle & HI). eapply ends_mono; [apply (IH k'), HI|].
    intros [s''|r]; [|done]. intros (k'' & ? & ? & ?). exists k''.
    rewrite Nat2Z.inj_succ, Z.pow_succ_r by lia. repeat split; try done; lia.
Qed.

Lemma loop_ends_bounded (I : Z -> S -> Prop) (Q : R -> Prop) k s :
  (forall k s, I k s -> ends (body s) (fun r =>
     match r with Continue s' => exists k', 0 <= k' < k /\ I k' s' | Break r => Q r end)) ->
  I k s -> k < 2 ^ 64 ->
  ends (loop body s) Q.
Proof.
  intros Hb Hs Hk. pose proof (iter2_ends I Q Hb 64 k s Hs) as H1.
  unfold loop. destruct (iter2 64 body s) as [[s'|r]|]; [|done|done].
  destruct H1 as (k' & ? & ? & _). change (Z.of_nat 64) with 64 in *. lia.
Qed.

Lemma loop_ends (I : S -> Prop) (m : S -> Z) (Q : R -> Prop) s :
  (forall s, I s -> ends (body s) (fun r =>
     match r with Continue s' => I s' /\ 0 <= m s' < m s | Break r => Q r end)) ->
  I s -> m s < 2 ^ 64 ->
  ends (loop body s) Q.
Proof.
  intros Hb Hs Hm. apply (loop_ends_bounded (fun k s => I s /\ k = m s) Q (m s)); [|done|done].
  intros k s' [HI ->]. eapply ends_mono; [apply Hb, HI|].
  intros [s''|r]; [|done]. intros [? ?]. eauto.
Qed.
End LoopRules.

(** ** Lengths *)

Lemma zlen_nil {A} : zlen (@nil A) = 0.
Proof. reflexivity. Qed.

Lemma zlen_cons {A} (x : A) l : zlen (x :: l) = 1 + zlen l.
Proof. unfold zlen. simpl length. lia. Qed.

Lemma zlen_app {A} (l k : list A) : zlen (l ++ k) = zlen l + zlen k.
Proof. unfold zlen. rewrite length_app. lia. Qed.

Lemma zlen_nonneg {A} (l : list A) : 0 <= zlen l.
Proof. unfold zlen. lia. Qed.

Lemma zlen_take {A} n (l : list A) : 0 <= n <= zlen l -> zlen (take (Z.to_nat n) l) = n.
Proof. unfold zlen. rewrite length_take. lia. Qed.

Lemma zlen_drop {A} n (l : list A) : 0 <= n <= zlen l -> zlen (drop (Z.to_nat n) l) = zlen l - n.
Proof. unfold zlen. rewrite length_drop. lia. Qed.

Lemma zlen_0_nil {A} (l : list A) : zlen l = 0 -> l = [].
Proof. destruct l; [done|]. rewrite zlen_cons. pose proof (zlen_nonneg l). lia. Qed.

#[export] Hint Rewrite @zlen_nil @zlen_cons @zlen_app : zlen.

(** Normalise lengths, add their signs, and decide. *)
Ltac zlen_pos :=
  repeat match goal with
  | |- context [zlen ?l] =>
      lazymatch goal with
      | H : 0 <= zlen l |- _ => fail
      | _ => pose proof (zlen_nonneg l)
      end
  | _ : context [zlen ?l] |- _ =>
      lazymatch goal with
      | H : 0 <= zlen l |- _ => fail
      | _ => pose proof (zlen_nonneg l)
      end
  end.
Ltac len_lia := autorewrite with zlen in *; zlen_pos; lia.

(** A list is cut at any position within its length. *)
Lemma split_at {A} (l : list A) i :
  0 <= i <= zlen l -> exists l1 l2, l = l1 ++ l2 /\ zlen l1 = i.
Proof.
  intros Hi. exists (take (Z.to_nat i) l), (drop (Z.to_nat i) l).
  rewrite take_drop. split; [done|]. by apply zlen_take.
Qed.

(** ** Bits *)

Lemma land_shiftl_low a b n : 0 <= n -> 0 <= b < 2 ^ n -> Z.land (Z.shiftl a n) b = 0.
Proof.
  intros Hn Hb. apply Z.bits_inj'. intros i Hi.
  rewrite Z.land_spec, Z.bits_0. destruct (Z.lt_ge_cases i n).
  - by rewrite Z.shiftl_spec_low.
  - rewrite <- (Z.mod_small b (2 ^ n)) by lia.
    by rewrite Z.mod_pow2_bits_high, andb_false_r by lia.
Qed.

(** A bit field put above [n] bits and the value of those bits. *)
Lemma shiftl_lor_add a b n :
  0 <= n -> 0 <= b < 2 ^ n -> Z.lor (Z.shiftl a n) b = a * 2 ^ n + b.
Proof.
  intros Hn Hb. pose proof (Z.add_lor_land (Z.shiftl a n) b) as E.
  rewrite land_shiftl_low in E by lia. rewrite Z.shiftl_mul_pow2 in E at 2 by lia. lia.
Qed.

(** A property of bytes is checked on all 256 of them. *)
Definition all_bytes : list Z := List.map Z.of_nat (List.seq 0 256).

Lemma byte_forall (P : Z -> bool) :
  forallb P all_bytes = true -> forall b, is_byte b -> P b = true.
Proof.
  intros H b Hb. rewrite forallb_forall in H. apply H.
  unfold all_bytes. apply List.in_map_iff. exists (Z.to_nat b).
  unfold is_byte in Hb. split; [lia|]. apply List.in_seq. lia.
Qed.

(** Prove [forall b, is_byte b -> f b = g b] by evaluation. *)
Ltac byte_eval :=
  match goal with
  | |- forall b, is_byte b -> @?f b = @?g b =>
      let H := fresh in
      intros ? H; apply Z.eqb_eq; revert H;
      match goal with |- is_byte ?x -> _ => revert x end;
      apply (byte_forall (fun b => f b =? g b)); vm_compute; reflexivity
  end.

Lemma byte_shiftr4 : forall b, is_byte b -> Z.shiftr b 4 = b / 16.
Proof. byte_eval. Qed.
Lemma byte_shiftr6 : forall b, is_byte b -> Z.shiftr b 6 = b / 64.
Proof. byte_eval. Qed.
Lemma byte_shiftr5 : forall b, is_byte b -> Z.shiftr b 5 = b / 32.
Proof. byte_eval. Qed.
Lemma byte_land_0F : forall b, is_byte b -> Z.land b 15 = b mod 16.
Proof. byte_eval. Qed.
Lemma byte_land_1F : forall b, is_byte b -> Z.land b 31 = b mod 32.
Proof. byte_eval. Qed.
Lemma byte_land_3F : forall b, is_byte b -> Z.land b 63 = b mod 64.
Proof. byte_eval. Qed.
Lemma byte_land_F0 : forall b, is_byte b -> Z.land b 240 = b - b mod 16.
Proof. byte_eval. Qed.
Lemma byte_land_CF : forall b, is_byte b -> Z.land b 207 = b - 16 * (b / 16 mod 4).
Proof. byte_eval. Qed.

Lemma u8_byte z : is_byte (u8 z).
Proof. unfold u8, is_byte. apply Z.mod_pos_bound. lia. Qed.

Lemma u8_id b : is_byte b -> u8 b = b.
Proof. intros H. unfold u8. by apply Z.mod_small. Qed.

Lemma u16_id z : 0 <= z < 65536 -> u16 z = z.
Proof. intros H. unfold u16. by apply Z.mod_small. Qed.

Lemma u64_id z : 0 <= z < 18446744073709551616 -> u64 z = z.
Proof. intros H. unfold u64. by apply Z.mod_small. Qed.

Lemma size_t_id z : 0 <= z < 18446744073709551616 -> size_t z = z.
Proof. apply u64_id. Qed.

Lemma s32_id z : -2147483648 <= z < 2147483648 -> s32 z = z.
Proof. intros H. unfold s32. rewrite Z.mod_small by lia. lia. Qed.

Lemma s8_id z : -128 <= z < 128 -> s8 z = z.
Proof. intros H. unfold s8. rewrite Z.mod_small by lia. lia. Qed.

#[export] Hint Resolve u8_byte : cdb.

(** Bytes by evaluation. *)
Lemma bytes_eval l : forallb (fun b => (0 <=? b) && (b <? 256)) l = true -> bytes l.
Proof.
  intros H. apply Forall_forall. intros b Hb. rewrite forallb_forall in H.
  apply list_elem_of_In in Hb. specialize (H b Hb). unfold is_byte. lia.
Qed.

Lemma blocks_eval h : forallb (forallb (fun b => (0 <=? b) && (b <? 256))) h = true -> Forall bytes h.
Proof.
  intros H. apply Forall_forall. intros l Hl. rewrite forallb_forall in H.
  apply bytes_eval, H. by apply list_elem_of_In.
Qed.
