(* ===== verification/Mem.v ===== *)
(** * Memory

    A C object that holds bytes is a [list Z]; a pointer into it is the offset
    from its start.  Forming a pointer never faults; an access outside the
    object is [Fault OutOfBounds].  The operations are the ones the library
    uses: loads and stores through [uint8_t*], [memcpy], [memmove], [memset],
    [strlen], and the little-endian view of a [uint64_t] that [memcpy] to and
    from [&token] relies on. *)

From S2P Require Import Prelude.

Definition load (m : list Z) (i : Z) : res Z :=
  if (0 <=? i) && (i <? zlen m) then
    match m !! Z.to_nat i with
    | Some b => Ok b
    | None => Fault OutOfBounds
    end
  else Fault OutOfBounds.

Definition store (m : list Z) (i v : Z) : res (list Z) :=
  if (0 <=? i) && (i <? zlen m) then Ok (<[Z.to_nat i := u8 v]> m)
  else Fault OutOfBounds.

(** The bytes an [n]-byte read at [i] gives; no byte is touched when [n] is 0. *)
Definition load_bytes (m : list Z) (i n : Z) : res (list Z) :=
  if n =? 0 then Ok []
  else if (0 <=? i) && (0 <=? n) && (i + n <=? zlen m)
  then Ok (take (Z.to_nat n) (drop (Z.to_nat i) m))
  else Fault OutOfBounds.

(** Overwrite the bytes at [i] with [bs]. *)
Definition store_bytes (m : list Z) (i : Z) (bs : list Z) : res (list Z) :=
  if zlen bs =? 0 then Ok m
  else if (0 <=? i) && (i + zlen bs <=? zlen m)
  then Ok (take (Z.to_nat i) m ++ bs ++ drop (Z.to_nat (i + zlen bs)) m)
  else Fault OutOfBounds.

(** [memcpy] between distinct objects: [n] bytes of [src] from offset [si]. *)
Definition memcpy (dst : list Z) (di : Z) (src : list Z) (si n : Z) : res (list Z) :=
  let* bs := load_bytes src si n in store_bytes dst di bs.

(** [memmove] inside one object. *)
Definition memmove (m : list Z) (di si n : Z) : res (list Z) :=
  let* bs := load_bytes m si n in store_bytes m di bs.

Definition memset (m : list Z) (i c n : Z) : res (list Z) :=
  store_bytes m i (List.repeat (u8 c) (Z.to_nat n)).

(** [strlen] of the string that starts the object: the distance to its first NUL. *)
Fixpoint strlen (m : list Z) : res Z :=
  match m with
  | [] => Fault OutOfBounds
  | b :: m' => if b =? 0 then Ok 0 else let* n := strlen m' in Ok (n + 1)
  end.

(** The bytes of an [n]-byte little-endian integer, and back. *)
Fixpoint le_bytes (n : nat) (z : Z) : list Z :=
  match n with
  | O => []
  | S n' => z mod 256 :: le_bytes n' (z / 256)
  end.

Fixpoint le_value (bs : list Z) : Z :=
  match bs with
  | [] => 0
  | b :: bs' => b + 256 * le_value bs'
  end.

(** ** Access inside the object *)

Lemma load_at (l1 l2 : list Z) x i : i = zlen l1 -> load (l1 ++ x :: l2) i = Ok x.
Proof.
  intros ->. unfold load. zlen_pos.
  rewrite (proj2 (Z.leb_le _ _)), (proj2 (Z.ltb_lt _ _)) by len_lia. simpl.
  unfold zlen. rewrite Nat2Z.id, lookup_app_r, Nat.sub_diag by lia. done.
Qed.

Lemma load_ok m i : 0 <= i < zlen m -> exists b, load m i = Ok b /\ m !! Z.to_nat i = Some b.
Proof.
  intros Hi. unfold load. rewrite (proj2 (Z.leb_le _ _)), (proj2 (Z.ltb_lt _ _)) by lia. simpl.
  destruct (lookup_lt_is_Some_2 m (Z.to_nat i)) as [b Hb]; [unfold zlen in *; lia|].
  rewrite Hb. eauto.
Qed.

Lemma load_byte m i : bytes m -> 0 <= i < zlen m -> returns (load m i) is_byte.
Proof.
  intros Hm Hi. destruct (load_ok m i Hi) as (b & -> & Hb). simpl.
  by eapply Forall_lookup_1.
Qed.

Lemma load_fault m i : ~ (0 <= i < zlen m) -> load m i = Fault OutOfBounds.
Proof.
  intros Hi. unfold load. destruct (Z.leb_spec 0 i), (Z.ltb_spec i (zlen m)); simpl; try done. lia.
Qed.

Lemma load_cases m i : (exists b, load m i = Ok b) \/ load m i = Fault OutOfBounds.
Proof.
  destruct (decide (0 <= i < zlen m)) as [H|H]; [left|right].
  - destruct (load_ok m i H) as (b & ? & _). eauto.
  - by apply load_fault.
Qed.

Lemma store_at (l1 l2 : list Z) x i v :
  i = zlen l1 -> store (l1 ++ x :: l2) i v = Ok (l1 ++ u8 v :: l2).
Proof.
  intros ->. unfold store. zlen_pos.
  rewrite (proj2 (Z.leb_le _ _)), (proj2 (Z.ltb_lt _ _)) by len_lia. simpl. f_equal.
  unfold zlen. rewrite Nat2Z.id.
  rewrite insert_app_r_alt, Nat.sub_diag by lia. done.
Qed.

(** The first bytes of an object. *)
Lemma load_0 (a : Z) l : load (a :: l) 0 = Ok a.
Proof. exact (load_at [] l a 0 eq_refl). Qed.
Lemma store_0 (a : Z) l v : store (a :: l) 0 v = Ok (u8 v :: l).
Proof. exact (store_at [] l a 0 v eq_refl). Qed.
Lemma store_1 (a b : Z) l v : store (a :: b :: l) 1 v = Ok (a :: u8 v :: l).
Proof. exact (store_at [a] l b 1 v eq_refl). Qed.
Lemma store_2 (a b c : Z) l v : store (a :: b :: c :: l) 2 v = Ok (a :: b :: u8 v :: l).
Proof. exact (store_at [a; b] l c 2 v eq_refl). Qed.
Lemma store_3 (a b c d : Z) l v : store (a :: b :: c :: d :: l) 3 v = Ok (a :: b :: c :: u8 v :: l).
Proof. exact (store_at [a; b; c] l d 3 v eq_refl). Qed.

Lemma load_bytes_at (l1 l2 l3 : list Z) i n :
  i = zlen l1 -> n = zlen l2 -> load_bytes (l1 ++ l2 ++ l3) i n = Ok l2.
Proof.
  intros -> ->. unfold load_bytes. destruct (Z.eqb_spec (zlen l2) 0) as [E|E].
  - by rewrite (zlen_0_nil l2 E).
  - zlen_pos. rewrite !(proj2 (Z.leb_le _ _)) by len_lia. simpl. f_equal.
    unfold zlen. rewrite !Nat2Z.id, drop_app_length, take_app_length. done.
Qed.

(** One of the bytes of a region. *)
Lemma load_of_bytes m p n v1 b v2 :
  load_bytes m p n = Ok (v1 ++ b :: v2) -> n = zlen (v1 ++ b :: v2) -> load m (p + zlen v1) = Ok b.
Proof.
  intros Hl ->. unfold load_bytes in Hl. rewrite zlen_app, zlen_cons in Hl. zlen_pos.
  rewrite (proj2 (Z.eqb_neq _ 0)) in Hl by lia. destruct (_ && _) eqn:Ec; [|done].
  apply andb_true_iff in Ec as [Ec E3]. apply andb_true_iff in Ec as [E1 _]. apply Z.leb_le in E1, E3.
  injection Hl as Hl. unfold load. rewrite (proj2 (Z.leb_le _ _)), (proj2 (Z.ltb_lt _ _)) by lia. cbn [andb].
  replace (m !! Z.to_nat (p + zlen v1)) with (Some b); [done|].
  assert (Hx : (v1 ++ b :: v2) !! length v1 = Some b) by (by rewrite lookup_app_r, Nat.sub_diag by lia).
  rewrite <- Hl, lookup_take_lt, lookup_drop in Hx by (unfold zlen; lia). rewrite <- Hx. f_equal.
  unfold zlen. lia.
Qed.

Lemma load_bytes_prefix (l1 l2 : list Z) n : n = zlen l1 -> load_bytes (l1 ++ l2) 0 n = Ok l1.
Proof. intros ->. exact (load_bytes_at [] l1 l2 0 _ eq_refl eq_refl). Qed.

Lemma store_bytes_at (l1 l2 l3 bs : list Z) i :
  i = zlen l1 -> zlen l2 = zlen bs -> store_bytes (l1 ++ l2 ++ l3) i bs = Ok (l1 ++ bs ++ l3).
Proof.
  intros -> Hl. unfold store_bytes. destruct (Z.eqb_spec (zlen bs) 0) as [E|E].
  - rewrite (zlen_0_nil bs E). rewrite (zlen_0_nil l2) by lia. done.
  - zlen_pos. rewrite !(proj2 (Z.leb_le _ _)) by len_lia. simpl. f_equal.
    rewrite <- Hl. replace (Z.to_nat (zlen l1 + zlen l2)) with (length l1 + length l2)%nat
      by (unfold zlen; lia).
    unfold zlen. rewrite Nat2Z.id, take_app_length.
    rewrite (app_assoc l1 l2 l3), <- length_app, drop_app_length. done.
Qed.

Lemma memcpy_at (l1 l2 l3 src s1 bs s2 : list Z) di si n :
  di = zlen l1 -> src = s1 ++ bs ++ s2 -> si = zlen s1 -> n = zlen bs -> zlen l2 = zlen bs ->
  memcpy (l1 ++ l2 ++ l3) di src si n = Ok (l1 ++ bs ++ l3).
Proof.
  intros ? -> ? ? ?. unfold memcpy. rewrite load_bytes_at by done. simpl.
  by apply store_bytes_at.
Qed.

(** ** Integers as bytes *)

Lemma zlen_le_bytes n z : zlen (le_bytes n z) = Z.of_nat n.
Proof. revert z. induction n; intros z; simpl le_bytes; [done|]. rewrite zlen_cons, IHn. lia. Qed.

Lemma le_bytes_bytes n z : bytes (le_bytes n z).
Proof.
  revert z. induction n; intros z; simpl; constructor; [|done].
  apply Z.mod_pos_bound. lia.
Qed.

Lemma take_le_bytes k n z : (k <= n)%nat -> take k (le_bytes n z) = le_bytes k z.
Proof.
  revert n z. induction k; intros n z Hk; [done|].
  destruct n; [lia|]. simpl. by rewrite IHk by lia.
Qed.

Lemma le_value_le_bytes n z : 0 <= z < 256 ^ Z.of_nat n -> le_value (le_bytes n z) = z.
Proof.
  revert z. induction n; intros z Hz.
  - simpl in *. lia.
  - cbn [le_bytes le_value]. rewrite Nat2Z.inj_succ, Z.pow_succ_r in Hz by lia.
    rewrite IHn by (split; [apply Z.div_pos | apply Z.div_lt_upper_bound]; lia).
    pose proof (Z.div_mod z 256). lia.
Qed.

Lemma le_value_le_bytes_mod n z : 0 <= z -> le_value (le_bytes n z) = z mod 256 ^ Z.of_nat n.
Proof.
  revert z. induction n; intros z Hz.
  - simpl. by rewrite Z.mod_1_r.
  - cbn [le_bytes le_value]. rewrite Nat2Z.inj_succ, Z.pow_succ_r by lia.
    rewrite IHn by (apply Z.div_pos; lia). rewrite Z.rem_mul_r by lia. lia.
Qed.

Lemma le_value_app_zeros bs k : le_value (bs ++ List.repeat 0 k) = le_value bs.
Proof.
  induction bs as [|b bs IH]; simpl.
  - induction k; simpl; lia.
  - by rewrite IH.
Qed.

Lemma le_value_range bs : bytes bs -> 0 <= le_value bs < 256 ^ zlen bs.
Proof.
  induction 1 as [|b bs Hb _ IH]; [done|]. cbn [le_value].
  rewrite zlen_cons, Z.pow_add_r, Z.pow_1_r by (zlen_pos; lia).
  unfold is_byte in Hb. nia.
Qed.

Lemma le_bytes_le_value bs : bytes bs -> le_bytes (length bs) (le_value bs) = bs.
Proof.
  induction 1 as [|b bs Hb _ IH]; [done|]. cbn [length le_bytes le_value].
  unfold is_byte in Hb. f_equal.
  - rewrite (Z.mul_comm 256), Z.mod_add by lia. by apply Z.mod_small.
  - rewrite (Z.mul_comm 256), Z.div_add, Z.div_small by lia. exact IH.
Qed.

(** ** C strings *)

(** An object holds the C string [s] when it starts with the characters of [s],
    none of them NUL, and a NUL. *)
Definition cstring (s m : list Z) : Prop :=
  bytes s /\ Forall (fun b => b <> 0) s /\ exists rest, m = s ++ 0 :: rest.

Lemma strlen_cstring s m : cstring s m -> strlen m = Ok (zlen s).
Proof.
  intros (_ & Hs & rest & ->). induction Hs as [|b s Hb _ IH]; [done|].
  simpl. rewrite (proj2 (Z.eqb_neq b 0)) by done. rewrite IH. simpl. f_equal. len_lia.
Qed.
