(* ===== verification/CoapDefs.v ===== *)
(** * PicoCoAP: data types and header accessors

    The types of [picocoap/src/coap.h] and its inline accessors.  C enums are
    inductive types with the integer value of each enumerator; an accessor that
    reads a field from the packet returns the integer it finds there, which
    need not be the value of an enumerator. *)

From S2P Require Import Prelude Mem.

(** ** Status codes *)

Inductive coap_error :=
| CE_NONE
| CE_INVALID_PACKET
| CE_BAD_VERSION
| CE_TOKEN_LENGTH_OUT_OF_RANGE
| CE_UNKNOWN_CODE
| CE_TOO_MANY_OPTIONS
| CE_OUT_OF_ORDER_OPTIONS_LIST
| CE_INSUFFICIENT_BUFFER
| CE_FOUND_PAYLOAD_MARKER
| CE_END_OF_PACKET.

#[export] Instance coap_error_eq_dec : EqDecision coap_error.
Proof. solve_decision. Defined.

Definition coap_error_val (e : coap_error) : Z :=
  match e with
  | CE_NONE => 0
  | CE_INVALID_PACKET => 1
  | CE_BAD_VERSION => 2
  | CE_TOKEN_LENGTH_OUT_OF_RANGE => 3
  | CE_UNKNOWN_CODE => 4
  | CE_TOO_MANY_OPTIONS => 5
  | CE_OUT_OF_ORDER_OPTIONS_LIST => 6
  | CE_INSUFFICIENT_BUFFER => 7
  | CE_FOUND_PAYLOAD_MARKER => 8
  | CE_END_OF_PACKET => 9
  end.

(** ** Protocol enumerations *)

Inductive coap_version := COAP_V1.

Definition coap_version_val (v : coap_version) : Z := 1.

Inductive coap_type := CT_CON | CT_NON | CT_ACK | CT_RST.

Definition coap_type_val (t : coap_type) : Z :=
  match t with CT_CON => 0 | CT_NON => 1 | CT_ACK => 2 | CT_RST => 3 end.

Inductive coap_code :=
| CC_EMPTY | CC_GET | CC_POST | CC_PUT | CC_DELETE
| CC_CREATED | CC_DELETED | CC_VALID | CC_CHANGED | CC_CONTENT | CC_CONTINUE
| CC_BAD_REQUEST | CC_UNAUTHORIZED | CC_BAD_OPTION | CC_FORBIDDEN | CC_NOT_FOUND
| CC_METHOD_NOT_ALLOWED | CC_NOT_ACCEPTABLE | CC_REQUEST_ENTITY_INCOMPLETE
| CC_PRECONDITION_FAILED | CC_REQUEST_ENTITY_TOO_LARGE | CC_UNSUPPORTED_CONTENT
| CC_INTERNAL_SERVER_ERROR | CC_NOT_IMPLEMENTED | CC_BAD_GATEWAY
| CC_SERVICE_UNAVAILABLE | CC_GATEWAY_TIMEOUT | CC_PROXYING_NOT_SUPPORTED.

Definition coap_code_val (c : coap_code) : Z :=
  match c with
  | CC_EMPTY => 0 | CC_GET => 1 | CC_POST => 2 | CC_PUT => 3 | CC_DELETE => 4
  | CC_CREATED => 65 | CC_DELETED => 66 | CC_VALID => 67 | CC_CHANGED => 68
  | CC_CONTENT => 69 | CC_CONTINUE => 95
  | CC_BAD_REQUEST => 128 | CC_UNAUTHORIZED => 129 | CC_BAD_OPTION => 130
  | CC_FORBIDDEN => 131 | CC_NOT_FOUND => 132 | CC_METHOD_NOT_ALLOWED => 133
  | CC_NOT_ACCEPTABLE => 134 | CC_REQUEST_ENTITY_INCOMPLETE => 136
  | CC_PRECONDITION_FAILED => 140 | CC_REQUEST_ENTITY_TOO_LARGE => 141
  | CC_UNSUPPORTED_CONTENT => 143
  | CC_INTERNAL_SERVER_ERROR => 160 | CC_NOT_IMPLEMENTED => 161
  | CC_BAD_GATEWAY => 162 | CC_SERVICE_UNAVAILABLE => 163
  | CC_GATEWAY_TIMEOUT => 164 | CC_PROXYING_NOT_SUPPORTED => 165
  end.

Inductive coap_option_number :=
| CON_IF_MATCH | CON_URI_HOST | CON_ETAG | CON_IF_NONE_MATCH | CON_OBSERVE
| CON_URI_PORT | CON_LOCATION_PATH | CON_URI_PATH | CON_CONTENT_FORMATt
| CON_MAX_AGE | CON_URI_QUERY | CON_ACCEPT | CON_LOCATION_QUERY
| CON_PROXY_URI | CON_PROXY_SCHEME | CON_SIZE1.

Definition coap_option_number_val (n : coap_option_number) : Z :=
  match n with
  | CON_IF_MATCH => 1 | CON_URI_HOST => 3 | CON_ETAG => 4 | CON_IF_NONE_MATCH => 5
  | CON_OBSERVE => 6 | CON_URI_PORT => 7 | CON_LOCATION_PATH => 8 | CON_URI_PATH => 11
  | CON_CONTENT_FORMATt => 12 | CON_MAX_AGE => 14 | CON_URI_QUERY => 15
  | CON_ACCEPT => 17 | CON_LOCATION_QUERY => 20 | CON_PROXY_URI => 35
  | CON_PROXY_SCHEME => 39 | CON_SIZE1 => 60
  end.

(** An enumerator stands for its value wherever C converts it to an integer. *)
Coercion coap_error_val : coap_error >-> Z.
Coercion coap_version_val : coap_version >-> Z.
Coercion coap_type_val : coap_type >-> Z.
Coercion coap_code_val : coap_code >-> Z.
Coercion coap_option_number_val : coap_option_number >-> Z.

(** Parameters of the protocol that the client uses. *)
Definition COAP_MAX_RETRANSMIT : Z := 4.
Definition COAP_PROBING_RATE : Z := 1.

(** ** Structures

    [pdu_buf] is the object [pdu->buf] points to and [pdu_addr] the numeric
    value of that pointer, which the code exposes where it subtracts it from a
    null pointer.  A pointer into the buffer is its offset from [pdu->buf];
    [None] is the null pointer. *)

Record coap_pdu := mk_pdu {
  pdu_addr : Z;
  pdu_buf : list Z;
  pdu_len : Z;
  pdu_max : Z;
  pdu_opt_ptr : option Z
}.

Record coap_option := mk_option {
  opt_num : Z;
  opt_len : Z;
  opt_val : option Z
}.

Record coap_payload := mk_payload {
  pl_len : Z;
  pl_val : option Z
}.

Definition set_buf (pdu : coap_pdu) (m : list Z) : coap_pdu :=
  mk_pdu (pdu_addr pdu) m (pdu_len pdu) (pdu_max pdu) (pdu_opt_ptr pdu).

Definition set_len (pdu : coap_pdu) (l : Z) : coap_pdu :=
  mk_pdu (pdu_addr pdu) (pdu_buf pdu) (size_t l) (pdu_max pdu) (pdu_opt_ptr pdu).

Definition set_opt_ptr (pdu : coap_pdu) (p : option Z) : coap_pdu :=
  mk_pdu (pdu_addr pdu) (pdu_buf pdu) (pdu_len pdu) (pdu_max pdu) p.

(** The offset from [pdu->buf] that a pointer has on a flat address space. *)
Definition ptr_off (pdu : coap_pdu) (p : option Z) : Z :=
  match p with
  | Some o => o
  | None => - pdu_addr pdu
  end.

(** [p + n]; a null pointer plus zero is null. *)
Definition ptr_add (pdu : coap_pdu) (p : option Z) (n : Z) : option Z :=
  match p with
  | Some o => Some (o + n)
  | None => if n =? 0 then None else Some (n - pdu_addr pdu)
  end.

(** ** Header accessors *)

Definition coap_get_version (pdu : coap_pdu) : res Z :=
  let* b := load (pdu_buf pdu) 0 in Ok (Z.shiftr b 6).

Definition coap_get_type (pdu : coap_pdu) : res Z :=
  let* b := load (pdu_buf pdu) 0 in Ok (Z.land (Z.shiftr b 4) 0x03).

Definition coap_get_tkl (pdu : coap_pdu) : res Z :=
  let* b := load (pdu_buf pdu) 0 in Ok (Z.land b 0x0F).

Definition coap_get_code (pdu : coap_pdu) : res Z :=
  load (pdu_buf pdu) 1.

Definition coap_get_code_class (pdu : coap_pdu) : res Z :=
  let* c := coap_get_code pdu in Ok (u8 (Z.shiftr c 5)).

Definition coap_get_code_detail (pdu : coap_pdu) : res Z :=
  let* c := coap_get_code pdu in Ok (u8 (Z.land c 0x1F)).

Definition coap_get_mid (pdu : coap_pdu) : res Z :=
  let* h := load (pdu_buf pdu) 2 in
  let* l := load (pdu_buf pdu) 3 in
  Ok (u16 (Z.lor (Z.shiftl h 8) l)).

Definition coap_build_code (_class detail : Z) : Z :=
  u8 (Z.lor (Z.shiftl _class 5) detail).
