(* ===== verification/CoapGet.v ===== *)
(** * PicoCoAP: validation and getters

    [coap_decode_option], [coap_validate_pkt] and the getters of
    [picocoap/src/coap.c].  Offsets and lengths are kept modulo 2^64 exactly
    where the code computes in [size_t], so a length that runs below zero wraps
    to a huge value as it does in C. *)

From S2P Require Import Prelude Mem CoapDefs.

(** ** Decoding one option

    An out-parameter is [None] when the caller passes [NULL] and otherwise
    [Some] of the current contents of the variable it points to. *)

Definition out_set (p : option Z) (v : Z) : option Z :=
  match p with
  | Some _ => Some v
  | None => None
  end.

Definition out_add16 (p : option Z) (v : Z) : option Z :=
  match p with
  | Some x => Some (u16 (x + v))
  | None => None
  end.

(** The extended form of a 4-bit delta or length field: the nibble, the pointer
    behind it, and the bytes the nibble announces.  [None] is the reserved
    nibble 15. *)
Definition decode_ext (m : list Z) (nibble ptr : Z) : res (option (Z * Z)) :=
  if nibble <? 13 then Ok (Some (nibble, ptr))
  else if nibble =? 13 then
    let* b := load m ptr in
    Ok (Some (u16 (b + 13), ptr + 1))
  else if nibble =? 14 then
    let* h := load m ptr in
    let* l := load m (ptr + 1) in
    Ok (Some (u16 (Z.shiftl h 8 + l + 269), ptr + 2))
  else Ok None.

Definition coap_decode_option (m : list Z) (pkt_ptr pkt_len : Z)
    (option_number option_length value : option Z)
    : res (coap_error * option Z * option Z * option Z) :=
  (* Check for end of Packet *)
  if pkt_len =? 0 then Ok (CE_END_OF_PACKET, option_number, option_length, value)
  else
    let* b := load m pkt_ptr in
    (* Check for Payload Marker *)
    if b =? 0xFF then Ok (CE_FOUND_PAYLOAD_MARKER, option_number, option_length, value)
    else
      (* Get Base Delta and Length *)
      let delta := Z.shiftr b 4 in
      let length := Z.land b 0x0F in
      let ptr := pkt_ptr + 1 in
      (* Check for and Get Extended Delta *)
      let* d := decode_ext m delta ptr in
      match d with
      | None => Ok (CE_INVALID_PACKET, option_number, option_length, value)
      | Some (delta, ptr) =>
          (* Check for and Get Extended Length *)
          let* l := decode_ext m length ptr in
          match l with
          | None => Ok (CE_INVALID_PACKET, option_number, option_length, value)
          | Some (length, ptr) =>
              Ok (CE_NONE, out_add16 option_number delta,
                  out_set option_length length, out_set value ptr)
          end
      end.

(** ** Validation *)

(** One evaluation of the condition of the [while] loop of [coap_validate_pkt]
    and of its body; the state is [(ov, ol)]. *)
Definition validate_step (pdu : coap_pdu) (st : Z * Z) : res (step (Z * Z) coap_error) :=
  let '(ov, ol) := st in
  let* '(err, _, ol1, ov1) :=
    coap_decode_option (pdu_buf pdu) (ov + ol) (size_t (pdu_len pdu - ov))
      None (Some ol) (Some ov) in
  let ol := default ol ol1 in
  let ov := default ov ov1 in
  if decide (err <> CE_NONE) then
    match err with
    | CE_NONE => Ok (Continue (ov, ol))
    | CE_END_OF_PACKET => Ok (Break CE_NONE)
    | CE_FOUND_PAYLOAD_MARKER =>
        (* Payload Marker, but No Payload *)
        if pdu_len pdu =? size_t (ov + ol)
        then Ok (Break CE_INVALID_PACKET)
        else Ok (Break CE_NONE)
    | _ => Ok (Break err)
    end
  else Ok (Break CE_NONE).

Definition coap_validate_pkt (pdu : coap_pdu) : res (coap_error * coap_pdu) :=
  let pdu := set_opt_ptr pdu None in
  if pdu_max pdu <? pdu_len pdu then Ok (CE_INVALID_PACKET, pdu)
  else if pdu_len pdu <? 4 then Ok (CE_INVALID_PACKET, pdu)
  else
    (* Check Version *)
    let* ver := coap_get_version pdu in
    if negb (ver =? 1) then Ok (CE_INVALID_PACKET, pdu)
    else
      (* Check TKL *)
      let* tkl := coap_get_tkl pdu in
      if 8 <? tkl then Ok (CE_INVALID_PACKET, pdu)
      else
        (* Check Options *)
        let* err := loop (validate_step pdu) (4 + tkl, 0) in
        Ok (err, pdu).

(** ** Getters *)

Definition coap_get_token (pdu : coap_pdu) : res Z :=
  let* b := load (pdu_buf pdu) 0 in
  (* Extract TKL. *)
  let tkl := Z.land b 0x0F in
  (* Check that we were given enough packet. *)
  if pdu_len pdu <? 4 + tkl then Ok 0
  else
    (* Set token. *)
    let* token := memcpy (List.repeat 0 8) 0 (pdu_buf pdu) 4 tkl in
    Ok (le_value token).

Definition coap_get_option (pdu : coap_pdu) (last : option coap_option) : res coap_option :=
  let first := (let* tkl := coap_get_tkl pdu in Ok (4 + tkl)) in
  let* '(option, opt_ptr) :=
    match last with
    | Some l =>
        if negb (opt_num l =? 0)
        then Ok (mk_option (opt_num l) 0 None, ptr_off pdu (opt_val l) + opt_len l)
        else let* p := first in Ok (mk_option 0 0 None, p)
    | None => let* p := first in Ok (mk_option 0 0 None, p)
    end in
  (* If opt_ptr is outside pkt range, put it at first opt. *)
  let* opt_ptr :=
    if (pdu_len pdu <? opt_ptr) || (opt_ptr <=? 0) then first else Ok opt_ptr in
  let* '(err, num1, len1, val1) :=
    coap_decode_option (pdu_buf pdu) opt_ptr (size_t (pdu_len pdu - opt_ptr))
      (Some (opt_num option)) (Some (opt_len option)) (Some (ptr_off pdu (opt_val option))) in
  if decide (err <> CE_NONE) then
    if decide (err = CE_FOUND_PAYLOAD_MARKER) then
      if opt_num option =? 0 then
        Ok (mk_option 0 (size_t (pdu_len pdu - opt_ptr - 1)) (Some (opt_ptr + 1)))
      else
        let val := ptr_add pdu (opt_val option) (opt_len option) in
        Ok (mk_option 0 (size_t (pdu_len pdu - ptr_off pdu val)) val)
    else Ok (mk_option 0 0 None)
  else
    Ok (mk_option (default 0 num1) (default 0 len1) val1).

(** The body of the [do ... while] loop of [coap_get_option_by_num]; the state is
    the last option and the count of matches [i]. *)
Definition by_num_step (pdu : coap_pdu) (num occ : Z) (st : coap_option * Z)
    : res (step (coap_option * Z) coap_option) :=
  let '(option, i) := st in
  let* option := coap_get_option pdu (Some option) in
  if opt_num option =? num then
    let i := u8 (i + 1) in
    if i <=? occ then Ok (Continue (option, i)) else Ok (Break option)
  else if num <? opt_num option then Ok (Break (mk_option 0 0 None))
  else if opt_num option =? 0 then Ok (Break option)
  else if i <=? occ then Ok (Continue (option, i)) else Ok (Break option).

Definition coap_get_option_by_num (pdu : coap_pdu) (num occ : Z) : res coap_option :=
  loop (by_num_step pdu num occ) (mk_option 0 0 None, 0).

(** The body of the [do ... while (1)] loop of [coap_get_payload]; the state is
    [offset], the result is the error that ended the scan and the offset. *)
Definition payload_step (pdu : coap_pdu) (offset : Z) : res (step Z (coap_error * Z)) :=
  let* '(err, _, len1, val1) :=
    coap_decode_option (pdu_buf pdu) offset (size_t (pdu_len pdu - offset))
      None (Some 0) (Some 0) in
  match err with
  | CE_FOUND_PAYLOAD_MARKER | CE_END_OF_PACKET => Ok (Break (err, offset))
  | CE_NONE =>
      (* Add this option header and value length to offset. *)
      Ok (Continue (size_t (offset + (default 0 val1 - offset) + default 0 len1)))
  | _ => Ok (Break (err, offset))
  end.

Definition coap_get_payload (pdu : coap_pdu) : res coap_payload :=
  let* tkl := coap_get_tkl pdu in
  (* Find Last Option *)
  let* '(err, offset) := loop (payload_step pdu) (4 + tkl) in
  if decide (err = CE_FOUND_PAYLOAD_MARKER) then
    Ok (mk_payload (size_t (pdu_len pdu - offset - 1)) (Some (offset + 1)))
  else Ok (mk_payload 0 None).
