(* ===== verification/CoapSet.v ===== *)
(** * PicoCoAP: setters

    [coap_init_pdu], the header setters, [coap_add_option] with its helpers and
    [coap_set_payload] of [picocoap/src/coap.c].  A setter returns the status
    code and the packet it leaves behind, also when it fails half way. *)

From S2P Require Import Prelude Mem CoapDefs CoapGet.

(** ** Header fields *)

Definition coap_set_version (pdu : coap_pdu) (ver : Z) : res (coap_error * coap_pdu) :=
  if pdu_max pdu <? 1 then Ok (CE_INSUFFICIENT_BUFFER, pdu)
  else
    let* b := load (pdu_buf pdu) 0 in
    let* m := store (pdu_buf pdu) 0 (Z.lor (Z.shiftl ver 6) (Z.land b 0x3F)) in
    let pdu := set_buf pdu m in
    Ok (CE_NONE, if pdu_len pdu <? 1 then set_len pdu 1 else pdu).

Definition coap_set_type (pdu : coap_pdu) (mtype : Z) : res (coap_error * coap_pdu) :=
  if pdu_max pdu <? 1 then Ok (CE_INSUFFICIENT_BUFFER, pdu)
  else
    let* b := load (pdu_buf pdu) 0 in
    let* m := store (pdu_buf pdu) 0 (Z.lor (Z.shiftl mtype 4) (Z.land b 0xCF)) in
    let pdu := set_buf pdu m in
    Ok (CE_NONE, if pdu_len pdu <? 1 then set_len pdu 1 else pdu).

Definition coap_set_code (pdu : coap_pdu) (code : Z) : res (coap_error * coap_pdu) :=
  if pdu_max pdu <? 2 then Ok (CE_INSUFFICIENT_BUFFER, pdu)
  else
    let* m := store (pdu_buf pdu) 1 code in
    let pdu := set_buf pdu m in
    Ok (CE_NONE, if pdu_len pdu <? 2 then set_len pdu 2 else pdu).

Definition coap_set_mid (pdu : coap_pdu) (mid : Z) : res (coap_error * coap_pdu) :=
  if pdu_max pdu <? 4 then Ok (CE_INSUFFICIENT_BUFFER, pdu)
  else
    let* m := store (pdu_buf pdu) 2 (Z.shiftr mid 8) in
    let* m := store m 3 (Z.land mid 0xFF) in
    let pdu := set_buf pdu m in
    Ok (CE_NONE, if pdu_len pdu <? 4 then set_len pdu 4 else pdu).

(** ** Token *)

(** Make or take room for a token of [tkl] bytes: [None] when it does not fit. *)
Definition set_token_room (pdu : coap_pdu) (tkl : Z) : res (option (list Z)) :=
  if 4 <? pdu_len pdu then
    let* cur := coap_get_tkl pdu in
    (* Check that we were given enough buffer. *)
    if pdu_max pdu <? size_t (pdu_len pdu + (tkl - cur)) then Ok None
    else
      (* Move rest of packet to make room or take empty space. *)
      let* m := memmove (pdu_buf pdu) (4 + tkl) (4 + cur) (size_t (pdu_len pdu - 4 - cur)) in
      Ok (Some m)
  else Ok (Some (pdu_buf pdu)).

Definition coap_set_token (pdu : coap_pdu) (token tkl : Z) : res (coap_error * coap_pdu) :=
  (* Check that we were given enough buffer. *)
  if pdu_max pdu <? 4 + tkl then Ok (CE_INSUFFICIENT_BUFFER, pdu)
  (* Check token length for spec. *)
  else if 8 <? tkl then Ok (CE_INVALID_PACKET, pdu)
  else
    (* Check if we may need to make or take room. *)
    let* room := set_token_room pdu tkl in
    match room with
    | None => Ok (CE_INSUFFICIENT_BUFFER, pdu)
    | Some m =>
        (* Set token. *)
        let* m := memcpy m 4 (le_bytes 8 token) 0 tkl in
        let pdu := set_buf pdu m in
        let* cur := coap_get_tkl pdu in
        let pdu := set_len pdu (pdu_len pdu + (tkl - cur)) in
        let* b := load (pdu_buf pdu) 0 in
        let* m := store (pdu_buf pdu) 0 (Z.lor (Z.land tkl 0x0F) (Z.land b 0xF0)) in
        Ok (CE_NONE, set_buf pdu m)
    end.

Definition coap_init_pdu (pdu : coap_pdu) : res (coap_error * coap_pdu) :=
  (* Check that we were given enough packet. *)
  if pdu_max pdu <? 4 then Ok (CE_INSUFFICIENT_BUFFER, pdu)
  else
    let pdu := set_len pdu 0 in
    let* m := memset (pdu_buf pdu) 0 0 4 in
    let pdu := set_buf pdu m in
    let* '(_, pdu) := coap_set_version pdu COAP_V1 in
    let* '(_, pdu) := coap_set_type pdu CT_RST in
    let* '(_, pdu) := coap_set_token pdu 0 0 in
    let* '(_, pdu) := coap_set_code pdu CC_EMPTY in
    let* '(_, pdu) := coap_set_mid pdu 0 in
    Ok (CE_NONE, set_opt_ptr pdu None).

(** ** Option headers *)

Definition coap_compute_option_header_len (opt_delta opt_len : Z) : Z :=
  let len := 1 in
  let len := if opt_delta <? 13 then len else if opt_delta <? 269 then len + 1 else len + 2 in
  let len := if opt_len <? 13 then len else if opt_len <? 269 then len + 1 else len + 2 in
  len.

(** The extended bytes of a delta or a length: the base nibble, the memory and
    the pointer behind the bytes written; [None] when [max_len] is too small. *)
Definition build_ext (m : list Z) (buf max_len ptr x : Z) : res (option (Z * list Z * Z)) :=
  if x <? 13 then Ok (Some (u8 x, m, ptr))
  else if x <? 269 then
    if max_len <? size_t (ptr - buf + 1) then Ok None
    else
      let* m := store m ptr (x - 13) in
      Ok (Some (13, m, ptr + 1))
  else
    if max_len <? size_t (ptr - buf + 2) then Ok None
    else
      let* m := store m ptr (Z.shiftr (x - 269) 8) in
      let* m := store m (ptr + 1) (Z.land (x - 269) 0xFF) in
      Ok (Some (14, m, ptr + 2)).

(** The C function returns an [int8_t] that is the header length or the value of
    [CE_INSUFFICIENT_BUFFER]; the bytes already written stay written. *)
Definition coap_build_option_header (m : list Z) (buf max_len opt_delta opt_len : Z)
    : res (Z * list Z) :=
  if max_len <? 1 then Ok (s8 CE_INSUFFICIENT_BUFFER, m)
  else
    let ptr := buf + 1 in
    let* d := build_ext m buf max_len ptr opt_delta in
    match d with
    | None => Ok (s8 CE_INSUFFICIENT_BUFFER, m)
    | Some (base_num, m, ptr) =>
        let* l := build_ext m buf max_len ptr opt_len in
        match l with
        | None => Ok (s8 CE_INSUFFICIENT_BUFFER, m)
        | Some (base_len, m, ptr) =>
            let* m := store m buf (Z.lor (Z.shiftl base_num 4) base_len) in
            (* Return the length of the new header. *)
            Ok (s8 (ptr - buf), m)
        end
    end.

(** ** Rewriting the deltas behind an insertion *)

Record adjust_st := mk_adjust {
  adj_mem : list Z;
  adj_opts_len : Z;
  adj_fopt_val : Z;
  adj_fopt_len : Z;
  adj_fopt_num : Z
}.

Definition adjust_step (opts_start max_len offset : Z) (st : adjust_st)
    : res (step adjust_st (coap_error * list Z * Z)) :=
  let m := adj_mem st in
  let opts_len := adj_opts_len st in
  let ptr := adj_fopt_val st + adj_fopt_len st in
  if opts_len <? size_t (ptr - opts_start) then Ok (Break (CE_NONE, m, opts_len))
  else
    let* '(err, num1, len1, val1) :=
      coap_decode_option m ptr (size_t (opts_len - (ptr - opts_start)))
        (Some (adj_fopt_num st)) (Some (adj_fopt_len st)) (Some (adj_fopt_val st)) in
    let fopt_num := default 0 num1 in
    let fopt_len := default 0 len1 in
    let fopt_val := default 0 val1 in
    match err with
    | CE_FOUND_PAYLOAD_MARKER | CE_END_OF_PACKET => Ok (Break (CE_NONE, m, opts_len))
    | CE_NONE =>
        (* New Option Number *)
        let nopt_num := u16 (fopt_num + offset) in
        (* Find the length of the found header. *)
        let fhdr_len := s8 (fopt_val - ptr) in
        (* Compute the length of the new header. *)
        let nhdr_len := coap_compute_option_header_len nopt_num (s32 fopt_len) in
        (* Make/Take room for new header size *)
        if negb (fhdr_len =? nhdr_len) then
          if max_len <? size_t (opts_len + (nhdr_len - fhdr_len))
          then Ok (Break (CE_INSUFFICIENT_BUFFER, m, opts_len))
          else
            let* m := memmove m (fopt_val + (nhdr_len - fhdr_len)) fopt_val fopt_len in
            let opts_len := size_t (opts_len + (nhdr_len - fhdr_len)) in
            let* '(_, m) := coap_build_option_header m ptr nhdr_len nopt_num (s32 fopt_len) in
            Ok (Continue (mk_adjust m opts_len fopt_val fopt_len fopt_num))
        else
          (* Write New Header *)
          let* '(_, m) := coap_build_option_header m ptr nhdr_len nopt_num (s32 fopt_len) in
          Ok (Continue (mk_adjust m opts_len fopt_val fopt_len fopt_num))
    | _ => Ok (Break (err, m, opts_len))
    end.

Definition coap_adjust_option_deltas (m : list Z) (opts_start opts_len max_len offset : Z)
    : res (coap_error * list Z * Z) :=
  loop (adjust_step opts_start max_len offset) (mk_adjust m opts_len opts_start 0 0).

(** ** Adding an option *)

(** The loop that looks for the insertion point.  The state is
    [(fopt_val, fopt_len, fopt_num)], the result [(err, pkt_ptr, lopt_num)]. *)
Definition find_step (pdu : coap_pdu) (opt_num : Z) (st : Z * Z * Z)
    : res (step (Z * Z * Z) (coap_error * Z * Z)) :=
  let '(fopt_val, fopt_len, fopt_num) := st in
  let pkt_ptr := fopt_val + fopt_len in
  let lopt_num := fopt_num in
  let* '(err, num1, len1, val1) :=
    coap_decode_option (pdu_buf pdu) pkt_ptr (size_t (pdu_len pdu - pkt_ptr))
      (Some fopt_num) (Some fopt_len) (Some fopt_val) in
  let fopt_num := default 0 num1 in
  let fopt_len := default 0 len1 in
  let fopt_val := default 0 val1 in
  if bool_decide (err = CE_NONE) && (fopt_num <=? opt_num)
     && (size_t (pkt_ptr + fopt_len) <? pdu_len pdu)
  then Ok (Continue (fopt_val, fopt_len, fopt_num))
  else Ok (Break (err, pkt_ptr, lopt_num)).

(** Lengthen the packet by the new option.  In the middle of a packet the tail is
    slid back and its deltas are adjusted; the status of the adjustment is not
    looked at. *)
Definition make_room (pdu : coap_pdu) (pkt_ptr nopt_hdr_len opt_len lopt_num opt_num : Z)
    : res coap_pdu :=
  if negb (pdu_len pdu =? size_t pkt_ptr) then
    (* Slide packet tail to make room. *)
    let* m := memmove (pdu_buf pdu) (pkt_ptr + nopt_hdr_len + opt_len) pkt_ptr
                (size_t (pdu_len pdu - pkt_ptr)) in
    let pdu := set_len (set_buf pdu m) (pdu_len pdu + (nopt_hdr_len + opt_len)) in
    (* Find Current Length of Remaining Options *)
    let opts_len := size_t (pdu_len pdu - pkt_ptr) in
    (* Adjust the option deltas for the rest of the options. *)
    let* '(_, m, opts_len) :=
      coap_adjust_option_deltas (pdu_buf pdu) (pkt_ptr + nopt_hdr_len + opt_len)
        opts_len (size_t (pdu_max pdu - pkt_ptr)) (s32 (lopt_num - opt_num)) in
    (* Update Total Packet Length *)
    Ok (set_len (set_buf pdu m)
          (pdu_len pdu + (opts_len - (pdu_len pdu - pkt_ptr))))
  else
    (* Update Packet Length *)
    Ok (set_len pdu (pdu_len pdu + nopt_hdr_len + opt_len)).

Definition coap_add_option (pdu : coap_pdu) (opt_num : Z) (value : list Z) (opt_len : Z)
    : res (coap_error * coap_pdu) :=
  let* tkl := coap_get_tkl pdu in
  (* Find insertion point *)
  let* '(err, pkt_ptr, lopt_num) := loop (find_step pdu opt_num) (4 + tkl, 0, 0) in
  if negb (bool_decide (err = CE_FOUND_PAYLOAD_MARKER) || bool_decide (err = CE_END_OF_PACKET)
           || bool_decide (err = CE_NONE))
  then Ok (err, pdu)
  else
    (* Build New Header *)
    let nopt_hdr_len := u8 (coap_compute_option_header_len (s32 (opt_num - lopt_num)) opt_len) in
    (* Check that we were given enough buffer. *)
    if pdu_max pdu <? size_t (pdu_len pdu + nopt_hdr_len + opt_len)
    then Ok (CE_INSUFFICIENT_BUFFER, pdu)
    else
      let* pdu := make_room pdu pkt_ptr nopt_hdr_len opt_len lopt_num opt_num in
      (* Insert the Header *)
      let* '(_, m) :=
        coap_build_option_header (pdu_buf pdu) pkt_ptr nopt_hdr_len
          (s32 (opt_num - lopt_num)) opt_len in
      (* Insert the Value *)
      let* m := memcpy m (pkt_ptr + nopt_hdr_len) value 0 opt_len in
      Ok (CE_NONE, set_buf pdu m).

(** ** Setting the payload *)

(** The state is [(fopt_val, fopt_len)], the result [(err, pkt_ptr)].  The C loop
    also accumulates [fopt_num], which nothing reads. *)
Definition find_end_step (pdu : coap_pdu) (st : Z * Z) : res (step (Z * Z) (coap_error * Z)) :=
  let '(fopt_val, fopt_len) := st in
  let pkt_ptr := fopt_val + fopt_len in
  let* '(err, _, len1, val1) :=
    coap_decode_option (pdu_buf pdu) pkt_ptr (size_t (pdu_len pdu - pkt_ptr))
      (Some 0) (Some fopt_len) (Some fopt_val) in
  let fopt_len := default 0 len1 in
  let fopt_val := default 0 val1 in
  if bool_decide (err = CE_NONE) && (size_t (pkt_ptr + fopt_len) <? pdu_len pdu)
  then Ok (Continue (fopt_val, fopt_len))
  else Ok (Break (err, pkt_ptr)).

Definition coap_set_payload (pdu : coap_pdu) (payload : list Z) (payload_len : Z)
    : res (coap_error * coap_pdu) :=
  let* tkl := coap_get_tkl pdu in
  (* Find insertion point *)
  let* '(err, pkt_ptr) := loop (find_end_step pdu) (4 + tkl, 0) in
  let finish (m : list Z) (pkt_ptr : Z) :=
    let pdu := set_len (set_buf pdu m) (pkt_ptr + payload_len) in
    let* m := memcpy (pdu_buf pdu) pkt_ptr payload 0 payload_len in
    Ok (CE_NONE, set_buf pdu m) in
  match err with
  | CE_END_OF_PACKET =>
      (* Check that we were given enough buffer. *)
      if pdu_max pdu <? size_t (pdu_len pdu + payload_len + 1)
      then Ok (CE_INSUFFICIENT_BUFFER, pdu)
      else
        let* m := store (pdu_buf pdu) pkt_ptr 0xFF in
        finish m (pkt_ptr + 1)
  | CE_FOUND_PAYLOAD_MARKER =>
      (* Check that we were given enough buffer. *)
      if pdu_max pdu <? size_t (pdu_len pdu + payload_len)
      then Ok (CE_INSUFFICIENT_BUFFER, pdu)
      else finish (pdu_buf pdu) pkt_ptr
  | CE_NONE => finish (pdu_buf pdu) pkt_ptr
  | _ => Ok (err, pdu)
  end.
