(* ===== verification/CoapTests.v ===== *)
(** * PicoCoAP: the unit tests of the repository

    The tests of [picocoap/tests/coap_test.c], run on the model: the same packets
    and the same calls, with every assertion of the C test as a conjunct.  They
    tie the definitions of [CoapGet] and [CoapSet] to the packets the authors of
    the library checked the C code with. *)

From S2P Require Import Prelude Mem CoapDefs CoapGet CoapSet.

(** [coap_pdu msg = {bin, len, max}] *)
Definition test_pdu (bin : list Z) (len max : Z) : coap_pdu := mk_pdu 4096 bin len max None.

(** [coap_option_by_num] and the iterator, with the bytes of the value. *)
Definition option_data (pdu : coap_pdu) (o : res coap_option) : res (Z * Z * list Z) :=
  let* o := o in
  match opt_val o with
  | None => Ok (opt_num o, opt_len o, [])
  | Some v => let* bs := load_bytes (pdu_buf pdu) v (opt_len o) in Ok (opt_num o, opt_len o, bs)
  end.

Definition payload_data (pdu : coap_pdu) (p : res coap_payload) : res (Z * list Z) :=
  let* p := p in
  match pl_val p with
  | None => Ok (pl_len p, [])
  | Some v => let* bs := load_bytes (pdu_buf pdu) v (pl_len p) in Ok (pl_len p, bs)
  end.

(** The option behind the first [n] ones. *)
Fixpoint nth_option (pdu : coap_pdu) (n : nat) : res coap_option :=
  match n with
  | O => coap_get_option pdu None
  | S n' => let* o := nth_option pdu n' in coap_get_option pdu (Some o)
  end.

(** A sequence of setters that must all succeed, and the bytes they leave. *)
Fixpoint all_none (fs : list (coap_pdu -> res (coap_error * coap_pdu))) (pdu : coap_pdu) : res (option (list Z)) :=
  match fs with
  | [] => let* bs := load_bytes (pdu_buf pdu) 0 (pdu_len pdu) in Ok (Some bs)
  | f :: fs' =>
      let* '(err, pdu) := f pdu in
      if decide (err = CE_NONE) then all_none fs' pdu else Ok None
  end.

Definition validates (pdu : coap_pdu) : Prop := coap_validate_pkt pdu = Ok (CE_NONE, pdu).

Example test_msg_empty_con_getters :
  let msg_ref := test_pdu [64; 0; 0; 0] 4 4 in
  validates msg_ref /\ coap_get_version msg_ref = Ok (COAP_V1 : Z) /\ coap_get_type msg_ref = Ok (CT_CON : Z) /\
  coap_get_tkl msg_ref = Ok 0 /\ coap_get_token msg_ref = Ok 0 /\ coap_get_code msg_ref = Ok (CC_EMPTY : Z) /\
  coap_get_code_class msg_ref = Ok 0 /\ coap_get_code_detail msg_ref = Ok 0.
Proof. vm_compute. repeat split. Qed.

Example test_msg_empty_con_getters_with_token :
  let msg_ref := test_pdu [66; 0; 0; 0; 37; 42] 6 6 in
  validates msg_ref /\ coap_get_version msg_ref = Ok (COAP_V1 : Z) /\ coap_get_type msg_ref = Ok (CT_CON : Z) /\
  coap_get_tkl msg_ref = Ok 2 /\ coap_get_token msg_ref = Ok 0x2A25 /\ coap_get_code msg_ref = Ok (CC_EMPTY : Z) /\
  coap_get_code_class msg_ref = Ok 0 /\ coap_get_code_detail msg_ref = Ok 0.
Proof. vm_compute. repeat split. Qed.

Example test_msg_empty_con_setters :
  all_none [coap_init_pdu; (fun p => coap_set_version p COAP_V1); (fun p => coap_set_type p CT_CON);
            (fun p => coap_set_code p CC_EMPTY); (fun p => coap_set_mid p 0); (fun p => coap_set_token p 0 0)]
    (test_pdu [1; 2; 3; 4] 0 4) = Ok (Some [64; 0; 0; 0]).
Proof. vm_compute. reflexivity. Qed.

(** The GET request of the tests. *)
Definition test_cik : list Z := lit "a32c85ba9dda45823be416246cf8b433baa068d7".

Definition get_con : list Z :=
  [0x40; 0x01; 0x00; 0x37; 0xb2; 0x31; 0x61; 0x04; 0x74; 0x65; 0x6d; 0x70; 0x4d; 0x1b] ++ test_cik.

Example test_msg_get_con_getters :
  let msg_ref := test_pdu get_con 54 54 in
  validates msg_ref /\ coap_get_version msg_ref = Ok (COAP_V1 : Z) /\ coap_get_type msg_ref = Ok (CT_CON : Z) /\
  coap_get_code msg_ref = Ok (CC_GET : Z) /\ coap_get_code_class msg_ref = Ok 0 /\ coap_get_code_detail msg_ref = Ok 1 /\
  option_data msg_ref (nth_option msg_ref 0) = Ok (CON_URI_PATH : Z, 2, lit "1a") /\
  option_data msg_ref (nth_option msg_ref 1) = Ok (CON_URI_PATH : Z, 4, lit "temp") /\
  option_data msg_ref (nth_option msg_ref 2) = Ok (CON_URI_QUERY : Z, 40, test_cik) /\
  option_data msg_ref (coap_get_option_by_num msg_ref CON_URI_QUERY 0) = Ok (CON_URI_QUERY : Z, 40, test_cik) /\
  coap_get_option_by_num msg_ref CON_ETAG 0 = Ok (mk_option 0 0 None).
Proof. vm_compute. repeat split. Qed.

Example test_msg_get_con_setters :
  all_none [coap_init_pdu; (fun p => coap_set_version p COAP_V1); (fun p => coap_set_type p CT_CON);
            (fun p => coap_set_code p CC_GET); (fun p => coap_set_mid p 0x37); (fun p => coap_set_token p 0 0);
            (fun p => coap_add_option p CON_URI_PATH (lit "1a") 2); (fun p => coap_add_option p CON_URI_PATH (lit "temp") 4);
            (fun p => coap_add_option p CON_URI_QUERY test_cik 40)]
    (test_pdu (List.repeat 170 54) 0 54) = Ok (Some get_con).
Proof. vm_compute. reflexivity. Qed.

Example test_msg_get_con_setters_out_order :
  all_none [coap_init_pdu; (fun p => coap_set_version p COAP_V1); (fun p => coap_set_type p CT_CON);
            (fun p => coap_set_code p CC_GET); (fun p => coap_set_mid p 0x37); (fun p => coap_set_token p 0xFFFFFFFF 4);
            (fun p => coap_add_option p CON_URI_PATH (lit "1a") 2); (fun p => coap_add_option p CON_URI_PATH (lit "temp") 4);
            (fun p => coap_add_option p CON_URI_QUERY test_cik 40)]
    (test_pdu (List.repeat 170 64) 0 64) =
  Ok (Some ([0x44; 0x01; 0x00; 0x37; 0xff; 0xff; 0xff; 0xff] ++ drop 4 get_con)).
Proof. vm_compute. reflexivity. Qed.

Example test_msg_post_con_setters :
  all_none [coap_init_pdu; (fun p => coap_set_version p COAP_V1); (fun p => coap_set_type p CT_CON);
            (fun p => coap_set_code p CC_POST); (fun p => coap_set_mid p 0x37); (fun p => coap_set_token p 0 0);
            (fun p => coap_add_option p CON_URI_PATH (lit "1a") 2); (fun p => coap_add_option p CON_URI_PATH (lit "temp") 4);
            (fun p => coap_add_option p CON_URI_QUERY test_cik 40); (fun p => coap_set_payload p (lit "99") 2)]
    (test_pdu (List.repeat 170 57) 0 57) =
  Ok (Some ([0x40; 0x02; 0x00; 0x37] ++ drop 4 get_con ++ [0xFF; 0x39; 0x39])).
Proof. vm_compute. reflexivity. Qed.

Example test_msg_content_ack_getters :
  let msg_ref := test_pdu [0x61; 0x45; 0xEE; 0xCC; 0xA2; 0xFF; 0x35; 0x36] 8 8 in
  validates msg_ref /\ coap_get_version msg_ref = Ok (COAP_V1 : Z) /\ coap_get_type msg_ref = Ok (CT_ACK : Z) /\
  coap_get_code msg_ref = Ok (CC_CONTENT : Z) /\ coap_get_code_class msg_ref = Ok 2 /\
  coap_get_code_detail msg_ref = Ok 5 /\ payload_data msg_ref (coap_get_payload msg_ref) = Ok (2, lit "56").
Proof. vm_compute. repeat split. Qed.

Example test_msg_pl_from_get_opt_no_opt :
  let msg_ref := test_pdu [0x62; 0x45; 0xee; 0x8b; 0x0e; 0x50; 0xff; 0x53; 0x68; 0x6f; 0x6f; 0x70] 12 12 in
  validates msg_ref /\ option_data msg_ref (coap_get_option msg_ref None) = Ok (0, 5, lit "Shoop").
Proof. vm_compute. repeat split. Qed.
