(* ===== verification/CoapTerm.v ===== *)
(** * PicoCoAP: termination on arbitrary packets

    The loops of the codec end whatever bytes the packet holds: each of them
    either leaves the loop, faults at an access outside the buffer, or moves the
    scan forward.  Lemmas for the theorems on termination. *)

From S2P Require Import Prelude Mem CoapDefs CoapGet CoapSet.

(** ** Memory *)

(** [m'] is [m] with some bytes overwritten. *)
Definition overwrites (m m' : list Z) : Prop := zlen m' = zlen m /\ (bytes m -> bytes m').

#[export] Instance overwrites_preorder : PreOrder overwrites.
Proof. split; [done|]. intros a b c [? ?] [? ?]. split; [congruence|auto]. Qed.

Lemma load_ends m i : ends (load m i) (fun _ => 0 <= i < zlen m).
Proof. unfold load. zcases; [|done]. simpl in *. destruct (_ !! _); [|done]. simpl. lia. Qed.

Lemma store_ends m i v : ends (store m i v) (overwrites m).
Proof.
  unfold store. zcases; [|done]. split; [unfold zlen; by rewrite length_insert|].
  intros Hm. apply Forall_insert; auto with cdb.
Qed.

Lemma load_bytes_ends m i n : 
  ends (load_bytes m i n) (fun bs => zlen bs = n /\ (n = 0 \/ 0 <= i /\ i + n <= zlen m) /\ (bytes m -> bytes bs)).
Proof.
  unfold load_bytes. zcases; [subst; repeat split; auto; constructor | | done].
  apply andb_true_iff in Heqb as [Heqb H3]. apply andb_true_iff in Heqb as [H1 H2].
  apply Z.leb_le in H1, H2, H3. simpl. split; [|split; [by right|]].
  - rewrite zlen_take; [done|]. rewrite zlen_drop; lia.
  - intros Hm. by apply Forall_take, Forall_drop.
Qed.

Lemma store_bytes_ends m i bs :
  ends (store_bytes m i bs) (fun m' => zlen m' = zlen m /\ (bytes m -> bytes bs -> bytes m')).
Proof.
  unfold store_bytes. zcases; [done| | done]. apply andb_true_iff in Heqb as [H1 H2].
  apply Z.leb_le in H1, H2. simpl. pose proof (zlen_nonneg bs). split.
  - rewrite !zlen_app, zlen_take, zlen_drop by lia. lia.
  - intros Hm Hb. apply Forall_app. split; [by apply Forall_take|].
    apply Forall_app. split; [done|]. by apply Forall_drop.
Qed.

Lemma memcpy_ends d di s si n :
  ends (memcpy d di s si n) (fun d' => zlen d' = zlen d /\ (bytes d -> bytes s -> bytes d')).
Proof.
  unfold memcpy. eapply ends_bind; [apply load_bytes_ends|]. intros bs (_ & _ & Hb).
  eapply ends_mono; [apply store_bytes_ends|]. simpl. intros d' [? ?]. split; auto.
Qed.

Lemma memcpy_fits d di s si n d' : memcpy d di s si n = Ok d' -> n = 0 \/ n <= zlen s.
Proof.
  unfold memcpy. pose proof (load_bytes_ends s si n) as Hl.
  destruct (load_bytes s si n); [|done]. destruct Hl as (_ & [->|[? ?]] & _); intros _; [by left|right; lia].
Qed.

Lemma memmove_ends m di si n :
  ends (memmove m di si n) (overwrites m).
Proof.
  unfold memmove. eapply ends_bind; [apply load_bytes_ends|]. intros bs (_ & _ & Hb).
  eapply ends_mono; [apply store_bytes_ends|]. simpl. intros d' [? ?]. split; auto.
Qed.

Lemma strlen_ends m : ends (strlen m) (fun n => 0 <= n < zlen m).
Proof.
  induction m as [|b m IH]; [done|]. cbn [strlen]. rewrite zlen_cons. pose proof (zlen_nonneg m).
  destruct (b =? 0); [simpl; lia|].
  eapply ends_bind; [exact IH|]. intros n Hn. cbn [ends] in *. lia.
Qed.

(** ** Decoding arbitrary bytes *)

Lemma decode_ext_cases m n p :
  0 <= n ->
  match decode_ext m n p with
  | Ok (Some (x, q)) => 0 <= x < 65536 /\ p <= q <= p + 2
  | Ok None => True
  | Fault f => f = OutOfBounds
  end.
Proof.
  intros Hn. assert (Hu : forall z, 0 <= u16 z < 65536) by (intros; apply Z.mod_pos_bound; lia).
  unfold decode_ext. zcases; try lia; try done.
  - destruct (load_cases m p) as [[b ->]| ->]; simpl; [|done]. split; [apply Hu|lia].
  - destruct (load_cases m p) as [[b ->]| ->]; simpl; [|done].
    destruct (load_cases m (p + 1)) as [[b' ->]| ->]; simpl; [|done]. split; [apply Hu|lia].
Qed.

(** An option was decoded, or the out-parameters are untouched. *)
Lemma decode_option_ends m p pl on ol ov :
  bytes m ->
  ends (coap_decode_option m p pl on ol ov) (fun '(err, num, len, val) =>
    match err with
    | CE_NONE => 0 <= p < zlen m /\ exists d l q, 0 <= d < 65536 /\ 0 <= l < 65536 /\
        p < q <= p + 5 /\ num = out_add16 on d /\ len = out_set ol l /\ val = out_set ov q
    | _ => num = on /\ len = ol /\ val = ov
    end).
Proof.
  intros Hm. unfold coap_decode_option. destruct (Z.eqb_spec pl 0); [done|].
  destruct (decide (0 <= p < zlen m)) as [Hp|Hp]; [|by rewrite load_fault].
  pose proof (load_byte m p Hm Hp) as Hb. apply returns_inv in Hb as (b & -> & Hb). cbn [rbind].
  destruct (b =? 255); [done|].
  pose proof (decode_ext_cases m (Z.shiftr b 4) (p + 1)) as H1.
  destruct (decode_ext m (Z.shiftr b 4) (p + 1)) as [[[d q1]|]|]; cbn [rbind]; [|done|].
  2: { rewrite H1; [done|]. apply Z.shiftr_nonneg, Hb. }
  destruct H1 as [Hd Hq1]; [apply Z.shiftr_nonneg, Hb|].
  pose proof (decode_ext_cases m (Z.land b 15) q1) as H2.
  destruct (decode_ext m (Z.land b 15) q1) as [[[l q2]|]|]; cbn [rbind]; [|done|].
  2: { rewrite H2; [done|]. apply Z.land_nonneg. lia. }
  destruct H2 as [Hl Hq2]; [apply Z.land_nonneg; lia|].
  split; [done|]. exists d, l, q2. repeat split; lia || done.
Qed.

(** ** Getters *)

(** A packet whose buffer holds bytes; its length field may be anything. *)
Record pdu_ok (pdu : coap_pdu) : Prop := mk_pdu_ok {
  ok_bytes : bytes (pdu_buf pdu);
  ok_small : zlen (pdu_buf pdu) < 2 ^ 32
}.

Section Getters.
Context (pdu : coap_pdu) (HP : pdu_ok pdu).

Lemma load_pdu_ends i : ends (load (pdu_buf pdu) i) is_byte.
Proof.
  destruct (decide (0 <= i < zlen (pdu_buf pdu))) as [Hi|Hi].
  - apply returns_ends, load_byte; [apply HP|done].
  - by rewrite load_fault.
Qed.

Lemma get_tkl_ends : ends (coap_get_tkl pdu) (fun tkl => 0 <= tkl <= 15).
Proof.
  eapply ends_bind; [apply load_pdu_ends|]. intros b Hb. simpl. rewrite byte_land_0F by done.
  pose proof (Z.mod_pos_bound b 16). lia.
Qed.

Lemma get_type_ends : ends (coap_get_type pdu) (fun _ => True).
Proof. eapply ends_bind; [apply load_pdu_ends|done]. Qed.

Lemma get_version_ends : ends (coap_get_version pdu) (fun _ => True).
Proof. eapply ends_bind; [apply load_pdu_ends|done]. Qed.

Lemma get_code_ends : ends (coap_get_code pdu) is_byte.
Proof. apply load_pdu_ends. Qed.

Lemma get_code_class_ends : ends (coap_get_code_class pdu) (fun _ => True).
Proof. eapply ends_bind; [apply get_code_ends|done]. Qed.

Lemma get_mid_ends : ends (coap_get_mid pdu) (fun i => 0 <= i < 65536).
Proof.
  eapply ends_bind; [apply load_pdu_ends|]. intros h _.
  eapply ends_bind; [apply load_pdu_ends|]. intros l _. apply Z.mod_pos_bound. lia.
Qed.

Lemma get_token_ends : ends (coap_get_token pdu) (fun t => 0 <= t < 2 ^ 64).
Proof.
  eapply ends_bind; [apply load_pdu_ends|]. intros b _. cbv zeta beta. destruct (_ <? _); [done|].
  eapply ends_bind; [apply memcpy_ends|]. intros bs [Hl Hb]. simpl.
  assert (Hbs : bytes bs) by (apply Hb; [by repeat constructor|apply HP]).
  pose proof (le_value_range bs Hbs) as Hr. rewrite Hl in Hr. exact Hr.
Qed.

(** The loop of [coap_validate_pkt] never comes to a second iteration. *)
Lemma validate_ends :
  ends (coap_validate_pkt pdu) (fun '(_, pdu') => pdu' = set_opt_ptr pdu None).
Proof.
  unfold coap_validate_pkt. destruct (_ <? _); [done|]. destruct (_ <? _); [done|].
  eapply ends_bind; [apply get_version_ends|]. intros ver _. destruct (negb _); [done|].
  eapply ends_bind; [apply get_tkl_ends|]. intros tkl _. destruct (_ <? _); [done|].
  apply (ends_bind _ _ (fun _ => True)); [|done].
  apply (loop_ends _ (fun _ => True) (fun _ => 0)); [|done|done]. intros [ov ol] _. unfold validate_step.
  eapply ends_bind; [apply decode_option_ends, HP|]. intros [[[err n] l] v] _.
  destruct err; simpl; by zcases.
Qed.

Lemma get_payload_ends : ends (coap_get_payload pdu) (fun p => 0 <= pl_len p < 2 ^ 64).
Proof.
  eapply ends_bind; [apply get_tkl_ends|]. intros tkl Ht. simpl in Ht. pose proof (ok_small _ HP).
  eapply (ends_bind _ _ (fun _ => True)).
  - eapply (loop_ends _ (fun off => 0 <= off <= zlen (pdu_buf pdu) + 65540)
      (fun off => zlen (pdu_buf pdu) + 65540 - off)); [|zlen_pos; lia|zlen_pos; lia].
    intros off Ho. unfold payload_step.
    eapply ends_bind; [apply decode_option_ends, HP|]. intros [[[err n] l] v] Hd.
    destruct err; try done. destruct Hd as (Hp & d & x & q & _ & ? & ? & _ & -> & ->).
    cbn [out_set default from_option id ends]. rewrite size_t_id by lia. lia.
  - intros [err off] _. zcases; [|done]. simpl. apply Z.mod_pos_bound. lia.
Qed.
End Getters.

(** ** Setters *)

(** The packet still occupies the same buffer. *)
Record shape (pdu pdu' : coap_pdu) : Prop := mk_shape {
  shape_len : zlen (pdu_buf pdu') = zlen (pdu_buf pdu);
  shape_bytes : bytes (pdu_buf pdu) -> bytes (pdu_buf pdu');
  shape_max : pdu_max pdu' = pdu_max pdu
}.

#[export] Instance shape_preorder : PreOrder shape.
Proof. split; [by constructor|]. intros p q r [? ? ?] [? ? ?]. constructor; [congruence|auto|congruence]. Qed.

Lemma shape_ok pdu pdu' : pdu_ok pdu -> shape pdu pdu' -> pdu_ok pdu'.
Proof. intros [? ?] [? ? ?]. constructor; [auto|congruence]. Qed.

Lemma shape_set_len pdu l : shape pdu (set_len pdu l).
Proof. by constructor. Qed.
Lemma shape_set_opt_ptr pdu p : shape pdu (set_opt_ptr pdu p).
Proof. by constructor. Qed.
Lemma shape_set_buf pdu m :
  zlen m = zlen (pdu_buf pdu) -> (bytes (pdu_buf pdu) -> bytes m) -> shape pdu (set_buf pdu m).
Proof. by constructor. Qed.
#[export] Hint Resolve shape_set_len shape_set_opt_ptr shape_set_buf : cdb.

Definition keeps (pdu : coap_pdu) (r : coap_error * coap_pdu) : Prop := shape pdu (snd r).

Lemma keeps_len pdu m l b e : zlen m = zlen (pdu_buf pdu) -> (bytes (pdu_buf pdu) -> bytes m) ->
  keeps pdu (e, if b : bool then set_len (set_buf pdu m) l else set_buf pdu m).
Proof. intros. unfold keeps. simpl. destruct b; by constructor. Qed.

Lemma keeps_refl pdu e : keeps pdu (e, pdu).
Proof. unfold keeps. reflexivity. Qed.
#[export] Hint Resolve keeps_len keeps_refl : cdb.

Lemma set_version_ends pdu v : ends (coap_set_version pdu v) (keeps pdu).
Proof.
  unfold coap_set_version. destruct (_ <? _); [apply keeps_refl|].
  eapply ends_bind; [apply load_ends|]. intros b _.
  eapply ends_bind; [apply store_ends|]. intros m [? ?]. by apply keeps_len.
Qed.

Lemma set_type_ends pdu t : ends (coap_set_type pdu t) (keeps pdu).
Proof.
  unfold coap_set_type. destruct (_ <? _); [apply keeps_refl|].
  eapply ends_bind; [apply load_ends|]. intros b _.
  eapply ends_bind; [apply store_ends|]. intros m [? ?]. by apply keeps_len.
Qed.

Lemma set_code_ends pdu c : ends (coap_set_code pdu c) (keeps pdu).
Proof.
  unfold coap_set_code. destruct (_ <? _); [apply keeps_refl|].
  eapply ends_bind; [apply store_ends|]. intros m [? ?]. by apply keeps_len.
Qed.

Lemma set_mid_ends pdu i : ends (coap_set_mid pdu i) (keeps pdu).
Proof.
  unfold coap_set_mid. destruct (_ <? _); [apply keeps_refl|].
  eapply ends_bind; [apply store_ends|]. intros m [? ?].
  eapply ends_bind; [apply store_ends|]. intros m' [? ?]. apply keeps_len; [congruence|auto].
Qed.

Lemma get_tkl_ends' pdu : ends (coap_get_tkl pdu) (fun _ => True).
Proof. eapply ends_bind; [apply load_ends|done]. Qed.

Lemma set_token_ends pdu token tkl : ends (coap_set_token pdu token tkl) (keeps pdu).
Proof.
  unfold coap_set_token. destruct (_ <? _); [apply keeps_refl|]. destruct (_ <? _); [apply keeps_refl|].
  eapply (ends_bind _ _ (fun r => match r with Some m => zlen m = zlen (pdu_buf pdu) /\
    (bytes (pdu_buf pdu) -> bytes m) | None => True end)).
  { unfold set_token_room. destruct (_ <? _); [|done].
    eapply ends_bind; [apply get_tkl_ends'|]. intros cur _. destruct (_ <? _); [done|].
    eapply ends_bind; [apply memmove_ends|]. done. }
  intros [m|] Hm; [|apply keeps_refl]. destruct Hm as [Hl Hb].
  eapply ends_bind; [apply memcpy_ends|]. intros m' [Hl' Hb'].
  eapply ends_bind; [apply get_tkl_ends'|]. intros cur _.
  eapply ends_bind; [apply load_ends|]. intros b _.
  eapply ends_bind; [apply store_ends|]. intros m'' [Hl'' Hb''].
  cbn [set_len set_buf pdu_buf] in *. unfold keeps. constructor; cbn [snd set_len set_buf pdu_buf pdu_max];
    [congruence| |done]. intros. apply Hb'', Hb'; [auto|]. apply le_bytes_bytes.
Qed.

Lemma init_pdu_ends pdu : ends (coap_init_pdu pdu) (keeps pdu).
Proof.
  unfold coap_init_pdu. destruct (_ <? _); [apply keeps_refl|].
  eapply ends_bind; [apply store_bytes_ends|]. intros m [Hl Hb]. cbn [set_len pdu_buf] in *.
  assert (Hs : shape pdu (set_buf (set_len pdu 0) m)).
  { constructor; cbn [set_buf set_len pdu_buf pdu_max]; [done| |done].
    intros H. apply Hb; [done|]. simpl. auto using Forall_cons, Forall_nil, u8_byte. }
  eapply ends_bind; [apply set_version_ends|]. intros [e1 p1] H1.
  eapply ends_bind; [apply set_type_ends|]. intros [e2 p2] H2.
  eapply ends_bind; [apply set_token_ends|]. intros [e3 p3] H3.
  eapply ends_bind; [apply set_code_ends|]. intros [e4 p4] H4.
  eapply ends_bind; [apply set_mid_ends|]. intros [e5 p5] H5. unfold keeps in *. cbn [ends snd] in *.
  by rewrite Hs, H1, H2, H3, H4, H5, <- shape_set_opt_ptr.
Qed.

Lemma build_ext_ends m buf max_len ptr x :
  ends (build_ext m buf max_len ptr x) (fun r =>
    match r with Some (_, m', _) => overwrites m m' | None => True end).
Proof.
  unfold build_ext. destruct (_ <? _); [done|]. destruct (_ <? _); destruct (_ <? _); try done.
  - eapply ends_bind; [apply store_ends|]. done.
  - eapply ends_bind; [apply store_ends|]. intros m1 H1.
    eapply ends_bind; [apply store_ends|]. intros m2 H2. cbn [ends]. by transitivity m1.
Qed.

Lemma build_header_ends m buf max_len d l :
  ends (coap_build_option_header m buf max_len d l) (fun r => overwrites m (snd r)).
Proof.
  unfold coap_build_option_header. destruct (_ <? _); [done|].
  eapply ends_bind; [apply build_ext_ends|]. intros [[[b1 m1] p1]|] H1; [|done].
  eapply ends_bind; [apply build_ext_ends|]. intros [[[b2 m2] p2]|] H2; [|done].
  eapply ends_bind; [apply store_ends|]. intros m3 H3. simpl. by rewrite H1, H2, H3.
Qed.

(** The adjustment moves forward through the options whatever it rewrites. *)
Lemma adjust_ends m start opts_len max_len offset :
  bytes m -> zlen m < 2 ^ 32 -> 0 <= start <= zlen m + 200000 ->
  ends (coap_adjust_option_deltas m start opts_len max_len offset)
    (fun '(_, m', _) => overwrites m m').
Proof.
  intros Hm Hs Hst. pose proof (zlen_nonneg m).
  apply (loop_ends _ (fun st => overwrites m (adj_mem st) /\
    0 <= adj_fopt_val st + adj_fopt_len st <= zlen m + 200000)
    (fun st => zlen m + 200000 - (adj_fopt_val st + adj_fopt_len st))); [|split; simpl; [done|lia]|simpl; lia].
  intros [m1 ol fv fl fn] [Ho Hp]. cbn [adj_mem adj_fopt_val adj_fopt_len] in *.
  unfold adjust_step. cbn [adj_mem adj_opts_len adj_fopt_val adj_fopt_len adj_fopt_num].
  destruct (_ <? _); [done|]. eapply ends_bind; [apply decode_option_ends, Ho, Hm|].
  intros [[[err n] l] v] Hd. destruct err; try done.
  destruct Hd as (Hlt & d & x & q & _ & Hx & Hq & -> & -> & ->). rewrite (proj1 Ho) in Hlt.
  cbn [out_set out_add16 default from_option id]. destruct (negb _); [destruct (_ <? _); [done|]|].
  - eapply ends_bind; [apply memmove_ends|]. intros m2 H2.
    eapply ends_bind; [apply build_header_ends|]. intros [h m3] H3. cbn [ends snd adj_mem adj_fopt_val adj_fopt_len] in *.
    split; [|lia]. split; [by rewrite Ho, H2, H3|lia].
  - eapply ends_bind; [apply build_header_ends|]. intros [h m3] H3. cbn [ends snd adj_mem adj_fopt_val adj_fopt_len] in *.
    split; [|lia]. split; [by rewrite Ho, H3|lia].
Qed.

Section Options.
Context (pdu : coap_pdu) (HP : pdu_ok pdu).

Lemma find_ends num tkl : 0 <= tkl <= 15 ->
  ends (loop (find_step pdu num) (4 + tkl, 0, 0)) (fun '(_, p, _) =>
    0 <= p <= zlen (pdu_buf pdu) + 65540).
Proof.
  intros Ht. pose proof (ok_small _ HP). pose proof (zlen_nonneg (pdu_buf pdu)).
  apply (loop_ends _ (fun '(fv, fl, _) => 0 <= fv + fl <= zlen (pdu_buf pdu) + 65540)
    (fun '(fv, fl, _) => zlen (pdu_buf pdu) + 65540 - (fv + fl))); [|lia|lia].
  intros [[fv fl] fn] Hp. unfold find_step.
  eapply ends_bind; [apply decode_option_ends, HP|]. intros [[[err n] l] v] Hd.
  destruct (_ && _) eqn:Ec; [|cbn [ends]; lia].
  apply andb_true_iff in Ec as [Ec _]. apply andb_true_iff in Ec as [Ec _].
  apply bool_decide_eq_true in Ec as ->.
  destruct Hd as (Hlt & d & x & q & _ & Hx & Hq & -> & -> & ->).
  cbn [out_set default from_option id ends]. lia.
Qed.

Lemma find_end_ends tkl : 0 <= tkl <= 15 ->
  ends (loop (find_end_step pdu) (4 + tkl, 0)) (fun _ => True).
Proof.
  intros Ht. pose proof (ok_small _ HP). pose proof (zlen_nonneg (pdu_buf pdu)).
  apply (loop_ends _ (fun '(fv, fl) => 0 <= fv + fl <= zlen (pdu_buf pdu) + 65540)
    (fun '(fv, fl) => zlen (pdu_buf pdu) + 65540 - (fv + fl))); [|lia|lia].
  intros [fv fl] Hp. unfold find_end_step.
  eapply ends_bind; [apply decode_option_ends, HP|]. intros [[[err n] l] v] Hd.
  destruct (_ && _) eqn:Ec; [|done].
  apply andb_true_iff in Ec as [Ec _]. apply bool_decide_eq_true in Ec as ->.
  destruct Hd as (Hlt & d & x & q & _ & Hx & Hq & _ & -> & ->).
  cbn [out_set default from_option id ends]. lia.
Qed.

Lemma make_room_ends p hdr n ln num :
  0 <= p <= zlen (pdu_buf pdu) + 65540 -> 0 <= hdr < 256 -> 0 <= n < 65536 ->
  ends (make_room pdu p hdr n ln num) (shape pdu).
Proof.
  intros Hp Hh Hn. unfold make_room. destruct (negb _); [|by constructor].
  eapply ends_bind; [apply memmove_ends|]. intros m Hm.
  cbn [set_len set_buf pdu_buf pdu_len pdu_max].
  eapply ends_bind; [apply adjust_ends|].
  - apply Hm, HP.
  - rewrite (proj1 Hm). apply HP.
  - rewrite (proj1 Hm). lia.
  - intros [[e m'] ol] Hm'. cbn [ends]. assert (Ho : overwrites (pdu_buf pdu) m') by (by rewrite Hm, Hm').
    by constructor; cbn [set_len set_buf pdu_buf pdu_max]; try apply Ho.
Qed.

Lemma add_option_ends num v n : 0 <= n < 65536 -> bytes v ->
  ends (coap_add_option pdu num v n) (keeps pdu).
Proof.
  intros Hn Hv. unfold coap_add_option. eapply ends_bind; [apply get_tkl_ends, HP|]. intros tkl Ht.
  eapply ends_bind; [apply find_ends, Ht|]. intros [[err p] ln] Hp.
  destruct (negb _); [apply keeps_refl|]. destruct (_ <? _); [apply keeps_refl|].
  eapply ends_bind; [apply make_room_ends; [exact Hp|apply u8_byte|done]|]. intros pdu1 H1.
  eapply ends_bind; [apply build_header_ends|]. intros [h m2] H2. simpl in H2.
  eapply ends_bind; [apply memcpy_ends|]. intros m3 [H3 H3']. unfold keeps. simpl. rewrite H1.
  destruct H2 as [H2 H2']. apply shape_set_buf; [congruence|auto].
Qed.

Lemma set_payload_ends pl n : bytes pl -> ends (coap_set_payload pdu pl n) (keeps pdu).
Proof.
  intros Hpl. unfold coap_set_payload. eapply ends_bind; [apply get_tkl_ends, HP|]. intros tkl Ht.
  eapply ends_bind; [apply find_end_ends, Ht|]. intros [err p] _.
  assert (Hf : forall m q, overwrites (pdu_buf pdu) m ->
    ends (let* m := memcpy m q pl 0 n in
          Ok (CE_NONE, set_buf (set_len (set_buf pdu m) (q + n)) m)) (keeps pdu)).
  { intros m q [Hm Hm']. eapply ends_bind; [apply memcpy_ends|]. intros m' [H1 H1'].
    unfold keeps. constructor; cbn [snd set_len set_buf pdu_buf pdu_max]; [congruence|auto|done]. }
  destruct err; cbn [set_len set_buf pdu_buf]; try apply keeps_refl.
  - apply Hf. reflexivity.
  - destruct (_ <? _); [apply keeps_refl|]. apply Hf. reflexivity.
  - destruct (_ <? _); [apply keeps_refl|]. eapply ends_bind; [apply store_ends|]. intros m Hm. by apply Hf.
Qed.
End Options.

(** ** Lookup by number

    When the length of an option points behind the packet, [coap_get_option]
    starts again at the first option but keeps counting the option number, so
    the scan of [coap_get_option_by_num] may pass over the packet several times.
    It ends because every pass raises the number it started with. *)

Section ByNum.
Context (pdu : coap_pdu) (HP : pdu_ok pdu) (tkl : Z) (Htkl : coap_get_tkl pdu = Ok tkl).

(** The option that starts at [p]: its delta, its length and where its value is. *)
Definition option_at (p : Z) : option (Z * Z * Z) :=
  match coap_decode_option (pdu_buf pdu) p (size_t (pdu_len pdu - p)) (Some 0) (Some 0) (Some 0) with
  | Ok (CE_NONE, Some d, Some l, Some q) => Some (d, l, q)
  | _ => None
  end.

(** What a first pass finds behind [k] options: the position and the number. *)
Fixpoint visited (k : nat) : option (Z * Z) :=
  match k with
  | O => Some (4 + tkl, 0)
  | S k' =>
      match visited k' with
      | Some (p, n) =>
          match option_at p with
          | Some (d, l, q) => Some (q + l, u16 (n + d))
          | None => None
          end
      | None => None
      end
  end.

Lemma decode_base p n ol ov :
  ends (coap_decode_option (pdu_buf pdu) p (size_t (pdu_len pdu - p)) (Some n) (Some ol) (Some ov))
    (fun '(err, num, len, val) => err = CE_NONE -> exists d l q,
       option_at p = Some (d, l, q) /\ 0 <= p < zlen (pdu_buf pdu) /\ 0 <= d /\ 0 <= l < 65536 /\
       p < q <= p + 5 /\ num = Some (u16 (n + d)) /\ len = Some l /\ val = Some q).
Proof.
  pose proof (decode_option_ends (pdu_buf pdu) p (size_t (pdu_len pdu - p)) (Some 0) (Some 0) (Some 0)
    (ok_bytes _ HP)) as H1. unfold option_at, coap_decode_option in *.
  destruct (_ =? 0); [done|]. destruct (load _ p) as [b|f]; [|done]. cbn [rbind] in *.
  destruct (_ =? 255); [done|].
  destruct (decode_ext _ _ _) as [[[d q1]|]|f]; cbn [rbind] in *; [|done|done].
  destruct (decode_ext _ _ _) as [[[l q2]|]|f]; cbn [rbind ends out_add16 out_set] in *; [|done|done].
  destruct H1 as (Hp & d' & l' & q' & Hd & Hl & Hq & [= Hd'] & [= ->] & [= ->]). intros _.
  exists (u16 d), l', q'. split; [done|]. split; [done|]. split; [apply Z.mod_pos_bound; lia|].
  split; [done|]. split; [done|]. split; [|done].
  f_equal. unfold u16. rewrite Z.add_mod_idemp_r by lia. done.
Qed.

(** Where [coap_get_option] continues after [l] and the number it counts from. *)
Definition continues (l : coap_option) (p n : Z) : Prop :=
  let e := ptr_off pdu (opt_val l) + opt_len l in
  if opt_num l =? 0 then p = 4 + tkl /\ n = 0
  else n = opt_num l /\ p = if (pdu_len pdu <? e) || (e <=? 0) then 4 + tkl else e.

Lemma get_option_ends l :
  ends (coap_get_option pdu (Some l)) (fun o => opt_num o = 0 \/
    exists p n d x q, continues l p n /\ option_at p = Some (d, x, q) /\ 0 <= p < zlen (pdu_buf pdu) /\
      0 <= d /\ 0 <= x < 65536 /\ p < q <= p + 5 /\ o = mk_option (u16 (n + d)) x (Some q)).
Proof.
  unfold coap_get_option, continues. rewrite Htkl. cbn [rbind].
  set (e := ptr_off pdu (opt_val l) + opt_len l).
  assert (Hd : forall p n, continues l p n -> ends
    (let* '(err, num1, len1, val1) := coap_decode_option (pdu_buf pdu) p (size_t (pdu_len pdu - p))
       (Some n) (Some 0) (Some (ptr_off pdu None)) in
     if decide (err <> CE_NONE) then
       if decide (err = CE_FOUND_PAYLOAD_MARKER) then
         if n =? 0 then Ok (mk_option 0 (size_t (pdu_len pdu - p - 1)) (Some (p + 1)))
         else Ok (mk_option 0 (size_t (pdu_len pdu - ptr_off pdu (ptr_add pdu None 0))) (ptr_add pdu None 0))
       else Ok (mk_option 0 0 None)
     else Ok (mk_option (default 0 num1) (default 0 len1) val1))
    (fun o => opt_num o = 0 \/ exists p n d x q, continues l p n /\ option_at p = Some (d, x, q) /\
       0 <= p < zlen (pdu_buf pdu) /\ 0 <= d /\ 0 <= x < 65536 /\ p < q <= p + 5 /\
       o = mk_option (u16 (n + d)) x (Some q))).
  { intros p n Hc. eapply ends_bind; [apply decode_base|]. intros [[[err n1] l1] v1] H1.
    destruct (decide (err <> CE_NONE)) as [Hn|Hn].
    - destruct (decide _); [destruct (_ =? _)|]; by left.
    - right. destruct H1 as (d & x & q & ? & ? & ? & ? & ? & -> & -> & ->); [by apply dec_stable|].
      exists p, n, d, x, q. repeat (split; [done|]). done. }
  unfold continues in Hd. fold e in Hd. destruct (Z.eqb_spec (opt_num l) 0) as [E0|N0]; cbn [negb rbind].
  - destruct (_ || _); cbn [rbind opt_num opt_len opt_val]; by apply Hd.
  - destruct ((pdu_len pdu <? e) || (e <=? 0)) eqn:Eb;
      cbn [rbind opt_num opt_len opt_val]; apply Hd; by rewrite ?Eb.
Qed.

(** The numbers a first pass meets behind its first [k] options are acceptable. *)
Definition low (num : Z) (k : nat) : Prop :=
  forall j p n, (1 <= j <= k)%nat -> visited j = Some (p, n) -> 1 <= n <= num.

(** The state of the scan: it is behind the option [k] of a pass that started
    with the number [base]; in a later pass [K] options led out of the packet. *)
Definition scan (num base : Z) (p : Z) (o : coap_option) : Prop :=
  exists (k : nat) n, (1 <= k)%nat /\ visited k = Some (p, n) /\
    ptr_off pdu (opt_val o) + opt_len o = p /\ opt_num o = base + n /\ 1 <= base + n <= num /\
    (base = 0 /\ low num k \/
     1 <= base /\ exists K pe ne, (k <= K)%nat /\ low num K /\ visited K = Some (pe, ne) /\ pdu_len pdu < pe).

(** [p] is bounded, so a pass has a bounded number of steps. *)
Definition scan_bound (num base p : Z) : Z :=
  (num + 1 - base) * (zlen (pdu_buf pdu) + 70000) + (zlen (pdu_buf pdu) + 70000 - p).

Definition by_num_scan (num left : Z) (st : coap_option * Z) : Prop :=
  (opt_num (fst st) = 0 /\ left = scan_bound num 0 0) \/
  exists base p, 0 <= base /\ 0 < p <= zlen (pdu_buf pdu) + 65540 /\ scan num base p (fst st) /\
    left = scan_bound num base p.

Lemma low_S num k p n d x q : visited k = Some (p, n) -> option_at p = Some (d, x, q) ->
  low num k -> 1 <= u16 (n + d) <= num -> low num (S k).
Proof.
  intros Hv Ha Hl Hn j p' n' Hj Hj'. destruct (decide (j = S k)) as [->|].
  - simpl in Hj'. rewrite Hv, Ha in Hj'. by injection Hj' as _ <-.
  - apply (Hl j p' n'); [lia|done].
Qed.

(** One option further in the pass that started with [base]. *)
Lemma scan_next num base p n k d x q nb :
  nb = base + n -> num < 32768 -> 0 <= base <= num -> visited k = Some (p, n) -> (k = 0%nat -> n = 0) ->
  option_at p = Some (d, x, q) ->
  (base = 0 /\ low num k \/
   1 <= base /\ exists K pe ne, (S k <= K)%nat /\ low num K /\ visited K = Some (pe, ne) /\ pdu_len pdu < pe) ->
  let o := mk_option (u16 (nb + d)) x (Some q) in
  opt_num o <> 0 -> opt_num o <= num -> scan num base (q + x) o.
Proof.
  intros -> Hnum Hb Hv Hk0 Ha Hcase o Ho Hle. cbn [o opt_num] in Ho, Hle.
  assert (Hu : forall z, 0 <= u16 z < 65536) by (intros; apply Z.mod_pos_bound; lia).
  assert (HvS : visited (S k) = Some (q + x, u16 (n + d))) by (simpl; by rewrite Hv, Ha).
  exists (S k), (u16 (n + d)). split; [lia|]. split; [done|]. split; [done|]. cbn [opt_num o].
  destruct Hcase as [[-> Hl]|[Hb1 (K & pe & ne & HK & Hl & HvK & Hpe)]].
  - rewrite Z.add_0_l in *. pose proof (Hu (n + d)). split; [done|]. split; [lia|]. left.
    split; [done|]. eapply low_S; eauto. lia.
  - assert (Hn : 1 <= u16 (n + d) <= num) by (apply (Hl (S k) (q + x)); [lia|done]).
    assert (E : u16 (base + n + d) = base + u16 (n + d)).
    { rewrite <- Z.add_assoc. unfold u16 in *. rewrite <- Z.add_mod_idemp_r by lia.
      apply Z.mod_small. lia. }
    rewrite E in *. split; [done|]. split; [lia|]. right. split; [done|]. exists K, pe, ne. auto.
Qed.

Lemma by_num_advances num left st p n d x q :
  0 < num < 32768 -> by_num_scan num left st -> continues (fst st) p n ->
  option_at p = Some (d, x, q) -> 0 <= p < zlen (pdu_buf pdu) -> 0 <= x < 65536 -> p < q <= p + 5 ->
  let o := mk_option (u16 (n + d)) x (Some q) in
  opt_num o <> 0 -> opt_num o <= num -> forall i, exists left', 0 <= left' < left /\ by_num_scan num left' (o, i).
Proof.
  intros Hnum Hst Hc Ha Hp Hx Hq o Ho Hle i. unfold continues in Hc.
  pose proof (zlen_nonneg (pdu_buf pdu)) as HL. unfold by_num_scan.
  destruct Hst as [[E0 ->]|(base & p0 & Hb & Hp0 & (k & n0 & Hk & Hv & He & Hn & Hr & Hcase) & ->)].
  - rewrite E0 in Hc. cbn [Z.eqb] in Hc. destruct Hc as [-> ->].
    exists (scan_bound num 0 (q + x)). split; [unfold scan_bound; nia|]. right. exists 0, (q + x).
    split; [lia|]. split; [lia|]. split; [|done].
    apply (scan_next num 0 (4 + tkl) 0 0 d x q _); try done; try lia.
    left. split; [done|]. intros j; lia.
  - rewrite (proj2 (Z.eqb_neq (opt_num (fst st)) 0)), He in Hc by lia. destruct Hc as [-> ->].
    assert (Hn0 : 1 <= n0 <= num).
    { destruct Hcase as [[_ Hl]|[_ (K & pe & ne & HK & Hl & _)]]; apply (Hl k p0); (lia || done). }
    destruct ((pdu_len pdu <? p0) || (p0 <=? 0)) eqn:Eb.
    + (* another pass *)
      exists (scan_bound num (base + n0) (q + x)). split; [unfold scan_bound; nia|]. right.
      exists (base + n0), (q + x). split; [lia|]. split; [lia|]. split; [|done]. rewrite <- Hn.
      apply (scan_next num (opt_num (fst st)) (4 + tkl) 0 0 d x q _); try done; try lia.
      right. split; [lia|]. destruct Hcase as [[-> Hl]|[_ (K & pe & ne & HK & Hl & HvK & Hpe)]].
      * exists k, p0, n0. split; [lia|]. split; [done|]. split; [done|].
        apply orb_true_iff in Eb as [Eb|Eb]; [by apply Z.ltb_lt in Eb|apply Z.leb_le in Eb; lia].
      * exists K, pe, ne. split; [lia|done].
    + (* the next option of this pass *)
      apply orb_false_iff in Eb as [Eb _]. apply Z.ltb_ge in Eb.
      exists (scan_bound num base (q + x)). split; [unfold scan_bound; nia|]. right.
      exists base, (q + x). split; [lia|]. split; [lia|]. split; [|done].
      apply (scan_next num base p0 n0 k d x q _); try done; try lia.
      destruct Hcase as [[-> Hl]|[Hb1 (K & pe & ne & HK & Hl & HvK & Hpe)]]; [by left|right].
      split; [done|]. exists K, pe, ne. split; [|done].
      destruct (decide (k = K)) as [->|]; [|lia]. rewrite Hv in HvK. injection HvK as -> ->. lia.
Qed.

Lemma by_num_loop_ends num occ : 0 < num < 32768 ->
  ends (loop (by_num_step pdu num occ) (mk_option 0 0 None, 0)) (fun _ => True).
Proof.
  intros Hnum. pose proof (zlen_nonneg (pdu_buf pdu)) as HL. pose proof (ok_small _ HP).
  apply (loop_ends_bounded _ (by_num_scan num) _ (scan_bound num 0 0)); [|by left|unfold scan_bound; nia].
  intros left [o0 i] Hst. unfold by_num_step.
  eapply ends_bind; [apply get_option_ends|]. intros o [Ho|(p & n & d & x & q & Hc & Ha & Hp & Hd & Hx & Hq & ->)].
  - rewrite Ho. rewrite (proj2 (Z.eqb_neq 0 num)), (proj2 (Z.ltb_ge num 0)) by lia. done.
  - pose proof (by_num_advances num left (o0, i) p n d x q Hnum Hst Hc Ha Hp Hx Hq) as Hadv.
    cbn zeta in Hadv. set (o := mk_option (u16 (n + d)) x (Some q)) in *.
    destruct (Z.eqb_spec (opt_num o) num) as [E|N].
    + destruct (_ <=? _); [|done]. apply Hadv; lia.
    + destruct (Z.ltb_spec num (opt_num o)); [done|]. destruct (Z.eqb_spec (opt_num o) 0); [done|].
      destruct (_ <=? _); [|done]. apply Hadv; [done|lia].
Qed.
End ByNum.

Lemma get_option_by_num_ends pdu num occ : pdu_ok pdu -> 0 < num < 32768 ->
  ends (coap_get_option_by_num pdu num occ) (fun _ => True).
Proof.
  intros HP Hnum. pose proof (get_tkl_ends pdu HP) as Ht.
  destruct (coap_get_tkl pdu) as [tkl|f] eqn:Etkl; [by apply (by_num_loop_ends pdu HP tkl)|].
  unfold coap_get_option_by_num. rewrite loop_first; unfold by_num_step, coap_get_option;
    cbn [opt_num Z.eqb negb]; rewrite Etkl; done.
Qed.
