(* ===== verification/CoapMessage.v ===== *)
(** * CoAP messages and their encoding

    The abstract view of a packet: a message with its fields, its options in
    order and its payload, and [encode], the bytes the protocol gives it.
    [represents] ties a packet buffer to the message it holds; the theorems
    about the setters and getters are stated against it. *)

From S2P Require Import Prelude Mem CoapDefs CoapGet CoapSet.

Record message := mk_msg {
  m_ver : Z;
  m_type : Z;
  m_code : Z;
  m_mid : Z;
  m_token : list Z;
  m_options : list (Z * list Z);
  m_payload : option (list Z)
}.

(** ** The encoding *)

Definition nibble (x : Z) : Z := if x <? 13 then x else if x <? 269 then 13 else 14.

Definition ext (x : Z) : list Z :=
  if x <? 13 then []
  else if x <? 269 then [x - 13]
  else [(x - 269) / 256; (x - 269) mod 256].

Definition opt_header (delta len : Z) : list Z :=
  nibble delta * 16 + nibble len :: ext delta ++ ext len.

Fixpoint encode_options (prev : Z) (opts : list (Z * list Z)) : list Z :=
  match opts with
  | [] => []
  | (n, v) :: rest => opt_header (n - prev) (zlen v) ++ v ++ encode_options n rest
  end.

Definition encode_payload (p : option (list Z)) : list Z :=
  match p with
  | None => []
  | Some v => 0xFF :: v
  end.

Definition first_byte (ver type tkl : Z) : Z := ver * 64 + type * 16 + tkl.

Definition encode_head (m : message) : list Z :=
  first_byte (m_ver m) (m_type m) (zlen (m_token m)) ::
  m_code m :: m_mid m / 256 :: m_mid m mod 256 :: m_token m.

Definition encode (m : message) : list Z :=
  encode_head m ++ encode_options 0 (m_options m) ++ encode_payload (m_payload m).

(** ** Well-formed messages *)

Fixpoint options_ok (prev : Z) (opts : list (Z * list Z)) : Prop :=
  match opts with
  | [] => True
  | (n, v) :: rest => prev <= n < 65536 /\ zlen v < 65536 /\ bytes v /\ options_ok n rest
  end.

Record wf_msg (m : message) : Prop := mk_wf {
  wf_ver : 0 <= m_ver m < 4;
  wf_type : 0 <= m_type m < 4;
  wf_code : is_byte (m_code m);
  wf_mid : 0 <= m_mid m < 65536;
  wf_token : bytes (m_token m);
  wf_tkl : zlen (m_token m) <= 8;
  wf_options : options_ok 0 (m_options m);
  wf_payload : bytes (default [] (m_payload m))
}.

(** ** Packets that hold a message *)

Record represents (pdu : coap_pdu) (m : message) : Prop := mk_rep {
  rep_wf : wf_msg m;
  rep_buf : exists tail, pdu_buf pdu = encode m ++ tail;
  rep_len : pdu_len pdu = zlen (encode m);
  rep_max : pdu_max pdu = zlen (pdu_buf pdu);
  rep_small : pdu_max pdu < 2 ^ 62
}.

(** The number of the last option, the base of the next delta. *)
Fixpoint last_num (prev : Z) (opts : list (Z * list Z)) : Z :=
  match opts with
  | [] => prev
  | (n, _) :: rest => last_num n rest
  end.

(** The offset in the packet at which the encoding of the options behind [opts]
    starts. *)
Definition opts_pos (m : message) (opts : list (Z * list Z)) : Z :=
  zlen (encode_head m) + zlen (encode_options 0 opts).

(** The four bytes in front of the token. *)
Definition fixed_head (m : message) : list Z :=
  [first_byte (m_ver m) (m_type m) (zlen (m_token m)); m_code m; m_mid m / 256; m_mid m mod 256].

Lemma encode_head_app m : encode_head m = fixed_head m ++ m_token m.
Proof. done. Qed.

(** ** Options *)

Lemma encode_options_app prev o1 o2 :
  encode_options prev (o1 ++ o2) = encode_options prev o1 ++ encode_options (last_num prev o1) o2.
Proof.
  revert prev. induction o1 as [|[n v] o1 IH]; intros prev; [done|].
  simpl. rewrite IH. by rewrite <- !app_assoc.
Qed.

Lemma last_num_app prev o1 o2 : last_num prev (o1 ++ o2) = last_num (last_num prev o1) o2.
Proof. revert prev. induction o1 as [|[n v] o1 IH]; intros prev; simpl; eauto. Qed.

Lemma options_ok_app prev o1 o2 :
  options_ok prev (o1 ++ o2) <-> options_ok prev o1 /\ options_ok (last_num prev o1) o2.
Proof.
  revert prev. induction o1 as [|[n v] o1 IH]; intros prev; simpl; [tauto|].
  rewrite IH. tauto.
Qed.

Lemma options_ok_last prev opts : 0 <= prev < 65536 -> options_ok prev opts ->
  prev <= last_num prev opts < 65536.
Proof.
  revert prev. induction opts as [|[n v] opts IH]; intros prev Hp; simpl; [lia|].
  intros (? & _ & _ & Hr). specialize (IH n ltac:(lia) Hr). lia.
Qed.

Lemma ext_bytes x : 0 <= x < 65536 -> bytes (ext x).
Proof.
  intros Hx. unfold ext, is_byte. zcases; repeat constructor; try lia.
  - apply Z.div_pos; lia.
  - apply Z.div_lt_upper_bound; lia.
  - apply Z.mod_pos_bound; lia.
  - apply Z.mod_pos_bound; lia.
Qed.

Lemma nibble_range x : 0 <= x -> 0 <= nibble x <= 14.
Proof. intros Hx. unfold nibble. zcases. Qed.

Lemma zlen_ext x : zlen (ext x) = if x <? 13 then 0 else if x <? 269 then 1 else 2.
Proof. unfold ext. zcases; reflexivity. Qed.

Lemma zlen_opt_header d l :
  zlen (opt_header d l) = coap_compute_option_header_len d l.
Proof.
  unfold opt_header, coap_compute_option_header_len.
  rewrite zlen_cons, zlen_app, !zlen_ext. zcases.
Qed.

Lemma header_len_range d l : 1 <= coap_compute_option_header_len d l <= 5.
Proof. unfold coap_compute_option_header_len. zcases. Qed.

Lemma zlen_options prev opts : zlen opts <= zlen (encode_options prev opts).
Proof.
  revert prev. induction opts as [|[n v] opts IH]; intros prev; [done|].
  cbn [encode_options]. rewrite zlen_cons, !zlen_app, zlen_opt_header.
  pose proof (header_len_range (n - prev) (zlen v)). specialize (IH n). zlen_pos. lia.
Qed.

(** ** Decoding what was encoded *)

Lemma decode_ext_at pre x post p :
  0 <= x < 65536 -> p = zlen pre ->
  decode_ext (pre ++ ext x ++ post) (nibble x) p = Ok (Some (x, p + zlen (ext x))).
Proof.
  intros Hx ->. rewrite zlen_ext. unfold decode_ext, nibble, ext. zcases.
  - by rewrite Z.add_0_r.
  - simpl app. rewrite load_at by done. simpl. rewrite u16_id by lia.
    repeat f_equal; lia.
  - simpl app. rewrite load_at by done. cbn [rbind].
    rewrite (cons_middle _ pre _), app_assoc, load_at by len_lia.
    cbn [rbind]. rewrite Z.shiftl_mul_pow2 by lia.
    pose proof (Z.div_mod (x - 269) 256). rewrite u16_id by lia. repeat f_equal; lia.
Qed.

Lemma header_first_byte d l :
  0 <= d -> 0 <= l ->
  let b := nibble d * 16 + nibble l in
  is_byte b /\ b <> 0xFF /\ Z.shiftr b 4 = nibble d /\ Z.land b 0x0F = nibble l.
Proof.
  intros Hd Hl b. pose proof (nibble_range d Hd). pose proof (nibble_range l Hl).
  assert (is_byte b) by (unfold is_byte, b; lia). split; [done|]. split; [unfold b; lia|].
  rewrite byte_shiftr4, byte_land_0F by done. subst b.
  split; Z.div_mod_to_equations; lia.
Qed.

(** The round trip of one option header. *)
Lemma decode_header_at pre d l post p pl on ol ov :
  0 <= d < 65536 -> 0 <= l < 65536 -> pl <> 0 -> p = zlen pre ->
  coap_decode_option (pre ++ opt_header d l ++ post) p pl on ol ov =
  Ok (CE_NONE, out_add16 on d, out_set ol l, out_set ov (p + zlen (opt_header d l))).
Proof.
  intros Hd Hl Hpl ->. unfold coap_decode_option, opt_header.
  rewrite (proj2 (Z.eqb_neq pl 0)) by done.
  destruct (header_first_byte d l) as (_ & Hff & Hsh & Hld); [lia..|].
  simpl app. rewrite load_at by done. cbn [rbind].
  rewrite (proj2 (Z.eqb_neq _ 0xFF)) by done. rewrite Hsh, Hld.
  rewrite (cons_middle _ pre _), app_assoc, <- (app_assoc (ext d)).
  rewrite decode_ext_at by (done || len_lia). cbn [rbind].
  rewrite app_assoc, decode_ext_at by (done || len_lia). cbn [rbind].
  do 3 f_equal. rewrite zlen_cons, zlen_app. lia.
Qed.

(** ** A packet that holds a message, scanned option by option *)

Section Scan.
Context (pdu : coap_pdu) (m : message) (HR : represents pdu m).

Lemma zlen_head : zlen (encode_head m) = 4 + zlen (m_token m).
Proof. unfold encode_head. len_lia. Qed.

Lemma opts_pos_nil : opts_pos m [] = 4 + zlen (m_token m).
Proof. unfold opts_pos, encode_head. cbn [encode_options]. len_lia. Qed.

Lemma encode_fits : zlen (encode m) <= pdu_max pdu /\ pdu_max pdu < 2 ^ 62.
Proof.
  destruct HR as [_ [tail Hb] _ Hm Hs]. split; [|done].
  rewrite Hm, Hb. len_lia.
Qed.

Lemma first_byte_fields b :
  b = first_byte (m_ver m) (m_type m) (zlen (m_token m)) ->
  is_byte b /\ b / 64 = m_ver m /\ b / 16 mod 4 = m_type m /\ b mod 16 = zlen (m_token m).
Proof.
  destruct (rep_wf _ _ HR) as [? ? _ _ _ ? _ _]. pose proof (zlen_nonneg (m_token m)).
  intros ->. unfold first_byte, is_byte. repeat split; try lia; Z.div_mod_to_equations; lia.
Qed.

Lemma load_first : exists b, load (pdu_buf pdu) 0 = Ok b /\
  b = first_byte (m_ver m) (m_type m) (zlen (m_token m)).
Proof.
  destruct (rep_buf _ _ HR) as [tail ->]. eexists. split; [|done].
  apply (load_at []). done.
Qed.

Lemma get_tkl_scan : coap_get_tkl pdu = Ok (zlen (m_token m)).
Proof.
  unfold coap_get_tkl. destruct load_first as (b & -> & Hb). simpl.
  destruct (first_byte_fields b Hb) as (? & _ & _ & E). by rewrite byte_land_0F, E.
Qed.

(** Where the encoding is cut by a split of the options. *)
Lemma encode_split o1 o2 : m_options m = o1 ++ o2 ->
  encode m = (encode_head m ++ encode_options 0 o1) ++
             encode_options (last_num 0 o1) o2 ++ encode_payload (m_payload m).
Proof. intros E. unfold encode. rewrite E, encode_options_app. by rewrite <- !app_assoc. Qed.

Lemma opts_pos_split o1 o2 : m_options m = o1 ++ o2 ->
  opts_pos m o1 + zlen (encode_options (last_num 0 o1) o2)
    + zlen (encode_payload (m_payload m)) = zlen (encode m).
Proof.
  intros E. rewrite (encode_split o1 o2 E). unfold opts_pos. len_lia.
Qed.

Lemma options_split_ok o1 k v rest : m_options m = o1 ++ (k, v) :: rest ->
  0 <= last_num 0 o1 <= k /\ k < 65536 /\ zlen v < 65536 /\ bytes v.
Proof.
  intros E. pose proof (wf_options _ (rep_wf _ _ HR)) as Hok. rewrite E in Hok.
  apply options_ok_app in Hok as [H1 (H2 & H3 & H4 & _)].
  pose proof (options_ok_last 0 o1 ltac:(lia) H1). lia || (repeat split; try done; lia).
Qed.

(** What [coap_decode_option] finds behind the options [o1]. *)
Lemma decode_scan o1 o2 p on ol ov :
  m_options m = o1 ++ o2 -> p = opts_pos m o1 ->
  coap_decode_option (pdu_buf pdu) p (size_t (pdu_len pdu - p)) on ol ov =
  Ok (match o2 with
      | (k, v) :: _ =>
          (CE_NONE, out_add16 on (k - last_num 0 o1), out_set ol (zlen v),
           out_set ov (p + zlen (opt_header (k - last_num 0 o1) (zlen v))))
      | [] =>
          (match m_payload m with None => CE_END_OF_PACKET | Some _ => CE_FOUND_PAYLOAD_MARKER end,
           on, ol, ov)
      end).
Proof.
  intros E Hp. pose proof encode_fits as [Hf1 Hf2].
  pose proof (opts_pos_split o1 o2 E) as Hlen. rewrite (rep_len _ _ HR).
  assert (p = zlen (encode_head m ++ encode_options 0 o1)) as Hp' by (rewrite Hp; unfold opts_pos; len_lia).
  destruct (rep_buf _ _ HR) as [tail ->]. rewrite (encode_split o1 o2 E), <- !(app_assoc _ _ tail).
  rewrite <- (encode_split o1 o2 E).
  assert (0 <= p) by (rewrite Hp'; apply zlen_nonneg).
  rewrite size_t_id by (zlen_pos; lia).
  set (pre := encode_head m ++ encode_options 0 o1) in *. clearbody pre.
  destruct o2 as [|[k v] rest].
  - destruct (m_payload m) as [pl|]; cbn [encode_options encode_payload];
      rewrite ?app_nil_l, <- ?app_comm_cons; unfold coap_decode_option.
    + rewrite (proj2 (Z.eqb_neq _ 0)) by (simpl in Hlen; len_lia).
      rewrite load_at by done. done.
    + rewrite (proj2 (Z.eqb_eq _ 0)) by (simpl in Hlen; len_lia). done.
  - destruct (options_split_ok o1 k v rest E) as (? & ? & ? & ?).
    cbn [encode_options]. rewrite <- !app_assoc, decode_header_at.
    + done.
    + lia.
    + zlen_pos; lia.
    + cbn [encode_options] in Hlen. rewrite !zlen_app, zlen_opt_header in Hlen.
      pose proof (header_len_range (k - last_num 0 o1) (zlen v)). zlen_pos; lia.
    + done.
Qed.

Lemma opts_pos_snoc o1 k v :
  opts_pos m (o1 ++ [(k, v)]) =
  opts_pos m o1 + zlen (opt_header (k - last_num 0 o1) (zlen v)) + zlen v.
Proof.
  unfold opts_pos. rewrite encode_options_app. cbn [encode_options]. len_lia.
Qed.

Lemma last_num_snoc o1 k v : last_num 0 (o1 ++ [(k, v)]) = k.
Proof. by rewrite last_num_app. Qed.
End Scan.
