(* ===== verification/CoapGetFacts.v ===== *)
(** * PicoCoAP: the getters on packets that hold a message

    Lemmas about [CoapGet] for packets related to a message by [represents]:
    every getter returns the field of the message, and the option iterator
    visits the options in order. *)

From S2P Require Import Prelude Mem CoapDefs CoapGet CoapSet CoapMessage.

(** The option [(k, v)] as the iterator returns it when the options [o1] precede it. *)
Definition opt_at (m : message) (o1 : list (Z * list Z)) (k : Z) (v : list Z) : coap_option :=
  mk_option k (zlen v)
    (Some (opts_pos m o1 + zlen (opt_header (k - last_num 0 o1) (zlen v)))).

(** The argument [last] of [coap_get_option] after the options [o1]. *)
Inductive cursor (m : message) : list (Z * list Z) -> option coap_option -> Prop :=
| cursor_null : cursor m [] None
| cursor_zero o : opt_num o = 0 -> cursor m [] (Some o)
| cursor_opt o1 k v : k <> 0 -> cursor m (o1 ++ [(k, v)]) (Some (opt_at m o1 k v)).

(** What the iterator returns behind the last option: nothing, the payload when
    there was no option at all, and otherwise a null pointer with a length
    computed from it. *)
Definition end_option (pdu : coap_pdu) (m : message) (o1 : list (Z * list Z)) : coap_option :=
  match m_payload m, o1 with
  | None, _ => mk_option 0 0 None
  | Some pl, [] => mk_option 0 (zlen pl) (Some (opts_pos m [] + 1))
  | Some pl, _ => mk_option 0 (size_t (pdu_len pdu + pdu_addr pdu)) None
  end.

(** The occurrence number [occ] (from 0) of the option [num] among [opts]: the
    options in front of it and its value. *)
Fixpoint find_occ (num occ : Z) (pre opts : list (Z * list Z))
    : option (list (Z * list Z) * list Z) :=
  match opts with
  | [] => None
  | (k, v) :: rest =>
      if (k =? num) && (occ =? 0) then Some (pre, v)
      else find_occ num (if k =? num then occ - 1 else occ) (pre ++ [(k, v)]) rest
  end.

(** The result of [coap_get_option_by_num]: the occurrence, nothing when the scan
    stopped at a higher number, and what ends the iteration otherwise. *)
Definition by_num_result (pdu : coap_pdu) (m : message) (num occ : Z) : coap_option :=
  match find_occ num occ [] (m_options m) with
  | Some (o1, v) => opt_at m o1 num v
  | None =>
      if existsb (fun o => num <? fst o) (m_options m) then mk_option 0 0 None
      else end_option pdu m (m_options m)
  end.

Definition payload_of (m : message) : coap_payload :=
  match m_payload m with
  | None => mk_payload 0 None
  | Some pl => mk_payload (zlen pl) (Some (opts_pos m (m_options m) + 1))
  end.

Section Getters.
Context (pdu : coap_pdu) (m : message) (HR : represents pdu m).

(** ** Header fields *)

Lemma get_version_rep : coap_get_version pdu = Ok (m_ver m).
Proof.
  unfold coap_get_version. destruct (load_first pdu m HR) as (b & -> & Hb). simpl.
  destruct (first_byte_fields pdu m HR b Hb) as (? & E & _). by rewrite byte_shiftr6, E.
Qed.

Lemma get_type_rep : coap_get_type pdu = Ok (m_type m).
Proof.
  unfold coap_get_type. destruct (load_first pdu m HR) as (b & -> & Hb). simpl.
  destruct (first_byte_fields pdu m HR b Hb) as (? & _ & E & _).
  rewrite byte_shiftr4 by done. change 3 with (Z.ones 2). rewrite Z.land_ones by lia.
  change (2 ^ 2) with 4. by rewrite E.
Qed.

Lemma load_head i b : 
  encode_head m !! Z.to_nat i = Some b -> 0 <= i < zlen (encode_head m) ->
  load (pdu_buf pdu) i = Ok b.
Proof.
  intros Hl Hi. destruct (rep_buf _ _ HR) as [tail ->]. unfold encode.
  rewrite <- app_assoc. destruct (load_ok (encode_head m ++ (encode_options 0 (m_options m) ++
    encode_payload (m_payload m)) ++ tail) i) as (b' & -> & Hb'); [len_lia|].
  rewrite lookup_app_l in Hb' by (unfold zlen in Hi; lia). congruence.
Qed.

Lemma get_code_rep : coap_get_code pdu = Ok (m_code m).
Proof. apply load_head; [done|]. rewrite zlen_head. len_lia. Qed.

Lemma get_class_rep : coap_get_code_class pdu = Ok (m_code m / 32).
Proof.
  unfold coap_get_code_class. rewrite get_code_rep. cbn [rbind].
  pose proof (wf_code _ (rep_wf _ _ HR)) as Hc. rewrite byte_shiftr5 by done. rewrite u8_id; [done|].
  unfold is_byte in *. Z.div_mod_to_equations; lia.
Qed.

Lemma get_detail_rep : coap_get_code_detail pdu = Ok (m_code m mod 32).
Proof.
  unfold coap_get_code_detail. rewrite get_code_rep. cbn [rbind].
  pose proof (wf_code _ (rep_wf _ _ HR)) as Hc. rewrite byte_land_1F by done. rewrite u8_id; [done|].
  unfold is_byte in *. Z.div_mod_to_equations; lia.
Qed.

Lemma get_mid_rep : coap_get_mid pdu = Ok (m_mid m).
Proof.
  unfold coap_get_mid.
  rewrite (load_head 2 (m_mid m / 256)) by (done || (rewrite zlen_head; len_lia)).
  rewrite (load_head 3 (m_mid m mod 256)) by (done || (rewrite zlen_head; len_lia)).
  cbn [rbind]. destruct (rep_wf _ _ HR) as [_ _ _ Hm _ _ _ _].
  pose proof (Z.mod_pos_bound (m_mid m) 256 ltac:(lia)).
  rewrite shiftl_lor_add by lia. pose proof (Z.div_mod (m_mid m) 256).
  rewrite u16_id by lia. f_equal. lia.
Qed.

Lemma get_token_rep : coap_get_token pdu = Ok (le_value (m_token m)).
Proof.
  unfold coap_get_token. destruct (load_first pdu m HR) as (b & -> & Hb). cbn [rbind].
  destruct (first_byte_fields pdu m HR b Hb) as (? & _ & _ & E). rewrite byte_land_0F, E by done.
  pose proof (wf_tkl _ (rep_wf _ _ HR)) as Htk. pose proof (zlen_nonneg (m_token m)).
  pose proof (opts_pos_split m [] (m_options m) eq_refl) as Hl.
  rewrite (rep_len _ _ HR), (proj2 (Z.ltb_ge _ _)).
  2: { unfold opts_pos in Hl. rewrite zlen_head in Hl. simpl in Hl. len_lia. }
  destruct (rep_buf _ _ HR) as [tail ->]. unfold encode.
  rewrite encode_head_app, <- !app_assoc. unfold memcpy.
  rewrite load_bytes_at by done. cbn [rbind].
  replace (List.repeat 0 8) with
    ([] ++ List.repeat 0 (length (m_token m)) ++ List.repeat 0 (8 - length (m_token m))).
  2: { rewrite app_nil_l, <- repeat_app. f_equal. unfold zlen in Htk. lia. }
  rewrite store_bytes_at by (done || (unfold zlen; rewrite repeat_length; done)).
  cbn [rbind app]. by rewrite le_value_app_zeros.
Qed.

(** ** Validation *)

Lemma validate_rep : m_ver m = 1 ->
  coap_validate_pkt pdu = Ok (CE_NONE, set_opt_ptr pdu None).
Proof.
  intros Hv. unfold coap_validate_pkt. cbn [pdu_max pdu_len set_opt_ptr].
  pose proof (encode_fits pdu m HR) as [Hf _]. pose proof (zlen_head m) as Hh.
  pose proof (opts_pos_split m [] (m_options m) eq_refl) as Hl. unfold opts_pos in Hl.
  rewrite (rep_len _ _ HR). rewrite !(proj2 (Z.ltb_ge _ _)) by (zlen_pos; lia).
  change (coap_get_version (set_opt_ptr pdu None)) with (coap_get_version pdu).
  change (coap_get_tkl (set_opt_ptr pdu None)) with (coap_get_tkl pdu).
  rewrite get_version_rep, (get_tkl_scan pdu m HR). cbn [rbind]. rewrite Hv. cbn [negb Z.eqb Pos.eqb].
  rewrite (proj2 (Z.ltb_ge _ _)) by apply (wf_tkl _ (rep_wf _ _ HR)).
  assert (E : validate_step (set_opt_ptr pdu None) (4 + zlen (m_token m), 0) = Ok (Break CE_NONE)).
  { unfold validate_step. cbn [pdu_buf pdu_len set_opt_ptr]. rewrite Z.add_0_r.
    rewrite (decode_scan pdu m HR [] (m_options m)) by
      (done || by rewrite opts_pos_nil).
    cbn [rbind]. destruct (m_options m) as [|[k v] rest] eqn:Eo; [|done].
    destruct (m_payload m) eqn:Ep; [|done]. cbn [default from_option id].
    destruct (decide _) as [_|n]; [|destruct n; done].
    rewrite (proj2 (Z.eqb_neq _ _)); [done|]. rewrite (rep_len _ _ HR).
    pose proof (encode_fits pdu m HR) as [? ?].
    cbn [encode_options encode_payload last_num] in Hl. rewrite size_t_id; len_lia. }
  assert (L : loop (validate_step (set_opt_ptr pdu None)) (4 + zlen (m_token m), 0) = Ok CE_NONE).
  { rewrite loop_first; rewrite E; done. }
  by rewrite L.
Qed.

Lemma validate_other_version : m_ver m <> 1 ->
  coap_validate_pkt pdu = Ok (CE_INVALID_PACKET, set_opt_ptr pdu None).
Proof.
  intros Hv. unfold coap_validate_pkt. cbn [pdu_max pdu_len set_opt_ptr].
  pose proof (encode_fits pdu m HR) as [Hf _]. pose proof (zlen_head m) as Hh.
  pose proof (opts_pos_split m [] (m_options m) eq_refl) as Hl. unfold opts_pos in Hl.
  rewrite (rep_len _ _ HR). rewrite !(proj2 (Z.ltb_ge _ _)) by (zlen_pos; lia).
  change (coap_get_version (set_opt_ptr pdu None)) with (coap_get_version pdu).
  rewrite get_version_rep. cbn [rbind]. by rewrite (proj2 (Z.eqb_neq _ _) Hv).
Qed.

(** ** Payload *)

Lemma opts_pos_le o1 o2 : m_options m = o1 ++ o2 ->
  0 < opts_pos m o1 /\ opts_pos m o1 <= zlen (encode m) /\ zlen (encode m) < 2 ^ 62.
Proof.
  intros E. pose proof (opts_pos_split m o1 o2 E). pose proof (encode_fits pdu m HR).
  unfold opts_pos in *. rewrite zlen_head in *. zlen_pos. lia.
Qed.

(** Behind [o1 ++ [(k, v)]] lies the end of the value [v]. *)
Lemma opts_pos_next o1 k v rest : m_options m = o1 ++ (k, v) :: rest ->
  opts_pos m o1 < opts_pos m (o1 ++ [(k, v)]) <= zlen (encode m).
Proof.
  intros E. rewrite opts_pos_snoc, zlen_opt_header.
  pose proof (header_len_range (k - last_num 0 o1) (zlen v)).
  destruct (opts_pos_le (o1 ++ [(k, v)]) rest) as (_ & Hle & _); [by rewrite <- app_assoc|].
  rewrite opts_pos_snoc, zlen_opt_header in Hle. zlen_pos. lia.
Qed.

Lemma payload_scan :
  returns (loop (payload_step pdu) (4 + zlen (m_token m))) (fun '(err, off) =>
    off = opts_pos m (m_options m) /\
    err = match m_payload m with None => CE_END_OF_PACKET | Some _ => CE_FOUND_PAYLOAD_MARKER end).
Proof.
  eapply (loop_total _
    (fun off => exists o1 o2, m_options m = o1 ++ o2 /\ off = opts_pos m o1)
    (fun off => zlen (encode m) - off)).
  - intros off (o1 & o2 & E & ->). unfold payload_step.
    rewrite (decode_scan pdu m HR o1 o2) by done. cbn [rbind].
    destruct o2 as [|[k v] rest].
    + rewrite app_nil_r in E. subst o1. by destruct (m_payload m).
    + cbn [default from_option id out_set returns].
      pose proof (opts_pos_next o1 k v rest E) as Hn. pose proof (opts_pos_le o1 _ E).
      rewrite opts_pos_snoc in Hn. rewrite size_t_id by lia. split; [|lia].
      exists (o1 ++ [(k, v)]), rest. split; [by rewrite <- app_assoc|].
      rewrite opts_pos_snoc. lia.
  - exists [], (m_options m). split; [done|]. by rewrite opts_pos_nil.
  - pose proof (encode_fits pdu m HR). zlen_pos. lia.
Qed.

Lemma get_payload_rep : coap_get_payload pdu = Ok (payload_of m).
Proof.
  unfold coap_get_payload. rewrite (get_tkl_scan pdu m HR). cbn [rbind].
  pose proof payload_scan as H. apply returns_inv in H as ([err off] & -> & -> & ->).
  cbn [rbind]. unfold payload_of.
  pose proof (opts_pos_split m (m_options m) [] ltac:(by rewrite app_nil_r)) as Hl.
  pose proof (opts_pos_le (m_options m) [] ltac:(by rewrite app_nil_r)).
  destruct (m_payload m) as [pl|]; [|done].
  destruct (decide _) as [_|n]; [|by destruct n].
  cbn [encode_options encode_payload] in Hl. autorewrite with zlen in Hl. zlen_pos.
  rewrite (rep_len _ _ HR). rewrite size_t_id by lia. do 2 f_equal. lia.
Qed.

(** The bytes the payload pointer designates. *)
Lemma payload_bytes pl : m_payload m = Some pl ->
  load_bytes (pdu_buf pdu) (opts_pos m (m_options m) + 1) (zlen pl) = Ok pl.
Proof.
  intros E. destruct (rep_buf _ _ HR) as [tail ->].
  rewrite (encode_split m (m_options m) []), E by (by rewrite app_nil_r).
  cbn [encode_options encode_payload].
  rewrite app_nil_l, <- app_assoc, <- app_comm_cons, (cons_middle 255), app_assoc.
  apply load_bytes_at; [unfold opts_pos|done]. len_lia.
Qed.

(** ** The option iterator *)

Lemma option_bytes o1 k v rest : m_options m = o1 ++ (k, v) :: rest ->
  load_bytes (pdu_buf pdu) (ptr_off pdu (opt_val (opt_at m o1 k v))) (zlen v) = Ok v.
Proof.
  intros E. destruct (rep_buf _ _ HR) as [tail ->]. rewrite (encode_split m o1 _ E).
  cbn [encode_options opt_at opt_val ptr_off]. unfold opts_pos.
  rewrite <- !app_assoc, (app_assoc (encode_head m)), (app_assoc _ (opt_header _ _)).
  apply load_bytes_at; len_lia.
Qed.

(** The pointer and the number the iterator starts from behind [o1]. *)
Lemma cursor_start o1 o2 last : m_options m = o1 ++ o2 -> cursor m o1 last ->
  exists num, num = last_num 0 o1 /\ (num = 0 <-> o1 = []) /\
  (let first := (let* tkl := coap_get_tkl pdu in Ok (4 + tkl)) in
   let* '(option, opt_ptr) :=
     match last with
     | Some l =>
         if negb (opt_num l =? 0)
         then Ok (mk_option (opt_num l) 0 None, ptr_off pdu (opt_val l) + opt_len l)
         else let* p := first in Ok (mk_option 0 0 None, p)
     | None => let* p := first in Ok (mk_option 0 0 None, p)
     end in
   let* opt_ptr :=
     if (pdu_len pdu <? opt_ptr) || (opt_ptr <=? 0) then first else Ok opt_ptr in
   Ok (option, opt_ptr)) = Ok (mk_option num 0 None, opts_pos m o1).
Proof.
  intros E Hc. exists (last_num 0 o1). split; [done|].
  pose proof (opts_pos_le o1 o2 E) as (Hp & Hle & _).
  assert (H0 : o1 = [] -> 4 + zlen (m_token m) = opts_pos m o1).
  { intros ->. by rewrite opts_pos_nil. }
  rewrite (get_tkl_scan pdu m HR), (rep_len _ _ HR). cbn [rbind].
  destruct Hc as [|o Ho|o1 k v Hk].
  - split; [done|]. cbn [rbind]. rewrite (H0 eq_refl). zdecide. done.
  - split; [done|]. rewrite Ho. cbn [Z.eqb negb rbind]. rewrite (H0 eq_refl). zdecide. done.
  - rewrite last_num_snoc. split; [split; [done|by destruct o1]|].
    cbn [opt_num opt_at opt_val opt_len ptr_off]. rewrite (proj2 (Z.eqb_neq k 0)) by done.
    cbn [negb rbind]. rewrite <- opts_pos_snoc. zdecide. done.
Qed.

Lemma get_option_unfold o1 o2 last : m_options m = o1 ++ o2 -> cursor m o1 last ->
  coap_get_option pdu last =
  Ok (match o2 with
      | (k, v) :: _ => opt_at m o1 k v
      | [] => end_option pdu m o1
      end).
Proof.
  intros E Hc. destruct (cursor_start o1 o2 last E Hc) as (num & Hn & Hz & Hs).
  unfold coap_get_option. cbn zeta in Hs |- *.
  destruct (match last with Some _ => _ | None => _ end) as [[option opt_ptr]|]; [|done].
  cbn [rbind] in Hs |- *.
  destruct (if (pdu_len pdu <? opt_ptr) || (opt_ptr <=? 0) then _ else _) as [opt_ptr'|]; [|done].
  cbn [rbind] in Hs |- *. injection Hs as -> ->. cbn [opt_num opt_len opt_val].
  rewrite (decode_scan pdu m HR o1 o2) by done. cbn [rbind].
  pose proof (opts_pos_le o1 o2 E) as (? & ? & ?).
  destruct o2 as [|[k v] rest].
  - rewrite app_nil_r in E. unfold end_option.
    pose proof (opts_pos_split m o1 [] ltac:(by rewrite app_nil_r)) as Hl.
    cbn [encode_options] in Hl. destruct (m_payload m) as [pl|]; [|done].
    destruct (decide _) as [_|c]; [|by destruct c].
    destruct (decide _) as [_|c]; [|by destruct c].
    destruct o1 as [|o o1].
    + rewrite (proj2 Hz eq_refl), Z.eqb_refl, (rep_len _ _ HR).
      cbn [encode_payload] in Hl. autorewrite with zlen in Hl. zlen_pos.
      rewrite size_t_id by lia. do 2 f_equal. lia.
    + rewrite (proj2 (Z.eqb_neq num 0)) by (intros c; by apply Hz in c).
      cbn [ptr_add opt_val opt_len Z.eqb ptr_off]. do 3 f_equal. lia.
  - destruct (options_split_ok pdu m HR o1 k v rest E) as (? & ? & ? & ?).
    destruct (decide _) as [c|_]; [by destruct c|].
    cbn [out_add16 out_set default from_option id]. subst num.
    rewrite u16_id by lia. unfold opt_at. do 2 f_equal. lia.
Qed.

(** ** Lookup by number *)

Lemma find_occ_above num occ pre prev opts :
  num < prev -> options_ok prev opts -> find_occ num occ pre opts = None.
Proof.
  revert occ pre prev. induction opts as [|[k v] rest IH]; intros occ pre prev Hp; [done|].
  intros (? & _ & _ & Hr). cbn [find_occ]. rewrite (proj2 (Z.eqb_neq k num)) by lia.
  cbn [andb]. eapply IH, Hr. lia.
Qed.

Lemma existsb_low num (o1 : list (Z * list Z)) : Forall (fun o => fst o <= num) o1 ->
  existsb (fun o => num <? fst o) o1 = false.
Proof. induction 1 as [|o o1 Ho _ IH]; [done|]. simpl. rewrite IH. zdecide. done. Qed.

(** The invariant of the loop: [o1] has been visited, the rest bounds the
    iterations left. *)
Definition by_num_inv (num occ : Z) (left : Z) (st : coap_option * Z) : Prop :=
  exists o1 o2, m_options m = o1 ++ o2 /\ left = zlen o2 /\ cursor m o1 (Some (fst st)) /\
    0 <= snd st <= occ /\ Forall (fun o => fst o <= num) o1 /\
    find_occ num occ [] (m_options m) = find_occ num (occ - snd st) o1 o2.

(** Advance the invariant by one visited option. *)
Lemma by_num_advance num occ o1 k v rest i :
  m_options m = o1 ++ (k, v) :: rest -> k <> 0 -> k <= num ->
  0 <= i <= occ -> Forall (fun o => fst o <= num) o1 ->
  find_occ num occ [] (m_options m) = find_occ num (occ - i) (o1 ++ [(k, v)]) rest ->
  by_num_inv num occ (zlen rest) (opt_at m o1 k v, i).
Proof.
  intros E Hk Hle Hi Hf Hfind. exists (o1 ++ [(k, v)]), rest.
  split; [by rewrite <- app_assoc|]. split; [done|]. split; [by constructor|].
  split; [done|]. split; [|done]. apply Forall_app. by repeat constructor.
Qed.

Lemma by_num_body num occ left st :
  0 < num < 65536 -> 0 <= occ < 255 -> Forall (fun o => 0 < fst o) (m_options m) ->
  by_num_inv num occ left st ->
  returns (by_num_step pdu num occ st) (fun r =>
    match r with
    | Continue st' => exists left', 0 <= left' < left /\ by_num_inv num occ left' st'
    | Break o => o = by_num_result pdu m num occ
    end).
Proof.
  intros Hnum Hocc Hpos (o1 & o2 & E & -> & Hc & Hi & Hf & Hfind).
  destruct st as [o i]. cbn [fst snd] in *. unfold by_num_step.
  rewrite (get_option_unfold o1 o2 (Some o) E Hc). cbn [rbind]. unfold by_num_result.
  destruct o2 as [|[k v] rest].
  - rewrite app_nil_r in E. assert (Hz : opt_num (end_option pdu m o1) = 0)
      by (unfold end_option; by destruct (m_payload m), o1).
    rewrite Hz, (proj2 (Z.eqb_neq 0 num)), (proj2 (Z.ltb_ge num 0)) by lia.
    cbn [Z.eqb returns]. rewrite Hfind, E, existsb_low by done. done.
  - cbn [opt_num opt_at]. destruct (options_split_ok pdu m HR o1 k v rest E) as (? & _).
    assert (0 < k). { rewrite E in Hpos. apply Forall_app in Hpos as [_ Hp]. by inversion Hp. }
    cbn [find_occ] in Hfind. pose proof (zlen_nonneg rest).
    destruct (Z.eqb_spec k num) as [->|Hne].
    + unfold u8. rewrite Z.mod_small by lia. cbn [andb] in Hfind.
      destruct (Z.leb_spec (i + 1) occ).
      * rewrite (proj2 (Z.eqb_neq _ 0)) in Hfind by lia.
        exists (zlen rest). split; [len_lia|]. eapply by_num_advance; eauto; try lia.
        by replace (occ - (i + 1)) with (occ - i - 1) by lia.
      * replace (occ - i =? 0) with true in Hfind by (symmetry; apply Z.eqb_eq; lia).
        simpl. by rewrite Hfind.
    + destruct (Z.ltb_spec num k).
      * simpl. rewrite Hfind, (find_occ_above num _ _ k rest).
        { rewrite E, existsb_app. simpl. rewrite (proj2 (Z.ltb_lt num k)) by lia.
          by rewrite orb_true_r. }
        { lia. }
        { pose proof (wf_options _ (rep_wf _ _ HR)) as Hok. rewrite E in Hok.
          apply options_ok_app in Hok as [_ Hok]. apply Hok. }
      * rewrite (proj2 (Z.eqb_neq k 0)), (proj2 (Z.leb_le i occ)) by lia.
        exists (zlen rest). split; [len_lia|]. eapply by_num_advance; eauto; lia.
Qed.

Lemma get_option_by_num_rep num occ :
  0 < num < 65536 -> 0 <= occ < 255 -> Forall (fun o => 0 < fst o) (m_options m) ->
  coap_get_option_by_num pdu num occ = Ok (by_num_result pdu m num occ).
Proof.
  intros Hnum Hocc Hpos.
  assert (H : returns (coap_get_option_by_num pdu num occ) (fun o => o = by_num_result pdu m num occ)).
  { eapply (loop_bounded _ (by_num_inv num occ) _ (zlen (m_options m))).
    - intros left st Hst. by apply by_num_body.
    - exists [], (m_options m). cbn [fst snd]. rewrite Z.sub_0_r.
      do 2 (split; [done|]). split; [by constructor|]. split; [lia|]. by split.
    - pose proof (zlen_options 0 (m_options m)). pose proof (encode_fits pdu m HR).
      pose proof (opts_pos_split m [] (m_options m) eq_refl). rewrite opts_pos_nil in *.
      cbn [last_num] in *. zlen_pos. lia. }
  apply returns_inv in H as (o & -> & ->). done.
Qed.

(** The last value of the counter is not below the occurrence 255, so that this one
    is never found: the search ends as if it were not there. *)
Lemma get_option_by_num_last num :
  0 < num < 65536 -> Forall (fun o => 0 < fst o) (m_options m) ->
  coap_get_option_by_num pdu num 255 =
  Ok (if existsb (fun o => num <? fst o) (m_options m) then mk_option 0 0 None
      else end_option pdu m (m_options m)).
Proof.
  intros Hnum Hpos. set (none := if existsb _ _ then _ else _).
  assert (H : returns (coap_get_option_by_num pdu num 255) (fun o => o = none)).
  { eapply (loop_bounded _ (fun left st => exists o1 o2, m_options m = o1 ++ o2 /\ left = zlen o2 /\
      cursor m o1 (Some (fst st)) /\ 0 <= snd st <= 255 /\ Forall (fun o => fst o <= num) o1) _ (zlen (m_options m))).
    - intros left [o i] (o1 & o2 & E & -> & Hc & Hi & Hf). cbn [fst snd] in *. unfold by_num_step.
      rewrite (get_option_unfold o1 o2 (Some o) E Hc). cbn [rbind]. destruct o2 as [|[k v] rest].
      + rewrite app_nil_r in E. assert (Hz : opt_num (end_option pdu m o1) = 0)
          by (unfold end_option; by destruct (m_payload m), o1).
        rewrite Hz, (proj2 (Z.eqb_neq 0 num)), (proj2 (Z.ltb_ge num 0)) by lia.
        cbn [Z.eqb returns]. unfold none. by rewrite E, existsb_low.
      + cbn [opt_num opt_at]. assert (0 < k). { rewrite E in Hpos. apply Forall_app in Hpos as [_ Hp]. by inversion Hp. }
        assert (Hnext : forall i', 0 <= i' <= 255 -> k <= num -> exists left', 0 <= left' < zlen ((k, v) :: rest) /\
          exists o1' o2', m_options m = o1' ++ o2' /\ left' = zlen o2' /\ cursor m o1' (Some (opt_at m o1 k v)) /\
            0 <= i' <= 255 /\ Forall (fun o => fst o <= num) o1').
        { intros i' Hi' Hk. exists (zlen rest). split; [len_lia|]. exists (o1 ++ [(k, v)]), rest.
          split; [by rewrite <- app_assoc|]. split; [done|]. split; [constructor; lia|]. split; [done|].
          apply Forall_app. by repeat constructor. }
        destruct (Z.eqb_spec k num) as [->|Hne]; [|destruct (Z.ltb_spec num k)].
        * assert (Hu : 0 <= u8 (i + 1) <= 255) by (pose proof (u8_byte (i + 1)) as Hb; unfold is_byte in Hb; lia).
          cbv zeta. rewrite (proj2 (Z.leb_le (u8 (i + 1)) 255)) by lia. apply (Hnext (u8 (i + 1))); lia.
        * cbn [returns]. unfold none. rewrite E, existsb_app. cbn [existsb fst].
          by rewrite (proj2 (Z.ltb_lt num k)), orb_true_r by lia.
        * rewrite (proj2 (Z.eqb_neq k 0)), (proj2 (Z.leb_le i 255)) by lia. apply (Hnext i); lia.
    - exists [], (m_options m). do 2 (split; [done|]). split; [by constructor|]. by split.
    - pose proof (zlen_options 0 (m_options m)). pose proof (encode_fits pdu m HR).
      pose proof (opts_pos_split m [] (m_options m) eq_refl). rewrite opts_pos_nil in *.
      cbn [last_num] in *. zlen_pos. lia. }
  apply returns_inv in H as (o & -> & ->). done.
Qed.
End Getters.
