(* ===== verification/CoapSetFacts.v ===== *)
(** * PicoCoAP: the setters on packets that hold a message

    Lemmas about [CoapSet]: a setter applied to a packet that [represents] a
    message leaves a packet that represents the updated message, or reports that
    the buffer is too small and leaves the packet alone. *)

From S2P Require Import Prelude Mem CoapDefs CoapGet CoapSet CoapMessage CoapGetFacts.

(** ** Updates of a message *)

Definition with_ver (m : message) (v : Z) : message :=
  mk_msg v (m_type m) (m_code m) (m_mid m) (m_token m) (m_options m) (m_payload m).
Definition with_type (m : message) (t : Z) : message :=
  mk_msg (m_ver m) t (m_code m) (m_mid m) (m_token m) (m_options m) (m_payload m).
Definition with_code (m : message) (c : Z) : message :=
  mk_msg (m_ver m) (m_type m) c (m_mid m) (m_token m) (m_options m) (m_payload m).
Definition with_mid (m : message) (i : Z) : message :=
  mk_msg (m_ver m) (m_type m) (m_code m) i (m_token m) (m_options m) (m_payload m).
Definition with_token (m : message) (t : list Z) : message :=
  mk_msg (m_ver m) (m_type m) (m_code m) (m_mid m) t (m_options m) (m_payload m).
Definition with_options (m : message) (o : list (Z * list Z)) : message :=
  mk_msg (m_ver m) (m_type m) (m_code m) (m_mid m) (m_token m) o (m_payload m).
Definition with_payload (m : message) (p : option (list Z)) : message :=
  mk_msg (m_ver m) (m_type m) (m_code m) (m_mid m) (m_token m) (m_options m) p.

(** A message without its options and its payload. *)
Definition header_of (m : message) : message :=
  mk_msg (m_ver m) (m_type m) (m_code m) (m_mid m) (m_token m) [] None.

(** A setter succeeded: the new packet holds [m'] in the same buffer. *)
Definition updates (pdu : coap_pdu) (m' : message) (r : coap_error * coap_pdu) : Prop :=
  fst r = CE_NONE /\ represents (snd r) m' /\
  pdu_max (snd r) = pdu_max pdu /\ pdu_addr (snd r) = pdu_addr pdu.

(** The contract of a setter that changes the size of the message. *)
Definition sets (pdu : coap_pdu) (m' : message) (c : res (coap_error * coap_pdu)) : Prop :=
  if pdu_max pdu <? zlen (encode m') then c = Ok (CE_INSUFFICIENT_BUFFER, pdu)
  else returns c (updates pdu m').

(** The packet an empty buffer is initialised to.  [coap.h] calls it a ping; its
    type is RST, where a ping is an empty CON message. *)
Definition ping : message := mk_msg 1 3 0 0 [] [] None.

(** ** Bytes of the header *)

Lemma set_version_byte ver type tkl b v :
  0 <= ver < 4 -> 0 <= type < 4 -> 0 <= tkl < 16 -> 0 <= v < 4 -> b = first_byte ver type tkl ->
  u8 (Z.lor (Z.shiftl v 6) (Z.land b 0x3F)) = first_byte v type tkl.
Proof.
  intros ? ? ? ? ->. unfold first_byte.
  rewrite byte_land_3F by (unfold is_byte; lia).
  replace ((ver * 64 + type * 16 + tkl) mod 64) with (type * 16 + tkl)
    by (Z.div_mod_to_equations; lia).
  rewrite shiftl_lor_add by lia. rewrite u8_id by (unfold is_byte; lia). lia.
Qed.

Lemma set_type_byte ver type tkl b t :
  0 <= ver < 4 -> 0 <= type < 4 -> 0 <= tkl < 16 -> 0 <= t < 4 -> b = first_byte ver type tkl ->
  u8 (Z.lor (Z.shiftl t 4) (Z.land b 0xCF)) = first_byte ver t tkl.
Proof.
  intros ? ? ? ? ->. unfold first_byte.
  rewrite byte_land_CF by (unfold is_byte; lia).
  replace (_ - _) with (Z.lor (Z.shiftl ver 6) tkl).
  2: { rewrite shiftl_lor_add by lia. Z.div_mod_to_equations; lia. }
  rewrite Z.lor_assoc, (Z.lor_comm (Z.shiftl t 4)), <- Z.lor_assoc.
  rewrite (shiftl_lor_add t tkl 4), (shiftl_lor_add ver) by lia.
  rewrite u8_id by (unfold is_byte; lia). lia.
Qed.

Lemma set_tkl_byte ver type tkl b t :
  0 <= ver < 4 -> 0 <= type < 4 -> 0 <= tkl < 16 -> 0 <= t < 16 -> b = first_byte ver type tkl ->
  u8 (Z.lor (Z.land t 0x0F) (Z.land b 0xF0)) = first_byte ver type t.
Proof.
  intros ? ? ? ? ->. unfold first_byte.
  rewrite byte_land_F0, byte_land_0F by (unfold is_byte; lia).
  rewrite (Z.mod_small t) by lia. rewrite Z.lor_comm.
  replace (_ - _) with (Z.shiftl (ver * 4 + type) 4).
  2: { rewrite Z.shiftl_mul_pow2 by lia. Z.div_mod_to_equations; lia. }
  rewrite shiftl_lor_add by lia. rewrite u8_id by (unfold is_byte; lia). lia.
Qed.

Lemma encode_cons m :
  encode m = first_byte (m_ver m) (m_type m) (zlen (m_token m)) :: m_code m ::
    m_mid m / 256 :: m_mid m mod 256 ::
    m_token m ++ encode_options 0 (m_options m) ++ encode_payload (m_payload m).
Proof. done. Qed.

(** ** Header setters *)

Section Setters.
Context (pdu : coap_pdu) (m : message) (HR : represents pdu m).

(** The packet after a change that keeps every length. *)
Lemma updates_same_len m' tail :
  wf_msg m' -> zlen (encode m') = zlen (encode m) ->
  pdu_buf pdu = encode m ++ tail ->
  updates pdu m' (CE_NONE, set_buf pdu (encode m' ++ tail)).
Proof.
  intros Hwf Hl Hb. split; [done|]. split; [|done].
  destruct HR as [_ _ H1 H2 H3]. constructor; cbn [snd set_buf pdu_buf pdu_len pdu_max]; try done.
  - eauto.
  - congruence.
  - rewrite H2, Hb. len_lia.
Qed.

Lemma rep_len_ge : 4 <= pdu_len pdu /\ pdu_len pdu <= pdu_max pdu.
Proof.
  rewrite (rep_len _ _ HR). pose proof (encode_fits pdu m HR).
  pose proof (opts_pos_le pdu m HR [] (m_options m) eq_refl) as Hp.
  rewrite opts_pos_nil in Hp. zlen_pos. lia.
Qed.

Lemma set_version_rep v : 0 <= v < 4 ->
  returns (coap_set_version pdu v) (updates pdu (with_ver m v)).
Proof.
  intros Hv. pose proof rep_len_ge. unfold coap_set_version.
  destruct (rep_buf _ _ HR) as [tail Hb].
  destruct (rep_wf _ _ HR) as [? ? ? ? ? ? ? ?]. zlen_pos.
  rewrite (proj2 (Z.ltb_ge _ _)), Hb, encode_cons by lia. simpl app.
  rewrite load_0. cbn [rbind].
  rewrite store_0. cbn [rbind].
  cbn [set_buf pdu_len]. rewrite (proj2 (Z.ltb_ge _ _)) by lia. simpl returns.
  rewrite (set_version_byte (m_ver m) (m_type m) (zlen (m_token m))) by (done || lia).
  apply (updates_same_len (with_ver m v) tail); [by constructor|done|done].
Qed.

Lemma set_type_rep t : 0 <= t < 4 ->
  returns (coap_set_type pdu t) (updates pdu (with_type m t)).
Proof.
  intros Hv. pose proof rep_len_ge. unfold coap_set_type.
  destruct (rep_buf _ _ HR) as [tail Hb].
  destruct (rep_wf _ _ HR) as [? ? ? ? ? ? ? ?]. zlen_pos.
  rewrite (proj2 (Z.ltb_ge _ _)), Hb, encode_cons by lia. simpl app.
  rewrite load_0. cbn [rbind].
  rewrite store_0. cbn [rbind].
  cbn [set_buf pdu_len]. rewrite (proj2 (Z.ltb_ge _ _)) by lia. simpl returns.
  rewrite (set_type_byte (m_ver m) (m_type m) (zlen (m_token m))) by (done || lia).
  apply (updates_same_len (with_type m t) tail); [by constructor|done|done].
Qed.

Lemma set_code_rep c : is_byte c ->
  returns (coap_set_code pdu c) (updates pdu (with_code m c)).
Proof.
  intros Hc. pose proof rep_len_ge. unfold coap_set_code.
  destruct (rep_buf _ _ HR) as [tail Hb].
  destruct (rep_wf _ _ HR) as [? ? ? ? ? ? ? ?].
  rewrite (proj2 (Z.ltb_ge _ _)), Hb, encode_cons by lia. simpl app.
  rewrite store_1. cbn [rbind].
  cbn [set_buf pdu_len]. rewrite (proj2 (Z.ltb_ge _ _)) by lia. simpl returns.
  rewrite u8_id by done.
  apply (updates_same_len (with_code m c) tail); [by constructor|done|done].
Qed.

Lemma set_mid_rep i : 0 <= i < 65536 ->
  returns (coap_set_mid pdu i) (updates pdu (with_mid m i)).
Proof.
  intros Hi. pose proof rep_len_ge. unfold coap_set_mid.
  destruct (rep_buf _ _ HR) as [tail Hb].
  destruct (rep_wf _ _ HR) as [? ? ? ? ? ? ? ?].
  rewrite (proj2 (Z.ltb_ge _ _)), Hb, encode_cons by lia. simpl app.
  rewrite store_2. cbn [rbind].
  rewrite store_3. cbn [rbind].
  cbn [set_buf pdu_len]. rewrite (proj2 (Z.ltb_ge _ _)) by lia. simpl returns.
  rewrite Z.shiftr_div_pow2 by lia. change (2 ^ 8) with 256.
  change 255 with (Z.ones 8). rewrite Z.land_ones by lia. change (2 ^ 8) with 256.
  rewrite !u8_id by (unfold is_byte; Z.div_mod_to_equations; lia).
  apply (updates_same_len (with_mid m i) tail); [by constructor|done|done].
Qed.
End Setters.

(** ** Initialisation *)

Lemma init_pdu_rep pdu :
  pdu_max pdu = zlen (pdu_buf pdu) -> 4 <= pdu_max pdu < 2 ^ 62 ->
  returns (coap_init_pdu pdu) (updates pdu ping).
Proof.
  intros Hmax Hm. destruct pdu as [addr buf len max ptr]. cbn [pdu_max pdu_buf] in *.
  unfold coap_init_pdu. cbn [pdu_max]. rewrite (proj2 (Z.ltb_ge _ _)) by lia.
  destruct (split_at buf 4) as (h & rest & -> & Hh); [lia|].
  cbn [set_len set_buf pdu_buf pdu_len pdu_max pdu_addr pdu_opt_ptr].
  unfold memset. rewrite (store_bytes_at [] h rest) by done. cbn [rbind app].
  change (List.repeat (u8 0) (Z.to_nat 4)) with [0; 0; 0; 0]. cbn [app].
  assert (Hr : 0 <= zlen rest) by apply zlen_nonneg.
  assert (Hl : zlen (0 :: 0 :: 0 :: 0 :: rest) = max) by len_lia.
  unfold coap_set_version, coap_set_type, coap_set_token, set_token_room, coap_set_code,
    coap_set_mid, coap_get_tkl, set_buf, set_len.
  cbn [pdu_max pdu_buf pdu_len pdu_addr pdu_opt_ptr].
  unfold memcpy, load_bytes, store_bytes.
  repeat (rewrite ?load_0, ?store_0, ?store_1, ?store_2, ?store_3;
          cbn [rbind pdu_max pdu_buf pdu_len pdu_addr pdu_opt_ptr];
          rewrite ?(proj2 (Z.ltb_ge max _)) by lia; eval_ifs).
  split; [done|]. split; [|done].
  constructor; cbn [snd set_opt_ptr pdu_buf pdu_len pdu_max]; try done; try lia.
  by exists rest.
Qed.

(** ** Token *)

Section Token.
Context (pdu : coap_pdu) (m : message) (HR : represents pdu m) (tkl : Z) (Htkl : 0 <= tkl <= 8).

(** The part of the packet behind the token. *)
Definition after_token : list Z := encode_options 0 (m_options m) ++ encode_payload (m_payload m).

Lemma encode_token : encode m = fixed_head m ++ m_token m ++ after_token.
Proof. done. Qed.

Lemma zlen_encode_token : zlen (encode m) = 4 + zlen (m_token m) + zlen after_token.
Proof. rewrite encode_token. unfold fixed_head. len_lia. Qed.

(** Room for the token: the rest of the packet ends up behind [tkl] bytes. *)
Lemma token_room :
  4 + tkl + zlen after_token <= pdu_max pdu ->
  exists x y, set_token_room pdu tkl = Ok (Some (fixed_head m ++ x ++ after_token ++ y)) /\
    zlen x = tkl /\ zlen (fixed_head m ++ x ++ after_token ++ y) = zlen (pdu_buf pdu).
Proof.
  intros Hfit. destruct (rep_buf _ _ HR) as [tail Hb].
  pose proof (rep_max _ _ HR) as Hmax. pose proof zlen_encode_token as Hz.
  pose proof (encode_fits pdu m HR) as Hf. rewrite Hb in Hmax. rewrite zlen_app in Hmax.
  unfold set_token_room. rewrite (rep_len _ _ HR). zlen_pos.
  destruct (Z.ltb_spec 4 (zlen (encode m))).
  - rewrite (get_tkl_scan pdu m HR). cbn [rbind].
    rewrite size_t_id, (proj2 (Z.ltb_ge _ _)) by lia.
    destruct (split_at (m_token m ++ after_token ++ tail) tkl) as (x & y & Exy & Hx); [len_lia|].
    assert (Hy : zlen y = zlen (m_token m) + zlen after_token + zlen tail - tkl)
      by (apply (f_equal zlen) in Exy; len_lia).
    destruct (split_at y (zlen after_token)) as (y1 & y2 & -> & Hy1); [lia|].
    exists x, y2. unfold memmove. rewrite size_t_id by lia.
    replace (zlen (encode m) - 4 - zlen (m_token m)) with (zlen after_token) by lia.
    rewrite Hb, encode_token, <- !app_assoc.
    rewrite (app_assoc (fixed_head m)), load_bytes_at by (done || (unfold fixed_head; len_lia)).
    cbn [rbind]. rewrite <- app_assoc, Exy, app_assoc, store_bytes_at.
    2: unfold fixed_head; len_lia.
    2: done.
    cbn [rbind]. rewrite <- app_assoc. split; [done|]. split; [done|].
    apply (f_equal zlen) in Exy. unfold fixed_head. len_lia.
  - assert (Ht : m_token m = []) by (apply zlen_0_nil; lia).
    assert (Ha : after_token = []) by (apply zlen_0_nil; lia).
    destruct (split_at tail tkl) as (x & y & -> & Hx).
    { split; [lia|]. rewrite Ha in Hfit. simpl in Hfit. len_lia. }
    exists x, y. rewrite Hb, encode_token, Ht, Ha. done.
Qed.

Lemma set_token_rep token :
  sets pdu (with_token m (le_bytes (Z.to_nat tkl) token)) (coap_set_token pdu token tkl).
Proof.
  set (m' := with_token m (le_bytes (Z.to_nat tkl) token)).
  assert (Hz' : zlen (encode m') = 4 + tkl + zlen after_token).
  { unfold m', encode, encode_head, with_token, after_token. cbn [m_token m_options m_payload].
    autorewrite with zlen. rewrite zlen_le_bytes. lia. }
  pose proof zlen_encode_token as Hz. pose proof (encode_fits pdu m HR) as Hf.
  destruct (rep_wf _ _ HR) as [? ? ? ? ? ? ? ?].
  unfold sets, coap_set_token. destruct (Z.ltb_spec (pdu_max pdu) (zlen (encode m'))).
  - destruct (Z.ltb_spec (pdu_max pdu) (4 + tkl)); [done|].
    rewrite (proj2 (Z.ltb_ge 8 tkl)) by lia. unfold set_token_room. rewrite (rep_len _ _ HR). zlen_pos.
    rewrite (proj2 (Z.ltb_lt 4 _)), (get_tkl_scan pdu m HR) by lia. cbn [rbind].
    rewrite size_t_id, (proj2 (Z.ltb_lt _ _)) by lia. done.
  - zlen_pos. rewrite (proj2 (Z.ltb_ge _ (4 + tkl))), (proj2 (Z.ltb_ge 8 tkl)) by lia.
    destruct token_room as (x & y & -> & Hx & Hlen); [lia|]. cbn [rbind]. unfold memcpy.
    rewrite <- (take_drop (Z.to_nat tkl) (le_bytes 8 token)), take_le_bytes by lia.
    rewrite load_bytes_prefix by (rewrite zlen_le_bytes; lia).
    cbn [rbind]. rewrite store_bytes_at by (done || rewrite zlen_le_bytes; lia).
    cbn [rbind]. unfold coap_get_tkl, fixed_head. cbn [set_buf set_len pdu_buf app].
    rewrite load_0. cbn [rbind set_len set_buf pdu_buf]. rewrite store_0. cbn [rbind returns].
    rewrite (set_tkl_byte (m_ver m) (m_type m) (zlen (m_token m))) by (done || lia).
    split; [done|]. split; [|done]. cbn [snd set_buf set_len].
    destruct (first_byte_fields pdu m HR _ eq_refl) as (Hfb & _ & _ & Hmod).
    rewrite byte_land_0F, Hmod by done. constructor.
    + constructor; cbn [m_ver m_type m_code m_mid m_token m_options m_payload with_token m']; try done.
      * apply le_bytes_bytes.
      * rewrite zlen_le_bytes. lia.
    + exists y. cbn [pdu_buf]. rewrite encode_cons. cbn [m' with_token m_ver m_type m_code m_mid m_token m_options m_payload].
      rewrite zlen_le_bytes, Z2Nat.id by lia. unfold after_token. simpl. by rewrite <- !app_assoc.
    + cbn [pdu_len set_buf set_len]. rewrite (rep_len _ _ HR), size_t_id; lia.
    + cbn [pdu_max pdu_buf set_buf set_len]. rewrite (rep_max _ _ HR), <- Hlen. unfold fixed_head.
      autorewrite with zlen. rewrite zlen_le_bytes. lia.
    + cbn [pdu_max set_buf set_len]. lia.
Qed.
End Token.
