(* ===== verification/CoapOptionFacts.v ===== *)
(** * PicoCoAP: adding options and the payload

    Lemmas about [coap_build_option_header], the search for the insertion point,
    [coap_add_option] for options added in order and [coap_set_payload]. *)

From S2P Require Import Prelude Mem CoapDefs CoapGet CoapSet CoapMessage CoapGetFacts CoapSetFacts.

(** ** Option headers *)

Lemma build_ext_at pre old post buf max_len p x :
  0 <= x < 65536 -> p = zlen pre -> zlen old = zlen (ext x) ->
  0 <= p - buf + zlen (ext x) <= max_len -> max_len < 2 ^ 62 ->
  build_ext (pre ++ old ++ post) buf max_len p x =
  Ok (Some (nibble x, pre ++ ext x ++ post, p + zlen (ext x))).
Proof.
  intros Hx -> Hold Hfit Hml. rewrite zlen_ext in *. unfold build_ext, nibble, ext. zcases.
  - rewrite (zlen_0_nil old Hold), u8_id by (unfold is_byte; lia). by rewrite Z.add_0_r.
  - destruct old as [|a [|? ?]]; autorewrite with zlen in Hold; zlen_pos; try lia.
    rewrite size_t_id in * by lia. lia.
  - destruct old as [|a [|? ?]]; autorewrite with zlen in Hold; zlen_pos; try lia.
    simpl app. rewrite store_at by done. cbn [rbind]. by rewrite u8_id by (unfold is_byte; lia).
  - rewrite size_t_id in * by lia. lia.
  - destruct old as [|a [|b [|? ?]]]; autorewrite with zlen in Hold; zlen_pos; try lia.
    simpl app. rewrite store_at by done. cbn [rbind].
    rewrite (cons_middle _ pre), app_assoc, store_at by len_lia. cbn [rbind].
    rewrite Z.shiftr_div_pow2 by lia. change (2 ^ 8) with 256.
    change 255 with (Z.ones 8). rewrite Z.land_ones by lia. change (2 ^ 8) with 256.
    rewrite !u8_id by (unfold is_byte; Z.div_mod_to_equations; lia).
    by rewrite <- app_assoc.
Qed.

(** Writing a header over as many bytes as it needs. *)
Lemma build_header_at pre old post p d l :
  0 <= d < 65536 -> 0 <= l < 65536 -> p = zlen pre -> zlen old = zlen (opt_header d l) ->
  coap_build_option_header (pre ++ old ++ post) p (coap_compute_option_header_len d l) d l =
  Ok (coap_compute_option_header_len d l, pre ++ opt_header d l ++ post).
Proof.
  intros Hd Hl -> Hold. pose proof (header_len_range d l) as Hr.
  rewrite <- zlen_opt_header in Hr |- *. unfold coap_build_option_header.
  rewrite (proj2 (Z.ltb_ge _ 1)) by lia. unfold opt_header in Hr, Hold |- *.
  destruct old as [|a old]; [zlen_pos; autorewrite with zlen in Hold; zlen_pos; lia|].
  rewrite !zlen_cons, zlen_app in *.
  destruct (split_at old (zlen (ext d))) as (e1 & e2 & -> & He1); [zlen_pos; lia|].
  rewrite zlen_app in Hold. simpl app.
  rewrite (cons_middle a pre), app_assoc, <- (app_assoc e1), build_ext_at
    by (done || (zlen_pos; len_lia)).
  cbn [rbind]. rewrite app_assoc, build_ext_at by (done || (zlen_pos; len_lia)).
  cbn [rbind]. rewrite <- !app_assoc. simpl app. rewrite store_at by done. cbn [rbind].
  pose proof (nibble_range d ltac:(lia)). pose proof (nibble_range l ltac:(lia)).
  rewrite shiftl_lor_add, u8_id by (unfold is_byte; lia).
  change (2 ^ 4) with 16. zlen_pos. do 2 f_equal. rewrite s8_id; lia.
Qed.

(** ** The insertion point *)

Section Insertion.
Context (pdu : coap_pdu) (m : message) (HR : represents pdu m).

(** The search ends in front of the first option with a higher number. *)
Definition insertion (num : Z) (r : coap_error * Z * Z) : Prop :=
  exists o1 o2, m_options m = o1 ++ o2 /\ Forall (fun o => fst o <= num) o1 /\
    r = (match o2, m_payload m with
         | _ :: _, _ => CE_NONE
         | [], None => CE_END_OF_PACKET
         | [], Some _ => CE_FOUND_PAYLOAD_MARKER
         end, opts_pos m o1, last_num 0 o1) /\
    match o2 with [] => True | o :: _ => num < fst o end.

Lemma find_insertion num :
  returns (loop (find_step pdu num) (4 + zlen (m_token m), 0, 0)) (insertion num).
Proof.
  eapply (loop_bounded _ (fun left '(fval, flen, fnum) =>
    exists o1 o2, m_options m = o1 ++ o2 /\ Forall (fun o => fst o <= num) o1 /\
      left = zlen o2 /\ fval + flen = opts_pos m o1 /\ fnum = last_num 0 o1)
    _ (zlen (m_options m))).
  - intros left [[fval flen] fnum] (o1 & o2 & E & Hf & -> & Hp & ->). unfold find_step.
    rewrite Hp, (decode_scan pdu m HR o1 o2) by done. cbn [rbind].
    destruct o2 as [|[k v] rest].
    + assert (bool_decide (match m_payload m with Some _ => CE_FOUND_PAYLOAD_MARKER
        | None => CE_END_OF_PACKET end = CE_NONE) = false) as -> by (by destruct (m_payload m)).
      cbn [andb]. exists o1, []. by repeat split.
    + destruct (options_split_ok pdu m HR o1 k v rest E) as (? & ? & ? & ?).
      cbn [out_add16 out_set default from_option id].
      rewrite bool_decide_eq_true_2 by done. cbn [andb].
      replace (u16 (last_num 0 o1 + (k - last_num 0 o1))) with k by (rewrite u16_id; lia).
      pose proof (opts_pos_next pdu m HR o1 k v rest E) as Hn.
      pose proof (opts_pos_le pdu m HR o1 _ E). pose proof (header_len_range (k - last_num 0 o1) (zlen v)).
      rewrite opts_pos_snoc, zlen_opt_header in Hn. rewrite (rep_len _ _ HR). zlen_pos.
      rewrite size_t_id by lia. rewrite (proj2 (Z.ltb_lt (opts_pos m o1 + zlen v) _)) by lia.
      rewrite andb_true_r. destruct (Z.leb_spec k num).
      * exists (zlen rest). split; [len_lia|]. exists (o1 ++ [(k, v)]), rest.
        rewrite opts_pos_snoc, last_num_snoc, Forall_app. repeat split; try done.
        -- by rewrite <- app_assoc.
        -- by repeat constructor.
      * exists o1, ((k, v) :: rest). by repeat split.
  - exists [], (m_options m). rewrite opts_pos_nil. repeat split; try done. lia.
  - pose proof (zlen_options 0 (m_options m)). pose proof (encode_fits pdu m HR).
    pose proof (opts_pos_split m [] (m_options m) eq_refl). rewrite opts_pos_nil in *.
    cbn [last_num] in *. zlen_pos. lia.
Qed.

(** For a number that is not below the others the insertion point is the end of
    the options. *)
Lemma find_insertion_end num : Forall (fun o => fst o <= num) (m_options m) ->
  loop (find_step pdu num) (4 + zlen (m_token m), 0, 0) =
  Ok (match m_payload m with None => CE_END_OF_PACKET | Some _ => CE_FOUND_PAYLOAD_MARKER end,
      opts_pos m (m_options m), last_num 0 (m_options m)).
Proof.
  intros Hf. pose proof (find_insertion num) as H.
  apply returns_inv in H as (r & -> & o1 & o2 & E & _ & -> & Hlt).
  destruct o2 as [|[k v] rest].
  - rewrite app_nil_r in E. by rewrite E.
  - rewrite E in Hf. apply Forall_app in Hf as [_ Hf]. inversion Hf. simpl in *. lia.
Qed.
End Insertion.

Lemma last_num_le num prev opts :
  prev <= num -> Forall (fun o => fst o <= num) opts -> last_num prev opts <= num.
Proof.
  revert prev. induction opts as [|[k v] opts IH]; intros prev Hp Hf; [done|].
  inversion Hf; subst. simpl in *. by apply IH.
Qed.

(** ** Adding an option in order *)

Section AddOption.
Context (pdu : coap_pdu) (m : message) (HR : represents pdu m).
Context (num : Z) (v junk : list Z).
Context (Hnum : 0 <= num < 65536) (Hv : bytes v) (Hvl : zlen v < 65536).
Context (Hlast : Forall (fun o => fst o <= num) (m_options m)).

Let m' : message := with_options m (m_options m ++ [(num, v)]).
Let d : Z := num - last_num 0 (m_options m).
Let pre : list Z := encode_head m ++ encode_options 0 (m_options m).

Lemma add_delta_range : 0 <= d < 65536.
Proof.
  pose proof (last_num_le num 0 (m_options m) ltac:(lia) Hlast).
  pose proof (options_ok_last 0 _ ltac:(lia) (wf_options _ (rep_wf _ _ HR))). lia.
Qed.

Lemma encode_added : encode m' = pre ++ opt_header d (zlen v) ++ v ++ encode_payload (m_payload m).
Proof.
  unfold m', with_options, encode, pre, d. cbn [m_options m_payload encode_options].
  rewrite encode_options_app. cbn [encode_options]. rewrite app_nil_r, <- !app_assoc. done.
Qed.

Lemma encode_before : encode m = pre ++ encode_payload (m_payload m).
Proof. unfold encode, pre. by rewrite <- app_assoc. Qed.

Lemma opts_pos_pre : opts_pos m (m_options m) = zlen pre.
Proof. unfold opts_pos, pre. len_lia. Qed.

Lemma wf_added : wf_msg m'.
Proof.
  destruct (rep_wf _ _ HR). constructor; try done. cbn [m_options m' with_options].
  apply options_ok_app. split; [done|]. simpl. pose proof add_delta_range. unfold d in *.
  repeat split; try done; lia.
Qed.

Let hdr : Z := coap_compute_option_header_len d (zlen v).

(** The packet with a gap of the size of the new option in front of the payload. *)
Lemma room_at_end :
  zlen (encode m') <= pdu_max pdu ->
  returns (make_room pdu (zlen pre) hdr (zlen v) (last_num 0 (m_options m)) num) (fun pdu1 =>
    exists x y, pdu_buf pdu1 = pre ++ x ++ encode_payload (m_payload m) ++ y /\
      zlen x = hdr + zlen v /\ zlen (pdu_buf pdu1) = zlen (pdu_buf pdu) /\
      pdu_len pdu1 = zlen (encode m') /\ pdu_max pdu1 = pdu_max pdu /\
      pdu_addr pdu1 = pdu_addr pdu).
Proof.
  intros Hfit. destruct (rep_buf _ _ HR) as [tail Hb]. pose proof (encode_fits pdu m HR) as [_ Hs].
  pose proof (header_len_range d (zlen v)) as Hh. fold hdr in Hh.
  pose proof (rep_max _ _ HR) as Hmax. pose proof (rep_len _ _ HR) as Hlen.
  assert (Hz' : zlen (encode m') = zlen (encode m) + hdr + zlen v).
  { rewrite encode_added, encode_before. rewrite !zlen_app, zlen_opt_header. fold hdr. lia. }
  rewrite encode_before in Hb, Hlen, Hz'. rewrite <- app_assoc in Hb. rewrite zlen_app in Hlen, Hz'.
  rewrite Hb in Hmax. rewrite !zlen_app in Hmax. unfold make_room. zlen_pos.
  rewrite (size_t_id (zlen pre)) by lia.
  destruct (m_payload m) as [pl|]; cbn [encode_payload] in *; autorewrite with zlen in *; zlen_pos.
  - rewrite (proj2 (Z.eqb_neq _ _)) by lia. cbn [negb].
    destruct (split_at ((255 :: pl) ++ tail) (hdr + zlen v)) as (x & y & Exy & Hx); [len_lia|].
    assert (Hy : zlen y = 1 + zlen pl + zlen tail - (hdr + zlen v))
      by (apply (f_equal zlen) in Exy; len_lia).
    destruct (split_at y (1 + zlen pl)) as (y1 & y2 & -> & Hy1); [lia|].
    unfold memmove. rewrite Hb, load_bytes_at by (done || rewrite size_t_id; len_lia).
    cbn [rbind]. rewrite Exy, app_assoc, store_bytes_at by len_lia.
    cbn [rbind set_len set_buf pdu_len pdu_buf pdu_max]. rewrite (size_t_id (pdu_len pdu + _)) by len_lia.
    rewrite !size_t_id by len_lia. unfold coap_adjust_option_deltas.
    assert (Hst : forall mx off, adjust_step (zlen pre + hdr + zlen v) mx off
      (mk_adjust ((pre ++ x) ++ (255 :: pl) ++ y2)
         (pdu_len pdu + (hdr + zlen v) - zlen pre) (zlen pre + hdr + zlen v) 0 0) =
      Ok (Break (CE_NONE, (pre ++ x) ++ (255 :: pl) ++ y2, pdu_len pdu + (hdr + zlen v) - zlen pre))).
    { intros mx off. unfold adjust_step. cbn [adj_mem adj_opts_len adj_fopt_val adj_fopt_len adj_fopt_num].
      rewrite size_t_id, (proj2 (Z.ltb_ge _ _)) by len_lia. unfold coap_decode_option.
      rewrite size_t_id, (proj2 (Z.eqb_neq _ 0)) by len_lia.
      rewrite <- app_comm_cons, load_at by len_lia. done. }
    rewrite loop_first; rewrite Hst; [|done]. cbn [rbind returns].
    exists x, y2. cbn [set_len set_buf pdu_buf pdu_len pdu_max pdu_addr]. rewrite <- !app_assoc.
    repeat split; try done.
    + apply (f_equal zlen) in Exy. len_lia.
    + rewrite size_t_id; len_lia.
  - rewrite (proj2 (Z.eqb_eq _ _)) by lia. cbn [negb returns].
    destruct (split_at tail (hdr + zlen v)) as (x & y & -> & Hx); [lia|].
    exists x, y. cbn [set_len pdu_buf pdu_len pdu_max pdu_addr]. rewrite Hb.
    repeat split; try done. rewrite size_t_id; lia.
Qed.

Lemma add_option_end :
  sets pdu m' (coap_add_option pdu num (v ++ junk) (zlen v)).
Proof.
  pose proof add_delta_range as Hd. pose proof (encode_fits pdu m HR) as [Hfe Hs].
  pose proof (header_len_range d (zlen v)) as Hh. fold hdr in Hh.
  assert (Hz' : zlen (encode m') = zlen (encode m) + hdr + zlen v).
  { rewrite encode_added, encode_before. rewrite !zlen_app, zlen_opt_header. fold hdr. lia. }
  unfold sets, coap_add_option. rewrite (get_tkl_scan pdu m HR). cbn [rbind].
  rewrite (find_insertion_end pdu m HR) by done. cbn [rbind].
  replace (negb _) with false by (by destruct (m_payload m)).
  fold d. rewrite s32_id by lia. fold hdr. rewrite u8_id by (unfold is_byte; lia).
  rewrite opts_pos_pre, (rep_len _ _ HR). zlen_pos. rewrite size_t_id, <- Hz' by lia.
  destruct (Z.ltb_spec (pdu_max pdu) (zlen (encode m'))) as [|Hfit]; [done|].
  pose proof (room_at_end Hfit) as Hroom.
  apply returns_inv in Hroom as (pdu1 & -> & x & y & Hb1 & Hx & Hl1 & Hlen1 & Hm1 & Ha1).
  cbn [rbind]. destruct (split_at x hdr) as (x1 & x2 & -> & Hx1); [lia|].
  rewrite zlen_app in Hx. rewrite Hb1, <- (app_assoc x1).
  unfold hdr. rewrite build_header_at by (done || lia || (rewrite zlen_opt_header; done)).
  fold hdr. cbn [rbind]. rewrite app_assoc. unfold memcpy. rewrite load_bytes_prefix by done. cbn [rbind].
  rewrite store_bytes_at by (rewrite ?zlen_app, ?zlen_opt_header; fold hdr; lia).
  cbn [rbind returns]. split; [done|]. split; [|done].
  constructor; cbn [snd set_buf pdu_buf pdu_len pdu_max]; try done.
  - apply wf_added.
  - exists y. rewrite encode_added. by rewrite <- !app_assoc.
  - rewrite Hm1, (rep_max _ _ HR), <- Hl1, Hb1. rewrite !zlen_app, zlen_opt_header. fold hdr. lia.
  - lia.
Qed.
End AddOption.

(** ** The payload *)

Section Payload.
Context (pdu : coap_pdu) (m : message) (HR : represents pdu m).

Lemma find_end :
  loop (find_end_step pdu) (4 + zlen (m_token m), 0) =
  Ok (match m_payload m with None => CE_END_OF_PACKET | Some _ => CE_FOUND_PAYLOAD_MARKER end,
      opts_pos m (m_options m)).
Proof.
  assert (H : returns (loop (find_end_step pdu) (4 + zlen (m_token m), 0)) (fun r => r =
    (match m_payload m with None => CE_END_OF_PACKET | Some _ => CE_FOUND_PAYLOAD_MARKER end,
     opts_pos m (m_options m)))).
  { eapply (loop_bounded _ (fun left '(fval, flen) =>
      exists o1 o2, m_options m = o1 ++ o2 /\ left = zlen o2 /\ fval + flen = opts_pos m o1)
      _ (zlen (m_options m))).
    - intros left [fval flen] (o1 & o2 & E & -> & Hp). unfold find_end_step.
      rewrite Hp, (decode_scan pdu m HR o1 o2) by done. cbn [rbind].
      destruct o2 as [|[k v] rest].
      + rewrite app_nil_r in E. subst o1. by destruct (m_payload m).
      + cbn [out_set default from_option id]. rewrite bool_decide_eq_true_2 by done. cbn [andb].
        pose proof (opts_pos_next pdu m HR o1 k v rest E) as Hn.
        pose proof (opts_pos_le pdu m HR o1 _ E).
        pose proof (header_len_range (k - last_num 0 o1) (zlen v)).
        rewrite opts_pos_snoc, zlen_opt_header in Hn. rewrite (rep_len _ _ HR). zlen_pos.
        rewrite size_t_id by lia. rewrite (proj2 (Z.ltb_lt (opts_pos m o1 + zlen v) _)) by lia.
        exists (zlen rest). split; [len_lia|]. exists (o1 ++ [(k, v)]), rest.
        rewrite opts_pos_snoc. repeat split. by rewrite <- app_assoc.
    - exists [], (m_options m). rewrite opts_pos_nil. repeat split. lia.
    - pose proof (zlen_options 0 (m_options m)). pose proof (encode_fits pdu m HR).
      pose proof (opts_pos_split m [] (m_options m) eq_refl). rewrite opts_pos_nil in *.
      cbn [last_num] in *. zlen_pos. lia. }
  apply returns_inv in H as (r & -> & ->). done.
Qed.

Context (pl junk : list Z) (Hpl : bytes pl).

Lemma set_payload_none : m_payload m = None -> zlen pl < 2 ^ 62 ->
  sets pdu (with_payload m (Some pl)) (coap_set_payload pdu (pl ++ junk) (zlen pl)).
Proof.
  intros Hn Hpl2. set (m' := with_payload m (Some pl)).
  pose proof (encode_fits pdu m HR) as [Hfe Hs].
  assert (He : encode m' = encode m ++ 255 :: pl).
  { unfold m', encode, with_payload. cbn [m_options m_payload]. rewrite Hn.
    cbn [encode_payload]. by rewrite app_nil_r, <- app_assoc. }
  assert (Hp : opts_pos m (m_options m) = zlen (encode m)).
  { pose proof (opts_pos_split m (m_options m) [] ltac:(by rewrite app_nil_r)) as H.
    rewrite Hn in H. cbn [encode_options encode_payload] in H. autorewrite with zlen in H. lia. }
  unfold sets, coap_set_payload. rewrite (get_tkl_scan pdu m HR). cbn [rbind].
  rewrite find_end, Hn. cbn [rbind]. rewrite Hp, (rep_len _ _ HR), He. autorewrite with zlen. zlen_pos.
  rewrite size_t_id by lia.
  destruct (Z.ltb_spec (pdu_max pdu) (zlen (encode m) + (1 + zlen pl))) as [|Hfit].
  - by rewrite (proj2 (Z.ltb_lt _ _)) by lia.
  - rewrite (proj2 (Z.ltb_ge _ _)) by lia.
    destruct (rep_buf _ _ HR) as [tail Hb]. pose proof (rep_max _ _ HR) as Hmax.
    rewrite Hb, zlen_app in Hmax. rewrite Hb.
    destruct tail as [|t tail]; [autorewrite with zlen in Hmax; lia|].
    rewrite store_at by done. cbn [rbind set_len set_buf pdu_buf].
    change (u8 255) with 255. unfold memcpy. rewrite load_bytes_prefix by done. cbn [rbind].
    destruct (split_at tail (zlen pl)) as (t1 & t2 & -> & Ht1); [len_lia|].
    rewrite (cons_middle 255), app_assoc, store_bytes_at by len_lia.
    cbn [rbind returns]. split; [done|]. split; [|done].
    constructor; cbn [snd set_buf set_len pdu_buf pdu_len pdu_max]; try done.
    + destruct (rep_wf _ _ HR). by constructor.
    + exists t2. rewrite He. by rewrite <- !app_assoc.
    + rewrite He, size_t_id; len_lia.
    + len_lia.
Qed.
End Payload.
