(* ===== verification/CoapClient.v ===== *)
(** * The PicoCoAP example client: printing packets

    [hex_dump] and [coap_pretty_print] of [picocoap/examples/posix/client.c].
    What is written to the standard output is a list of lines; a line keeps the
    arguments of its [printf]. *)

From S2P Require Import Prelude Mem CoapDefs CoapGet CoapMessage CoapGetFacts.

Inductive line :=
| LValid (len : Z)
| LType (t : Z)
| LCode (class detail : Z)
| LMid (mid : Z)
| LToken (token : Z)
| LOption (num : Z)
| LValue (text : list Z) (len : Z)
| LPayload (text : list Z) (len : Z)
| LInvalid (len : Z)
| LDump (i : Z) (row : list (option Z)) (text : list Z).

(** The characters [printf("%.*s", prec, p)] writes: up to a NUL or, when the
    precision is not negative, up to [prec] of them. *)
Definition printf_s (m : list Z) (p prec : Z) : res (list Z) :=
  loop (fun '(i, acc) =>
    if (0 <=? prec) && (prec <=? i) then Ok (Break acc)
    else
      let* c := load m (p + i) in
      if c =? 0 then Ok (Break acc) else Ok (Continue (i + 1, acc ++ [c]))) (0, []).

(** One row of the dump: sixteen columns, [None] where the data has ended. *)
Fixpoint dump_row (m : list Z) (bytes i len j : Z) (n : nat) : res (list (option Z)) :=
  match n with
  | O => Ok []
  | S n' =>
      let* c := if i + j <? len then let* b := load m (bytes + (i + j)) in Ok (Some b) else Ok None in
      let* rest := dump_row m bytes i len (j + 1) n' in
      Ok (c :: rest)
  end.

Definition hex_dump (m : list Z) (bytes len : Z) : res (list line) :=
  loop (fun '(i, out) =>
    if i <? len then
      let* row := dump_row m bytes i len 0 16 in
      let* text := printf_s m (bytes + i) (s32 (if len - i <? 16 then len - i else 16)) in
      Ok (Continue (i + 16, out ++ [LDump i row text]))
    else Ok (Break out)) (0, []).

(** [opt.val != NULL && opt.len != 0] and the line it guards. *)
Definition print_value (pdu : coap_pdu) (opt : coap_option) (k : list Z -> Z -> line)
    : res (list line) :=
  match opt_val opt with
  | Some v =>
      if negb (opt_len opt =? 0) then
        let* text := printf_s (pdu_buf pdu) v (s32 (opt_len opt)) in
        Ok [k text (opt_len opt)]
      else Ok []
  | None => Ok []
  end.

(** The [while] loop over the options; the state is [opt] and the output. *)
Definition print_step (pdu : coap_pdu) (st : coap_option * list line)
    : res (step (coap_option * list line) (coap_option * list line)) :=
  let '(opt, out) := st in
  let* opt := coap_get_option pdu (Some opt) in
  if negb (opt_num opt =? 0) then
    let* v := print_value pdu opt LValue in
    Ok (Continue (opt, out ++ LOption (opt_num opt) :: v))
  else Ok (Break (opt, out)).

Definition coap_pretty_print (pdu : coap_pdu) : res (list line * coap_pdu) :=
  let* '(err, pdu) := coap_validate_pkt pdu in
  if decide (err = CE_NONE) then
    let* t := coap_get_type pdu in
    let* class := coap_get_code_class pdu in
    let* detail := coap_get_code_detail pdu in
    let* mid := coap_get_mid pdu in
    let* token := coap_get_token pdu in
    let* '(opt, out) := loop (print_step pdu)
      (mk_option 0 0 None, [LValid (pdu_len pdu); LType t; LCode class detail; LMid mid; LToken token]) in
    (* Note: get_option returns payload pointer when it finds the payload marker *)
    let* p := print_value pdu opt LPayload in
    Ok (out ++ p, pdu)
  else
    let* d := hex_dump (pdu_buf pdu) 0 (pdu_len pdu) in
    Ok (LInvalid (pdu_len pdu) :: d, pdu).

(** ** What is printed for a packet that holds a message *)

(** The characters in front of the first NUL. *)
Fixpoint until_nul (v : list Z) : list Z :=
  match v with
  | [] => []
  | c :: v' => if c =? 0 then [] else c :: until_nul v'
  end.

Definition value_lines (v : list Z) (k : list Z -> Z -> line) : list line :=
  match v with
  | [] => []
  | _ => [k (until_nul v) (zlen v)]
  end.

Definition option_lines (o : Z * list Z) : list line :=
  LOption (fst o) :: value_lines (snd o) LValue.

Definition header_lines (m : message) : list line :=
  [LValid (zlen (encode m)); LType (m_type m); LCode (m_code m / 32) (m_code m mod 32);
   LMid (m_mid m); LToken (le_value (m_token m))].

(** The payload is printed only when it directly follows the token. *)
Definition payload_lines (m : message) : list line :=
  match m_options m, m_payload m with
  | [], Some pl => value_lines pl LPayload
  | _, _ => []
  end.

Lemma printf_s_at pre v post p :
  p = zlen pre -> zlen v < 2 ^ 31 ->
  printf_s (pre ++ v ++ post) p (s32 (zlen v)) = Ok (until_nul v).
Proof.
  intros -> Hv. pose proof (zlen_nonneg v). rewrite s32_id by lia.
  assert (H1 : returns (printf_s (pre ++ v ++ post) (zlen pre) (zlen v)) (fun r => r = until_nul v)).
  { eapply (loop_bounded _ (fun left '(i, acc) => exists v1 v2, v = v1 ++ v2 /\ i = zlen v1 /\
      left = zlen v2 /\ until_nul v = acc ++ until_nul v2) _ (zlen v)); [|by exists [], v|lia].
    intros left [i acc] (v1 & v2 & -> & -> & -> & Hu).
    rewrite (proj2 (Z.leb_le 0 _)) by done. cbn [andb].
    destruct v2 as [|c v2].
    - rewrite zlen_app, zlen_nil. zdecide. simpl. by rewrite Hu, app_nil_r.
    - rewrite zlen_app, zlen_cons in *. pose proof (zlen_nonneg v2). zdecide.
      rewrite <- app_assoc, app_assoc, <- app_comm_cons, load_at by len_lia. cbn [rbind].
      cbn [until_nul] in Hu. destruct (Z.eqb_spec c 0).
      + simpl. by rewrite Hu, app_nil_r.
      + exists (zlen v2). split; [lia|]. exists (v1 ++ [c]), v2. rewrite <- !app_assoc.
        repeat split; [len_lia|done]. }
  apply returns_inv in H1 as (? & -> & ->). done.
Qed.

Section Print.
Context (pdu : coap_pdu) (m : message) (HR : represents pdu m) (Hsmall : pdu_max pdu < 2 ^ 31).

Lemma print_bytes p v k n :
  load_bytes (pdu_buf pdu) p (zlen v) = Ok v -> zlen v <= pdu_max pdu ->
  print_value pdu (mk_option n (zlen v) (Some p)) k = Ok (value_lines v k).
Proof.
  intros Hl Hmax. unfold print_value. cbn [opt_val opt_len]. destruct v as [|c v]; [done|].
  assert (Hn : zlen (c :: v) <> 0) by len_lia. rewrite (proj2 (Z.eqb_neq _ 0) Hn). cbn [negb].
  unfold load_bytes in Hl. rewrite (proj2 (Z.eqb_neq _ 0) Hn) in Hl.
  destruct (_ && _) eqn:Ec; [|done]. apply andb_true_iff in Ec as [Ec E3].
  apply andb_true_iff in Ec as [E1 _]. apply Z.leb_le in E1, E3. injection Hl as Hl.
  assert (Hb : pdu_buf pdu = take (Z.to_nat p) (pdu_buf pdu) ++ (c :: v) ++
     drop (Z.to_nat (zlen (c :: v))) (drop (Z.to_nat p) (pdu_buf pdu))).
  { rewrite <- Hl at 1. by rewrite !take_drop. }
  rewrite Hb, printf_s_at; [done| |lia]. rewrite zlen_take; zlen_pos; lia.
Qed.

(** The loop prints the options in order and ends with what ends the iteration. *)
Lemma print_options out :
  Forall (fun o => 0 < fst o) (m_options m) ->
  loop (print_step pdu) (mk_option 0 0 None, out) =
  Ok (end_option pdu m (m_options m), out ++ concat (map option_lines (m_options m))).
Proof.
  intros Hpos.
  assert (H1 : returns (loop (print_step pdu) (mk_option 0 0 None, out)) (fun r => r =
    (end_option pdu m (m_options m), out ++ concat (map option_lines (m_options m))))).
  { eapply (loop_bounded _ (fun left '(opt, acc) => exists o1 o2, m_options m = o1 ++ o2 /\
      left = zlen o2 /\ cursor m o1 (Some opt) /\ acc = out ++ concat (map option_lines o1)) _
      (zlen (m_options m))).
    - intros left [opt acc] (o1 & o2 & E & -> & Hc & ->). unfold print_step.
      rewrite (get_option_unfold pdu m HR o1 o2 (Some opt) E Hc). cbn [rbind].
      destruct o2 as [|[k v] rest].
      + rewrite app_nil_r in E. subst o1.
        replace (opt_num (end_option pdu m (m_options m))) with 0; [done|].
        unfold end_option. by destruct (m_payload m), (m_options m).
      + assert (0 < k). { rewrite E in Hpos. apply Forall_app in Hpos as [_ Hp]. by inversion Hp. }
        cbn [opt_num opt_at]. rewrite (proj2 (Z.eqb_neq k 0)) by lia. cbn [negb].
        unfold opt_at at 1. rewrite print_bytes.
        * cbn [rbind returns]. exists (zlen rest). split; [len_lia|].
          exists (o1 ++ [(k, v)]), rest. split; [by rewrite <- app_assoc|]. split; [done|].
          split; [constructor; lia|]. rewrite map_app, concat_app, app_assoc. simpl. by rewrite app_nil_r.
        * apply (option_bytes pdu m HR o1 k v rest E).
        * pose proof (opts_pos_next pdu m HR o1 k v rest E). rewrite opts_pos_snoc in *.
          pose proof (opts_pos_le pdu m HR o1 _ E). pose proof (encode_fits pdu m HR). zlen_pos. lia.
    - exists [], (m_options m). split; [done|]. split; [done|]. split; [by constructor|].
      by rewrite app_nil_r.
    - pose proof (zlen_options 0 (m_options m)). pose proof (encode_fits pdu m HR).
      pose proof (opts_pos_split m [] (m_options m) eq_refl). rewrite opts_pos_nil in *.
      cbn [last_num] in *. zlen_pos. lia. }
  apply returns_inv in H1 as (? & -> & ->). done.
Qed.

Lemma print_end :
  print_value pdu (end_option pdu m (m_options m)) LPayload = Ok (payload_lines m).
Proof.
  unfold end_option, payload_lines. destruct (m_options m) as [|o os] eqn:Eo, (m_payload m) as [pl|] eqn:Ep;
    try done. pose proof (payload_bytes pdu m HR pl Ep) as Hl. rewrite Eo in Hl.
  apply print_bytes; [exact Hl|]. pose proof (encode_fits pdu m HR).
  pose proof (opts_pos_split m [] (m_options m) eq_refl) as Hs. rewrite Ep, opts_pos_nil in Hs.
  cbn [encode_payload] in Hs. autorewrite with zlen in Hs. zlen_pos. lia.
Qed.
End Print.

(** Everything that is printed for a message. *)
Definition message_lines (m : message) : list line :=
  header_lines m ++ concat (map option_lines (m_options m)) ++ payload_lines m.

Lemma pretty_print_rep pdu m :
  represents pdu m -> pdu_max pdu < 2 ^ 31 -> m_ver m = 1 -> Forall (fun o => 0 < fst o) (m_options m) ->
  coap_pretty_print pdu = Ok (message_lines m, set_opt_ptr pdu None).
Proof.
  intros HR Hs Hv Hpos. unfold coap_pretty_print. rewrite (validate_rep pdu m HR Hv). cbn [rbind].
  assert (HR' : represents (set_opt_ptr pdu None) m) by (by destruct HR; constructor).
  set (pdu' := set_opt_ptr pdu None) in *. destruct (decide _) as [_|c]; [|by destruct c].
  rewrite (get_type_rep pdu' m HR'), (get_class_rep pdu' m HR'), (get_detail_rep pdu' m HR'),
    (get_mid_rep pdu' m HR'), (get_token_rep pdu' m HR'). cbn [rbind].
  rewrite (print_options pdu' m HR' Hs) by done. cbn [rbind].
  rewrite (print_end pdu' m HR' Hs). cbn [rbind]. rewrite (rep_len _ _ HR'). by rewrite <- app_assoc.
Qed.

(** ** What is printed for other datagrams *)

(** Printing up to [prec] characters stays within them. *)
Lemma printf_s_returns m p prec : 0 <= p -> 0 <= prec < 2 ^ 31 -> p + prec <= zlen m ->
  returns (printf_s m p (s32 prec)) (fun _ => True).
Proof.
  intros Hp Hprec Hm. rewrite s32_id by lia. unfold printf_s.
  apply (loop_total _ (fun '(i, _) => 0 <= i <= prec) (fun '(i, _) => prec - i)); [|lia|lia].
  intros [i acc] Hi. rewrite (proj2 (Z.leb_le 0 prec)) by lia. cbn [andb].
  destruct (Z.leb_spec prec i); [done|]. destruct (load_ok m (p + i)) as (c & -> & _); [lia|]. cbn [rbind].
  destruct (c =? 0); [done|]. cbn. lia.
Qed.

Lemma dump_row_returns m len i n : 0 <= i -> len <= zlen m -> forall j, 0 <= j ->
  returns (dump_row m 0 i len j n) (fun _ => True).
Proof.
  intros Hi Hlen. induction n as [|n IH]; intros j Hj; [done|]. cbn [dump_row].
  apply (returns_bind _ _ (fun _ => True)).
  - destruct (Z.ltb_spec (i + j) len); [|done]. by destruct (load_ok m (0 + (i + j))) as (c & -> & _); [lia|].
  - intros c _. eapply returns_bind; [apply IH; lia|]. done.
Qed.

Lemma hex_dump_returns m len : 0 <= len < 2 ^ 31 -> len <= zlen m -> returns (hex_dump m 0 len) (fun _ => True).
Proof.
  intros Hl Hm. unfold hex_dump.
  apply (loop_total _ (fun '(i, _) => 0 <= i) (fun '(i, _) => len - i + 16)); [|lia|lia].
  intros [i out] Hi. destruct (Z.ltb_spec i len); [|done].
  eapply returns_bind; [apply dump_row_returns; lia|]. intros row _.
  eapply returns_bind; [apply printf_s_returns; [lia|zcase; lia|zcase; lia]|]. intros text _. cbn. lia.
Qed.
