(* ===== verification/CoapExample.v ===== *)
(** * The PicoCoAP example client

    [main] of [picocoap/examples/posix/client.c]: every second it asks a server for
    the value of a dataport with a confirmable GET, waits for one datagram and
    prints it.  The network is a script of what the system calls will answer; what
    the program prints is a list of [output]. *)

From S2P Require Import Prelude Mem CoapDefs CoapGet CoapSet CoapMessage CoapGetFacts CoapSetFacts CoapOptionFacts CoapClient.

(** ** The operating system *)

(** [sn_recv]: the datagrams that [recvfrom] will find, [None] for an error; when
    there are no more it waits forever. *)
Record network := mk_network {
  sn_rand : list Z;
  sn_send_fails : list bool;
  sn_recv : list (option (list Z));
  sn_sent : list (list Z)
}.

Inductive output :=
| ORule
| OSent
| OGotValid
| OIsResponse
| ONotValid (len : Z)
| OError
| OPrint (l : line).

Definition rand (n : network) : Z * network :=
  match sn_rand n with
  | [] => (0, n)
  | r :: q => (r mod 2 ^ 31, mk_network q (sn_send_fails n) (sn_recv n) (sn_sent n))
  end.

(** [sendto], false when it fails. *)
Definition sendto (bs : list Z) (n : network) : bool * network :=
  match sn_send_fails n with
  | true :: q => (false, mk_network (sn_rand n) q (sn_recv n) (sn_sent n))
  | false :: q => (true, mk_network (sn_rand n) q (sn_recv n) (sn_sent n ++ [bs]))
  | [] => (true, mk_network (sn_rand n) [] (sn_recv n) (sn_sent n ++ [bs]))
  end.

Inductive received :=
| Got (bs : list Z)
| Failed
| Waiting.

(** [recvfrom] into a buffer of [size] bytes, which cuts longer datagrams. *)
Definition recvfrom (size : Z) (n : network) : received * network :=
  match sn_recv n with
  | [] => (Waiting, n)
  | None :: q => (Failed, mk_network (sn_rand n) (sn_send_fails n) q (sn_sent n))
  | Some bs :: q => (Got (take (Z.to_nat size) bs), mk_network (sn_rand n) (sn_send_fails n) q (sn_sent n))
  end.

(** The [for] loop over the addresses: is there one for which [socket] succeeds? *)
Fixpoint pick_socket (sockets : list bool) : bool :=
  match sockets with
  | [] => false
  | ok :: l => if ok then true else pick_socket l
  end.

(** ** The program *)

Definition MSG_BUF_LEN : Z := 64.
Definition alias : list Z := lit "temp" ++ [0].
Definition cik : list Z := lit "a32c85ba9dda45823be416246cf8b433baa068d7" ++ [0].

Record client := mk_client {
  msg_send : coap_pdu;
  msg_recv : coap_pdu;
  message_id_counter : Z;
  net : network;
  out : list output
}.

(** How a program stands: in its loop, over with an exit status, or waiting. *)
Inductive progress :=
| Running (c : client)
| Exited (status : Z) (c : client)
| Blocked (c : client).

(** Lines 75 to 85; the status codes are ignored. *)
Definition build_get (pdu : coap_pdu) (mid token : Z) : res coap_pdu :=
  let* '(_, pdu) := coap_init_pdu pdu in
  let* '(_, pdu) := coap_set_version pdu COAP_V1 in
  let* '(_, pdu) := coap_set_type pdu CT_CON in
  let* '(_, pdu) := coap_set_code pdu CC_GET in
  let* '(_, pdu) := coap_set_mid pdu mid in
  let* '(_, pdu) := coap_set_token pdu token 2 in
  let* '(_, pdu) := coap_add_option pdu CON_URI_PATH (lit "1a" ++ [0]) 2 in
  let* n := strlen alias in
  let* '(_, pdu) := coap_add_option pdu CON_URI_PATH alias (u16 n) in
  let* n := strlen cik in
  let* '(_, pdu) := coap_add_option pdu CON_URI_QUERY cik (u16 n) in
  Ok pdu.

(** Lines 105 to 119: the datagram in [recv] as an answer to [send]. *)
Definition judge (send recv : coap_pdu) : res (list output * coap_pdu) :=
  let* '(err, recv) := coap_validate_pkt recv in
  if decide (err = CE_NONE) then
    let* mid := coap_get_mid recv in
    let* mid' := coap_get_mid send in
    let* hit :=
      if mid =? mid' then
        let* token := coap_get_token recv in
        let* token' := coap_get_token send in
        Ok (token =? token')
      else Ok false in
    if (hit : bool) then
      let* '(lines, recv) := coap_pretty_print recv in
      Ok ([OGotValid; OIsResponse] ++ List.map OPrint lines, recv)
    else Ok ([OGotValid], recv)
  else
    let* lines := hex_dump (pdu_buf recv) 0 (pdu_len recv) in
    Ok (ONotValid (pdu_len recv) :: List.map OPrint lines, recv).

(** One round of [for (;;)]. *)
Definition client_round (c : client) : res progress :=
  let mid := message_id_counter c in
  let '(r, n) := rand (net c) in
  let* send := build_get (msg_send c) mid r in
  let c := mk_client send (msg_recv c) (u16 (mid + 1)) n (out c ++ [ORule]) in
  let* bs := load_bytes (pdu_buf send) 0 (pdu_len send) in
  let '(sent, n) := sendto bs n in
  if negb sent then Ok (Exited 2 (mk_client send (msg_recv c) (message_id_counter c) n (out c ++ [OError])))
  else
    let* '(lines, send) := coap_pretty_print send in
    let printed := out c ++ OSent :: List.map OPrint lines in
    match recvfrom (pdu_max (msg_recv c)) n with
    | (Waiting, n) => Ok (Blocked (mk_client send (msg_recv c) (message_id_counter c) n printed))
    | (Failed, n) => Ok (Exited 1 (mk_client send (msg_recv c) (message_id_counter c) n (printed ++ [OError])))
    | (Got data, n) =>
        let* m := store_bytes (pdu_buf (msg_recv c)) 0 data in
        let recv := set_len (set_buf (msg_recv c) m) (zlen data) in
        let* '(verdict, recv) := judge send recv in
        Ok (Running (mk_client send recv (message_id_counter c) n (printed ++ verdict)))
    end.

Fixpoint client_rounds (k : nat) (c : client) : res progress :=
  match k with
  | O => Ok (Running c)
  | S k' =>
      let* p := client_round c in
      match p with
      | Running c => client_rounds k' c
      | _ => Ok p
      end
  end.

(** [main] for up to [k] rounds.  [servinfo] is what [getaddrinfo] finds: for each
    address whether [socket] succeeds.  The two buffers are on the stack. *)
Definition client_main (k : nat) (addr1 : Z) (stack1 : list Z) (addr2 : Z) (stack2 : list Z)
    (servinfo : option (list bool)) (n : network) : res progress :=
  let send := mk_pdu addr1 stack1 0 MSG_BUF_LEN None in
  let recv := mk_pdu addr2 stack2 0 MSG_BUF_LEN None in
  let '(r, n) := rand n in
  let c := mk_client send recv (u16 r) n [] in
  match servinfo with
  | None => Ok (Exited 1 (mk_client send recv (u16 r) n [OError]))
  | Some sockets =>
      if negb (pick_socket sockets) then Ok (Exited 2 (mk_client send recv (u16 r) n [OError]))
      else client_rounds k c
  end.
