(* ===== verification/CoapExampleProps.v ===== *)
(** * The PicoCoAP example client: properties

    What [main] of [picocoap/examples/posix/client.c] sends, and how it judges the
    datagram it receives. *)

From S2P Require Import Prelude Mem CoapDefs CoapGet CoapSet CoapMessage CoapGetFacts CoapSetFacts CoapOptionFacts CoapClient CoapExample.

(** ** The request *)

Definition key : list Z := lit "a32c85ba9dda45823be416246cf8b433baa068d7".

(** The GET for the dataport with message id [mid] and a token from [r]. *)
Definition get_msg (mid r : Z) : message :=
  mk_msg 1 CT_CON CC_GET mid (le_bytes 2 r) [(11, lit "1a"); (11, lit "temp"); (15, key)] None.

(** A packet in a buffer of 64 bytes. *)
Definition buffer64 (pdu : coap_pdu) : Prop := pdu_max pdu = 64 /\ zlen (pdu_buf pdu) = 64.

Lemma rep_buffer64 pdu m : represents pdu m -> pdu_max pdu = 64 -> buffer64 pdu.
Proof. intros HR Hm. split; [done|]. by rewrite <- (rep_max _ _ HR). Qed.

(** Use what a setter does when the message fits. *)
Lemma sets_fits pdu m' c : sets pdu m' c -> zlen (encode m') <= pdu_max pdu -> returns c (updates pdu m').
Proof. unfold sets. intros Hs Hf. by rewrite (proj2 (Z.ltb_ge _ _) Hf) in Hs. Qed.

Ltac setter H p :=
  eapply returns_bind; [exact H|]; intros [? p] (_ & ?HR & ?Hmx & _); cbn [snd] in *.

Lemma build_get_rep pdu mid r : buffer64 pdu -> 0 <= mid < 65536 ->
  returns (build_get pdu mid r) (fun p => represents p (get_msg mid r) /\ buffer64 p).
Proof.
  intros [Hmax Hbuf] Hmid. unfold build_get.
  setter (init_pdu_rep pdu ltac:(lia) ltac:(lia)) p0.
  setter (set_version_rep p0 _ HR 1 ltac:(lia)) p1. setter (set_type_rep p1 _ HR0 0 ltac:(lia)) p2.
  setter (set_code_rep p2 _ HR1 1 ltac:(unfold is_byte; lia)) p3. setter (set_mid_rep p3 _ HR2 mid Hmid) p4.
  setter (sets_fits _ _ _ (set_token_rep p4 _ HR3 2 ltac:(lia) r) ltac:(replace (pdu_max p4) with 64 by lia; vm_compute; discriminate)) p5.
  setter (sets_fits _ _ _ (add_option_end p5 _ HR4 11 (lit "1a") [0] ltac:(lia) ltac:(by apply bytes_eval) ltac:(done)
    ltac:(constructor)) ltac:(replace (pdu_max p5) with 64 by lia; vm_compute; discriminate)) p6.
  change (strlen alias) with (@Ok Z 4). cbn [rbind]. change (u16 4) with (zlen (lit "temp")).
  setter (sets_fits _ _ _ (add_option_end p6 _ HR5 11 (lit "temp") [0] ltac:(lia) ltac:(by apply bytes_eval) ltac:(done)
    ltac:(by repeat constructor)) ltac:(replace (pdu_max p6) with 64 by lia; vm_compute; discriminate)) p7.
  change (strlen cik) with (@Ok Z 40). cbn [rbind]. change (u16 40) with (zlen key).
  setter (sets_fits _ _ _ (add_option_end p7 _ HR6 15 key [0] ltac:(lia) ltac:(by apply bytes_eval) ltac:(done)
    ltac:(by repeat constructor)) ltac:(replace (pdu_max p7) with 64 by lia; vm_compute; discriminate)) p8.
  cbn. split; [exact HR7|]. eapply rep_buffer64; [exact HR7|lia].
Qed.

(** ** The answer *)

Lemma rep_unset pdu m : represents pdu m -> represents (set_opt_ptr pdu None) m.
Proof. intros []. by constructor. Qed.

(** The message [m] answers the request [q]. *)
Definition answers (m q : message) : bool :=
  (m_mid m =? m_mid q) && (le_value (m_token m) =? le_value (m_token q)).

Definition verdict (m q : message) : list output :=
  OGotValid :: if answers m q then OIsResponse :: List.map OPrint (message_lines m) else [].

Lemma judge_rep send q recv m : represents send q -> represents recv m -> pdu_max recv = 64 -> m_ver m = 1 ->
  Forall (fun o => 0 < fst o) (m_options m) ->
  judge send recv = Ok (verdict m q, set_opt_ptr recv None).
Proof.
  intros Hq Hm Hmax Hv Hpos. unfold judge. rewrite (validate_rep recv m Hm Hv). cbn [rbind].
  rewrite decide_True by done. pose proof (rep_unset recv m Hm) as Hm'. set (recv' := set_opt_ptr recv None) in *.
  rewrite (get_mid_rep recv' m Hm'), (get_mid_rep send q Hq). cbn [rbind]. unfold verdict, answers.
  destruct (_ =? _); cbn [andb rbind]; [|done].
  rewrite (get_token_rep recv' m Hm'), (get_token_rep send q Hq). cbn [rbind]. destruct (_ =? _); [|done].
  by rewrite (pretty_print_rep recv' m Hm') by (done || (simpl; lia)).
Qed.

(** ** One round *)

Record client_ok (c : client) : Prop := mk_client_ok {
  ok_send : buffer64 (msg_send c);
  ok_recv : buffer64 (msg_recv c);
  ok_counter : 0 <= message_id_counter c < 65536
}.

(** The datagram [data] in the receive buffer. *)
Lemma store_received pdu data : buffer64 pdu -> zlen data <= 64 -> exists y,
  store_bytes (pdu_buf pdu) 0 data = Ok (data ++ y) /\ zlen (data ++ y) = 64.
Proof.
  intros [Hmax Hbuf] Hd. destruct (split_at (pdu_buf pdu) (zlen data)) as (x & y & E & Hx); [zlen_pos; lia|].
  exists y. rewrite E in Hbuf |- *. rewrite zlen_app in *. split; [by apply (store_bytes_at [] x y data)|lia].
Qed.

Lemma received_rep pdu m y : buffer64 pdu -> wf_msg m -> zlen (encode m ++ y) = 64 ->
  represents (set_len (set_buf pdu (encode m ++ y)) (zlen (encode m))) m.
Proof.
  intros [Hmax _] Hwf Hl. rewrite zlen_app in Hl.
  constructor; cbn [set_len set_buf pdu_buf pdu_len pdu_max]; [done|by exists y| | |lia].
  - rewrite size_t_id; zlen_pos; lia.
  - rewrite zlen_app. lia.
Qed.

(** The request goes out and is printed. *)
Lemma round_sends c r n : client_ok c -> rand (net c) = (r, n) -> exists p,
  build_get (msg_send c) (message_id_counter c) r = Ok p /\
  represents p (get_msg (message_id_counter c) r) /\ buffer64 p /\
  load_bytes (pdu_buf p) 0 (pdu_len p) = Ok (encode (get_msg (message_id_counter c) r)) /\
  coap_pretty_print p = Ok (message_lines (get_msg (message_id_counter c) r), set_opt_ptr p None).
Proof.
  intros [Hs _ Hc] Hr. pose proof (build_get_rep (msg_send c) (message_id_counter c) r Hs Hc) as Hb.
  apply returns_inv in Hb as (p & -> & HR & Hp). exists p. split; [done|]. split; [done|]. split; [done|]. split.
  - destruct (rep_buf _ _ HR) as [tail ->]. by rewrite load_bytes_prefix by apply (rep_len _ _ HR).
  - apply pretty_print_rep; [done|destruct Hp; lia|done|by repeat constructor].
Qed.

(** C31. Every round of the example client sends exactly the confirmable GET for its
    dataport, 56 bytes with the next message id and a fresh token, and prints it;
    of a CoAP message that arrives it says that it is valid, and prints it as the
    response exactly when its message id and its token are those of the request. *)
Theorem example_client_round c r n m q :
  client_ok c -> rand (net c) = (r, n) -> sn_send_fails n = [] -> sn_recv n = Some (encode m) :: q ->
  wf_msg m -> m_ver m = 1 -> zlen (encode m) <= 64 -> Forall (fun o => 0 < fst o) (m_options m) ->
  let request := get_msg (message_id_counter c) r in
  exists c', client_round c = Ok (Running c') /\ client_ok c' /\
    sn_sent (net c') = sn_sent n ++ [encode request] /\ zlen (encode request) = 56 /\
    message_id_counter c' = u16 (message_id_counter c + 1) /\
    out c' = out c ++ [ORule; OSent] ++ List.map OPrint (message_lines request) ++ verdict m request.
Proof.
  intros Hc Hr Hsf Hrecv Hwf Hv Hl Hpos request. destruct (round_sends c r n Hc Hr) as (p & Hb & HR & Hp & Hld & Hpr).
  destruct (store_received (msg_recv c) (encode m) (ok_recv _ Hc) Hl) as (y & Hst & Hy).
  pose proof (received_rep (msg_recv c) m y (ok_recv _ Hc) Hwf Hy) as Hrm.
  assert (Hrmax : pdu_max (msg_recv c) = 64) by apply (ok_recv _ Hc).
  unfold client_round. rewrite Hr, Hb. cbn [rbind]. rewrite Hld. cbn [rbind]. unfold sendto. rewrite Hsf. cbn [negb].
  rewrite Hpr. cbn [rbind msg_recv]. unfold recvfrom. cbn [sn_recv]. rewrite Hrecv, Hrmax.
  rewrite take_ge by (unfold zlen in Hl; lia). cbn [msg_recv] in *. rewrite Hst. cbn [rbind].
  rewrite (judge_rep _ _ _ m (rep_unset p _ HR) Hrm) by done. cbn [rbind]. eexists. split; [reflexivity|].
  split; [|split; [done|split; [reflexivity|split; [done|]]]].
  - constructor; cbn [msg_send msg_recv message_id_counter]; [by destruct Hp|by split|].
    unfold u16. apply Z.mod_pos_bound. lia.
  - cbn [out]. rewrite <- !app_assoc. done.
Qed.

(** ** Many rounds *)

(** A datagram that is a CoAP message of any version, or too short for one, and fits
    the buffer. *)
Definition message_or_short (bs : list Z) : Prop :=
  zlen bs <= 64 /\
  (zlen bs < 4 \/ exists m, bs = encode m /\ wf_msg m /\ Forall (fun o => 0 < fst o) (m_options m)).

Definition network_ok (n : network) : Prop :=
  Forall (fun e => match e with Some bs => message_or_short bs | None => True end) (sn_recv n).

Lemma judge_invalid send recv : 0 <= pdu_len recv <= zlen (pdu_buf recv) -> zlen (pdu_buf recv) = 64 ->
  coap_validate_pkt recv = Ok (CE_INVALID_PACKET, set_opt_ptr recv None) ->
  returns (judge send recv) (fun '(_, p) => p = set_opt_ptr recv None).
Proof.
  intros Hl Hb Hv. unfold judge. rewrite Hv. cbn [rbind]. rewrite decide_False by done.
  eapply returns_bind; [apply hex_dump_returns; cbn [set_opt_ptr pdu_len pdu_buf]; lia|]. done.
Qed.

Lemma validate_short pdu : pdu_len pdu < 4 -> pdu_max pdu = 64 ->
  coap_validate_pkt pdu = Ok (CE_INVALID_PACKET, set_opt_ptr pdu None).
Proof.
  intros Hl Hm. unfold coap_validate_pkt. cbn [set_opt_ptr pdu_max pdu_len].
  destruct (_ <? _); [done|]. by rewrite (proj2 (Z.ltb_lt _ _) Hl).
Qed.

Lemma judge_safe send q pdu data y : represents send q -> buffer64 pdu -> message_or_short data ->
  zlen (data ++ y) = 64 ->
  returns (judge send (set_len (set_buf pdu (data ++ y)) (zlen data))) (fun '(_, p) => buffer64 p).
Proof.
  intros Hq Hp [Hl Hd] Hy. set (recv := set_len (set_buf pdu (data ++ y)) (zlen data)).
  assert (Hlen : pdu_len recv = zlen data) by (cbn; rewrite size_t_id; zlen_pos; lia).
  assert (Hkeep : forall p, p = set_opt_ptr recv None -> buffer64 p) by (intros p ->; by destruct Hp).
  assert (Hinv : coap_validate_pkt recv = Ok (CE_INVALID_PACKET, set_opt_ptr recv None) ->
    returns (judge send recv) (fun '(_, p) => buffer64 p)).
  { intros Hv. eapply returns_mono; [apply judge_invalid; [rewrite Hlen; cbn; zlen_pos; lia|done|done]|].
    intros [o p]. apply Hkeep. }
  destruct Hd as [Hs|(m & -> & Hwf & Hpos)]; [apply Hinv, validate_short; [lia|by destruct Hp]|].
  pose proof (received_rep pdu m y Hp Hwf Hy) as Hm. fold recv in Hm. destruct (Z.eq_dec (m_ver m) 1) as [Hv|Hv].
  - rewrite (judge_rep send q recv m Hq Hm) by (done || by destruct Hp). by apply Hkeep.
  - apply Hinv. by apply (validate_other_version recv m Hm).
Qed.

Lemma rand_keeps n : network_ok n -> network_ok (snd (rand n)).
Proof. unfold rand. by destruct (sn_rand n). Qed.

Lemma round_safe c : client_ok c -> network_ok (net c) ->
  returns (client_round c) (fun p => match p with Running c' => client_ok c' /\ network_ok (net c') | _ => True end).
Proof.
  intros Hc Hn. destruct (rand (net c)) as [r n] eqn:Hr.
  assert (Hn1 : network_ok n) by (pose proof (rand_keeps _ Hn) as H; by rewrite Hr in H).
  destruct (round_sends c r n Hc Hr) as (p & Hb & HR & Hp & Hld & Hpr).
  unfold client_round. rewrite Hr, Hb. cbn [rbind]. rewrite Hld. cbn [rbind].
  destruct (sendto _ n) as [ok n2] eqn:Hs. destruct ok; cbn [negb]; [|done]. rewrite Hpr. cbn [rbind msg_recv].
  assert (Hn2 : sn_recv n2 = sn_recv n) by (unfold sendto in Hs; destruct (sn_send_fails n) as [|[] ?]; by simplify_eq).
  unfold recvfrom. rewrite Hn2. unfold network_ok in Hn1.
  destruct (sn_recv n) as [|[bs|] q] eqn:Eq; [done| |done]. apply Forall_cons in Hn1 as [Hbs Hq].
  assert (Hrmax : pdu_max (msg_recv c) = 64) by apply (ok_recv _ Hc). rewrite Hrmax.
  rewrite take_ge by (destruct Hbs; unfold zlen in *; lia).
  destruct (store_received (msg_recv c) bs (ok_recv _ Hc)) as (y & -> & Hy); [by destruct Hbs|]. cbn [rbind].
  eapply returns_bind; [by eapply judge_safe; [apply rep_unset; exact HR|apply (ok_recv _ Hc)|..]|].
  intros [o p'] Hp'. cbn. split; [|done]. constructor; cbn; [by destruct Hp|done|].
  unfold u16. apply Z.mod_pos_bound. lia.
Qed.

Lemma rounds_safe k : forall c, client_ok c -> network_ok (net c) -> returns (client_rounds k c) (fun _ => True).
Proof.
  induction k as [|k IH]; intros c Hc Hn; [done|]. cbn [client_rounds].
  eapply returns_bind; [by apply round_safe|]. intros [c'| |] Hp; [|done|done]. destruct Hp. by apply IH.
Qed.

(** C32. The example client has no undefined behaviour over any number of rounds, as
    long as what arrives are CoAP messages of any version and type, or datagrams
    too short for one, that fit its 64 bytes.  It ends with status 1 when the name
    cannot be resolved and with status 2 when no address gives a socket, before
    anything is sent. *)
Theorem example_client_safe k addr1 stack1 addr2 stack2 servinfo n :
  zlen stack1 = 64 -> zlen stack2 = 64 -> network_ok n ->
  returns (client_main k addr1 stack1 addr2 stack2 servinfo n) (fun p =>
    match servinfo with
    | None => exists c, p = Exited 1 c /\ sn_sent (net c) = sn_sent n
    | Some sockets => existsb id sockets = false -> exists c, p = Exited 2 c /\ sn_sent (net c) = sn_sent n
    end).
Proof.
  intros H1 H2 Hn. unfold client_main. pose proof (rand_keeps n Hn) as Hn1.
  assert (Hsent : sn_sent (snd (rand n)) = sn_sent n) by (unfold rand; by destruct (sn_rand n)).
  destruct (rand n) as [r n1]. cbn [snd] in *. destruct servinfo as [sockets|]; [|by eexists].
  assert (Hpick : pick_socket sockets = existsb id sockets) by (induction sockets as [|[] l IH]; [done|done|exact IH]).
  rewrite Hpick. destruct (existsb id sockets); cbn [negb]; [|by eexists].
  eapply returns_mono; [apply rounds_safe; [|done]|done].
  constructor; cbn; [done|done|]. unfold u16. apply Z.mod_pos_bound. lia.
Qed.

(** ** Instances *)

Definition sample_client (recv : list (option (list Z))) : client :=
  mk_client (mk_pdu 4096 (List.repeat 170 64) 0 64 None) (mk_pdu 8192 (List.repeat 170 64) 0 64 None) 65535
    (mk_network [0x12345] [] recv []) [].

(** The answer "21.5" to the first request. *)
Definition sample_answer : message :=
  mk_msg 1 CT_ACK CC_CONTENT 65535 [0x45; 0x23] [] (Some (lit "21.5")).

Lemma sample_answer_wf : wf_msg sample_answer.
Proof. constructor; vm_compute; repeat (split || constructor || discriminate). Qed.

Lemma example_client_round_witness :
  exists c', client_round (sample_client [Some (encode sample_answer)]) = Ok (Running c') /\
    message_id_counter c' = 0 /\ last (out c') = Some (OPrint (LPayload (lit "21.5") 4)).
Proof.
  destruct (example_client_round (sample_client [Some (encode sample_answer)]) 0x12345
    (mk_network [] [] [Some (encode sample_answer)] []) sample_answer []) as (c' & Hc & _ & _ & _ & Hm & Ho).
  - constructor; [split; reflexivity|split; reflexivity|cbn; lia].
  - reflexivity.
  - reflexivity.
  - reflexivity.
  - exact sample_answer_wf.
  - reflexivity.
  - vm_compute. discriminate.
  - constructor.
  - exists c'. split; [exact Hc|]. split; [rewrite Hm; reflexivity|]. rewrite Ho. vm_compute. reflexivity.
Defined.

Lemma example_client_safe_witness :
  returns (client_main 3 4096 (List.repeat 170 64) 8192 (List.repeat 170 64) (Some [false; true])
    (mk_network [] [] [Some [1; 2]; Some (encode sample_answer)] [])) (fun _ => True).
Proof.
  eapply returns_mono; [apply (example_client_safe 3 4096 (List.repeat 170 64) 8192 (List.repeat 170 64) (Some [false; true])
    (mk_network [] [] [Some [1; 2]; Some (encode sample_answer)] []))|].
  - reflexivity.
  - reflexivity.
  - constructor; [|constructor; [|constructor]].
    + split; [vm_compute; discriminate|left; reflexivity].
    + split; [vm_compute; discriminate|right]. exists sample_answer. split; [reflexivity|].
      split; [exact sample_answer_wf|constructor].
  - intros p _. exact I.
Defined.
