(* ===== verification/DtlsFirst.v ===== *)
(** * The DTLS example client: its first [main]

    [picocoap/examples/posix/client_dtls.c] starts with another program, a client
    like [client.c] that was written for an earlier PicoCoAP, with a byte array and
    a length in the place of [coap_pdu].  That library is not in the repository any
    more: what the program calls of it is the parameter [old_coap].  The network and
    the output are those of [CoapExample]. *)

From S2P Require Import Prelude Mem CoapDefs CoapClient CoapExample.

(** A setter takes the array, the length of the message and the size of the array
    and gives a status, the array and the new length. *)
Definition setter : Type := list Z -> Z -> Z -> res (Z * list Z * Z).

(** The earlier PicoCoAP.  [old_get_option] gives the length of the [i]-th option,
    its number and where its value starts, [old_get_payload] the length of the
    payload and where it starts. *)
Record old_coap := mk_old_coap {
  old_set_version : Z -> setter;
  old_set_type : Z -> setter;
  old_set_code : Z -> setter;
  old_set_mid : Z -> setter;
  old_set_token : Z -> Z -> setter;
  old_add_option : Z -> list Z -> Z -> setter;
  old_validate_pkt : list Z -> Z -> res Z;
  old_get_type : list Z -> Z -> res Z;
  old_get_code_class : list Z -> Z -> res Z;
  old_get_code_detail : list Z -> Z -> res Z;
  old_get_mid : list Z -> Z -> res Z;
  old_get_token : list Z -> Z -> Z -> res Z;
  old_get_option_count : list Z -> Z -> res Z;
  old_get_option : list Z -> Z -> Z -> res (Z * Z * Z);
  old_get_payload : list Z -> Z -> res (Z * Z);
  CS_OK : Z
}.

Section First.
Context (lib : old_coap).

(** ** Printing *)

(** [hex_dump] has the text it has in [client.c]. *)
Definition hex_dump (bytes : list Z) (len : Z) : res (list line) := CoapClient.hex_dump bytes 0 len.

(** [for(i = 0; i < j; i++)], where [i] is unsigned. *)
Definition option_step (pkt : list Z) (len j : Z) (st : Z * list line) : res (step (Z * list line) (list line)) :=
  let '(i, out) := st in
  if i <? size_t j then
    let* '(k, opt_num, ptr) := old_get_option lib pkt len i in
    let* text := printf_s pkt ptr (s32 k) in
    Ok (Continue (i + 1, out ++ [LOption (s32 opt_num); LValue text (s32 k)]))
  else Ok (Break out).

Definition coap_pretty_print (pkt : list Z) (len : Z) : res (list line) :=
  let* status := old_validate_pkt lib pkt len in
  if status =? CS_OK lib then
    let* t := old_get_type lib pkt len in
    let* class := old_get_code_class lib pkt len in
    let* detail := old_get_code_detail lib pkt len in
    let* j := old_get_option_count lib pkt len in
    let* out := loop (option_step pkt len (s32 j)) (0, [LValid len; LType t; LCode class detail]) in
    let* '(j, ptr) := old_get_payload lib pkt len in
    let* text := printf_s pkt ptr (s32 j) in
    Ok (out ++ [LPayload text (s32 j)])
  else
    let* d := hex_dump pkt len in
    Ok (LInvalid len :: d).

(** ** The program *)

Record first_client := mk_first {
  f_send : list Z;
  f_recv : list Z;
  f_counter : Z;
  f_net : network;
  f_out : list output
}.

Inductive progress :=
| Running (c : first_client)
| Exited (status : Z) (c : first_client)
| Blocked (c : first_client).

(** The message: the length starts at 0, the status codes are ignored. *)
Definition build_get (send : list Z) (mid token : Z) : res (list Z * Z) :=
  let* send := memset send 0 0 0 in
  let* '(_, send, len) := old_set_version lib (coap_version_val COAP_V1) send 0 MSG_BUF_LEN in
  let* '(_, send, len) := old_set_type lib CT_CON send len MSG_BUF_LEN in
  let* '(_, send, len) := old_set_code lib CC_GET send len MSG_BUF_LEN in
  let* '(_, send, len) := old_set_mid lib mid send len MSG_BUF_LEN in
  let* '(_, send, len) := old_set_token lib token 2 send len MSG_BUF_LEN in
  let* '(_, send, len) := old_add_option lib CON_URI_PATH (lit "1a" ++ [0]) 2 send len MSG_BUF_LEN in
  let* n := strlen alias in
  let* '(_, send, len) := old_add_option lib CON_URI_PATH alias n send len MSG_BUF_LEN in
  let* n := strlen cik in
  let* '(_, send, len) := old_add_option lib CON_URI_QUERY cik n send len MSG_BUF_LEN in
  Ok (send, len).

(** What is made of the [rlen] bytes in [recv]; [rlen] is a [size_t]. *)
Definition judge (send : list Z) (slen : Z) (recv : list Z) (rlen : Z) : res (list output) :=
  let* status := old_validate_pkt lib recv rlen in
  if status =? CS_OK lib then
    let* mid := old_get_mid lib recv rlen in
    let* mid' := old_get_mid lib send slen in
    let* hit :=
      if mid =? mid' then
        let* token := old_get_token lib recv rlen 0 in
        let* token' := old_get_token lib send slen 0 in
        Ok (token =? token')
      else Ok false in
    if (hit : bool) then
      let* lines := coap_pretty_print recv rlen in
      Ok ([OGotValid; OIsResponse] ++ List.map OPrint lines)
    else Ok [OGotValid]
  else
    let* lines := hex_dump recv rlen in
    Ok (ONotValid rlen :: List.map OPrint lines).

(** One round of [for (;;)].  [msg_recv_len] is a [size_t], so that the test for a
    failed [recvfrom], [msg_recv_len < 0], is never true. *)
Definition first_round (c : first_client) : res progress :=
  let mid := f_counter c in
  let '(r, n) := rand (f_net c) in
  let* '(send, slen) := build_get (f_send c) mid r in
  let* bs := load_bytes send 0 slen in
  let '(sent, n) := sendto bs n in
  if negb sent then
    Ok (Exited 2 (mk_first send (f_recv c) (u16 (mid + 1)) n (f_out c ++ [ORule; OError])))
  else
    let* lines := coap_pretty_print send slen in
    let out := f_out c ++ [ORule; OSent] ++ List.map OPrint lines in
    match recvfrom MSG_BUF_LEN n with
    | (Waiting, n) => Ok (Blocked (mk_first send (f_recv c) (u16 (mid + 1)) n out))
    | (Failed, n) =>
        let rlen := size_t (-1) in
        if rlen <? 0 then Ok (Exited 1 (mk_first send (f_recv c) (u16 (mid + 1)) n (out ++ [OError])))
        else
          let* verdict := judge send slen (f_recv c) rlen in
          Ok (Running (mk_first send (f_recv c) (u16 (mid + 1)) n (out ++ verdict)))
    | (Got data, n) =>
        let* recv := store_bytes (f_recv c) 0 data in
        let rlen := zlen data in
        if rlen <? 0 then Ok (Exited 1 (mk_first send recv (u16 (mid + 1)) n (out ++ [OError])))
        else
          let* verdict := judge send slen recv rlen in
          Ok (Running (mk_first send recv (u16 (mid + 1)) n (out ++ verdict)))
    end.

Fixpoint first_rounds (k : nat) (c : first_client) : res progress :=
  match k with
  | O => Ok (Running c)
  | S k' =>
      let* p := first_round c in
      match p with
      | Running c => first_rounds k' c
      | _ => Ok p
      end
  end.

(** The loop over the local addresses: is there one for which [socket] and [bind]
    succeed, and how many sockets were closed again? *)
Fixpoint bind_socket (l : list (bool * bool)) : bool * nat :=
  match l with
  | [] => (false, 0%nat)
  | (false, _) :: l => bind_socket l
  | (true, true) :: _ => (true, 0%nat)
  | (true, false) :: l => let '(ok, k) := bind_socket l in (ok, S k)
  end.

(** [main] for up to [k] rounds; [local] and [remote] are what the two calls of
    [getaddrinfo] find. *)
Definition first_main (k : nat) (stack1 stack2 : list Z) (local : option (list (bool * bool)))
    (remote : option (list bool)) (n : network) : res progress :=
  let '(r, n) := rand n in
  let c := mk_first stack1 stack2 (u16 r) n [] in
  let failed status := Ok (Exited status (mk_first stack1 stack2 (u16 r) n [OError])) in
  match local with
  | None => failed 1
  | Some l =>
      if negb (fst (bind_socket l)) then failed 2
      else
        match remote with
        | None => failed 1
        | Some sockets => if negb (pick_socket sockets) then failed 2 else first_rounds k c
        end
  end.

(** ** A failed receive *)

(** Undefined behaviour other than a loop that never ends. *)
Definition undefined {A} (c : res A) : Prop := ends c (fun _ => False).

Lemma undefined_bind {A B} (c : res A) (k : A -> res B) : undefined c -> undefined (rbind c k).
Proof. unfold undefined. by destruct c. Qed.

Lemma bind_undefined {A B} (c : res A) (k : A -> res B) (P : A -> Prop) :
  ends c P -> (forall a, P a -> undefined (k a)) -> undefined (rbind c k).
Proof. intros Hc Hk. by eapply ends_bind. Qed.

#[local] Opaque loop.

(** A row of the dump that leaves the array. *)
Lemma dump_row_undefined m len i n : forall j, 0 <= i -> 0 <= j -> zlen m < len ->
  i + j <= zlen m < i + j + Z.of_nat n -> undefined (dump_row m 0 i len j n).
Proof.
  induction n as [|n IH]; intros j Hi Hj Hlen Hout; [lia|]. cbn [dump_row].
  rewrite (proj2 (Z.ltb_lt (i + j) len)) by lia. destruct (Z.eq_dec (i + j) (zlen m)) as [E|E].
  - rewrite load_fault by lia. apply undefined_bind. discriminate.
  - destruct (load_ok m (0 + (i + j))) as (b & -> & _); [lia|]. cbn [rbind]. apply undefined_bind. apply IH; lia.
Qed.

(** A dump of more bytes than the array has. *)
Lemma hex_dump_undefined m len : zlen m < len -> zlen m < 2 ^ 31 -> undefined (hex_dump m len).
Proof.
  intros Hlen Hm. unfold undefined, hex_dump, CoapClient.hex_dump.
  apply (loop_ends _ (fun '(i, _) => 0 <= i <= zlen m) (fun '(i, _) => zlen m - i)); [|zlen_pos; lia|lia].
  intros [i out] Hi. rewrite (proj2 (Z.ltb_lt i len)) by lia.
  destruct (Z_lt_le_dec (zlen m) (i + 16)) as [Hout|Hin].
  - eapply ends_mono; [apply undefined_bind, dump_row_undefined; lia|]. done.
  - eapply (ends_bind _ _ (fun _ => True)).
    + assert (Hrow : forall n j, 0 <= j -> i + j + Z.of_nat n <= zlen m -> ends (dump_row m 0 i len j n) (fun _ => True)).
      { induction n as [|n IH]; intros j Hj Hb; [done|]. cbn [dump_row]. rewrite (proj2 (Z.ltb_lt (i + j) len)) by lia.
        destruct (load_ok m (0 + (i + j))) as (b & -> & _); [lia|]. cbn [rbind].
        eapply ends_bind; [apply IH; lia|]. done. }
      apply Hrow; lia.
    + intros row _. rewrite (proj2 (Z.ltb_ge (len - i) 16)) by lia.
      eapply (ends_bind _ _ (fun _ => True)); [apply returns_ends, printf_s_returns; lia|]. intros text _. cbn [ends]. lia.
Qed.

(** A failed [recvfrom] is not noticed: its result is kept in a [size_t], so the
    test for a negative length is never true, and when the library rejects the
    message of 2^64 - 1 bytes, the program dumps that many bytes of an array of 64
    and leaves it. *)
Theorem failed_receive_overruns c send slen n r bs n' q lines :
  rand (f_net c) = (r, n) -> build_get (f_send c) (f_counter c) r = Ok (send, slen) -> load_bytes send 0 slen = Ok bs ->
  sendto bs n = (true, n') -> coap_pretty_print send slen = Ok lines -> sn_recv n' = None :: q ->
  zlen (f_recv c) = MSG_BUF_LEN ->
  (exists status, old_validate_pkt lib (f_recv c) (2 ^ 64 - 1) = Ok status /\ status <> CS_OK lib) ->
  undefined (first_round c).
Proof.
  intros Hr Hb Hl Hs Hp Hq Hm (status & Hv & Hne). unfold first_round. rewrite Hr, Hb. cbn [rbind]. rewrite Hl. cbn [rbind].
  rewrite Hs. cbn [negb]. rewrite Hp. cbn [rbind]. unfold recvfrom. rewrite Hq.
  change (size_t (-1)) with (2 ^ 64 - 1). rewrite (proj2 (Z.ltb_ge _ 0)) by lia. apply undefined_bind.
  unfold judge. rewrite Hv. cbn [rbind]. rewrite (proj2 (Z.eqb_neq _ _) Hne). apply undefined_bind.
  unfold MSG_BUF_LEN in Hm. apply hex_dump_undefined; lia.
Qed.
End First.

(** ** Witness *)

(** A library that takes every message of up to 64 bytes for an empty one. *)
Definition toy_coap : old_coap :=
  let keep : setter := fun buf len _ => Ok (0, buf, len) in
  let zero : list Z -> Z -> res Z := fun _ _ => Ok 0 in
  mk_old_coap (fun _ => keep) (fun _ => keep) (fun _ => keep) (fun _ => keep) (fun _ _ => keep) (fun _ _ _ => keep)
    (fun _ len => Ok (if len <=? 64 then 0 else 1)) zero zero zero zero (fun _ _ _ => Ok 0) zero
    (fun _ _ _ => Ok (0, 0, 0)) (fun _ _ => Ok (0, 0)) 0.

Definition toy_first (recv : list (option (list Z))) : first_client :=
  mk_first (List.repeat 7 64) (List.repeat 7 64) 5 (mk_network [9] [] recv []) [].

Lemma failed_receive_overruns_witness : undefined (first_round toy_coap (toy_first [None])).
Proof.
  eapply (failed_receive_overruns toy_coap (toy_first [None])); try (vm_compute; reflexivity).
  eexists. split; [vm_compute; reflexivity|discriminate].
Defined.

(** The same program on a datagram: it is taken for the answer. *)
Example empty_answer :
  match first_main toy_coap 1 (List.repeat 7 64) (List.repeat 7 64) (Some [(true, false); (true, true)]) (Some [true])
          (mk_network [9] [] [Some [1; 2]] []) with
  | Ok (Running c) => (f_counter c, sn_sent (f_net c), f_out c)
  | _ => (0, [], [])
  end = (10, [[]], [ORule; OSent; OPrint (LValid 0); OPrint (LType 0); OPrint (LCode 0 0); OPrint (LPayload [] 0);
                    OGotValid; OIsResponse; OPrint (LValid 2); OPrint (LType 0); OPrint (LCode 0 0); OPrint (LPayload [] 0)]).
Proof. vm_compute. reflexivity. Qed.
