(* ===== verification/DtlsRequest.v ===== *)
(** * The DTLS example client: making requests

    From [picocoap/examples/posix/client_dtls.c]: the URLs it asks for, the list of
    options a URL is taken apart into ([new_option_node], [order_opts], [get_pdu]),
    the context and the packet ([get_context], [coap_new_request]).  The file is
    written against libcoap and tinydtls, which are not in the repository: what it
    calls of libcoap is the parameter [library].  Global variables the file uses
    without declaring them are fields of the state with any initial value. *)

From S2P Require Import Prelude Mem.

Definition BUFSIZE : Z := 2048.

(** ** URLs *)

(** [strcpy(dst, src)] and [strcat(dst, src)], the terminating NUL included. *)
Definition strcpy (dst src : list Z) : res (list Z) :=
  let* n := strlen src in memcpy dst 0 src 0 (n + 1).

Definition strcat (dst src : list Z) : res (list Z) :=
  let* k := strlen dst in
  let* n := strlen src in
  memcpy dst k src 0 (n + 1).

Fixpoint strcats (dst : list Z) (parts : list (list Z)) : res (list Z) :=
  match parts with
  | [] => Ok dst
  | src :: parts => let* dst := strcat dst src in strcats dst parts
  end.

Definition slash : list Z := lit "/" ++ [0].
Definition question : list Z := lit "?" ++ [0].

(** The destinations of [get_pdu_read1p], [get_pdu_write1p] and
    [get_pdu_block_upload], of [get_pdu_activate] and of [get_pdu_download_content];
    [dest] is the array of [BUFSIZE] bytes on the stack. *)
Definition url_1p (dest cik alias : list Z) : res (list Z) :=
  let* dest := strcpy dest (lit "coap://0.0.0.0/1a/" ++ [0]) in
  strcats dest [alias; question; cik].

Definition url_activate (dest vendor model serial_number : list Z) : res (list Z) :=
  let* dest := strcpy dest (lit "coap://0.0.0.0/provision/activate/" ++ [0]) in
  strcats dest [vendor; slash; model; slash; serial_number].

Definition url_download (dest vendor model content_id client_model_cik : list Z) : res (list Z) :=
  let* dest := strcpy dest (lit "coap://0.0.0.0/provision/download/" ++ [0]) in
  strcats dest [vendor; slash; model; slash; content_id; question; client_model_cik].

(** ** The order of options *)

(** A pointer to an option: its address and the number of the option. *)
Definition opt_pointer : Type := option (Z * Z).
Definition address (p : opt_pointer) : Z := match p with None => 0 | Some (a, _) => a end.

Definition order_opts (a b : opt_pointer) : Z :=
  match a, b with
  | Some (_, ka), Some (_, kb) => if ka <? kb then -1 else if ka =? kb then 1 else 0
  | _, _ => if address a <? address b then -1 else 1
  end.

(** A list node with its option: where the option was allocated, its number and
    its value. *)
Record node := mk_node { n_addr : Z; n_key : Z; n_data : list Z }.

Definition node_option (n : node) : opt_pointer := Some (n_addr n, n_key n).

(** ** libcoap *)

Inductive method := COAP_REQUEST_GET | COAP_REQUEST_POST | COAP_REQUEST_PUT.

#[export] Instance method_eq : EqDecision method.
Proof. solve_decision. Defined.

(** [coap_uri_t], of which only the path and the query are used. *)
Record uri := mk_uri { uri_path : list Z; uri_query : list Z }.

(** What the program uses of libcoap; packets and contexts are abstract.
    - Of a received packet: [get_data] is the length of the payload and the memory
      from its first byte to the end of the object it lies in; [option_next] the
      value of the first option whose number is in the filter; [block_more],
      [block_szx] and [block_nr] read the value of a block option.
    - [split_path] and [split_query] give the result and the bytes they write to
      the buffer of the given size; [opt_length], [opt_value] and [opt_size] read
      the option at the start of the memory they are given, [opt_value] giving the
      offset of the value.
    - [coap_insert] adds a node, [None] for a null pointer, to a list in the order
      of the function.
    - The functions that make a packet give their result and the packet. *)
Record library (Pdu Ctx : Type) := mk_library {
  hdr_code : Pdu -> Z;
  hdr_token : Pdu -> list Z;
  get_data : Pdu -> option (Z * list Z);
  option_next : list Z -> Pdu -> option (list Z);
  block_more : list Z -> bool;
  block_szx : list Z -> Z;
  block_nr : list Z -> Z;
  split_uri : list Z -> uri -> Z * uri;
  split_path : list Z -> Z -> Z * list Z;
  split_query : list Z -> Z -> Z * list Z;
  opt_length : list Z -> res Z;
  opt_value : list Z -> res Z;
  opt_size : list Z -> res Z;
  coap_insert : list node -> option node -> (opt_pointer -> opt_pointer -> Z) -> list node;
  sizeof_addr : Z;
  new_context : list Z -> option Ctx;
  new_message_id : Ctx -> Z * Ctx;
  fresh_pdu : Pdu;
  set_header : Z -> Z -> Z -> Z -> Pdu -> Pdu;
  add_token : list Z -> Pdu -> Z * Pdu;
  add_option : Z -> list Z -> Pdu -> Z * Pdu;
  add_data : list Z -> Pdu -> Z * Pdu;
  add_block : list Z -> Z -> Z -> Pdu -> Z * Pdu;
  encode_var_bytes : Z -> list Z;
  more_blocks : Z -> Z -> Z -> bool;
  COAP_MESSAGE_CON : Z;
  method_code : method -> Z;
  COAP_OPTION_URI_PATH : Z;
  COAP_OPTION_URI_QUERY : Z;
  COAP_OPTION_BLOCK1 : Z;
  COAP_OPTION_BLOCK2 : Z;
  COAP_RESPONSE_CODE : Z -> Z
}.
Arguments hdr_code {Pdu Ctx}.
Arguments hdr_token {Pdu Ctx}.
Arguments get_data {Pdu Ctx}.
Arguments option_next {Pdu Ctx}.
Arguments block_more {Pdu Ctx}.
Arguments block_szx {Pdu Ctx}.
Arguments block_nr {Pdu Ctx}.
Arguments split_uri {Pdu Ctx}.
Arguments split_path {Pdu Ctx}.
Arguments split_query {Pdu Ctx}.
Arguments opt_length {Pdu Ctx}.
Arguments opt_value {Pdu Ctx}.
Arguments opt_size {Pdu Ctx}.
Arguments coap_insert {Pdu Ctx}.
Arguments sizeof_addr {Pdu Ctx}.
Arguments new_context {Pdu Ctx}.
Arguments new_message_id {Pdu Ctx}.
Arguments fresh_pdu {Pdu Ctx}.
Arguments set_header {Pdu Ctx}.
Arguments add_token {Pdu Ctx}.
Arguments add_option {Pdu Ctx}.
Arguments add_data {Pdu Ctx}.
Arguments add_block {Pdu Ctx}.
Arguments encode_var_bytes {Pdu Ctx}.
Arguments more_blocks {Pdu Ctx}.
Arguments COAP_MESSAGE_CON {Pdu Ctx}.
Arguments method_code {Pdu Ctx}.
Arguments COAP_OPTION_URI_PATH {Pdu Ctx}.
Arguments COAP_OPTION_URI_QUERY {Pdu Ctx}.
Arguments COAP_OPTION_BLOCK1 {Pdu Ctx}.
Arguments COAP_OPTION_BLOCK2 {Pdu Ctx}.
Arguments COAP_RESPONSE_CODE {Pdu Ctx}.

Section Request.
Context {Pdu Ctx : Type} (lib : library Pdu Ctx).

(** ** The state requests are made from

    The global variables [uri], [coap_ctx], [block] and [block_flag]; what the
    allocators will answer, where an empty script means that there is memory; and
    the addresses [getaddrinfo] finds for the local interface. *)

Record builder := mk_builder {
  b_uri : uri;
  b_ctx : option Ctx;
  b_flag : bool;
  b_num : Z;
  b_szx : Z;
  b_allocs : list bool;
  b_addrs : option (list (list Z))
}.

Definition b_set_uri (u : uri) (b : builder) : builder :=
  mk_builder u (b_ctx b) (b_flag b) (b_num b) (b_szx b) (b_allocs b) (b_addrs b).
Definition b_set_ctx (c : option Ctx) (b : builder) : builder :=
  mk_builder (b_uri b) c (b_flag b) (b_num b) (b_szx b) (b_allocs b) (b_addrs b).
Definition b_set_block (flag : bool) (num : Z) (b : builder) : builder :=
  mk_builder (b_uri b) (b_ctx b) flag num (b_szx b) (b_allocs b) (b_addrs b).
Definition b_set_allocs (l : list bool) (b : builder) : builder :=
  mk_builder (b_uri b) (b_ctx b) (b_flag b) (b_num b) (b_szx b) l (b_addrs b).

(** An allocation: is there memory? *)
Definition alloc (b : builder) : bool * builder :=
  match b_allocs b with
  | [] => (true, b)
  | ok :: l => (ok, b_set_allocs l b)
  end.

(** ** Options *)

(** The value is copied from offset [i] of the memory [m]; [None] when there is no
    memory for the option or for the node. *)
Definition new_option_node (key length : Z) (m : list Z) (i : Z) (b : builder) : res (option node * builder) :=
  let '(ok, b) := alloc b in
  if negb ok then Ok (None, b)
  else
    let* data := load_bytes m i length in
    let '(ok, b) := alloc b in
    if (ok : bool) then Ok (Some (mk_node 1 (u16 key) data), b) else Ok (None, b).

(** [while (res--)]: one option for each segment in the buffer; the state is
    [res], the position of [buf], the list of options and the builder. *)
Definition segment_step (key : Z) (buf : list Z) (st : Z * Z * list node * builder)
    : res (step (Z * Z * list node * builder) (list node * builder)) :=
  let '(res, pos, optlist, b) := st in
  if res =? 0 then Ok (Break (optlist, b))
  else
    let here := drop (Z.to_nat pos) buf in
    let* len := opt_length lib here in
    let* off := opt_value lib here in
    let* '(n, b) := new_option_node key len here off b in
    let optlist := coap_insert lib optlist n order_opts in
    let* size := opt_size lib here in
    Ok (Continue (res - 1, pos + size, optlist, b)).

(** The segments [split] finds in [text] as options with the number [key]; [stack]
    is what is in [_buf]. *)
Definition add_segments (split : list Z -> Z -> Z * list Z) (key : Z) (text stack : list Z)
    (optlist : list node) (b : builder) : res (list node * builder) :=
  if zlen text =? 0 then Ok (optlist, b)
  else
    let '(res, bytes) := split text BUFSIZE in
    let* buf := store_bytes stack 0 bytes in
    loop (segment_step key buf) (res, 0, optlist, b).

(** ** The context *)

(** The first address that is small enough and for which there is a context. *)
Fixpoint first_context (l : list (list Z)) : option Ctx :=
  match l with
  | [] => None
  | a :: l =>
      if zlen a <=? sizeof_addr lib then
        match new_context lib a with
        | Some c => Some c
        | None => first_context l
        end
      else first_context l
  end.

Definition get_context (b : builder) : option Ctx :=
  match b_addrs b with
  | None => None
  | Some l => first_context l
  end.

(** ** The packet *)

Definition add_options (options : list node) (p : Pdu) : Pdu :=
  fold_left (fun p n => snd (add_option lib (n_key n) (n_data n) p)) options p.

Definition coap_new_request (ctx : option Ctx) (m : method) (options : list node) (token payload : list Z)
    (b : builder) : res (option Pdu * option Ctx * builder) :=
  let '(ok, b) := alloc b in
  if negb ok then Ok (None, ctx, b)
  else
    match ctx with
    | None => Fault NullPointer
    | Some c =>
        let '(id, c) := new_message_id lib c in
        let p := set_header lib (COAP_MESSAGE_CON lib) id (method_code lib m) (zlen token) (fresh_pdu lib) in
        let p := snd (add_token lib token p) in
        let p := add_options options p in
        let p :=
          if zlen payload =? 0 then p
          else if b_flag b then snd (add_block lib payload (b_num b) (b_szx b) p)
          else snd (add_data lib payload p) in
        Ok (Some p, Some c, b)
    end.

(** The value of the block option, [block.num << 4 | block.szx | more]. *)
Definition block_value (payload : list Z) (b : builder) : Z :=
  let more := if more_blocks lib (zlen payload) (b_num b) (b_szx b) then 0x08 else 0x00 in
  Z.lor (Z.lor (u32 (Z.shiftl (b_num b) 4)) (b_szx b)) more.

(** [tmp] is the static array of four bytes the value is encoded into. *)
Definition add_block_option (m : method) (payload tmp : list Z) (optlist : list node) (b : builder)
    : res (list node * builder) :=
  if b_flag b then
    let opt := if decide (m = COAP_REQUEST_GET) then COAP_OPTION_BLOCK2 lib else COAP_OPTION_BLOCK1 lib in
    let bytes := encode_var_bytes lib (block_value payload b) in
    let* tmp := store_bytes tmp 0 bytes in
    let* '(n, b) := new_option_node opt (zlen bytes) tmp 0 b in
    Ok (coap_insert lib optlist n order_opts, b)
  else Ok (optlist, b).

Definition get_pdu (url : list Z) (m : method) (token payload stack1 stack2 tmp : list Z) (b : builder)
    : res (option Pdu * builder) :=
  let* n := strlen url in
  let '(_, u) := split_uri lib (take (Z.to_nat n) url) (b_uri b) in
  let b := b_set_uri u b in
  let* '(optlist, b) := add_segments (split_path lib) (COAP_OPTION_URI_PATH lib) (uri_path u) stack1 [] b in
  let* '(optlist, b) := add_segments (split_query lib) (COAP_OPTION_URI_QUERY lib) (uri_query u) stack2 optlist b in
  let b := match b_ctx b with None => b_set_ctx (get_context b) b | Some _ => b end in
  let* '(optlist, b) := add_block_option m payload tmp optlist b in
  let* '(p, c, b) := coap_new_request (b_ctx b) m optlist token payload b in
  Ok (p, b_set_ctx c b).

(** ** Received packets *)

(** [get_block]: the first Block1 or Block2 option. *)
Definition get_block (p : Pdu) : option (list Z) :=
  option_next lib [COAP_OPTION_BLOCK1 lib; COAP_OPTION_BLOCK2 lib] p.
End Request.
