(* ===== verification/DtlsRequestFacts.v ===== *)
(** * The DTLS example client: what a request holds

    [LibraryLaws] states what the program relies on of libcoap, as its
    documentation and RFC 7252 describe it; against these laws [get_pdu] makes the
    request that a URL asks for. *)

From stdpp Require Import sorting.
From S2P Require Import Prelude Mem DtlsRequest.

(** A packet as its parts. *)
Record request := mk_request {
  q_type : Z;
  q_id : Z;
  q_code : Z;
  q_token : list Z;
  q_options : list (Z * list Z);
  q_data : list Z
}.

(** Text that stands for itself in a URL: no character that separates or escapes,
    and no dot, as segments of dots are taken out. *)
Definition plain_char (c : Z) : Prop :=
  is_byte c /\ c <> 0 /\ ~ In c (lit "/?&#%.").

Definition plain (s : list Z) : Prop := s <> [] /\ Forall plain_char s.

(** The parts with the separator between them. *)
Fixpoint join (sep : Z) (parts : list (list Z)) : list Z :=
  match parts with
  | [] => []
  | [s] => s
  | s :: parts => s ++ sep :: join sep parts
  end.

Definition SLASH : Z := 47.
Definition AMPERSAND : Z := 38.

(** Insert [n] in front of the first element that comes behind it. *)
Definition inserted (order : opt_pointer -> opt_pointer -> Z) (n : node) (l l' : list node) : Prop :=
  exists l1 l2, l = l1 ++ l2 /\ l' = l1 ++ n :: l2 /\
    Forall (fun x => 0 <= order (node_option n) (node_option x)) l1 /\
    match l2 with [] => True | x :: _ => order (node_option n) (node_option x) < 0 end.

Class LibraryLaws {Pdu Ctx : Type} (lib : library Pdu Ctx) := {
  view : Pdu -> request;
  pdu_size : Pdu -> Z;
  capacity : Z;
  segment : list Z -> list Z;
  (* numbers *)
  law_con : COAP_MESSAGE_CON lib = 0;
  law_method m : method_code lib m =
    match m with COAP_REQUEST_GET => 1 | COAP_REQUEST_POST => 2 | COAP_REQUEST_PUT => 3 end;
  law_uri_path : COAP_OPTION_URI_PATH lib = 11;
  law_uri_query : COAP_OPTION_URI_QUERY lib = 15;
  law_block2 : COAP_OPTION_BLOCK2 lib = 23;
  law_block1 : COAP_OPTION_BLOCK1 lib = 27;
  (* URLs *)
  law_split_uri path query u : Forall (fun c => plain_char c \/ c = SLASH) path ->
    Forall (fun c => plain_char c \/ c = AMPERSAND) query ->
    split_uri lib (lit "coap://0.0.0.0/" ++ path ++ match query with [] => [] | _ => lit "?" ++ query end) u =
      (0, mk_uri path query);
  law_split_path segs : segs <> [] -> Forall plain segs -> zlen (concat (List.map segment segs)) <= BUFSIZE ->
    split_path lib (join SLASH segs) BUFSIZE = (Z.of_nat (length segs), concat (List.map segment segs));
  law_split_query segs : segs <> [] -> Forall plain segs -> zlen (concat (List.map segment segs)) <= BUFSIZE ->
    split_query lib (join AMPERSAND segs) BUFSIZE = (Z.of_nat (length segs), concat (List.map segment segs));
  law_opt_length s rest : zlen s < 65536 -> opt_length lib (segment s ++ rest) = Ok (zlen s);
  law_opt_value s rest : zlen s < 65536 -> exists i, opt_value lib (segment s ++ rest) = Ok i /\
    load_bytes (segment s ++ rest) i (zlen s) = Ok s;
  law_opt_size s rest : zlen s < 65536 -> opt_size lib (segment s ++ rest) = Ok (zlen (segment s));
  law_segment s : zlen (segment s) <= zlen s + 5;
  (* lists *)
  law_insert l n order : inserted order n l (coap_insert lib l (Some n) order);
  (* packets; a packet has room for [capacity] bytes and an option takes up to five
     bytes more than its value *)
  law_fresh : pdu_size (fresh_pdu lib) <= 4 /\ q_token (view (fresh_pdu lib)) = [] /\
    q_options (view (fresh_pdu lib)) = [] /\ q_data (view (fresh_pdu lib)) = [];
  law_header t i c k p : pdu_size (set_header lib t i c k p) = pdu_size p /\
    view (set_header lib t i c k p) = mk_request t i c (q_token (view p)) (q_options (view p)) (q_data (view p));
  law_token s p : q_token (view p) = [] -> q_options (view p) = [] -> zlen s <= 8 -> pdu_size p + zlen s <= capacity ->
    let p' := snd (add_token lib s p) in
    pdu_size p' <= pdu_size p + zlen s /\
    view p' = mk_request (q_type (view p)) (q_id (view p)) (q_code (view p)) s [] (q_data (view p));
  law_option k v p : Forall (fun o => fst o <= k) (q_options (view p)) -> q_data (view p) = [] ->
    pdu_size p + zlen v + 5 <= capacity ->
    let p' := snd (add_option lib k v p) in
    pdu_size p' <= pdu_size p + zlen v + 5 /\
    view p' = mk_request (q_type (view p)) (q_id (view p)) (q_code (view p)) (q_token (view p))
                (q_options (view p) ++ [(k, v)]) [];
  law_data d p : d <> [] -> q_data (view p) = [] -> pdu_size p + zlen d + 1 <= capacity ->
    view (snd (add_data lib d p)) = mk_request (q_type (view p)) (q_id (view p)) (q_code (view p)) (q_token (view p))
                (q_options (view p)) d;
  (* blocks: the [num]-th part of 2^(szx+4) bytes *)
  law_add_block d num szx p : q_data (view p) = [] -> 0 <= szx <= 6 -> 0 <= num -> num * 2 ^ (szx + 4) < zlen d ->
    pdu_size p + 2 ^ (szx + 4) + 1 <= capacity ->
    view (snd (add_block lib d num szx p)) = mk_request (q_type (view p)) (q_id (view p)) (q_code (view p)) (q_token (view p))
                (q_options (view p)) (take (Z.to_nat (2 ^ (szx + 4))) (drop (Z.to_nat (num * 2 ^ (szx + 4))) d));
  law_more_blocks n num szx : 0 <= szx <= 6 -> 0 <= num -> more_blocks lib n num szx = ((num + 1) * 2 ^ (szx + 4) <? n);
  law_var_bytes v : 0 <= v < 2 ^ 32 -> zlen (encode_var_bytes lib v) <= 4
}.

(** ** Lists of options *)

Lemma order_opts_after n x : 0 <= order_opts (node_option n) (node_option x) <-> n_key x <= n_key n.
Proof.
  unfold order_opts, node_option. destruct (Z.ltb_spec (n_key n) (n_key x)); [lia|].
  destruct (Z.eqb_spec (n_key n) (n_key x)); lia.
Qed.

(** An option with the largest number so far goes to the end. *)
Lemma inserted_last n l l' : inserted order_opts n l l' -> Forall (fun x => n_key x <= n_key n) l -> l' = l ++ [n].
Proof.
  intros (l1 & l2 & -> & -> & _ & H2) Hall. destruct l2 as [|x l2]; [by rewrite app_nil_r|].
  apply Forall_app in Hall as [_ Hall]. inversion Hall as [|? ? Hx]; subst.
  apply order_opts_after in Hx. lia.
Qed.

Definition segment_node (key : Z) (s : list Z) : node := mk_node 1 key s.

Definition node_pair (n : node) : Z * list Z := (n_key n, n_data n).

(** The numbers of the options of a request are in ascending order. *)
Lemma sorted_numbers (paths queries : list (list Z)) l : l = [] \/ l = [23] \/ l = [27] ->
  StronglySorted Z.le ((List.map (fun _ => 11) paths ++ List.map (fun _ => 15) queries) ++ l).
Proof.
  intros Hl.
  assert (Hin : forall (k x : Z) (segs : list (list Z)), x ∈ List.map (fun _ => k) segs -> x = k).
  { intros k x segs Hx. by apply list_elem_of_In, in_map_iff in Hx as (? & <- & _). }
  assert (Hs : forall k (segs : list (list Z)), StronglySorted Z.le (List.map (fun _ => k) segs)).
  { intros k segs. induction segs as [|s segs IH]; constructor; [exact IH|]. apply Forall_forall. intros x Hx.
    rewrite (Hin _ _ _ Hx). lia. }
  rewrite !StronglySorted_app. split; [|split; [split; [|by split]|]].
  - intros x y [Hx|Hx]%elem_of_app Hy; apply Hin in Hx; subst x;
      destruct Hl as [->|[->| ->]]; apply list_elem_of_In in Hy; simpl in Hy; intuition lia.
  - intros x y Hx Hy. apply Hin in Hx, Hy. lia.
  - destruct Hl as [->|[->| ->]]; repeat constructor.
Qed.

Section Laws.
Context {Pdu Ctx : Type} (lib : library Pdu Ctx) `{L : !LibraryLaws lib}.
Implicit Types (b : builder (Ctx := Ctx)).

Lemma insert_last n l : Forall (fun x => n_key x <= n_key n) l -> coap_insert lib l (Some n) order_opts = l ++ [n].
Proof. intros Hl. eapply inserted_last; [apply law_insert|done]. Qed.

Lemma new_option_node_ok key len m i b data : b_allocs b = [] -> load_bytes m i len = Ok data -> 0 <= key < 65536 ->
  new_option_node key len m i b = Ok (Some (segment_node key data), b).
Proof.
  intros Hb Hl Hk. unfold new_option_node, alloc. rewrite Hb. cbn [negb]. rewrite Hl. cbn [rbind]. rewrite Hb.
  by rewrite u16_id.
Qed.

(** The loop over the segments appends their options. *)
Lemma segments_loop key segs rest l b : b_allocs b = [] -> 0 <= key < 65536 ->
  Forall (fun x => n_key x <= key) l -> Z.of_nat (length segs) < 2 ^ 64 -> Forall (fun s => zlen s < 65536) segs ->
  loop (segment_step lib key (concat (List.map segment segs) ++ rest)) (Z.of_nat (length segs), 0, l, b) =
  Ok (l ++ List.map (segment_node key) segs, b).
Proof.
  intros Hb Hk Hl Hn Hsmall. set (buf := concat (List.map segment segs) ++ rest).
  assert (Hr : returns (loop (segment_step lib key buf) (Z.of_nat (length segs), 0, l, b))
    (fun r => r = (l ++ List.map (segment_node key) segs, b))).
  { apply (loop_total _ (fun '(res, pos, l', b') => b' = b /\ exists done todo, segs = done ++ todo /\
        res = Z.of_nat (length todo) /\ pos = zlen (concat (List.map segment done)) /\
        l' = l ++ List.map (segment_node key) done) (fun '(res, _, _, _) => res));
      [|split; [done|]; exists [], segs; by rewrite app_nil_r|done].
    intros [[[res pos] l'] b'] [-> (done & todo & Hs & -> & -> & ->)]. unfold segment_step.
    destruct todo as [|s todo].
    - cbn [length Z.of_nat Z.eqb returns]. rewrite app_nil_r in Hs. by subst.
    - rewrite (proj2 (Z.eqb_neq _ 0)) by (cbn [length]; lia).
      assert (Hd : drop (Z.to_nat (zlen (concat (List.map segment done)))) buf =
        segment s ++ concat (List.map segment todo) ++ rest).
      { unfold buf. rewrite Hs, List.map_app, concat_app, <- app_assoc. unfold zlen. rewrite Nat2Z.id, drop_app_length.
        cbn [List.map concat]. by rewrite <- app_assoc. }
      assert (Hlen : zlen s < 65536) by (rewrite Hs in Hsmall; by apply Forall_app in Hsmall as [_ [? _]%Forall_cons]).
      rewrite Hd, law_opt_length by done. cbn [rbind]. destruct (law_opt_value s (concat (List.map segment todo) ++ rest) Hlen) as (i & -> & Hld).
      cbn [rbind]. rewrite (new_option_node_ok key _ _ _ b s) by done. cbn [rbind]. rewrite law_opt_size by done. cbn [rbind returns].
      rewrite insert_last.
      2: { apply Forall_app. split; [done|]. apply Forall_forall. intros x Hx. apply list_elem_of_In, in_map_iff in Hx as (y & <- & _). cbn. lia. }
      split; [|cbn [length]; lia]. split; [done|]. exists (done ++ [s]), todo.
      split; [by rewrite Hs, <- app_assoc|]. split; [cbn [length]; lia|]. rewrite !List.map_app, concat_app, zlen_app.
      cbn [List.map concat]. rewrite app_nil_r. split; [done|by rewrite app_assoc]. }
  by apply returns_inv in Hr as (? & -> & ->).
Qed.

(** ** The segments of a path and of a query *)

Lemma join_nonempty sep segs : segs <> [] -> Forall plain segs -> join sep segs <> [].
Proof.
  intros Hn Hp. destruct Hp as [|s segs [Hs _] _]; [done|]. destruct segs as [|s' segs]; cbn [join]; [done|].
  by destruct s.
Qed.

Lemma join_chars sep segs : Forall plain segs -> Forall (fun c => plain_char c \/ c = sep) (join sep segs).
Proof.
  induction 1 as [|s segs [_ Hs] _ IH]; [constructor|].
  assert (Hs' : Forall (fun c => plain_char c \/ c = sep) s) by (eapply Forall_impl; [exact Hs|tauto]).
  destruct segs as [|s' segs]; [done|]. cbn [join] in IH |- *. apply Forall_app. split; [done|]. constructor; [tauto|exact IH].
Qed.

Lemma add_segments_ok (split : list Z -> Z -> Z * list Z) sep key segs stack l b :
  (segs <> [] -> Forall plain segs -> zlen (concat (List.map segment segs)) <= BUFSIZE ->
   split (join sep segs) BUFSIZE = (Z.of_nat (length segs), concat (List.map segment segs))) ->
  Forall plain segs -> zlen (concat (List.map segment segs)) <= BUFSIZE -> zlen stack = BUFSIZE ->
  Z.of_nat (length segs) < 2 ^ 64 -> Forall (fun s => zlen s < 65536) segs -> b_allocs b = [] -> 0 <= key < 65536 -> Forall (fun x => n_key x <= key) l ->
  add_segments lib split key (join sep segs) stack l b = Ok (l ++ List.map (segment_node key) segs, b).
Proof.
  intros Hsplit Hp Hsz Hst Hn Hsmall Hb Hk Hl. unfold add_segments. destruct segs as [|s segs].
  - cbn [join List.map]. by rewrite app_nil_r.
  - rewrite (proj2 (Z.eqb_neq _ 0)).
    2: { pose proof (join_nonempty sep (s :: segs) ltac:(done) Hp). destruct (join sep (s :: segs)); [done|len_lia]. }
    rewrite Hsplit by done.
    destruct (split_at stack (zlen (concat (List.map segment (s :: segs))))) as (x & y & -> & Hx); [zlen_pos; lia|].
    replace (store_bytes (x ++ y) 0 (concat (List.map segment (s :: segs)))) with
      (Ok (concat (List.map segment (s :: segs)) ++ y)) by (symmetry; by apply (store_bytes_at [] x y)).
    cbn [rbind]. by apply segments_loop.
Qed.

(** ** The packet *)

(** What the options take up in a packet, at most. *)
Definition cost (l : list (Z * list Z)) : Z := fold_right (fun o n => zlen (snd o) + 5 + n) 0 l.

Lemma cost_app l1 l2 : cost (l1 ++ l2) = cost l1 + cost l2.
Proof. induction l1 as [|o l1 IH]; simpl; lia. Qed.

Lemma cost_nonneg l : 0 <= cost l.
Proof. induction l as [|o l IH]; simpl; [lia|]. zlen_pos. lia. Qed.

(** In ascending order, the options are added behind each other. *)
Lemma add_options_ok nodes : forall p, q_data (view p) = [] ->
  StronglySorted Z.le (List.map fst (q_options (view p)) ++ List.map n_key nodes) ->
  pdu_size p + cost (List.map node_pair nodes) <= capacity ->
  let p' := add_options lib nodes p in
  pdu_size p' <= pdu_size p + cost (List.map node_pair nodes) /\
  view p' = mk_request (q_type (view p)) (q_id (view p)) (q_code (view p)) (q_token (view p))
              (q_options (view p) ++ List.map node_pair nodes) [].
Proof.
  induction nodes as [|n nodes IH]; intros p Hd Hs Hc; cbn [add_options fold_left List.map].
  - split; [simpl; lia|]. rewrite app_nil_r, <- Hd. by destruct (view p).
  - cbn [List.map cost fold_right node_pair snd] in Hc. fold (cost (List.map node_pair nodes)) in Hc.
    pose proof (cost_nonneg (List.map node_pair nodes)) as Hnn.
    destruct (law_option (n_key n) (n_data n) p) as [Hsz Hv]; [|done|lia|].
    { apply StronglySorted_app in Hs as (Hle & _ & _). apply Forall_forall. intros o Ho.
      apply Hle; [by apply list_elem_of_In, in_map, list_elem_of_In|by left]. }
    set (p1 := snd (add_option lib (n_key n) (n_data n) p)) in *.
    destruct (IH p1) as [Hsz' Hv']; rewrite ?Hv; cbn [q_data q_options q_type q_id q_code q_token].
    + done.
    + rewrite List.map_app, <- app_assoc. exact Hs.
    + lia.
    + cbn zeta in Hsz', Hv'. rewrite Hv in Hv'. cbn [q_options q_type q_id q_code q_token] in Hv'.
      rewrite <- app_assoc in Hv'. split; [|exact Hv']. cbn [cost fold_right node_pair snd].
      fold (cost (List.map node_pair nodes)). unfold add_options in Hsz'. lia.
Qed.

(** The payload that a request carries: all of it, or the block that is due. *)
Definition carried (payload : list Z) b : list Z :=
  if b_flag b then take (Z.to_nat (2 ^ (b_szx b + 4))) (drop (Z.to_nat (b_num b * 2 ^ (b_szx b + 4))) payload) else payload.

(** The payload can be carried by a packet that has [n] bytes already. *)
Definition carries (payload : list Z) (n : Z) b : Prop :=
  payload <> [] ->
  if b_flag b then 0 <= b_szx b <= 6 /\ 0 <= b_num b /\ b_num b * 2 ^ (b_szx b + 4) < zlen payload /\
                   n + 2 ^ (b_szx b + 4) + 1 <= capacity
  else n + zlen payload + 1 <= capacity.

Lemma carries_mono payload n n' b : carries payload n b -> n' <= n -> carries payload n' b.
Proof. unfold carries. intros Hc Hn Hp. specialize (Hc Hp). destruct (b_flag b); lia. Qed.

Lemma new_request_ok m nodes token payload b c id c' : b_allocs b = [] -> new_message_id lib c = (id, c') ->
  StronglySorted Z.le (List.map n_key nodes) -> zlen token <= 8 ->
  4 + zlen token + cost (List.map node_pair nodes) <= capacity ->
  carries payload (4 + zlen token + cost (List.map node_pair nodes)) b ->
  exists p, coap_new_request lib (Some c) m nodes token payload b = Ok (Some p, Some c', b) /\
    view p = mk_request 0 id (method_code lib m) token (List.map node_pair nodes) (carried payload b).
Proof.
  intros Hb Hid Hs Ht Hc Hpl. unfold coap_new_request, alloc. rewrite Hb. cbn [negb]. rewrite Hid, law_con.
  destruct law_fresh as (F1 & F2 & F3 & F4). destruct (law_header 0 id (method_code lib m) (zlen token) (fresh_pdu lib)) as [H1 V1].
  set (p1 := set_header lib 0 id (method_code lib m) (zlen token) (fresh_pdu lib)) in *. rewrite F2, F3, F4 in V1.
  pose proof (cost_nonneg (List.map node_pair nodes)) as Hnn.
  destruct (law_token token p1) as [H2 V2]; [by rewrite V1|by rewrite V1|done|lia|].
  set (p2 := snd (add_token lib token p1)) in *. rewrite V1 in V2. cbn [q_type q_id q_code q_data] in V2.
  destruct (add_options_ok nodes p2) as [H3 V3]; [by rewrite V2|by rewrite V2|lia|].
  set (p3 := add_options lib nodes p2) in *. rewrite V2 in V3. cbn [q_type q_id q_code q_token q_options app] in V3.
  eexists. split; [reflexivity|]. unfold carries, carried in *. destruct (Z.eqb_spec (zlen payload) 0) as [E0|E0].
  { assert (payload = []) as -> by (destruct payload; [done|revert E0; len_lia]). rewrite V3. destruct (b_flag b); [|done].
    by rewrite drop_nil, take_nil. }
  assert (Hp : payload <> []) by (by intros ->). specialize (Hpl Hp). destruct (b_flag b).
  - destruct Hpl as (? & ? & ? & ?). rewrite law_add_block by (first [by rewrite V3|lia]). by rewrite V3.
  - rewrite law_data by (first [done|by rewrite V3|lia]). by rewrite V3.
Qed.

(** ** The request of a URL *)

(** The block option of a request. *)
Definition block_options (m : method) (payload : list Z) b : list (Z * list Z) :=
  if b_flag b then [(if decide (m = COAP_REQUEST_GET) then 23 else 27, encode_var_bytes lib (block_value lib payload b))] else [].

Lemma block_value_range payload b : 0 <= b_szx b <= 6 -> 0 <= block_value lib payload b < 2 ^ 32.
Proof.
  intros Hs. unfold block_value. assert (Hu : 0 <= u32 (Z.shiftl (b_num b) 4) < 2 ^ 32) by (apply Z.mod_pos_bound; lia).
  assert (Hmore : 0 <= (if more_blocks lib (zlen payload) (b_num b) (b_szx b) then 8 else 0) < 2 ^ 32) by (destruct more_blocks; lia).
  assert (Hlor : forall x y, 0 <= x < 2 ^ 32 -> 0 <= y < 2 ^ 32 -> 0 <= Z.lor x y < 2 ^ 32).
  { intros x y Hx Hy. split; [apply Z.lor_nonneg; lia|]. destruct (Z.eq_dec (Z.lor x y) 0) as [->|Hne]; [lia|].
    apply Z.log2_lt_pow2; [pose proof (proj2 (Z.lor_nonneg x y)); lia|]. rewrite Z.log2_lor by lia.
    assert (forall z, 0 <= z < 2 ^ 32 -> Z.log2 z < 32); [|by apply Z.max_lub_lt; auto].
    intros z Hz. destruct (Z.eq_dec z 0) as [->|]; [reflexivity|]. apply Z.log2_lt_pow2; lia. }
  apply Hlor; [apply Hlor|]; lia.
Qed.

Lemma add_block_option_ok m payload tmp nodes b : b_allocs b = [] -> zlen tmp = 4 -> (b_flag b = true -> 0 <= b_szx b <= 6) ->
  Forall (fun x => n_key x <= 15) nodes ->
  exists n, add_block_option lib m payload tmp nodes b = Ok (nodes ++ n, b) /\
    List.map node_pair n = block_options m payload b.
Proof.
  intros Hb Ht Hs Hn. unfold add_block_option, block_options. rewrite law_block1, law_block2.
  destruct (b_flag b); [|by exists []; rewrite app_nil_r].
  set (bs := encode_var_bytes lib (block_value lib payload b)).
  assert (Hl : zlen bs <= 4) by (by apply law_var_bytes, block_value_range, Hs).
  destruct (split_at tmp (zlen bs)) as (x & y & -> & Hx); [zlen_pos; lia|].
  replace (store_bytes (x ++ y) 0 bs) with (Ok (bs ++ y)) by (symmetry; by apply (store_bytes_at [] x y)). cbn [rbind].
  set (k := if decide (m = COAP_REQUEST_GET) then 23 else 27). assert (Hk : 15 < k < 65536) by (unfold k; case_decide; lia).
  rewrite (new_option_node_ok k (zlen bs) (bs ++ y) 0 b bs) by (first [done|by apply load_bytes_prefix|lia]). cbn [rbind].
  rewrite insert_last by (eapply Forall_impl; [exact Hn|cbn; lia]). by exists [segment_node k bs].
Qed.

Definition url_text (paths queries : list (list Z)) : list Z :=
  lit "coap://0.0.0.0/" ++ join SLASH paths ++
  match join AMPERSAND queries with [] => [] | _ => lit "?" ++ join AMPERSAND queries end.

Definition url_options (paths queries : list (list Z)) : list (Z * list Z) :=
  List.map (pair 11) paths ++ List.map (pair 15) queries.

Lemma segments_size k segs : zlen (concat (List.map segment segs)) <= cost (List.map (pair k) segs).
Proof.
  induction segs as [|s segs IH]; cbn [List.map concat cost fold_right snd]; [reflexivity|].
  fold (cost (List.map (pair k) segs)). rewrite zlen_app. pose proof (law_segment s). lia.
Qed.

Lemma segments_number k segs : Z.of_nat (length segs) <= cost (List.map (pair k) segs).
Proof.
  induction segs as [|s segs IH]; cbn [List.map length cost fold_right snd]; [reflexivity|].
  fold (cost (List.map (pair k) segs)). zlen_pos. lia.
Qed.

Lemma segments_small k segs n : cost (List.map (pair k) segs) <= n -> Forall (fun s => zlen s <= n) segs.
Proof.
  induction segs as [|s segs IH]; cbn [List.map cost fold_right snd]; [constructor|].
  fold (cost (List.map (pair k) segs)). intros Hc. pose proof (cost_nonneg (List.map (pair k) segs)). zlen_pos.
  constructor; [lia|]. apply IH. lia.
Qed.

Lemma node_pairs key segs : List.map node_pair (List.map (segment_node key) segs) = List.map (pair key) segs.
Proof. by rewrite List.map_map. Qed.

Lemma segment_keys k key segs : key <= k -> Forall (fun x => n_key x <= k) (List.map (segment_node key) segs).
Proof. intros Hk. apply List.Forall_map, Forall_forall. intros s _. exact Hk. Qed.

(** [get_pdu] makes the request for the URL of [paths] and [queries]: confirmable,
    with the next message id, the token, an option for each segment in the order of
    the URL, and the payload or the block of it that is due. *)
Lemma get_pdu_ok url m token payload stack1 stack2 tmp b c id c' paths queries :
  cstring (url_text paths queries) url -> Forall plain paths -> Forall plain queries ->
  b_allocs b = [] -> b_ctx b = Some c -> new_message_id lib c = (id, c') -> (b_flag b = true -> 0 <= b_szx b <= 6) ->
  zlen stack1 = BUFSIZE -> zlen stack2 = BUFSIZE -> zlen tmp = 4 -> zlen token <= 8 ->
  cost (url_options paths queries) <= BUFSIZE ->
  let options := url_options paths queries ++ block_options m payload b in
  4 + zlen token + cost options <= capacity -> carries payload (4 + zlen token + cost options) b ->
  exists p, get_pdu lib url m token payload stack1 stack2 tmp b =
      Ok (Some p, b_set_ctx (Some c') (b_set_uri (mk_uri (join SLASH paths) (join AMPERSAND queries)) b)) /\
    view p = mk_request 0 id (method_code lib m) token options (carried payload b).
Proof.
  intros Hurl Hp Hq Hb Hc Hid Hszx H1 H2 Ht Htok Hbuf options Hcap Hpl.
  unfold url_options in Hbuf. rewrite cost_app in Hbuf.
  pose proof (cost_nonneg (List.map (pair 11) paths)). pose proof (cost_nonneg (List.map (pair 15) queries)).
  pose proof (segments_size 11 paths). pose proof (segments_size 15 queries).
  pose proof (segments_number 11 paths). pose proof (segments_number 15 queries).
  assert (Hsmall : forall k segs, cost (List.map (pair k) segs) <= BUFSIZE -> Forall (fun s => zlen s < 65536) segs).
  { intros k segs Hk. eapply Forall_impl; [by apply (segments_small k segs BUFSIZE)|]. unfold BUFSIZE. cbn. lia. }
  unfold get_pdu. rewrite (strlen_cstring _ _ Hurl). cbn [rbind].
  assert (Htake : take (Z.to_nat (zlen (url_text paths queries))) url = url_text paths queries).
  { destruct Hurl as (_ & _ & r & ->). unfold zlen. by rewrite Nat2Z.id, take_app_length. }
  rewrite Htake. unfold url_text. rewrite law_split_uri by (by apply join_chars). cbn [uri_path uri_query].
  set (b1 := b_set_uri _ b). rewrite law_uri_path, law_uri_query.
  rewrite (add_segments_ok (split_path lib) SLASH 11 paths stack1 [] b1) by (first [by apply law_split_path|done|apply (Hsmall 11); lia|unfold BUFSIZE in *; lia]).
  cbn [rbind app].
  rewrite (add_segments_ok (split_query lib) AMPERSAND 15 queries stack2 (List.map (segment_node 11) paths) b1)
    by (first [by apply law_split_query|done|apply (Hsmall 15); lia|by apply segment_keys|unfold BUFSIZE in *; lia]).
  cbn [rbind]. change (b_ctx b1) with (b_ctx b). rewrite Hc.
  set (nodes := List.map (segment_node 11) paths ++ List.map (segment_node 15) queries).
  assert (Hnp : List.map node_pair nodes = url_options paths queries) by (unfold nodes; by rewrite List.map_app, !node_pairs).
  destruct (add_block_option_ok m payload tmp nodes b1) as (n & -> & Hn);
    [done|done|exact Hszx|by apply Forall_app; split; apply segment_keys|].
  change (block_options m payload b1) with (block_options m payload b) in Hn. cbn [rbind].
  assert (Hall : List.map node_pair (nodes ++ n) = options) by (by rewrite List.map_app, Hnp, Hn).
  destruct (new_request_ok m (nodes ++ n) token payload b1 c id c') as (p & Hr & Hv);
    [done|done| |done|by rewrite Hall|rewrite Hall; exact Hpl|].
  - replace (List.map n_key (nodes ++ n)) with (List.map fst options) by (rewrite <- Hall, List.map_map; done).
    unfold options, url_options. rewrite !List.map_app, !List.map_map. apply sorted_numbers.
    unfold block_options. destruct (b_flag b); [right|by left]. case_decide; eauto.
  - change (b_ctx b1) with (b_ctx b). rewrite Hc, Hr. cbn [rbind]. exists p. split; [done|]. by rewrite Hv, Hall.
Qed.
End Laws.
