(* ===== verification/Dtls.v ===== *)
(** * The DTLS example client

    The second half of [picocoap/examples/posix/client_dtls.c]: the handler of
    responses, the callbacks of tinydtls, the event loop with its retransmissions
    and [main].  Requests are made in [DtlsRequest].  tinydtls is not in the
    repository: the callbacks it makes are part of the events.  Global variables the
    file uses without declaring them are fields of the state with any initial
    value. *)

From S2P Require Import Prelude Mem DtlsRequest.

Definition MAX_RETRY : Z := 3.
Definition TIMEOUT : Z := 5.
Definition TEST_READ : Z := 0x02.
Definition TEST_WRITE : Z := 0x04.

(** The strings and the file the requests are made from. *)
Record settings := mk_settings {
  s_alias : list Z;
  s_cik : list Z;
  s_value : list Z;
  s_vendor : list Z;
  s_model : list Z;
  s_content_id : list Z;
  s_client_model_cik : list Z;
  s_file_data : list Z;
  s_token : list Z
}.

(** What is in the arrays of a call before it writes to them: [dest], the two
    [_buf] of [get_pdu] and its [tmp]. *)
Record frame := mk_frame {
  f_dest : list Z;
  f_path : list Z;
  f_query : list Z;
  f_tmp : list Z
}.

(** ** The server *)

Definition COAPS_SRV : list Z := lit "173.255.243.158" ++ [0].
Definition COAPS_SRV_PORT : Z := 20220.

(** What [getaddrinfo] finds: the family of an address and its bytes. *)
Inductive family := AF_INET | AF_INET6 | AF_OTHER.

(** The first address of a known family. *)
Fixpoint first_inet (l : list (family * list Z)) : option (list Z) :=
  match l with
  | [] => None
  | (AF_OTHER, _) :: l => first_inet l
  | (_, a) :: _ => Some a
  end.

(** [server] is a null pointer or the memory from the string on, [dst] the memory
    of the address; [resolve] is [getaddrinfo]: an error number or addresses.  The
    result and the memory of the address.  [addrstr] has 256 bytes. *)
Definition resolve_address (resolve : list Z -> Z + list (family * list Z)) (server : option (list Z)) (dst : list Z)
    : res (Z * list Z) :=
  let addrstr := List.repeat 0 256 in
  let* addrstr :=
    match server with
    | None => memcpy addrstr 0 (lit "localhost") 0 9
    | Some m =>
        let* n := strlen m in
        if 0 <? n then memcpy addrstr 0 m 0 n else memcpy addrstr 0 (lit "localhost") 0 9
    end in
  let* n := strlen addrstr in
  match resolve (take (Z.to_nat n) addrstr) with
  | inl error => Ok (error, dst)
  | inr l =>
      match first_inet l with
      | Some a => let* dst := store_bytes dst 0 a in Ok (zlen a, dst)
      | None => Ok (-1, dst)
      end
  end.

(** ** Files and keys *)

(** [get_key]: the identity and the key, by their lengths in the initialiser. *)
Definition get_key : res (list Z * list Z) :=
  let* id := load_bytes (lit "Client_identity" ++ [0]) 0 15 in
  let* key := load_bytes (lit "ex0CoAPs" ++ [0]) 0 9 in
  Ok (id, key).

(** [fread(ptr, size, 1, fh)] on a file with [size] bytes left: the number of items
    read. *)
Definition fread_item (ptr : option (list Z)) (size : Z) : res Z :=
  if size =? 0 then Ok 0
  else match ptr with None => Fault NullPointer | Some _ => Ok 1 end.

(** [file] is the content of the file, if it can be opened, [memory] whether there
    is memory for it; the new [*size] and [*content], and whether the file is left
    open. *)
Definition get_file_content (file : option (list Z)) (memory : bool) (size : Z) (content : option (list Z))
    : res (Z * option (list Z) * bool) :=
  match file with
  | None => Ok (size, content, false)
  | Some bytes =>
      let size := u32 (zlen bytes) in
      let content := if memory then Some (take (Z.to_nat size) bytes) else None in
      let* n := fread_item content size in
      if negb (size =? n) then Ok (size, content, true)
      else Ok (size, content, false)
  end.

Section Client.
Context {Pdu Ctx : Type} (lib : library Pdu Ctx) (cfg : settings).

Inductive print :=
| PResponse (class detail : Z)
| PMore (szx num : Z)
| PSaved
| PPayload (text : list Z)
| PInvalid
| PRetryLimit
| PNoAddress
| PNoContext
| PWrite
| PRead.

(** [last_sent] and the other global variables, the clock ([time]), what was given
    to [dtls_write], printed and saved, the datagrams on the wire, and what the disk
    does with the next files: [None] when [fopen] fails, [Some n] when [fwrite] gets
    no more than [n] bytes written; behind the end of the script there is room. *)
Record state := mk_state {
  dtls_connected : bool;
  ready_to_recv : bool;
  last_out : Z;
  last_ack : Z;
  last_data : option Pdu;
  last_retry : Z;
  sent_pdu : option Pdu;
  rq : builder (Ctx := Ctx);
  test_cases : Z;
  download_content : list Z;
  download_size : Z;
  saved : option (list Z);
  clock : list Z;
  written : list (Pdu * Pdu);
  printed : list print;
  datagrams : list (list Z);
  disk : list (option nat)
}.

(** ** Updates *)

Definition set_ready (b : bool) (s : state) : state :=
  mk_state (dtls_connected s) b (last_out s) (last_ack s) (last_data s) (last_retry s) (sent_pdu s) (rq s)
    (test_cases s) (download_content s) (download_size s) (saved s) (clock s) (written s) (printed s) (datagrams s) (disk s).
Definition set_connected (b : bool) (s : state) : state :=
  mk_state b (ready_to_recv s) (last_out s) (last_ack s) (last_data s) (last_retry s) (sent_pdu s) (rq s)
    (test_cases s) (download_content s) (download_size s) (saved s) (clock s) (written s) (printed s) (datagrams s) (disk s).
Definition set_last (out ack : Z) (data : option Pdu) (retry : Z) (s : state) : state :=
  mk_state (dtls_connected s) (ready_to_recv s) out ack data retry (sent_pdu s) (rq s)
    (test_cases s) (download_content s) (download_size s) (saved s) (clock s) (written s) (printed s) (datagrams s) (disk s).
Definition set_sent (p : option Pdu) (s : state) : state :=
  mk_state (dtls_connected s) (ready_to_recv s) (last_out s) (last_ack s) (last_data s) (last_retry s) p (rq s)
    (test_cases s) (download_content s) (download_size s) (saved s) (clock s) (written s) (printed s) (datagrams s) (disk s).
Definition set_rq (b : builder) (s : state) : state :=
  mk_state (dtls_connected s) (ready_to_recv s) (last_out s) (last_ack s) (last_data s) (last_retry s) (sent_pdu s) b
    (test_cases s) (download_content s) (download_size s) (saved s) (clock s) (written s) (printed s) (datagrams s) (disk s).
Definition set_tests (t : Z) (s : state) : state :=
  mk_state (dtls_connected s) (ready_to_recv s) (last_out s) (last_ack s) (last_data s) (last_retry s) (sent_pdu s) (rq s)
    t (download_content s) (download_size s) (saved s) (clock s) (written s) (printed s) (datagrams s) (disk s).
Definition set_download (c : list Z) (n : Z) (f : option (list Z)) (s : state) : state :=
  mk_state (dtls_connected s) (ready_to_recv s) (last_out s) (last_ack s) (last_data s) (last_retry s) (sent_pdu s) (rq s)
    (test_cases s) c n f (clock s) (written s) (printed s) (datagrams s) (disk s).
Definition set_clock (c : list Z) (s : state) : state :=
  mk_state (dtls_connected s) (ready_to_recv s) (last_out s) (last_ack s) (last_data s) (last_retry s) (sent_pdu s) (rq s)
    (test_cases s) (download_content s) (download_size s) (saved s) c (written s) (printed s) (datagrams s) (disk s).
Definition add_written (p : Pdu * Pdu) (s : state) : state :=
  mk_state (dtls_connected s) (ready_to_recv s) (last_out s) (last_ack s) (last_data s) (last_retry s) (sent_pdu s) (rq s)
    (test_cases s) (download_content s) (download_size s) (saved s) (clock s) (written s ++ [p]) (printed s) (datagrams s) (disk s).
Definition say (p : print) (s : state) : state :=
  mk_state (dtls_connected s) (ready_to_recv s) (last_out s) (last_ack s) (last_data s) (last_retry s) (sent_pdu s) (rq s)
    (test_cases s) (download_content s) (download_size s) (saved s) (clock s) (written s) (printed s ++ [p]) (datagrams s) (disk s).

Definition set_disk (d : list (option nat)) (s : state) : state :=
  mk_state (dtls_connected s) (ready_to_recv s) (last_out s) (last_ack s) (last_data s) (last_retry s) (sent_pdu s) (rq s)
    (test_cases s) (download_content s) (download_size s) (saved s) (clock s) (written s) (printed s) (datagrams s) d.
Definition add_datagram (bs : list Z) (s : state) : state :=
  mk_state (dtls_connected s) (ready_to_recv s) (last_out s) (last_ack s) (last_data s) (last_retry s) (sent_pdu s) (rq s)
    (test_cases s) (download_content s) (download_size s) (saved s) (clock s) (written s) (printed s) (datagrams s ++ [bs]) (disk s).

(** ** Sending *)

(** [(int)time(NULL)]; when the script ends the clock stands still. *)
Definition time (s : state) : Z * state :=
  match clock s with
  | [] => (0, s)
  | [t] => (s32 t, s)
  | t :: c => (s32 t, set_clock c s)
  end.

(** [dtls_write(dtls_context, &session, (uint8* )p->hdr, q->length)]: what is written
    is recorded as the packet [p] whose bytes are sent and the packet [q] whose
    length is used. *)
Definition dtls_write (p q : option Pdu) (s : state) : res state :=
  match p, q with
  | Some p, Some q => Ok (add_written (p, q) s)
  | _, _ => Fault NullPointer
  end.

Definition SET_SEND_TIMESTAMP (s : state) : state :=
  let '(t, s) := time s in set_last t 0 (sent_pdu s) (last_retry s + 1) s.

Definition SET_ACK_TIMESTAMP (s : state) : state :=
  let '(t, s) := time s in set_last (last_out s) t (last_data s) 0 s.

Context (fr : frame).

(** [get_pdu] on the global variables, with the URL in [dest]. *)
Definition make_pdu (url : list Z) (m : method) (payload : list Z) (s : state) : res (option Pdu * state) :=
  let* '(p, b) := get_pdu lib url m (s_token cfg) payload (f_path fr) (f_query fr) (f_tmp fr) (rq s) in
  Ok (p, set_rq b s).

Definition set_block (flag : bool) (num : Z) (s : state) : state := set_rq (b_set_block flag num (rq s)) s.

Definition get_pdu_read1p (s : state) : res (option Pdu * state) :=
  let* url := url_1p (f_dest fr) (s_cik cfg) (s_alias cfg) in
  make_pdu url COAP_REQUEST_GET [] s.

Definition get_pdu_write1p (s : state) : res (option Pdu * state) :=
  let* url := url_1p (f_dest fr) (s_cik cfg) (s_alias cfg) in
  let* n := strlen (s_value cfg) in
  make_pdu url COAP_REQUEST_POST (take (Z.to_nat n) (s_value cfg)) s.

Definition get_pdu_activate (vendor model serial_number : list Z) (s : state) : res (option Pdu * state) :=
  let* url := url_activate (f_dest fr) vendor model serial_number in
  make_pdu url COAP_REQUEST_POST [] s.

Definition get_pdu_block_upload (s : state) : res (option Pdu * state) :=
  let* url := url_1p (f_dest fr) (s_cik cfg) (s_alias cfg) in
  make_pdu url COAP_REQUEST_PUT (s_file_data cfg) (set_block true (b_num (rq s)) s).

Definition get_pdu_download_content (s : state) : res (option Pdu * state) :=
  let* url := url_download (f_dest fr) (s_vendor cfg) (s_model cfg) (s_content_id cfg) (s_client_model_cik cfg) in
  make_pdu url COAP_REQUEST_GET [] (set_block true (b_num (rq s)) s).

(** ** Responses *)

Definition check_token (received : Pdu) : bool :=
  (zlen (hdr_token lib received) =? zlen (s_token cfg)) && bool_decide (hdr_token lib received = s_token cfg).

(** [if (databuf) PRINTF("payload: '%s'\n", databuf);] *)
Definition print_payload (received : Pdu) (s : state) : res state :=
  match get_data lib received with
  | None => Ok s
  | Some (_, mem) =>
      let* n := strlen mem in
      Ok (say (PPayload (take (Z.to_nat n) mem)) s)
  end.

(** [strcat(download_content, (char* )databuf)] *)
Definition append_data (received : Pdu) (s : state) : res state :=
  match get_data lib received with
  | None => Fault NullPointer
  | Some (_, mem) =>
      let* c := strcat (download_content s) mem in
      Ok (set_download c (download_size s) (saved s) s)
  end.

(** Ask for the next block: [build] makes the request. *)
Definition next_block (build : state -> res (option Pdu * state)) (s : state) : res state :=
  let s := SET_ACK_TIMESTAMP s in
  let s := set_block (b_flag (rq s)) (u32 (b_num (rq s) + 1)) s in
  let* '(p, s) := build s in
  let s := set_sent p s in
  let* s := dtls_write (sent_pdu s) (sent_pdu s) s in
  Ok (SET_SEND_TIMESTAMP s).

(** [fp=fopen(download_save_file, "wb"); fwrite(download_content, 1, download_size, fp);
    fclose(fp);] without a look at the results. *)
Definition save_file (s : state) : res state :=
  match disk s with
  | None :: _ => Fault NullPointer
  | d =>
      let* content := load_bytes (download_content s) 0 (download_size s) in
      let written := match d with Some n :: _ => take n content | _ => content end in
      Ok (set_disk (tail d) (set_download (download_content s) (download_size s) (Some written) s))
  end.

Definition message_handler (received : Pdu) (s : state) : res state :=
  let code := hdr_code lib received in
  let s := say (PResponse (Z.shiftr code 5) (Z.land code 0x1F)) s in
  if negb (check_token received) then Ok s
  else
    if code =? COAP_RESPONSE_CODE lib 205 then
      match get_block lib received with
      | Some block_opt =>
          let s := set_download (download_content s)
            (download_size s + match get_data lib received with None => 0 | Some (len, _) => len end) (saved s) s in
          if block_more lib block_opt then
            let s := say (PMore (block_szx lib block_opt) (block_nr lib block_opt)) s in
            let* s := append_data received s in
            next_block get_pdu_download_content s
          else
            let* s := append_data received s in
            let* s := save_file s in
            Ok (set_ready false (say PSaved s))
      | None =>
          let* s := print_payload received s in
          Ok (set_ready false s)
      end
    else if code =? COAP_RESPONSE_CODE lib 204 then
      let* s := print_payload received s in
      Ok (set_ready false s)
    else
      match get_block lib received with
      | Some block_opt =>
          if code =? COAP_RESPONSE_CODE lib 231 then
            if block_more lib block_opt then
              let s := say (PMore (block_szx lib block_opt) (block_nr lib block_opt)) s in
              next_block get_pdu_block_upload s
            else Ok s
          else
            let* s := print_payload received s in
            Ok (set_ready false s)
      | None =>
          let* s := print_payload received s in
          Ok (set_ready false s)
      end.

(** ** Callbacks *)

(** What tinydtls is given and calls back with: [dtls_connected] is its code for an
    established connection; [coap_pdu_parse] of libcoap makes a packet of the data
    that tinydtls has decrypted. *)
Context (DTLS_EVENT_CONNECTED : Z) (coap_pdu_parse : list Z -> option Pdu).

Definition handle_event (code : Z) (s : state) : state :=
  if code =? DTLS_EVENT_CONNECTED then set_connected true s else s.

Definition read_from_server (data : list Z) (s : state) : res state :=
  match coap_pdu_parse data with
  | Some received => message_handler received s
  | None => Ok (say PInvalid s)
  end.

(** [sent] says whether [sendto] takes the datagram; its result goes back to
    tinydtls. *)
Definition send_to_peer (data : list Z) (sent : bool) (s : state) : Z * state :=
  if sent then (zlen data, add_datagram data s) else (-1, s).

(** The callbacks tinydtls makes while it handles a datagram: an event, data for
    the program, a datagram for the peer. *)
Inductive callback :=
| Event (code : Z)
| Read (data : list Z)
| Write (data : list Z) (sent : bool).

Definition dispatch (c : callback) (s : state) : res state :=
  match c with
  | Event code => Ok (handle_event code s)
  | Read data => read_from_server data s
  | Write data sent => Ok (snd (send_to_peer data sent s))
  end.

Fixpoint dispatches (l : list callback) (s : state) : res state :=
  match l with
  | [] => Ok s
  | c :: l => let* s := dispatch c s in dispatches l s
  end.

(** [sock] is the socket; [got] is [None] when [recvfrom] fails and otherwise the
    callbacks that [dtls_handle_message] makes for the datagram, whose result is
    returned. *)
Definition dtls_handle_read (sock : Z) (got : option (list callback)) (s : state) : res state :=
  if sock =? 0 then Ok s
  else
    match got with
    | None => Ok s
    | Some l => dispatches l s
    end.

(** ** Events *)

(** What [select] reports: an error, nothing within two seconds, or a datagram. *)
Inductive event :=
| SelectError
| SelectTimeout
| Readable (got : option (list callback)).

(** The branch for a timeout; [Break] leaves the loop. *)
Definition on_timeout (s : state) : res (step state state) :=
  if (0 <? last_out s) && (last_ack s =? 0) then
    let '(now, s) := time s in
    if TIMEOUT <? now - last_out s then
      if last_retry s <=? MAX_RETRY then
        let* s := dtls_write (last_data s) (sent_pdu s) s in
        Ok (Continue (SET_SEND_TIMESTAMP s))
      else Ok (Break (say PRetryLimit s))
    else Ok (Continue s)
  else Ok (Continue s).

(** [test_cases & t] *)
Definition has_test (t : Z) (s : state) : bool := negb (Z.land (test_cases s) t =? 0).

(** The end of a round: send the next request, or leave when all are answered. *)
Definition next_test (s : state) : res (step state state) :=
  if dtls_connected s && negb (ready_to_recv s) && has_test TEST_WRITE s then
    let* '(p, s) := get_pdu_write1p s in
    let s := say PWrite (set_sent p s) in
    let* s := dtls_write (sent_pdu s) (sent_pdu s) s in
    Ok (Continue (set_ready true (set_tests (test_cases s - TEST_WRITE) s)))
  else if dtls_connected s && negb (ready_to_recv s) && has_test TEST_READ s then
    let* '(p, s) := get_pdu_read1p s in
    let s := say PRead (set_sent p s) in
    let* s := dtls_write (sent_pdu s) (sent_pdu s) s in
    Ok (Continue (set_ready true (set_tests (test_cases s - TEST_READ) s)))
  else if (test_cases s =? 0) && negb (ready_to_recv s) then Ok (Break s)
  else Ok (Continue s).

(** One round of [while (1)]. *)
Definition event_round (sock : Z) (ev : event) (s : state) : res (step state state) :=
  match ev with
  | SelectError => next_test s
  | SelectTimeout =>
      let* r := on_timeout s in
      match r with
      | Continue s => next_test s
      | Break s => Ok (Break s)
      end
  | Readable got => let* s := dtls_handle_read sock got s in next_test s
  end.

(** The loop on the events that come; it is left or waits for the next event. *)
Fixpoint event_loop (sock : Z) (evs : list event) (s : state) : res (step state state) :=
  match evs with
  | [] => Ok (Continue s)
  | ev :: evs =>
      let* r := event_round sock ev s in
      match r with
      | Continue s => event_loop sock evs s
      | Break s => Ok (Break s)
      end
  end.

(** ** [main] *)

Definition FD_SETSIZE : Z := 1024.

(** How [main] stands, with the address [dtls_connect] was given: over with an exit
    status, or waiting for the next event. *)
Inductive outcome :=
| Exited (status : Z) (s : state)
| Waiting (addr : list Z) (s : state)
| Finished (addr : list Z) (s : state).

(** [session] is the memory of the address in [session], [sock] the result of
    [socket], which is not checked, and [context] says whether tinydtls has a
    context to give. *)
Definition main (resolve : list Z -> Z + list (family * list Z)) (session : nat) (sock : Z) (context : bool)
    (evs : list event) (s : state) : res outcome :=
  let* '(r, addr) := resolve_address resolve (Some COAPS_SRV) (List.repeat 0 session) in
  if r <? 0 then Ok (Exited (-1) (say PNoAddress s))
  else
    (* htons *)
    let* addr := store_bytes addr 2 [Z.shiftr COAPS_SRV_PORT 8; Z.land COAPS_SRV_PORT 0xFF] in
    if negb context then Ok (Exited (-1) (say PNoContext s))
    else if negb ((0 <=? sock) && (sock <? FD_SETSIZE)) then Fault OutOfBounds
    else
      let* r := event_loop sock evs s in
      match r with
      | Continue s => Ok (Waiting addr s)
      | Break s => Ok (Finished addr s)
      end.
End Client.
