(* ===== verification/DtlsToy.v ===== *)
(** * The DTLS example client: a library to run it with

    A small implementation of [library] in which a packet is its parts and a
    context counts message ids.  It satisfies [LibraryLaws], so that the theorems
    about the requests apply to it and evaluate. *)

From S2P Require Import Prelude Mem DtlsRequest DtlsRequestFacts.

(** ** Strings *)

Fixpoint split_on (sep : Z) (l : list Z) : list (list Z) :=
  match l with
  | [] => [[]]
  | c :: l =>
      if c =? sep then [] :: split_on sep l
      else match split_on sep l with [] => [[c]] | s :: ss => (c :: s) :: ss end
  end.

Lemma split_on_last sep s : Forall (fun c => c <> sep) s -> split_on sep s = [s].
Proof.
  induction 1 as [|c s Hc _ IH]; [done|]. cbn [split_on]. by rewrite (proj2 (Z.eqb_neq _ _) Hc), IH.
Qed.

Lemma split_on_app sep s l : Forall (fun c => c <> sep) s -> split_on sep (s ++ sep :: l) = s :: split_on sep l.
Proof.
  induction 1 as [|c s Hc _ IH]; cbn [app split_on]; [by rewrite Z.eqb_refl|]. by rewrite (proj2 (Z.eqb_neq _ _) Hc), IH.
Qed.

Lemma plain_not c x : In x (lit "/?&#%.") -> plain_char c -> c <> x.
Proof. intros Hx (_ & _ & Hc) ->. auto. Qed.

Lemma split_join sep segs : In sep (lit "/?&#%.") -> segs <> [] -> Forall plain segs -> split_on sep (join sep segs) = segs.
Proof.
  intros Hsep Hne Hp. induction Hp as [|s segs [_ Hs] Hp IH]; [done|].
  assert (Hs' : Forall (fun c => c <> sep) s) by (eapply Forall_impl; [exact Hs|intros c; by apply plain_not]).
  destruct segs as [|s' segs]; cbn [join]; [by apply split_on_last|]. rewrite split_on_app by done. f_equal. by apply IH.
Qed.

(** ** The library *)

Definition toy_segment (s : list Z) : list Z := zlen s / 256 :: zlen s mod 256 :: s.

Definition toy_split (sep : Z) (text : list Z) (size : Z) : Z * list Z :=
  let segs := split_on sep text in (Z.of_nat (length segs), concat (List.map toy_segment segs)).

Definition toy_length (m : list Z) : res Z :=
  match m with h :: l :: _ => Ok (256 * h + l) | _ => Fault OutOfBounds end.

Definition toy_split_uri (text : list Z) (u : uri) : Z * uri :=
  match split_on 63 (drop 15 text) with
  | [path] => (0, mk_uri path [])
  | [path; query] => (0, mk_uri path query)
  | _ => (-1, u)
  end.

Fixpoint toy_insert (l : list node) (n : node) (order : opt_pointer -> opt_pointer -> Z) : list node :=
  match l with
  | [] => [n]
  | x :: l' => if order (node_option n) (node_option x) <? 0 then n :: l else x :: toy_insert l' n order
  end.

Definition toy_size (p : request) : Z := 4 + zlen (q_token p) + cost (q_options p).

Definition toy_library : library request Z := {|
  hdr_code := q_code;
  hdr_token := q_token;
  get_data := fun p => match q_data p with [] => None | d => Some (zlen d, d ++ [0]) end;
  option_next := fun f p => option_map snd (List.find (fun o => existsb (Z.eqb (fst o)) f) (q_options p));
  block_more := fun v => Z.testbit (le_value (rev v)) 3;
  block_szx := fun v => Z.land (le_value (rev v)) 7;
  block_nr := fun v => Z.shiftr (le_value (rev v)) 4;
  split_uri := toy_split_uri;
  split_path := toy_split SLASH;
  split_query := toy_split AMPERSAND;
  opt_length := toy_length;
  opt_value := fun m => Ok 2;
  opt_size := fun m => let* n := toy_length m in Ok (n + 2);
  coap_insert := fun l n order => match n with None => l | Some n => toy_insert l n order end;
  sizeof_addr := 28;
  new_context := fun _ => Some 0;
  new_message_id := fun c => (u16 (c + 1), u16 (c + 1));
  fresh_pdu := mk_request 0 0 0 [] [] [];
  set_header := fun t i c k p => mk_request t i c (q_token p) (q_options p) (q_data p);
  add_token := fun s p => (1, mk_request (q_type p) (q_id p) (q_code p) s (q_options p) (q_data p));
  add_option := fun k v p => (1, mk_request (q_type p) (q_id p) (q_code p) (q_token p) (q_options p ++ [(k, v)]) (q_data p));
  add_data := fun d p => (1, mk_request (q_type p) (q_id p) (q_code p) (q_token p) (q_options p) d);
  add_block := fun d num szx p => (1, mk_request (q_type p) (q_id p) (q_code p) (q_token p) (q_options p)
    (take (Z.to_nat (2 ^ (szx + 4))) (drop (Z.to_nat (num * 2 ^ (szx + 4))) d)));
  encode_var_bytes := fun v => rev (le_bytes 4 v);
  more_blocks := fun n num szx => (num + 1) * 2 ^ (szx + 4) <? n;
  COAP_MESSAGE_CON := 0;
  method_code := fun m => match m with COAP_REQUEST_GET => 1 | COAP_REQUEST_POST => 2 | COAP_REQUEST_PUT => 3 end;
  COAP_OPTION_URI_PATH := 11;
  COAP_OPTION_URI_QUERY := 15;
  COAP_OPTION_BLOCK1 := 27;
  COAP_OPTION_BLOCK2 := 23;
  COAP_RESPONSE_CODE := fun n => 32 * (n / 100) + n mod 100
|}.

(** ** Its laws *)

Lemma toy_length_segment s rest : toy_length (toy_segment s ++ rest) = Ok (zlen s).
Proof. cbn [toy_segment app toy_length]. f_equal. pose proof (Z.div_mod (zlen s) 256). lia. Qed.

Lemma toy_insert_inserted n order l : inserted order n l (toy_insert l n order).
Proof.
  induction l as [|x l (l1 & l2 & -> & E & H1 & H2)]; cbn [toy_insert].
  - exists [], []. by repeat split.
  - destruct (Z.ltb_spec (order (node_option n) (node_option x)) 0) as [Hlt|Hge].
    + exists [], (x :: l1 ++ l2). by repeat split.
    + exists (x :: l1), l2. rewrite E. split; [done|]. split; [done|]. split; [by constructor|done].
Qed.

Lemma toy_split_uri_law path query u : Forall (fun c => plain_char c \/ c = SLASH) path ->
  Forall (fun c => plain_char c \/ c = AMPERSAND) query ->
  toy_split_uri (lit "coap://0.0.0.0/" ++ path ++ match query with [] => [] | _ => lit "?" ++ query end) u =
    (0, mk_uri path query).
Proof.
  intros Hp Hq. unfold toy_split_uri. change 15%nat with (length (lit "coap://0.0.0.0/")). rewrite drop_app_length.
  assert (H63 : forall sep l, sep <> 63 -> Forall (fun c => plain_char c \/ c = sep) l -> Forall (fun c => c <> 63) l).
  { intros sep l Hsep Hl. eapply Forall_impl; [exact Hl|]. intros c [Hc| ->]; [|done]. eapply plain_not; [|exact Hc].
    simpl. auto. }
  apply H63 in Hp; [|done]. apply H63 in Hq; [|done]. destruct query as [|c query].
  - rewrite app_nil_r. by rewrite split_on_last.
  - change (lit "?" ++ c :: query) with (63 :: c :: query). rewrite split_on_app by done. by rewrite split_on_last.
Qed.

#[export] Instance toy_laws : LibraryLaws toy_library.
Proof.
  refine {| view := fun p => p; pdu_size := toy_size; capacity := 1400; segment := toy_segment |}; cbn [toy_library
    COAP_MESSAGE_CON method_code COAP_OPTION_URI_PATH COAP_OPTION_URI_QUERY COAP_OPTION_BLOCK1 COAP_OPTION_BLOCK2
    split_uri split_path split_query opt_length opt_value opt_size coap_insert fresh_pdu set_header add_token add_option
    add_data add_block encode_var_bytes snd]; try done.
  - apply toy_split_uri_law.
  - intros segs Hn Hp _. unfold toy_split. rewrite split_join by (done || simpl; auto). done.
  - intros segs Hn Hp _. unfold toy_split. rewrite split_join by (done || simpl; auto). done.
  - intros s rest _. apply toy_length_segment.
  - intros s rest _. exists 2. split; [done|]. by apply (load_bytes_at [zlen s / 256; zlen s mod 256] s rest).
  - intros s rest _. rewrite toy_length_segment. cbn [rbind]. f_equal. unfold toy_segment. len_lia.
  - intros s. unfold toy_segment. len_lia.
  - intros l n order. apply toy_insert_inserted.
  - intros s p Ht Ho. unfold toy_size. cbn [q_token q_options]. rewrite Ht, Ho. intros _ _. split; [len_lia|done].
  - intros k v p _ Hd _. unfold toy_size. cbn [q_token q_options]. rewrite cost_app, Hd. split; [|done]. cbn. lia.
Defined.
