(* ===== verification/DtlsProps.v ===== *)
(** * The DTLS example client: properties

    How long its URLs may be, when it retransmits, that its requests are made one
    after the other, and how it starts. *)

From S2P Require Import Prelude Mem DtlsRequest DtlsRequestFacts Dtls DtlsToy.

(** ** Strings *)

Lemma cstring_app s rest : bytes s -> Forall (fun b => b <> 0) s -> cstring s (s ++ 0 :: rest).
Proof. intros. split; [done|]. split; [done|]. by exists rest. Qed.

(** [strcat] writes behind the string; without room for the NUL it leaves the
    array. *)
Lemma strcat_spec dst s src t : cstring s dst -> cstring t src ->
  if zlen s + zlen t <? zlen dst
  then exists dst', strcat dst src = Ok dst' /\ cstring (s ++ t) dst' /\ zlen dst' = zlen dst
  else strcat dst src = Fault OutOfBounds.
Proof.
  intros Hs Ht. pose proof (strlen_cstring _ _ Hs) as Ls. pose proof (strlen_cstring _ _ Ht) as Lt.
  destruct Hs as (Hb1 & Hn1 & r1 & ->), Ht as (Hb2 & Hn2 & r2 & ->). unfold strcat. rewrite Ls. cbn [rbind].
  rewrite Lt. cbn [rbind]. unfold memcpy.
  assert (Hld : load_bytes (t ++ 0 :: r2) 0 (zlen t + 1) = Ok (t ++ [0])).
  { replace (t ++ 0 :: r2) with ((t ++ [0]) ++ r2) by (by rewrite <- app_assoc). apply load_bytes_prefix. len_lia. }
  rewrite Hld. cbn [rbind]. destruct (Z.ltb_spec (zlen s + zlen t) (zlen (s ++ 0 :: r1))) as [Hlt|Hge].
  - autorewrite with zlen in Hlt. destruct (split_at (0 :: r1) (zlen (t ++ [0]))) as (x & y & E & Hx); [len_lia|].
    exists (s ++ (t ++ [0]) ++ y). rewrite E. rewrite (store_bytes_at s x y (t ++ [0])) by (done || len_lia).
    split; [done|]. split; [|rewrite !zlen_app in *; lia].
    replace (s ++ (t ++ [0]) ++ y) with ((s ++ t) ++ 0 :: y) by (by rewrite <- !app_assoc).
    apply cstring_app; by apply Forall_app.
  - unfold store_bytes. rewrite (proj2 (Z.eqb_neq _ 0)) by len_lia.
    rewrite (proj2 (Z.leb_gt (zlen s + _) _)) by len_lia. by rewrite andb_false_r.
Qed.

Lemma strcpy_spec dst src t : cstring t src -> zlen t < zlen dst ->
  exists dst', strcpy dst src = Ok dst' /\ cstring t dst' /\ zlen dst' = zlen dst.
Proof.
  intros Ht Hl. unfold strcpy. rewrite (strlen_cstring _ _ Ht). cbn [rbind]. destruct Ht as (Hb & Hn & r & ->).
  destruct (split_at dst (zlen t + 1)) as (x & y & -> & Hx); [zlen_pos; lia|]. exists ((t ++ [0]) ++ y).
  unfold memcpy. replace (t ++ 0 :: r) with ((t ++ [0]) ++ r) by (by rewrite <- app_assoc).
  rewrite load_bytes_prefix by len_lia. cbn [rbind].
  rewrite (store_bytes_at [] x y (t ++ [0])) by (done || len_lia). split; [done|].
  split; [|rewrite !zlen_app in *; change (zlen [0]) with 1; lia].
  replace ((t ++ [0]) ++ y) with (t ++ 0 :: y) by (by rewrite <- app_assoc). by apply cstring_app.
Qed.

(** A sequence of [strcat]. *)
Lemma strcats_spec parts : forall texts dst s, Forall2 cstring texts parts -> cstring s dst ->
  if zlen (s ++ concat texts) <? zlen dst
  then exists dst', strcats dst parts = Ok dst' /\ cstring (s ++ concat texts) dst' /\ zlen dst' = zlen dst
  else strcats dst parts = Fault OutOfBounds.
Proof.
  induction parts as [|src parts IH]; intros texts dst s Hp Hs; inversion Hp as [|t ? ts ? Ht Hts]; subst.
  - simpl. rewrite app_nil_r. destruct Hs as (? & ? & r & ->). rewrite (proj2 (Z.ltb_lt _ _)) by len_lia.
    eexists. split; [done|]. split; [|done]. by apply cstring_app.
  - cbn [strcats concat]. pose proof (strcat_spec dst s src t Hs Ht) as Hc. rewrite app_assoc.
    destruct (Z.ltb_spec (zlen s + zlen t) (zlen dst)) as [Hlt|Hge].
    + destruct Hc as (dst' & -> & Hs' & Hl). cbn [rbind]. rewrite <- Hl. by apply IH.
    + rewrite Hc. cbn [rbind]. rewrite (proj2 (Z.ltb_ge _ _)); [done|]. rewrite !zlen_app. zlen_pos. lia.
Qed.

(** The URLs of the DTLS example are what they should be as long as they fit the
    2048 bytes of the array they are put together in; a longer alias or key makes
    [strcat] write behind it: nothing checks the length. *)
Theorem url_fits_or_overflows dest cik alias k a :
  zlen dest = BUFSIZE -> cstring k cik -> cstring a alias ->
  let url := lit "coap://0.0.0.0/1a/" ++ a ++ lit "?" ++ k in
  if zlen url <? BUFSIZE
  then exists dest', url_1p dest cik alias = Ok dest' /\ cstring url dest'
  else url_1p dest cik alias = Fault OutOfBounds.
Proof.
  intros Hd Hk Ha url. unfold url_1p.
  assert (Hp : cstring (lit "coap://0.0.0.0/1a/") (lit "coap://0.0.0.0/1a/" ++ [0])).
  { apply cstring_app; [by apply bytes_eval|by repeat constructor]. }
  assert (Hq : cstring (lit "?") question) by (apply cstring_app; [by apply bytes_eval|by repeat constructor]).
  destruct (strcpy_spec dest _ _ Hp) as (d1 & -> & Hs & Hl); [rewrite Hd; done|]. cbn [rbind].
  assert (Hparts : Forall2 cstring [a; lit "?"; k] [alias; question; cik]) 
    by (constructor; [exact Ha|constructor; [exact Hq|constructor; [exact Hk|constructor]]]).
  pose proof (strcats_spec [alias; question; cik] _ d1 _ Hparts Hs) as Hc.
  cbn [concat] in Hc. rewrite app_nil_r, Hl, Hd in Hc. fold url in Hc.
  destruct (_ <? _); [|exact Hc]. destruct Hc as (d & ? & ? & _). eauto.
Qed.

(** ** The event loop *)

Section Loop.
Context {Pdu Ctx : Type} (lib : library Pdu Ctx) (cfg : settings) (fr : frame).
Context (connected : Z) (parse : list Z -> option Pdu) (sock : Z).
Implicit Types (s : state (Pdu := Pdu) (Ctx := Ctx)).
#[local] Abbreviation event_loop := (event_loop lib cfg fr connected parse sock).
#[local] Abbreviation event_round := (event_round lib cfg fr connected parse sock).
#[local] Abbreviation next_test := (next_test lib cfg fr).

(** No datagram arrives. *)
Definition quiet_event (ev : event) : Prop := ev = SelectTimeout \/ ev = SelectError.

Lemma waiting_next_test s : ready_to_recv s = true -> next_test s = Ok (Continue s).
Proof. intros Hr. unfold Dtls.next_test. by rewrite Hr, !andb_false_r. Qed.

(** The DTLS example does not retransmit its read and write requests: [main] sends
    them without setting the time they were sent at, so when the request or its
    answer is lost the program waits forever without sending anything again. *)
Theorem lost_request_never_retried evs s :
  Forall quiet_event evs -> ready_to_recv s = true -> last_out s = 0 ->
  event_loop evs s = Ok (Continue s).
Proof.
  intros Hev Hr Ho. induction Hev as [|ev evs Hq _ IH]; [done|]. cbn [Dtls.event_loop].
  assert (He : event_round ev s = Ok (Continue s)).
  { unfold Dtls.event_round. destruct Hq as [->| ->]; [|by apply waiting_next_test].
    unfold on_timeout. rewrite Ho. cbn [andb Z.ltb Z.compare rbind]. by apply waiting_next_test. }
  rewrite He. exact IH.
Qed.

(** A state that waits for the answer to [p], the last block that was sent. *)
Record waits_for (p : Pdu) s : Prop := mk_waits_for {
  wf_ready : ready_to_recv s = true;
  wf_data : last_data s = Some p;
  wf_sent : sent_pdu s = Some p;
  wf_retry : 0 <= last_retry s
}.

(** How often [p] may still be sent again. *)
Definition retries_left s : Z := Z.max 0 (MAX_RETRY + 1 - last_retry s).

Lemma time_keeps s : exists t c, time s = (t, set_clock c s).
Proof.
  unfold time. destruct (clock s) as [|t [|t' c]] eqn:E; do 2 eexists; (f_equal || reflexivity).
  - instantiate (1 := clock s). by destruct s.
  - instantiate (1 := clock s). by destruct s.
Qed.

Lemma timeout_step p s : waits_for p s ->
  exists r n, on_timeout s = Ok r /\ 0 <= n <= 1 /\
    match r with
    | Continue s' => waits_for p s' /\ written s' = written s ++ List.repeat (p, p) (Z.to_nat n) /\
                     last_retry s' = last_retry s + n /\ (n = 1 -> last_retry s <= MAX_RETRY)
    | Break s' => written s' = written s /\ n = 0 /\ MAX_RETRY < last_retry s
    end.
Proof.
  intros [Hr Hd Hs Hret]. unfold on_timeout.
  assert (Hnil : forall l : list (Pdu * Pdu), l = l ++ List.repeat (p, p) (Z.to_nat 0)) by (intros l; by rewrite app_nil_r).
  destruct (_ && _).
  2: { exists (Continue s), 0. split; [done|]. split; [lia|]. split; [done|]. split; [apply Hnil|lia]. }
  destruct (time_keeps s) as (t & c & ->). destruct (_ <? _).
  2: { exists (Continue (set_clock c s)), 0. split; [done|]. split; [lia|]. split; [done|]. split; [apply Hnil|cbn; lia]. }
  destruct (Z.leb_spec (last_retry (set_clock c s)) MAX_RETRY) as [Hle|Hgt].
  - cbn [set_clock last_data sent_pdu]. rewrite Hd, Hs. cbn [dtls_write rbind]. unfold SET_SEND_TIMESTAMP.
    destruct (time_keeps (add_written (p, p) (set_clock c s))) as (t2 & c2 & ->).
    eexists. exists 1. split; [reflexivity|]. split; [lia|].
    split; [constructor; cbn; (done || lia)|]. split; [done|]. split; [done|]. by intros _.
  - eexists. exists 0. split; [reflexivity|]. split; [lia|]. done.
Qed.

(** C36. A block of a transfer is sent again at most [MAX_RETRY] times: while no
    datagram arrives the program sends nothing but the last block, never more often
    than the retry limit allows (three times after the first), and it only gives
    up, leaving the loop, when the limit is reached. *)
Theorem block_retransmissions_bounded p evs : Forall quiet_event evs -> forall s, waits_for p s ->
  returns (event_loop evs s) (fun r => exists n, 0 <= n <= retries_left s /\
    match r with
    | Continue s' => written s' = written s ++ List.repeat (p, p) (Z.to_nat n) /\ waits_for p s'
    | Break s' => written s' = written s ++ List.repeat (p, p) (Z.to_nat n) /\ MAX_RETRY < last_retry s + n
    end).
Proof.
  intros Hev. induction Hev as [|ev evs Hq _ IH]; intros s Hw.
  - exists 0. split; [unfold retries_left; lia|]. split; [by rewrite app_nil_r|done].
  - cbn [Dtls.event_loop]. destruct Hq as [->| ->]; cbn [Dtls.event_round].
    + destruct (timeout_step p s Hw) as (r & n & -> & Hn & Hr). cbn [rbind]. destruct r as [s1|s1].
      * destruct Hr as (Hw1 & Hwr & Hret & Hlim). rewrite waiting_next_test by apply Hw1. cbn [rbind].
        eapply returns_mono; [by apply IH|]. intros r (k & Hk & Hr).
        assert (Hrep : List.repeat (p, p) (Z.to_nat (n + k)) = List.repeat (p, p) (Z.to_nat n) ++ List.repeat (p, p) (Z.to_nat k)).
        { rewrite Z2Nat.inj_add by (unfold retries_left in Hk; lia). by rewrite repeat_app. }
        exists (n + k). split.
        -- unfold retries_left in *. destruct (Z.eq_dec n 1) as [Hn1|]; [specialize (Hlim Hn1)|]; lia.
        -- destruct r as [s2|s2]; destruct Hr as [Hs2 Hr]; rewrite Hs2, Hwr, Hrep, <- app_assoc; (split; [done|]); [done|lia].
      * destruct Hr as (Hwr & -> & Hlim). exists 0. split; [unfold retries_left; lia|]. rewrite Hwr, app_nil_r. by split; [|lia].
    + rewrite waiting_next_test by apply Hw. cbn [rbind]. by apply IH.
Qed.

(** ** The requests *)

(** An answer to the request without a block option; what it brings can be printed. *)
Definition plain_answer (r : Pdu) : Prop :=
  check_token lib cfg r = true /\ get_block lib r = None /\
  match get_data lib r with None => True | Some (_, mem) => exists t, cstring t mem end.

(** All fields but the flag and the output are as before. *)
Lemma answer_handled r s : plain_answer r -> exists out,
  message_handler lib cfg fr r s = Ok (set_ready false (fold_left (fun s p => say p s) out s)).
Proof.
  intros (Ht & Hb & Hd). unfold message_handler. rewrite Ht, Hb. cbn [negb].
  assert (Hp : forall s, exists out, print_payload lib r s = Ok (fold_left (fun s p => say p s) out s)).
  { intros s0. unfold print_payload. destruct (get_data lib r) as [[len mem]|]; [|by exists []].
    destruct Hd as [t Ht']. rewrite (strlen_cstring _ _ Ht'). cbn [rbind]. eexists [_]. reflexivity. }
  destruct (Hp (say (PResponse (Z.shiftr (hdr_code lib r) 5) (Z.land (hdr_code lib r) 31)) s)) as [out ->]. cbn [rbind].
  exists (PResponse (Z.shiftr (hdr_code lib r) 5) (Z.land (hdr_code lib r) 31) :: out).
  by destruct (_ =? _); [|destruct (_ =? _)].
Qed.

Lemma event_loop_app e1 e2 s s' : event_loop e1 s = Ok (Continue s') ->
  event_loop (e1 ++ e2) s = event_loop e2 s'.
Proof.
  revert s. induction e1 as [|ev e1 IH]; intros s; cbn [Dtls.event_loop app]; [by intros [= ->]|].
  destruct (event_round ev s) as [[s1|s1]|]; cbn [rbind]; [apply IH|done|done].
Qed.

(** The fields on which the requests depend, and those the loop tests. *)
Definition same_but_output s s' : Prop :=
  dtls_connected s' = dtls_connected s /\ last_out s' = last_out s /\ rq s' = rq s /\ test_cases s' = test_cases s /\ written s' = written s.

Lemma say_all out : forall s, same_but_output s (fold_left (fun s p => say p s) out s).
Proof.
  induction out as [|p out IH]; intros s; [done|]. cbn [fold_left].
  exact (IH (say p s)).
Qed.

(** A datagram from which tinydtls decrypts the answer [a]. *)
Definition answers (a : Pdu) (ev : event) : Prop :=
  exists data, ev = Readable (Some [Read data]) /\ parse data = Some a.

(** Waiting, then an answer that ends the wait. *)
Lemma wait_and_answer t a eva rest s : Forall quiet_event t -> answers a eva -> sock <> 0 -> plain_answer a ->
  ready_to_recv s = true -> last_out s = 0 ->
  exists s1, event_loop (t ++ eva :: rest) s =
      (let* r := next_test s1 in
       match r with Continue s => event_loop rest s | Break s => Ok (Break s) end) /\
    same_but_output s s1 /\ ready_to_recv s1 = false.
Proof.
  intros Ht (data & -> & Hparse) Hsock Ha Hr Ho. destruct (answer_handled a s Ha) as [out Hm].
  exists (set_ready false (fold_left (fun s p => say p s) out s)). split; [|split; [apply (say_all out s)|done]].
  assert (Hq : event_loop t s = Ok (Continue s)).
  { clear Hm. induction Ht as [|ev t Hq _ IH]; [done|]. cbn [Dtls.event_loop].
    destruct Hq as [->| ->]; cbn [Dtls.event_round]; unfold on_timeout; rewrite ?Ho; cbn [andb Z.ltb Z.compare rbind];
      rewrite waiting_next_test by done; exact IH. }
  rewrite (event_loop_app t _ s s Hq). cbn [Dtls.event_loop Dtls.event_round].
  unfold dtls_handle_read. rewrite (proj2 (Z.eqb_neq _ _) Hsock). cbn [dispatches dispatch]. unfold read_from_server.
  rewrite Hparse, Hm. done.
Qed.

(** The requests that are made from the global variables [b]: the write and then
    the read. *)
Definition requests b w r : Prop := exists url n b1 b2,
  url_1p (f_dest fr) (s_cik cfg) (s_alias cfg) = Ok url /\ strlen (s_value cfg) = Ok n /\
  get_pdu lib url COAP_REQUEST_POST (s_token cfg) (take (Z.to_nat n) (s_value cfg)) (f_path fr) (f_query fr) (f_tmp fr) b
    = Ok (Some w, b1) /\
  get_pdu lib url COAP_REQUEST_GET (s_token cfg) [] (f_path fr) (f_query fr) (f_tmp fr) b1 = Ok (Some r, b2).

(** The DTLS example makes its requests one after the other: once connected it
    sends the write, waits for its answer however long it takes, sends the read,
    waits for its answer and leaves the loop; nothing else is sent. *)
Theorem requests_one_by_one ev t1 t2 eva evb a b s w r :
  dtls_connected s = true -> ready_to_recv s = false -> test_cases s = TEST_WRITE + TEST_READ -> last_out s = 0 ->
  requests (rq s) w r -> sock <> 0 ->
  quiet_event ev -> Forall quiet_event t1 -> Forall quiet_event t2 -> answers a eva -> answers b evb ->
  plain_answer a -> plain_answer b ->
  exists s', event_loop (ev :: t1 ++ eva :: t2 ++ [evb]) s = Ok (Break s') /\
    written s' = written s ++ [(w, w); (r, r)] /\ test_cases s' = 0.
Proof.
  intros Hc Hr Ht Ho (url & n & b1 & b2 & Hurl & Hn & Hw & Hrd) Hsock Hev H1 H2 Ha Hb Hpa Hpb. cbn [Dtls.event_loop].
  set (s1 := set_ready true (set_tests TEST_READ (add_written (w, w) (say PWrite (set_sent (Some w) (set_rq b1 s)))))).
  assert (He : event_round ev s = Ok (Continue s1)).
  { assert (Hnext : next_test s = Ok (Continue s1)).
    { unfold Dtls.next_test, has_test. rewrite Hc, Hr, Ht. cbn [andb negb]. unfold get_pdu_write1p. rewrite Hurl. cbn [rbind].
      rewrite Hn. cbn [rbind]. unfold make_pdu. rewrite Hw. cbn [rbind]. cbn. by rewrite Ht. }
    destruct Hev as [->| ->]; cbn [Dtls.event_round]; [|exact Hnext]. unfold on_timeout. by rewrite Ho. }
  rewrite He. cbn [rbind]. destruct (wait_and_answer t1 a eva (t2 ++ [evb]) s1 H1 Ha Hsock Hpa) as (s2 & -> & Hs2 & Hr2); [done..|].
  destruct Hs2 as (C2 & O2 & F2 & T2 & W2).
  assert (Hr2' : get_pdu_read1p lib cfg fr s2 = Ok (Some r, set_rq b2 s2)).
  { unfold get_pdu_read1p. rewrite Hurl. cbn [rbind]. unfold make_pdu. rewrite F2. cbn. rewrite Hrd. done. }
  unfold Dtls.next_test at 1, has_test. rewrite C2, Hr2, T2.
  cbn [s1 set_ready set_tests add_written say set_sent set_rq dtls_connected test_cases].
  rewrite Hc. cbn [andb negb]. change (negb (Z.land TEST_READ TEST_WRITE =? 0)) with false.
  change (negb (Z.land TEST_READ TEST_READ =? 0)) with true. cbn iota. rewrite Hr2'. cbn [rbind dtls_write set_sent say sent_pdu].
  set (s3 := set_ready true _). destruct (wait_and_answer t2 b evb [] s3 H2 Hb Hsock Hpb) as (s4 & -> & Hs4 & Hr4); [done|subst s3; cbn; rewrite O2; exact Ho|].
  destruct Hs4 as (C4 & O4 & F4 & T4 & W4).
  assert (Ht4 : test_cases s4 = 0) by (rewrite T4; subst s3; cbn; rewrite T2; done).
  unfold Dtls.next_test, has_test. rewrite Ht4, Hr4. cbn [Z.land Z.eqb negb]. rewrite !andb_false_r. cbn [andb rbind].
  exists s4. split; [done|]. split; [|done]. rewrite W4. subst s3. cbn. rewrite W2. cbn. by rewrite <- app_assoc.
Qed.
End Loop.

(** ** Start *)

Lemma store_in_zeros (n : nat) bs : zlen bs <= Z.of_nat n ->
  store_bytes (List.repeat 0 n) 0 bs = Ok (bs ++ List.repeat 0 (n - length bs)).
Proof.
  intros Hl. unfold zlen in Hl. replace n with (length bs + (n - length bs))%nat at 1 by lia. rewrite repeat_app.
  apply (store_bytes_at []); [done|unfold zlen; by rewrite repeat_length].
Qed.

(** A server name of 256 characters or more leaves the array [addrstr], which is
    then not terminated or written behind; a shorter one reaches [getaddrinfo]
    unchanged. *)
Theorem resolve_address_name resolve name m dst : cstring name m -> name <> [] ->
  resolve_address resolve (Some m) dst =
  if zlen name <? 256 then
    match resolve name with
    | inl error => Ok (error, dst)
    | inr l => match first_inet l with
               | Some a => let* dst := store_bytes dst 0 a in Ok (zlen a, dst)
               | None => Ok (-1, dst)
               end
    end
  else Fault OutOfBounds.
Proof.
  intros Hm Hne. unfold resolve_address. rewrite (strlen_cstring _ _ Hm). cbn [rbind].
  assert (Hpos : 0 < zlen name) by (destruct name; [done|len_lia]). rewrite (proj2 (Z.ltb_lt _ _) Hpos).
  destruct Hm as (Hb & Hn & r & ->). unfold memcpy. rewrite load_bytes_prefix by done. cbn [rbind].
  assert (Hl : zlen (List.repeat 0 256) = 256) by done.
  destruct (Z.ltb_spec (zlen name) 256) as [Hlt|Hge].
  - rewrite (store_in_zeros 256) by lia. cbn [rbind]. destruct (256 - length name)%nat as [|k] eqn:Ek; [unfold zlen in Hlt; lia|].
    assert (Hc : cstring name (name ++ List.repeat 0 (S k))) by (by apply cstring_app).
    rewrite (strlen_cstring _ _ Hc). cbn [rbind]. replace (take (Z.to_nat (zlen name)) _) with name; [done|].
    unfold zlen. by rewrite Nat2Z.id, take_app_length.
  - unfold store_bytes. rewrite (proj2 (Z.eqb_neq _ 0)), Hl by lia.
    destruct (Z.leb_spec (0 + zlen name) 256) as [Hle|Hgt]; [|by rewrite andb_false_r]. cbn [andb Z.leb Z.compare].
    replace (Z.to_nat (0 + zlen name)) with 256%nat by lia. cbn [Z.to_nat take app].
    replace (drop 256 (List.repeat 0 256)) with (@nil Z) by reflexivity. rewrite app_nil_r. cbn [rbind].
    assert (Hsl : forall l, Forall (fun c => c <> 0) l -> strlen l = Fault OutOfBounds).
    { induction 1 as [|c l Hc _ IH]; [done|]. cbn [strlen]. by rewrite (proj2 (Z.eqb_neq _ _) Hc), IH. }
    by rewrite Hsl.
Qed.

(** The file reader closes the file only when it has no more than one byte:
    [fread] counts the one item it is asked for, not its bytes. *)
Theorem file_left_open bytes size content : zlen bytes < 2 ^ 32 ->
  get_file_content (Some bytes) true size content = Ok (zlen bytes, Some bytes, 1 <? zlen bytes).
Proof.
  intros Hl. unfold get_file_content, fread_item. assert (u32 (zlen bytes) = zlen bytes) as -> by (apply Z.mod_small; zlen_pos; lia).
  replace (take (Z.to_nat (zlen bytes)) bytes) with bytes by (unfold zlen; by rewrite Nat2Z.id, firstn_all).
  zlen_pos. destruct (Z.eqb_spec (zlen bytes) 0) as [E|E]; cbn [rbind]; [by rewrite E|].
  destruct (Z.eqb_spec (zlen bytes) 1) as [E1|E1]; cbn [negb]; [by rewrite E1|]. by rewrite (proj2 (Z.ltb_lt _ _)) by lia.
Qed.

Section Main.
Context {Pdu Ctx : Type} (lib : library Pdu Ctx) (cfg : settings) (fr : frame).
Context (connected : Z) (parse : list Z -> option Pdu) (sock : Z).
#[local] Abbreviation main := (main lib cfg fr connected parse).

(** [main] connects to the first Internet address of the server, with the port
    20220 in network order, and then runs the loop; a negative result of
    [getaddrinfo], or no address, ends it. *)
Theorem main_connects resolve (session : nat) evs s x1 x2 p1 p2 host :
  let name := lit "173.255.243.158" in
  let a := x1 :: x2 :: p1 :: p2 :: host in
  zlen a <= Z.of_nat session -> 0 <= sock < FD_SETSIZE ->
  (forall l, resolve name = inr l -> first_inet l = Some a ->
     main resolve session sock true evs s =
     let* r := event_loop lib cfg fr connected parse sock evs s in
     let addr := x1 :: x2 :: 78 :: 252 :: host ++ List.repeat 0 (session - length a) in
     match r with Continue s => Ok (Waiting addr s) | Break s => Ok (Finished addr s) end) /\
  (forall e, resolve name = inl e -> e < 0 -> main resolve session sock true evs s = Ok (Exited (-1) (say PNoAddress s))) /\
  (forall l, resolve name = inr l -> first_inet l = None ->
     main resolve session sock true evs s = Ok (Exited (-1) (say PNoAddress s))).
Proof.
  intros name a Ha Hsock.
  assert (Hc : cstring name COAPS_SRV) by (apply cstring_app; [by apply bytes_eval|by repeat constructor]).
  unfold Dtls.main. rewrite (resolve_address_name resolve name) by done. cbn [Z.ltb]. change (zlen name <? 256) with true. cbn iota.
  split; [|split].
  - intros l -> ->. rewrite store_in_zeros by done. cbn [rbind]. rewrite (proj2 (Z.ltb_ge _ 0)) by (zlen_pos; lia).
    unfold a at 1. cbn [app].
    replace (store_bytes _ 2 _) with (Ok ([x1; x2] ++ [78; 252] ++ host ++ List.repeat 0 (session - length a)))
      by (symmetry; by apply (store_bytes_at [x1; x2] [p1; p2])).
    cbn [rbind negb]. rewrite (proj2 (Z.leb_le _ _)), (proj2 (Z.ltb_lt _ _)) by lia. cbn [negb andb]. done.
  - intros e -> He. cbn [rbind]. by rewrite (proj2 (Z.ltb_lt _ _) He).
  - intros l -> ->. done.
Qed.

(** The result of [socket] is not checked: without a socket [FD_SET] writes outside
    of the set. *)
Theorem main_without_socket resolve (session : nat) evs s l x1 x2 p1 p2 host :
  let a := x1 :: x2 :: p1 :: p2 :: host in
  zlen a <= Z.of_nat session -> sock = -1 -> resolve (lit "173.255.243.158") = inr l -> first_inet l = Some a ->
  main resolve session sock true evs s = Fault OutOfBounds.
Proof.
  intros a Ha -> Hr Hf.
  assert (Hc : cstring (lit "173.255.243.158") COAPS_SRV) by (apply cstring_app; [by apply bytes_eval|by repeat constructor]).
  unfold Dtls.main. rewrite (resolve_address_name resolve (lit "173.255.243.158")), Hr, Hf by done.
  change (zlen (lit "173.255.243.158") <? 256) with true. cbn iota.
  rewrite store_in_zeros by done. cbn [rbind]. rewrite (proj2 (Z.ltb_ge _ 0)) by (zlen_pos; lia). unfold a at 1. cbn [app].
  replace (store_bytes _ 2 _) with (Ok ([x1; x2] ++ [78; 252] ++ host ++ List.repeat 0 (session - length a)))
    by (symmetry; by apply (store_bytes_at [x1; x2] [p1; p2])).
  done.
Qed.
End Main.

(** The key is given with the NUL behind its text. *)
Example key_with_nul : get_key = Ok (lit "Client_identity", lit "ex0CoAPs" ++ [0]).
Proof. reflexivity. Qed.

(** ** Instances *)

Definition toy_settings : settings :=
  mk_settings (lit "temp" ++ [0]) (lit "key" ++ [0]) (lit "56" ++ [0]) [0] [0] [0] [0] [] [9].

Definition toy_builder : builder (Ctx := Z) := mk_builder (mk_uri [] []) (Some 6) false 0 5 [] None.

Definition toy_state (ready : bool) (out : Z) (p : option request) (tests : Z) : state :=
  mk_state true ready out 0 p 1 p toy_builder tests [0] 0 None [0; 10; 20; 30; 40; 50; 60; 70; 80] [] [] [] [].

Definition toy_stack : list Z := List.repeat 170 2048.
Definition toy_frame : frame := mk_frame toy_stack toy_stack toy_stack (List.repeat 170 4).

(** Messages on the wire as a code, a token of one byte and text. *)
Definition toy_parse (data : list Z) : option request :=
  match data with
  | code :: token :: text => Some (mk_request 2 0 code [token] [] text)
  | _ => None
  end.

Definition toy_request (code : Z) (data : list Z) : request := mk_request 0 7 code [9] [] data.

Lemma url_fits_or_overflows_witness :
  url_1p toy_stack (List.repeat 97 2030 ++ [0]) (lit "temp" ++ [0]) = Fault OutOfBounds.
Proof.
  apply (url_fits_or_overflows toy_stack (List.repeat 97 2030 ++ [0]) (lit "temp" ++ [0]) (List.repeat 97 2030) (lit "temp")).
  - reflexivity.
  - apply cstring_app.
    + apply bytes_eval. vm_compute. reflexivity.
    + apply Forall_forall. intros b Hb. apply list_elem_of_In, repeat_spec in Hb. subst b. discriminate.
  - apply cstring_app; [apply bytes_eval; reflexivity|repeat constructor; discriminate].
Defined.

Lemma lost_request_never_retried_witness :
  event_loop toy_library toy_settings toy_frame 1 toy_parse 3 (List.repeat SelectTimeout 3) (toy_state true 0 (Some (toy_request 2 [])) 0) =
  Ok (Continue (toy_state true 0 (Some (toy_request 2 [])) 0)).
Proof.
  apply (lost_request_never_retried toy_library toy_settings toy_frame 1 toy_parse 3 (List.repeat SelectTimeout 3)).
  - repeat (constructor; [left; reflexivity|]). constructor.
  - reflexivity.
  - reflexivity.
Defined.

Lemma block_retransmissions_bounded_witness :
  exists n r, event_loop toy_library toy_settings toy_frame 1 toy_parse 3 (List.repeat SelectTimeout 10)
      (toy_state true 1 (Some (toy_request 3 [])) 0) = Ok r /\ 0 <= n <= 3 /\
    match r with Continue s | Break s => written s = List.repeat (toy_request 3 [], toy_request 3 []) (Z.to_nat n) end.
Proof.
  assert (Hq : Forall quiet_event (List.repeat SelectTimeout 10))
    by (repeat (constructor; [left; reflexivity|]); constructor).
  assert (Hw : waits_for (toy_request 3 []) (toy_state true 1 (Some (toy_request 3 [])) 0)) by (constructor; (reflexivity || cbn; lia)).
  pose proof (block_retransmissions_bounded toy_library toy_settings toy_frame 1 toy_parse 3 (toy_request 3 []) _ Hq _ Hw) as H.
  apply returns_inv in H as (r & He & n & Hn & Hr). exists n, r. split; [exact He|].
  split; [exact Hn|]. destruct r; apply Hr.
Defined.

(** With a clock that moves ten seconds per reading the limit is reached. *)
Example three_retransmissions :
  match event_loop toy_library toy_settings toy_frame 1 toy_parse 3 (List.repeat SelectTimeout 10)
          (toy_state true 1 (Some (toy_request 3 [])) 0) with
  | Ok (Break s) => (length (written s), printed s)
  | _ => (0%nat, [])
  end = (3%nat, [PRetryLimit]).
Proof. vm_compute. reflexivity. Qed.

Definition toy_write : request :=
  mk_request 0 7 2 [9] [(11, lit "1a"); (11, lit "temp"); (15, lit "key")] (lit "56").
Definition toy_read : request :=
  mk_request 0 8 1 [9] [(11, lit "1a"); (11, lit "temp"); (15, lit "key")] [].

Lemma toy_requests : requests toy_library toy_settings toy_frame toy_builder toy_write toy_read.
Proof. do 4 eexists. repeat split; vm_compute; reflexivity. Qed.

Lemma requests_one_by_one_witness :
  exists s', event_loop toy_library toy_settings toy_frame 1 toy_parse 3
      [SelectTimeout; SelectError; Readable (Some [Read [68; 9]]); SelectTimeout; Readable (Some [Read ([69; 9] ++ lit "56")])]
      (toy_state false 0 None 6) = Ok (Break s') /\ List.map fst (written s') = [toy_write; toy_read].
Proof.
  assert (Ha : forall c t, forallb (fun b => (0 <? b) && (b <? 256)) t = true ->
    plain_answer toy_library toy_settings (mk_request 2 0 c [9] [] t)).
  { intros c t Ht. split; [reflexivity|]. split; [reflexivity|]. destruct t as [|x t]; [exact I|]. exists (x :: t).
    rewrite forallb_forall in Ht.
    apply cstring_app; apply Forall_forall; intros b Hb; apply list_elem_of_In, Ht in Hb; unfold is_byte; lia. }
  destruct (requests_one_by_one toy_library toy_settings toy_frame 1 toy_parse 3 SelectTimeout [SelectError] [SelectTimeout]
    (Readable (Some [Read [68; 9]])) (Readable (Some [Read ([69; 9] ++ lit "56")]))
    (mk_request 2 0 68 [9] [] []) (mk_request 2 0 69 [9] [] (lit "56")) (toy_state false 0 None 6) toy_write toy_read)
    as (s' & He & Hw & _); try reflexivity; try (by apply Ha).
  - exact toy_requests.
  - lia.
  - by left.
  - constructor; [by right|constructor].
  - constructor; [by left|constructor].
  - by eexists.
  - by eexists.
  - exists s'. split; [exact He|]. rewrite Hw. reflexivity.
Defined.
