(* ===== verification/CoapOverrun.v ===== *)
(** * PicoCoAP: options that announce more than the packet holds

    Validation does not compare the length of an option with the packet.  What the
    functions of PicoCoAP do with a packet whose last option runs behind its end. *)

From S2P Require Import Prelude Mem CoapDefs CoapGet CoapSet CoapMessage CoapGetFacts CoapSetFacts.

#[local] Opaque loop.

Section Overrun.
Context (m : message) (d l : Z) (v slack : list Z) (addr : Z).

(** The header and the options of [m], then an option with the delta [d] that
    announces [l] bytes, of which the packet holds [v]; [slack] is the rest of the
    buffer. *)
Definition overrun : coap_pdu :=
  let packet := encode m ++ opt_header d l ++ v in
  mk_pdu addr (packet ++ slack) (zlen packet) (zlen (packet ++ slack)) None.

Context (Hwf : wf_msg m) (Hnp : m_payload m = None) (Hd : 0 <= d < 65536) (Hl : 0 <= l < 65536).
Context (Hover : zlen v < l) (Hsmall : zlen (pdu_buf overrun) < 2 ^ 62).

(** Without its last option the packet holds [m]. *)
Lemma overrun_rep : represents (set_len overrun (zlen (encode m))) m.
Proof.
  constructor; [done|exists (opt_header d l ++ v ++ slack)| |done|done].
  - cbn [overrun set_len pdu_buf]. by rewrite <- !app_assoc.
  - cbn [overrun set_len pdu_len pdu_buf] in *. apply size_t_id. rewrite !zlen_app in Hsmall. zlen_pos. lia.
Qed.

(** The header of the last option. *)
#[local] Abbreviation h := (zlen (opt_header d l)).

Lemma overrun_len : pdu_len overrun = zlen (encode m) + h + zlen v /\ 1 <= h /\
  zlen (pdu_buf overrun) = pdu_len overrun + zlen slack /\ opts_pos m (m_options m) = zlen (encode m).
Proof.
  pose proof (opts_pos_split m (m_options m) [] ltac:(by rewrite app_nil_r)) as Hp. rewrite Hnp in Hp.
  cbn [encode_options encode_payload overrun pdu_len pdu_buf] in *. rewrite zlen_opt_header in *. pose proof (header_len_range d l).
  rewrite !zlen_app, zlen_opt_header. change (zlen (@nil Z)) with 0 in Hp. lia.
Qed.

(** What is decoded at each option, whatever the length that is passed is. *)
Lemma decode_any o1 o2 pl on ol ov : m_options m = o1 ++ o2 -> pl <> 0 ->
  let '(delta, n) := match o2 with (k, u) :: _ => (k - last_num 0 o1, zlen u) | [] => (d, l) end in
  coap_decode_option (pdu_buf overrun) (opts_pos m o1) pl on ol ov =
  Ok (CE_NONE, out_add16 on delta, out_set ol n, out_set ov (opts_pos m o1 + zlen (opt_header delta n))).
Proof.
  intros E Hpl. cbn [overrun pdu_buf]. rewrite (encode_split m o1 o2 E), Hnp. cbn [encode_payload]. rewrite app_nil_r, <- !app_assoc.
  rewrite (app_assoc (encode_head m)). unfold opts_pos. rewrite <- zlen_app. set (pre := encode_head m ++ _). clearbody pre.
  destruct o2 as [|[k u] rest].
  - cbn [encode_options app]. by apply decode_header_at.
  - destruct (options_split_ok _ m overrun_rep o1 k u rest E) as (? & ? & ? & ?). zlen_pos.
    cbn [encode_options]. rewrite <- !app_assoc. apply decode_header_at; (done || lia).
Qed.

Lemma overrun_room o1 o2 : m_options m = o1 ++ o2 -> 0 < opts_pos m o1 /\ opts_pos m o1 < pdu_len overrun < 2 ^ 62 /\
  size_t (pdu_len overrun - opts_pos m o1) <> 0.
Proof.
  intros E. destruct overrun_len as (Hlen & Hh & Hb & _). pose proof (opts_pos_le _ m overrun_rep o1 o2 E) as (? & ? & _).
  zlen_pos. rewrite size_t_id by lia. lia.
Qed.

Lemma overrun_validated : m_ver m = 1 -> coap_validate_pkt overrun = Ok (CE_NONE, overrun).
Proof.
  intros Hv. destruct (overrun_room [] (m_options m) eq_refl) as (H0 & H1 & Hnz). destruct overrun_len as (Hlen & _ & Hb & _).
  pose proof (zlen_head m) as Hh. rewrite opts_pos_nil in *. unfold coap_validate_pkt.
  change (set_opt_ptr overrun None) with overrun. change (pdu_max overrun) with (zlen (pdu_buf overrun)). zlen_pos.
  rewrite !(proj2 (Z.ltb_ge _ _)) by lia.
  change (coap_get_version overrun) with (coap_get_version (set_len overrun (zlen (encode m)))).
  change (coap_get_tkl overrun) with (coap_get_tkl (set_len overrun (zlen (encode m)))).
  rewrite (get_version_rep _ m overrun_rep), (get_tkl_scan _ m overrun_rep), Hv. cbn [rbind negb Z.eqb Pos.eqb].
  rewrite (proj2 (Z.ltb_ge _ _)) by apply Hwf.
  assert (E : validate_step overrun (4 + zlen (m_token m), 0) = Ok (Break CE_NONE)).
  { unfold validate_step. rewrite Z.add_0_r. pose proof (decode_any [] (m_options m)
      (size_t (pdu_len overrun - (4 + zlen (m_token m)))) None (Some 0) (Some (4 + zlen (m_token m))) eq_refl Hnz) as Hdec.
    rewrite opts_pos_nil in Hdec. destruct (match m_options m with [] => _ | _ => _ end) as [delta n]. rewrite Hdec. cbn [rbind].
    by destruct (decide _) as [c|_]; [destruct c|]. }
  rewrite loop_first; rewrite E; done.
Qed.

(** The search for the payload goes on behind the packet, up to the end of the
    buffer. *)
Lemma overrun_payload : zlen v + zlen slack <= l -> coap_get_payload overrun = Fault OutOfBounds.
Proof.
  intros Hend. destruct overrun_len as (Hlen & Hh & Hb & Hpos). unfold coap_get_payload.
  change (coap_get_tkl overrun) with (coap_get_tkl (set_len overrun (zlen (encode m)))).
  rewrite (get_tkl_scan _ m overrun_rep). cbn [rbind].
  rewrite (loop_faults _ (fun k off => (exists o1 o2, m_options m = o1 ++ o2 /\ off = opts_pos m o1 /\ k = zlen o2 + 1) \/
    off = zlen (encode m) + h + l /\ k = 0) OutOfBounds (zlen (m_options m) + 1)); [done| | |].
  - intros k off [(o1 & o2 & E & -> & ->)|[-> ->]]; unfold payload_step.
    + right. destruct (overrun_room o1 o2 E) as (H0 & H1 & Hnz).
      pose proof (decode_any o1 o2 _ None (Some 0) (Some 0) E Hnz) as Hdec. destruct o2 as [|[k u] rest].
      * rewrite app_nil_r in E. subst o1. rewrite Hdec. cbn [rbind out_set default from_option id]. eexists _, 0.
        split; [reflexivity|]. split; [len_lia|]. right. split; [|done]. rewrite Hpos in *. zlen_pos. rewrite size_t_id by lia. lia.
      * rewrite Hdec. cbn [rbind out_set default from_option id]. eexists _, (zlen rest + 1). split; [reflexivity|].
        split; [len_lia|]. left. exists (o1 ++ [(k, u)]), rest. split; [by rewrite <- app_assoc|].
        destruct (overrun_room (o1 ++ [(k, u)]) rest) as (? & ? & _); [by rewrite <- app_assoc|].
        rewrite opts_pos_snoc in *. rewrite size_t_id by lia. split; [lia|done].
    + left. unfold coap_decode_option. zlen_pos. rewrite (proj2 (Z.eqb_neq _ 0)) by wrap_lia.
      rewrite load_fault by lia. done.
  - left. exists [], (m_options m). rewrite opts_pos_nil. done.
  - pose proof (zlen_options 0 (m_options m)). pose proof (opts_pos_split m [] (m_options m) eq_refl) as Hs.
    rewrite opts_pos_nil in Hs. cbn [last_num] in Hs. zlen_pos. lia.
Qed.

(** A new payload is written over the header of that option, and its size is not
    compared with the buffer. *)
Lemma overrun_set_payload pl : h + zlen v <= l -> h + zlen v + zlen slack < zlen pl ->
  coap_set_payload overrun pl (zlen pl) = Fault OutOfBounds.
Proof.
  intros Hend Hpl. destruct overrun_len as (Hlen & Hh & Hb & Hpos). unfold coap_set_payload.
  change (coap_get_tkl overrun) with (coap_get_tkl (set_len overrun (zlen (encode m)))).
  rewrite (get_tkl_scan _ m overrun_rep). cbn [rbind].
  assert (Hr : returns (loop (find_end_step overrun) (4 + zlen (m_token m), 0)) (fun r => r = (CE_NONE, zlen (encode m)))).
  { eapply (loop_bounded _ (fun k st => exists o1 o2, m_options m = o1 ++ o2 /\ fst st + snd st = opts_pos m o1 /\ k = zlen o2)
      _ (zlen (m_options m))).
    - intros k [fv fl] (o1 & o2 & E & Hst & ->). cbn [fst snd] in Hst. unfold find_end_step. rewrite Hst.
      destruct (overrun_room o1 o2 E) as (H0 & H1 & Hnz).
      pose proof (decode_any o1 o2 _ (Some 0) (Some fl) (Some fv) E Hnz) as Hdec. destruct o2 as [|[k u] rest].
      + rewrite app_nil_r in E. subst o1. rewrite Hdec. cbn [rbind out_set default from_option id returns].
        rewrite Hpos in *. zlen_pos. rewrite size_t_id, (proj2 (Z.ltb_ge _ _)), andb_false_r by lia. done.
      + rewrite Hdec. cbn [rbind out_set default from_option id].
        destruct (overrun_room (o1 ++ [(k, u)]) rest) as (? & ? & _); [by rewrite <- app_assoc|].
        rewrite opts_pos_snoc in *. rewrite zlen_opt_header in *. pose proof (header_len_range (k - last_num 0 o1) (zlen u)). zlen_pos.
        rewrite size_t_id, (proj2 (Z.ltb_lt _ _)) by lia. rewrite bool_decide_eq_true_2 by done. cbn [andb returns].
        exists (zlen rest). split; [len_lia|]. exists (o1 ++ [(k, u)]), rest. split; [by rewrite <- app_assoc|].
        cbn [fst snd]. rewrite opts_pos_snoc, zlen_opt_header. split; [lia|done].
    - exists [], (m_options m). cbn [fst snd]. rewrite opts_pos_nil. split; [done|]. split; [lia|done].
    - pose proof (zlen_options 0 (m_options m)). pose proof (opts_pos_split m [] (m_options m) eq_refl) as Hs.
      rewrite opts_pos_nil in Hs. cbn [last_num] in Hs. zlen_pos. lia. }
  apply returns_inv in Hr as (? & -> & ->). cbn [rbind]. unfold memcpy. cbn [set_len set_buf pdu_buf].
  rewrite <- (app_nil_r pl) at 1. rewrite load_bytes_prefix by done. cbn [rbind]. unfold store_bytes. zlen_pos.
  rewrite (proj2 (Z.eqb_neq _ 0)), (proj2 (Z.leb_gt _ (zlen (pdu_buf overrun)))), andb_false_r by lia. done.
Qed.
End Overrun.
