(* ===== verification/CoapProps.v ===== *)
(** * PicoCoAP: properties of the codec

    The theorems about [coap.c]: a packet built with the setters is read back
    unchanged by the getters, every setter keeps the packet well formed or
    reports that the buffer is too small, the getters follow the message, every
    loop terminates on arbitrary bytes; and the deviations from the
    documentation, each shown on a packet. *)

From S2P Require Import Prelude Mem CoapDefs CoapGet CoapSet CoapTerm CoapMessage CoapGetFacts CoapSetFacts CoapOptionFacts CoapOverrun CoapClient.

(** ** A sample packet *)

Definition sample : message :=
  mk_msg 1 0 1 0x1234 [0xAB; 0xCD] [(11, lit "1a"); (11, lit "temp"); (15, lit "cik")] (Some (lit "42")).

Definition bare : message := with_payload sample None.

Definition sample_pdu (m : message) : coap_pdu :=
  mk_pdu 4096 (encode m ++ List.repeat 0 20) (zlen (encode m)) (zlen (encode m) + 20) None.

Lemma sample_wf : wf_msg sample.
Proof. constructor; vm_compute; repeat constructor; discriminate. Qed.

Lemma sample_rep : represents (sample_pdu sample) sample.
Proof.
  constructor; [apply sample_wf|by eexists|done|done|done].
Qed.

Lemma bare_rep : represents (sample_pdu bare) bare.
Proof.
  constructor; [|by eexists|done|done|done]. destruct sample_wf. by constructor.
Qed.

(** ** A whole message through the interface *)

(** Add options until one fails. *)
Fixpoint add_options (pdu : coap_pdu) (opts : list (Z * list Z)) : res (coap_error * coap_pdu) :=
  match opts with
  | [] => Ok (CE_NONE, pdu)
  | (n, v) :: rest =>
      let* '(err, pdu) := coap_add_option pdu n v (zlen v) in
      if decide (err = CE_NONE) then add_options pdu rest else Ok (err, pdu)
  end.

(** The calls a user of the library makes to build the message [m]. *)
Definition build_message (pdu : coap_pdu) (m : message) : res (coap_error * coap_pdu) :=
  let* '(_, pdu) := coap_init_pdu pdu in
  let* '(_, pdu) := coap_set_version pdu (m_ver m) in
  let* '(_, pdu) := coap_set_type pdu (m_type m) in
  let* '(_, pdu) := coap_set_code pdu (m_code m) in
  let* '(_, pdu) := coap_set_mid pdu (m_mid m) in
  let* '(err, pdu) := coap_set_token pdu (le_value (m_token m)) (zlen (m_token m)) in
  if decide (err = CE_NONE) then
    let* '(err, pdu) := add_options pdu (m_options m) in
    if decide (err = CE_NONE) then
      match m_payload m with
      | Some p => coap_set_payload pdu p (zlen p)
      | None => Ok (CE_NONE, pdu)
      end
    else Ok (err, pdu)
  else Ok (err, pdu).

(** Read every option with [coap_get_option], at most [n] of them, and stop at
    the option number 0. *)
Fixpoint read_options (n : nat) (pdu : coap_pdu) (last : option coap_option) : res (list (Z * list Z)) :=
  match n with
  | O => Ok []
  | S n' =>
      let* o := coap_get_option pdu last in
      if opt_num o =? 0 then Ok []
      else
        let* v := load_bytes (pdu_buf pdu) (ptr_off pdu (opt_val o)) (opt_len o) in
        let* rest := read_options n' pdu (Some o) in
        Ok ((opt_num o, v) :: rest)
  end.

Lemma read_options_S n pdu last :
  read_options (S n) pdu last =
  let* o := coap_get_option pdu last in
  if opt_num o =? 0 then Ok []
  else
    let* v := load_bytes (pdu_buf pdu) (ptr_off pdu (opt_val o)) (opt_len o) in
    let* rest := read_options n pdu (Some o) in
    Ok ((opt_num o, v) :: rest).
Proof. done. Qed.

Lemma options_ok_le prev opts n v rest : options_ok prev (opts ++ (n, v) :: rest) ->
  Forall (fun o => fst o <= n) opts.
Proof.
  revert prev. induction opts as [|[k u] opts IH]; intros prev; [done|]. intros (_ & _ & _ & Hr).
  constructor; [|by eapply IH]. simpl. clear IH. revert k Hr.
  induction opts as [|[k' u'] opts IH']; intros k Hr; simpl in Hr; [lia|].
  destruct Hr as (? & _ & _ & Hr). specialize (IH' k' Hr). lia.
Qed.

(** Options added one after the other behind those already there. *)
Lemma add_options_rep opts : forall pdu m,
  represents pdu m -> options_ok 0 (m_options m ++ opts) ->
  zlen (encode (with_options m (m_options m ++ opts))) <= pdu_max pdu ->
  returns (add_options pdu opts) (updates pdu (with_options m (m_options m ++ opts))).
Proof.
  induction opts as [|[n v] opts IH]; intros pdu m HR Hok Hfit.
  - simpl. rewrite app_nil_r. split; [done|]. split; [by destruct m|done].
  - pose proof (options_ok_le 0 _ n v opts Hok) as Hle. pose proof Hok as Hok'.
    rewrite cons_middle, app_assoc in Hok', Hfit |- *.
    apply options_ok_app in Hok as [Ho1 (Hn & Hv & Hb & _)].
    pose proof (options_ok_last 0 (m_options m) ltac:(lia) Ho1).
    pose proof (add_option_end pdu m HR n v [] ltac:(lia) Hb Hv Hle) as Hs. rewrite app_nil_r in Hs.
    set (m1 := with_options m (m_options m ++ [(n, v)])) in *. unfold sets in Hs.
    assert (Hz : zlen (encode m1) <= pdu_max pdu).
    { unfold m1, encode, with_options, encode_head in *. cbn [m_options m_payload m_token] in *.
      rewrite encode_options_app in Hfit. len_lia. }
    rewrite (proj2 (Z.ltb_ge _ _) Hz) in Hs. cbn [add_options].
    eapply returns_bind; [exact Hs|]. intros [e p] (He & Hr & Hm & Ha). simpl in He, Hr, Hm, Ha. subst e.
    destruct (decide _) as [_|c]; [|by destruct c].
    eapply returns_mono; [apply (IH p m1 Hr)|].
    + exact Hok'.
    + rewrite Hm. exact Hfit.
    + intros r (? & ? & Hm' & Ha'). split; [done|]. split; [done|]. split; congruence.
Qed.

Lemma build_message_rep pdu m :
  wf_msg m -> pdu_max pdu = zlen (pdu_buf pdu) -> zlen (encode m) <= pdu_max pdu < 2 ^ 62 ->
  returns (build_message pdu m) (updates pdu m).
Proof.
  intros Hwf Hm [Hfit Hs]. pose proof Hwf as [? ? ? ? Htok Htkl Hopt Hpay].
  pose proof (zlen_head m) as Hh. assert (He : zlen (encode m) = zlen (encode_head m) +
    zlen (encode_options 0 (m_options m)) + zlen (encode_payload (m_payload m))) by (unfold encode; len_lia).
  zlen_pos. unfold build_message.
  eapply returns_bind; [apply init_pdu_rep; [done|lia]|]. intros [e0 p0] (_ & R0 & M0 & A0). simpl in R0, M0, A0.
  eapply returns_bind; [apply (set_version_rep p0 ping R0 (m_ver m)); done|]. intros [e1 p1] (_ & R1 & M1 & A1).
  simpl in R1, M1, A1.
  eapply returns_bind; [apply (set_type_rep _ _ R1 (m_type m)); done|]. intros [e2 p2] (_ & R2 & M2 & A2).
  simpl in R2, M2, A2.
  eapply returns_bind; [apply (set_code_rep _ _ R2 (m_code m)); done|]. intros [e3 p3] (_ & R3 & M3 & A3).
  simpl in R3, M3, A3.
  eapply returns_bind; [apply (set_mid_rep _ _ R3 (m_mid m)); done|]. intros [e4 p4] (_ & R4 & M4 & A4).
  simpl in R4, M4, A4.
  pose proof (set_token_rep _ _ R4 (zlen (m_token m)) ltac:(lia) (le_value (m_token m))) as Ht.
  replace (Z.to_nat (zlen (m_token m))) with (length (m_token m)) in Ht by (unfold zlen; lia).
  rewrite le_bytes_le_value in Ht by done. unfold sets in Ht.
  rewrite (proj2 (Z.ltb_ge _ _)) in Ht.
  2: { rewrite M4, M3, M2, M1, M0. rewrite encode_cons. cbn [with_token m_token m_options m_payload with_mid with_code
         with_type with_ver ping encode_options encode_payload]. len_lia. }
  eapply returns_bind; [exact Ht|]. intros [e5 p5] (E5 & R5 & M5 & A5). simpl in E5, R5, M5, A5. subst e5.
  destruct (decide _) as [_|c]; [|by destruct c].
  match type of R5 with represents _ ?x => change x with (header_of m) in R5 end.
  assert (Hz : zlen (encode (with_options (header_of m) (m_options m))) <= pdu_max p5).
  { rewrite M5, M4, M3, M2, M1, M0. unfold encode, with_options, header_of, encode_head in *.
    cbn [m_options m_payload m_token encode_payload] in *. len_lia. }
  eapply returns_bind; [apply (add_options_rep (m_options m) p5 (header_of m) R5 Hopt Hz)|].
  intros [e6 p6] (E6 & R6 & M6 & A6). simpl in E6, R6, M6, A6. subst e6.
  destruct (decide _) as [_|c]; [|by destruct c].
  assert (M : pdu_max p6 = pdu_max pdu) by congruence. assert (A : pdu_addr p6 = pdu_addr pdu) by congruence.
  destruct (m_payload m) as [pl|] eqn:Ep.
  - simpl in Hpay. cbn [encode_payload] in He. rewrite zlen_cons in He.
    pose proof (set_payload_none p6 _ R6 pl [] Hpay eq_refl ltac:(lia)) as Hs1. rewrite app_nil_r in Hs1.
    unfold sets in Hs1. replace (with_payload _ (Some pl)) with m in Hs1 by (destruct m; simpl in *; by subst).
    rewrite (proj2 (Z.ltb_ge _ _)) in Hs1 by lia. eapply returns_mono; [exact Hs1|].
    intros r (? & ? & ? & ?). split; [done|]. split; [done|]. split; congruence.
  - split; [done|]. split; [|done]. simpl.
    replace m with (with_options (header_of m) (m_options m)) at 1; [done|].
    destruct m; simpl in *; by subst.
Qed.

Section ReadBack.
Context (pdu : coap_pdu) (m : message) (HR : represents pdu m).

Lemma read_options_rep o1 o2 last :
  m_options m = o1 ++ o2 -> Forall (fun o => 0 < fst o) o2 -> cursor m o1 last ->
  read_options (S (length o2)) pdu last = Ok o2.
Proof.
  revert o1 last. induction o2 as [|[k v] rest IH]; intros o1 last E Hpos Hc.
  - simpl. rewrite (get_option_unfold pdu m HR o1 [] last E Hc). cbn [rbind].
    replace (opt_num (end_option pdu m o1)) with 0; [done|]. unfold end_option.
    by destruct (m_payload m), o1.
  - change (length ((k, v) :: rest)) with (S (length rest)). rewrite read_options_S.
    rewrite (get_option_unfold pdu m HR o1 _ last E Hc). cbn [rbind].
    apply Forall_cons in Hpos as [Hk Hpos]. simpl in Hk. cbn [opt_num opt_at opt_len].
    rewrite (proj2 (Z.eqb_neq k 0)) by lia.
    rewrite (option_bytes pdu m HR o1 k v rest E). cbn [rbind].
    rewrite (IH (o1 ++ [(k, v)]) (Some (opt_at m o1 k v))).
    + done.
    + by rewrite <- app_assoc.
    + done.
    + constructor. lia.
Qed.
End ReadBack.

(** What [coap_decode_option] makes of the byte [b] at [p] when there is room for
    the longest option header behind it. *)
Lemma decode_status m p pl on ol ov b :
  bytes m -> load m p = Ok b -> p + 5 <= zlen m -> pl <> 0 ->
  returns (coap_decode_option m p pl on ol ov) (fun '(err, _, ol', ov') =>
    (err <> CE_NONE -> ol' = ol /\ ov' = ov) /\
    err = if b =? 255 then CE_FOUND_PAYLOAD_MARKER
          else if (b / 16 =? 15) || (b mod 16 =? 15) then CE_INVALID_PACKET else CE_NONE).
Proof.
  intros Hm Hb Hlen Hpl. assert (Hbb : is_byte b /\ 0 <= p).
  { destruct (decide (0 <= p < zlen m)) as [Hp|Hp]; [|by rewrite load_fault in Hb].
    pose proof (load_byte m p Hm Hp) as H. rewrite Hb in H. split; [exact H|lia]. }
  destruct Hbb as [Hbb Hp]. unfold coap_decode_option. rewrite (proj2 (Z.eqb_neq pl 0) Hpl), Hb. cbn [rbind].
  destruct (Z.eqb_spec b 255); [done|]. rewrite byte_shiftr4, byte_land_0F by done.
  assert (Hn1 : 0 <= b / 16 < 16) by (unfold is_byte in Hbb; Z.div_mod_to_equations; lia).
  assert (Hn2 : 0 <= b mod 16 < 16) by (apply Z.mod_pos_bound; lia).
  assert (Hext : forall n q, 0 <= n < 16 -> 0 <= q -> q + 2 <= zlen m ->
    returns (decode_ext m n q) (fun r => if n =? 15 then r = None else exists x, r = Some x /\ q <= snd x <= q + 2)).
  { intros n' q Hn' Hq Hq'. unfold decode_ext.
    destruct (load_ok m q ltac:(lia)) as (b1 & -> & _). destruct (load_ok m (q + 1) ltac:(lia)) as (b2 & -> & _).
    cbn [rbind]. zcases; simpl; try done; try lia; (eexists; split; [done|simpl; lia]). }
  pose proof (Hext (b / 16) (p + 1) Hn1 ltac:(lia) ltac:(lia)) as H1.
  apply returns_inv in H1 as (r1 & -> & H1). cbn [rbind].
  revert H1. destruct (Z.eqb_spec (b / 16) 15); intros H1; [by subst r1|]. destruct H1 as ([d q1] & -> & Hq1). simpl in Hq1.
  pose proof (Hext (b mod 16) q1 Hn2 ltac:(lia) ltac:(lia)) as H2.
  apply returns_inv in H2 as (r2 & -> & H2). cbn [rbind orb].
  revert H2. destruct (Z.eqb_spec (b mod 16) 15); intros H2; [by subst r2|]. destruct H2 as ([l q2] & -> & _). done.
Qed.

(** ** Round trips *)

(** C3. Building any well-formed message that fits the buffer with the setters
    succeeds without undefined behaviour, and from the packet it leaves every
    getter returns the field it was built from: version, type, code, message id,
    token, all options with their values in order, and the payload; the packet
    also passes validation when the version is 1. *)
Theorem message_roundtrip pdu m :
  wf_msg m -> pdu_max pdu = zlen (pdu_buf pdu) -> zlen (encode m) <= pdu_max pdu < 2 ^ 62 ->
  Forall (fun o => 0 < fst o) (m_options m) ->
  returns (build_message pdu m) (fun '(err, pdu') =>
    err = CE_NONE /\ pdu_len pdu' = zlen (encode m) /\
    coap_get_version pdu' = Ok (m_ver m) /\ coap_get_type pdu' = Ok (m_type m) /\
    coap_get_code pdu' = Ok (m_code m) /\ coap_get_mid pdu' = Ok (m_mid m) /\
    coap_get_token pdu' = Ok (le_value (m_token m)) /\
    read_options (S (length (m_options m))) pdu' None = Ok (m_options m) /\
    returns (coap_get_payload pdu') (fun p =>
      match m_payload m with
      | None => pl_val p = None /\ pl_len p = 0
      | Some v => load_bytes (pdu_buf pdu') (ptr_off pdu' (pl_val p)) (pl_len p) = Ok v /\ pl_len p = zlen v
      end) /\
    (m_ver m = 1 -> returns (coap_validate_pkt pdu') (fun r => fst r = CE_NONE))).
Proof.
  intros Hwf Hm Hfit Hpos. eapply returns_mono; [apply build_message_rep; done|].
  intros [err p] (He & HR & _). simpl in He, HR. split; [done|]. split; [apply (rep_len _ _ HR)|].
  split; [by apply get_version_rep|]. split; [by apply get_type_rep|]. split; [by apply get_code_rep|].
  split; [by apply get_mid_rep|]. split; [by apply get_token_rep|].
  split; [apply (read_options_rep p m HR [] (m_options m)); [done|done|constructor]|]. split.
  - rewrite (get_payload_rep p m HR). unfold payload_of. simpl. destruct (m_payload m) as [v|] eqn:Ep; [|done].
    split; [|done]. by apply payload_bytes.
  - intros Hv. by rewrite (validate_rep p m HR Hv).
Qed.

Lemma message_roundtrip_witness :
  returns (build_message (mk_pdu 64 (List.repeat 7 64) 0 64 None) sample) (fun '(err, pdu') =>
    err = CE_NONE /\ pdu_len pdu' = 21).
Proof.
  eapply returns_mono; [apply (message_roundtrip (mk_pdu 64 (List.repeat 7 64) 0 64 None) sample)|].
  - exact sample_wf.
  - reflexivity.
  - vm_compute. split; [discriminate|reflexivity].
  - repeat constructor.
  - intros [err p] (? & ? & _). by split.
Defined.

(** An option header written by [coap_build_option_header] over as many bytes
    as [coap_compute_option_header_len] asks for is decoded by
    [coap_decode_option] to the same delta and length, and the value starts
    directly behind it; all deltas and lengths of 16 bits are covered. *)
Theorem option_header_roundtrip pre old post d l len num :
  0 <= d < 65536 -> 0 <= l < 65536 -> zlen old = coap_compute_option_header_len d l -> len <> 0 ->
  returns (coap_build_option_header (pre ++ old ++ post) (zlen pre)
             (coap_compute_option_header_len d l) d l) (fun '(n, m) =>
    n = coap_compute_option_header_len d l /\ zlen m = zlen (pre ++ old ++ post) /\
    coap_decode_option m (zlen pre) len (Some num) (Some 0) (Some 0) =
      Ok (CE_NONE, Some (u16 (num + d)), Some l, Some (zlen pre + n))).
Proof.
  intros Hd Hl Hold Hlen. rewrite build_header_at by (done || by rewrite zlen_opt_header).
  split; [done|]. split; [rewrite !zlen_app, zlen_opt_header; lia|].
  rewrite decode_header_at by done. by rewrite zlen_opt_header.
Qed.

Lemma option_header_roundtrip_witness :
  returns (coap_build_option_header ([1] ++ [0; 0; 0; 0; 0] ++ []) 1 5 300 1000) (fun '(n, _) => n = 5).
Proof.
  eapply returns_mono; [apply (option_header_roundtrip [1] [0; 0; 0; 0; 0] [] 300 1000 9 0)|];
    [lia|lia|reflexivity|lia|]. intros [n m] (H & _). exact H.
Defined.

(** Setting a token of at most eight bytes and reading it back gives the bytes
    that were set: the token modulo 256 to the power of its length, in the same
    packet with everything else unchanged. *)
Theorem token_roundtrip pdu m token tkl :
  represents pdu m -> 0 <= tkl <= 8 -> 0 <= token -> zlen (encode m) + tkl <= pdu_max pdu ->
  returns (coap_set_token pdu token tkl) (fun '(err, pdu') =>
    err = CE_NONE /\ coap_get_token pdu' = Ok (token mod 256 ^ tkl) /\ coap_get_tkl pdu' = Ok tkl /\
    represents pdu' (with_token m (le_bytes (Z.to_nat tkl) token))).
Proof.
  intros HR Htkl Htok Hfit. pose proof (set_token_rep pdu m HR tkl Htkl token) as Hs. unfold sets in Hs.
  set (m' := with_token m (le_bytes (Z.to_nat tkl) token)) in *.
  assert (Hlt : zlen (m_token m') = tkl) by (unfold m'; simpl; rewrite zlen_le_bytes; lia).
  rewrite (proj2 (Z.ltb_ge _ _)) in Hs.
  2: { rewrite encode_cons in Hfit |- *. unfold m'. cbn [with_token m_token m_options m_payload] in *.
       autorewrite with zlen in *. rewrite zlen_le_bytes. zlen_pos. lia. }
  eapply returns_mono; [exact Hs|]. intros [err p] (He & Hr & _). simpl in He, Hr.
  split; [done|]. split; [|split; [by rewrite (get_tkl_scan p m' Hr), Hlt|done]].
  rewrite (get_token_rep p m' Hr). f_equal. unfold m'. cbn [with_token m_token].
  rewrite le_value_le_bytes_mod by done. by rewrite Z2Nat.id by lia.
Qed.

Lemma token_roundtrip_witness :
  returns (coap_set_token (sample_pdu sample) 0x1122334455 4) (fun '(err, pdu') =>
    err = CE_NONE /\ coap_get_token pdu' = Ok 0x22334455).
Proof.
  eapply returns_mono; [apply (token_roundtrip (sample_pdu sample) sample 0x1122334455 4)|].
  - exact sample_rep.
  - lia.
  - lia.
  - vm_compute. discriminate.
  - intros [err p] (? & ? & _). by split.
Defined.

(** ** Setters *)

(** C24. [coap_add_option] for an option whose number is not below those present
    appends it: the new packet holds exactly the message with the option behind
    the others, also when the packet already has a payload; when the result would
    not fit, the code is [CE_INSUFFICIENT_BUFFER] and the packet is untouched. *)
Theorem add_option_in_order pdu m num v junk :
  represents pdu m -> 0 <= num < 65536 -> bytes v -> zlen v < 65536 ->
  Forall (fun o => fst o <= num) (m_options m) ->
  let m' := with_options m (m_options m ++ [(num, v)]) in
  if pdu_max pdu <? zlen (encode m')
  then coap_add_option pdu num (v ++ junk) (zlen v) = Ok (CE_INSUFFICIENT_BUFFER, pdu)
  else returns (coap_add_option pdu num (v ++ junk) (zlen v)) (fun r =>
    fst r = CE_NONE /\ represents (snd r) m' /\ pdu_max (snd r) = pdu_max pdu).
Proof.
  intros HR Hn Hv Hl Hle m'. pose proof (add_option_end pdu m HR num v junk Hn Hv Hl Hle) as H.
  unfold sets in H. fold m' in H. destruct (_ <? _); [exact H|].
  eapply returns_mono; [exact H|]. intros r (? & ? & ? & _). by split.
Qed.

Lemma add_option_in_order_witness :
  returns (coap_add_option (sample_pdu sample) 17 ([50] ++ []) 1) (fun r => fst r = CE_NONE /\
    represents (snd r) (with_options sample (m_options sample ++ [(17, [50])]))).
Proof.
  eapply returns_mono; [apply (add_option_in_order (sample_pdu sample) sample 17 [50] [])|].
  - exact sample_rep.
  - lia.
  - by repeat constructor.
  - reflexivity.
  - vm_compute. repeat constructor; discriminate.
  - intros r (? & ? & _). by split.
Defined.

(** C25. [coap_set_payload] on a packet without a payload appends the marker and
    the payload; when they do not fit, the code is [CE_INSUFFICIENT_BUFFER] and
    the packet is untouched. *)
Theorem set_payload_appends pdu m pl junk :
  represents pdu m -> bytes pl -> zlen pl < 2 ^ 62 -> m_payload m = None ->
  if pdu_max pdu <? zlen (encode m) + 1 + zlen pl
  then coap_set_payload pdu (pl ++ junk) (zlen pl) = Ok (CE_INSUFFICIENT_BUFFER, pdu)
  else returns (coap_set_payload pdu (pl ++ junk) (zlen pl)) (fun r =>
    fst r = CE_NONE /\ represents (snd r) (with_payload m (Some pl)) /\ pdu_max (snd r) = pdu_max pdu).
Proof.
  intros HR Hpl Hl Hn. pose proof (set_payload_none pdu m HR pl junk Hpl Hn Hl) as H. unfold sets in H.
  replace (zlen (encode (with_payload m (Some pl)))) with (zlen (encode m) + 1 + zlen pl) in H.
  2: { unfold encode, with_payload, encode_head. cbn [m_options m_payload m_token]. rewrite Hn.
       cbn [encode_payload]. len_lia. }
  destruct (_ <? _); [exact H|]. eapply returns_mono; [exact H|]. intros r (? & ? & ? & _). by split.
Qed.

Lemma set_payload_appends_witness :
  returns (coap_set_payload (sample_pdu bare) ([52; 50] ++ [9]) 2) (fun r =>
    represents (snd r) (with_payload bare (Some [52; 50]))).
Proof.
  eapply returns_mono; [apply (set_payload_appends (sample_pdu bare) bare [52; 50] [9])|].
  - exact bare_rep.
  - by repeat constructor.
  - reflexivity.
  - reflexivity.
  - intros r (_ & ? & _). assumption.
Defined.

(** The setters of the fixed header change their field and nothing else, and
    never fail on a packet with a header: the message held afterwards is the old
    one with the new version, type, code or message id. *)
Theorem header_setters_update pdu m v t c i :
  represents pdu m -> 0 <= v < 4 -> 0 <= t < 4 -> is_byte c -> 0 <= i < 65536 ->
  returns (coap_set_version pdu v) (updates pdu (with_ver m v)) /\
  returns (coap_set_type pdu t) (updates pdu (with_type m t)) /\
  returns (coap_set_code pdu c) (updates pdu (with_code m c)) /\
  returns (coap_set_mid pdu i) (updates pdu (with_mid m i)).
Proof.
  intros HR Hv Ht Hc Hi. split; [by apply set_version_rep|]. split; [by apply set_type_rep|].
  split; [by apply set_code_rep|by apply set_mid_rep].
Qed.

Lemma header_setters_update_witness :
  returns (coap_set_mid (sample_pdu sample) 0xBEEF) (updates (sample_pdu sample) (with_mid sample 0xBEEF)).
Proof.
  apply (header_setters_update (sample_pdu sample) sample 1 2 69 0xBEEF sample_rep); unfold is_byte; lia.
Defined.

(** [coap_init_pdu] turns any buffer of at least four bytes into an empty CoAP
    message of type RST with message id 0 (a ping answer), whatever the buffer
    held before. *)
Theorem init_pdu_gives_ping pdu :
  pdu_max pdu = zlen (pdu_buf pdu) -> 4 <= pdu_max pdu < 2 ^ 62 ->
  returns (coap_init_pdu pdu) (fun r => fst r = CE_NONE /\ represents (snd r) ping /\
    pdu_len (snd r) = 4 /\ pdu_opt_ptr (snd r) = None).
Proof.
  intros Hm Hs. pose proof (init_pdu_rep pdu Hm Hs) as H.
  apply returns_inv in H as ([e p] & E & He & HR & _). rewrite E. simpl in He, HR |- *.
  split; [done|]. split; [done|]. split; [apply (rep_len _ _ HR)|].
  unfold coap_init_pdu in E. rewrite (proj2 (Z.ltb_ge _ _)) in E by lia.
  repeat (match type of E with rbind ?c _ = _ => destruct c as [[? ?]|] || destruct c; [|done] end;
          cbn [rbind] in E).
  by injection E as _ <-.
Qed.

Lemma init_pdu_gives_ping_witness :
  returns (coap_init_pdu (mk_pdu 0 [9; 9; 9; 9; 9] 77 5 None)) (fun r => represents (snd r) ping).
Proof.
  eapply returns_mono; [apply (init_pdu_gives_ping (mk_pdu 0 [9; 9; 9; 9; 9] 77 5 None))|];
    [reflexivity|simpl; lia|]. intros r (_ & ? & _). assumption.
Defined.

(** ** Getters *)

(** C26. Starting from no option and passing each result back in, [coap_get_option]
    returns every option of the message, in order, with a pointer to exactly the
    bytes of its value, and the option number 0 behind the last one. *)
Theorem option_iterator pdu m o1 o2 last :
  represents pdu m -> m_options m = o1 ++ o2 -> cursor m o1 last ->
  returns (coap_get_option pdu last) (fun o =>
    match o2 with
    | (k, v) :: _ => opt_num o = k /\ opt_len o = zlen v /\
        load_bytes (pdu_buf pdu) (ptr_off pdu (opt_val o)) (opt_len o) = Ok v /\
        (k <> 0 -> cursor m (o1 ++ [(k, v)]) (Some o))
    | [] => opt_num o = 0
    end).
Proof.
  intros HR E Hc. rewrite (get_option_unfold pdu m HR o1 o2 last E Hc). simpl.
  destruct o2 as [|[k v] rest].
  - unfold end_option. by destruct (m_payload m), o1.
  - split; [done|]. split; [done|]. split; [by apply (option_bytes pdu m HR o1 k v rest)|].
    intros Hk. by constructor.
Qed.

Lemma option_iterator_witness :
  returns (coap_get_option (sample_pdu sample) None) (fun o => opt_num o = 11 /\ opt_len o = 2 /\
    load_bytes (pdu_buf (sample_pdu sample)) (ptr_off (sample_pdu sample) (opt_val o)) (opt_len o)
      = Ok (lit "1a")).
Proof.
  eapply returns_mono; [apply (option_iterator (sample_pdu sample) sample [] (m_options sample) None)|].
  - exact sample_rep.
  - reflexivity.
  - constructor.
  - intros o (? & ? & ? & _). by split.
Defined.

(** C27. On a message without the invalid option number 0 [coap_get_option_by_num]
    returns the requested occurrence of the option when the message has it and its index is below 255: its number, its length and a
    pointer to its value.  When the message has no such occurrence it returns the
    number 0; it returns the null option when an option with a higher number follows,
    and otherwise whatever [coap_get_option] gives at the end of the options.  The
    occurrence 255, the last a [uint8_t] can ask for, is never found, because the
    counter wraps around before it exceeds 255: the result is that of an occurrence
    the message does not have. *)
Theorem option_by_num pdu m num occ :
  represents pdu m -> 0 < num < 65536 -> 0 <= occ <= 255 -> Forall (fun o => 0 < fst o) (m_options m) ->
  coap_get_option_by_num pdu num occ =
  Ok match (if occ =? 255 then None else find_occ num occ [] (m_options m)) with
     | Some (o1, v) => opt_at m o1 num v
     | None =>
         if existsb (fun o => num <? fst o) (m_options m) then mk_option 0 0 None
         else end_option pdu m (m_options m)
     end.
Proof.
  intros HR Hn Ho Hp. destruct (Z.eqb_spec occ 255) as [->|Hne]; [by apply get_option_by_num_last|].
  exact (get_option_by_num_rep pdu m HR num occ Hn ltac:(lia) Hp).
Qed.

Lemma option_by_num_witness :
  coap_get_option_by_num (sample_pdu sample) 11 1 = Ok (mk_option 11 4 (Some 10)).
Proof.
  etransitivity; [apply (option_by_num (sample_pdu sample) sample 11 1)|].
  - exact sample_rep.
  - lia.
  - lia.
  - repeat constructor.
  - vm_compute. reflexivity.
Defined.

(** [coap_get_payload] finds the payload behind any options: its length and a
    pointer to exactly its bytes; without a payload it returns length 0 and the
    null pointer. *)
Theorem payload_found pdu m :
  represents pdu m ->
  returns (coap_get_payload pdu) (fun p =>
    match m_payload m with
    | None => p = mk_payload 0 None
    | Some v => pl_len p = zlen v /\
        load_bytes (pdu_buf pdu) (ptr_off pdu (pl_val p)) (pl_len p) = Ok v
    end).
Proof.
  intros HR. rewrite (get_payload_rep pdu m HR). unfold payload_of. simpl.
  destruct (m_payload m) as [v|] eqn:Ep; [|done]. split; [done|]. by apply payload_bytes.
Qed.

Lemma payload_found_witness :
  returns (coap_get_payload (sample_pdu sample)) (fun p => pl_len p = 2).
Proof.
  eapply returns_mono; [apply (payload_found (sample_pdu sample) sample sample_rep)|].
  intros p (? & _). assumption.
Defined.

(** ** Validation *)

(** C28. [coap_validate_pkt] decides exactly this of a packet in a buffer with room
    for a full header: it rejects a packet that is longer than its buffer or
    shorter than four bytes, whose version is not 1 or whose token is longer than
    eight bytes; of the options it looks at the first byte [b] behind the token
    only, and rejects it when one of its nibbles is the reserved value 15, unless
    it is the payload marker or the packet ends in front of it.  No later option
    and no length is checked.  In particular a payload marker with nothing behind it
    is accepted, although a comment in the code says that such a packet is invalid:
    the test for it compares the length with the position of the marker itself. *)
Theorem validate_exact pdu b0 b :
  bytes (pdu_buf pdu) -> 21 <= zlen (pdu_buf pdu) -> 0 <= pdu_len pdu < 2 ^ 62 ->
  load (pdu_buf pdu) 0 = Ok b0 -> load (pdu_buf pdu) (4 + b0 mod 16) = Ok b ->
  coap_validate_pkt pdu =
  Ok (if (pdu_max pdu <? pdu_len pdu) || (pdu_len pdu <? 4) || negb (b0 / 64 =? 1) || (8 <? b0 mod 16)
      then CE_INVALID_PACKET
      else if (pdu_len pdu =? 4 + b0 mod 16) || (b =? 255) then CE_NONE
      else if (b / 16 =? 15) || (b mod 16 =? 15) then CE_INVALID_PACKET
      else CE_NONE, set_opt_ptr pdu None).
Proof.
  intros Hm Hbuf Hlen Hb0 Hb. unfold coap_validate_pkt. cbn [set_opt_ptr pdu_max pdu_len].
  assert (Hbb : is_byte b0).
  { pose proof (load_byte _ 0 Hm ltac:(lia)) as H. by rewrite Hb0 in H. }
  destruct (_ <? _); [done|]. destruct (_ <? _); [done|]. cbn [orb].
  unfold coap_get_version, coap_get_tkl. cbn [set_opt_ptr pdu_buf]. rewrite Hb0. cbn [rbind].
  rewrite byte_shiftr6, byte_land_0F by done. destruct (negb _); [done|]. cbn [orb].
  assert (0 <= b0 mod 16 < 16) by (apply Z.mod_pos_bound; lia). set (tkl := b0 mod 16) in *. clearbody tkl.
  destruct (Z.ltb_spec 8 tkl); [done|].
  assert (E : validate_step (set_opt_ptr pdu None) (4 + tkl, 0) = Ok (Break
    (if (pdu_len pdu =? 4 + tkl) || (b =? 255) then CE_NONE
     else if (b / 16 =? 15) || (b mod 16 =? 15) then CE_INVALID_PACKET else CE_NONE))).
  { unfold validate_step. cbn [pdu_buf pdu_len set_opt_ptr]. rewrite Z.add_0_r.
    destruct (Z.eqb_spec (pdu_len pdu) (4 + tkl)) as [El|Nl].
    - unfold coap_decode_option. rewrite El, Z.sub_diag. done.
    - assert (Hz : size_t (pdu_len pdu - (4 + tkl)) <> 0) by wrap_lia. cbn [orb].
      pose proof (decode_status (pdu_buf pdu) (4 + tkl) _ None (Some 0) (Some (4 + tkl)) b Hm Hb ltac:(lia) Hz) as Hd.
      apply returns_inv in Hd as ([[[err n'] ol] ov] & -> & Hs & He). cbn [rbind].
      destruct (Z.eqb_spec b 255) as [->|].
      + subst err. destruct Hs as [-> ->]; [done|]. cbn [default from_option id]. rewrite Z.add_0_r.
        rewrite size_t_id, (proj2 (Z.eqb_neq _ _) Nl) by lia. done.
      + destruct ((b / 16 =? 15) || (b mod 16 =? 15)); by subst err. }
  rewrite loop_first; rewrite E; done.
Qed.

Lemma validate_exact_witness :
  coap_validate_pkt (sample_pdu sample) = Ok (CE_NONE, sample_pdu sample).
Proof.
  etransitivity; [apply (validate_exact (sample_pdu sample) 0x42 0xB2)|].
  - vm_compute. repeat constructor; discriminate.
  - vm_compute. discriminate.
  - vm_compute. split; [discriminate|reflexivity].
  - vm_compute. reflexivity.
  - vm_compute. reflexivity.
  - vm_compute. reflexivity.
Defined.

(** Every well-formed message of version 1 passes validation, and validation
    changes nothing but the unused option pointer. *)
Theorem validate_accepts_messages pdu m :
  represents pdu m -> m_ver m = 1 ->
  coap_validate_pkt pdu = Ok (CE_NONE, set_opt_ptr pdu None).
Proof. intros HR Hv. exact (validate_rep pdu m HR Hv). Qed.

Lemma validate_accepts_messages_witness :
  coap_validate_pkt (sample_pdu bare) = Ok (CE_NONE, set_opt_ptr (sample_pdu bare) None).
Proof. apply (validate_accepts_messages (sample_pdu bare) bare bare_rep). reflexivity. Defined.

(** ** Termination *)

(** C29. On a packet with arbitrary bytes and an arbitrary length field every reading
    function terminates: it returns, or it stops at an access outside the
    buffer. *)
Theorem getters_terminate pdu last num occ :
  bytes (pdu_buf pdu) -> zlen (pdu_buf pdu) < 2 ^ 32 -> 0 < num < 32768 ->
  terminates (coap_validate_pkt pdu) /\ terminates (coap_get_option pdu last) /\
  terminates (coap_get_option_by_num pdu num occ) /\ terminates (coap_get_payload pdu).
Proof.
  intros Hb Hs Hn. assert (HP : pdu_ok pdu) by (by constructor).
  split; [eapply ends_terminates, validate_ends, HP|].
  split; [|split; [eapply ends_terminates, get_option_by_num_ends; done|eapply ends_terminates, get_payload_ends, HP]].
  pose proof (get_tkl_ends pdu HP) as Ht. destruct (coap_get_tkl pdu) as [tkl|f] eqn:Et.
  - destruct last as [l|]; [eapply ends_terminates, (get_option_ends pdu HP tkl Et)|].
    replace (coap_get_option pdu None) with (coap_get_option pdu (Some (mk_option 0 0 None))) by done.
    eapply ends_terminates, (get_option_ends pdu HP tkl Et).
  - simpl in Ht. unfold coap_get_option. rewrite Et. cbn [rbind]. destruct last as [l|]; [|unfold terminates; simpl; congruence].
    destruct (negb _); [|unfold terminates; simpl; congruence]. cbn [rbind]. destruct (_ || _); [unfold terminates; simpl; congruence|]. cbn [rbind].
    pose proof (decode_option_ends (pdu_buf pdu) (ptr_off pdu (opt_val l) + opt_len l)
      (size_t (pdu_len pdu - (ptr_off pdu (opt_val l) + opt_len l))) (Some (opt_num l)) (Some 0)
      (Some (ptr_off pdu None)) Hb) as Hd. cbn [opt_num opt_len opt_val].
    destruct (coap_decode_option _ _ _ _ _ _) as [[[[err n'] ol] ov]|f']; cbn [rbind]; [|simpl in Hd; unfold terminates; congruence].
    repeat (destruct (decide _)); try destruct (_ =? _); done.
Qed.

Lemma getters_terminate_witness :
  terminates (coap_get_option_by_num (mk_pdu 4096 [0x60; 0x45; 0; 0; 0x15; 0; 0] 7 7 None) 6 0).
Proof.
  apply (getters_terminate (mk_pdu 4096 [0x60; 0x45; 0; 0; 0x15; 0; 0] 7 7 None) None 6 0).
  - repeat constructor; discriminate.
  - reflexivity.
  - lia.
Defined.

(** C30. On a packet with arbitrary bytes and an arbitrary length field
    [coap_add_option], for values of less than 64 KiB, and [coap_set_payload]
    terminate, also when they rewrite the options behind an insertion: they return,
    or they stop at an access outside the buffer. *)
Theorem setters_terminate pdu num v n pl k :
  bytes (pdu_buf pdu) -> zlen (pdu_buf pdu) < 2 ^ 32 -> 0 <= n < 65536 -> bytes v -> bytes pl ->
  terminates (coap_add_option pdu num v n) /\ terminates (coap_set_payload pdu pl k).
Proof.
  intros Hb Hs Hn Hv Hpl. assert (HP : pdu_ok pdu) by (by constructor).
  split; (eapply ends_terminates; first [by apply add_option_ends|by apply set_payload_ends]).
Qed.

Lemma setters_terminate_witness :
  terminates (coap_add_option (mk_pdu 4096 [0x60; 0x45; 0; 0; 0x15; 0; 0] 7 7 None) 6 [1] 1).
Proof.
  apply (setters_terminate (mk_pdu 4096 [0x60; 0x45; 0; 0; 0x15; 0; 0] 7 7 None) 6 [1] 1 [] 0).
  - repeat constructor; discriminate.
  - reflexivity.
  - lia.
  - repeat constructor; discriminate.
  - constructor.
Defined.

(** ** Printing *)

(** C39. The example client prints a well-formed message of version 1 completely:
    length, type, code class and detail, message id, token, and every option in
    order with its value up to a NUL; the payload line appears only when the
    message has no options. *)
Theorem pretty_print_message pdu m :
  represents pdu m -> pdu_max pdu < 2 ^ 31 -> m_ver m = 1 -> Forall (fun o => 0 < fst o) (m_options m) ->
  coap_pretty_print pdu =
  Ok (message_lines m, set_opt_ptr pdu None).
Proof.
  intros. by apply pretty_print_rep.
Qed.

Lemma pretty_print_message_witness :
  coap_pretty_print (sample_pdu sample) =
  Ok ([LValid 21; LType 0; LCode 0 1; LMid 0x1234; LToken 0xCDAB;
       LOption 11; LValue (lit "1a") 2; LOption 11; LValue (lit "temp") 4; LOption 15; LValue (lit "cik") 3],
      sample_pdu sample).
Proof.
  etransitivity; [apply (pretty_print_message (sample_pdu sample) sample sample_rep)|].
  - vm_compute. reflexivity.
  - reflexivity.
  - repeat constructor.
  - vm_compute. reflexivity.
Defined.

(** ** Deviations *)

(** When a message has options and a payload, the option [coap_get_option]
    returns behind the last option is the null pointer with a length computed
    from the address of the buffer; it is not the payload, which the comments in
    the code and the example client expect there. *)
Theorem iterator_loses_payload pdu m o1 k v pl :
  represents pdu m -> m_options m = o1 ++ [(k, v)] -> k <> 0 -> m_payload m = Some pl ->
  coap_get_option pdu (Some (opt_at m o1 k v)) =
  Ok (mk_option 0 (size_t (pdu_len pdu + pdu_addr pdu)) None).
Proof.
  intros HR E Hk Hp.
  rewrite (get_option_unfold pdu m HR (o1 ++ [(k, v)]) [] (Some (opt_at m o1 k v)));
    [|by rewrite app_nil_r|by constructor].
  unfold end_option. rewrite Hp. by destruct o1.
Qed.

Lemma iterator_loses_payload_witness :
  coap_get_option (sample_pdu sample) (Some (mk_option 15 3 (Some 15))) = Ok (mk_option 0 (21 + 4096) None).
Proof.
  apply (iterator_loses_payload (sample_pdu sample) sample [(11, lit "1a"); (11, lit "temp")] 15 (lit "cik") (lit "42")
    sample_rep); (reflexivity || discriminate).
Defined.

(** [coap_set_payload] on a packet that already has a payload writes the new
    payload over the payload marker: the packet becomes the header and the options
    followed by the payload bytes without a marker. *)
Theorem set_payload_overwrites_marker pdu m old pl junk :
  represents pdu m -> m_payload m = Some old -> bytes pl -> 0 < zlen pl ->
  zlen (encode m) + zlen pl <= pdu_max pdu ->
  returns (coap_set_payload pdu (pl ++ junk) (zlen pl)) (fun '(err, pdu') =>
    err = CE_NONE /\ pdu_len pdu' = opts_pos m (m_options m) + zlen pl /\
    exists tail, pdu_buf pdu' = encode_head m ++ encode_options 0 (m_options m) ++ pl ++ tail).
Proof.
  intros HR Hp Hpl Hz Hfit. unfold coap_set_payload.
  rewrite (get_tkl_scan pdu m HR). cbn [rbind]. rewrite (find_end pdu m HR), Hp. cbn [rbind].
  pose proof (opts_pos_le pdu m HR (m_options m) [] ltac:(by rewrite app_nil_r)) as (Hop & Hop' & _).
  pose proof (encode_fits pdu m HR) as [Hfe Hs]. rewrite (rep_len _ _ HR). zlen_pos.
  rewrite size_t_id, (proj2 (Z.ltb_ge _ _)) by lia.
  destruct (rep_buf _ _ HR) as [tail Hb]. pose proof (rep_max _ _ HR) as Hmax.
  unfold memcpy. rewrite load_bytes_prefix by done. cbn [rbind set_len set_buf pdu_buf].
  pose proof (opts_pos_split m (m_options m) [] ltac:(by rewrite app_nil_r)) as Hl.
  rewrite (encode_split m (m_options m) []) in Hb by (by rewrite app_nil_r).
  cbn [encode_options] in Hb, Hl. rewrite app_nil_l, <- app_assoc in Hb.
  rewrite Hb in Hmax |- *. rewrite !zlen_app in Hmax.
  destruct (split_at (encode_payload (m_payload m) ++ tail) (zlen pl)) as (x & y & -> & Hx).
  { rewrite zlen_app. unfold opts_pos in *. autorewrite with zlen in *. lia. }
  rewrite store_bytes_at by (rewrite ?zlen_app; done). cbn [rbind returns].
  split; [done|]. cbn [set_buf set_len pdu_len pdu_buf]. split; [rewrite size_t_id; lia|].
  exists y. by rewrite <- !app_assoc.
Qed.

Lemma set_payload_overwrites_marker_witness :
  returns (coap_set_payload (sample_pdu sample) ([55] ++ []) 1) (fun '(_, pdu') => pdu_len pdu' = 19).
Proof.
  eapply returns_mono; [apply (set_payload_overwrites_marker (sample_pdu sample) sample (lit "42") [55] [])|].
  - exact sample_rep.
  - reflexivity.
  - repeat constructor; discriminate.
  - reflexivity.
  - vm_compute. discriminate.
  - intros [e p] (_ & H & _). exact H.
Defined.

(** C35. Validation accepts every packet whose last option announces more bytes than
    the packet holds, behind any header and options.  [coap_get_payload] then
    follows the announced length: when it leads to the end of the buffer or
    further, the byte read there is out of bounds.  When the announced length
    covers the packet from the header of that option on, [coap_set_payload] takes
    this header for the place of the payload without looking at the size of the
    buffer, so that a payload longer than what is left of it is written out of
    bounds. *)
Theorem overrunning_option_accepted m d l v slack addr :
  wf_msg m -> m_ver m = 1 -> m_payload m = None -> 0 <= d < 65536 -> 0 <= l < 65536 -> zlen v < l ->
  zlen (pdu_buf (overrun m d l v slack addr)) < 2 ^ 62 ->
  let pdu := overrun m d l v slack addr in
  let h := coap_compute_option_header_len d l in
  coap_validate_pkt pdu = Ok (CE_NONE, pdu) /\
  (zlen v + zlen slack <= l -> coap_get_payload pdu = Fault OutOfBounds) /\
  (forall pl, h + zlen v <= l -> h + zlen v + zlen slack < zlen pl ->
     coap_set_payload pdu pl (zlen pl) = Fault OutOfBounds).
Proof.
  intros Hwf Hv Hp Hd Hl Hover Hs pdu h. split; [by apply overrun_validated|]. split; [by apply overrun_payload|].
  intros pl. unfold h. rewrite <- zlen_opt_header. by apply overrun_set_payload.
Qed.

(** A packet of seven bytes. *)
Lemma overrunning_option_accepted_witness :
  let pdu := mk_pdu 4096 [0x60; 0x45; 0; 0; 0x0E; 0x10; 0] 7 7 None in
  coap_validate_pkt pdu = Ok (CE_NONE, pdu) /\ coap_get_payload pdu = Fault OutOfBounds /\
  coap_set_payload pdu (lit "a value") 7 = Fault OutOfBounds.
Proof.
  destruct (overrunning_option_accepted (mk_msg 1 CT_ACK CC_CONTENT 0 [] [] None) 0 4365 [] [] 4096) as (Hval & Hget & Hset).
  - constructor; vm_compute; repeat (split || constructor || discriminate).
  - reflexivity.
  - reflexivity.
  - lia.
  - lia.
  - reflexivity.
  - reflexivity.
  - split; [exact Hval|]. split; [apply Hget; vm_compute; discriminate|].
    apply (Hset (lit "a value")); vm_compute; (discriminate || reflexivity).
Defined.

(** Validation stops at the first option: a packet whose second option has a
    reserved nibble is accepted although decoding that option fails. *)
Theorem later_options_not_validated :
  exists pdu, pdu_len pdu = zlen (pdu_buf pdu) /\ coap_validate_pkt pdu = Ok (CE_NONE, pdu) /\
    returns (coap_get_option pdu None) (fun o => opt_num o = 11 /\
      coap_decode_option (pdu_buf pdu) (ptr_off pdu (opt_val o) + opt_len o)
        (pdu_len pdu - (ptr_off pdu (opt_val o) + opt_len o)) None None None
      = Ok (CE_INVALID_PACKET, None, None, None)).
Proof. exists (mk_pdu 4096 [0x40; 1; 0; 1; 0xB1; 0x61; 0xF0; 0] 8 8 None). by vm_compute. Qed.

(** Adding an option in front of two others leaves the wrong delta in the
    second of them: after inserting option 12 between 11 and 15, 17 the packet
    reads as 11, 12, 15, 20. *)
Theorem middle_insertion_shifts_numbers :
  let m := mk_msg 1 0 1 1 [] [(11, [97]); (15, [98]); (17, [99])] (Some [7]) in
  returns (coap_add_option (sample_pdu m) 12 [9] 1) (fun '(err, pdu') =>
    err = CE_NONE /\
    read_options 10 pdu' None = Ok [(11, [97]); (12, [9]); (15, [98]); (20, [99])]).
Proof. by vm_compute. Qed.
