(* ===== verification/Pal.v ===== *)
(** * The platform layer

    The functions of [exosite_pal.h] as an interface, what the client relies on
    as laws of that interface, and the two implementations in the repository:
    [pal/posix/exosite_pal.c] over a model of the socket and of the file it
    stores the CIK in, and the stubs of [pal/template/exosite_pal.c]. *)

From S2P Require Import Prelude Mem.

(** ** The interface

    [E] is the state of the platform: the network, the clock, the random number
    generator of the C library and the non-volatile storage.
    [exopal_udp_recv size] gives the status and the bytes written to the buffer;
    on status 0 their number is what [*responseLength] is set to.
    [exopal_retrieve_cik] gives the status and the bytes written to the buffer. *)

Class Pal (E : Type) := {
  exopal_init : E -> Z * E;
  exopal_store_cik : list Z -> E -> Z * E;
  exopal_retrieve_cik : E -> Z * list Z * E;
  exopal_udp_sock : E -> Z * E;
  exopal_udp_send : list Z -> E -> Z * E;
  exopal_udp_recv : Z -> E -> Z * list Z * E;
  exopal_get_time : E -> Z * E;
  libc_rand : E -> Z * E;
  libc_srand : Z -> E -> E;
  libc_time : E -> Z * E
}.

(** What the client relies on. [pending] bounds the datagrams that one call of
    [exo_operate] can still receive; it may count other events to come as well. *)
Class PalLaws (E : Type) `{Pal E} := {
  pending : E -> Z;
  pending_nonneg e : 0 <= pending e;
  recv_ok size e rc data e' : 0 <= size ->
    exopal_udp_recv size e = (rc, data, e') ->
    zlen data <= size /\ bytes data /\ pending e' <= pending e /\
    (rc = 0 -> pending e' < pending e);
  retrieve_ok e rc data e' : exopal_retrieve_cik e = (rc, data, e') ->
    zlen data <= 40 /\ bytes data;
  time_ok e t e' : exopal_get_time e = (t, e') -> 0 <= t < 2 ^ 64 /\ pending e' <= pending e;
  rand_ok e r e' : libc_rand e = (r, e') -> 0 <= r < 2 ^ 31 /\ pending e' <= pending e;
  send_ok bs e rc e' : exopal_udp_send bs e = (rc, e') -> pending e' <= pending e;
  store_ok c e rc e' : exopal_store_cik c e = (rc, e') -> pending e' <= pending e
}.

(** ** POSIX

    What the operating system will answer is a script: the results of the next
    system calls.  [os_inbox] holds what [recv] finds: a datagram or an error
    number; an empty inbox is [EAGAIN]. *)

Module Posix.
Definition EAGAIN : Z := 11.
Definition PAL_CIK_LENGTH : Z := 40.

Inductive recv_event :=
| Datagram (bs : list Z)
| RecvError (errno : Z).

(** One address that [getaddrinfo] lists: whether [socket] and [connect] succeed
    for it. *)
Record addr := mk_addr { addr_socket : bool; addr_connect : bool }.

Record os := mk_os {
  os_inbox : list recv_event;
  os_sent : list (list Z);
  os_send_fails : list bool;
  os_clock : list (Z * Z);
  os_rand : list Z;
  os_cik_file : option (list Z);
  os_cik_writable : bool;
  os_disk_free : Z;
  os_open_files : Z;
  os_resolve : option (list addr)
}.

Definition set_inbox (o : os) (q : list recv_event) : os :=
  mk_os q (os_sent o) (os_send_fails o) (os_clock o) (os_rand o) (os_cik_file o)
    (os_cik_writable o) (os_disk_free o) (os_open_files o) (os_resolve o).
Definition set_sent (o : os) (s : list (list Z)) (f : list bool) : os :=
  mk_os (os_inbox o) s f (os_clock o) (os_rand o) (os_cik_file o)
    (os_cik_writable o) (os_disk_free o) (os_open_files o) (os_resolve o).
Definition set_clock (o : os) (c : list (Z * Z)) : os :=
  mk_os (os_inbox o) (os_sent o) (os_send_fails o) c (os_rand o) (os_cik_file o)
    (os_cik_writable o) (os_disk_free o) (os_open_files o) (os_resolve o).
Definition set_rand (o : os) (r : list Z) : os :=
  mk_os (os_inbox o) (os_sent o) (os_send_fails o) (os_clock o) r (os_cik_file o)
    (os_cik_writable o) (os_disk_free o) (os_open_files o) (os_resolve o).
Definition set_file (o : os) (f : option (list Z)) (n : Z) : os :=
  mk_os (os_inbox o) (os_sent o) (os_send_fails o) (os_clock o) (os_rand o) f
    (os_cik_writable o) (os_disk_free o) n (os_resolve o).

Definition exopal_init (o : os) : Z * os := (0, o).

(** [send] returns -1 when the script says so; otherwise the datagram is out. *)
Definition exopal_udp_send (buf : list Z) (o : os) : Z * os :=
  match os_send_fails o with
  | true :: f => (1, set_sent o (os_sent o) f)
  | false :: f => (0, set_sent o (os_sent o ++ [buf]) f)
  | [] => (0, set_sent o (os_sent o ++ [buf]) [])
  end.

(** [recv] on a datagram socket cuts a datagram at the size of the buffer. *)
Definition exopal_udp_recv (size : Z) (o : os) : Z * list Z * os :=
  match os_inbox o with
  | [] => (2, [], o)
  | Datagram bs :: q => (0, List.map u8 (take (Z.to_nat size) bs), set_inbox o q)
  | RecvError errno :: q =>
      if negb (errno =? EAGAIN) then (1, [], set_inbox o q) else (2, [], set_inbox o q)
  end.

(** [socket] is tried on every address in turn, [connect] only on the first one
    for which [socket] succeeded. *)
Fixpoint first_socket (l : list addr) : option addr :=
  match l with
  | [] => None
  | a :: l' => if addr_socket a then Some a else first_socket l'
  end.

Definition exopal_udp_sock (o : os) : Z * os :=
  match os_resolve o with
  | None => (1, o)
  | Some servinfo =>
      match first_socket servinfo with
      | None => (2, o)
      | Some q => if addr_connect q then (0, o) else (3, o)
      end
  end.

(** [fopen("cik", "w")] truncates; [fwrite] stops when the disk is full; the file
    is closed only on the last path. *)
Definition exopal_store_cik (cik : list Z) (o : os) : Z * os :=
  if negb (os_cik_writable o) then (2, o)
  else
    let bytes_written := Z.min 40 (os_disk_free o) in
    let o := set_file o (Some (take (Z.to_nat bytes_written) cik)) (os_open_files o + 1) in
    if negb (bytes_written =? 40) then (1, o)
    else (0, set_file o (os_cik_file o) (os_open_files o - 1)).

Definition exopal_retrieve_cik (o : os) : Z * list Z * os :=
  match os_cik_file o with
  | None => (2, [], o)
  | Some content =>
      let data := List.map u8 (take 40 content) in
      let o := set_file o (os_cik_file o) (os_open_files o + 1) in
      if negb (zlen data =? 40) then (1, data, o)
      else (0, data, set_file o (os_cik_file o) (os_open_files o - 1))
  end.

(** [gettimeofday]; when the script ends the clock stands still. *)
Definition exopal_get_time (o : os) : Z * os :=
  match os_clock o with
  | [] => (0, o)
  | [(sec, usec)] => (u64 (u64 (sec * 1000000) + usec), o)
  | (sec, usec) :: c => (u64 (u64 (sec * 1000000) + usec), set_clock o c)
  end.

Definition exopal_set_time (timestamp_us : Z) (o : os) : os := o.

(** The [rand] of the C library, as a script of its next results. *)
Definition rand (o : os) : Z * os :=
  match os_rand o with
  | [] => (0, o)
  | r :: q => (r mod 2 ^ 31, set_rand o q)
  end.
End Posix.

#[export] Instance posix_pal : Pal Posix.os := {|
  exopal_init := Posix.exopal_init;
  exopal_store_cik := Posix.exopal_store_cik;
  exopal_retrieve_cik := Posix.exopal_retrieve_cik;
  exopal_udp_sock := Posix.exopal_udp_sock;
  exopal_udp_send := Posix.exopal_udp_send;
  exopal_udp_recv := Posix.exopal_udp_recv;
  exopal_get_time := Posix.exopal_get_time;
  libc_rand := Posix.rand;
  libc_srand := fun _ o => o;
  libc_time := fun o => (0, o)
|}.

(** ** The template *)

Module Template.
Definition exopal_init (e : unit) : Z * unit := (0, e).
Definition exopal_udp_sock (e : unit) : Z * unit := (1, e).
Definition exopal_udp_send (buf : list Z) (e : unit) : Z * unit := (1, e).
Definition exopal_udp_recv (size : Z) (e : unit) : Z * list Z * unit := (1, [], e).
Definition exopal_store_cik (cik : list Z) (e : unit) : Z * unit := (1, e).
Definition exopal_retrieve_cik (e : unit) : Z * list Z * unit := (1, [], e).
Definition exopal_get_time (e : unit) : Z * unit := (1, e).
Definition exopal_set_time (timestamp_us : Z) (e : unit) : unit := e.
End Template.

#[export] Instance template_pal : Pal unit := {|
  exopal_init := Template.exopal_init;
  exopal_store_cik := Template.exopal_store_cik;
  exopal_retrieve_cik := Template.exopal_retrieve_cik;
  exopal_udp_sock := Template.exopal_udp_sock;
  exopal_udp_send := Template.exopal_udp_send;
  exopal_udp_recv := Template.exopal_udp_recv;
  exopal_get_time := Template.exopal_get_time;
  libc_rand := fun e => (0, e);
  libc_srand := fun _ e => e;
  libc_time := fun e => (0, e)
|}.

(** ** The implementations keep the laws *)

Lemma map_u8_bytes l : bytes (List.map u8 l).
Proof. induction l; simpl; constructor; auto with cdb. Qed.

Lemma zlen_map_take n (l : list Z) : 0 <= n -> zlen (List.map u8 (take (Z.to_nat n) l)) <= n.
Proof. intros Hn. unfold zlen. rewrite length_map, length_take. lia. Qed.

#[export] Instance template_laws : PalLaws unit.
Proof.
  refine {| pending := fun _ => 0 |}; intros;
    repeat match goal with
    | H : _ = _ |- _ => cbv in H; injection H as <- <- || injection H as <- <- <-
    end; repeat split; try lia; try constructor; try done; simpl; lia.
Defined.

#[export] Instance posix_laws : PalLaws Posix.os.
Proof.
  refine {| pending := fun o => zlen (Posix.os_inbox o) + zlen (Posix.os_send_fails o) |}; cbn; intros.
  - zlen_pos. lia.
  - unfold Posix.exopal_udp_recv in *.
    destruct (Posix.os_inbox e) as [|[bs|n] q] eqn:E; [|zcases..]; simplify_eq.
    all: rewrite ?E; cbn [Posix.set_inbox Posix.os_inbox Posix.os_send_fails]; autorewrite with zlen;
      repeat split; auto using zlen_map_take, map_u8_bytes; try lia; by constructor.
  - unfold Posix.exopal_retrieve_cik in *.
    assert (Hd : forall l, zlen (List.map u8 (take 40 l)) <= 40 /\ bytes (List.map u8 (take 40 l)))
      by (intros l; split; [apply (zlen_map_take 40); lia | apply map_u8_bytes]).
    destruct (Posix.os_cik_file e) as [c|]; [zcases|]; simplify_eq; try apply Hd.
    split; [done|constructor].
  - unfold Posix.exopal_get_time in *.
    assert (Hu : forall z, 0 <= u64 z < 2 ^ 64) by (intros z; apply Z.mod_pos_bound; lia).
    destruct (Posix.os_clock e) as [|[sec usec] [|c q]]; simplify_eq; split; try apply Hu; simpl; lia.
  - unfold Posix.rand in *.
    assert (Hr : forall z, 0 <= z mod 2 ^ 31 < 2 ^ 31) by (intros z; apply Z.mod_pos_bound; lia).
    destruct (Posix.os_rand e) as [|x q]; simplify_eq; split; try apply Hr; simpl; lia.
  - unfold Posix.exopal_udp_send in *.
    destruct (Posix.os_send_fails e) as [|[] q]; simplify_eq; simpl; len_lia.
  - unfold Posix.exopal_store_cik in *. zcases; simplify_eq; simpl; lia.
Defined.
