(* ===== verification/ExoDefs.v ===== *)
(** * The Exosite client: data, operations on requests, effects

    The types of [src/exosite.h], the static variables of [src/exosite.c] and
    the functions that work on a single [exo_op].  Pointers to caller-owned
    character buffers ([alias], [value], the identity strings) are numbers of
    blocks in a heap, so that two requests may share a buffer as they may in C;
    [None] is the null pointer. *)

From S2P Require Import Prelude Mem CoapDefs Pal.

Definition CIK_LENGTH : Z := 40.
Definition MINIMUM_DATAGRAM_SIZE : Z := 576.

Inductive exo_error :=
| EXO_OK
| EXO_GENERAL_ERROR
| EXO_OUT_OF_SPACE
| EXO_FATAL_ERROR_PAL.

Inductive exo_state :=
| EXO_IDLE
| EXO_WAITING
| EXO_BUSY
| EXO_NEW_RESPONSE
| EXO_ERROR
| EXO_CONNECTION_ERROR
| EXO_DEVICE_NOT_ENABLED
| EXO_DEVICE_DOES_NOT_EXIST.

Inductive exo_device_state :=
| EXO_STATE_UNINITIALIZED
| EXO_STATE_INITIALIZED
| EXO_STATE_GOOD
| EXO_STATE_BAD_CIK.

Inductive exo_request_type :=
| EXO_NULL
| EXO_WRITE
| EXO_READ
| EXO_SUBSCRIBE
| EXO_ACTIVATE.

Inductive exo_request_state :=
| EXO_REQUEST_NULL
| EXO_REQUEST_NEW
| EXO_REQUEST_PENDING
| EXO_REQUEST_SUBSCRIBED
| EXO_REQUEST_SUB_ACK
| EXO_REQUEST_SUB_ACK_NEW
| EXO_REQUEST_SUCCESS
| EXO_REQUEST_ERROR.

#[export] Instance exo_error_eq_dec : EqDecision exo_error.
Proof. solve_decision. Defined.
#[export] Instance exo_device_state_eq_dec : EqDecision exo_device_state.
Proof. solve_decision. Defined.
#[export] Instance exo_request_type_eq_dec : EqDecision exo_request_type.
Proof. solve_decision. Defined.
#[export] Instance exo_request_state_eq_dec : EqDecision exo_request_state.
Proof. solve_decision. Defined.

(** A pointer to the start of a caller-owned block. *)
Definition ptr : Type := option nat.

Record exo_op := mk_op {
  op_type : exo_request_type;
  op_state : exo_request_state;
  op_alias : ptr;
  op_value : ptr;
  op_value_max : Z;
  op_mid : Z;
  op_obs_seq : Z;
  op_tkl : Z;
  op_token : Z;
  op_timeout : Z;
  op_retries : Z
}.

(** ** Field updates *)

Definition op_set_type (t : exo_request_type) (o : exo_op) : exo_op :=
  mk_op t (op_state o) (op_alias o) (op_value o) (op_value_max o) (op_mid o)
    (op_obs_seq o) (op_tkl o) (op_token o) (op_timeout o) (op_retries o).
Definition op_set_state (s : exo_request_state) (o : exo_op) : exo_op :=
  mk_op (op_type o) s (op_alias o) (op_value o) (op_value_max o) (op_mid o)
    (op_obs_seq o) (op_tkl o) (op_token o) (op_timeout o) (op_retries o).
Definition op_set_mid (i : Z) (o : exo_op) : exo_op :=
  mk_op (op_type o) (op_state o) (op_alias o) (op_value o) (op_value_max o) i
    (op_obs_seq o) (op_tkl o) (op_token o) (op_timeout o) (op_retries o).
Definition op_set_obs_seq (s : Z) (o : exo_op) : exo_op :=
  mk_op (op_type o) (op_state o) (op_alias o) (op_value o) (op_value_max o) (op_mid o)
    s (op_tkl o) (op_token o) (op_timeout o) (op_retries o).
Definition op_set_token (t : Z) (o : exo_op) : exo_op :=
  mk_op (op_type o) (op_state o) (op_alias o) (op_value o) (op_value_max o) (op_mid o)
    (op_obs_seq o) (op_tkl o) t (op_timeout o) (op_retries o).
Definition op_set_timeout (t : Z) (o : exo_op) : exo_op :=
  mk_op (op_type o) (op_state o) (op_alias o) (op_value o) (op_value_max o) (op_mid o)
    (op_obs_seq o) (op_tkl o) (op_token o) t (op_retries o).
Definition op_set_retries (r : Z) (o : exo_op) : exo_op :=
  mk_op (op_type o) (op_state o) (op_alias o) (op_value o) (op_value_max o) (op_mid o)
    (op_obs_seq o) (op_tkl o) (op_token o) (op_timeout o) r.

(** ** Queueing a request *)

Definition queue_op (t : exo_request_type) (alias value : ptr) (value_max : Z) (o : exo_op) : exo_op :=
  mk_op t EXO_REQUEST_NEW alias value value_max 0
    (op_obs_seq o) (op_tkl o) (op_token o) (op_timeout o) (op_retries o).

Definition exo_write (op : exo_op) (alias value : ptr) : exo_op :=
  queue_op EXO_WRITE alias value 0 op.

Definition exo_read (op : exo_op) (alias value : ptr) (value_max : Z) : exo_op :=
  queue_op EXO_READ alias value value_max op.

Definition exo_subscribe (op : exo_op) (alias value : ptr) (value_max : Z) : exo_op :=
  queue_op EXO_SUBSCRIBE alias value value_max op.

Definition exo_activate (op : exo_op) : exo_op :=
  queue_op EXO_ACTIVATE None None 0 op.

Definition exo_op_init (op : exo_op) : exo_op :=
  mk_op EXO_NULL EXO_REQUEST_NULL None None 0 0 0 0 0 0 0.

Definition exo_is_op_valid (op : exo_op) : bool := bool_decide (op_type op <> EXO_NULL).
Definition exo_is_op_success (op : exo_op) : bool := bool_decide (op_state op = EXO_REQUEST_SUCCESS).
Definition exo_is_op_finished (op : exo_op) : bool :=
  bool_decide (op_state op = EXO_REQUEST_SUCCESS) || bool_decide (op_state op = EXO_REQUEST_ERROR).
Definition exo_is_op_read (op : exo_op) : bool := bool_decide (op_type op = EXO_READ).
Definition exo_is_op_subscribe (op : exo_op) : bool := bool_decide (op_type op = EXO_SUBSCRIBE).
Definition exo_is_op_write (op : exo_op) : bool := bool_decide (op_type op = EXO_WRITE).

Definition exo_op_done (op : exo_op) : exo_op :=
  if exo_is_op_subscribe op then op_set_state EXO_REQUEST_SUBSCRIBED op
  else exo_op_init op.

(** Only lower-case hexadecimal digits: 0 when all of the [len] characters are. *)
Definition is_hex_char (c : Z) : bool := ((97 <=? c) && (c <=? 102)) || ((48 <=? c) && (c <=? 57)).

Definition exo_util_is_ascii_hex (str : list Z) (len : Z) : res Z :=
  loop (fun i =>
    if i <? len then
      let* c := load str i in
      if negb (is_hex_char c) then Ok (Break 1) else Ok (Continue (i + 1))
    else Ok (Break 0)) 0.

(** ** The state of the client

    The static variables of [exosite.c], the caller's buffers, the array of
    requests and the platform. *)

Record world (E : Type) := mk_world {
  w_cik : list Z;
  w_vendor : ptr;
  w_model : ptr;
  w_serial : ptr;
  w_mid : Z;
  w_device : exo_device_state;
  w_heap : list (list Z);
  w_ops : list exo_op;
  w_env : E
}.
Arguments mk_world {E}.
Arguments w_cik {E}.
Arguments w_vendor {E}.
Arguments w_model {E}.
Arguments w_serial {E}.
Arguments w_mid {E}.
Arguments w_device {E}.
Arguments w_heap {E}.
Arguments w_ops {E}.
Arguments w_env {E}.

Section Effects.
Context {E : Type}.

Definition set_cik (c : list Z) (w : world E) : world E :=
  mk_world c (w_vendor w) (w_model w) (w_serial w) (w_mid w) (w_device w) (w_heap w) (w_ops w) (w_env w).
Definition set_identity (v m s : ptr) (w : world E) : world E :=
  mk_world (w_cik w) v m s (w_mid w) (w_device w) (w_heap w) (w_ops w) (w_env w).
Definition set_mid (i : Z) (w : world E) : world E :=
  mk_world (w_cik w) (w_vendor w) (w_model w) (w_serial w) i (w_device w) (w_heap w) (w_ops w) (w_env w).
Definition set_device (d : exo_device_state) (w : world E) : world E :=
  mk_world (w_cik w) (w_vendor w) (w_model w) (w_serial w) (w_mid w) d (w_heap w) (w_ops w) (w_env w).
Definition set_heap (h : list (list Z)) (w : world E) : world E :=
  mk_world (w_cik w) (w_vendor w) (w_model w) (w_serial w) (w_mid w) (w_device w) h (w_ops w) (w_env w).
Definition set_ops (o : list exo_op) (w : world E) : world E :=
  mk_world (w_cik w) (w_vendor w) (w_model w) (w_serial w) (w_mid w) (w_device w) (w_heap w) o (w_env w).
Definition set_env (e : E) (w : world E) : world E :=
  mk_world (w_cik w) (w_vendor w) (w_model w) (w_serial w) (w_mid w) (w_device w) (w_heap w) (w_ops w) e.

(** Code that reads and writes the state and may have undefined behaviour. *)
Definition M (A : Type) : Type := world E -> res (A * world E).

Definition retM {A} (a : A) : M A := fun w => Ok (a, w).
Definition bindM {A B} (c : M A) (k : A -> M B) : M B :=
  fun w => let* '(a, w) := c w in k a w.
Definition lift {A} (c : res A) : M A := fun w => let* a := c in Ok (a, w).
Definition gets {A} (f : world E -> A) : M A := fun w => Ok (f w, w).
Definition puts (f : world E -> world E) : M unit := fun w => Ok (tt, f w).
Definition failM {A} (f : fault) : M A := fun _ => Fault f.

(** A call into the platform. *)
Definition platform {A} (f : E -> A * E) : M A :=
  fun w => let '(a, e) := f (w_env w) in Ok (a, set_env e w).

(** [op[i]]; the array must have that element. *)
Definition get_op (i : nat) : M exo_op :=
  fun w => match w_ops w !! i with
           | Some o => Ok (o, w)
           | None => Fault OutOfBounds
           end.
Definition upd_op (i : nat) (f : exo_op -> exo_op) : M unit :=
  fun w => match w_ops w !! i with
           | Some o => Ok (tt, set_ops (<[i := f o]> (w_ops w)) w)
           | None => Fault OutOfBounds
           end.

(** The block behind a pointer. *)
Definition deref (p : ptr) : M (list Z) :=
  fun w => match p with
           | None => Fault NullPointer
           | Some b => match w_heap w !! b with
                       | Some blk => Ok (blk, w)
                       | None => Fault OutOfBounds
                       end
           end.
Definition put_block (p : ptr) (blk : list Z) : M unit :=
  fun w => match p with
           | None => Fault NullPointer
           | Some b => if (b <? length (w_heap w))%nat
                       then Ok (tt, set_heap (<[b := blk]> (w_heap w)) w)
                       else Fault OutOfBounds
           end.

(** A loop whose body has effects. *)
Definition loopM {S R} (body : S -> M (step S R)) (s : S) : M R :=
  fun w =>
    loop (fun sw : S * world E =>
      let* '(r, w) := body (fst sw) (snd sw) in
      Ok match r with
         | Continue s => Continue (s, w)
         | Break r => Break (r, w)
         end) (s, w).
End Effects.
Arguments M E A : clear implicits.

Notation "'let!' x := c 'in' k" := (bindM c (fun x => k))
  (at level 10, x binder, c at level 100, k at level 200) : c_scope.
