(* ===== verification/ExoBuild.v ===== *)
(** * The Exosite client: building requests

    The functions [exo_build_msg_*] of [src/exosite.c].  Each initialises the
    packet, sets the header, adds the options and combines the status codes with
    a bitwise or; the packet it leaves behind is returned also on failure. *)

From S2P Require Import Prelude Mem CoapDefs CoapGet CoapSet Pal ExoDefs.

Section Build.
Context {E : Type} `{Pal E}.

(** [ret |= f(pdu)]: the accumulated status and the packet. *)
Definition or_status (f : coap_pdu -> res (coap_error * coap_pdu)) (st : Z * coap_pdu)
    : res (Z * coap_pdu) :=
  let* '(err, pdu) := f (snd st) in Ok (Z.lor (fst st) err, pdu).

(** [message_id_counter++] *)
Definition next_mid : M E Z :=
  let! i := gets w_mid in
  let! _ := puts (set_mid (u16 (i + 1))) in
  retM i.

Definition rand : M E Z := platform libc_rand.

(** Add the string behind [s] as an option value: [strlen] gives its length, which
    the parameter type [uint16_t] cuts. *)
Definition add_string (num : Z) (s : ptr) (st : Z * coap_pdu) : M E (Z * coap_pdu) :=
  let! blk := deref s in
  let! n := lift (strlen blk) in
  lift (or_status (fun p => coap_add_option p num blk (u16 n)) st).

Definition build_result (st : Z * coap_pdu) : exo_error * coap_pdu :=
  if negb (fst st =? CE_NONE) then (EXO_GENERAL_ERROR, snd st) else (EXO_OK, snd st).

Definition exo_build_msg_activate (pdu : coap_pdu) (vendor model serial_number : ptr)
    : M E (exo_error * coap_pdu) :=
  let! '(_, pdu) := lift (coap_init_pdu pdu) in
  let! st := lift (or_status (fun p => coap_set_version p COAP_V1) (0, pdu)) in
  let! st := lift (or_status (fun p => coap_set_type p CT_CON) st) in
  let! st := lift (or_status (fun p => coap_set_code p CC_POST) st) in
  let! mid := next_mid in
  let! st := lift (or_status (fun p => coap_set_mid p mid) st) in
  let! r := rand in
  let! st := lift (or_status (fun p => coap_set_token p (u64 r) 2) st) in
  let! st := lift (or_status (fun p => coap_add_option p CON_URI_PATH (lit "provision") 9) st) in
  let! st := lift (or_status (fun p => coap_add_option p CON_URI_PATH (lit "activate") 8) st) in
  let! st := add_string CON_URI_PATH vendor st in
  let! st := add_string CON_URI_PATH model st in
  let! st := add_string CON_URI_PATH serial_number st in
  retM (build_result st).

Definition exo_build_msg_read (pdu : coap_pdu) (alias : ptr) : M E (exo_error * coap_pdu) :=
  let! '(_, pdu) := lift (coap_init_pdu pdu) in
  let! st := lift (or_status (fun p => coap_set_version p COAP_V1) (0, pdu)) in
  let! st := lift (or_status (fun p => coap_set_type p CT_CON) st) in
  let! st := lift (or_status (fun p => coap_set_code p CC_GET) st) in
  let! mid := next_mid in
  let! st := lift (or_status (fun p => coap_set_mid p mid) st) in
  let! r := rand in
  let! st := lift (or_status (fun p => coap_set_token p (u64 r) 2) st) in
  let! st := lift (or_status (fun p => coap_add_option p CON_URI_PATH (lit "1a") 2) st) in
  let! st := add_string CON_URI_PATH alias st in
  let! cik := gets w_cik in
  let! st := lift (or_status (fun p => coap_add_option p CON_URI_QUERY cik 40) st) in
  retM (build_result st).

Definition exo_build_msg_observe (pdu : coap_pdu) (alias : ptr) : M E (exo_error * coap_pdu) :=
  let obs_opt := [0] in
  let! '(_, pdu) := lift (coap_init_pdu pdu) in
  let! st := lift (or_status (fun p => coap_set_version p COAP_V1) (0, pdu)) in
  let! st := lift (or_status (fun p => coap_set_type p CT_CON) st) in
  let! st := lift (or_status (fun p => coap_set_code p CC_GET) st) in
  let! mid := next_mid in
  let! st := lift (or_status (fun p => coap_set_mid p mid) st) in
  let! r := rand in
  let! st := lift (or_status (fun p => coap_set_token p (u64 r) 2) st) in
  let! st := lift (or_status (fun p => coap_add_option p CON_OBSERVE obs_opt 1) st) in
  let! st := lift (or_status (fun p => coap_add_option p CON_URI_PATH (lit "1a") 2) st) in
  let! st := add_string CON_URI_PATH alias st in
  let! cik := gets w_cik in
  let! st := lift (or_status (fun p => coap_add_option p CON_URI_QUERY cik 40) st) in
  retM (build_result st).

Definition exo_build_msg_write (pdu : coap_pdu) (alias value : ptr) : M E (exo_error * coap_pdu) :=
  let! '(_, pdu) := lift (coap_init_pdu pdu) in
  let! st := lift (or_status (fun p => coap_set_version p COAP_V1) (0, pdu)) in
  let! st := lift (or_status (fun p => coap_set_type p CT_CON) st) in
  let! st := lift (or_status (fun p => coap_set_code p CC_POST) st) in
  let! mid := next_mid in
  let! st := lift (or_status (fun p => coap_set_mid p mid) st) in
  let! r := rand in
  let! st := lift (or_status (fun p => coap_set_token p (u64 r) 2) st) in
  let! st := lift (or_status (fun p => coap_add_option p CON_URI_PATH (lit "1a") 2) st) in
  let! st := add_string CON_URI_PATH alias st in
  let! cik := gets w_cik in
  let! st := lift (or_status (fun p => coap_add_option p CON_URI_QUERY cik 40) st) in
  let! blk := deref value in
  let! n := lift (strlen blk) in
  let! st := lift (or_status (fun p => coap_set_payload p blk n) st) in
  retM (build_result st).

Definition exo_build_msg_rst (pdu : coap_pdu) (mid token tkl : Z) : res (exo_error * coap_pdu) :=
  let* '(_, pdu) := coap_init_pdu pdu in
  let* st := or_status (fun p => coap_set_version p COAP_V1) (0, pdu) in
  let* st := or_status (fun p => coap_set_type p CT_RST) st in
  let* st := or_status (fun p => coap_set_code p CC_EMPTY) st in
  let* st := or_status (fun p => coap_set_mid p mid) st in
  let* st := or_status (fun p => coap_set_token p token tkl) st in
  Ok (build_result st).

Definition exo_build_msg_ack (pdu : coap_pdu) (mid : Z) : res (exo_error * coap_pdu) :=
  let* '(_, pdu) := coap_init_pdu pdu in
  let* st := or_status (fun p => coap_set_version p COAP_V1) (0, pdu) in
  let* st := or_status (fun p => coap_set_type p CT_ACK) st in
  let* st := or_status (fun p => coap_set_code p CC_EMPTY) st in
  let* st := or_status (fun p => coap_set_mid p mid) st in
  Ok (build_result st).
End Build.
