(* ===== verification/ExoProcess.v ===== *)
(** * The Exosite client: the protocol engine

    [exo_init], [exo_operate] and its two passes over the requests from
    [src/exosite.c].  The contents of the two packet buffers on the stack are
    parameters: C leaves them undefined until they are written. *)

From S2P Require Import Prelude Mem CoapDefs CoapGet CoapSet Pal ExoDefs ExoBuild.

Section Process.
Context {E : Type} `{Pal E}.

(** ** Initialisation *)

Definition exo_init (vendor_in model_in serial_in : ptr) : M E exo_error :=
  let! _ := puts (set_device EXO_STATE_UNINITIALIZED) in
  let! rc := platform exopal_init in
  if negb (rc =? 0) then retM EXO_FATAL_ERROR_PAL
  else
    let! t := platform libc_time in
    let! _ := platform (fun e => (tt, libc_srand t e)) in
    let! r := rand in
    let! _ := puts (set_mid (u16 r)) in
    let! _ := puts (set_identity vendor_in model_in serial_in) in
    let! '(rc, data) := platform exopal_retrieve_cik in
    let! cik := gets w_cik in
    let! cik := lift (store_bytes cik 0 data) in
    let! _ := puts (set_cik cik) in
    if 1 <? rc then retM EXO_FATAL_ERROR_PAL
    else
      let! cik := lift (store cik 40 0) in
      let! _ := puts (set_cik cik) in
      let! rc := platform exopal_udp_sock in
      if negb (rc =? 0) then retM EXO_FATAL_ERROR_PAL
      else
        let! _ := puts (set_device EXO_STATE_INITIALIZED) in
        retM EXO_OK.

(** ** Pieces of the response handler *)

(** [exopal_udp_send(pdu.buf, pdu.len)] *)
Definition send_pdu (pdu : coap_pdu) : M E Z :=
  let! bs := lift (load_bytes (pdu_buf pdu) 0 (pdu_len pdu)) in
  platform (exopal_udp_send bs).

(** [for (j = 0; j < opt.len; j++) seq = (seq << (8*j)) | opt.val[j]] on a
    [uint32_t]. *)
Definition observe_seq (pdu : coap_pdu) (opt : coap_option) (seq : Z) : res Z :=
  loop (fun '(j, seq) =>
    if j <? opt_len opt then
      if 32 <=? 8 * j then Fault BadShift
      else
        match opt_val opt with
        | None => Fault NullPointer
        | Some v =>
            let* b := load (pdu_buf pdu) (v + j) in
            Ok (Continue (j + 1, Z.lor (u32 (Z.shiftl seq (8 * j))) b))
        end
    else Ok (Break seq)) (0, seq).

(** The Max-Age of a response, 120 when it has no such option of one byte. *)
Definition max_age_of (pdu : coap_pdu) : res Z :=
  let* opt := coap_get_option_by_num pdu CON_MAX_AGE 0 in
  if negb (opt_num opt =? 0) && (opt_len opt =? 1) then
    match opt_val opt with
    | None => Fault NullPointer
    | Some v => load (pdu_buf pdu) v
    end
  else Ok 120.

(** Timeout between Max-Age and Max-Age + 1.5 s from now. *)
Definition arm_timeout (i : nat) (max_age : Z) : M E unit :=
  let! now := platform exopal_get_time in
  let! r := rand in
  upd_op i (op_set_timeout (u64 (now + max_age * 1000000 + u64 r mod 1500000))).

(** Hand the payload to the buffer of request [i]: true when it was copied. *)
Definition deliver (i : nat) (pdu : coap_pdu) (payload : coap_payload) : M E bool :=
  let! op := get_op i in
  if pl_len payload =? 0 then
    let! blk := deref (op_value op) in
    let! blk := lift (store blk 0 0) in
    let! _ := put_block (op_value op) blk in
    retM false
  else if (op_value_max op <? size_t (pl_len payload + 1)) || bool_decide (op_value op = None) then
    let! _ := upd_op i (op_set_state EXO_REQUEST_ERROR) in
    retM false
  else
    let! blk := deref (op_value op) in
    match pl_val payload with
    | None => failM NullPointer
    | Some v =>
        let! blk := lift (memcpy blk 0 (pdu_buf pdu) v (pl_len payload)) in
        let! blk := lift (store blk (pl_len payload) 0) in
        let! _ := put_block (op_value op) blk in
        retM true
    end.

(** ** One datagram against one request

    The three branches of the [for] loop on the type of the message.  The result
    says whether the loop is left. *)

Definition handle_notification (pdu : coap_pdu) (i : nat) : M E bool :=
  let! op := get_op i in
  if bool_decide (op_state op = EXO_REQUEST_SUBSCRIBED) then
    let! token := lift (coap_get_token pdu) in
    if token =? op_token op then
      let! code := lift (coap_get_code pdu) in
      if code =? CC_CONTENT then
        let! opt := lift (coap_get_option_by_num pdu CON_OBSERVE 0) in
        let! new_seq := lift (observe_seq pdu opt 0) in
        let! payload := lift (coap_get_payload pdu) in
        let! copied := deliver i pdu payload in
        if copied then
          let! mid := lift (coap_get_mid pdu) in
          let! _ := upd_op i (op_set_mid mid) in
          let! _ :=
            if negb (op_obs_seq op =? new_seq) then
              upd_op i (fun o => op_set_obs_seq new_seq (op_set_state EXO_REQUEST_SUB_ACK_NEW o))
            else upd_op i (op_set_state EXO_REQUEST_SUB_ACK) in
          let! max_age := lift (max_age_of pdu) in
          let! _ := arm_timeout i max_age in
          retM true
        else retM true
      else
        let! class := lift (coap_get_code_class pdu) in
        if negb (class =? 2) then
          let! _ := upd_op i (op_set_state EXO_REQUEST_ERROR) in retM true
        else retM true
    else retM false
  else retM false.

(** A successful response to request [i]; [false] is the [continue] of the
    impossible pending null request. *)
Definition handle_success (pdu : coap_pdu) (i : nat) : M E bool :=
  let! op := get_op i in
  match op_type op with
  | EXO_WRITE =>
      let! _ := upd_op i (op_set_state EXO_REQUEST_SUCCESS) in retM true
  | EXO_READ =>
      let! payload := lift (coap_get_payload pdu) in
      let! copied := deliver i pdu payload in
      if copied then
        let! _ := upd_op i (op_set_state EXO_REQUEST_SUCCESS) in retM true
      else retM true
  | EXO_SUBSCRIBE =>
      let! payload := lift (coap_get_payload pdu) in
      let! copied := deliver i pdu payload in
      if copied then
        let! _ := upd_op i (op_set_state EXO_REQUEST_SUCCESS) in
        let! max_age := lift (max_age_of pdu) in
        let! opt := lift (coap_get_option_by_num pdu CON_OBSERVE 0) in
        let! seq := lift (observe_seq pdu opt (op_obs_seq op)) in
        let! _ := upd_op i (op_set_obs_seq seq) in
        let! _ := arm_timeout i max_age in
        retM true
      else retM true
  | EXO_ACTIVATE =>
      let! payload := lift (coap_get_payload pdu) in
      let! _ :=
        if pl_len payload =? CIK_LENGTH then
          let! cik := gets w_cik in
          let! src := lift match pl_val payload with None => Fault NullPointer | Some v => Ok v end in
          let! cik := lift (memcpy cik 0 (pdu_buf pdu) src CIK_LENGTH) in
          let! cik := lift (store cik CIK_LENGTH 0) in
          let! _ := puts (set_cik cik) in
          let! _ := upd_op i (op_set_state EXO_REQUEST_SUCCESS) in
          let! _ := platform (exopal_store_cik cik) in
          puts (set_device EXO_STATE_GOOD)
        else upd_op i (op_set_state EXO_REQUEST_ERROR) in
      (* We're done with this op now. *)
      let! _ := upd_op i exo_op_init in
      retM true
  | EXO_NULL => retM false
  end.

Definition handle_ack (pdu : coap_pdu) (i : nat) : M E bool :=
  let! op := get_op i in
  let! hit :=
    if bool_decide (op_state op = EXO_REQUEST_PENDING) then
      let! mid := lift (coap_get_mid pdu) in retM (op_mid op =? mid)
    else retM false in
  if (hit : bool) then
    let! class := lift (coap_get_code_class pdu) in
    if class =? 2 then handle_success pdu i
    else
      let! _ := upd_op i (op_set_state EXO_REQUEST_ERROR) in
      let! code := lift (coap_get_code pdu) in
      let! _ :=
        if code =? CC_UNAUTHORIZED then
          let! op0 := get_op 0 in
          let! renew :=
            if bool_decide (op_type op0 = EXO_NULL) then retM true
            else
              let! now := platform exopal_get_time in
              retM (op_timeout op0 <? now) in
          if (renew : bool) then upd_op 0 exo_activate else retM tt
        else if code =? CC_NOT_FOUND then puts (set_device EXO_STATE_GOOD)
        else retM tt in
      retM true
  else retM false.

Definition handle_rst (pdu : coap_pdu) (i : nat) : M E bool :=
  let! op := get_op i in
  if bool_decide (op_state op = EXO_REQUEST_PENDING)
     || bool_decide (op_state op = EXO_REQUEST_SUBSCRIBED) then
    let! mid := lift (coap_get_mid pdu) in
    if op_mid op =? mid then
      let! token := lift (coap_get_token pdu) in
      if op_token op =? token then
        let! _ := upd_op i (op_set_state EXO_REQUEST_ERROR) in retM true
      else retM false
    else retM false
  else retM false.

Definition handle_op (pdu : coap_pdu) (i : nat) : M E bool :=
  let! ty := lift (coap_get_type pdu) in
  if (ty =? CT_CON) || (ty =? CT_NON) then handle_notification pdu i
  else if ty =? CT_ACK then handle_ack pdu i
  else if ty =? CT_RST then handle_rst pdu i
  else retM false.

(** The [for] loop over the requests from [i] on, [n] of them left: false when it
    ends normally. *)
Fixpoint match_ops (pdu : coap_pdu) (i n : nat) : M E bool :=
  match n with
  | O => retM false
  | S n' =>
      let! found := handle_op pdu i in
      if (found : bool) then retM true else match_ops pdu (S i) n'
  end.

(** ** Incoming datagrams *)

(** One iteration of the [while] loop: receive, validate, dispatch, and answer a
    confirmable message nobody waits for with a reset. *)
Definition recv_step (count : nat) (pdu : coap_pdu) : M E (step coap_pdu unit) :=
  let! '(rc, data) := platform (exopal_udp_recv (pdu_max pdu)) in
  let! m := lift (store_bytes (pdu_buf pdu) 0 data) in
  if negb (rc =? 0) then retM (Break tt)
  else
    let pdu := set_len (set_buf pdu m) (zlen data) in
    let! '(err, pdu) := lift (coap_validate_pkt pdu) in
    if decide (err <> CE_NONE) then retM (Continue pdu)
    else
      let! found := match_ops pdu 0 count in
      if (found : bool) then retM (Continue pdu)
      else
        let! ty := lift (coap_get_type pdu) in
        if ty =? CT_CON then
          let! mid := lift (coap_get_mid pdu) in
          let! token := lift (coap_get_token pdu) in
          let! tkl := lift (coap_get_tkl pdu) in
          let! '(_, pdu) := lift (exo_build_msg_rst pdu mid token tkl) in
          let! _ := send_pdu pdu in
          retM (Break tt)
        else retM (Break tt).

(** A packet buffer of the size of the smallest datagram every host accepts. *)
Definition stack_pdu (addr : Z) (stack : list Z) : coap_pdu :=
  mk_pdu addr stack 0 MINIMUM_DATAGRAM_SIZE None.

Definition exo_process_waiting_datagrams (addr : Z) (stack : list Z) (count : nat) : M E unit :=
  loopM (recv_step count) (stack_pdu addr stack).

(** ** Active requests *)

(** Build the request of [op]; [None] for a request without a type. *)
Definition build_request (pdu : coap_pdu) (op : exo_op) : M E (option coap_pdu) :=
  match op_type op with
  | EXO_READ => let! '(_, pdu) := exo_build_msg_read pdu (op_alias op) in retM (Some pdu)
  | EXO_SUBSCRIBE => let! '(_, pdu) := exo_build_msg_observe pdu (op_alias op) in retM (Some pdu)
  | EXO_WRITE => let! '(_, pdu) := exo_build_msg_write pdu (op_alias op) (op_value op) in retM (Some pdu)
  | EXO_ACTIVATE =>
      let! v := gets w_vendor in
      let! m := gets w_model in
      let! s := gets w_serial in
      let! '(_, pdu) := exo_build_msg_activate pdu v m s in retM (Some pdu)
  | EXO_NULL => retM None
  end.

Definition send_new (i : nat) (pdu : coap_pdu) : M E coap_pdu :=
  let! op := get_op i in
  let! built := build_request pdu op in
  match built with
  | None => let! _ := upd_op i (op_set_type EXO_NULL) in retM pdu
  | Some pdu =>
      let! rc := send_pdu pdu in
      if rc =? 0 then
        let! _ := upd_op i (op_set_state EXO_REQUEST_PENDING) in
        let! now := platform exopal_get_time in
        let! _ := upd_op i (op_set_timeout (u64 (now + 4000000))) in
        let! mid := lift (coap_get_mid pdu) in
        let! _ := upd_op i (op_set_mid mid) in
        let! token := lift (coap_get_token pdu) in
        let! _ := upd_op i (op_set_token token) in
        retM pdu
      else retM pdu
  end.

Definition retransmit (i : nat) (pdu : coap_pdu) : M E coap_pdu :=
  let! op := get_op i in
  if op_retries op <? COAP_MAX_RETRANSMIT then
    let! built := build_request pdu op in
    let pdu := default pdu built in
    (* reuse old mid and token *)
    let! '(_, pdu) := lift (coap_set_mid pdu (op_mid op)) in
    let! '(_, pdu) := lift (coap_set_token pdu (op_token op) (op_tkl op)) in
    let! rc := send_pdu pdu in
    if rc =? 0 then
      let retries := u8 (op_retries op + 1) in
      let! _ := upd_op i (op_set_retries retries) in
      let! now := platform exopal_get_time in
      let! r := rand in
      let! _ := upd_op i (op_set_timeout
        (u64 (now + retries * COAP_PROBING_RATE * 1000000 + u64 r mod 1500000))) in
      retM pdu
    else retM pdu
  else
    let! _ := upd_op i (op_set_state EXO_REQUEST_ERROR) in retM pdu.

Definition check_timeout (now : Z) (i : nat) (pdu : coap_pdu) : M E coap_pdu :=
  let! op := get_op i in
  if op_timeout op <=? now then
    match op_type op with
    | EXO_READ | EXO_WRITE | EXO_ACTIVATE => retransmit i pdu
    | EXO_SUBSCRIBE =>
        (* force a new observe request *)
        let! _ := upd_op i (op_set_state EXO_REQUEST_NEW) in retM pdu
    | EXO_NULL => retM pdu
    end
  else retM pdu.

(** Send ack for observe notification. *)
Definition send_ack (i : nat) (pdu : coap_pdu) : M E coap_pdu :=
  let! op := get_op i in
  let! '(_, pdu) := lift (exo_build_msg_ack pdu (op_mid op)) in
  let! rc := send_pdu pdu in
  if rc =? 0 then
    let! _ :=
      match op_state op with
      | EXO_REQUEST_SUB_ACK => upd_op i (op_set_state EXO_REQUEST_SUBSCRIBED)
      | EXO_REQUEST_SUB_ACK_NEW => upd_op i (op_set_state EXO_REQUEST_SUCCESS)
      | _ => retM tt
      end in
    retM pdu
  else retM pdu.

Definition active_op (now : Z) (i : nat) (pdu : coap_pdu) : M E coap_pdu :=
  let! op := get_op i in
  match op_state op with
  | EXO_REQUEST_NEW => send_new i pdu
  | EXO_REQUEST_SUBSCRIBED | EXO_REQUEST_PENDING => check_timeout now i pdu
  | EXO_REQUEST_SUB_ACK_NEW | EXO_REQUEST_SUB_ACK => send_ack i pdu
  | _ => retM pdu
  end.

Fixpoint active_ops (now : Z) (i n : nat) (pdu : coap_pdu) : M E unit :=
  match n with
  | O => retM tt
  | S n' => let! pdu := active_op now i pdu in active_ops now (S i) n' pdu
  end.

Definition exo_process_active_ops (addr : Z) (stack : list Z) (count : nat) : M E unit :=
  let! now := platform exopal_get_time in
  active_ops now 0 count (stack_pdu addr stack).

(** ** The engine *)

(** Is one of the first [n] requests in state [s]? *)
Fixpoint any_in_state (s : exo_request_state) (i n : nat) : M E bool :=
  match n with
  | O => retM false
  | S n' =>
      let! op := get_op i in
      if bool_decide (op_state op = s) then retM true else any_in_state s (S i) n'
  end.

(** [EXO_STATE_INITIALIZED] and [EXO_STATE_BAD_CIK]: request an activation unless
    one is under way. *)
Definition ensure_activation : M E unit :=
  let! op0 := get_op 0 in
  let! renew :=
    if bool_decide (op_state op0 = EXO_REQUEST_NULL) then retM true
    else
      let! now := platform exopal_get_time in
      retM (op_timeout op0 <? now) in
  if (renew : bool) then upd_op 0 exo_activate else retM tt.

Definition exo_operate (addr1 : Z) (stack1 : list Z) (addr2 : Z) (stack2 : list Z) (count : nat)
    : M E exo_state :=
  let! device := gets w_device in
  if decide (device = EXO_STATE_UNINITIALIZED) then retM EXO_ERROR
  else
    let! _ :=
      match device with
      | EXO_STATE_INITIALIZED | EXO_STATE_BAD_CIK => ensure_activation
      | _ => retM tt
      end in
    let! _ := exo_process_waiting_datagrams addr1 stack1 count in
    let! _ := exo_process_active_ops addr2 stack2 count in
    let! busy := any_in_state EXO_REQUEST_NEW 0 count in
    if (busy : bool) then retM EXO_BUSY
    else
      let! waiting := any_in_state EXO_REQUEST_PENDING 0 count in
      if (waiting : bool) then retM EXO_WAITING else retM EXO_IDLE.
End Process.

(** [exo_do_activate] initialises a local request and reports success. *)
Definition exo_do_activate (op : exo_op) : exo_error :=
  let _ := exo_op_init op in EXO_OK.
