(* ===== verification/ExoRules.v ===== *)
(** * Reasoning about effectful code

    Rules that run a computation of type [M E A] one call at a time under
    [returns], and the tactic [exo] that applies them. *)

From S2P Require Import Prelude Mem CoapDefs Pal ExoDefs.

Section Rules.
Context {E : Type}.
Implicit Types (w : world E).

Lemma bind_lift {A B} (c : res A) (k : A -> M E B) w P (Q : B * world E -> Prop) :
  returns c P -> (forall a, P a -> returns (k a w) Q) -> returns (bindM (lift c) k w) Q.
Proof. unfold bindM, lift. destruct c; simpl; [eauto|done]. Qed.

Lemma bind_lift_eq {A B} (c : res A) (k : A -> M E B) w a (Q : B * world E -> Prop) :
  c = Ok a -> returns (k a w) Q -> returns (bindM (lift c) k w) Q.
Proof. intros ->. done. Qed.

Lemma bind_M {A B} (c : M E A) (k : A -> M E B) w P (Q : B * world E -> Prop) :
  returns (c w) P -> (forall a w', P (a, w') -> returns (k a w') Q) -> returns (bindM c k w) Q.
Proof. unfold bindM. destruct (c w) as [[a w']|]; simpl; [eauto|done]. Qed.

Lemma bind_get_op {B} i (k : exo_op -> M E B) w o (Q : B * world E -> Prop) :
  w_ops w !! i = Some o -> returns (k o w) Q -> returns (bindM (get_op i) k w) Q.
Proof. unfold bindM, get_op. intros ->. done. Qed.

Lemma bind_upd_op {B} i f (k : unit -> M E B) w o (Q : B * world E -> Prop) :
  w_ops w !! i = Some o ->
  returns (k tt (set_ops (<[i := f o]> (w_ops w)) w)) Q -> returns (bindM (upd_op i f) k w) Q.
Proof. unfold bindM, upd_op. intros ->. done. Qed.

Lemma bind_deref {B} b blk (k : list Z -> M E B) w (Q : B * world E -> Prop) :
  w_heap w !! b = Some blk -> returns (k blk w) Q -> returns (bindM (deref (Some b)) k w) Q.
Proof. unfold bindM, deref. intros ->. done. Qed.

Lemma bind_put_block {B} b blk blk' (k : unit -> M E B) w (Q : B * world E -> Prop) :
  w_heap w !! b = Some blk ->
  returns (k tt (set_heap (<[b := blk']> (w_heap w)) w)) Q ->
  returns (bindM (put_block (Some b) blk') k w) Q.
Proof.
  unfold bindM, put_block. intros Hb. apply lookup_lt_Some in Hb.
  by rewrite (proj2 (Nat.ltb_lt _ _) Hb).
Qed.

Lemma bind_platform {A B} (f : E -> A * E) (k : A -> M E B) w a e (Q : B * world E -> Prop) :
  f (w_env w) = (a, e) -> returns (k a (set_env e w)) Q -> returns (bindM (platform f) k w) Q.
Proof. unfold bindM, platform. intros ->. done. Qed.

Lemma bind_gets {A B} (f : world E -> A) (k : A -> M E B) w (Q : B * world E -> Prop) :
  returns (k (f w) w) Q -> returns (bindM (gets f) k w) Q.
Proof. done. Qed.

Lemma bind_puts {B} (f : world E -> world E) (k : unit -> M E B) w (Q : B * world E -> Prop) :
  returns (k tt (f w)) Q -> returns (bindM (puts f) k w) Q.
Proof. done. Qed.

Lemma bind_ret {A B} (a : A) (k : A -> M E B) w (Q : B * world E -> Prop) :
  returns (k a w) Q -> returns (bindM (retM a) k w) Q.
Proof. done. Qed.

Lemma ret_M {A} (a : A) w (Q : A * world E -> Prop) : Q (a, w) -> returns (retM a w) Q.
Proof. done. Qed.
End Rules.

(** ** The same for computations that may have undefined behaviour *)

Section EndsRules.
Context {E : Type}.
Implicit Types (w : world E).

Lemma ends_lift {A B} (c : res A) (k : A -> M E B) w P (Q : B * world E -> Prop) :
  ends c P -> (forall a, P a -> ends (k a w) Q) -> ends (bindM (lift c) k w) Q.
Proof. unfold bindM, lift. destruct c; simpl; eauto. Qed.

Lemma ends_lift_Ok {A B} (a : A) (k : A -> M E B) w (Q : B * world E -> Prop) :
  ends (k a w) Q -> ends (bindM (lift (Ok a)) k w) Q.
Proof. done. Qed.

Lemma ends_lift_Fault {A B} f (k : A -> M E B) w (Q : B * world E -> Prop) :
  f <> OutOfFuel -> ends (bindM (lift (Fault f)) k w) Q.
Proof. done. Qed.

Lemma ends_M {A B} (c : M E A) (k : A -> M E B) w P (Q : B * world E -> Prop) :
  ends (c w) P -> (forall a w', P (a, w') -> ends (k a w') Q) -> ends (bindM c k w) Q.
Proof. unfold bindM. destruct (c w) as [[a w']|]; simpl; eauto. Qed.

Lemma ends_get_op {B} i (k : exo_op -> M E B) w (Q : B * world E -> Prop) :
  (forall o, w_ops w !! i = Some o -> ends (k o w) Q) -> ends (bindM (get_op i) k w) Q.
Proof. unfold bindM, get_op. destruct (w_ops w !! i); simpl; [eauto|discriminate]. Qed.

(** An update of request [i], of which [o] is the current contents. *)
Lemma ends_upd {B} i f l o (k : unit -> M E B) w (Q : B * world E -> Prop) :
  w_ops w = <[i := o]> l -> (i < length l)%nat ->
  ends (k tt (set_ops (<[i := f o]> l) w)) Q -> ends (bindM (upd_op i f) k w) Q.
Proof.
  intros Ew Hi. unfold bindM, upd_op. rewrite Ew, list_lookup_insert_eq by done. simpl.
  by rewrite list_insert_insert_eq.
Qed.

Lemma ends_deref {B} p (k : list Z -> M E B) w (Q : B * world E -> Prop) :
  (forall b blk, p = Some b -> w_heap w !! b = Some blk -> ends (k blk w) Q) ->
  ends (bindM (deref p) k w) Q.
Proof.
  unfold bindM, deref. destruct p as [b|]; [|discriminate].
  destruct (w_heap w !! b) eqn:Eb; simpl; [|discriminate]. eauto.
Qed.

Lemma ends_put_block {B} b blk' (k : unit -> M E B) w (Q : B * world E -> Prop) :
  ends (k tt (set_heap (<[b := blk']> (w_heap w)) w)) Q -> ends (bindM (put_block (Some b) blk') k w) Q.
Proof. unfold bindM, put_block. destruct (_ <? _)%nat; simpl; [done|discriminate]. Qed.

Lemma ends_platform {A B} (f : E -> A * E) (k : A -> M E B) w (Q : B * world E -> Prop) :
  (forall a e, f (w_env w) = (a, e) -> ends (k a (set_env e w)) Q) -> ends (bindM (platform f) k w) Q.
Proof. unfold bindM, platform. destruct (f (w_env w)) as [a e]; simpl; eauto. Qed.

Lemma ends_gets {A B} (f : world E -> A) (k : A -> M E B) w (Q : B * world E -> Prop) :
  ends (k (f w) w) Q -> ends (bindM (gets f) k w) Q.
Proof. done. Qed.

Lemma ends_puts {B} (f : world E -> world E) (k : unit -> M E B) w (Q : B * world E -> Prop) :
  ends (k tt (f w)) Q -> ends (bindM (puts f) k w) Q.
Proof. done. Qed.

Lemma ends_retM {A B} (a : A) (k : A -> M E B) w (Q : B * world E -> Prop) :
  ends (k a w) Q -> ends (bindM (retM a) k w) Q.
Proof. done. Qed.

(** The computation at the end of a block. *)
Lemma ends_last {A} (c : M E A) w (Q : A * world E -> Prop) :
  ends (bindM c retM w) Q -> ends (c w) Q.
Proof. unfold bindM, retM. by destruct (c w) as [[a w']|]. Qed.
End EndsRules.
