(* ===== verification/ExoBuildFacts.v ===== *)
(** * The Exosite client: what the request builders put into the packet *)

From S2P Require Import Prelude Mem CoapDefs CoapGet CoapSet CoapMessage CoapGetFacts CoapSetFacts CoapOptionFacts Pal ExoDefs ExoBuild ExoRules.

(** ** The intended messages *)

Definition request (code mid r : Z) (opts : list (Z * list Z)) (payload : option (list Z)) : message :=
  mk_msg 1 CT_CON code mid (le_bytes 2 r) opts payload.

Definition read_msg (mid r : Z) (alias cik : list Z) : message :=
  request CC_GET mid r [(11, lit "1a"); (11, alias); (15, cik)] None.

Definition observe_msg (mid r : Z) (alias cik : list Z) : message :=
  request CC_GET mid r [(6, [0]); (11, lit "1a"); (11, alias); (15, cik)] None.

Definition write_msg (mid r : Z) (alias cik value : list Z) : message :=
  request CC_POST mid r [(11, lit "1a"); (11, alias); (15, cik)] (Some value).

Definition activate_msg (mid r : Z) (vendor model serial : list Z) : message :=
  request CC_POST mid r
    [(11, lit "provision"); (11, lit "activate"); (11, vendor); (11, model); (11, serial)] None.

Definition rst_msg (mid : Z) (token : list Z) : message := mk_msg 1 CT_RST CC_EMPTY mid token [] None.
Definition ack_msg (mid : Z) : message := mk_msg 1 CT_ACK CC_EMPTY mid [] [] None.

(** ** Accumulated status *)

(** The packet holds a message with the intended header; it is the intended one
    when every setter so far succeeded, and they all succeed when the intended
    message fits. *)
Definition built (max bound : Z) (target : message) (st : Z * coap_pdu) : Prop :=
  exists m, represents (snd st) m /\ pdu_max (snd st) = max /\
    Forall (fun o => fst o <= bound) (m_options m) /\ m_payload m = None /\ 0 <= fst st /\
    (fst st = 0 -> m = target) /\ (zlen (encode target) <= max -> fst st = 0) /\
    header_of m = header_of target.

Lemma or_status_updates f st m' :
  returns (f (snd st)) (updates (snd st) m') ->
  returns (or_status f st) (fun st' =>
    fst st' = fst st /\ represents (snd st') m' /\ pdu_max (snd st') = pdu_max (snd st)).
Proof.
  intros H. unfold or_status. apply returns_inv in H as ([e p] & -> & He & Hr & Hm & _).
  simpl in *. subst e. cbn [coap_error_val]. by rewrite Z.lor_0_r.
Qed.

Lemma zlen_encode_with_options m o1 o2 :
  zlen (encode (with_options m (o1 ++ o2))) =
  zlen (encode (with_options m o1)) + zlen (encode_options (last_num 0 o1) o2).
Proof.
  unfold encode, with_options. cbn [m_options m_payload]. rewrite encode_options_app.
  unfold encode_head. cbn [m_ver m_type m_code m_mid m_token]. len_lia.
Qed.

Lemma with_options_id m : with_options m (m_options m) = m.
Proof. by destruct m. Qed.

Lemma zlen_encode_grows m o : zlen (encode m) <= zlen (encode (with_options m (m_options m ++ o))).
Proof. rewrite zlen_encode_with_options, with_options_id. zlen_pos. lia. Qed.

Lemma or_insufficient a : 0 <= a -> 0 < Z.lor a CE_INSUFFICIENT_BUFFER.
Proof.
  intros Ha. assert (0 <= Z.lor a 7) by (apply Z.lor_nonneg; lia).
  destruct (Z.eq_dec (Z.lor a 7) 0) as [E|]; [|cbn [coap_error_val]; lia].
  apply Z.lor_eq_0_iff in E. lia.
Qed.

(** One more option, with a number not below the previous ones. *)
Lemma built_option max bound target st num v junk n :
  built max bound target st -> bound <= num -> 0 <= num < 65536 ->
  bytes v -> zlen v < 65536 -> n = zlen v ->
  returns (or_status (fun p => coap_add_option p num (v ++ junk) n) st)
    (built max num (with_options target (m_options target ++ [(num, v)]))).
Proof.
  intros (m & HR & Hmax & Hb & Hp & Hst & Hz & Hfit & Hh) Hbn Hnum Hv Hvl ->.
  assert (Hb' : Forall (fun o => fst o <= num) (m_options m))
    by (eapply Forall_impl; [exact Hb|]; intros o ?; simpl in *; lia).
  pose proof (add_option_end (snd st) m HR num v junk Hnum Hv Hvl Hb') as Hs. unfold sets in Hs.
  pose proof (zlen_encode_grows target [(num, v)]) as Hg.
  rewrite Hmax in Hs. unfold or_status. destruct (Z.ltb_spec max (zlen (encode
    (with_options m (m_options m ++ [(num, v)]))))) as [Hlt|Hle].
  - rewrite Hs. cbn [rbind returns]. exists m. cbn [fst snd].
    pose proof (or_insufficient (fst st) Hst).
    split; [done|]. split; [done|]. split; [done|]. split; [done|]. split; [lia|].
    split; [lia|]. split; [|done]. intros Hf. assert (H0 : fst st = 0) by (apply Hfit; lia).
    rewrite (Hz H0) in Hlt. lia.
  - apply returns_inv in Hs as ([e p] & -> & He & Hr & Hm & _). simpl in He, Hr, Hm. subst e.
    cbn [rbind returns coap_error_val]. rewrite Z.lor_0_r.
    exists (with_options m (m_options m ++ [(num, v)])). cbn [fst snd].
    split; [done|]. split; [by rewrite Hm|].
    split; [cbn [m_options with_options]; apply Forall_app; by repeat constructor|].
    split; [done|]. split; [done|]. split; [intros H0; by rewrite (Hz H0)|].
    split; [intros Hf; apply Hfit; lia|done].
Qed.

(** The header of a message without options, up to the code. *)
Lemma built_head pdu t c :
  pdu_max pdu = zlen (pdu_buf pdu) -> 4 <= pdu_max pdu < 2 ^ 62 -> 0 <= t < 4 -> is_byte c ->
  returns (let* '(_, pdu) := coap_init_pdu pdu in
           let* st := or_status (fun p => coap_set_version p COAP_V1) (0, pdu) in
           let* st := or_status (fun p => coap_set_type p t) st in
           or_status (fun p => coap_set_code p c) st)
    (fun st => fst st = 0 /\ represents (snd st) (mk_msg 1 t c 0 [] [] None) /\
               pdu_max (snd st) = pdu_max pdu).
Proof.
  intros Hm Hs Ht Hc.
  eapply returns_bind; [apply init_pdu_rep; done|]. intros [e p0] (_ & Hr0 & Hm0 & _). simpl in Hr0, Hm0.
  eapply returns_bind; [apply (or_status_updates _ (0, p0)), (set_version_rep p0 ping Hr0 1); lia|].
  intros st1 (Hz1 & Hr1 & Hm1).
  eapply returns_bind; [eapply or_status_updates; apply (set_type_rep _ _ Hr1 t Ht)|].
  intros st2 (Hz2 & Hr2 & Hm2).
  eapply returns_mono; [eapply or_status_updates; apply (set_code_rep _ _ Hr2 c Hc)|].
  intros st3 (Hz3 & Hr3 & Hm3). cbn [fst snd] in *. split; [congruence|]. split; [done|congruence].
Qed.

(** ** The builders *)

Section Builders.
Context {E : Type} `{PalLaws E}.
Implicit Types (w : world E).

(** The outcome of a builder for the message [target]. *)
Definition builds (max : Z) (target : message) (r : exo_error * coap_pdu) : Prop :=
  exists m, represents (snd r) m /\ pdu_max (snd r) = max /\ header_of m = header_of target /\
    (fst r = EXO_OK <-> zlen (encode target) <= max) /\ (fst r = EXO_OK -> m = target).

(** The state behind a builder that took [r] from the random numbers. *)
Definition after_build w (e : E) : world E := set_env e (set_mid (u16 (w_mid w + 1)) w).

(** The common start of the requests: header, message id and token. *)
Lemma bind_request {B} pdu c w r e (k : Z * coap_pdu -> M E B) (Q : B * world E -> Prop) :
  pdu_max pdu = zlen (pdu_buf pdu) -> 6 <= pdu_max pdu < 2 ^ 62 -> is_byte c ->
  0 <= w_mid w < 65536 -> libc_rand (w_env w) = (r, e) ->
  (forall st, built (pdu_max pdu) 0 (request c (w_mid w) r [] None) st ->
     returns (k st (after_build w e)) Q) ->
  returns ((let! '(_, pdu) := lift (coap_init_pdu pdu) in
    let! st := lift (or_status (fun p => coap_set_version p COAP_V1) (0, pdu)) in
    let! st := lift (or_status (fun p => coap_set_type p CT_CON) st) in
    let! st := lift (or_status (fun p => coap_set_code p c) st) in
    let! mid := next_mid in
    let! st := lift (or_status (fun p => coap_set_mid p mid) st) in
    let! r := rand in
    let! st := lift (or_status (fun p => coap_set_token p (u64 r) 2) st) in
    k st) w) Q.
Proof.
  intros Hm Hs Hc Hmid Hr HQ.
  pose proof (built_head pdu CT_CON c Hm ltac:(lia) ltac:(done) Hc) as Hh.
  apply returns_inv in Hh as (st & Est & Hz & HR & Hmx). unfold bindM at 1, lift at 1.
  destruct (coap_init_pdu pdu) as [[e0 p0]|]; [|done]. cbn [rbind] in Est |- *.
  unfold bindM at 1, lift at 1. destruct (or_status _ (0, p0)) as [s1|]; [|done]. cbn [rbind] in Est |- *.
  unfold bindM at 1, lift at 1. destruct (or_status _ s1) as [s2|]; [|done]. cbn [rbind] in Est |- *.
  unfold bindM at 1, lift at 1. rewrite Est. cbn [rbind].
  change (next_mid) with (fun w0 : world E => Ok (w_mid w0, set_mid (u16 (w_mid w0 + 1)) w0)).
  unfold bindM at 1. cbn [rbind].
  eapply bind_lift; [apply or_status_updates, (set_mid_rep _ _ HR _ Hmid)|].
  intros st' (Hz' & HR' & Hmx'). eapply bind_platform; [exact Hr|].
  pose proof (rand_ok _ _ _ Hr) as [Hrr _].
  pose proof (set_token_rep _ _ HR' 2 ltac:(lia) (u64 r)) as Ht. unfold sets in Ht.
  rewrite (proj2 (Z.ltb_ge _ _)) in Ht by (rewrite Hmx', Hmx; exact (proj1 Hs)).
  rewrite u64_id in Ht |- * by lia.
  eapply bind_lift; [eapply or_status_updates; exact Ht|].
  intros st'' (Hz'' & HR'' & Hmx''). apply HQ.
  exists (request c (w_mid w) r [] None). split; [exact HR''|]. split; [congruence|].
  repeat split; try constructor; congruence || lia.
Qed.

(** An option whose value is at hand. *)
Lemma bind_option {B} max bound target st num v junk n w (k : Z * coap_pdu -> M E B) Q :
  built max bound target st -> bound <= num < 65536 -> 0 <= num ->
  bytes v -> zlen v < 65536 -> n = zlen v ->
  (forall st, built max num (with_options target (m_options target ++ [(num, v)])) st ->
     returns (k st w) Q) ->
  returns (bindM (lift (or_status (fun p => coap_add_option p num (v ++ junk) n) st)) k w) Q.
Proof.
  intros Hb Hn ? Hv Hl -> HQ. eapply bind_lift; [|exact HQ].
  eapply built_option; [exact Hb|lia|lia|done|done|done].
Qed.

Lemma bind_literal {B} max bound target st num v n w (k : Z * coap_pdu -> M E B) Q :
  built max bound target st -> bound <= num < 65536 -> 0 <= num ->
  bytes v -> zlen v < 65536 -> n = zlen v ->
  (forall st, built max num (with_options target (m_options target ++ [(num, v)])) st ->
     returns (k st w) Q) ->
  returns (bindM (lift (or_status (fun p => coap_add_option p num v n) st)) k w) Q.
Proof. intros. rewrite <- (app_nil_r v). by eapply bind_option. Qed.

(** An option whose value is a C string of the caller. *)
Lemma bind_string {B} max bound target st num b blk s w (k : Z * coap_pdu -> M E B) Q :
  built max bound target st -> bound <= num < 65536 -> 0 <= num ->
  w_heap w !! b = Some blk -> cstring s blk -> zlen s < 65536 ->
  (forall st, built max num (with_options target (m_options target ++ [(num, s)])) st ->
     returns (k st w) Q) ->
  returns (bindM (add_string num (Some b) st) k w) Q.
Proof.
  intros Hb Hn Hn0 Hblk Hs Hl HQ. unfold add_string, bindM, deref. rewrite Hblk. cbn [rbind].
  unfold lift at 1. rewrite (strlen_cstring _ _ Hs). cbn [rbind].
  pose proof (zlen_nonneg s). rewrite u16_id by lia. destruct Hs as (Hs & _ & rest & ->).
  eapply (bind_option max bound target st num s (0 :: rest)); eauto.
Qed.

(** The final status. *)
Lemma build_result_final max target m st :
  represents (snd st) m -> pdu_max (snd st) = max -> (fst st = 0 -> m = target) ->
  (zlen (encode target) <= max -> fst st = 0) -> header_of m = header_of target ->
  builds max target (build_result st).
Proof.
  intros HR Hmax Hz Hfit Hh. exists m. unfold build_result.
  cbn [coap_error_val]. destruct (Z.eqb_spec (fst st) 0) as [E0|N]; cbn [negb fst snd].
  - repeat (split; [done|]). split; [|by intros _; apply Hz]. split; [|done].
    intros _. rewrite <- (Hz E0), <- Hmax. apply (encode_fits _ _ HR).
  - repeat (split; [done|]). split; [|done]. split; [done|]. intros Hf. by destruct (N (Hfit Hf)).
Qed.

Lemma build_result_ok max bound target st :
  built max bound target st -> builds max target (build_result st).
Proof. intros (m & HR & Hmax & _ & _ & _ & Hz & Hfit & Hh). by eapply build_result_final. Qed.

(** The payload is set last. *)
Lemma bind_payload {B} max bound target st s junk w (k : Z * coap_pdu -> M E B) Q :
  built max bound target st -> m_payload target = None -> bytes s -> zlen s < 2 ^ 62 ->
  (forall st m, represents (snd st) m -> pdu_max (snd st) = max -> 0 <= fst st ->
     (fst st = 0 -> m = with_payload target (Some s)) ->
     (zlen (encode (with_payload target (Some s))) <= max -> fst st = 0) ->
     header_of m = header_of target -> returns (k st w) Q) ->
  returns (bindM (lift (or_status (fun p => coap_set_payload p (s ++ junk) (zlen s)) st)) k w) Q.
Proof.
  intros (m & HR & Hmax & _ & Hp & Hst & Hz & Hfit & Hh) Hpt Hs Hl HQ.
  pose proof (set_payload_none (snd st) m HR s junk Hs Hp Hl) as H1. unfold sets in H1.
  assert (Hg : zlen (encode target) <= zlen (encode (with_payload target (Some s)))).
  { unfold encode, with_payload, encode_head. cbn [m_options m_payload m_token]. rewrite Hpt. len_lia. }
  rewrite Hmax in H1. destruct (Z.ltb_spec max (zlen (encode (with_payload m (Some s))))) as [Hlt|Hle].
  - eapply bind_lift_eq; [unfold or_status; rewrite H1; done|].
    pose proof (or_insufficient (fst st) Hst). eapply (HQ _ m); cbn [fst snd]; try done; try lia.
    intros Hf. assert (Hz0 : fst st = 0) by (apply Hfit; lia). rewrite (Hz Hz0) in Hlt. lia.
  - apply returns_inv in H1 as ([e' p] & H1 & He & Hr & Hm & _). simpl in He, Hr, Hm. subst e'.
    eapply bind_lift_eq; [unfold or_status; rewrite H1; cbn [rbind coap_error_val]; by rewrite Z.lor_0_r|].
    eapply (HQ _ (with_payload m (Some s))); cbn [fst snd]; try done; try lia.
    intros Hz0. by rewrite (Hz Hz0).
Qed.

(** The steps of a builder. *)
Ltac add_literal :=
  let st := fresh "st" in let Hb := fresh "Hb" in intros st Hb;
  eapply bind_literal; [exact Hb|done|done|by repeat constructor|done|done|];
  clear st Hb.
Ltac add_cstring :=
  let st := fresh "st" in let Hb := fresh "Hb" in intros st Hb;
  eapply bind_string; [exact Hb|done|done|eassumption|eassumption|done|]; clear st Hb.
Ltac add_cik H :=
  let st := fresh "st" in let Hb := fresh "Hb" in intros st Hb; apply bind_gets;
  match goal with |- context [w_cik (after_build ?w ?e)] =>
    change (w_cik (after_build w e)) with (w_cik w) end;
  rewrite H; eapply bind_option; [exact Hb|done|done|done|lia|done|]; clear st Hb.

Section Requests.
Context (pdu : coap_pdu) (Hm : pdu_max pdu = zlen (pdu_buf pdu)) (Hs : 6 <= pdu_max pdu < 2 ^ 62).
Context (w : world E) (r : Z) (e : E).
Context (Hmid : 0 <= w_mid w < 65536) (Hr : libc_rand (w_env w) = (r, e)).

Definition ends_with (target : message) (x : (exo_error * coap_pdu) * world E) : Prop :=
  builds (pdu_max pdu) target (fst x) /\ snd x = after_build w e.

Section WithAlias.
Context (cik junk : list Z) (Hcik : w_cik w = cik ++ junk) (Hck : bytes cik) (Hcl : zlen cik = 40).
Context (ba : nat) (blk alias : list Z).
Context (Ha : w_heap w !! ba = Some blk) (Hal : cstring alias blk) (Halen : zlen alias < 65536).

Lemma build_read :
  returns (exo_build_msg_read pdu (Some ba) w) (ends_with (read_msg (w_mid w) r alias cik)).
Proof.
  unfold exo_build_msg_read. apply (bind_request pdu CC_GET w r e); try done.
  add_literal.
  add_cstring.
  add_cik Hcik.
  intros st Hb. apply ret_M. split; [|done]. eapply build_result_ok, Hb.
Qed.

Lemma build_observe :
  returns (exo_build_msg_observe pdu (Some ba) w) (ends_with (observe_msg (w_mid w) r alias cik)).
Proof.
  unfold exo_build_msg_observe. apply (bind_request pdu CC_GET w r e); try done.
  do 2 add_literal.
  add_cstring.
  add_cik Hcik.
  intros st Hb. apply ret_M. split; [|done]. eapply build_result_ok, Hb.
Qed.

Lemma build_write bv vblk value :
  w_heap w !! bv = Some vblk -> cstring value vblk -> zlen value < 2 ^ 62 ->
  returns (exo_build_msg_write pdu (Some ba) (Some bv) w)
    (ends_with (write_msg (w_mid w) r alias cik value)).
Proof.
  intros Hv Hval Hvlen. unfold exo_build_msg_write. apply (bind_request pdu CC_POST w r e); try done.
  add_literal.
  add_cstring.
  add_cik Hcik.
  intros st Hb. eapply bind_deref; [exact Hv|].
  eapply bind_lift_eq; [exact (strlen_cstring _ _ Hval)|].
  destruct Hval as (Hvb & _ & rest & ->). eapply bind_payload; [exact Hb|done|done|done|].
  clear st Hb. intros st m HR Hmax Hst Hz Hfit Hh. apply ret_M. split; [|done].
  apply (build_result_final _ _ m); done.
Qed.
End WithAlias.

Lemma build_activate bv bm bs vb mb sb vendor model serial :
  w_heap w !! bv = Some vb -> cstring vendor vb -> zlen vendor < 65536 ->
  w_heap w !! bm = Some mb -> cstring model mb -> zlen model < 65536 ->
  w_heap w !! bs = Some sb -> cstring serial sb -> zlen serial < 65536 ->
  returns (exo_build_msg_activate pdu (Some bv) (Some bm) (Some bs) w)
    (ends_with (activate_msg (w_mid w) r vendor model serial)).
Proof.
  intros. unfold exo_build_msg_activate. apply (bind_request pdu CC_POST w r e); try done.
  do 2 add_literal.
  do 3 add_cstring.
  intros st Hb. apply ret_M. split; [|done]. eapply build_result_ok, Hb.
Qed.
End Requests.
End Builders.

(** ** The empty messages *)

Section Empty.
Context (pdu : coap_pdu) (Hm : pdu_max pdu = zlen (pdu_buf pdu)) (Hs : pdu_max pdu < 2 ^ 62).
Context (mid : Z) (Hmid : 0 <= mid < 65536).

(** The header of an empty message of type [t], with its message id. *)
Lemma bind_empty {B} t (k : Z * coap_pdu -> res B) (Q : B -> Prop) :
  4 <= pdu_max pdu -> 0 <= t < 4 ->
  (forall st, fst st = 0 -> represents (snd st) (mk_msg 1 t CC_EMPTY mid [] [] None) ->
     pdu_max (snd st) = pdu_max pdu -> returns (k st) Q) ->
  returns (let* '(_, pdu) := coap_init_pdu pdu in
    let* st := or_status (fun p => coap_set_version p COAP_V1) (0, pdu) in
    let* st := or_status (fun p => coap_set_type p t) st in
    let* st := or_status (fun p => coap_set_code p CC_EMPTY) st in
    let* st := or_status (fun p => coap_set_mid p mid) st in k st) Q.
Proof.
  intros H4 Ht HQ. pose proof (built_head pdu t CC_EMPTY Hm ltac:(lia) Ht ltac:(done)) as Hh.
  apply returns_inv in Hh as (st & Est & Hz & HR & Hmx).
  destruct (coap_init_pdu pdu) as [[e0 p0]|]; [|done]. cbn [rbind] in Est |- *.
  destruct (or_status _ (0, p0)) as [s1|]; [|done]. cbn [rbind] in Est |- *.
  destruct (or_status _ s1) as [s2|]; [|done]. cbn [rbind] in Est |- *. rewrite Est. cbn [rbind].
  eapply returns_bind; [apply or_status_updates, (set_mid_rep _ _ HR _ Hmid)|].
  intros st' (Hz' & HR' & Hmx'). apply HQ; [congruence|exact HR'|congruence].
Qed.

Lemma build_rst token tkl : 0 <= tkl <= 8 -> 4 + tkl <= pdu_max pdu ->
  returns (exo_build_msg_rst pdu mid token tkl) (fun r =>
    fst r = EXO_OK /\ represents (snd r) (rst_msg mid (le_bytes (Z.to_nat tkl) token))).
Proof.
  intros Htkl Hmax. unfold exo_build_msg_rst. apply bind_empty; [lia|done|].
  intros st Hz HR Hmx. pose proof (set_token_rep _ _ HR tkl Htkl token) as Ht. unfold sets in Ht.
  rewrite (proj2 (Z.ltb_ge _ _)) in Ht.
  2: { rewrite Hmx, encode_cons. cbn [with_token m_token m_options m_payload encode_options encode_payload].
       autorewrite with zlen. rewrite zlen_le_bytes. lia. }
  eapply returns_bind; [eapply or_status_updates; exact Ht|].
  intros st' (Hz' & HR' & _). cbn [returns]. unfold build_result. rewrite Hz', Hz. done.
Qed.

Lemma build_ack : 4 <= pdu_max pdu ->
  returns (exo_build_msg_ack pdu mid) (fun r =>
    fst r = EXO_OK /\ represents (snd r) (ack_msg mid) /\ pdu_max (snd r) = pdu_max pdu).
Proof.
  intros Hmax. unfold exo_build_msg_ack. apply bind_empty; [lia|done|].
  intros st Hz HR Hmx. cbn [returns]. unfold build_result. rewrite Hz. done.
Qed.
End Empty.
