(* ===== verification/DtlsRequestProps.v ===== *)
(** * The DTLS example client: its requests and those of the client library

    Two programs of the repository ask the same server for the same things: the
    DTLS example through URLs and libcoap, the client of [src/exosite.c] through
    PicoCoAP.  Their requests agree. *)

From S2P Require Import Prelude Mem CoapDefs CoapMessage Pal ExoDefs ExoBuild ExoBuildFacts DtlsRequest DtlsRequestFacts Dtls DtlsToy DtlsProps.

(** A request of libcoap is the message [m] but for its message id and token. *)
Definition asks (q : request) (m : message) : Prop :=
  q_type q = m_type m /\ q_code q = m_code m /\ q_options q = m_options m /\ q_data q = default [] (m_payload m).

Lemma text_cstring t : forallb (fun c => (0 <? c) && (c <? 256)) t = true -> cstring t (t ++ [0]).
Proof.
  intros Hs. rewrite forallb_forall in Hs.
  apply cstring_app; apply Forall_forall; intros c Hc; apply list_elem_of_In, Hs in Hc; unfold is_byte; lia.
Qed.

(** A URL that is copied and appended to piece by piece, in an array it fits. *)
Lemma url_ok dest base parts texts :
  forallb (fun c => (0 <? c) && (c <? 256)) base = true -> Forall2 cstring texts parts ->
  zlen (base ++ concat texts) < zlen dest ->
  exists dest', (let* d := strcpy dest (base ++ [0]) in strcats d parts) = Ok dest' /\
    cstring (base ++ concat texts) dest'.
Proof.
  intros Hs Hp Hl. pose proof (text_cstring base Hs) as Hc.
  destruct (strcpy_spec dest _ _ Hc) as (d1 & -> & Hs1 & Hl1); [rewrite zlen_app in Hl; zlen_pos; lia|]. cbn [rbind].
  pose proof (strcats_spec parts texts d1 _ Hp Hs1) as H. rewrite Hl1, (proj2 (Z.ltb_lt _ _) Hl) in H.
  destruct H as (d & Hd & Hcs & _). eauto.
Qed.

Section Requests.
Context {E : Type} `{PalLaws E}.
Context {Pdu Ctx : Type} (lib : library Pdu Ctx) `{L : !LibraryLaws lib} (cfg : settings) (fr : frame).
Implicit Types (s : state (Pdu := Pdu) (Ctx := Ctx)).

(** The arrays have the sizes of their declarations. *)
Definition frame_ok : Prop :=
  zlen (f_dest fr) = BUFSIZE /\ zlen (f_path fr) = BUFSIZE /\ zlen (f_query fr) = BUFSIZE /\ zlen (f_tmp fr) = 4.

(** There is memory and a context, whose next message id is [id], and no block
    transfer is under way. *)
Definition can_send s (id : Z) : Prop :=
  b_allocs (rq s) = [] /\ b_flag (rq s) = false /\ zlen (s_token cfg) <= 8 /\
  exists c c', b_ctx (rq s) = Some c /\ new_message_id lib c = (id, c').

(** The request for the segments [paths] and [queries] with [payload]. *)
Lemma make_pdu_ok url m payload s id paths queries :
  frame_ok -> can_send s id -> cstring (url_text paths queries) url -> Forall plain paths -> Forall plain queries ->
  cost (url_options paths queries) <= BUFSIZE ->
  4 + zlen (s_token cfg) + cost (url_options paths queries) + zlen payload + 1 <= capacity ->
  exists p b, make_pdu lib cfg fr url m payload s = Ok (Some p, set_rq b s) /\
    view p = mk_request 0 id (method_code lib m) (s_token cfg) (url_options paths queries) payload.
Proof.
  intros (F1 & F2 & F3 & F4) (Ha & Hf & Ht & c & c' & Hc & Hid) Hurl Hp Hq Hb Hcap.
  assert (Ho : block_options lib m payload (rq s) = []) by (unfold block_options; by rewrite Hf).
  assert (Hd : carried payload (rq s) = payload) by (unfold carried; by rewrite Hf).
  destruct (get_pdu_ok lib url m (s_token cfg) payload (f_path fr) (f_query fr) (f_tmp fr) (rq s) c id c' paths queries)
    as (p & Hg & Hv); rewrite ?Ho, ?app_nil_r; try done; [congruence|zlen_pos; lia|intros _; rewrite Hf; lia|].
  rewrite Ho, app_nil_r, Hd in Hv. exists p. eexists. split; [|exact Hv]. unfold make_pdu. rewrite Hg. reflexivity.
Qed.

Section Alias.
Context (a k : list Z) (Ha : cstring a (s_alias cfg)) (Hk : cstring k (s_cik cfg)) (Hpa : plain a) (Hpk : plain k).
Context (Hfr : frame_ok) (Hurl : zlen a + zlen k + 19 < BUFSIZE).

Lemma plain_1a : plain (lit "1a").
Proof. split; [done|]. repeat constructor; try done; simpl; intuition lia. Qed.

Lemma url_1p_ok : exists url, url_1p (f_dest fr) (s_cik cfg) (s_alias cfg) = Ok url /\ cstring (url_text [lit "1a"; a] [k]) url.
Proof.
  destruct Hfr as (F1 & _).
  destruct (url_ok (f_dest fr) (lit "coap://0.0.0.0/1a/") [s_alias cfg; question; s_cik cfg] [a; lit "?"; k]) as (url & Hu & Hc).
  - reflexivity.
  - constructor; [exact Ha|]. constructor; [by apply (text_cstring (lit "?"))|]. constructor; [exact Hk|constructor].
  - rewrite F1. cbn [concat]. rewrite !zlen_app. change (zlen (lit "coap://0.0.0.0/1a/")) with 18. change (zlen (lit "?")) with 1.
    rewrite zlen_nil. lia.
  - exists url. split; [exact Hu|]. unfold url_text. cbn [join]. cbn [concat] in Hc. rewrite app_nil_r in Hc.
    destruct Hpk as [Hk' _]. destruct k; [done|]. exact Hc.
Qed.

(** The requests of the example as messages. *)
Lemma dtls_requests s id v mid r : can_send s id -> cstring v (s_value cfg) ->
  4 + zlen (s_token cfg) + (zlen a + zlen k + 17) + zlen v + 1 <= capacity ->
  (exists p b, get_pdu_read1p lib cfg fr s = Ok (Some p, set_rq b s) /\ q_id (view p) = id /\
     q_token (view p) = s_token cfg /\ asks (view p) (read_msg mid r a k)) /\
  (exists p b, get_pdu_write1p lib cfg fr s = Ok (Some p, set_rq b s) /\ q_id (view p) = id /\
     q_token (view p) = s_token cfg /\ asks (view p) (write_msg mid r a k v)).
Proof.
  intros Hs Hv Hcap. destruct url_1p_ok as (url & Hu & Hc). pose proof plain_1a.
  assert (Hcost : cost (url_options [lit "1a"; a] [k]) = zlen a + zlen k + 17).
  { unfold url_options. cbn [List.map app cost fold_right snd]. change (zlen (lit "1a")) with 2. lia. }
  assert (Hpaths : Forall plain [lit "1a"; a]) by (constructor; [done|]; constructor; [done|constructor]).
  assert (Hqueries : Forall plain [k]) by (constructor; [done|constructor]).
  zlen_pos. split.
  - destruct (make_pdu_ok url COAP_REQUEST_GET [] s id [lit "1a"; a] [k]) as (p & b & Hm & Hview); try done;
      [lia|rewrite zlen_nil; lia|].
    exists p, b. unfold get_pdu_read1p. rewrite Hu. cbn [rbind]. rewrite Hm, Hview, law_method. by repeat split.
  - destruct (make_pdu_ok url COAP_REQUEST_POST v s id [lit "1a"; a] [k]) as (p & b & Hm & Hview); try done; [lia|lia|].
    exists p, b. unfold get_pdu_write1p. rewrite Hu. cbn [rbind]. rewrite (strlen_cstring _ _ Hv). cbn [rbind].
    replace (take (Z.to_nat (zlen v)) (s_value cfg)) with v.
    2: { destruct Hv as (_ & _ & x & ->). unfold zlen. by rewrite Nat2Z.id, take_app_length. }
    rewrite Hm, Hview, law_method. by repeat split.
Qed.

(** C37. The DTLS example asks for what the client library asks for: the read and the
    write it makes have the same type, code, options and payload as the messages
    that [exo_build_msg_read] and [exo_build_msg_write] leave in their packets, in
    any client with the same alias, CIK and value; only the message id and the token
    are its own.  Conditions: the alias and the CIK of 40 characters stand for
    themselves in a URL, the URL fits its array, there are memory and a context, the
    requests fit a packet of libcoap and the buffer of the library, and the example
    has not begun a block transfer: [block_flag] is never cleared, and afterwards
    every request carries a Block option that those of the library do not have. *)
Theorem dtls_requests_match s id v (w : world E) pdu junk ba ablk bv vblk r e :
  can_send s id -> cstring v (s_value cfg) ->
  4 + zlen (s_token cfg) + (zlen a + zlen k + 17) + zlen v + 1 <= capacity ->
  zlen k = 40 -> w_cik w = k ++ junk -> w_heap w !! ba = Some ablk -> cstring a ablk ->
  w_heap w !! bv = Some vblk -> cstring v vblk -> zlen v < 2 ^ 62 ->
  0 <= w_mid w < 65536 -> libc_rand (w_env w) = (r, e) ->
  pdu_max pdu = zlen (pdu_buf pdu) -> 6 <= pdu_max pdu < 2 ^ 62 ->
  zlen (encode (read_msg (w_mid w) r a k)) <= pdu_max pdu -> zlen (encode (write_msg (w_mid w) r a k v)) <= pdu_max pdu ->
  (exists p b p' w' m,
     get_pdu_read1p lib cfg fr s = Ok (Some p, set_rq b s) /\
     exo_build_msg_read pdu (Some ba) w = Ok ((EXO_OK, p'), w') /\ represents p' m /\ asks (view p) m /\
     q_id (view p) = id /\ q_token (view p) = s_token cfg) /\
  (exists p b p' w' m,
     get_pdu_write1p lib cfg fr s = Ok (Some p, set_rq b s) /\
     exo_build_msg_write pdu (Some ba) (Some bv) w = Ok ((EXO_OK, p'), w') /\ represents p' m /\ asks (view p) m /\
     q_id (view p) = id /\ q_token (view p) = s_token cfg).
Proof.
  intros Hs Hv Hcap Hk40 Hcik Hba Hab Hbv Hvb Hvl Hmid Hr Hm Hsz Hfr1 Hfr2.
  assert (Hkb : bytes k) by (by destruct Hk).
  assert (Hal : zlen a < 65536) by (unfold BUFSIZE in Hurl; zlen_pos; lia).
  destruct (dtls_requests s id v (w_mid w) r Hs Hv Hcap) as [(p1 & b1 & G1 & I1 & T1 & A1) (p2 & b2 & G2 & I2 & T2 & A2)].
  split.
  - pose proof (build_read pdu Hm Hsz w r e Hmid Hr k junk Hcik Hkb Hk40 ba ablk a Hba Hab Hal) as Hb.
    apply returns_inv in Hb as ([[err q] w'] & Eb & (m & HR & _ & _ & Hiff & Hok) & _). simpl in *.
    assert (err = EXO_OK) as -> by (by apply Hiff). rewrite (Hok eq_refl) in HR. by exists p1, b1, q, w', (read_msg (w_mid w) r a k).
  - pose proof (build_write pdu Hm Hsz w r e Hmid Hr k junk Hcik Hkb Hk40 ba ablk a Hba Hab Hal bv vblk v Hbv Hvb Hvl) as Hb.
    apply returns_inv in Hb as ([[err q] w'] & Eb & (m & HR & _ & _ & Hiff & Hok) & _). simpl in *.
    assert (err = EXO_OK) as -> by (by apply Hiff). rewrite (Hok eq_refl) in HR. by exists p2, b2, q, w', (write_msg (w_mid w) r a k v).
Qed.
End Alias.

(** The activation of the DTLS example is the one that [exo_build_msg_activate]
    builds. *)
Theorem dtls_activation_matches s id vendor model serial vb mb sb mid r :
  frame_ok -> can_send s id -> cstring vendor vb -> cstring model mb -> cstring serial sb ->
  plain vendor -> plain model -> plain serial ->
  zlen vendor + zlen model + zlen serial + 42 <= BUFSIZE ->
  4 + zlen (s_token cfg) + (zlen vendor + zlen model + zlen serial + 42) + 1 <= capacity ->
  exists p b, get_pdu_activate lib cfg fr vb mb sb s = Ok (Some p, set_rq b s) /\ q_id (view p) = id /\
    q_token (view p) = s_token cfg /\ asks (view p) (activate_msg mid r vendor model serial).
Proof.
  intros Hfr Hs Cv Cm Cs Hpv Hpm Hps Hfit Hcap. pose proof Hfr as (F1 & _).
  destruct (url_ok (f_dest fr) (lit "coap://0.0.0.0/provision/activate/") [vb; slash; mb; slash; sb]
    [vendor; lit "/"; model; lit "/"; serial]) as (url & Hu & Hc).
  - reflexivity.
  - repeat (constructor; [first [eassumption|by apply (text_cstring (lit "/"))]|]). constructor.
  - rewrite F1. cbn [concat]. rewrite !zlen_app. change (zlen (lit "coap://0.0.0.0/provision/activate/")) with 34.
    change (zlen (lit "/")) with 1. rewrite zlen_nil. lia.
  - assert (Hplain : Forall plain [lit "provision"; lit "activate"; vendor; model; serial]).
    { assert (forall t, forallb (fun c => (97 <=? c) && (c <=? 122)) t = true -> t <> [] -> plain t).
      { intros t Hstr Hne. split; [done|]. rewrite forallb_forall in Hstr. apply Forall_forall. intros c Hc'.
        apply list_elem_of_In, Hstr in Hc'. unfold plain_char, is_byte. simpl. intuition lia. }
      repeat (constructor; [auto|]). constructor. }
    destruct (make_pdu_ok url COAP_REQUEST_POST [] s id [lit "provision"; lit "activate"; vendor; model; serial] [])
      as (p & b & Hm & Hview); try done; zlen_pos.
    + unfold url_text. cbn [join]. rewrite app_nil_r. cbn [concat] in Hc. rewrite app_nil_r in Hc. exact Hc.
    + unfold url_options. cbn [List.map app cost fold_right snd]. change (zlen (lit "provision")) with 9. change (zlen (lit "activate")) with 8. change (zlen (@nil Z)) with 0. lia.
    + unfold url_options. cbn [List.map app cost fold_right snd]. change (zlen (lit "provision")) with 9. change (zlen (lit "activate")) with 8. change (zlen (@nil Z)) with 0. lia.
    + exists p, b. unfold get_pdu_activate, url_activate. rewrite Hu. cbn [rbind]. rewrite Hm, Hview, law_method. by repeat split.
Qed.
End Requests.

(** ** Witnesses *)

Lemma toy_frame_ok : frame_ok toy_frame.
Proof. repeat split. Qed.

Lemma toy_can_send cfg : zlen (s_token cfg) <= 8 -> can_send toy_library cfg (toy_state false 0 None 6) 7.
Proof. intros Ht. split; [reflexivity|]. split; [reflexivity|]. split; [exact Ht|]. exists 6, 7. split; reflexivity. Qed.

Ltac text_eval := first [ apply text_cstring; reflexivity | split; [discriminate|]; repeat constructor; try discriminate; simpl; intuition lia ].

(** A CIK, and the client of the library with the same CIK, alias and value. *)
Definition shared_cik : list Z := lit "a32c85ba9dda45823be416246cf8b433baa068d7".

Definition shared_settings : settings :=
  mk_settings (lit "temp" ++ [0]) (shared_cik ++ [0]) (lit "56" ++ [0]) [0] [0] [0] [0] [] [9].

Definition shared_client : world Posix.os :=
  mk_world (shared_cik ++ [0]) None None None 7 EXO_STATE_GOOD [lit "temp" ++ [0]; lit "56" ++ [0]] []
    (Posix.mk_os [] [] [] [(100, 0)] [100; 200] None true 1000 0 None).

Definition shared_pdu : coap_pdu := mk_pdu 4096 (List.repeat 0 576) 0 576 None.

Lemma dtls_requests_match_witness :
  exists p b p' w' m,
    get_pdu_read1p toy_library shared_settings toy_frame (toy_state false 0 None 6) = Ok (Some p, b) /\
    exo_build_msg_read shared_pdu (Some 0%nat) shared_client = Ok ((EXO_OK, p'), w') /\ represents p' m /\ asks p m.
Proof.
  destruct (dtls_requests_match (E := Posix.os) toy_library shared_settings toy_frame (lit "temp") shared_cik) with
    (s := toy_state false 0 None 6) (id := 7) (v := lit "56") (w := shared_client) (pdu := shared_pdu) (junk := [0])
    (ba := 0%nat) (ablk := lit "temp" ++ [0]) (bv := 1%nat) (vblk := lit "56" ++ [0]) (r := 100)
    (e := Posix.mk_os [] [] [] [(100, 0)] [200] None true 1000 0 None)
    as [(p & b & p' & w' & m & Hg & Hb & HR & Ha & _) _].
  all: lazymatch goal with |- exists _, _ => idtac | |- frame_ok _ => exact toy_frame_ok | |- cstring _ _ => text_eval
       | |- plain _ => text_eval | |- can_send _ _ _ _ => apply toy_can_send; vm_compute; discriminate
       | |- _ <= _ => vm_compute; discriminate | |- _ < _ => reflexivity
       | |- _ = _ => reflexivity | |- 0 <= _ < _ => split; [vm_compute; discriminate|reflexivity]
       | |- 6 <= _ < _ => split; [vm_compute; discriminate|reflexivity] end.
  exists p. eexists. exists p', w', m. split; [exact Hg|]. split; [exact Hb|]. split; [exact HR|exact Ha].
Defined.

Lemma dtls_activation_matches_witness :
  exists p b, get_pdu_activate toy_library toy_settings toy_frame (lit "vnd" ++ [0]) (lit "mdl" ++ [0]) (lit "001" ++ [0])
      (toy_state false 0 None 6) = Ok (Some p, b) /\ asks p (activate_msg 1 2 (lit "vnd") (lit "mdl") (lit "001")).
Proof.
  destruct (dtls_activation_matches toy_library toy_settings toy_frame (toy_state false 0 None 6) 7
    (lit "vnd") (lit "mdl") (lit "001") (lit "vnd" ++ [0]) (lit "mdl" ++ [0]) (lit "001" ++ [0]) 1 2)
    as (p & b & Hp & _ & _ & Ha).
  - exact toy_frame_ok.
  - apply toy_can_send. vm_compute. discriminate.
  - text_eval.
  - text_eval.
  - text_eval.
  - text_eval.
  - text_eval.
  - text_eval.
  - vm_compute. discriminate.
  - vm_compute. discriminate.
  - exists p. eexists. split; [exact Hp|exact Ha].
Defined.
