(* ===== verification/DtlsDownload.v ===== *)
(** * The DTLS example client: a download block by block

    A file that the server sends in blocks: the handler of responses appends each
    block to what it has, asks for the next one and saves the whole when the last
    one arrives. *)

From S2P Require Import Prelude Mem CoapDefs CoapMessage DtlsRequest DtlsRequestFacts Dtls DtlsToy DtlsProps DtlsRequestProps.

Section Download.
Context {Pdu Ctx : Type} (lib : library Pdu Ctx) `{L : !LibraryLaws lib} (cfg : settings) (fr : frame).
Context (connected : Z) (parse : list Z -> option Pdu).
Implicit Types (s : state (Pdu := Pdu) (Ctx := Ctx)) (b : builder (Ctx := Ctx)).

(** What is downloaded. *)
Context (vendor model content_id cik : list Z).
Context (Hv : cstring vendor (s_vendor cfg)) (Hm : cstring model (s_model cfg)).
Context (Hc : cstring content_id (s_content_id cfg)) (Hk : cstring cik (s_client_model_cik cfg)).
Context (Pv : plain vendor) (Pm : plain model) (Pc : plain content_id) (Pk : plain cik).
Context (Hfr : frame_ok fr) (Htok : zlen (s_token cfg) <= 8).

Definition content_path : list (list Z) := [lit "provision"; lit "download"; vendor; model; content_id].
Definition content_size : Z := zlen vendor + zlen model + zlen content_id + zlen cik + 47.
Context (Hfit : content_size <= BUFSIZE) (Hcap : 4 + zlen (s_token cfg) + content_size + 9 <= capacity).

Lemma content_cost : cost (url_options content_path [cik]) = content_size.
Proof.
  unfold url_options, content_path, content_size. cbn [List.map app cost fold_right snd].
  change (zlen (lit "provision")) with 9. change (zlen (lit "download")) with 8. lia.
Qed.

Lemma content_plain : Forall plain content_path /\ Forall plain [cik].
Proof.
  assert (Ht : forall t, forallb (fun c => (97 <=? c) && (c <=? 122)) t = true -> t <> [] -> plain t).
  { intros t Ht Hne. split; [done|]. rewrite forallb_forall in Ht. apply Forall_forall. intros c Hc'.
    apply list_elem_of_In, Ht in Hc'. unfold plain_char, is_byte. simpl. intuition lia. }
  split; repeat (constructor; [auto|]); constructor.
Qed.

Lemma url_download_ok : exists url,
  url_download (f_dest fr) (s_vendor cfg) (s_model cfg) (s_content_id cfg) (s_client_model_cik cfg) = Ok url /\
  cstring (url_text content_path [cik]) url.
Proof.
  destruct Hfr as (F1 & _). unfold content_size in Hfit.
  destruct (url_ok (f_dest fr) (lit "coap://0.0.0.0/provision/download/")
    [s_vendor cfg; slash; s_model cfg; slash; s_content_id cfg; question; s_client_model_cik cfg]
    [vendor; lit "/"; model; lit "/"; content_id; lit "?"; cik]) as (url & Hu & Hcs).
  - reflexivity.
  - repeat (constructor; [first [eassumption|by apply (text_cstring (lit "/"))|by apply (text_cstring (lit "?"))]|]). constructor.
  - rewrite F1. cbn [concat]. rewrite !zlen_app. change (zlen (lit "coap://0.0.0.0/provision/download/")) with 34.
    change (zlen (lit "/")) with 1. change (zlen (lit "?")) with 1. change (zlen (@nil Z)) with 0. lia.
  - exists url. split; [exact Hu|]. unfold url_text, content_path. cbn [join]. cbn [concat] in Hcs.
    rewrite app_nil_r in Hcs. destruct Pk as [Hne _].
    replace (match cik with [] => [] | _ :: _ => lit "?" ++ cik end) with (lit "?" ++ cik) by (by destruct cik).
    replace (lit "coap://0.0.0.0/" ++ (lit "provision" ++ SLASH :: lit "download" ++ SLASH :: vendor ++ SLASH :: model ++ SLASH :: content_id) ++ lit "?" ++ cik)
      with (lit "coap://0.0.0.0/provision/download/" ++ vendor ++ lit "/" ++ model ++ lit "/" ++ content_id ++ lit "?" ++ cik); [done|].
    change (lit "coap://0.0.0.0/provision/download/") with (lit "coap://0.0.0.0/" ++ lit "provision" ++ SLASH :: lit "download" ++ [SLASH]).
    change (lit "/") with [SLASH]. repeat first [rewrite <- app_assoc | progress cbn [app]]. done.
Qed.

(** The request for block [k] in blocks of the size exponent [szx]. *)
Definition asks_block (szx k : Z) (p : Pdu) : Prop :=
  q_code (view p) = 1 /\ q_token (view p) = s_token cfg /\ q_data (view p) = [] /\
  q_options (view p) = url_options content_path [cik] ++ [(23, encode_var_bytes lib (k * 16 + szx))].

(** Requests can be made: the next block is [k]. *)
Definition block_ready (szx k : Z) b : Prop :=
  b_allocs b = [] /\ b_szx b = szx /\ b_num b = k /\ exists c, b_ctx b = Some c.

Lemma block_value_get szx k b : b_szx b = szx -> b_num b = k -> 0 <= szx <= 6 -> 0 <= k < 2 ^ 28 ->
  block_value lib [] b = k * 16 + szx.
Proof.
  intros Hs Hn Hszx Hk'. unfold block_value. rewrite Hs, Hn, law_more_blocks by lia. change (zlen (@nil Z)) with 0.
  rewrite (proj2 (Z.ltb_ge _ 0)) by nia. rewrite Z.lor_0_r.
  assert (u32 (Z.shiftl k 4) = Z.shiftl k 4) as -> by (apply Z.mod_small; rewrite Z.shiftl_mul_pow2 by lia; lia).
  by rewrite shiftl_lor_add by lia.
Qed.

Lemma next_request szx k s : block_ready szx k (rq s) -> 0 <= szx <= 6 -> 0 <= k < 2 ^ 28 ->
  exists p b', get_pdu_download_content lib cfg fr s = Ok (Some p, set_rq b' s) /\ asks_block szx k p /\ block_ready szx k b'.
Proof.
  intros (Ha & Hs & Hn & c & Hctx) Hszx Hk'. destruct url_download_ok as (url & Hu & Hcs).
  destruct content_plain as [P1 P2]. destruct Hfr as (F1 & F2 & F3 & F4).
  destruct (new_message_id lib c) as [id c'] eqn:Hid. set (b := b_set_block true (b_num (rq s)) (rq s)).
  assert (Hbv : block_value lib [] b = k * 16 + szx) by (by apply block_value_get).
  assert (Ho : block_options lib COAP_REQUEST_GET [] b = [(23, encode_var_bytes lib (k * 16 + szx))]).
  { unfold block_options. cbn [b b_set_block b_flag]. by rewrite decide_True, Hbv by done. }
  assert (Hlen : zlen (encode_var_bytes lib (k * 16 + szx)) <= 4) by (apply law_var_bytes; lia).
  destruct (get_pdu_ok lib url COAP_REQUEST_GET (s_token cfg) [] (f_path fr) (f_query fr) (f_tmp fr) b c id c' content_path [cik])
    as (p & Hg & Hview); try done; rewrite ?Ho, ?cost_app, ?content_cost; cbn [cost fold_right snd]; try lia.
  - intros _. cbn [b b_set_block b_szx]. lia.
  - exists p. eexists. split; [|split].
    + unfold get_pdu_download_content. rewrite Hu. cbn [rbind]. unfold make_pdu.
      change (rq (set_block true (b_num (rq s)) s)) with b. rewrite Hg. cbn [rbind]. reflexivity.
    + unfold asks_block. rewrite Hview, Ho, law_method. cbn [q_code q_token q_data q_options]. repeat split.
      unfold carried. cbn [b b_set_block b_flag]. by rewrite drop_nil, take_nil.
    + repeat split; [done..|]. by exists c'.
Qed.

(** ** Blocks *)

(** A response with a block of the content: [d] is its data, text without NUL that
    is terminated in memory, and [more] says whether other blocks follow. *)
Definition block_response (r : Pdu) (d : list Z) (more : bool) : Prop :=
  check_token lib cfg r = true /\ hdr_code lib r = COAP_RESPONSE_CODE lib 205 /\
  (exists o, get_block lib r = Some o /\ block_more lib o = more) /\
  exists mem, get_data lib r = Some (zlen d, mem) /\ cstring d mem.

(** The text [t] has been downloaded, in an array of [room] bytes. *)
Definition downloaded (t : list Z) (room : Z) s : Prop :=
  cstring t (download_content s) /\ zlen (download_content s) = room /\ download_size s = zlen t.

Lemma append_ok r d more t room s : block_response r d more -> cstring t (download_content s) ->
  zlen (download_content s) = room -> zlen (t ++ d) < room ->
  exists c, append_data lib r s = Ok (set_download c (download_size s) (saved s) s) /\ cstring (t ++ d) c /\ zlen c = room.
Proof.
  intros (_ & _ & _ & mem & Hd & Hmem) Ht Hr Hl. unfold append_data. rewrite Hd.
  pose proof (strcat_spec (download_content s) t mem d Ht Hmem) as Hs. rewrite Hr in Hs. rewrite zlen_app in Hl.
  rewrite (proj2 (Z.ltb_lt _ _) Hl) in Hs. destruct Hs as (c & Hsc & Hc' & Hlc). exists c. rewrite Hsc. split; [done|]. split; [done|congruence].
Qed.

(** A block with others behind it is appended and the next one is asked for. *)
Lemma block_more_handled szx k r d t room s :
  block_response r d true -> downloaded t room s -> zlen (t ++ d) < room ->
  block_ready szx k (rq s) -> 0 <= szx <= 6 -> 0 <= k < 2 ^ 28 - 1 ->
  exists s' p, message_handler lib cfg fr r s = Ok s' /\ downloaded (t ++ d) room s' /\
    block_ready szx (k + 1) (rq s') /\ written s' = written s ++ [(p, p)] /\ asks_block szx (k + 1) p /\ disk s' = disk s.
Proof.
  intros Hr (Ht & Hroom & Hsz) Hl Hb Hszx Hk'. pose proof Hr as (Htk & Hcode & (o & Hgb & Hmore) & mem & Hd & _).
  unfold message_handler. rewrite Htk. cbn [negb]. rewrite Hcode, Z.eqb_refl, Hgb, Hmore, Hd.
  match goal with |- context [append_data lib r ?x] => set (s0 := x) end.
  destruct (append_ok r d true t room s0 Hr Ht Hroom Hl) as (c & -> & Hc' & Hlc). cbn [rbind]. unfold next_block, SET_ACK_TIMESTAMP.
  match goal with |- context [time ?x] => destruct (time_keeps x) as (t1 & c1 & ->) end.
  match goal with |- context [get_pdu_download_content lib cfg fr ?x] => set (s1 := x) end.
  assert (Hb1 : block_ready szx (k + 1) (rq s1)).
  { destruct Hb as (B1 & B2 & B3 & B4). unfold s1. cbn. repeat split; try done. rewrite B3. apply Z.mod_small. lia. }
  destruct (next_request szx (k + 1) s1 Hb1 Hszx ltac:(lia)) as (p & b' & -> & Hp & Hb').
  cbn [rbind set_sent sent_pdu dtls_write]. unfold SET_SEND_TIMESTAMP.
  match goal with |- context [time ?x] => destruct (time_keeps x) as (t2 & c2 & ->) end.
  eexists. exists p. split; [reflexivity|]. split; [|split; [exact Hb'|split; [reflexivity|by split]]].
  split; [exact Hc'|]. split; [exact Hlc|]. cbn. rewrite zlen_app. lia.
Qed.

(** What [fwrite] leaves of the bytes [whole] in the file. *)
Definition in_file (whole : list Z) s : list Z :=
  match disk s with Some n :: _ => take n whole | _ => whole end.

(** The last block is appended and everything is saved, if the file can be opened. *)
Lemma last_block_handled r d t room s : block_response r d false -> downloaded t room s -> zlen (t ++ d) < room ->
  (head (disk s) <> Some None -> exists s', message_handler lib cfg fr r s = Ok s' /\
     saved s' = Some (in_file (t ++ d) s) /\ ready_to_recv s' = false /\ written s' = written s) /\
  (head (disk s) = Some None -> message_handler lib cfg fr r s = Fault NullPointer).
Proof.
  intros Hr (Ht & Hroom & Hsz) Hl. pose proof Hr as (Htk & Hcode & (o & Hgb & Hmore) & mem & Hd & _).
  unfold message_handler. rewrite Htk. cbn [negb]. rewrite Hcode, Z.eqb_refl, Hgb, Hmore, Hd.
  match goal with |- context [append_data lib r ?x] => set (s0 := x) end.
  destruct (append_ok r d false t room s0 Hr Ht Hroom Hl) as (c & -> & Hc' & Hlc). cbn [rbind].
  unfold save_file, in_file. cbn [set_download download_content download_size disk].
  change (disk s0) with (disk s). destruct Hc' as (_ & _ & rest & ->).
  assert (Hload : load_bytes ((t ++ d) ++ 0 :: rest) 0 (download_size s0) = Ok (t ++ d))
    by (apply load_bytes_prefix; cbn; rewrite zlen_app; lia).
  destruct (disk s) as [|[n|] ds]; (split; [intros Hno|intros Hno]); try done; rewrite Hload; cbn [rbind];
    (eexists; split; [reflexivity|by repeat split]).
Qed.

(** The numbers [k], [k + 1], ... *)
Fixpoint numbers (k : Z) (n : nat) : list Z := match n with O => [] | S n' => k :: numbers (k + 1) n' end.

(** The data that tinydtls hands over is a block response. *)
Definition block_data_of (data d : list Z) (more : bool) : Prop :=
  exists r, parse data = Some r /\ block_response r d more.

(** C38. A download in blocks asks for every block once, in order, and writes exactly
    their concatenation to the file: from a state that has [t] and has asked for
    block [k], the responses [ds], which say that more follows, and [last], which
    does not, lead to requests for the blocks [k + 1] to [k + length ds] and, if the
    file can be opened, to a file with [t], the data of [ds] and that of [last] (cut
    off where the disk is full: the result of [fwrite] is not looked at), after which
    the transfer is over; if the file cannot be opened the code writes to a null
    stream.  Conditions: the data is text without NUL, because it is put together
    with [strcat], and fits the array; the vendor, model, content id and CIK are
    names that stand for themselves in a URL; the URL fits its array and the request
    a packet; there is memory; the size exponent is at most 6 and the block numbers
    stay below 2^28. *)
Theorem download_reassembled szx room ds last : forall datas lastdata k t s,
  Forall2 (fun data d => block_data_of data d true) datas ds -> block_data_of lastdata last false ->
  downloaded t room s -> zlen (t ++ concat ds ++ last) < room -> block_ready szx k (rq s) ->
  0 <= szx <= 6 -> 0 <= k -> k + Z.of_nat (length ds) < 2 ^ 28 ->
  let run := dispatches lib cfg fr connected parse (List.map Read (datas ++ [lastdata])) s in
  (head (disk s) <> Some None -> exists s' ps, run = Ok s' /\
     saved s' = Some (in_file (t ++ concat ds ++ last) s) /\ ready_to_recv s' = false /\
     written s' = written s ++ List.map (fun p => (p, p)) ps /\
     Forall2 (asks_block szx) (numbers (k + 1) (length ds)) ps) /\
  (head (disk s) = Some None -> run = Fault NullPointer).
Proof.
  induction ds as [|d ds IH]; intros datas lastdata k t s Hds Hlast Ht Hl Hb Hszx Hk' Hn;
    inversion Hds as [|data ? datas' ? (r & Hp & Hr) Hds']; subst; cbn [app List.map dispatches dispatch concat].
  - destruct Hlast as (r & Hp & Hr). destruct (last_block_handled r last t room s Hr Ht Hl) as (Hopen & Hfail).
    unfold read_from_server. rewrite Hp. split; intros Hd.
    + destruct (Hopen Hd) as (s' & Hs & Hsv & Hrd & Hw). exists s', []. rewrite Hs. cbn [rbind List.map].
      rewrite app_nil_r. by repeat split.
    + by rewrite (Hfail Hd).
  - cbn [concat length] in Hl, Hn. rewrite <- app_assoc in Hl.
    destruct (block_more_handled szx k r d t room s Hr Ht) as (s1 & p & Hs & Ht1 & Hb1 & Hw1 & Hp1 & Hdk);
      [rewrite !zlen_app in *; zlen_pos; lia|done|done|lia|].
    destruct (IH datas' lastdata (k + 1) (t ++ d) s1 Hds' Hlast Ht1) as (Hopen & Hfail);
      [by rewrite <- app_assoc|done|done|lia|lia|].
    unfold in_file in *. rewrite Hdk in Hopen, Hfail. unfold read_from_server. rewrite Hp, Hs. cbn [rbind].
    split; [|exact Hfail]. intros Hd. destruct (Hopen Hd) as (s' & ps & Hrun & Hsv & Hrd & Hw & Hps).
    exists s', (p :: ps). split; [exact Hrun|].
    split; [by rewrite Hsv, <- !app_assoc|]. split; [done|]. split; [by rewrite Hw, Hw1, <- app_assoc|].
    constructor; [exact Hp1|exact Hps].
Qed.
End Download.

(** ** Witness *)

Definition toy_content : settings :=
  mk_settings [0] [0] [0] (lit "vnd" ++ [0]) (lit "mdl" ++ [0]) (lit "fw" ++ [0]) (lit "key" ++ [0]) [] [9].

(** A block on the wire: 1 when others follow, and its text. *)
Definition toy_block (data : list Z) : option request :=
  match data with
  | more :: text => Some (mk_request 2 0 69 [9] [(23, [8 * more])] text)
  | [] => None
  end.

Definition toy_download : state (Pdu := request) :=
  mk_state true true 1 0 None 1 None (mk_builder (mk_uri [] []) (Some 6) true 0 2 [] None) 0
    (0 :: List.repeat 170 63) 0 None [0; 10; 20; 30; 40] [] [] [] [].

Lemma download_reassembled_witness : exists s' p,
  dispatches toy_library toy_content toy_frame 1 toy_block [Read (1 :: lit "one "); Read (0 :: lit "two")] toy_download = Ok s' /\
  saved s' = Some (lit "one two") /\ written s' = [(p, p)] /\
  q_options p = [(11, lit "provision"); (11, lit "download"); (11, lit "vnd"); (11, lit "mdl"); (11, lit "fw"); (15, lit "key");
                 (23, [0; 0; 0; 18])].
Proof.
  destruct (download_reassembled toy_library toy_content toy_frame 1 toy_block (lit "vnd") (lit "mdl") (lit "fw") (lit "key")) with
    (szx := 2) (room := 64) (ds := [lit "one "]) (last := lit "two") (datas := [1 :: lit "one "]) (lastdata := 0 :: lit "two")
    (k := 0) (t := @nil Z) (s := toy_download) as (Hopen & _).
  all: lazymatch goal with |- exists _, _ => idtac | |- frame_ok _ => exact toy_frame_ok | |- cstring _ _ => text_eval
       | |- plain _ => text_eval | |- _ <= _ => vm_compute; discriminate | |- _ < _ => reflexivity
       | |- 0 <= _ <= _ => split; vm_compute; discriminate | |- _ => idtac end.
  - constructor; [|constructor]. eexists. split; [reflexivity|]. split; [reflexivity|]. split; [reflexivity|].
    split; [eexists; split; reflexivity|]. eexists. split; [reflexivity|text_eval].
  - eexists. split; [reflexivity|]. split; [reflexivity|]. split; [reflexivity|].
    split; [eexists; split; reflexivity|]. eexists. split; [reflexivity|text_eval].
  - split; [apply (cstring_app [] (List.repeat 170 63)); constructor|]. split; reflexivity.
  - split; [reflexivity|]. split; [reflexivity|]. split; [reflexivity|]. eexists. reflexivity.
  - destruct Hopen as (s' & ps & Hrun & Hsv & _ & Hw & Hps); [discriminate|].
    inversion Hps as [|? p ? ? (_ & _ & _ & Ho) Hrest]; subst. inversion Hrest; subst.
    exists s', p. split; [exact Hrun|]. split; [exact Hsv|]. split; [exact Hw|exact Ho].
Defined.

(** Data with a NUL is cut there, while its whole length is counted: the file holds
    whatever is behind the text in the array. *)
Example binary_download_corrupted :
  match dispatches toy_library toy_content toy_frame 1 toy_block [Read [0; 1; 0; 2]] toy_download with
  | Ok s => saved s
  | Fault _ => None
  end = Some [1; 0; 170].
Proof. vm_compute. reflexivity. Qed.
