(* ===== verification/ExoSpec.v ===== *)
(** * The Exosite client: the abstract life of a request

    The contract [exo_operate] keeps with its caller, without packets: a request
    moves along the transitions [op_step], bytes outside the value buffers never
    change, and the device state only ever becomes good.  [advances] is what any
    part of a call of [exo_operate] may do to the state of the client. *)

From stdpp Require Import relations.
From S2P Require Import Prelude Mem CoapDefs Pal ExoDefs.

(** ** Values of the C types *)

Definition is_u16 (z : Z) : Prop := 0 <= z < 65536.
Definition is_u32 (z : Z) : Prop := 0 <= z < 2 ^ 32.
Definition is_u64 (z : Z) : Prop := 0 <= z < 2 ^ 64.

(** Every field of a request holds a value of the type [exosite.h] gives it. *)
Record op_typed (o : exo_op) : Prop := mk_op_typed {
  ty_value_max : is_u64 (op_value_max o);
  ty_mid : is_u16 (op_mid o);
  ty_obs_seq : is_u32 (op_obs_seq o);
  ty_tkl : is_byte (op_tkl o);
  ty_token : is_u64 (op_token o);
  ty_timeout : is_u64 (op_timeout o);
  ty_retries : is_byte (op_retries o)
}.

Lemma u16_typed z : is_u16 (u16 z).
Proof. apply Z.mod_pos_bound. lia. Qed.

Lemma u64_typed z : is_u64 (u64 z).
Proof. apply Z.mod_pos_bound. lia. Qed.

(** ** Transitions of one request

    The request occupies the slot [slot] of the array; only slot 0 is used for
    activations the library starts itself. *)

Definition in_flight (o : exo_op) : Prop :=
  op_state o = EXO_REQUEST_PENDING \/ op_state o = EXO_REQUEST_SUBSCRIBED.

Definition retransmitted (t : exo_request_type) : Prop :=
  t = EXO_READ \/ t = EXO_WRITE \/ t = EXO_ACTIVATE.

Inductive op_step (slot : nat) (o : exo_op) : exo_op -> Prop :=
| step_send mid token timeout :
    is_u16 mid -> is_u64 token -> is_u64 timeout ->
    op_state o = EXO_REQUEST_NEW -> op_type o <> EXO_NULL ->
    op_step slot o (op_set_token token (op_set_mid mid (op_set_timeout timeout
      (op_set_state EXO_REQUEST_PENDING o))))
| step_retransmit timeout :
    is_u64 timeout -> in_flight o -> retransmitted (op_type o) -> op_retries o < COAP_MAX_RETRANSMIT ->
    op_step slot o (op_set_timeout timeout (op_set_retries (u8 (op_retries o + 1)) o))
| step_give_up :
    in_flight o -> retransmitted (op_type o) -> COAP_MAX_RETRANSMIT <= op_retries o ->
    op_step slot o (op_set_state EXO_REQUEST_ERROR o)
| step_renew :
    in_flight o -> op_type o = EXO_SUBSCRIBE -> op_step slot o (op_set_state EXO_REQUEST_NEW o)
| step_acked :
    op_state o = EXO_REQUEST_SUB_ACK -> op_step slot o (op_set_state EXO_REQUEST_SUBSCRIBED o)
| step_acked_new :
    op_state o = EXO_REQUEST_SUB_ACK_NEW -> op_step slot o (op_set_state EXO_REQUEST_SUCCESS o)
| step_notified mid timeout :
    is_u16 mid -> is_u64 timeout -> op_state o = EXO_REQUEST_SUBSCRIBED ->
    op_step slot o (op_set_timeout timeout (op_set_state EXO_REQUEST_SUB_ACK (op_set_mid mid o)))
| step_notified_new mid seq timeout :
    is_u16 mid -> is_u32 seq -> is_u64 timeout -> op_state o = EXO_REQUEST_SUBSCRIBED -> op_obs_seq o <> seq ->
    op_step slot o (op_set_timeout timeout (op_set_obs_seq seq
      (op_set_state EXO_REQUEST_SUB_ACK_NEW (op_set_mid mid o))))
| step_answered :
    op_state o = EXO_REQUEST_PENDING -> op_type o = EXO_READ \/ op_type o = EXO_WRITE ->
    op_step slot o (op_set_state EXO_REQUEST_SUCCESS o)
| step_subscribed seq timeout :
    (is_u32 (op_obs_seq o) -> is_u32 seq) -> is_u64 timeout -> op_state o = EXO_REQUEST_PENDING -> op_type o = EXO_SUBSCRIBE ->
    op_step slot o (op_set_timeout timeout (op_set_obs_seq seq (op_set_state EXO_REQUEST_SUCCESS o)))
| step_activated :
    op_state o = EXO_REQUEST_PENDING -> op_type o = EXO_ACTIVATE -> op_step slot o (exo_op_init o)
| step_failed :
    in_flight o -> op_step slot o (op_set_state EXO_REQUEST_ERROR o)
| step_activate :
    slot = 0%nat -> op_step slot o (exo_activate o).

Lemma op_step_typed slot o o' : op_step slot o o' -> op_typed o -> op_typed o'.
Proof.
  intros Hs [? ? ? ? ? ? ?].
  destruct Hs; constructor; simpl; auto with cdb; unfold is_u16, is_u32, is_u64, is_byte; lia.
Qed.

(** One transition of the array of requests. *)
Inductive ops_step (ops : list exo_op) : list exo_op -> Prop :=
| slot_step i o o' : ops !! i = Some o -> op_step i o o' -> ops_step ops (<[i := o']> ops).

Abbreviation ops_steps := (rtc ops_step).

(** What the life of a request looks like from its slot. *)
Lemma ops_steps_slot ops ops' i o :
  ops_steps ops ops' -> ops !! i = Some o -> exists o', ops' !! i = Some o' /\ rtc (op_step i) o o'.
Proof.
  intros H. revert o. induction H as [ops|ops ops1 ops2 [j x x' Hx Hs] _ IH]; intros o Ho; [eauto using rtc_refl|].
  destruct (decide (i = j)) as [->|Hne].
  - assert (x = o) as -> by congruence. destruct (IH x') as (o' & ? & ?).
    + apply list_lookup_insert_eq. by eapply lookup_lt_Some.
    + exists o'. split; [done|]. by eapply rtc_l.
  - apply IH. by rewrite list_lookup_insert_ne.
Qed.

Lemma ops_steps_length ops ops' : ops_steps ops ops' -> length ops' = length ops.
Proof.
  induction 1 as [ops|ops ops1 ops2 [j x x' Hx Hs] _ IH]; [done|]. by rewrite IH, length_insert.
Qed.

(** ** The caller's buffers *)

(** A request whose value comes from the network: a read or a subscription. *)
Definition receives (o : exo_op) : Prop :=
  op_type o = EXO_READ \/ op_type o = EXO_SUBSCRIBE \/ op_state o = EXO_REQUEST_SUBSCRIBED \/
  op_state o = EXO_REQUEST_SUB_ACK \/ op_state o = EXO_REQUEST_SUB_ACK_NEW.

(** No request may touch the byte [j] of block [b]: the reads and subscriptions
    that have the block as their value buffer give it fewer bytes (at least one). *)
Definition protected (ops : list exo_op) (b j : nat) : Prop :=
  forall i o, ops !! i = Some o -> receives o -> op_value o = Some b ->
    Z.max 1 (op_value_max o) <= Z.of_nat j.

Definition byte_of (heap : list (list Z)) (b j : nat) : option Z := heap !! b ≫= (fun blk => blk !! j).

Lemma op_step_value slot o o' : op_step slot o o' ->
  op_value o' = op_value o /\ op_value_max o' = op_value_max o \/ op_value o' = None.
Proof. intros []; simpl; auto. Qed.

Lemma op_step_receives slot o o' : op_step slot o o' -> receives o' -> receives o.
Proof. intros []; unfold receives; simpl in *; intuition congruence. Qed.

Lemma protected_step ops ops' b j : ops_step ops ops' -> protected ops b j -> protected ops' b j.
Proof.
  intros [i o o' Ho Hs] Hp k x Hk Hrc Hv. destruct (decide (k = i)) as [->|Hne].
  - rewrite list_lookup_insert_eq in Hk by (by eapply lookup_lt_Some). injection Hk as <-.
    destruct (op_step_value _ _ _ Hs) as [[E1 E2]|E]; [|congruence].
    rewrite E2. rewrite E1 in Hv. eapply Hp; [exact Ho|by eapply op_step_receives|done].
  - rewrite list_lookup_insert_ne in Hk by done. by eapply Hp.
Qed.

Lemma protected_steps ops ops' b j : ops_steps ops ops' -> protected ops b j -> protected ops' b j.
Proof. induction 1; eauto using protected_step. Qed.

(** ** What a part of [exo_operate] does *)

Section Advances.
Context {E : Type} `{PalLaws E}.
Implicit Types (w : world E).

(** Buffers hold bytes, variables and requests values of their types. *)
Record world_ok w : Prop := mk_world_ok {
  ok_heap : Forall bytes (w_heap w);
  ok_cik : bytes (w_cik w);
  ok_mid : is_u16 (w_mid w);
  ok_ops : Forall op_typed (w_ops w)
}.

Record advances w w' : Prop := mk_advances {
  adv_ops : ops_steps (w_ops w) (w_ops w');
  adv_heap : map length (w_heap w') = map length (w_heap w);
  adv_protected b j : protected (w_ops w) b j -> byte_of (w_heap w') b j = byte_of (w_heap w) b j;
  adv_identity : w_vendor w' = w_vendor w /\ w_model w' = w_model w /\ w_serial w' = w_serial w;
  adv_device : w_device w' = w_device w \/ w_device w' = EXO_STATE_GOOD;
  adv_cik : length (w_cik w') = length (w_cik w);
  adv_pending : pending (w_env w') <= pending (w_env w);
  adv_ok : world_ok w -> world_ok w'
}.

#[export] Instance advances_preorder : PreOrder advances.
Proof.
  split.
  - intros w. constructor; auto using rtc_refl. lia.
  - intros w1 w2 w3 [O1 H1 P1 I1 D1 C1 N1 K1] [O2 H2 P2 I2 D2 C2 N2 K2]. constructor.
    + by etransitivity.
    + congruence.
    + intros b j Hp. rewrite P2, P1; eauto using protected_steps.
    + destruct I1 as (? & ? & ?), I2 as (? & ? & ?). repeat split; congruence.
    + destruct D2 as [->| ->]; [done|by right].
    + congruence.
    + lia.
    + auto.
Qed.

(** The steps of which it is made. *)
Lemma advances_env w e : pending e <= pending (w_env w) -> advances w (set_env e w).
Proof. intros He. constructor; auto using rtc_refl. intros []; by constructor. Qed.

Lemma advances_mid w i : is_u16 i -> advances w (set_mid i w).
Proof. intros Hi. constructor; auto using rtc_refl; [simpl; lia|]. intros []; by constructor. Qed.

Lemma advances_good w : advances w (set_device EXO_STATE_GOOD w).
Proof. constructor; auto using rtc_refl; [simpl; lia|]. intros []; by constructor. Qed.

Lemma advances_cik w c : length c = length (w_cik w) -> (bytes (w_cik w) -> bytes c) ->
  advances w (set_cik c w).
Proof. intros Hl Hb. constructor; auto using rtc_refl; [simpl; lia|]. intros []; constructor; simpl; auto. Qed.

Lemma advances_op w i o o' : w_ops w !! i = Some o -> op_step i o o' ->
  advances w (set_ops (<[i := o']> (w_ops w)) w).
Proof.
  intros Ho Hs. constructor; auto; [|simpl; lia|].
  - apply rtc_once. by econstructor.
  - intros []; constructor; simpl; auto. apply Forall_insert; [done|].
    eapply op_step_typed; [exact Hs|]. by eapply Forall_lookup_1.
Qed.

(** The value buffer of request [i] is written within its bounds. *)
Lemma advances_value w i o b blk blk' :
  w_ops w !! i = Some o -> receives o -> op_value o = Some b -> w_heap w !! b = Some blk ->
  length blk' = length blk -> (bytes blk -> bytes blk') ->
  (forall j : nat, Z.max 1 (op_value_max o) <= Z.of_nat j -> blk' !! j = blk !! j) ->
  advances w (set_heap (<[b := blk']> (w_heap w)) w).
Proof.
  intros Ho Hrc Hv Hb Hl Hbb Hj. pose proof (lookup_lt_Some _ _ _ Hb) as Hlt.
  constructor; cbn [w_ops w_heap w_vendor w_model w_serial w_device w_cik w_env set_heap]; auto using rtc_refl; [| |lia|].
  - apply list_eq. intros k. rewrite !list_lookup_fmap. destruct (decide (k = b)) as [->|].
    + rewrite list_lookup_insert_eq, Hb by done. simpl. congruence.
    + by rewrite list_lookup_insert_ne.
  - intros b' j Hp. unfold byte_of. destruct (decide (b' = b)) as [->|].
    + rewrite list_lookup_insert_eq, Hb by done. simpl. apply Hj. by eapply Hp.
    + by rewrite list_lookup_insert_ne.
  - intros [Hh Hc ? ?]. constructor; simpl; try done. apply Forall_insert; [done|].
    apply Hbb. by eapply Forall_lookup_1.
Qed.
End Advances.
