(* ===== verification/ExoEnds.v ===== *)
(** * The Exosite client: the code refines the abstract life of a request

    For arbitrary incoming bytes, every part of [exo_operate] terminates and,
    when it has no undefined behaviour, does to the state of the client only what
    [advances] allows. *)

From stdpp Require Import relations.
From S2P Require Import Prelude Mem CoapDefs CoapGet CoapSet CoapTerm Pal ExoDefs ExoBuild ExoProcess ExoRules ExoSpec.

Create HintDb setters discriminated.
#[export] Hint Resolve set_version_ends set_type_ends set_code_ends set_mid_ends set_token_ends : setters.

Section Ends.
Context {E : Type} `{PalLaws E}.
Implicit Types (w : world E).

Definition adv {A} w (r : A * world E) : Prop := advances w (snd r).

(** Sequencing. *)
Lemma adv_bind {A B} (c : M E A) (k : A -> M E B) w (P : A * world E -> Prop) :
  ends (c w) (fun r => adv w r /\ P r) ->
  (forall a w', advances w w' -> P (a, w') -> ends (k a w') (adv w')) ->
  ends (bindM c k w) (adv w).
Proof.
  intros Hc Hk. eapply ends_M; [exact Hc|]. intros a w' [Ha HP]. eapply ends_mono; [by apply Hk|].
  intros r Hr. unfold adv in *. simpl in Ha. by etransitivity.
Qed.

Lemma adv_refl {A} (a : A) w : ends (retM a w) (adv w).
Proof. unfold adv. simpl. reflexivity. Qed.

Lemma adv_op_env w i o o' e : w_ops w !! i = Some o -> op_step i o o' -> pending e <= pending (w_env w) ->
  advances w (set_ops (<[i := o']> (w_ops w)) (set_env e w)).
Proof.
  intros Ho Hs He. transitivity (set_env e w); [by apply advances_env|].
  by apply (advances_op (set_env e w) i o o').
Qed.

(** Look at request [i] and change it. *)
Lemma insert_self w i o : w_ops w !! i = Some o -> w_ops w = <[i := o]> (w_ops w).
Proof. intros. by rewrite list_insert_id. Qed.

Lemma adv_upd i f w o : w_ops w !! i = Some o -> op_step i o (f o) -> ends (upd_op i f w) (adv w).
Proof. intros Ho Hs. unfold upd_op. rewrite Ho. by eapply advances_op. Qed.

(** ** Sending and timers *)

Lemma send_pdu_ends pdu w :
  ends (send_pdu pdu w) (fun r => exists e, snd r = set_env e w /\ pending e <= pending (w_env w)).
Proof.
  unfold send_pdu. eapply ends_lift; [apply load_bytes_ends|]. intros bs _.
  apply ends_last, ends_platform. intros rc e He. simpl. exists e. split; [done|]. by eapply send_ok.
Qed.

Lemma lor_u32 a b : is_u32 a -> is_u32 b -> is_u32 (Z.lor a b).
Proof.
  unfold is_u32. intros Ha Hb. assert (0 <= Z.lor a b) by (apply Z.lor_nonneg; lia). split; [done|].
  destruct (Z.eq_dec (Z.lor a b) 0) as [->|]; [done|]. apply Z.log2_lt_pow2; [lia|].
  rewrite Z.log2_lor by lia. apply Z.max_lub_lt.
  - destruct (Z.eq_dec a 0) as [->|]; [done|]. apply Z.log2_lt_pow2; lia.
  - destruct (Z.eq_dec b 0) as [->|]; [done|]. apply Z.log2_lt_pow2; lia.
Qed.

Lemma observe_seq_ends pdu opt s : pdu_ok pdu -> ends (observe_seq pdu opt s) (fun x => is_u32 s -> is_u32 x).
Proof.
  intros HP. unfold observe_seq.
  apply (loop_ends _ (fun '(j, x) => 0 <= j <= 4 /\ (is_u32 s -> is_u32 x)) (fun '(j, _) => 4 - j));
    [|split; [lia|done]|lia].
  intros [j x] [Hj Hx]. destruct (_ <? _); [|done]. destruct (Z.leb_spec 32 (8 * j)); [done|].
  destruct (opt_val opt) as [v|]; [|done]. eapply ends_bind; [apply load_pdu_ends, HP|].
  intros b Hb. simpl in *. split; [|lia]. split; [lia|]. intros _. apply lor_u32.
  - apply Z.mod_pos_bound. lia.
  - unfold is_u32, is_byte in *. lia.
Qed.

Lemma max_age_ends pdu : pdu_ok pdu -> ends (max_age_of pdu) (fun _ => True).
Proof.
  intros HP. eapply ends_bind; [apply get_option_by_num_ends; [done|by simpl]|]. intros o _. simpl.
  destruct (_ && _); [|done]. destruct (opt_val o); [|done].
  eapply ends_mono; [apply load_pdu_ends, HP|done].
Qed.

Lemma arm_timeout_ends i age w l o : w_ops w = <[i := o]> l -> (i < length l)%nat ->
  ends (arm_timeout i age w) (fun r => exists e t, pending e <= pending (w_env w) /\ is_u64 t /\
    snd r = set_ops (<[i := op_set_timeout t o]> l) (set_env e w)).
Proof.
  intros Hw Hi. unfold arm_timeout. apply ends_platform. intros now e1 He1.
  apply ends_platform. intros r e2 He2. apply ends_last. eapply ends_upd; [exact Hw|done|].
  simpl. exists e2. eexists. split; [|split; [apply u64_typed|done]].
  apply time_ok in He1 as [_ He1]. apply rand_ok in He2 as [_ He2]. simpl in He2. lia.
Qed.

(** ** Delivery of a payload *)

Lemma store_value_keeps (blk blk' : list Z) n c j :
  store blk n c = Ok blk' -> n < Z.of_nat j -> blk' !! j = blk !! j.
Proof.
  unfold store. zcases; [|done]. intros [= <-] Hj. apply list_lookup_insert_ne. lia.
Qed.

Lemma copy_value_keeps (blk blk' src : list Z) si n j :
  memcpy blk 0 src si n = Ok blk' -> 0 <= n <= Z.of_nat j -> blk' !! j = blk !! j.
Proof.
  unfold memcpy. pose proof (load_bytes_ends src si n) as Hl.
  destruct (load_bytes src si n) as [bs|]; [|done]. cbn [rbind ends] in *. destruct Hl as [Hl _].
  unfold store_bytes. destruct (Z.eqb_spec (zlen bs) 0); [by intros [= <-]|].
  destruct (_ && _) eqn:Ec; [|done]. intros [= <-] Hj. simpl. apply andb_true_iff in Ec as [_ Ec].
  apply Z.leb_le in Ec. unfold zlen in *.
  rewrite lookup_app_r, lookup_drop by lia. f_equal. lia.
Qed.

Lemma deliver_ends i pdu payload w o :
  w_ops w !! i = Some o -> in_flight o -> receives o -> pdu_ok pdu -> 0 <= pl_len payload < 2 ^ 64 ->
  ends (deliver i pdu payload w) (fun r => adv w r /\ (fst r = true -> w_ops (snd r) = w_ops w)).
Proof.
  intros Ho Hf Hrc HP Hpl. unfold deliver. apply ends_get_op. intros o' Ho'.
  assert (o' = o) as -> by congruence. clear Ho'.
  destruct (Z.eqb_spec (pl_len payload) 0) as [|Hn].
  - apply ends_deref. intros b blk Hv Hb. pose proof (store_ends blk 0 0) as Hs.
    destruct (store blk 0 0) as [blk'|f] eqn:Es; [|by apply ends_lift_Fault].
    destruct Hs as [Hl Hbb]. apply ends_lift_Ok. rewrite Hv. apply ends_put_block. simpl.
    split; [|done]. unfold adv. eapply advances_value; eauto.
    + unfold zlen in Hl. lia.
    + intros j Hj. eapply store_value_keeps; [exact Es|lia].
  - destruct (_ || _) eqn:Ec.
    + apply ends_M with (P := fun r => adv w r).
      * by eapply adv_upd; [exact Ho|apply step_failed].
      * intros u w' Ha. split; [exact Ha|done].
    + apply orb_false_iff in Ec as [Ec _]. apply Z.ltb_ge in Ec.
      apply ends_deref. intros b blk Hv Hb. destruct (pl_val payload) as [v|]; [|discriminate].
      pose proof (memcpy_ends blk 0 (pdu_buf pdu) v (pl_len payload)) as Hm.
      destruct (memcpy blk 0 (pdu_buf pdu) v (pl_len payload)) as [blk1|f] eqn:Em;
        [|by apply ends_lift_Fault]. destruct Hm as [Hl1 Hb1].
      apply ends_lift_Ok. pose proof (store_ends blk1 (pl_len payload) 0) as Hs.
      destruct (store blk1 (pl_len payload) 0) as [blk2|f] eqn:Es;
        [|by apply ends_lift_Fault]. destruct Hs as [Hl2 Hb2].
      apply ends_lift_Ok. rewrite Hv. apply ends_put_block. simpl. split; [|done].
      assert (Hw : pl_len payload + 1 <= op_value_max o).
      { pose proof (ok_small _ HP). destruct (memcpy_fits _ _ _ _ _ _ Em); [lia|].
        rewrite size_t_id in Ec; lia. }
      unfold adv. eapply advances_value; eauto.
      * unfold zlen in *. lia.
      * intros Hbb. apply Hb2, Hb1; [done|apply HP].
      * intros j Hj. rewrite (store_value_keeps blk1 blk2 _ _ j Es) by lia.
        apply (copy_value_keeps blk blk1 _ _ _ j Em). lia.
Qed.

(** ** One datagram against one request *)

Lemma handle_notification_ends pdu i w : pdu_ok pdu -> ends (handle_notification pdu i w) (adv w).
Proof.
  intros HP. unfold handle_notification. apply ends_get_op. intros o Ho.
  case_bool_decide as Hst; [|apply adv_refl].
  eapply ends_lift; [by apply get_token_ends|]. intros token _. destruct (_ =? _); [|apply adv_refl].
  eapply ends_lift; [by apply get_code_ends|]. intros code _. destruct (_ =? _).
  - eapply ends_lift; [by apply get_option_by_num_ends|]. intros opt _.
    eapply ends_lift; [by apply observe_seq_ends|]. intros seq Hseq.
    eapply ends_lift; [by apply get_payload_ends|]. intros payload Hpl.
    eapply adv_bind; [eapply deliver_ends; [exact Ho|by right|unfold receives; auto|done|done]|].
    intros [] w1 Ha Hw; [|apply adv_refl]. specialize (Hw eq_refl). simpl in Hw. rewrite <- Hw in Ho.
    pose proof (lookup_lt_Some _ _ _ Ho) as Hi.
    eapply ends_lift; [by apply get_mid_ends|]. intros mid Hmid.
    eapply ends_upd; [by apply insert_self|done|].
    destruct (Z.eqb_spec (op_obs_seq o) seq) as [Es|Ns]; cbn [negb];
      (eapply ends_upd; [reflexivity|done|]; eapply ends_lift; [by apply max_age_ends|]; intros age _;
       eapply ends_M; [by eapply arm_timeout_ends|]; intros u w2 (e & t & He & Ht & Hw2); simpl in Hw2; subst w2).
    + exact (adv_op_env w1 i o _ e Ho (step_notified i o mid t Hmid Ht Hst) He).
    + exact (adv_op_env w1 i o _ e Ho (step_notified_new i o mid seq t Hmid (Hseq ltac:(done)) Ht Hst Ns) He).
  - eapply ends_lift; [by apply get_code_class_ends|]. intros class _.
    destruct (negb _); [|apply adv_refl].
    eapply ends_M; [eapply adv_upd; [exact Ho|apply step_failed; by right]|]. intros u w' Ha. exact Ha.
Qed.

Lemma handle_success_ends pdu i w o :
  pdu_ok pdu -> w_ops w !! i = Some o -> op_state o = EXO_REQUEST_PENDING ->
  ends (handle_success pdu i w) (adv w).
Proof.
  intros HP Ho Hst. unfold handle_success. apply ends_get_op. intros o' Ho'.
  assert (o' = o) as -> by congruence. clear Ho'. pose proof (lookup_lt_Some _ _ _ Ho) as Hi.
  assert (Hf : in_flight o) by (by left).
  destruct (op_type o) eqn:Ety; [apply adv_refl|..].
  - eapply ends_M; [eapply adv_upd; [exact Ho|apply step_answered; auto]|]. intros u w' Ha. exact Ha.
  - eapply ends_lift; [by apply get_payload_ends|]. intros payload Hpl.
    eapply adv_bind; [eapply deliver_ends; [exact Ho|done|unfold receives; auto|done|done]|]. intros [] w1 Ha Hw; [|apply adv_refl].
    specialize (Hw eq_refl). simpl in Hw. rewrite <- Hw in Ho.
    eapply ends_M; [eapply adv_upd; [exact Ho|apply step_answered; auto]|]. intros u w' Ha'. exact Ha'.
  - eapply ends_lift; [by apply get_payload_ends|]. intros payload Hpl.
    eapply adv_bind; [eapply deliver_ends; [exact Ho|done|unfold receives; auto|done|done]|]. intros [] w1 Ha Hw; [|apply adv_refl].
    specialize (Hw eq_refl). simpl in Hw. rewrite <- Hw in Ho, Hi.
    eapply ends_upd; [by apply insert_self|done|].
    eapply ends_lift; [by apply max_age_ends|]. intros age _.
    eapply ends_lift; [by apply get_option_by_num_ends|]. intros opt _.
    eapply ends_lift; [by apply observe_seq_ends|]. intros seq Hseq.
    eapply ends_upd; [reflexivity|done|]. eapply ends_M; [by eapply arm_timeout_ends|].
    intros u w2 (e & t & He & Ht & Hw2). simpl in Hw2. subst w2.
    exact (adv_op_env w1 i o _ e Ho (step_subscribed i o seq t Hseq Ht Hst Ety) He).
  - eapply ends_lift; [by apply get_payload_ends|]. intros payload Hpl.
    eapply (ends_M _ _ _ (fun r => exists w1 s, advances w w1 /\ w_ops w1 = w_ops w /\
      snd r = set_ops (<[i := op_set_state s o]> (w_ops w)) w1)).
    + destruct (_ =? _).
      * apply ends_gets. destruct (pl_val payload) as [src|]; [|by apply ends_lift_Fault].
        apply ends_lift_Ok. eapply ends_lift; [apply memcpy_ends|]. intros c1 [Hl1 Hb1].
        eapply ends_lift; [apply store_ends|]. intros c2 [Hl2 Hb2]. apply ends_puts.
        eapply ends_upd; [by apply insert_self|done|]. apply ends_platform. intros rc e He.
        simpl. exists (set_device EXO_STATE_GOOD (set_env e (set_cik c2 w))), EXO_REQUEST_SUCCESS.
        split; [|done]. apply store_ok in He.
        transitivity (set_cik c2 w); [apply advances_cik|].
        { unfold zlen in *. lia. } { intros. apply Hb2, Hb1; [done|apply HP]. }
        transitivity (set_env e (set_cik c2 w)); [by apply advances_env|]. apply advances_good.
      * apply ends_last. eapply ends_upd; [by apply insert_self|done|]. simpl. exists w, EXO_REQUEST_ERROR. done.
    + intros u w' (w1 & s & Ha & Hw & Hw'). simpl in Hw'. subst w'.
      eapply ends_upd; [reflexivity|done|]. simpl. unfold adv. simpl.
      transitivity w1; [done|]. rewrite <- Hw in Ho |- *.
      exact (advances_op w1 i o (exo_op_init o) Ho (step_activated i o Hst Ety)).
Qed.

Lemma activate_ends i w : i = 0%nat -> ends (upd_op i exo_activate w) (adv w).
Proof.
  intros ->. unfold upd_op. destruct (w_ops w !! 0%nat) as [o|] eqn:Ho; [|done].
  exact (advances_op w 0 o _ Ho (step_activate 0 o eq_refl)).
Qed.

(** Request an activation when [c] finds it due. *)
Lemma renew_ends (c : M E bool) w : ends (c w) (adv w) ->
  ends (bindM c (fun renew => if renew : bool then upd_op 0 exo_activate else retM tt) w) (adv w).
Proof.
  intros Hc. eapply (adv_bind _ _ _ (fun _ => True)).
  - eapply ends_mono; [exact Hc|]. by split.
  - intros [] w' _ _; [by apply activate_ends|apply adv_refl].
Qed.

Lemma due_ends (b : bool) t w :
  ends ((if b then retM true else
         let! now := platform exopal_get_time in retM (t <? now)) w) (adv w).
Proof.
  destruct b; [apply adv_refl|]. apply ends_platform. intros now e He.
  apply time_ok in He as [_ He]. by apply advances_env.
Qed.

Lemma handle_ack_ends pdu i w : pdu_ok pdu -> ends (handle_ack pdu i w) (adv w).
Proof.
  intros HP. unfold handle_ack. apply ends_get_op. intros o Ho.
  eapply (ends_M _ _ _ (fun r => snd r = w /\ (fst r = true -> op_state o = EXO_REQUEST_PENDING))).
  { case_bool_decide; [|done]. eapply ends_lift; [by apply get_mid_ends|]. done. }
  intros [] w' [Hw Hst]; simpl in Hw; subst w'; [|apply adv_refl]. specialize (Hst eq_refl).
  eapply ends_lift; [by apply get_code_class_ends|]. intros class _.
  destruct (_ =? _); [by eapply handle_success_ends|].
  eapply (adv_bind _ _ _ (fun _ => True)).
  { eapply ends_mono; [eapply adv_upd; [exact Ho|apply step_failed; by left]|]. by split. }
  intros u w1 _ _. eapply ends_lift; [by apply get_code_ends|]. intros code _.
  eapply (adv_bind _ _ _ (fun _ => True)); [|intros; apply adv_refl].
  eapply ends_mono; [|by split]. destruct (_ =? _); [|destruct (_ =? _)].
  - apply ends_get_op. intros o0 _. apply renew_ends, due_ends.
  - apply advances_good.
  - apply adv_refl.
Qed.

Lemma handle_rst_ends pdu i w : pdu_ok pdu -> ends (handle_rst pdu i w) (adv w).
Proof.
  intros HP. unfold handle_rst. apply ends_get_op. intros o Ho.
  destruct (_ || _) eqn:Eb; [|apply adv_refl].
  eapply ends_lift; [by apply get_mid_ends|]. intros mid _. destruct (_ =? _); [|apply adv_refl].
  eapply ends_lift; [by apply get_token_ends|]. intros token _. destruct (_ =? _); [|apply adv_refl].
  eapply ends_M; [eapply adv_upd; [exact Ho|apply step_failed]|intros u w' Ha; exact Ha].
  apply orb_true_iff in Eb as [Eb|Eb]; apply bool_decide_eq_true in Eb; [by left|by right].
Qed.

Lemma handle_op_ends pdu i w : pdu_ok pdu -> ends (handle_op pdu i w) (adv w).
Proof.
  intros HP. unfold handle_op. eapply ends_lift; [by apply get_type_ends|]. intros ty _.
  destruct (_ || _); [by apply handle_notification_ends|].
  destruct (_ =? _); [by apply handle_ack_ends|].
  destruct (_ =? _); [by apply handle_rst_ends|apply adv_refl].
Qed.

Lemma match_ops_ends pdu n : pdu_ok pdu -> forall i w, ends (match_ops pdu i n w) (adv w).
Proof.
  intros HP. induction n as [|n IH]; intros i w; [apply adv_refl|]. cbn [match_ops].
  eapply (adv_bind _ _ _ (fun _ => True)); [eapply ends_mono; [by apply handle_op_ends|by split]|].
  intros [] w' _ _; [apply adv_refl|apply IH].
Qed.

(** ** Building packets *)

Lemma ends_or_status {B} f st (k : Z * coap_pdu -> M E B) w (Q : B * world E -> Prop) :
  pdu_ok (snd st) -> (forall p, pdu_ok p -> ends (f p) (keeps p)) ->
  (forall st', pdu_ok (snd st') -> shape (snd st) (snd st') -> ends (k st' w) Q) ->
  ends (bindM (lift (or_status f st)) k w) Q.
Proof.
  intros HP Hf Hk. eapply (ends_lift _ _ _ (fun st' => shape (snd st) (snd st'))).
  - eapply ends_bind; [by apply Hf|]. intros [err p] Hp. exact Hp.
  - intros st' Hs. apply Hk; [by eapply shape_ok|done].
Qed.

Lemma or_status_ends f st : ends (f (snd st)) (keeps (snd st)) ->
  ends (or_status f st) (fun st' => shape (snd st) (snd st')).
Proof. intros Hf. eapply ends_bind; [exact Hf|]. intros [err p] Hp. exact Hp. Qed.

(** A builder keeps the buffer, draws from the random numbers and counts up the
    message id. *)
Definition build_post {A} (pdu : coap_pdu) w (r : (A * coap_pdu) * world E) : Prop :=
  shape pdu (snd (fst r)) /\
  exists e i, snd r = set_env e (set_mid i w) /\ pending e <= pending (w_env w) /\ is_u16 i.

Lemma build_result_shape pdu st : shape pdu (snd st) -> shape pdu (snd (build_result st)).
Proof. unfold build_result. by destruct (negb _). Qed.

Lemma heap_bytes w b blk : world_ok w -> w_heap w !! b = Some blk -> bytes blk.
Proof. intros [Hh _ _ _] Hb. by eapply Forall_lookup_1. Qed.

Lemma ends_add_string {B} num s st (k : Z * coap_pdu -> M E B) w (Q : B * world E -> Prop) :
  pdu_ok (snd st) -> Forall bytes (w_heap w) ->
  (forall st', pdu_ok (snd st') -> shape (snd st) (snd st') -> ends (k st' w) Q) ->
  ends (bindM (add_string num s st) k w) Q.
Proof.
  intros HP Hh Hk. eapply (ends_M _ _ _ (fun r => shape (snd st) (snd (fst r)) /\ snd r = w)).
  - unfold add_string. apply ends_deref. intros b blk -> Hb.
    eapply ends_lift; [apply strlen_ends|]. intros n _. apply ends_last.
    apply ends_or_status; [done| |by intros].
    intros p Hp. apply add_option_ends; [done|apply Z.mod_pos_bound; lia|by eapply Forall_lookup_1].
  - intros st' w' [Hs Hw]. simpl in *. subst w'. apply Hk; [by eapply shape_ok|done].
Qed.

(** The next setter of a builder. *)
Ltac next_setter Hs :=
  let st := fresh "st" in let HP := fresh "HP" in let H := fresh "Hs" in
  first [ eapply ends_or_status; [assumption|intros; solve [auto with setters]|]
        | eapply ends_or_status; [assumption|intros; apply add_option_ends; [assumption|done|by repeat constructor]|]
        | eapply ends_add_string; [assumption|assumption|] ];
  intros st HP H; cbn [snd] in HP, H;
  let H' := fresh "Hs" in
  pose proof (transitivity Hs H) as H'; clear Hs H; rename H' into Hs.

(** Message id and token. *)
Lemma ends_next_mid {B} (k : Z -> M E B) w (Q : B * world E -> Prop) :
  ends (k (w_mid w) (set_mid (u16 (w_mid w + 1)) w)) Q -> ends (bindM next_mid k w) Q.
Proof. done. Qed.

Ltac build_head :=
  let Hi := fresh "Hs" in
  eapply ends_lift; [apply init_pdu_ends|]; intros [? ?] Hi; unfold keeps in Hi; cbn [snd] in Hi;
  match type of Hi with shape ?p ?q =>
    let HP := fresh "HP" in assert (HP : pdu_ok q) by (eapply shape_ok; eassumption) end;
  do 3 next_setter Hi; apply ends_next_mid; next_setter Hi;
  apply ends_platform; intros r e He; apply rand_ok in He as [_ He]; next_setter Hi.

Ltac build_tail Hs :=
  split; [apply build_result_shape, Hs|]; simpl; eauto using u16_typed.

Section Builders.
Context (pdu : coap_pdu) (HP : pdu_ok pdu) (w : world E) (Hh : Forall bytes (w_heap w)) (Hc : bytes (w_cik w)).

Lemma build_read_ends alias : ends (exo_build_msg_read pdu alias w) (build_post pdu w).
Proof.
  unfold exo_build_msg_read. build_head.
  do 2 next_setter Hs. apply ends_gets.
  eapply ends_or_status; [assumption|intros; by apply add_option_ends|]. intros sa _ H1.
  build_tail (transitivity Hs H1).
Qed.

Lemma build_observe_ends alias : ends (exo_build_msg_observe pdu alias w) (build_post pdu w).
Proof.
  unfold exo_build_msg_observe. build_head.
  do 3 next_setter Hs. apply ends_gets.
  eapply ends_or_status; [assumption|intros; by apply add_option_ends|]. intros sa _ H1.
  build_tail (transitivity Hs H1).
Qed.

Lemma build_write_ends alias value : ends (exo_build_msg_write pdu alias value w) (build_post pdu w).
Proof.
  unfold exo_build_msg_write. build_head.
  do 2 next_setter Hs. apply ends_gets.
  eapply ends_or_status; [assumption|intros; by apply add_option_ends|]. intros sa HPa H1.
  apply ends_deref. intros b blk -> Hb. eapply ends_lift; [apply strlen_ends|]. intros n _.
  eapply ends_or_status; [assumption|intros; apply set_payload_ends; [done|by eapply Forall_lookup_1]|].
  intros sb _ H2. build_tail (transitivity Hs (transitivity H1 H2)).
Qed.

Lemma build_activate_ends v m s : ends (exo_build_msg_activate pdu v m s w) (build_post pdu w).
Proof.
  unfold exo_build_msg_activate. build_head. do 5 next_setter Hs. build_tail Hs.
Qed.
End Builders.

Lemma build_ack_ends pdu mid : ends (exo_build_msg_ack pdu mid) (fun r => shape pdu (snd r)).
Proof.
  unfold exo_build_msg_ack. eapply ends_bind; [apply init_pdu_ends|]. intros [e0 p0] K0.
  eapply ends_bind; [apply or_status_ends, set_version_ends|]. intros s1 H1.
  eapply ends_bind; [apply or_status_ends, set_type_ends|]. intros s2 H2.
  eapply ends_bind; [apply or_status_ends, set_code_ends|]. intros s3 H3.
  eapply ends_bind; [apply or_status_ends, set_mid_ends|]. intros s4 H4.
  unfold keeps in K0. cbn [ends snd] in *. apply build_result_shape. by rewrite K0, H1, H2, H3.
Qed.

Lemma build_rst_ends pdu mid token tkl :
  ends (exo_build_msg_rst pdu mid token tkl) (fun r => shape pdu (snd r)).
Proof.
  unfold exo_build_msg_rst. eapply ends_bind; [apply init_pdu_ends|]. intros [e0 p0] K0.
  eapply ends_bind; [apply or_status_ends, set_version_ends|]. intros s1 H1.
  eapply ends_bind; [apply or_status_ends, set_type_ends|]. intros s2 H2.
  eapply ends_bind; [apply or_status_ends, set_code_ends|]. intros s3 H3.
  eapply ends_bind; [apply or_status_ends, set_mid_ends|]. intros s4 H4.
  eapply ends_bind; [apply or_status_ends, set_token_ends|]. intros s5 H5.
  unfold keeps in K0. cbn [ends snd] in *. apply build_result_shape. by rewrite K0, H1, H2, H3, H4.
Qed.

(** ** Incoming datagrams *)

(** The buffer of a datagram on the stack. *)
Definition pdu576 (pdu : coap_pdu) : Prop :=
  bytes (pdu_buf pdu) /\ zlen (pdu_buf pdu) = 576 /\ pdu_max pdu = 576.

Lemma pdu576_ok pdu : pdu576 pdu -> pdu_ok pdu.
Proof. intros (? & ? & _). constructor; [done|lia]. Qed.

Lemma pdu576_shape pdu pdu' : pdu576 pdu -> shape pdu pdu' -> pdu576 pdu'.
Proof. intros (? & ? & ?) [? ? ?]. repeat split; [auto|congruence|congruence]. Qed.

Lemma stack_pdu576 addr stack : bytes stack -> zlen stack = 576 -> pdu576 (stack_pdu addr stack).
Proof. done. Qed.

Lemma recv_step_ends count pdu w : pdu576 pdu ->
  ends (recv_step count pdu w) (fun r => adv w r /\
    match fst r with
    | Continue p => pdu576 p /\ 0 <= pending (w_env (snd r)) < pending (w_env w)
    | Break _ => True
    end).
Proof.
  intros HP. unfold recv_step. apply ends_platform. intros [rc data] e He.
  destruct HP as (Hb & Hl & Hmx). apply recv_ok in He as (Hd & Hdb & Hpe & Hlt); [|lia].
  assert (Ha : advances w (set_env e w)) by (by apply advances_env).
  eapply ends_lift; [apply store_bytes_ends|]. intros m [Hm Hmb]. destruct (Z.eqb_spec rc 0) as [->|]; [|done].
  specialize (Hlt eq_refl). cbn [negb].
  assert (HP' : pdu576 (set_len (set_buf pdu m) (zlen data))).
  { split; [simpl; auto|]. split; [simpl; congruence|done]. }
  eapply ends_lift; [by apply validate_ends, pdu576_ok|]. intros [err p] ->.
  set (p := set_opt_ptr _ None). assert (HP2 : pdu576 p) by (by eapply pdu576_shape; [|apply shape_set_opt_ptr]).
  assert (Hpos : forall w', advances (set_env e w) w' -> 0 <= pending (w_env w') < pending (w_env w)).
  { intros w' Hw'. pose proof (adv_pending _ _ Hw'). pose proof (pending_nonneg (w_env w')). simpl in *. lia. }
  destruct (decide _); [split; [done|]; split; [done|]; by apply Hpos|].
  eapply ends_M; [by apply match_ops_ends, pdu576_ok|]. intros found w1 Hw1. unfold adv in Hw1. simpl in Hw1.
  destruct found; [split; [unfold adv; simpl; by etransitivity|split; [done|by apply Hpos]]|].
  eapply ends_lift; [by apply get_type_ends, pdu576_ok|]. intros ty _.
  destruct (_ =? _); [|split; [unfold adv; simpl; by etransitivity|done]].
  eapply ends_lift; [by apply get_mid_ends, pdu576_ok|]. intros mid _.
  eapply ends_lift; [by apply get_token_ends, pdu576_ok|]. intros token _.
  eapply ends_lift; [by apply get_tkl_ends, pdu576_ok|]. intros tkl _.
  eapply ends_lift; [apply build_rst_ends|]. intros [er p'] _.
  eapply ends_M; [apply send_pdu_ends|]. intros rc' w2 (e' & Hw2 & He'). simpl in Hw2. subst w2.
  split; [|done]. unfold adv. simpl. transitivity w1; [by etransitivity|]. by apply advances_env.
Qed.

Lemma waiting_datagrams_ends addr stack count w :
  bytes stack -> zlen stack = 576 -> pending (w_env w) < 2 ^ 64 ->
  ends (exo_process_waiting_datagrams addr stack count w) (adv w).
Proof.
  intros Hb Hl Hp. unfold exo_process_waiting_datagrams, loopM.
  apply (loop_ends _ (fun sw => pdu576 (fst sw) /\ advances w (snd sw))
    (fun sw => pending (w_env (snd sw)))); [|split; [by apply stack_pdu576|reflexivity]|done].
  intros [pdu w1] [HP Ha]. cbn [fst snd] in *.
  eapply ends_bind; [by apply recv_step_ends|]. intros [[p|u] w2] [Hw Hr]; unfold adv in *; cbn [fst snd ends] in *.
  - destruct Hr as [? ?]. split; [split; [done|by etransitivity]|done].
  - by etransitivity.
Qed.

(** ** Active requests *)

Definition active_post w (r : coap_pdu * world E) : Prop := adv w r /\ pdu576 (fst r).

Lemma active_refl pdu w : pdu576 pdu -> active_post w (pdu, w).
Proof. split; [unfold adv; simpl; reflexivity|done]. Qed.

Lemma build_request_ends pdu o w : pdu576 pdu -> world_ok w ->
  ends (build_request pdu o w) (fun r =>
    (exists e i, snd r = set_env e (set_mid i w) /\ pending e <= pending (w_env w) /\ is_u16 i) /\
    (fst r = None -> op_type o = EXO_NULL) /\ (op_type o = EXO_NULL -> snd r = w /\ fst r = None) /\
    pdu576 (default pdu (fst r))).
Proof.
  intros HP [Hh Hc Hmid _]. pose proof (pdu576_ok _ HP) as Hok. unfold build_request.
  assert (Hgo : forall c, ends (c w) (build_post pdu w) -> op_type o <> EXO_NULL ->
    ends ((let! '(_, p) := (c : M E (exo_error * coap_pdu)) in retM (Some p)) w) (fun r =>
      (exists e i, snd r = set_env e (set_mid i w) /\ pending e <= pending (w_env w) /\ is_u16 i) /\
      (fst r = None -> op_type o = EXO_NULL) /\ (op_type o = EXO_NULL -> snd r = w /\ fst r = None) /\
      pdu576 (default pdu (fst r)))).
  { intros c Hcc Hty. eapply ends_M; [exact Hcc|]. intros [err p] w' [Hs Hw]. simpl in Hs.
    split; [exact Hw|]. split; [done|]. split; [done|]. simpl. by eapply pdu576_shape. }
  destruct (op_type o) eqn:Ety.
  - simpl. split; [exists (w_env w), (w_mid w); by destruct w|done].
  - by apply Hgo; [apply build_write_ends|].
  - by apply Hgo; [apply build_read_ends|].
  - by apply Hgo; [apply build_observe_ends|].
  - do 3 apply ends_gets. by apply Hgo; [apply build_activate_ends|].
Qed.

Lemma send_new_ends i pdu w o :
  pdu576 pdu -> world_ok w -> w_ops w !! i = Some o -> op_state o = EXO_REQUEST_NEW ->
  ends (send_new i pdu w) (active_post w).
Proof.
  intros HP Hok Ho Hst. unfold send_new. apply ends_get_op. intros o' Ho'.
  assert (o' = o) as -> by congruence. clear Ho'. pose proof (lookup_lt_Some _ _ _ Ho) as Hi.
  eapply ends_M; [by apply build_request_ends|].
  intros built w1 ((e & j & Hw & He & Hj) & HN & HN' & HP1). simpl in *. destruct built as [p|].
  - assert (Hty : op_type o <> EXO_NULL) by (intros c; by destruct (HN' c)).
    subst w1. eapply ends_M; [apply send_pdu_ends|]. intros rc w2 (e1 & Hw2 & He1). simpl in Hw2, He1. subst w2.
    assert (Ha : advances w (set_env e1 (set_mid j w))).
    { transitivity (set_mid j w); [by apply advances_mid|]. apply advances_env. simpl. lia. }
    destruct (_ =? _); [|by split].
    eapply ends_upd; [by apply insert_self|done|]. apply ends_platform. intros now e2 He2.
    apply time_ok in He2 as [_ He2]. simpl in He2.
    eapply ends_upd; [reflexivity|done|]. eapply ends_lift; [by apply get_mid_ends, pdu576_ok|]. intros mid Hmid.
    eapply ends_upd; [reflexivity|done|]. eapply ends_lift; [by apply get_token_ends, pdu576_ok|]. intros token Htok.
    eapply ends_upd; [reflexivity|done|]. split; [|done]. unfold adv. simpl.
    transitivity (set_mid j w); [by apply advances_mid|].
    refine (adv_op_env (set_mid j w) i o _ e2 Ho (step_send i o mid token _ Hmid Htok (u64_typed _) Hst Hty) _). simpl. lia.
  - specialize (HN eq_refl). destruct (HN' HN) as [Hw1 _]. rewrite Hw in *. rewrite Hw1 in *.
    eapply ends_upd; [by apply insert_self|done|].
    replace (op_set_type EXO_NULL o) with o by (destruct o; simpl in *; by subst).
    rewrite list_insert_id by done. split; [|done]. unfold adv. simpl.
    replace (set_ops (w_ops w) w) with w by (by destruct w). reflexivity.
Qed.

Lemma retransmit_ends i pdu w o :
  pdu576 pdu -> world_ok w -> w_ops w !! i = Some o -> in_flight o -> retransmitted (op_type o) ->
  ends (retransmit i pdu w) (active_post w).
Proof.
  intros HP Hok Ho Hf Hty. unfold retransmit. apply ends_get_op. intros o' Ho'.
  assert (o' = o) as -> by congruence. clear Ho'. pose proof (lookup_lt_Some _ _ _ Ho) as Hi.
  destruct (Z.ltb_spec (op_retries o) COAP_MAX_RETRANSMIT) as [Hlt|Hge].
  - eapply ends_M; [by apply build_request_ends|].
    intros built w1 ((e & j & Hw & He & Hj) & _ & _ & HP1). simpl in *. subst w1.
    eapply ends_lift; [apply set_mid_ends|]. intros [e1 p1] H1.
    eapply ends_lift; [apply set_token_ends|]. intros [e2 p2] H2. unfold keeps in *. cbn [snd] in *.
    assert (HP2 : pdu576 p2) by (eapply pdu576_shape; [exact HP1|by etransitivity]).
    eapply ends_M; [apply send_pdu_ends|]. intros rc w2 (e3 & Hw2 & He3). simpl in Hw2, He3. subst w2.
    destruct (_ =? _).
    + eapply ends_upd; [by apply insert_self|done|].
      apply ends_platform. intros now e4 He4. apply time_ok in He4 as [_ He4].
      apply ends_platform. intros r e5 He5. apply rand_ok in He5 as [_ He5]. simpl in He4, He5.
      eapply ends_upd; [reflexivity|done|]. split; [|done]. unfold adv. simpl.
      transitivity (set_mid j w); [by apply advances_mid|].
      refine (adv_op_env (set_mid j w) i o _ e5 Ho (step_retransmit i o _ (u64_typed _) Hf Hty Hlt) _). simpl. lia.
    + split; [|done]. unfold adv. simpl. transitivity (set_mid j w); [by apply advances_mid|].
      refine (advances_env (set_mid j w) e3 _). simpl. lia.
  - eapply ends_M; [eapply adv_upd; [exact Ho|by apply step_give_up]|]. intros u w' Ha. by split.
Qed.

Lemma active_op_ends now i pdu w : pdu576 pdu -> world_ok w ->
  ends (active_op now i pdu w) (active_post w).
Proof.
  intros HP Hok. unfold active_op. apply ends_get_op. intros o Ho.
  assert (Hflight : in_flight o -> ends (check_timeout now i pdu w) (active_post w)).
  { intros Hf. unfold check_timeout. apply ends_get_op. intros o' Ho'.
    assert (o' = o) as -> by congruence. destruct (_ <=? _); [|by apply active_refl].
    destruct (op_type o) eqn:Ety; [by apply active_refl|..].
    - eapply retransmit_ends; unfold retransmitted; eauto.
    - eapply retransmit_ends; unfold retransmitted; eauto.
    - eapply ends_M; [eapply adv_upd; [exact Ho|by apply step_renew]|]. intros u w' Ha. by split.
    - eapply retransmit_ends; unfold retransmitted; eauto. }
  assert (Hack : op_state o = EXO_REQUEST_SUB_ACK \/ op_state o = EXO_REQUEST_SUB_ACK_NEW ->
    ends (send_ack i pdu w) (active_post w)).
  { intros Hst. unfold send_ack. apply ends_get_op. intros o' Ho'.
    assert (o' = o) as -> by congruence. eapply ends_lift; [apply build_ack_ends|]. intros [er p] Hp. simpl in Hp.
    assert (HP2 : pdu576 p) by (by eapply pdu576_shape).
    eapply ends_M; [apply send_pdu_ends|]. intros rc w1 (e & Hw & He). simpl in Hw. subst w1.
    assert (Ha : advances w (set_env e w)) by (by apply advances_env).
    destruct (_ =? _); [|by split].
    destruct Hst as [Hst|Hst]; rewrite Hst;
      (eapply ends_M; [eapply adv_upd; [exact Ho|by constructor]|]; intros u w' Hw';
       split; [unfold adv in *; simpl in *; by etransitivity|done]). }
  destruct (op_state o) eqn:Est; try (by apply active_refl).
  - by eapply send_new_ends.
  - apply Hflight. by left.
  - apply Hflight. by right.
  - apply Hack. by left.
  - apply Hack. by right.
Qed.

Lemma active_ops_ends now n : forall i pdu w, pdu576 pdu -> world_ok w ->
  ends (active_ops now i n pdu w) (adv w).
Proof.
  induction n as [|n IH]; intros i pdu w HP Hok; [apply adv_refl|]. cbn [active_ops].
  eapply adv_bind; [by apply active_op_ends|]. intros p w' Ha HP'. apply IH; [done|]. by eapply adv_ok.
Qed.

Lemma active_ends addr stack count w : bytes stack -> zlen stack = 576 -> world_ok w ->
  ends (exo_process_active_ops addr stack count w) (adv w).
Proof.
  intros Hb Hl Hok. unfold exo_process_active_ops. apply ends_platform. intros now e He.
  apply time_ok in He as [_ He]. assert (Ha : advances w (set_env e w)) by (by apply advances_env).
  eapply ends_mono; [apply active_ops_ends; [by apply stack_pdu576|by eapply adv_ok]|].
  intros r Hr. unfold adv in *. by etransitivity.
Qed.

Lemma any_in_state_ends s n : forall i w,
  ends (any_in_state s i n w) (fun r => snd r = w /\
    (fst r = true <-> exists j o, (i <= j < i + n)%nat /\ w_ops w !! j = Some o /\ op_state o = s)).
Proof.
  induction n as [|n IH]; intros i w.
  - simpl. split; [done|]. split; [done|]. intros (j & o & ? & _). lia.
  - cbn [any_in_state]. apply ends_get_op. intros o Ho. case_bool_decide as Hs.
    + simpl. split; [done|]. split; [|done]. intros _. exists i, o. repeat split; [lia|lia|done|done].
    + eapply ends_mono; [apply IH|]. intros r [Hw Hr]. split; [done|]. rewrite Hr. split.
      * intros (j & x & ? & ? & ?). exists j, x. repeat split; [lia|lia|done|done].
      * intros (j & x & ? & Hx & ?). exists j, x. destruct (decide (j = i)) as [->|]; [congruence|].
        repeat split; [lia|lia|done|done].
Qed.

(** ** The whole call *)

(** What the returned state says about the requests. *)
Definition reports (count : nat) (r : exo_state) w : Prop :=
  let has s := exists j o, (j < count)%nat /\ w_ops w !! j = Some o /\ op_state o = s in
  match r with
  | EXO_ERROR => w_device w = EXO_STATE_UNINITIALIZED
  | EXO_BUSY => has EXO_REQUEST_NEW
  | EXO_WAITING => ~ has EXO_REQUEST_NEW /\ has EXO_REQUEST_PENDING
  | EXO_IDLE => ~ has EXO_REQUEST_NEW /\ ~ has EXO_REQUEST_PENDING
  | _ => False
  end.

Lemma ensure_activation_ends w : ends (ensure_activation w) (adv w).
Proof. unfold ensure_activation. apply ends_get_op. intros o0 _. apply renew_ends, due_ends. Qed.

Lemma operate_ends addr1 stack1 addr2 stack2 count w :
  bytes stack1 -> zlen stack1 = 576 -> bytes stack2 -> zlen stack2 = 576 ->
  world_ok w -> pending (w_env w) < 2 ^ 64 ->
  ends (exo_operate addr1 stack1 addr2 stack2 count w) (fun r =>
    advances w (snd r) /\ reports count (fst r) (snd r)).
Proof.
  intros Hb1 Hl1 Hb2 Hl2 Hok Hp. unfold exo_operate. apply ends_gets.
  destruct (decide _) as [Hd|_]; [split; [reflexivity|done]|].
  eapply (ends_M _ _ _ (adv w)).
  { destruct (w_device w); [apply adv_refl|apply ensure_activation_ends|apply adv_refl|apply ensure_activation_ends]. }
  intros u w1 Ha1. unfold adv in Ha1. simpl in Ha1.
  eapply ends_M; [apply waiting_datagrams_ends; [done|done|pose proof (adv_pending _ _ Ha1); lia]|].
  intros u2 w2 Ha2. unfold adv in Ha2. simpl in Ha2. assert (Ha : advances w w2) by (by etransitivity).
  eapply ends_M; [apply active_ends; [done|done|by apply (adv_ok _ _ Ha)]|].
  intros u3 w3 Ha3. unfold adv in Ha3. simpl in Ha3. assert (Ha4 : advances w w3) by (by etransitivity).
  eapply ends_M; [apply any_in_state_ends|]. intros busy w' [Hw' Hbusy]. simpl in Hw', Hbusy. subst w'.
  assert (Hhas : forall s, (exists j o, (0 <= j < 0 + count)%nat /\ w_ops w3 !! j = Some o /\ op_state o = s) <->
    (exists j o, (j < count)%nat /\ w_ops w3 !! j = Some o /\ op_state o = s)).
  { intros s. split; intros (j & o & ? & ? & ?); exists j, o; (split; [lia|done]). }
  destruct busy.
  - split; [done|]. simpl. apply Hhas, Hbusy. done.
  - assert (Hn : ~ exists j o, (j < count)%nat /\ w_ops w3 !! j = Some o /\ op_state o = EXO_REQUEST_NEW).
    { intros Hc. apply Hhas, Hbusy in Hc. done. }
    eapply ends_M; [apply any_in_state_ends|]. intros waiting w' [Hw' Hwait]. simpl in Hw', Hwait. subst w'.
    destruct waiting.
    + split; [done|]. split; [done|]. apply Hhas, Hwait. done.
    + split; [done|]. split; [done|]. intros Hc. apply Hhas, Hwait in Hc. done.
Qed.
End Ends.
