(* ===== verification/ExoTimer.v ===== *)
(** * The Exosite client: the pass over the active requests, request by request

    [timer_step] says exactly what [exo_process_active_ops] does to one request
    when the clock shows [now]; the pass does that to each of the requests it is
    given and leaves the others alone.  On a network that stays silent this is all
    a call of [exo_operate] does. *)

From stdpp Require Import relations.
From S2P Require Import Prelude Mem CoapDefs CoapGet CoapSet CoapTerm Pal ExoDefs ExoBuild ExoProcess ExoRules ExoSpec ExoEnds.

Section Timer.
Context {E : Type} `{PalLaws E}.
Implicit Types (w : world E).

(** The platform refuses to send something while at most [b] events are pending. *)
Definition send_fails (b : Z) : Prop :=
  exists bs (e : E) rc e', pending e <= b /\ exopal_udp_send bs e = (rc, e') /\ rc <> 0.

(** What the pass does to a request at the time [now]. *)
Inductive timer_step (b now : Z) (o : exo_op) : exo_op -> Prop :=
| timer_sent mid token timeout :
    op_state o = EXO_REQUEST_NEW -> op_type o <> EXO_NULL ->
    timer_step b now o (op_set_token token (op_set_mid mid (op_set_timeout timeout
      (op_set_state EXO_REQUEST_PENDING o))))
| timer_unsent :
    send_fails b -> op_state o <> EXO_REQUEST_SUCCESS -> op_state o <> EXO_REQUEST_ERROR -> timer_step b now o o
| timer_null : op_state o = EXO_REQUEST_NEW -> op_type o = EXO_NULL -> timer_step b now o o
| timer_waiting : in_flight o -> now < op_timeout o \/ op_type o = EXO_NULL -> timer_step b now o o
| timer_retransmitted timeout :
    in_flight o -> op_timeout o <= now -> retransmitted (op_type o) -> op_retries o < COAP_MAX_RETRANSMIT ->
    timer_step b now o (op_set_timeout timeout (op_set_retries (u8 (op_retries o + 1)) o))
| timer_given_up :
    in_flight o -> op_timeout o <= now -> retransmitted (op_type o) -> COAP_MAX_RETRANSMIT <= op_retries o ->
    timer_step b now o (op_set_state EXO_REQUEST_ERROR o)
| timer_renewed :
    in_flight o -> op_timeout o <= now -> op_type o = EXO_SUBSCRIBE ->
    timer_step b now o (op_set_state EXO_REQUEST_NEW o)
| timer_acked :
    op_state o = EXO_REQUEST_SUB_ACK -> timer_step b now o (op_set_state EXO_REQUEST_SUBSCRIBED o)
| timer_acked_new :
    op_state o = EXO_REQUEST_SUB_ACK_NEW -> timer_step b now o (op_set_state EXO_REQUEST_SUCCESS o)
| timer_idle :
    op_state o = EXO_REQUEST_NULL \/ op_state o = EXO_REQUEST_SUCCESS \/ op_state o = EXO_REQUEST_ERROR ->
    timer_step b now o o.

(** Request [i] is changed by [R], the others are not. *)
Definition touches (i : nat) (R : exo_op -> exo_op -> Prop) w w' : Prop :=
  (forall j, j <> i -> w_ops w' !! j = w_ops w !! j) /\
  (forall o, w_ops w !! i = Some o -> exists o', w_ops w' !! i = Some o' /\ R o o').

Lemma touches_same i (R : exo_op -> exo_op -> Prop) w w' o :
  w_ops w' = w_ops w -> w_ops w !! i = Some o -> R o o -> touches i R w w'.
Proof.
  intros Hw Ho HR. split; [intros j _; by rewrite Hw|]. intros x Hx. exists o. rewrite Hw. split; [done|]. congruence.
Qed.

Lemma touches_set i (R : exo_op -> exo_op -> Prop) w w' o o' :
  w_ops w' = <[i := o']> (w_ops w) -> w_ops w !! i = Some o -> R o o' -> touches i R w w'.
Proof.
  intros Hw Ho HR. split.
  - intros j Hj. rewrite Hw. by apply list_lookup_insert_ne.
  - intros x Hx. exists o'. rewrite Hw, list_lookup_insert_eq by (by eapply lookup_lt_Some).
    split; [done|]. congruence.
Qed.

Lemma ends_and {A} (c : res A) (P Q : A -> Prop) : ends c P -> ends c Q -> ends c (fun a => P a /\ Q a).
Proof. by destruct c. Qed.

Lemma send_pdu_fails b pdu w : pending (w_env w) <= b ->
  ends (send_pdu pdu w) (fun r => exists e, snd r = set_env e w /\ (fst r <> 0 -> send_fails b)).
Proof.
  intros Hp.
  unfold send_pdu. eapply ends_lift; [apply load_bytes_ends|]. intros bs _.
  apply ends_last, ends_platform. intros rc e He. simpl. exists e. split; [done|].
  intros Hrc. by exists bs, (w_env w), rc, e.
Qed.

Section Pass.
Context (b now : Z) (i : nat) (pdu : coap_pdu) (HP : pdu576 pdu).

Lemma send_new_timer w o : world_ok w -> pending (w_env w) <= b -> w_ops w !! i = Some o -> op_state o = EXO_REQUEST_NEW ->
  ends (send_new i pdu w) (fun r => touches i (timer_step b now) w (snd r)).
Proof.
  intros Hok Hp Ho Hst. unfold send_new. apply ends_get_op. intros o' Ho'.
  assert (o' = o) as -> by congruence. clear Ho'. pose proof (lookup_lt_Some _ _ _ Ho) as Hi.
  eapply ends_M; [by apply build_request_ends|].
  intros built w1 ((e & j & Hw & He & _) & HN & HN' & HP1). simpl in *. subst w1. destruct built as [p|].
  - assert (Hty : op_type o <> EXO_NULL) by (intros c; by destruct (HN' c)).
    eapply ends_M; [apply (send_pdu_fails b); simpl; lia|]. intros rc w2 (e1 & Hw2 & Hf). simpl in Hw2, Hf. subst w2.
    destruct (Z.eqb_spec rc 0) as [_|Hrc].
    + eapply ends_upd; [by apply insert_self|done|]. apply ends_platform. intros t e2 _.
      eapply ends_upd; [reflexivity|done|]. eapply ends_lift; [by apply get_mid_ends, pdu576_ok|]. intros mid _.
      eapply ends_upd; [reflexivity|done|]. eapply ends_lift; [by apply get_token_ends, pdu576_ok|]. intros token _.
      eapply ends_upd; [reflexivity|done|]. simpl. eapply touches_set; [reflexivity|exact Ho|]. by apply timer_sent.
    + eapply touches_same; [reflexivity|exact Ho|]. apply timer_unsent; [auto|congruence..].
  - specialize (HN eq_refl). eapply ends_upd; [by apply insert_self|done|]. simpl.
    eapply touches_set; [reflexivity|exact Ho|].
    replace (op_set_type EXO_NULL o) with o by (destruct o; simpl in *; by subst). by apply timer_null.
Qed.

Lemma retransmit_timer w o : world_ok w -> pending (w_env w) <= b -> w_ops w !! i = Some o -> in_flight o -> op_timeout o <= now ->
  retransmitted (op_type o) ->
  ends (retransmit i pdu w) (fun r => touches i (timer_step b now) w (snd r)).
Proof.
  intros Hok Hp Ho Hf Htm Hty. unfold retransmit. apply ends_get_op. intros o' Ho'.
  assert (o' = o) as -> by congruence. clear Ho'. pose proof (lookup_lt_Some _ _ _ Ho) as Hi.
  destruct (Z.ltb_spec (op_retries o) COAP_MAX_RETRANSMIT) as [Hlt|Hge].
  - eapply ends_M; [by apply build_request_ends|].
    intros built w1 ((e & j & Hw & He & _) & _ & _ & HP1). simpl in *. subst w1.
    eapply ends_lift; [apply set_mid_ends|]. intros [e1 p1] _.
    eapply ends_lift; [apply set_token_ends|]. intros [e2 p2] _.
    eapply ends_M; [apply (send_pdu_fails b); simpl; lia|]. intros rc w2 (e3 & Hw2 & Hfail). simpl in Hw2, Hfail. subst w2.
    destruct (Z.eqb_spec rc 0) as [_|Hrc].
    + eapply ends_upd; [by apply insert_self|done|].
      apply ends_platform. intros t e4 _. apply ends_platform. intros r e5 _.
      eapply ends_upd; [reflexivity|done|]. simpl. eapply touches_set; [reflexivity|exact Ho|].
      by apply timer_retransmitted.
    + eapply touches_same; [reflexivity|exact Ho|]. unfold in_flight in Hf.
      apply timer_unsent; [auto|intuition congruence..].
  - eapply ends_upd; [by apply insert_self|done|]. simpl. eapply touches_set; [reflexivity|exact Ho|].
    by apply timer_given_up.
Qed.

Lemma check_timeout_timer w o : world_ok w -> pending (w_env w) <= b -> w_ops w !! i = Some o -> in_flight o ->
  ends (check_timeout now i pdu w) (fun r => touches i (timer_step b now) w (snd r)).
Proof.
  intros Hok Hp Ho Hf. unfold check_timeout. apply ends_get_op. intros o' Ho'.
  assert (o' = o) as -> by congruence. pose proof (lookup_lt_Some _ _ _ Ho) as Hi.
  destruct (Z.leb_spec (op_timeout o) now).
  2: { eapply touches_same; [reflexivity|exact Ho|]. apply timer_waiting; [done|by left]. }
  destruct (op_type o) eqn:Ety.
  2-3, 5: by eapply retransmit_timer; [..|unfold retransmitted; rewrite Ety; auto].
  - eapply touches_same; [reflexivity|exact Ho|]. apply timer_waiting; [done|by right].
  - eapply ends_upd; [by apply insert_self|done|]. simpl. eapply touches_set; [reflexivity|exact Ho|].
    by apply timer_renewed.
Qed.

Lemma send_ack_timer w o : pending (w_env w) <= b -> w_ops w !! i = Some o ->
  op_state o = EXO_REQUEST_SUB_ACK \/ op_state o = EXO_REQUEST_SUB_ACK_NEW ->
  ends (send_ack i pdu w) (fun r => touches i (timer_step b now) w (snd r)).
Proof.
  intros Hp Ho Hst. unfold send_ack. apply ends_get_op. intros o' Ho'.
  assert (o' = o) as -> by congruence. pose proof (lookup_lt_Some _ _ _ Ho) as Hi.
  eapply ends_lift; [apply build_ack_ends|]. intros [er p] _.
  eapply ends_M; [apply (send_pdu_fails b); simpl; lia|]. intros rc w1 (e & Hw & Hf). simpl in Hw, Hf. subst w1.
  destruct (Z.eqb_spec rc 0) as [_|Hrc].
  - destruct Hst as [Hst|Hst]; rewrite Hst;
      (eapply ends_upd; [by apply insert_self|done|]; simpl; eapply touches_set; [reflexivity|exact Ho|]; by constructor).
  - eapply touches_same; [reflexivity|exact Ho|]. apply timer_unsent; [auto|intuition congruence..].
Qed.

Lemma active_op_timer w : world_ok w -> pending (w_env w) <= b ->
  ends (active_op now i pdu w) (fun r => touches i (timer_step b now) w (snd r)).
Proof.
  intros Hok Hp. unfold active_op. apply ends_get_op. intros o Ho.
  destruct (op_state o) eqn:Est;
    try (eapply touches_same; [reflexivity|exact Ho|]; apply timer_idle; by auto).
  - by eapply send_new_timer.
  - eapply check_timeout_timer; [done|done|done|by left].
  - eapply check_timeout_timer; [done|done|done|by right].
  - by eapply send_ack_timer; [| |left].
  - by eapply send_ack_timer; [| |right].
Qed.
End Pass.

(** The whole pass. *)
Definition each_timer (b now : Z) (i n : nat) w w' : Prop :=
  forall j, (forall o, (i <= j < i + n)%nat -> w_ops w !! j = Some o ->
               exists o', w_ops w' !! j = Some o' /\ timer_step b now o o') /\
            (~ (i <= j < i + n)%nat -> w_ops w' !! j = w_ops w !! j).

Lemma active_ops_timer b now n : forall i pdu w, pdu576 pdu -> world_ok w -> pending (w_env w) <= b ->
  ends (active_ops now i n pdu w) (fun r => each_timer b now i n w (snd r)).
Proof.
  induction n as [|n IH]; intros i pdu w HP Hok Hp.
  - simpl. intros j. split; [intros o ?; lia|done].
  - cbn [active_ops].
    eapply ends_M; [apply ends_and; [by apply active_op_ends|by apply (active_op_timer b now i pdu HP)]|].
    intros p w1 [[Ha HP1] [Hother Hself]]. unfold adv in Ha. simpl in *.
    eapply ends_mono; [apply IH; [done|by apply (adv_ok _ _ Ha)|pose proof (adv_pending _ _ Ha); simpl in *; lia]|]. intros r Hr j. destruct (Hr j) as [Hr1 Hr2].
    split.
    + intros o Hj Ho. destruct (decide (j = i)) as [->|Hne].
      * destruct (Hself o Ho) as (o' & Ho' & Hs). exists o'. by rewrite Hr2 by lia.
      * rewrite <- (Hother j Hne) in Ho. apply Hr1; [lia|done].
    + intros Hj. rewrite Hr2, Hother by lia. done.
Qed.

End Timer.
