(* ===== verification/ExoProps.v ===== *)
(** * The Exosite client: properties of the protocol engine

    Theorems about [exo_operate] for arbitrary incoming datagrams: it refines the
    life of a request, terminates, writes nothing but value buffers and reports
    the requests truthfully; invariants of every state a program can reach. *)

From stdpp Require Import relations.
From S2P Require Import Prelude Mem CoapDefs CoapGet CoapSet CoapTerm CoapMessage Pal ExoDefs ExoBuild ExoProcess ExoRules ExoSpec ExoEnds.

(** ** Samples *)

Definition sample_os (inbox : list Posix.recv_event) : Posix.os :=
  Posix.mk_os inbox [] [] [(100, 0); (101, 0); (102, 0); (103, 0)] [100; 200; 300; 400; 500]
    (Some (lit "a32c85ba9dda45823be416246cf8b433baa068d7")) true 1000 0 (Some [Posix.mk_addr true true]).

Definition null_op : exo_op := mk_op EXO_NULL EXO_REQUEST_NULL None None 0 0 0 0 0 0 0.

(** Three requests: a read of the dataport "temp" is queued in slot 1. *)
Definition sample_world (inbox : list Posix.recv_event) : world Posix.os :=
  mk_world (lit "a32c85ba9dda45823be416246cf8b433baa068d7" ++ [0]) (Some 0%nat) (Some 1%nat) (Some 2%nat)
    7 EXO_STATE_GOOD
    [lit "vnd" ++ [0]; lit "mdl" ++ [0]; lit "001" ++ [0]; lit "temp" ++ [0]; List.repeat 7 32]
    [null_op; exo_read null_op (Some 3%nat) (Some 4%nat) 32; null_op] (sample_os inbox).

Definition sample_stack : list Z := List.repeat 170 576.

Lemma sample_stack_bytes : bytes sample_stack.
Proof. unfold sample_stack. generalize 576%nat. intros n. induction n; simpl; by constructor. Qed.

Lemma null_op_typed : op_typed null_op.
Proof. constructor; simpl; unfold is_u16, is_u32, is_u64, is_byte; lia. Qed.

Lemma sample_world_ok inbox : world_ok (sample_world inbox).
Proof.
  split; [|vm_compute; repeat constructor; discriminate|done|].
  - vm_compute. repeat (constructor; [repeat constructor; discriminate|]). constructor.
  - pose proof null_op_typed. repeat constructor; simpl; unfold is_u16, is_u32, is_u64, is_byte; lia.
Qed.

Section Operate.
Context {E : Type} `{PalLaws E}.
Context (addr1 addr2 : Z) (stack1 stack2 : list Z) (count : nat).
Implicit Types (w : world E).

(** The circumstances of a call of [exo_operate]: the two datagram buffers on the
    stack, the caller's buffers and a bounded number of waiting datagrams. *)
Definition callable w : Prop :=
  bytes stack1 /\ zlen stack1 = 576 /\ bytes stack2 /\ zlen stack2 = 576 /\
  world_ok w /\ pending (w_env w) < 2 ^ 64.

Definition operate w : res (exo_state * world E) := exo_operate addr1 stack1 addr2 stack2 count w.

Lemma operate_spec w : callable w ->
  ends (operate w) (fun r => advances w (snd r) /\ reports count (fst r) (snd r)).
Proof. intros (? & ? & ? & ? & ? & ?). by apply operate_ends. Qed.

(** A finished request outside slot 0 has no transition. *)
Lemma finished_stuck i o o' : i <> 0%nat ->
  exo_is_op_finished o = true \/ op_state o = EXO_REQUEST_NULL -> rtc (op_step i) o o' -> o' = o.
Proof.
  intros Hi Hf Hs. destruct Hs as [|o x o' Hs _]; [done|]. exfalso.
  assert (Hst : op_state o = EXO_REQUEST_SUCCESS \/ op_state o = EXO_REQUEST_ERROR \/
                op_state o = EXO_REQUEST_NULL).
  { destruct Hf as [Hf|]; [|auto]. unfold exo_is_op_finished in Hf. apply orb_true_iff in Hf as [Hf|Hf];
      apply bool_decide_eq_true in Hf; auto. }
  destruct Hs; unfold in_flight in *; intuition congruence.
Qed.

(** ** Reachable states *)

(** The calls a program makes on one of its requests. *)
Inductive api_call (o : exo_op) : exo_op -> Prop :=
| call_write alias value : api_call o (exo_write o alias value)
| call_read alias value n : is_u64 n -> api_call o (exo_read o alias value n)
| call_subscribe alias value n : is_u64 n -> api_call o (exo_subscribe o alias value n)
| call_activate : api_call o (exo_activate o)
| call_done : api_call o (exo_op_done o)
| call_init : api_call o (exo_op_init o).

Lemma api_call_typed o o' : op_typed o -> api_call o o' -> op_typed o'.
Proof.
  intros [? ? ? ? ? ? ?] [ | | | | |].
  1-4,6: constructor; simpl; unfold is_u16, is_u32, is_u64, is_byte in *; lia.
  unfold exo_op_done. destruct (exo_is_op_subscribe o); [by constructor|].
  constructor; simpl; unfold is_u16, is_u32, is_u64, is_byte; lia.
Qed.

(** The requests of a program that initialises them, calls the functions of the
    library on them and runs [exo_operate] in any state of the client. *)
Inductive reachable : list exo_op -> Prop :=
| reach_init ops : Forall (fun o => exists x, o = exo_op_init x) ops -> reachable ops
| reach_call ops i o o' : reachable ops -> ops !! i = Some o -> api_call o o' ->
    reachable (<[i := o']> ops)
| reach_operate w r w' : reachable (w_ops w) -> callable w -> operate w = Ok (r, w') ->
    reachable (w_ops w').

(** What every reachable request satisfies. *)
Record op_inv (o : exo_op) : Prop := mk_op_inv {
  inv_null : op_type o = EXO_NULL <-> op_state o = EXO_REQUEST_NULL;
  inv_sub : op_state o = EXO_REQUEST_SUBSCRIBED \/ op_state o = EXO_REQUEST_SUB_ACK \/
            op_state o = EXO_REQUEST_SUB_ACK_NEW -> op_type o = EXO_SUBSCRIBE;
  inv_tkl : op_tkl o = 0;
  inv_retries : 0 <= op_retries o <= COAP_MAX_RETRANSMIT
}.

Lemma op_inv_init x : op_inv (exo_op_init x).
Proof. constructor; simpl; unfold COAP_MAX_RETRANSMIT; intuition (congruence || lia). Qed.

Lemma op_inv_call o o' : op_inv o -> api_call o o' -> op_inv o'.
Proof.
  intros [Hn Hs Ht Hr] [].
  1-4: constructor; simpl; intuition congruence.
  - unfold exo_op_done. unfold exo_is_op_subscribe. case_bool_decide as Hty; [|apply op_inv_init].
    constructor; simpl; intuition congruence.
  - apply op_inv_init.
Qed.

Lemma op_inv_step i o o' : op_inv o -> op_step i o o' -> op_inv o'.
Proof.
  intros [Hn Hs Ht Hr] Hstep.
  destruct Hstep; try apply op_inv_init;
    constructor; simpl; unfold in_flight, retransmitted in *; try (intuition congruence).
  unfold COAP_MAX_RETRANSMIT in *. rewrite u8_id by (unfold is_byte; lia). lia.
Qed.

Lemma op_inv_steps i o o' : rtc (op_step i) o o' -> op_inv o -> op_inv o'.
Proof. induction 1; eauto using op_inv_step. Qed.

Lemma reachable_inv ops : reachable ops -> Forall op_inv ops.
Proof.
  induction 1 as [ops Hi|ops i o o' _ IH Ho Hc|w r w' _ IH Hw Ho].
  - eapply Forall_impl; [exact Hi|]. intros o [x ->]. apply op_inv_init.
  - apply Forall_insert; [done|]. eapply op_inv_call; [|exact Hc]. by eapply Forall_lookup_1.
  - pose proof (operate_spec w Hw) as Hs. rewrite Ho in Hs. destruct Hs as [Ha _]. simpl in Ha.
    apply Forall_lookup_2. intros i o Hi. apply adv_ops in Ha. pose proof (ops_steps_length _ _ Ha) as Hl.
    destruct (lookup_lt_is_Some_2 (w_ops w) i) as [o0 Ho0].
    { rewrite <- Hl. by eapply lookup_lt_Some. }
    destruct (ops_steps_slot _ _ i o0 Ha Ho0) as (o1 & Ho1 & Hst). assert (o1 = o) as -> by congruence.
    eapply op_inv_steps; [exact Hst|]. by eapply Forall_lookup_1.
Qed.

(** ** Theorems *)

(** C1. [exo_operate] refines the abstract life of a request, whatever datagrams
    arrive: it terminates, and a call without undefined behaviour takes the array
    of requests through a sequence of the transitions [op_step] only; it keeps the
    vendor, model and serial number, the sizes of all buffers and of the CIK. *)
Theorem operate_refines w :
  callable w ->
  ends (operate w) (fun '(_, w') =>
    ops_steps (w_ops w) (w_ops w') /\
    w_vendor w' = w_vendor w /\ w_model w' = w_model w /\ w_serial w' = w_serial w /\
    map length (w_heap w') = map length (w_heap w) /\ length (w_cik w') = length (w_cik w) /\ world_ok w').
Proof.
  intros Hw. eapply ends_mono; [by apply operate_spec|]. intros [r w'] [Ha _]. simpl in Ha.
  destruct (adv_identity _ _ Ha) as (? & ? & ?). split; [apply (adv_ops _ _ Ha)|].
  repeat (split; [done|]). split; [apply (adv_heap _ _ Ha)|]. split; [apply (adv_cik _ _ Ha)|].
  apply (adv_ok _ _ Ha), Hw.
Qed.

(** A call without undefined behaviour changes no byte outside the value buffers,
    whatever datagrams arrive. *)
Lemma operate_protects w b j :
  callable w -> protected (w_ops w) b j ->
  ends (operate w) (fun '(_, w') => byte_of (w_heap w') b j = byte_of (w_heap w) b j).
Proof.
  intros Hw Hp. eapply ends_mono; [by apply operate_spec|]. intros [r w'] [Ha _].
  by apply (adv_protected _ _ Ha).
Qed.

(** C6. The state [exo_operate] returns tells the truth about the requests it
    leaves (after a call without undefined behaviour): [EXO_ERROR] exactly when the
    client is not initialised, in which case the call changes nothing; otherwise
    [EXO_BUSY] exactly when a request is new, [EXO_WAITING] exactly when none is new
    but one is pending, [EXO_IDLE] exactly when none is new or pending. *)
Theorem operate_reports w :
  callable w ->
  (w_device w = EXO_STATE_UNINITIALIZED -> operate w = Ok (EXO_ERROR, w)) /\
  (w_device w <> EXO_STATE_UNINITIALIZED -> ends (operate w) (fun '(r, w') =>
    let has s := exists j o, (j < count)%nat /\ w_ops w' !! j = Some o /\ op_state o = s in
    (r = EXO_BUSY /\ has EXO_REQUEST_NEW) \/
    (r = EXO_WAITING /\ ~ has EXO_REQUEST_NEW /\ has EXO_REQUEST_PENDING) \/
    (r = EXO_IDLE /\ ~ has EXO_REQUEST_NEW /\ ~ has EXO_REQUEST_PENDING))).
Proof.
  intros Hw. split; intros Hd.
  - unfold operate, exo_operate, bindM, gets. simpl. by rewrite decide_True.
  - eapply ends_mono; [by apply operate_spec|]. intros [r w'] [Ha Hr]. simpl in Ha, Hr.
    assert (Hd' : w_device w' <> EXO_STATE_UNINITIALIZED) by (by destruct (adv_device _ _ Ha) as [->| ->]).
    destruct r; cbn in Hr |- *; tauto.
Qed.

(** C7. A request that is finished (success or error) or unused stays exactly as it
    is until the program looks at it, whatever arrives: [exo_operate] does not
    touch it, unless it sits in slot 0, which the library uses for activations. *)
Theorem finished_requests_stable w i o :
  callable w -> i <> 0%nat -> w_ops w !! i = Some o ->
  exo_is_op_finished o = true \/ op_state o = EXO_REQUEST_NULL ->
  ends (operate w) (fun '(_, w') => w_ops w' !! i = Some o).
Proof.
  intros Hw Hi Ho Hf. eapply ends_mono; [by apply operate_spec|]. intros [r w'] [Ha _]. simpl in Ha.
  destruct (ops_steps_slot _ _ i o (adv_ops _ _ Ha) Ho) as (o' & Ho' & Hs).
  by rewrite (finished_stuck i o o' Hi Hf Hs) in Ho'.
Qed.

(** C5. In every state a program can reach, a request has no type exactly when it
    has no state, so the pending null request the code calls impossible is
    impossible; only subscriptions are in the states of a subscription; at most
    [COAP_MAX_RETRANSMIT] retransmissions are counted; and the token length of the
    request, from which retransmissions take the length of the token, is 0. *)
Theorem reachable_requests ops i o :
  reachable ops -> ops !! i = Some o ->
  (op_type o = EXO_NULL <-> op_state o = EXO_REQUEST_NULL) /\
  (op_state o = EXO_REQUEST_SUBSCRIBED \/ op_state o = EXO_REQUEST_SUB_ACK \/
   op_state o = EXO_REQUEST_SUB_ACK_NEW -> op_type o = EXO_SUBSCRIBE) /\
  0 <= op_retries o <= COAP_MAX_RETRANSMIT /\ op_tkl o = 0.
Proof.
  intros Hr Ho. destruct (Forall_lookup_1 _ _ _ _ (reachable_inv ops Hr) Ho) as [? ? ? ?]. auto.
Qed.

(** The device state [EXO_STATE_BAD_CIK] is never entered: a client that is
    initialised or good stays one of the two through every [exo_operate]. *)
Theorem bad_cik_never_entered w :
  callable w -> w_device w = EXO_STATE_INITIALIZED \/ w_device w = EXO_STATE_GOOD ->
  ends (operate w) (fun '(_, w') =>
    w_device w' = EXO_STATE_GOOD \/
    w_device w' = EXO_STATE_INITIALIZED /\ w_device w = EXO_STATE_INITIALIZED).
Proof.
  intros Hw Hd. eapply ends_mono; [by apply operate_spec|]. intros [r w'] [Ha _]. simpl in Ha.
  destruct (adv_device _ _ Ha) as [Hd'|Hd']; [rewrite Hd'|by left]. destruct Hd; auto.
Qed.
End Operate.

(** ** Instances *)

Lemma sample_callable inbox : zlen inbox < 2 ^ 64 -> callable sample_stack sample_stack (sample_world inbox).
Proof.
  intros Hl. split; [apply sample_stack_bytes|]. split; [done|]. split; [apply sample_stack_bytes|].
  split; [done|]. split; [apply sample_world_ok|change (zlen inbox + 0 < 2 ^ 64); lia].
Qed.

(** An acknowledgement with the value "42" for the message id 7, and rubbish. *)
Definition sample_inbox : list Posix.recv_event :=
  [Posix.Datagram [1; 2; 3]; Posix.Datagram [0x60; 0x45; 0; 7; 255; 52; 50]].

Lemma operate_refines_witness :
  ends (operate 4096 8192 sample_stack sample_stack 3 (sample_world sample_inbox)) (fun '(_, w') =>
    ops_steps (w_ops (sample_world sample_inbox)) (w_ops w')).
Proof.
  eapply ends_mono; [apply (operate_refines 4096 8192 sample_stack sample_stack 3 (sample_world sample_inbox))|].
  - apply sample_callable. reflexivity.
  - intros [r w'] (Hs & _). exact Hs.
Defined.

Lemma operate_reports_witness :
  ends (operate 4096 8192 sample_stack sample_stack 3 (sample_world sample_inbox)) (fun '(r, _) =>
    r = EXO_BUSY \/ r = EXO_WAITING \/ r = EXO_IDLE).
Proof.
  assert (Hc : callable sample_stack sample_stack (sample_world sample_inbox)) by (apply sample_callable; reflexivity).
  eapply ends_mono.
  - exact (proj2 (operate_reports 4096 8192 sample_stack sample_stack 3 (sample_world sample_inbox) Hc) ltac:(discriminate)).
  - intros [r w'] Hr. cbn beta iota zeta in Hr. destruct Hr as [[Hr _]|[[Hr _]|[Hr _]]]; auto.
Defined.

Lemma finished_requests_stable_witness :
  ends (operate 4096 8192 sample_stack sample_stack 3 (sample_world sample_inbox)) (fun '(_, w') =>
    w_ops w' !! 2%nat = Some null_op).
Proof.
  apply (finished_requests_stable 4096 8192 sample_stack sample_stack 3 (sample_world sample_inbox) 2 null_op).
  - apply sample_callable. reflexivity.
  - discriminate.
  - reflexivity.
  - right. reflexivity.
Defined.

Lemma reachable_requests_witness :
  op_type (exo_write null_op (Some 3%nat) (Some 4%nat)) = EXO_NULL <->
  op_state (exo_write null_op (Some 3%nat) (Some 4%nat)) = EXO_REQUEST_NULL.
Proof.
  apply (reachable_requests 4096 8192 sample_stack sample_stack 1 (E := Posix.os)
    [exo_write null_op (Some 3%nat) (Some 4%nat)] 0 (exo_write null_op (Some 3%nat) (Some 4%nat))).
  - apply (reach_call 4096 8192 sample_stack sample_stack 1 [null_op] 0 null_op).
    + apply reach_init. constructor; [exists null_op; reflexivity|constructor].
    + reflexivity.
    + constructor.
  - reflexivity.
Defined.

Lemma bad_cik_never_entered_witness :
  ends (operate 4096 8192 sample_stack sample_stack 3 (sample_world sample_inbox)) (fun '(_, w') =>
    w_device w' = EXO_STATE_GOOD).
Proof.
  eapply ends_mono; [apply (bad_cik_never_entered 4096 8192 sample_stack sample_stack 3 (sample_world sample_inbox))|].
  - apply sample_callable. reflexivity.
  - right. reflexivity.
  - intros [r w'] [H|[_ H]]; [exact H|discriminate].
Defined.
