(* ===== verification/ExoHandleFacts.v ===== *)
(** * The Exosite client: what a well-formed message does to the requests

    Lemmas about the handlers of [exo_process_waiting_datagrams] for a packet
    that holds a message: which request it is for, and what happens to it. *)

From S2P Require Import Prelude Mem CoapDefs CoapGet CoapSet CoapMessage CoapGetFacts CoapSetFacts Pal ExoDefs ExoBuild ExoProcess ExoRules.

(** The message [m] is addressed to the request [o]. *)
Definition matches (m : message) (o : exo_op) : bool :=
  if (m_type m =? CT_CON) || (m_type m =? CT_NON) then
    bool_decide (op_state o = EXO_REQUEST_SUBSCRIBED) && (le_value (m_token m) =? op_token o)
  else if m_type m =? CT_ACK then
    bool_decide (op_state o = EXO_REQUEST_PENDING) && (op_mid o =? m_mid m)
  else
    (bool_decide (op_state o = EXO_REQUEST_PENDING) || bool_decide (op_state o = EXO_REQUEST_SUBSCRIBED))
    && ((op_mid o =? m_mid m) && (op_token o =? le_value (m_token m))).

(** Sending a packet that holds a message sends its encoding. *)
Lemma send_pdu_rep {E} `{Pal E} pdu m (w : world E) rc e :
  represents pdu m -> exopal_udp_send (encode m) (w_env w) = (rc, e) -> send_pdu pdu w = Ok (rc, set_env e w).
Proof.
  intros HR He. unfold send_pdu, bindM, lift. destruct (rep_buf _ _ HR) as [tail Hb].
  rewrite Hb, load_bytes_prefix by apply (rep_len _ _ HR). cbn [rbind]. unfold platform. by rewrite He.
Qed.

Section Handle.
Context {E : Type} `{Pal E}.
Context (pdu : coap_pdu) (m : message) (HR : represents pdu m).
Implicit Types (w : world E).

Lemma type_range : m_type m = 0 \/ m_type m = 1 \/ m_type m = 2 \/ m_type m = 3.
Proof. pose proof (wf_type _ (rep_wf _ _ HR)). lia. Qed.

(** A request the message is not for is left alone and the search goes on. *)
Lemma handle_op_other w i o : w_ops w !! i = Some o -> matches m o = false ->
  handle_op pdu i w = Ok (false, w).
Proof.
  intros Ho Hm. unfold handle_op, bindM, lift. rewrite (get_type_rep pdu m HR). cbn [rbind].
  unfold matches in Hm. destruct type_range as [Ht|[Ht|[Ht|Ht]]]; rewrite Ht in Hm |- *; cbn in Hm; cbn [coap_type_val Z.eqb Pos.eqb orb].
  - unfold handle_notification, bindM, get_op, lift. rewrite Ho. cbn [rbind].
    destruct (bool_decide _); [|done]. rewrite (get_token_rep pdu m HR). cbn [rbind]. simpl in Hm. by rewrite Hm.
  - unfold handle_notification, bindM, get_op, lift. rewrite Ho. cbn [rbind].
    destruct (bool_decide _); [|done]. rewrite (get_token_rep pdu m HR). cbn [rbind]. simpl in Hm. by rewrite Hm.
  - unfold handle_ack, bindM, get_op, lift. rewrite Ho. cbn [rbind].
    destruct (bool_decide _); [|done]. rewrite (get_mid_rep pdu m HR). cbn [rbind]. simpl in Hm. by rewrite Hm.
  - unfold handle_rst, bindM, get_op, lift. rewrite Ho. cbn [rbind].
    destruct (_ || _); [|done]. rewrite (get_mid_rep pdu m HR). cbn [rbind]. simpl in Hm.
    destruct (op_mid o =? m_mid m); [|done]. rewrite (get_token_rep pdu m HR). cbn [rbind]. simpl in Hm. by rewrite Hm.
Qed.

(** The first request from [i] on that the message is for. *)
Lemma match_ops_skip n k : forall i w,
  (forall j, (i <= j < i + k)%nat -> exists o, w_ops w !! j = Some o /\ matches m o = false) -> (k <= n)%nat ->
  match_ops pdu i n w = match_ops pdu (i + k) (n - k) w.
Proof.
  revert n. induction k as [|k IH]; intros n i w Hj Hk.
  - by rewrite Nat.add_0_r, Nat.sub_0_r.
  - destruct n as [|n]; [lia|]. cbn [match_ops]. unfold bindM.
    destruct (Hj i ltac:(lia)) as (o & Ho & Hm). rewrite (handle_op_other w i o Ho Hm). cbn [rbind].
    rewrite (IH n (S i) w).
    + by replace (S i + k)%nat with (i + S k)%nat by lia.
    + intros j Hj'. apply Hj. lia.
    + lia.
Qed.

Lemma match_ops_none n w :
  (forall j, (j < n)%nat -> exists o, w_ops w !! j = Some o /\ matches m o = false) ->
  match_ops pdu 0 n w = Ok (false, w).
Proof.
  intros Hj. rewrite (match_ops_skip n n); [|intros; apply Hj; lia|done]. by rewrite Nat.sub_diag.
Qed.

(** ** Delivery *)

Lemma deliver_payload w i o b blk pl :
  w_ops w !! i = Some o -> op_value o = Some b -> w_heap w !! b = Some blk ->
  m_payload m = Some pl -> pl <> [] -> zlen pl + 1 <= op_value_max o -> op_value_max o <= zlen blk ->
  op_value_max o < 2 ^ 64 ->
  exists rest, blk = take (length pl + 1) blk ++ rest /\
  deliver i pdu (payload_of m) w = Ok (true, set_heap (<[b := pl ++ 0 :: rest]> (w_heap w)) w).
Proof.
  intros Ho Hv Hb Hp Hne Hmax Hblk Hsz. exists (drop (length pl + 1) blk). split; [by rewrite take_drop|].
  assert (0 < zlen pl) by (destruct pl; [done|len_lia]).
  unfold deliver, bindM, get_op. rewrite Ho. cbn [rbind]. unfold payload_of. rewrite Hp. cbn [pl_len pl_val].
  rewrite (proj2 (Z.eqb_neq _ 0)) by lia. rewrite size_t_id, (proj2 (Z.ltb_ge _ _)) by lia. rewrite Hv.
  rewrite bool_decide_eq_false_2 by done. cbn [orb]. unfold deref. rewrite Hb. cbn [rbind].
  unfold lift, memcpy. rewrite (payload_bytes pdu m HR pl Hp). cbn [rbind].
  destruct (split_at blk (zlen pl)) as (x & y & -> & Hx); [lia|]. rewrite zlen_app in Hblk.
  assert (Hlx : length x = length pl) by (unfold zlen in Hx; lia).
  rewrite (store_bytes_at [] x y) by done. cbn [rbind app].
  destruct y as [|c y]; [rewrite zlen_nil in Hblk; lia|]. rewrite store_at by done. cbn [rbind].
  unfold put_block. rewrite (proj2 (Nat.ltb_lt _ _)) by (by eapply lookup_lt_Some). cbn [rbind].
  unfold retM. do 5 f_equal. rewrite drop_app_ge by lia. rewrite Hlx.
  by replace (length pl + 1 - length pl)%nat with 1%nat by lia.
Qed.

Lemma deliver_too_large w i o pl :
  w_ops w !! i = Some o -> m_payload m = Some pl -> pl <> [] -> op_value_max o < zlen pl + 1 ->
  deliver i pdu (payload_of m) w =
  Ok (false, set_ops (<[i := op_set_state EXO_REQUEST_ERROR o]> (w_ops w)) w).
Proof.
  intros Ho Hp Hne Hmax. pose proof (encode_fits pdu m HR) as Hf.
  pose proof (opts_pos_split m (m_options m) [] ltac:(by rewrite app_nil_r)) as Hl.
  pose proof (opts_pos_le pdu m HR (m_options m) [] ltac:(by rewrite app_nil_r)).
  rewrite Hp in Hl. cbn [encode_options encode_payload] in Hl. autorewrite with zlen in Hl.
  assert (0 < zlen pl) by (destruct pl; [done|len_lia]).
  unfold deliver, bindM, get_op. rewrite Ho. cbn [rbind]. unfold payload_of. rewrite Hp. cbn [pl_len pl_val].
  rewrite (proj2 (Z.eqb_neq _ 0)) by lia. rewrite size_t_id, (proj2 (Z.ltb_lt _ _)) by lia.
  cbn [orb]. unfold upd_op. by rewrite Ho.
Qed.

Lemma deliver_empty w i o b c blk :
  w_ops w !! i = Some o -> op_value o = Some b -> w_heap w !! b = Some (c :: blk) ->
  default [] (m_payload m) = [] ->
  deliver i pdu (payload_of m) w = Ok (false, set_heap (<[b := 0 :: blk]> (w_heap w)) w).
Proof.
  intros Ho Hv Hb Hp. unfold deliver, bindM, get_op. rewrite Ho. cbn [rbind].
  replace (pl_len (payload_of m) =? 0) with true.
  2: { unfold payload_of. destruct (m_payload m) as [pl|]; [|done]. simpl in Hp. by subst. }
  rewrite Hv. unfold deref. rewrite Hb. cbn [rbind]. unfold lift. rewrite store_0. cbn [rbind].
  unfold put_block. by rewrite (proj2 (Nat.ltb_lt _ _)) by (by eapply lookup_lt_Some).
Qed.

(** What delivery does, in all cases: an empty payload clears the first byte, a
    payload that does not fit fails the request, any other is copied and terminated. *)
Lemma deliver_result w i o b blk :
  w_ops w !! i = Some o -> op_value o = Some b -> w_heap w !! b = Some blk ->
  0 < zlen blk -> op_value_max o <= zlen blk -> op_value_max o < 2 ^ 64 ->
  let pl := default [] (m_payload m) in
  deliver i pdu (payload_of m) w = Ok
    (if decide (pl = []) then (false, set_heap (<[b := 0 :: drop 1 blk]> (w_heap w)) w)
     else if op_value_max o <? zlen pl + 1 then
       (false, set_ops (<[i := op_set_state EXO_REQUEST_ERROR o]> (w_ops w)) w)
     else (true, set_heap (<[b := pl ++ 0 :: drop (length pl + 1) blk]> (w_heap w)) w)).
Proof.
  intros Ho Hv Hb Hl Hblk Hsz pl. destruct (decide (pl = [])) as [Hp|Hp].
  - destruct blk as [|c blk]; [by destruct (Z.lt_irrefl 0)|]. by apply (deliver_empty w i o b c blk).
  - assert (Hpl : m_payload m = Some pl) by (unfold pl in *; by destruct (m_payload m)).
    destruct (Z.ltb_spec (op_value_max o) (zlen pl + 1)) as [Hlt|Hge]; [by apply (deliver_too_large w i o pl)|].
    destruct (deliver_payload w i o b blk pl Ho Hv Hb Hpl Hp Hge Hblk Hsz) as (rest & Hr & ->).
    rewrite <- (take_drop (length pl + 1) blk) in Hr at 1. by apply app_inv_head in Hr as <-.
Qed.

(** ** Acknowledgements *)

(** An acknowledgement for request [i] goes to the handler of its code class. *)
Lemma ack_dispatch w i o :
  w_ops w !! i = Some o -> m_type m = CT_ACK -> op_state o = EXO_REQUEST_PENDING -> op_mid o = m_mid m ->
  m_code m / 32 = 2 -> handle_op pdu i w = handle_success pdu i w.
Proof.
  intros Ho Ht Hst Hmid Hc. unfold handle_op, bindM, lift. rewrite (get_type_rep pdu m HR). cbn [rbind].
  rewrite Ht. cbn [coap_type_val Z.eqb Pos.eqb orb]. unfold handle_ack, bindM, get_op, lift. rewrite Ho. cbn [rbind].
  rewrite bool_decide_eq_true_2 by done. rewrite (get_mid_rep pdu m HR). cbn [rbind].
  rewrite (proj2 (Z.eqb_eq _ _) Hmid). unfold retM at 1. cbn [rbind].
  rewrite (get_class_rep pdu m HR). cbn [rbind]. by rewrite Hc.
Qed.

Lemma success_type w i o : w_ops w !! i = Some o ->
  handle_success pdu i w =
  match op_type o with
  | EXO_WRITE => Ok (true, set_ops (<[i := op_set_state EXO_REQUEST_SUCCESS o]> (w_ops w)) w)
  | EXO_NULL => Ok (false, w)
  | _ => handle_success pdu i w
  end.
Proof.
  intros Ho. destruct (op_type o) eqn:Ety; try done; unfold handle_success, bindM, get_op; rewrite Ho;
    cbn [rbind]; rewrite Ety; [done|]. unfold upd_op. by rewrite Ho.
Qed.

Lemma success_read w i o b blk pl :
  w_ops w !! i = Some o -> op_type o = EXO_READ -> op_value o = Some b -> w_heap w !! b = Some blk ->
  m_payload m = Some pl -> pl <> [] -> zlen pl + 1 <= op_value_max o -> op_value_max o <= zlen blk ->
  op_value_max o < 2 ^ 64 ->
  exists rest, blk = take (length pl + 1) blk ++ rest /\
  handle_success pdu i w = Ok (true,
    set_ops (<[i := op_set_state EXO_REQUEST_SUCCESS o]> (w_ops w))
      (set_heap (<[b := pl ++ 0 :: rest]> (w_heap w)) w)).
Proof.
  intros Ho Hty Hv Hb Hp Hne Hmax Hblk Hsz.
  destruct (deliver_payload w i o b blk pl Ho Hv Hb Hp Hne Hmax Hblk Hsz) as (rest & Hr & Hd).
  exists rest. split; [done|]. unfold handle_success, bindM, get_op. rewrite Ho. cbn [rbind]. rewrite Hty.
  unfold lift. rewrite (get_payload_rep pdu m HR). cbn [rbind]. rewrite Hd. cbn [rbind].
  unfold upd_op. cbn [set_heap w_ops]. by rewrite Ho.
Qed.

Lemma success_read_other w i o w' :
  w_ops w !! i = Some o -> op_type o = EXO_READ \/ op_type o = EXO_SUBSCRIBE ->
  deliver i pdu (payload_of m) w = Ok (false, w') -> handle_success pdu i w = Ok (true, w').
Proof.
  intros Ho Hty Hd. unfold handle_success, bindM, get_op. rewrite Ho. cbn [rbind].
  destruct Hty as [-> | ->]; unfold lift; rewrite (get_payload_rep pdu m HR); cbn [rbind]; by rewrite Hd.
Qed.

(** A read that gets a success response, in all cases. *)
Lemma success_read_result w i o b blk :
  w_ops w !! i = Some o -> op_type o = EXO_READ -> op_value o = Some b -> w_heap w !! b = Some blk ->
  0 < zlen blk -> op_value_max o <= zlen blk -> op_value_max o < 2 ^ 64 ->
  let pl := default [] (m_payload m) in
  handle_success pdu i w = Ok (true,
    if decide (pl = []) then set_heap (<[b := 0 :: drop 1 blk]> (w_heap w)) w
    else if op_value_max o <? zlen pl + 1 then set_ops (<[i := op_set_state EXO_REQUEST_ERROR o]> (w_ops w)) w
    else set_ops (<[i := op_set_state EXO_REQUEST_SUCCESS o]> (w_ops w))
           (set_heap (<[b := pl ++ 0 :: drop (length pl + 1) blk]> (w_heap w)) w)).
Proof.
  intros Ho Hty Hv Hb Hl Hblk Hsz pl. unfold handle_success, bindM, get_op. rewrite Ho. cbn [rbind]. rewrite Hty.
  unfold lift. rewrite (get_payload_rep pdu m HR). cbn [rbind].
  rewrite (deliver_result w i o b blk Ho Hv Hb Hl Hblk Hsz). fold pl. cbn [rbind].
  destruct (decide (pl = [])); [done|]. destruct (_ <? _); [done|]. unfold upd_op. cbn [set_heap w_ops]. by rewrite Ho.
Qed.

(** An activation that is answered with a CIK. *)
Lemma success_activate w i o cik rc e :
  w_ops w !! i = Some o -> op_type o = EXO_ACTIVATE -> m_payload m = Some cik -> zlen cik = 40 ->
  length (w_cik w) = 41%nat ->
  exopal_store_cik (cik ++ [0]) (w_env w) = (rc, e) ->
  handle_success pdu i w = Ok (true,
    mk_world (cik ++ [0]) (w_vendor w) (w_model w) (w_serial w) (w_mid w) EXO_STATE_GOOD (w_heap w)
      (<[i := exo_op_init o]> (w_ops w)) e).
Proof.
  intros Ho Hty Hp Hl Hlc He. unfold handle_success, bindM, get_op. rewrite Ho. cbn [rbind]. rewrite Hty.
  unfold lift. rewrite (get_payload_rep pdu m HR). cbn [rbind]. unfold payload_of. rewrite Hp. cbn [pl_len pl_val].
  rewrite Hl. cbn [CIK_LENGTH Z.eqb Pos.eqb]. unfold gets. cbn [rbind]. unfold memcpy, CIK_LENGTH.
  pose proof (payload_bytes pdu m HR cik Hp) as Hb. rewrite Hl in Hb. rewrite Hb. cbn [rbind].
  destruct (split_at (w_cik w) 40) as (x & y & E0 & Hx); [unfold zlen; lia|]. rewrite E0 in Hlc |- *.
  rewrite length_app in Hlc. assert (Hxn : length x = 40%nat) by (unfold zlen in Hx; lia).
  destruct y as [|c [|? ?]]; simpl in Hlc; try lia.
  rewrite (store_bytes_at [] x [c] cik) by (done || lia). cbn [rbind app].
  rewrite (store_at cik [] c 40 0) by done. cbn [rbind]. unfold puts. cbn [rbind]. unfold upd_op at 1. cbn [set_cik w_ops].
  rewrite Ho. cbn [rbind]. unfold platform. cbn [set_ops set_cik w_env]. change (u8 0) with 0. rewrite He. cbn [rbind].
  unfold upd_op. cbn [set_device set_env set_ops w_ops].
  rewrite list_lookup_insert_eq by (by eapply lookup_lt_Some). cbn [rbind].
  by rewrite list_insert_insert_eq.
Qed.

(** The search stops at the first request the message is for. *)
Lemma match_ops_at n w i :
  (i < n)%nat -> (forall j, (j < i)%nat -> exists o, w_ops w !! j = Some o /\ matches m o = false) ->
  match_ops pdu 0 n w = let* '(found, w') := handle_op pdu i w in
                        if found then Ok (true, w') else match_ops pdu (S i) (n - S i) w'.
Proof.
  intros Hi Hj. rewrite (match_ops_skip n i); [|intros; apply Hj; lia|lia]. simpl.
  destruct (n - i)%nat as [|k] eqn:Ek; [lia|]. replace (n - S i)%nat with k by lia.
  cbn [match_ops]. unfold bindM, retM. by destruct (handle_op pdu i w) as [[[] w']|].
Qed.

Lemma match_ops_found n w i w' :
  (i < n)%nat -> (forall j, (j < i)%nat -> exists o, w_ops w !! j = Some o /\ matches m o = false) ->
  handle_op pdu i w = Ok (true, w') -> match_ops pdu 0 n w = Ok (true, w').
Proof. intros Hi Hj Hh. by rewrite (match_ops_at n w i Hi Hj), Hh. Qed.

(** ** Error responses and resets *)

(** A response that is not a success fails the request; further effects depend on
    the code. *)
Lemma ack_failure w i o :
  w_ops w !! i = Some o -> m_type m = CT_ACK -> op_state o = EXO_REQUEST_PENDING -> op_mid o = m_mid m ->
  m_code m / 32 <> 2 -> m_code m <> CC_UNAUTHORIZED ->
  handle_op pdu i w = Ok (true,
    let w' := set_ops (<[i := op_set_state EXO_REQUEST_ERROR o]> (w_ops w)) w in
    if m_code m =? CC_NOT_FOUND then set_device EXO_STATE_GOOD w' else w').
Proof.
  intros Ho Ht Hst Hmid Hc Hu. unfold handle_op, bindM, lift. rewrite (get_type_rep pdu m HR). cbn [rbind].
  rewrite Ht. cbn [coap_type_val Z.eqb Pos.eqb orb]. unfold handle_ack, bindM, get_op, lift. rewrite Ho. cbn [rbind].
  rewrite bool_decide_eq_true_2 by done. rewrite (get_mid_rep pdu m HR). cbn [rbind].
  rewrite (proj2 (Z.eqb_eq _ _) Hmid). unfold retM at 1. cbn [rbind].
  rewrite (get_class_rep pdu m HR). cbn [rbind]. rewrite (proj2 (Z.eqb_neq _ _) Hc).
  unfold upd_op. rewrite Ho. cbn [rbind]. rewrite (get_code_rep pdu m HR). cbn [rbind].
  rewrite (proj2 (Z.eqb_neq _ _) Hu). by destruct (m_code m =? CC_NOT_FOUND).
Qed.

(** An unauthorized response also looks at slot 0, after the request has failed:
    an activation is queued there if it is unused or its timeout has passed. *)
Lemma ack_unauthorized w i o o0 :
  w_ops w !! i = Some o -> m_type m = CT_ACK -> op_state o = EXO_REQUEST_PENDING -> op_mid o = m_mid m ->
  m_code m = CC_UNAUTHORIZED ->
  let failed := <[i := op_set_state EXO_REQUEST_ERROR o]> (w_ops w) in
  failed !! 0%nat = Some o0 ->
  handle_op pdu i w = Ok (true,
    if decide (op_type o0 = EXO_NULL) then set_ops (<[0%nat := exo_activate o0]> failed) w
    else let '(now, e) := exopal_get_time (w_env w) in
         set_ops (if op_timeout o0 <? now then <[0%nat := exo_activate o0]> failed else failed) (set_env e w)).
Proof.
  intros Ho Ht Hst Hmid Hc failed Ho0. unfold handle_op, bindM, lift. rewrite (get_type_rep pdu m HR). cbn [rbind].
  rewrite Ht. cbn [coap_type_val Z.eqb Pos.eqb orb]. unfold handle_ack, bindM, get_op, lift. rewrite Ho. cbn [rbind].
  rewrite bool_decide_eq_true_2 by done. rewrite (get_mid_rep pdu m HR). cbn [rbind].
  rewrite (proj2 (Z.eqb_eq _ _) Hmid). unfold retM at 1. cbn [rbind].
  rewrite (get_class_rep pdu m HR), Hc. cbn [rbind coap_code_val]. eval_ifs.
  unfold upd_op at 1. rewrite Ho. cbn [rbind]. fold failed.
  rewrite (get_code_rep pdu m HR), Hc. cbn [rbind coap_code_val]. eval_ifs.
  cbn [set_ops w_ops]. rewrite Ho0. cbn [rbind]. destruct (decide (op_type o0 = EXO_NULL)) as [Hn|Hn].
  - rewrite bool_decide_eq_true_2 by done. unfold retM at 1. cbn [rbind]. unfold upd_op.
    cbn [set_ops w_ops]. by rewrite Ho0.
  - rewrite bool_decide_eq_false_2 by done. unfold platform. cbn [set_ops w_env].
    destruct (exopal_get_time (w_env w)) as [now e]. cbn [rbind]. unfold retM at 1. cbn [rbind].
    destruct (op_timeout o0 <? now); [|done]. unfold upd_op. cbn [set_ops set_env w_ops]. by rewrite Ho0.
Qed.

(** A reset with the message id and the token of a request fails it. *)
Lemma reset_fails w i o :
  w_ops w !! i = Some o -> m_type m = CT_RST -> matches m o = true ->
  handle_op pdu i w = Ok (true, set_ops (<[i := op_set_state EXO_REQUEST_ERROR o]> (w_ops w)) w).
Proof.
  intros Ho Ht Hm. unfold matches in Hm. rewrite Ht in Hm. cbn [coap_type_val Z.eqb Pos.eqb orb] in Hm.
  apply andb_true_iff in Hm as [Hst Hm]. apply andb_true_iff in Hm as [Hmid Htok].
  unfold handle_op, bindM, lift. rewrite (get_type_rep pdu m HR). cbn [rbind].
  rewrite Ht. cbn [coap_type_val Z.eqb Pos.eqb orb]. unfold handle_rst, bindM, get_op, lift. rewrite Ho. cbn [rbind].
  rewrite Hst, (get_mid_rep pdu m HR). cbn [rbind]. rewrite Hmid, (get_token_rep pdu m HR). cbn [rbind].
  rewrite Htok. unfold upd_op. by rewrite Ho.
Qed.

(** ** Notifications *)

(** The sequence number the code computes from the bytes of an Observe option. *)
Fixpoint seq_from (j seq : Z) (v : list Z) : Z :=
  match v with
  | [] => seq
  | b :: v' => seq_from (j + 1) (Z.lor (u32 (Z.shiftl seq (8 * j))) b) v'
  end.

Lemma observe_seq_bytes k p v s :
  load_bytes (pdu_buf pdu) p (zlen v) = Ok v -> zlen v <= 4 ->
  observe_seq pdu (mk_option k (zlen v) (Some p)) s = Ok (seq_from 0 s v).
Proof.
  intros Hb Hv.
  assert (Hr : returns (observe_seq pdu (mk_option k (zlen v) (Some p)) s) (fun r => r = seq_from 0 s v)).
  { unfold observe_seq. cbn [opt_len opt_val].
    eapply (loop_bounded _ (fun left '(j, seq) => exists v1 v2, v = v1 ++ v2 /\ j = zlen v1 /\
      left = zlen v2 /\ seq_from 0 s v = seq_from j seq v2) _ (zlen v)); [|by exists [], v|lia].
    intros left [j seq] (v1 & v2 & E2 & -> & -> & Hs). destruct v2 as [|b v2].
    - rewrite app_nil_r in E2. rewrite <- E2. rewrite Z.ltb_irrefl. cbn [returns]. cbn [seq_from] in Hs. congruence.
    - rewrite E2 in Hv |- *. rewrite zlen_app, zlen_cons in *. zlen_pos.
      rewrite (proj2 (Z.ltb_lt _ _)), (proj2 (Z.leb_gt _ _)) by lia.
      rewrite E2 in Hb. rewrite (load_of_bytes _ _ _ v1 b v2 Hb eq_refl). cbn [rbind returns].
      exists (zlen v2). split; [lia|]. exists (v1 ++ [b]), v2. rewrite <- app_assoc.
      split; [done|]. split; [rewrite zlen_app, zlen_cons, zlen_nil; lia|]. split; [done|].
      rewrite E2 in Hs. exact Hs. }
  apply returns_inv in Hr as (? & -> & ->). done.
Qed.

Lemma observe_seq_rep o1 k v rest s :
  m_options m = o1 ++ (k, v) :: rest -> zlen v <= 4 ->
  observe_seq pdu (opt_at m o1 k v) s = Ok (seq_from 0 s v).
Proof.
  intros E1 Hv. pose proof (option_bytes pdu m HR o1 k v rest E1) as Hb. unfold opt_at in *.
  cbn [opt_len opt_val ptr_off] in Hb. by apply observe_seq_bytes.
Qed.

(** More than four bytes: the fifth is combined with a shift by 32. *)
Lemma observe_seq_overwide k p v s :
  load_bytes (pdu_buf pdu) p (zlen v) = Ok v -> 4 < zlen v ->
  observe_seq pdu (mk_option k (zlen v) (Some p)) s = Fault BadShift.
Proof.
  intros Hb Hv. unfold observe_seq. cbn [opt_len opt_val].
  eapply (loop_faults _ (fun left '(j, _) => exists v1 v2, v = v1 ++ v2 /\ j = zlen v1 /\
    j + left = 5 /\ 0 < left) _ 5); [|by exists [], v|lia].
  intros left [j seq] (v1 & v2 & E2 & -> & Hleft & Hpos). rewrite (proj2 (Z.ltb_lt _ _)) by lia.
  destruct (Z.leb_spec 32 (8 * zlen v1)); [by left|right].
  destruct v2 as [|b v2]; [rewrite app_nil_r in E2; subst; lia|].
  rewrite E2 in Hb. rewrite (load_of_bytes _ _ _ v1 b v2 Hb eq_refl). cbn [rbind].
  eexists _, (left - 1). split; [done|]. split; [lia|]. exists (v1 ++ [b]), v2. rewrite <- app_assoc.
  split; [done|]. rewrite zlen_app, zlen_cons, zlen_nil. repeat split; lia.
Qed.

(** The Max-Age of a message: its first Max-Age option if that has one byte. *)
Definition max_age (mm : message) : Z :=
  match find_occ 14 0 [] (m_options mm) with
  | Some (_, [a]) => a
  | _ => 120
  end.

Lemma find_occ_split num occ opts : forall pre o1 v,
  find_occ num occ pre opts = Some (o1, v) -> exists rest, pre ++ opts = o1 ++ (num, v) :: rest.
Proof.
  revert occ. induction opts as [|[k u] opts IH]; intros occ pre o1 v; [done|]. cbn [find_occ].
  destruct (Z.eqb_spec k num) as [->|]; cbn [andb].
  - destruct (_ =? _); [intros [= <- <-]; eauto|]. intros Hf. destruct (IH _ _ _ _ Hf) as [rest Hr].
    exists rest. by rewrite <- app_assoc in Hr.
  - intros Hf. destruct (IH _ _ _ _ Hf) as [rest Hr]. exists rest. by rewrite <- app_assoc in Hr.
Qed.

Lemma find_occ_absent num opts : forall occ pre,
  Forall (fun x => fst x <> num) opts -> find_occ num occ pre opts = None.
Proof.
  induction opts as [|[k u] opts IH]; intros occ pre Hf; [done|]. apply Forall_cons in Hf as [Hk Hf].
  cbn [find_occ]. rewrite (proj2 (Z.eqb_neq k num)) by exact Hk. by apply IH.
Qed.

Lemma max_age_rep : Forall (fun o => 0 < fst o) (m_options m) -> max_age_of pdu = Ok (max_age m).
Proof.
  intros Hpos. unfold max_age_of. cbn [coap_option_number_val].
  rewrite (get_option_by_num_rep pdu m HR 14 0) by (done || lia). cbn [rbind]. unfold by_num_result, max_age.
  destruct (find_occ 14 0 [] (m_options m)) as [[o1 v]|] eqn:Ef.
  - destruct (find_occ_split _ _ _ _ _ _ Ef) as [rest Hr]. simpl in Hr.
    pose proof (option_bytes pdu m HR o1 14 v rest Hr) as Hb. cbn [opt_at opt_num opt_len opt_val ptr_off] in *.
    destruct v as [|a [|a' v]]; [done| |].
    + cbn [zlen length Z.of_nat Pos.of_succ_nat Z.eqb Pos.eqb negb andb].
      rewrite <- (load_of_bytes _ _ _ [] a [] Hb eq_refl). f_equal. unfold zlen. simpl. lia.
    + replace (zlen (a :: a' :: v) =? 1) with false; [done|]. symmetry. apply Z.eqb_neq. len_lia.
  - destruct (existsb _ _); [done|]. unfold end_option. by destruct (m_payload m), (m_options m).
Qed.

#[local] Opaque loop.

(** A notification that is not delivered ends the search and does nothing else. *)
Lemma notification_undelivered sv w w' i o :
  Forall (fun x => 0 < fst x) (m_options m) ->
  (let* opt := coap_get_option_by_num pdu CON_OBSERVE 0 in observe_seq pdu opt 0) = Ok (seq_from 0 0 sv) ->
  w_ops w !! i = Some o -> m_type m = CT_CON \/ m_type m = CT_NON -> m_code m = CC_CONTENT ->
  op_state o = EXO_REQUEST_SUBSCRIBED -> op_token o = le_value (m_token m) ->
  deliver i pdu (payload_of m) w = Ok (false, w') -> handle_op pdu i w = Ok (true, w').
Proof.
  intros Hpos Hof Ho Ht Hc Hst Htok Hd.
  unfold handle_op, bindM, lift. rewrite (get_type_rep pdu m HR). cbn [rbind].
  replace ((m_type m =? CT_CON) || (m_type m =? CT_NON)) with true by (destruct Ht as [-> | ->]; done).
  unfold handle_notification, bindM, get_op, lift. rewrite Ho. cbn [rbind].
  rewrite bool_decide_eq_true_2 by done. rewrite (get_token_rep pdu m HR). cbn [rbind].
  rewrite Htok, Z.eqb_refl, (get_code_rep pdu m HR), Hc. cbn [rbind]. rewrite Z.eqb_refl.
  destruct (coap_get_option_by_num pdu CON_OBSERVE 0) as [opt|]; [|done]. cbn [rbind] in Hof |- *.
  rewrite Hof. cbn [rbind]. rewrite (get_payload_rep pdu m HR). cbn [rbind]. by rewrite Hd.
Qed.

(** What [observe_seq] makes of a message without an Observe option: an option
    behind its place stops the search; otherwise the iteration runs into the
    payload, which is taken for the option if it is the first thing found, and
    else into a null pointer with a length. *)
Lemma observe_missing pl s :
  Forall (fun x => 0 < fst x) (m_options m) -> Forall (fun x => fst x <> 6) (m_options m) ->
  m_payload m = Some pl -> 0 <= pdu_addr pdu -> pdu_addr pdu + pdu_len pdu < 2 ^ 64 ->
  (let* opt := coap_get_option_by_num pdu CON_OBSERVE 0 in observe_seq pdu opt s) =
  if existsb (fun x => 6 <? fst x) (m_options m) then Ok s
  else match m_options m with
       | [] => if zlen pl <=? 4 then Ok (seq_from 0 s pl) else Fault BadShift
       | _ => Fault NullPointer
       end.
Proof.
  intros Hpos Habs Hp Ha Has. cbn [coap_option_number_val].
  rewrite (get_option_by_num_rep pdu m HR 6 0) by (done || lia). cbn [rbind]. unfold by_num_result.
  rewrite find_occ_absent by done. destruct (existsb _ _).
  { unfold observe_seq. by rewrite loop_first. }
  unfold end_option. rewrite Hp. destruct (m_options m) as [|x opts] eqn:Em.
  - pose proof (payload_bytes pdu m HR pl Hp) as Hb. rewrite Em in Hb.
    destruct (Z.leb_spec (zlen pl) 4); [by apply observe_seq_bytes|by apply observe_seq_overwide].
  - assert (0 < pdu_len pdu) by (rewrite (rep_len _ _ HR), (zlen_encode_token m); zlen_pos; lia).
    unfold observe_seq. cbn [opt_len opt_val]. rewrite size_t_id by lia.
    rewrite loop_first; rewrite (proj2 (Z.ltb_lt _ _)) by lia; done.
Qed.

(** A success response to a pending subscription, once its payload is delivered:
    everything else depends on what is read as the Observe option. *)
Lemma subscription_answered w i o b blk now r e1 e2 :
  Forall (fun x => 0 < fst x) (m_options m) ->
  w_ops w !! i = Some o -> op_value o = Some b -> w_heap w !! b = Some blk ->
  0 < zlen blk -> op_value_max o <= zlen blk -> op_value_max o < 2 ^ 64 ->
  exopal_get_time (w_env w) = (now, e1) -> libc_rand e1 = (r, e2) ->
  op_type o = EXO_SUBSCRIBE ->
  let pl := default [] (m_payload m) in
  handle_success pdu i w =
    if decide (pl = []) then Ok (true, set_heap (<[b := 0 :: drop 1 blk]> (w_heap w)) w)
    else if op_value_max o <? zlen pl + 1 then
      Ok (true, set_ops (<[i := op_set_state EXO_REQUEST_ERROR o]> (w_ops w)) w)
    else
      let* seq := let* opt := coap_get_option_by_num pdu CON_OBSERVE 0 in observe_seq pdu opt (op_obs_seq o) in
      Ok (true, set_ops (<[i := op_set_timeout (u64 (now + max_age m * 1000000 + u64 r mod 1500000))
                                  (op_set_obs_seq seq (op_set_state EXO_REQUEST_SUCCESS o))]> (w_ops w))
                  (set_env e2 (set_heap (<[b := pl ++ 0 :: drop (length pl + 1) blk]> (w_heap w)) w))).
Proof.
  intros Hpos Ho Hv Hb Hl Hblk Hsz Htime Hrand Hty pl. pose proof (lookup_lt_Some _ _ _ Ho) as Hi.
  unfold handle_success, bindM, get_op, lift. rewrite Ho. cbn [rbind]. rewrite Hty, (get_payload_rep pdu m HR).
  cbn [rbind]. rewrite (deliver_result w i o b blk Ho Hv Hb Hl Hblk Hsz). fold pl. cbn [rbind].
  destruct (decide (pl = [])); [done|]. destruct (_ <? _); [done|].
  unfold upd_op at 1. cbn [set_heap w_ops]. rewrite Ho. cbn [rbind]. rewrite (max_age_rep Hpos). cbn [rbind].
  destruct (coap_get_option_by_num pdu CON_OBSERVE 0) as [opt|]; [|done]. cbn [rbind].
  destruct (observe_seq pdu opt (op_obs_seq o)) as [seq|]; [|done]. cbn [rbind].
  unfold upd_op at 1. cbn [set_ops w_ops]. rewrite list_lookup_insert_eq by done. cbn [rbind].
  unfold arm_timeout, bindM, platform, rand, platform. cbn [set_ops set_heap set_env w_env]. rewrite Htime. cbn [rbind].
  cbn [set_env w_env]. rewrite Hrand. cbn [rbind]. unfold upd_op. cbn [set_ops set_env w_ops].
  rewrite list_insert_insert_eq, list_lookup_insert_eq by done. cbn [rbind]. by rewrite list_insert_insert_eq.
Qed.

Section Observe.
Context (Hpos : Forall (fun o => 0 < fst o) (m_options m)).
Context (o1 : list (Z * list Z)) (sv : list Z).
Context (Hobs : find_occ 6 0 [] (m_options m) = Some (o1, sv)) (Hsv : zlen sv <= 4).
Context (w : world E) (i : nat) (o : exo_op) (b : nat) (blk pl : list Z).
Context (Ho : w_ops w !! i = Some o) (Hv : op_value o = Some b) (Hb : w_heap w !! b = Some blk).
Context (Hp : m_payload m = Some pl) (Hne : pl <> []).
Context (Hmax : zlen pl + 1 <= op_value_max o) (Hblk : op_value_max o <= zlen blk) (Hsz : op_value_max o < 2 ^ 64).
Context (now r : Z) (e1 e2 : E).
Context (Htime : exopal_get_time (w_env w) = (now, e1)) (Hrand : libc_rand e1 = (r, e2)).

(** When the subscription is renewed: Max-Age from now and up to 1.5 s more. *)
Definition renewal : Z := u64 (now + max_age m * 1000000 + u64 r mod 1500000).

Lemma observe_found s : (let* opt := coap_get_option_by_num pdu CON_OBSERVE 0 in observe_seq pdu opt s) =
  Ok (seq_from 0 s sv).
Proof.
  cbn [coap_option_number_val]. rewrite (get_option_by_num_rep pdu m HR 6 0) by (done || lia). cbn [rbind].
  unfold by_num_result. rewrite Hobs. destruct (find_occ_split _ _ _ _ _ _ Hobs) as [rest Hr].
  by apply (observe_seq_rep o1 6 sv rest).
Qed.

Lemma notification_delivered :
  m_type m = CT_CON \/ m_type m = CT_NON -> m_code m = CC_CONTENT ->
  op_state o = EXO_REQUEST_SUBSCRIBED -> op_token o = le_value (m_token m) ->
  exists rest, blk = take (length pl + 1) blk ++ rest /\
  handle_op pdu i w = Ok (true,
    set_ops (<[i := op_set_timeout renewal
      (if op_obs_seq o =? seq_from 0 0 sv
       then op_set_state EXO_REQUEST_SUB_ACK (op_set_mid (m_mid m) o)
       else op_set_obs_seq (seq_from 0 0 sv)
              (op_set_state EXO_REQUEST_SUB_ACK_NEW (op_set_mid (m_mid m) o)))]> (w_ops w))
      (set_env e2 (set_heap (<[b := pl ++ 0 :: rest]> (w_heap w)) w))).
Proof.
  intros Ht Hc Hst Htok.
  destruct (deliver_payload w i o b blk pl Ho Hv Hb Hp Hne Hmax Hblk Hsz) as (rest & Hr & Hd).
  exists rest. split; [done|]. pose proof (observe_found 0) as Hof. pose proof (lookup_lt_Some _ _ _ Ho) as Hi.
  unfold handle_op, bindM, lift. rewrite (get_type_rep pdu m HR). cbn [rbind].
  replace ((m_type m =? CT_CON) || (m_type m =? CT_NON)) with true by (destruct Ht as [-> | ->]; done).
  unfold handle_notification, bindM, get_op, lift. rewrite Ho. cbn [rbind].
  rewrite bool_decide_eq_true_2 by done. rewrite (get_token_rep pdu m HR). cbn [rbind].
  rewrite Htok, Z.eqb_refl, (get_code_rep pdu m HR), Hc. cbn [rbind]. rewrite Z.eqb_refl.
  destruct (coap_get_option_by_num pdu CON_OBSERVE 0) as [opt|]; [|done]. cbn [rbind] in Hof |- *.
  rewrite Hof. cbn [rbind]. rewrite (get_payload_rep pdu m HR). cbn [rbind]. rewrite Hd. cbn [rbind].
  rewrite (get_mid_rep pdu m HR). cbn [rbind]. unfold upd_op at 1. cbn [set_heap w_ops]. rewrite Ho. cbn [rbind].
  destruct (op_obs_seq o =? seq_from 0 0 sv); cbn [negb]; unfold upd_op at 1; cbn [set_ops w_ops];
    rewrite list_lookup_insert_eq by done; cbn [rbind]; rewrite (max_age_rep Hpos); cbn [rbind];
    unfold arm_timeout, bindM, platform, rand, platform; cbn [set_ops set_heap set_env w_env]; rewrite Htime; cbn [rbind];
    cbn [set_env w_env]; rewrite Hrand; cbn [rbind]; unfold upd_op; cbn [set_ops set_env w_ops];
    rewrite list_insert_insert_eq, list_lookup_insert_eq by done; cbn [rbind]; by rewrite list_insert_insert_eq.
Qed.
End Observe.
End Handle.
