(* ===== verification/ExoSafe.v ===== *)
(** * The Exosite client: absence of undefined behaviour

    When the peer sends CoAP messages and the application's requests point to
    the buffers they claim to have, a call of [exo_operate] has no undefined
    behaviour and leaves the program in a state of which the same is true.  The
    one demand on the contents of a message is on its Observe option, and only
    for programs that subscribe. *)

From S2P Require Import Prelude Mem CoapDefs CoapGet CoapSet CoapMessage CoapGetFacts CoapSetFacts Pal ExoDefs ExoBuild ExoProcess ExoRules ExoBuildFacts ExoHandleFacts.

(** ** The peer *)

(** The Observe option can be read as a sequence number: it has at most four
    bytes, or it is missing and an option behind it, or the lack of a payload,
    ends the search for it. *)
Definition observe_ok (m : message) : Prop :=
  match find_occ 6 0 [] (m_options m) with
  | Some (_, v) => zlen v <= 4
  | None => m_payload m = None \/ existsb (fun o => 6 <? fst o) (m_options m) = true
  end.

(** A datagram is a CoAP message, of any version and type, or too short to be
    one.  [subs] says whether the program subscribes to anything. *)
Definition good_datagram (subs : bool) (bs : list Z) : Prop :=
  zlen bs < 4 \/
  exists m, bs = encode m /\ wf_msg m /\ Forall (fun o => 0 < fst o) (m_options m) /\
    (subs = true -> observe_ok m).

(** A platform on which every datagram that waits is such a one. *)
Class Peer (E : Type) `{PalLaws E} (subs : bool) := {
  quiet : E -> Prop;
  quiet_recv e rc data e' : quiet e -> exopal_udp_recv MINIMUM_DATAGRAM_SIZE e = (rc, data, e') ->
    quiet e' /\ (rc = 0 -> good_datagram subs data);
  quiet_send bs e rc e' : quiet e -> exopal_udp_send bs e = (rc, e') -> quiet e';
  quiet_store c e rc e' : quiet e -> exopal_store_cik c e = (rc, e') -> quiet e';
  quiet_time e t e' : quiet e -> exopal_get_time e = (t, e') -> quiet e';
  quiet_rand e r e' : quiet e -> libc_rand e = (r, e') -> quiet e'
}.

Definition posix_quiet (subs : bool) (o : Posix.os) : Prop :=
  Forall (fun ev => match ev with
                    | Posix.Datagram bs => bytes bs /\ zlen bs <= 576 /\ good_datagram subs bs
                    | Posix.RecvError _ => True
                    end) (Posix.os_inbox o).

Lemma map_u8_id l : bytes l -> List.map u8 l = l.
Proof. induction 1 as [|b l Hb _ IH]; [done|]. simpl. by rewrite u8_id, IH. Qed.

#[export] Instance posix_peer subs : Peer Posix.os subs.
Proof.
  refine {| quiet := posix_quiet subs |}; unfold posix_quiet; cbn.
  - intros e rc data e' Hq. unfold Posix.exopal_udp_recv.
    destruct (Posix.os_inbox e) as [|[bs|n] q] eqn:Ei; [intros [= <- <- <-]; by rewrite Ei|..];
      apply Forall_cons in Hq as [Hev Hq]; [|zcases; by intros [= <- <- <-]].
    destruct Hev as (Hb & Hl & Hg). intros [= <- <- <-]. split; [done|]. intros _.
    assert (Hn : (length bs <= Z.to_nat MINIMUM_DATAGRAM_SIZE)%nat) by (unfold zlen, MINIMUM_DATAGRAM_SIZE in *; lia).
    rewrite take_ge by exact Hn. by rewrite map_u8_id.
  - intros bs e rc e' Hq. unfold Posix.exopal_udp_send.
    destruct (Posix.os_send_fails e) as [|[] f]; intros [= <- <-]; exact Hq.
  - intros c e rc e' Hq. unfold Posix.exopal_store_cik. zcases; intros [= <- <-]; exact Hq.
  - intros e t e' Hq. unfold Posix.exopal_get_time.
    destruct (Posix.os_clock e) as [|[? ?] [|]]; intros [= <- <-]; exact Hq.
  - intros e r e' Hq. unfold Posix.rand. destruct (Posix.os_rand e); intros [= <- <-]; exact Hq.
Defined.

Section Safe.
Context {E : Type} {subs : bool} `{Peer E subs}.

(** [str] are the blocks the application uses as strings. *)
Context (str : nat -> Prop).
Implicit Types (w : world E).

(** ** Programs that are ready for a call *)

Definition subscribing (s : exo_request_state) : Prop :=
  s = EXO_REQUEST_SUBSCRIBED \/ s = EXO_REQUEST_SUB_ACK \/ s = EXO_REQUEST_SUB_ACK_NEW.

(** The states in which the application may look at the value of a request. *)
Definition holds_value (s : exo_request_state) : Prop :=
  s = EXO_REQUEST_SUCCESS \/ s = EXO_REQUEST_SUB_ACK_NEW.

(** The value buffer of a request holds a terminated string. *)
Definition filled (heap : list (list Z)) (o : exo_op) : Prop :=
  exists b blk, op_value o = Some b /\ heap !! b = Some blk /\ 0 ∈ blk.

Record op_ready (heap : list (list Z)) (o : exo_op) : Prop := mk_op_ready {
  rd_alias : op_type o = EXO_READ \/ op_type o = EXO_WRITE \/ op_type o = EXO_SUBSCRIBE ->
    exists b, op_alias o = Some b /\ str b;
  rd_write : op_type o = EXO_WRITE -> exists b, op_value o = Some b /\ str b;
  rd_value : op_type o = EXO_READ \/ op_type o = EXO_SUBSCRIBE ->
    exists b blk, op_value o = Some b /\ ~ str b /\ heap !! b = Some blk /\
      0 < zlen blk /\ op_value_max o <= zlen blk;
  rd_max : op_value_max o < 2 ^ 64;
  rd_state : subscribing (op_state o) -> op_type o = EXO_SUBSCRIBE;
  rd_subs : op_type o = EXO_SUBSCRIBE -> subs = true;
  rd_tkl : op_tkl o = 0;
  rd_mid : 0 <= op_mid o < 65536;
  rd_filled : op_type o = EXO_READ \/ op_type o = EXO_SUBSCRIBE -> holds_value (op_state o) -> filled heap o
}.

Lemma op_ready_keep heap o o' : op_ready heap o ->
  op_type o' = op_type o -> op_alias o' = op_alias o -> op_value o' = op_value o ->
  op_value_max o' = op_value_max o -> op_tkl o' = op_tkl o -> 0 <= op_mid o' < 65536 ->
  (subscribing (op_state o') -> op_type o = EXO_SUBSCRIBE) ->
  (op_type o = EXO_READ \/ op_type o = EXO_SUBSCRIBE -> holds_value (op_state o') ->
     holds_value (op_state o) \/ filled heap o) -> op_ready heap o'.
Proof.
  intros [] Ht Ha Hv Hm Hk ? ? Hf. constructor; rewrite ?Ht, ?Ha, ?Hv, ?Hm, ?Hk; auto.
  intros Hty Hst. unfold filled. rewrite Hv. destruct (Hf Hty Hst) as [Hh|Hh]; [exact (rd_filled0 Hty Hh)|exact Hh].
Qed.

Lemma op_ready_init heap o : op_ready heap (exo_op_init o).
Proof. constructor; simpl; unfold subscribing, holds_value; try lia; intuition congruence. Qed.

Lemma op_ready_activate heap o : op_ready heap o -> op_ready heap (exo_activate o).
Proof. intros []. constructor; simpl; unfold subscribing, holds_value; try lia; try done; intuition congruence. Qed.

Lemma op_ready_done heap o : op_ready heap o -> op_ready heap (exo_op_done o).
Proof.
  intros Hop. unfold exo_op_done, exo_is_op_subscribe. case_bool_decide; [|apply op_ready_init].
  eapply op_ready_keep; [exact Hop|done..|apply (rd_mid _ _ Hop)|done|].
  unfold holds_value. simpl. intuition congruence.
Qed.

(** The first [count] requests are handed to [exo_operate]. *)
Context (count : nat).

Definition is_str (p : ptr) : Prop := exists b, p = Some b /\ str b.

Record ready w : Prop := mk_ready {
  r_ops : Forall (op_ready (w_heap w)) (w_ops w);
  r_count : (count <= length (w_ops w))%nat;
  r_slot : (0 < length (w_ops w))%nat;
  r_str b : str b -> exists blk s, w_heap w !! b = Some blk /\ cstring s blk /\ zlen s < 65536;
  r_vendor : is_str (w_vendor w);
  r_model : is_str (w_model w);
  r_serial : is_str (w_serial w);
  r_cik : length (w_cik w) = 41%nat;
  r_cik_bytes : bytes (w_cik w);
  r_mid : 0 <= w_mid w < 65536;
  r_env : quiet (w_env w)
}.

(** A part of the call runs to its end and keeps the program ready. *)
Definition follows w w' : Prop := ready w' /\ pending (w_env w') <= pending (w_env w).
Definition runs {A} (Q : A -> Prop) (c : M E A) w : Prop :=
  returns (c w) (fun r => follows w (snd r) /\ Q (fst r)).
Abbreviation safe := (runs (fun _ => True)).

Lemma follows_trans w1 w2 w3 : follows w1 w2 -> follows w2 w3 -> follows w1 w3.
Proof. intros [_ ?] [? ?]. split; [done|lia]. Qed.

Lemma follows_refl w : ready w -> follows w w.
Proof. split; [done|lia]. Qed.

Lemma ready_op w i o : ready w -> w_ops w !! i = Some o -> op_ready (w_heap w) o.
Proof. intros Hr. apply Forall_lookup_1, (r_ops _ Hr). Qed.

Lemma ready_lookup w i : ready w -> (i < count)%nat -> exists o, w_ops w !! i = Some o.
Proof. intros Hr Hi. apply lookup_lt_is_Some_2. pose proof (r_count _ Hr). lia. Qed.

Lemma ready_slot w : ready w -> exists o, w_ops w !! 0%nat = Some o.
Proof. intros Hr. apply lookup_lt_is_Some_2, (r_slot _ Hr). Qed.

(** ** The steps that keep a program ready *)

Lemma ready_set_env w e : ready w -> quiet e -> ready (set_env e w).
Proof. intros [] He. by constructor. Qed.

Lemma ready_set_mid w i : ready w -> 0 <= i < 65536 -> ready (set_mid i w).
Proof. intros [] Hi. by constructor. Qed.

Lemma ready_set_device w d : ready w -> ready (set_device d w).
Proof. intros []. by constructor. Qed.

Lemma ready_set_cik w c : ready w -> length c = 41%nat -> bytes c -> ready (set_cik c w).
Proof. intros [] Hc Hb. by constructor. Qed.

Lemma ready_set_op w i o' : ready w -> op_ready (w_heap w) o' -> ready (set_ops (<[i := o']> (w_ops w)) w).
Proof.
  intros [] Ho. constructor; cbn [set_ops w_ops w_heap w_vendor w_model w_serial w_cik w_mid w_env]; auto.
  - by apply Forall_insert.
  - by rewrite length_insert.
  - by rewrite length_insert.
Qed.

Lemma ready_set_block w b blk blk' : ready w -> ~ str b -> w_heap w !! b = Some blk ->
  length blk' = length blk -> 0 ∈ blk' -> ready (set_heap (<[b := blk']> (w_heap w)) w).
Proof.
  intros [] Hs Hb Hl Hz. pose proof (lookup_lt_Some _ _ _ Hb) as Hlt.
  constructor; cbn [set_heap w_ops w_heap w_vendor w_model w_serial w_cik w_mid w_env]; auto.
  - eapply Forall_impl; [exact r_ops0|]. intros o [? ? Hv ? ? ? ? ? Hf]. constructor; auto.
    + intros Ht. destruct (Hv Ht) as (b' & x & ? & ? & Hx & ? & ?). destruct (decide (b' = b)) as [->|].
      * assert (x = blk) as -> by congruence. exists b, blk'. rewrite list_lookup_insert_eq by done.
        unfold zlen in *. rewrite Hl. done.
      * exists b', x. by rewrite list_lookup_insert_ne.
    + intros Ht Hst. destruct (Hf Ht Hst) as (b' & x & ? & Hx & ?). exists b'. destruct (decide (b' = b)) as [->|].
      * exists blk'. by rewrite list_lookup_insert_eq.
      * exists x. by rewrite list_lookup_insert_ne.
  - intros b' Hb'. rewrite list_lookup_insert_ne by (intros ->; done). by apply r_str0.
Qed.

(** ** Rules *)

Lemma safe_ret {A} (Q : A -> Prop) (a : A) w : ready w -> Q a -> runs Q (retM a) w.
Proof. intros Hr HQ. split; [by apply follows_refl|done]. Qed.

Lemma safe_bind {A B} (Q : B -> Prop) (c : M E A) (k : A -> M E B) w (P : A * world E -> Prop) :
  returns (c w) (fun r => follows w (snd r) /\ P r) ->
  (forall a w', ready w' -> P (a, w') -> runs Q (k a) w') -> runs Q (bindM c k) w.
Proof.
  intros Hc Hk. unfold runs, bindM. apply returns_inv in Hc as ([a w'] & -> & Hf & HP). simpl in Hf |- *.
  eapply returns_mono; [by apply Hk; [apply Hf|]|]. intros r [Hr HQ]. split; [by eapply follows_trans|done].
Qed.

Lemma safe_next {A B} (P : A -> Prop) (Q : B -> Prop) (c : M E A) (k : A -> M E B) w :
  runs P c w -> (forall a w', ready w' -> P a -> runs Q (k a) w') -> runs Q (bindM c k) w.
Proof. intros Hc Hk. by apply (safe_bind _ _ _ _ (fun r => P (fst r))). Qed.

Lemma safe_then {A B} (Q : B -> Prop) (c : M E A) (k : A -> M E B) w :
  safe c w -> (forall a w', ready w' -> runs Q (k a) w') -> runs Q (bindM c k) w.
Proof. intros Hc Hk. apply (safe_next (fun _ => True)); auto. Qed.

Lemma safe_lift {A B} (Q : B -> Prop) (c : res A) (k : A -> M E B) w a :
  c = Ok a -> runs Q (k a) w -> runs Q (bindM (lift c) k) w.
Proof. intros ->. done. Qed.

Lemma safe_upd {B} (Q : B -> Prop) i f o (k : unit -> M E B) w :
  ready w -> w_ops w !! i = Some o -> op_ready (w_heap w) (f o) ->
  (forall w', ready w' -> w_ops w' !! i = Some (f o) -> w_heap w' = w_heap w -> runs Q (k tt) w') ->
  runs Q (bindM (upd_op i f) k) w.
Proof.
  intros Hr Ho Hf Hk. eapply bind_upd_op; [exact Ho|].
  apply (Hk (set_ops (<[i := f o]> (w_ops w)) w)); [by apply ready_set_op| |done].
  apply list_lookup_insert_eq. by eapply lookup_lt_Some.
Qed.

Lemma safe_platform {A B} (Q : B -> Prop) (f : E -> A * E) (k : A -> M E B) w :
  ready w -> (forall a e, f (w_env w) = (a, e) -> quiet e /\ pending e <= pending (w_env w)) ->
  (forall a e, ready (set_env e w) -> runs Q (k a) (set_env e w)) -> runs Q (bindM (platform f) k) w.
Proof.
  intros Hr Hq Hk. destruct (f (w_env w)) as [a e] eqn:Hf. destruct (Hq a e eq_refl) as [? ?].
  eapply bind_platform; [exact Hf|]. eapply returns_mono; [apply Hk; by apply ready_set_env|].
  intros r [[? Hp] HQ]. split; [|done]. split; [done|]. simpl in Hp. lia.
Qed.

Lemma safe_get_op {B} (Q : B -> Prop) i o (k : exo_op -> M E B) w :
  w_ops w !! i = Some o -> runs Q (k o) w -> runs Q (bindM (get_op i) k) w.
Proof. apply bind_get_op. Qed.

Lemma safe_gets {A B} (Q : B -> Prop) (f : world E -> A) (k : A -> M E B) w :
  runs Q (k (f w)) w -> runs Q (bindM (gets f) k) w.
Proof. done. Qed.

(** A change of the state outside of the platform. *)
Lemma safe_puts {B} (Q : B -> Prop) f (k : unit -> M E B) w :
  w_env (f w) = w_env w -> runs Q (k tt) (f w) -> runs Q (bindM (puts f) k) w.
Proof.
  intros He Hs. apply bind_puts. eapply returns_mono; [exact Hs|].
  intros r [[? Hp] HQ]. split; [|done]. split; [done|]. by rewrite <- He.
Qed.

Lemma safe_last {A} (Q : A -> Prop) (c : M E A) w : runs Q (bindM c retM) w -> runs Q c w.
Proof. unfold runs, bindM, retM. by destruct (c w) as [[a w']|]. Qed.

Lemma time_quiet e t e' : quiet e -> exopal_get_time e = (t, e') -> quiet e' /\ pending e' <= pending e.
Proof. intros Hq He. split; [by eapply quiet_time|]. by apply time_ok in He as [_ ?]. Qed.

Lemma rand_quiet e r e' : quiet e -> libc_rand e = (r, e') -> quiet e' /\ pending e' <= pending e.
Proof. intros Hq He. split; [by eapply quiet_rand|]. by apply rand_ok in He as [_ ?]. Qed.

Lemma store_quiet c e r e' : quiet e -> exopal_store_cik c e = (r, e') -> quiet e' /\ pending e' <= pending e.
Proof. intros Hq He. split; [by eapply quiet_store|]. by eapply store_ok. Qed.

Lemma send_quiet c e r e' : quiet e -> exopal_udp_send c e = (r, e') -> quiet e' /\ pending e' <= pending e.
Proof. intros Hq He. split; [by eapply quiet_send|]. by eapply send_ok. Qed.

(** A request that changes in its state, its timer, its numbers. *)
Ltac keeps_ready Ho :=
  eapply op_ready_keep; [eapply ready_op; [|exact Ho]; assumption|done..| | |];
  [try done; cbn; try (eapply rd_mid, ready_op; [|exact Ho]; assumption)
  |unfold subscribing; simpl; try (intuition congruence)
  |first [ intros _ _; right; match goal with Hf : filled _ _ |- _ => exact Hf end
         | unfold holds_value; simpl; try (intuition congruence) ]].

(** ** A message against the requests *)

#[local] Opaque loop.

Lemma arm_timeout_safe i age w o : ready w -> w_ops w !! i = Some o -> safe (arm_timeout i age) w.
Proof.
  intros Hr Ho. unfold arm_timeout.
  apply safe_platform; [done|intros; by eapply time_quiet, H2; apply Hr|]. intros now e Hr1.
  apply safe_platform; [done|intros; by eapply rand_quiet, H2; apply Hr1|]. intros r e2 Hr2.
  apply safe_last. eapply safe_upd; [done|exact Ho| |intros; by apply safe_ret].
  keeps_ready Ho. by apply (rd_state _ _ (ready_op w i o Hr Ho)).
Qed.

Section Message.
Context (pdu : coap_pdu) (m : message) (HR : represents pdu m).
Context (Hpos : Forall (fun o => 0 < fst o) (m_options m)) (Hobs : subs = true -> observe_ok m).

Lemma deliver_safe i w o : ready w -> w_ops w !! i = Some o -> op_type o = EXO_READ \/ op_type o = EXO_SUBSCRIBE ->
  returns (deliver i pdu (payload_of m) w) (fun r =>
    follows w (snd r) /\ (fst r = true -> w_ops (snd r) !! i = Some o /\ filled (w_heap (snd r)) o)).
Proof.
  intros Hr Ho Hty. pose proof (ready_op _ _ _ Hr Ho) as Hop.
  destruct (rd_value _ _ Hop Hty) as (b & blk & Hv & Hns & Hb & Hl & Hmax).
  destruct (decide (default [] (m_payload m) = [])) as [Hp|Hp].
  - destruct blk as [|c blk]; [by apply Z.lt_irrefl in Hl|].
    rewrite (deliver_empty pdu m w i o b c blk Ho Hv Hb Hp). simpl. split; [|done].
    split; [|simpl; lia]. eapply ready_set_block; [done..|]. by left.
  - destruct (m_payload m) as [pl|] eqn:Epl; [|done]. simpl in Hp.
    destruct (Z.leb_spec (zlen pl + 1) (op_value_max o)) as [Hfit|Hbig].
    + destruct (deliver_payload pdu m HR w i o b blk pl Ho Hv Hb Epl Hp Hfit Hmax (rd_max _ _ Hop)) as (rest & Hrest & ->).
      assert (Hz : 0 ∈ pl ++ 0 :: rest) by (apply elem_of_app; right; by left).
      simpl. split.
      * split; [|simpl; lia]. eapply ready_set_block; [done..| |done].
        unfold zlen in *. rewrite Hrest. rewrite !length_app, length_take. simpl. lia.
      * intros _. split; [done|]. exists b. eexists. split; [done|]. simpl.
        rewrite list_lookup_insert_eq by (by eapply lookup_lt_Some). by split.
    + rewrite (deliver_too_large pdu m HR w i o pl Ho Epl Hp Hbig). simpl. split; [|done].
      split; [|simpl; lia]. apply ready_set_op; [done|]. keeps_ready Ho.
Qed.

Lemma observe_safe s : observe_ok m -> exists opt seq,
  coap_get_option_by_num pdu CON_OBSERVE 0 = Ok opt /\ observe_seq pdu opt s = Ok seq.
Proof.
  intros Ho. unfold observe_ok in Ho. exists (by_num_result pdu m 6 0). cbn [coap_option_number_val].
  rewrite (get_option_by_num_rep pdu m HR 6 0) by (done || lia). unfold by_num_result.
  destruct (find_occ 6 0 [] (m_options m)) as [[o1 v]|] eqn:Ef.
  - destruct (find_occ_split _ _ _ _ _ _ Ef) as [rest Hrest]. eexists. split; [done|].
    by apply (observe_seq_rep pdu m HR o1 6 v rest).
  - exists s. split; [done|].
    assert (Hn : (if existsb (fun o => 6 <? fst o) (m_options m) then mk_option 0 0 None
                  else end_option pdu m (m_options m)) = mk_option 0 0 None).
    { destruct Ho as [Hp|Hx]; [|by rewrite Hx]. unfold end_option. rewrite Hp. by destruct (existsb _ _). }
    rewrite Hn. unfold observe_seq. by rewrite loop_first.
Qed.

Lemma handle_notification_safe i w : ready w -> (i < count)%nat -> safe (handle_notification pdu i) w.
Proof.
  intros Hr Hi. destruct (ready_lookup w i Hr Hi) as [o Ho]. pose proof (ready_op _ _ _ Hr Ho) as Hop.
  unfold handle_notification. eapply safe_get_op; [exact Ho|].
  case_bool_decide as Hst; [|by apply safe_ret].
  assert (Hty : op_type o = EXO_SUBSCRIBE) by (apply (rd_state _ _ Hop); by left).
  eapply safe_lift; [apply (get_token_rep pdu m HR)|]. destruct (_ =? _); [|by apply safe_ret].
  eapply safe_lift; [apply (get_code_rep pdu m HR)|]. destruct (_ =? _).
  - destruct (observe_safe 0 (Hobs (rd_subs _ _ Hop Hty))) as (opt & seq & Eo & Es).
    eapply safe_lift; [exact Eo|]. eapply safe_lift; [exact Es|].
    eapply safe_lift; [apply (get_payload_rep pdu m HR)|].
    eapply safe_bind; [apply (deliver_safe i w o Hr Ho); by right|]. cbn [fst snd].
    intros [] w1 Hr1 Ho1; [|by apply safe_ret]. destruct (Ho1 eq_refl) as [Ho1' Hfill]. clear Ho1. rename Ho1' into Ho1.
    eapply safe_lift; [apply (get_mid_rep pdu m HR)|].
    eapply safe_upd; [done|exact Ho1|keeps_ready Ho1; apply (wf_mid _ (rep_wf _ _ HR))|].
    intros w2 Hr2 Ho2 Hh2. rewrite <- Hh2 in Hfill. pose proof (wf_mid _ (rep_wf _ _ HR)) as Hmid. apply safe_then.
    + destruct (negb _); (apply safe_last; eapply safe_upd; [done|exact Ho2|by keeps_ready Ho2|intros; by apply safe_ret]).
    + intros _ w3 Hr3. destruct (ready_lookup w3 i Hr3 Hi) as [o3 Ho3].
      eapply safe_lift; [by apply (max_age_rep pdu m HR)|].
      apply safe_then; [by eapply arm_timeout_safe|]. intros; by apply safe_ret.
  - eapply safe_lift; [apply (get_class_rep pdu m HR)|]. destruct (negb _); [|by apply safe_ret].
    eapply safe_upd; [done|exact Ho|keeps_ready Ho|]. intros; by apply safe_ret.
Qed.

Lemma activation_payload_safe w i o : ready w -> w_ops w !! i = Some o -> op_type o = EXO_ACTIVATE ->
  safe (if pl_len (payload_of m) =? CIK_LENGTH then
          let! cik := gets w_cik in
          let! src := lift match pl_val (payload_of m) with None => Fault NullPointer | Some v => Ok v end in
          let! cik := lift (memcpy cik 0 (pdu_buf pdu) src CIK_LENGTH) in
          let! cik := lift (store cik CIK_LENGTH 0) in
          let! _ := puts (set_cik cik) in
          let! _ := upd_op i (op_set_state EXO_REQUEST_SUCCESS) in
          let! _ := platform (exopal_store_cik cik) in
          puts (set_device EXO_STATE_GOOD)
        else upd_op i (op_set_state EXO_REQUEST_ERROR)) w.
Proof.
  intros Hr Ho Hty. unfold payload_of. destruct (m_payload m) as [pl|] eqn:Epl; cbn [pl_len pl_val].
  2: { apply safe_last. eapply safe_upd; [done|exact Ho|keeps_ready Ho|]. intros; by apply safe_ret. }
  destruct (Z.eqb_spec (zlen pl) CIK_LENGTH) as [Hl|_].
  2: { apply safe_last. eapply safe_upd; [done|exact Ho|keeps_ready Ho|]. intros; by apply safe_ret. }
  apply safe_gets. eapply safe_lift; [done|]. pose proof (payload_bytes pdu m HR pl Epl) as Hb. rewrite Hl in Hb.
  destruct (split_at (w_cik w) 40) as (x & y & E0 & Hx); [unfold zlen; rewrite (r_cik _ Hr); lia|].
  pose proof (r_cik _ Hr) as Hlc. rewrite E0, length_app in Hlc. unfold zlen in Hx.
  destruct y as [|c [|? ?]]; simpl in Hlc; try lia.
  eapply safe_lift.
  { unfold memcpy. unfold payload_of in Hb. rewrite ?Epl in Hb. cbn [ptr_off pl_val] in Hb. rewrite Hb. cbn [rbind].
    rewrite E0. apply (store_bytes_at [] x [c] pl); [done|]. unfold CIK_LENGTH, zlen in *. lia. }
  eapply safe_lift; [by apply (store_at pl [] c 40 0)|]. change (u8 0) with 0.
  assert (Hr1 : ready (set_cik (pl ++ [0]) w)).
  { apply ready_set_cik; [done| |].
    - rewrite length_app. simpl. unfold CIK_LENGTH, zlen in Hl. lia.
    - pose proof (wf_payload _ (rep_wf _ _ HR)) as Hp. rewrite Epl in Hp. apply Forall_app. by repeat constructor. }
  apply safe_puts; [done|].
  eapply safe_upd; [done|exact Ho|keeps_ready Ho|]. intros w2 Hr2 _ _.
  apply safe_platform; [done|intros; by eapply store_quiet, H2; apply Hr2|]. intros rc e Hr3.
  apply safe_last, safe_puts; [done|].
  by apply safe_ret; [apply ready_set_device|].
Qed.

Lemma handle_success_safe i w o : ready w -> (i < count)%nat -> w_ops w !! i = Some o ->
  ~ subscribing (op_state o) -> safe (handle_success pdu i) w.
Proof.
  intros Hr Hi Ho Hns. pose proof (ready_op _ _ _ Hr Ho) as Hop.
  unfold handle_success. eapply safe_get_op; [exact Ho|]. destruct (op_type o) eqn:Ety; [by apply safe_ret|..].
  - eapply safe_upd; [done|exact Ho|keeps_ready Ho|]. intros; by apply safe_ret.
  - eapply safe_lift; [apply (get_payload_rep pdu m HR)|].
    eapply safe_bind; [apply (deliver_safe i w o Hr Ho); by left|]. cbn [fst snd].
    intros [] w1 Hr1 Ho1; [|by apply safe_ret]. destruct (Ho1 eq_refl) as [Ho1' Hfill]. clear Ho1. rename Ho1' into Ho1.
    eapply safe_upd; [done|exact Ho1|keeps_ready Ho1|]. intros; by apply safe_ret.
  - eapply safe_lift; [apply (get_payload_rep pdu m HR)|].
    eapply safe_bind; [apply (deliver_safe i w o Hr Ho); by right|]. cbn [fst snd].
    intros [] w1 Hr1 Ho1; [|by apply safe_ret]. destruct (Ho1 eq_refl) as [Ho1' Hfill]. clear Ho1. rename Ho1' into Ho1.
    eapply safe_upd; [done|exact Ho1|keeps_ready Ho1|]. intros w2 Hr2 Ho2 _.
    eapply safe_lift; [by apply (max_age_rep pdu m HR)|].
    destruct (observe_safe (op_obs_seq o) (Hobs (rd_subs _ _ Hop Ety))) as (opt & seq & Eo & Es).
    eapply safe_lift; [exact Eo|]. eapply safe_lift; [exact Es|].
    eapply safe_upd; [done|exact Ho2|keeps_ready Ho2|].
    { apply (rd_mid _ _ Hop). }
    intros w3 Hr3 Ho3 _. apply safe_then; [by eapply arm_timeout_safe|]. intros; by apply safe_ret.
  - eapply safe_lift; [apply (get_payload_rep pdu m HR)|].
    apply safe_then; [by eapply activation_payload_safe|]. intros _ w1 Hr1.
    destruct (ready_lookup w1 i Hr1 Hi) as [o1 Ho1].
    eapply safe_upd; [done|exact Ho1|apply op_ready_init|]. intros; by apply safe_ret.
Qed.

Lemma renew_safe (b : bool) t w : ready w ->
  safe (let! renew := if b then retM true else let! now := platform exopal_get_time in retM (t <? now) in
        if renew : bool then upd_op 0 exo_activate else retM tt) w.
Proof.
  intros Hr. apply safe_then.
  - destruct b; [by apply safe_ret|].
    apply safe_platform; [done|intros; by eapply time_quiet, H2; apply Hr|]. intros; by apply safe_ret.
  - intros [] w1 Hr1; [|by apply safe_ret]. destruct (ready_slot w1 Hr1) as [o0 Ho0].
    apply safe_last. eapply safe_upd; [done|exact Ho0|eapply op_ready_activate, ready_op; done|].
    intros; by apply safe_ret.
Qed.

Lemma handle_ack_safe i w : ready w -> (i < count)%nat -> safe (handle_ack pdu i) w.
Proof.
  intros Hr Hi. destruct (ready_lookup w i Hr Hi) as [o Ho].
  unfold handle_ack. eapply safe_get_op; [exact Ho|]. case_bool_decide as Hst; [|by apply safe_ret].
  eapply (safe_bind _ _ _ _ (fun r => r = (op_mid o =? m_mid m, w))).
  { eapply bind_lift_eq; [apply (get_mid_rep pdu m HR)|]. split; [by apply follows_refl|done]. }
  intros hit w' _ [= -> ->]. destruct (_ =? _); [|by apply safe_ret].
  assert (Hns : ~ subscribing (op_state o)) by (unfold subscribing; rewrite Hst; intuition congruence).
  eapply safe_lift; [apply (get_class_rep pdu m HR)|]. destruct (_ =? _); [by eapply handle_success_safe|].
  eapply safe_upd; [done|exact Ho|keeps_ready Ho|]. intros w1 Hr1 Ho1 _.
  eapply safe_lift; [apply (get_code_rep pdu m HR)|]. apply safe_then; [|intros; by apply safe_ret].
  destruct (_ =? _); [|destruct (_ =? _)].
  - destruct (ready_slot w1 Hr1) as [o0 Ho0]. eapply safe_get_op; [exact Ho0|]. by apply renew_safe.
  - apply safe_last, safe_puts; [done|].
    by apply safe_ret; [apply ready_set_device|].
  - by apply safe_ret.
Qed.

Lemma handle_rst_safe i w : ready w -> (i < count)%nat -> safe (handle_rst pdu i) w.
Proof.
  intros Hr Hi. destruct (ready_lookup w i Hr Hi) as [o Ho].
  unfold handle_rst. eapply safe_get_op; [exact Ho|]. destruct (_ || _); [|by apply safe_ret].
  eapply safe_lift; [apply (get_mid_rep pdu m HR)|]. destruct (_ =? _); [|by apply safe_ret].
  eapply safe_lift; [apply (get_token_rep pdu m HR)|]. destruct (_ =? _); [|by apply safe_ret].
  eapply safe_upd; [done|exact Ho|keeps_ready Ho|]. intros; by apply safe_ret.
Qed.

Lemma match_ops_safe n : forall i w, ready w -> (i + n <= count)%nat -> safe (match_ops pdu i n) w.
Proof.
  induction n as [|n IH]; intros i w Hr Hn; [by apply safe_ret|]. cbn [match_ops].
  apply safe_then.
  - unfold handle_op. eapply safe_lift; [apply (get_type_rep pdu m HR)|].
    destruct (_ || _); [apply handle_notification_safe; [done|lia]|].
    destruct (_ =? _); [apply handle_ack_safe; [done|lia]|].
    destruct (_ =? _); [apply handle_rst_safe; [done|lia]|by apply safe_ret].
  - intros [] w1 Hr1; [by apply safe_ret|]. apply IH; [done|lia].
Qed.
End Message.

(** ** Incoming datagrams *)

Definition fits576 (pdu : coap_pdu) : Prop := pdu_max pdu = 576 /\ zlen (pdu_buf pdu) = 576.

Lemma rep_fits576 pdu m : represents pdu m -> pdu_max pdu = 576 -> fits576 pdu.
Proof. intros HR Hm. split; [done|]. by rewrite <- (rep_max _ _ HR). Qed.

Lemma send_safe pdu m w : ready w -> represents pdu m -> safe (send_pdu pdu) w.
Proof.
  intros Hr HR. destruct (exopal_udp_send (encode m) (w_env w)) as [rc e] eqn:He.
  unfold runs. rewrite (send_pdu_rep pdu m w rc e HR He). simpl. split; [|done].
  destruct (send_quiet _ _ _ _ (r_env _ Hr) He). split; [by apply ready_set_env|done].
Qed.

(** A received message in the buffer. *)
Lemma received pdu m y : fits576 pdu -> wf_msg m -> zlen (encode m ++ y) = 576 ->
  represents (set_len (set_buf pdu (encode m ++ y)) (zlen (encode m))) m.
Proof.
  intros [Hmax _] Hwf Hl. rewrite zlen_app in Hl.
  constructor; cbn [set_len set_buf pdu_buf pdu_len pdu_max]; [done|by exists y| | |lia].
  - rewrite size_t_id; zlen_pos; lia.
  - rewrite zlen_app. lia.
Qed.

Lemma answer_safe pdu m w : ready w -> represents pdu m -> pdu_max pdu = 576 ->
  returns ((let! ty := lift (coap_get_type pdu) in
        if ty =? CT_CON then
          let! mid := lift (coap_get_mid pdu) in
          let! token := lift (coap_get_token pdu) in
          let! tkl := lift (coap_get_tkl pdu) in
          let! '(_, pdu) := lift (exo_build_msg_rst pdu mid token tkl) in
          let! _ := send_pdu pdu in
          retM (Break tt)
        else retM (@Break coap_pdu unit tt)) w) (fun r => follows w (snd r) /\ fst r = Break tt).
Proof.
  intros Hr HR Hmax. pose proof (follows_refl w Hr) as Hf.
  eapply bind_lift_eq; [apply (get_type_rep pdu m HR)|]. destruct (_ =? _); [|done].
  eapply bind_lift_eq; [apply (get_mid_rep pdu m HR)|]. eapply bind_lift_eq; [apply (get_token_rep pdu m HR)|].
  eapply bind_lift_eq; [apply (get_tkl_scan pdu m HR)|]. destruct (rep_wf _ _ HR) as [_ _ _ Hmid _ Htkl _ _].
  pose proof (build_rst pdu (rep_max _ _ HR) ltac:(lia) (m_mid m) Hmid (le_value (m_token m)) (zlen (m_token m))
    ltac:(zlen_pos; lia) ltac:(zlen_pos; lia)) as Hb.
  apply returns_inv in Hb as ([err p2] & Eb & _ & HR2). eapply bind_lift_eq; [exact Eb|].
  eapply bind_M; [by apply (send_safe p2 _ w Hr HR2)|]. intros rc w' [Hf' _]. done.
Qed.

Definition recv_post w (r : step coap_pdu unit * world E) : Prop :=
  ready (snd r) /\
  match fst r with
  | Continue p => fits576 p /\ 0 <= pending (w_env (snd r)) < pending (w_env w)
  | Break _ => pending (w_env (snd r)) <= pending (w_env w)
  end.

Lemma recv_step_safe pdu w : ready w -> fits576 pdu -> returns (recv_step count pdu w) (recv_post w).
Proof.
  intros Hr HF. destruct HF as [Hmax Hbuf]. unfold recv_step. rewrite Hmax.
  destruct (exopal_udp_recv 576 (w_env w)) as [[rc data] e] eqn:He. eapply bind_platform; [exact He|].
  destruct (quiet_recv _ _ _ _ (r_env _ Hr) He) as [Hq Hg].
  destruct (recv_ok 576 _ _ _ _ ltac:(lia) He) as (Hlen & _ & Hle & Hlt).
  pose proof (ready_set_env w e Hr Hq) as Hr1. pose proof (pending_nonneg e) as Hnn.
  destruct (split_at (pdu_buf pdu) (zlen data)) as (x & y & Ex & Hx); [zlen_pos; lia|].
  assert (Hl : zlen (data ++ y) = 576) by (rewrite <- Hbuf, Ex, !zlen_app; lia).
  eapply bind_lift_eq; [rewrite Ex; by apply (store_bytes_at [] x y)|]. cbn [app].
  destruct (Z.eqb_spec rc 0) as [->|]; [|by split]. cbn [negb]. specialize (Hlt eq_refl).
  destruct (Hg eq_refl) as [Hshort|(m & -> & Hwf & Hpos & Hobs)].
  - eapply bind_lift_eq.
    { unfold coap_validate_pkt. cbn [set_opt_ptr set_len set_buf pdu_max pdu_len].
      rewrite size_t_id by (zlen_pos; lia). rewrite (proj2 (Z.ltb_ge _ _)) by lia.
      by rewrite (proj2 (Z.ltb_lt _ _)) by lia. }
    cbv beta iota. destruct (decide _) as [_|n]; [|by destruct n]. split; [done|]. split; [done|]. simpl. lia.
  - pose proof (received pdu m y (conj Hmax Hbuf) Hwf Hl) as HR.
    destruct (Z.eq_dec (m_ver m) 1) as [Hv|Hv].
    2: { eapply bind_lift_eq; [by apply (validate_other_version _ m HR)|].
         cbv beta iota. destruct (decide _) as [_|n]; [|by destruct n]. split; [done|]. split; [done|]. simpl. lia. }
    eapply bind_lift_eq; [by apply (validate_rep _ m HR)|]. cbv beta iota. destruct (decide _) as [c|_]; [by destruct c|].
    set (p := set_opt_ptr _ None). assert (HR' : represents p m) by (by destruct HR; constructor).
    assert (Hpm : pdu_max p = 576) by done. clearbody p.
    pose proof (match_ops_safe p m HR' Hpos Hobs count 0 (set_env e w) Hr1 ltac:(lia)) as Hs.
    eapply bind_M; [exact Hs|]. intros found w2 [[Hr2 Hp2] _]. simpl in Hr2, Hp2.
    pose proof (pending_nonneg (w_env w2)).
    destruct found; [split; [done|]; split; [by eapply rep_fits576|simpl; lia]|].
    eapply returns_mono; [by apply (answer_safe p m w2)|]. intros [r w3] [[Hr3 Hp3] Hb]. simpl in *. subst r.
    split; [done|]. simpl. lia.
Qed.

Lemma waiting_datagrams_safe addr stack w :
  ready w -> zlen stack = 576 -> pending (w_env w) < 2 ^ 64 ->
  safe (exo_process_waiting_datagrams addr stack count) w.
Proof.
  intros Hr Hl Hp. unfold runs, exo_process_waiting_datagrams, loopM.
  apply (loop_total _ (fun sw => fits576 (fst sw) /\ follows w (snd sw)) (fun sw => pending (w_env (snd sw))));
    [|by split; [split|apply follows_refl]|done].
  intros [pdu w1] [HF [Hr1 Hp1]]. cbn [fst snd] in *.
  eapply returns_bind; [by apply recv_step_safe|].
  intros [[p|u] w2] [Hr2 Hs]; cbn [fst snd returns] in *.
  - destruct Hs as [? ?]. split; [|done]. split; [done|]. split; [done|lia].
  - split; [|done]. split; [done|]. simpl. lia.
Qed.

(** ** Active requests *)

Definition request_built o w (r : option coap_pdu * world E) : Prop :=
  follows w (snd r) /\
  (w_ops (snd r) = w_ops w /\
   match fst r with
   | Some p => pdu_max p = 576 /\ exists m, represents p m
   | None => op_type o = EXO_NULL
   end).

Lemma after_build_follows w r e : ready w -> libc_rand (w_env w) = (r, e) -> follows w (after_build w e).
Proof.
  intros Hr He. destruct (rand_quiet _ _ _ (r_env _ Hr) He) as [Hq Hp]. split; [|done].
  apply ready_set_env; [|done]. apply ready_set_mid; [done|]. apply Z.mod_pos_bound. lia.
Qed.

Lemma request_done (c : M E (exo_error * coap_pdu)) pdu w r e o target :
  ready w -> fits576 pdu -> libc_rand (w_env w) = (r, e) -> returns (c w) (ends_with pdu w e target) ->
  returns ((let! '(_, p) := c in retM (Some p)) w) (request_built o w).
Proof.
  intros Hr [Hmax _] He Hc. eapply bind_M; [exact Hc|]. intros [err p] w' [(m & HR & Hm & _) Hw].
  simpl in *. subst w'. split; [by eapply after_build_follows|]. split; [done|]. split; [congruence|]. by exists m.
Qed.

Lemma build_request_safe pdu o w : ready w -> fits576 pdu -> op_ready (w_heap w) o ->
  returns (build_request pdu o w) (request_built o w).
Proof.
  intros Hr HF Hop. destruct (HF) as [Hmax Hbuf]. destruct (libc_rand (w_env w)) as [r e] eqn:He.
  assert (H6 : 6 <= pdu_max pdu < 2 ^ 62) by lia. assert (Hpm : pdu_max pdu = zlen (pdu_buf pdu)) by congruence.
  pose proof (r_mid _ Hr) as Hmid.
  destruct (split_at (w_cik w) 40) as (cik & junk & Ec & Hc); [unfold zlen; rewrite (r_cik _ Hr); lia|].
  pose proof (r_cik_bytes _ Hr) as Hcb. rewrite Ec in Hcb. apply Forall_app in Hcb as [Hcb _].
  unfold build_request. destruct (op_type o) eqn:Ety.
  - split; [by apply follows_refl|done].
  - destruct (rd_alias _ _ Hop) as (b & -> & Hb); [auto|]. destruct (r_str _ Hr b Hb) as (blk & s & ? & ? & ?).
    destruct (rd_write _ _ Hop Ety) as (b' & -> & Hb'). destruct (r_str _ Hr b' Hb') as (blk' & s' & ? & ? & ?).
    eapply request_done; [done..|]. eapply build_write; eauto. lia.
  - destruct (rd_alias _ _ Hop) as (b & -> & Hb); [auto|]. destruct (r_str _ Hr b Hb) as (blk & s & ? & ? & ?).
    eapply request_done; [done..|]. eapply build_read; eauto.
  - destruct (rd_alias _ _ Hop) as (b & -> & Hb); [auto|]. destruct (r_str _ Hr b Hb) as (blk & s & ? & ? & ?).
    eapply request_done; [done..|]. eapply build_observe; eauto.
  - do 3 apply bind_gets. destruct (r_vendor _ Hr) as (bv & -> & Hv), (r_model _ Hr) as (bm & -> & Hm),
      (r_serial _ Hr) as (bs & -> & Hs).
    destruct (r_str _ Hr bv Hv) as (? & ? & ? & ? & ?), (r_str _ Hr bm Hm) as (? & ? & ? & ? & ?),
      (r_str _ Hr bs Hs) as (? & ? & ? & ? & ?).
    eapply request_done; [done..|]. eapply build_activate; eauto.
Qed.

(** The pass hands its packet buffer from one request to the next. *)
Abbreviation safe_pdu := (runs fits576).

Lemma safe_send {B} (Q : B -> Prop) pdu m (k : Z -> M E B) w : ready w -> represents pdu m ->
  (forall rc e, ready (set_env e w) -> runs Q (k rc) (set_env e w)) -> runs Q (bindM (send_pdu pdu) k) w.
Proof.
  intros Hr HR Hk. destruct (exopal_udp_send (encode m) (w_env w)) as [rc e] eqn:He.
  destruct (send_quiet _ _ _ _ (r_env _ Hr) He) as [Hq Hp]. unfold runs, bindM.
  rewrite (send_pdu_rep pdu m w rc e HR He). cbn [rbind].
  eapply returns_mono; [by apply Hk, ready_set_env|]. intros r [[? Hp'] HQ]. split; [|done]. split; [done|].
  simpl in Hp'. lia.
Qed.

Lemma send_new_safe i pdu w o : ready w -> fits576 pdu -> w_ops w !! i = Some o ->
  ~ subscribing (op_state o) -> safe_pdu (send_new i pdu) w.
Proof.
  intros Hr HF Ho Hns. unfold send_new. eapply safe_get_op; [exact Ho|].
  eapply safe_bind; [apply build_request_safe; [done|done|by eapply ready_op]|].
  intros built w1 Hr1 [Hw Hb]. cbn [fst snd] in *. rewrite <- Hw in Ho. destruct built as [p|].
  - destruct Hb as [Hmax [m HR]]. pose proof (rep_fits576 _ _ HR Hmax) as HF'.
    eapply safe_send; [done|exact HR|]. intros rc e Hr2. destruct (_ =? _); [|by apply safe_ret].
    eapply safe_upd; [done|exact Ho|keeps_ready Ho|]. intros w3 Hr3 Ho3 _.
    apply safe_platform; [done|intros; by eapply time_quiet, H2; apply Hr3|]. intros now e4 Hr4.
    eapply safe_upd; [done|exact Ho3|keeps_ready Ho3; apply (rd_mid _ _ (ready_op _ _ _ Hr1 Ho))|]. intros w5 Hr5 Ho5 _.
    eapply safe_lift; [apply (get_mid_rep p m HR)|].
    pose proof (wf_mid _ (rep_wf _ _ HR)) as Hmid.
    eapply safe_upd; [done|exact Ho5|by keeps_ready Ho5|]. intros w6 Hr6 Ho6 _.
    eapply safe_lift; [apply (get_token_rep p m HR)|].
    eapply safe_upd; [done|exact Ho6|by keeps_ready Ho6|]. intros; by apply safe_ret.
  - eapply safe_upd; [done|exact Ho| |intros; by apply safe_ret].
    replace (op_set_type EXO_NULL o) with o by (destruct o; simpl in *; by subst). by eapply ready_op.
Qed.

Lemma retransmit_safe i pdu w o : ready w -> fits576 pdu -> w_ops w !! i = Some o ->
  op_type o <> EXO_NULL -> safe_pdu (retransmit i pdu) w.
Proof.
  intros Hr HF Ho Hty. unfold retransmit. pose proof (ready_op _ _ _ Hr Ho) as Hop.
  eapply safe_get_op; [exact Ho|]. destruct (_ <? _).
  2: { eapply safe_upd; [done|exact Ho|keeps_ready Ho|]. intros; by apply safe_ret. }
  eapply safe_bind; [by apply build_request_safe|].
  intros built w1 Hr1 [Hw Hb]. cbn [fst snd] in *. rewrite <- Hw in Ho. destruct built as [p|]; [|done].
  cbn [default from_option id]. destruct Hb as [Hmax [m HR]].
  pose proof (set_mid_rep p m HR (op_mid o) (rd_mid _ _ Hop)) as H1'.
  apply returns_inv in H1' as ([er1 p1] & Ep1 & _ & HR1 & Hmx1 & _). cbn [snd] in *. eapply safe_lift; [exact Ep1|].
  assert (Ht : exists er2 p2 m2, coap_set_token p1 (op_token o) 0 = Ok (er2, p2) /\ represents p2 m2 /\ pdu_max p2 = 576).
  { pose proof (set_token_rep p1 _ HR1 0 ltac:(lia) (op_token o)) as Ht. unfold sets in Ht.
    destruct (_ <? _); [rewrite Ht; do 3 eexists; split; [done|]; split; [exact HR1|congruence]|].
    apply returns_inv in Ht as ([er2 p2] & -> & _ & HR2 & Hmx2 & _). cbn [snd] in *.
    do 3 eexists. split; [done|]. split; [exact HR2|congruence]. }
  destruct Ht as (er2 & p2 & m2 & Ep2 & HR2 & Hmx2). rewrite (rd_tkl _ _ Hop). eapply safe_lift; [exact Ep2|].
  pose proof (rep_fits576 _ _ HR2 Hmx2) as HF'.
  eapply safe_send; [done|exact HR2|]. intros rc e Hr2. destruct (_ =? _); [|by apply safe_ret].
  eapply safe_upd; [done|exact Ho|keeps_ready Ho; apply (rd_state _ _ Hop)|]. intros w3 Hr3 Ho3 _.
  apply safe_platform; [done|intros; by eapply time_quiet, H2; apply Hr3|]. intros now e4 Hr4.
  apply safe_platform; [done|intros; by eapply rand_quiet, H2; apply Hr4|]. intros r e5 Hr5.
  eapply safe_upd; [done|exact Ho3|keeps_ready Ho3|intros; by apply safe_ret].
  - apply (rd_mid _ _ Hop).
  - apply (rd_state _ _ Hop).
Qed.

Lemma check_timeout_safe now i pdu w o : ready w -> fits576 pdu -> w_ops w !! i = Some o ->
  safe_pdu (check_timeout now i pdu) w.
Proof.
  intros Hr HF Ho. unfold check_timeout. eapply safe_get_op; [exact Ho|]. destruct (_ <=? _); [|by apply safe_ret].
  destruct (op_type o) eqn:Ety; try (eapply retransmit_safe; [done|done|exact Ho|congruence]); [by apply safe_ret|].
  eapply safe_upd; [done|exact Ho|keeps_ready Ho|]. intros; by apply safe_ret.
Qed.

Lemma send_ack_safe i pdu w o : ready w -> fits576 pdu -> w_ops w !! i = Some o ->
  op_type o = EXO_SUBSCRIBE -> safe_pdu (send_ack i pdu) w.
Proof.
  intros Hr HF Ho Hty. unfold send_ack. pose proof (ready_op _ _ _ Hr Ho) as Hop. destruct HF as [Hmax Hbuf].
  eapply safe_get_op; [exact Ho|].
  pose proof (build_ack pdu ltac:(congruence) ltac:(lia) (op_mid o) (rd_mid _ _ Hop) ltac:(lia)) as Hb.
  apply returns_inv in Hb as ([er p] & Ep & _ & HR & Hmx). cbn [snd] in *. eapply safe_lift; [exact Ep|].
  assert (HF' : fits576 p) by (eapply rep_fits576; [exact HR|congruence]).
  eapply safe_send; [done|exact HR|]. intros rc e Hr2. destruct (_ =? _); [|by apply safe_ret].
  apply safe_then; [|intros; by apply safe_ret].
  destruct (op_state o) eqn:Es; try (by apply safe_ret);
    (apply safe_last; eapply safe_upd; [done|exact Ho|keeps_ready Ho|intros; by apply safe_ret]).
Qed.

Lemma active_ops_safe now n : forall i pdu w, ready w -> fits576 pdu -> (i + n <= count)%nat ->
  safe (active_ops now i n pdu) w.
Proof.
  induction n as [|n IH]; intros i pdu w Hr HF Hn; [by apply safe_ret|]. cbn [active_ops].
  apply (safe_next fits576).
  - destruct (ready_lookup w i Hr ltac:(lia)) as [o Ho]. pose proof (rd_state _ _ (ready_op _ _ _ Hr Ho)) as Hst.
    unfold active_op. eapply safe_get_op; [exact Ho|].
    destruct (op_state o) eqn:Es; try (by apply safe_ret).
    + eapply send_new_safe; [done|done|exact Ho|]. rewrite Es. unfold subscribing. intuition congruence.
    + by eapply check_timeout_safe.
    + by eapply check_timeout_safe.
    + eapply send_ack_safe; [done|done|exact Ho|]. apply Hst. unfold subscribing. auto.
    + eapply send_ack_safe; [done|done|exact Ho|]. apply Hst. unfold subscribing. auto.
  - intros p w1 Hr1 HF1. apply IH; [done|done|lia].
Qed.

(** ** The whole call *)

Lemma any_in_state_safe s n : forall i w, ready w -> (i + n <= count)%nat -> safe (any_in_state s i n) w.
Proof.
  induction n as [|n IH]; intros i w Hr Hn; [by apply safe_ret|]. cbn [any_in_state].
  destruct (ready_lookup w i Hr ltac:(lia)) as [o Ho]. eapply safe_get_op; [exact Ho|].
  case_bool_decide; [by apply safe_ret|]. apply IH; [done|lia].
Qed.

Lemma ensure_activation_safe w : ready w -> safe ensure_activation w.
Proof.
  intros Hr. destruct (ready_slot w Hr) as [o0 Ho0]. unfold ensure_activation.
  eapply safe_get_op; [exact Ho0|]. by apply renew_safe.
Qed.

Lemma operate_safe addr1 stack1 addr2 stack2 w :
  zlen stack1 = 576 -> zlen stack2 = 576 -> ready w -> pending (w_env w) < 2 ^ 64 ->
  safe (exo_operate addr1 stack1 addr2 stack2 count) w.
Proof.
  intros Hl1 Hl2 Hr Hp. unfold exo_operate. apply safe_gets. destruct (decide _); [by apply safe_ret|].
  eapply (safe_bind _ _ _ _ (fun r => pending (w_env (snd r)) < 2 ^ 64)).
  { assert (Hs : safe match w_device w with
                      | EXO_STATE_INITIALIZED | EXO_STATE_BAD_CIK => ensure_activation
                      | _ => retM tt
                      end w) by (destruct (w_device w); by (apply safe_ret || apply ensure_activation_safe)).
    eapply returns_mono; [exact Hs|]. intros r [[? ?] _]. split; [by split|lia]. }
  intros u w1 Hr1 Hp1. simpl in Hp1. apply safe_then; [by apply waiting_datagrams_safe|]. intros _ w2 Hr2.
  apply safe_then.
  { unfold exo_process_active_ops. apply safe_platform; [done|intros; by eapply time_quiet, H2; apply Hr2|].
    intros now e Hr3. by apply active_ops_safe. }
  intros _ w3 Hr3. apply safe_then; [by apply any_in_state_safe|]. intros [] w4 Hr4; [by apply safe_ret|].
  apply safe_then; [by apply any_in_state_safe|]. intros [] w5 Hr5; by apply safe_ret.
Qed.
End Safe.

(** ** New strings *)

Section Strings.
Context {E : Type} {subs : bool} `{Peer E subs}.
Implicit Types (w : world E).

(** A block that no request uses as its value buffer becomes a string, or another
    one. *)
Lemma ready_new_string (str str' : nat -> Prop) count w b blk blk' s :
  ready str count w -> w_heap w !! b = Some blk -> length blk' = length blk ->
  cstring s blk' -> zlen s < 65536 -> (forall x, str' x <-> x = b \/ str x) ->
  (forall i o, w_ops w !! i = Some o -> op_type o = EXO_READ \/ op_type o = EXO_SUBSCRIBE -> op_value o <> Some b) ->
  ready str' count (set_heap (<[b := blk']> (w_heap w)) w).
Proof.
  intros [Hops ? ? Hstr Hve Hmo Hse ? ? ? ?] Hb Hl Hs Hsz Hgrow Hfree.
  pose proof (lookup_lt_Some _ _ _ Hb) as Hlt.
  assert (Hin : forall x, str x -> str' x) by (intros x Hx; apply Hgrow; by right).
  assert (His : forall p, is_str str p -> is_str str' p) by (intros p (x & ? & ?); exists x; auto).
  constructor; cbn [set_heap w_ops w_heap w_vendor w_model w_serial w_cik w_mid w_env]; auto.
  - apply Forall_lookup_2. intros i o Ho. pose proof (Hfree i o Ho) as Hne.
    destruct (Forall_lookup_1 _ _ _ _ Hops Ho) as [Ha Hw Hv ? ? ? ? ? Hf]. constructor; auto.
    + intros Ht. destruct (Ha Ht) as (x & ? & ?). exists x. auto.
    + intros Ht. destruct (Hw Ht) as (x & ? & ?). exists x. auto.
    + intros Ht. destruct (Hv Ht) as (x & y & Hx & Hns & Hy & ? & ?). specialize (Hne Ht).
      assert (x <> b) by congruence. exists x, y. rewrite Hgrow, list_lookup_insert_ne by done. intuition.
    + intros Ht Hst. destruct (Hf Ht Hst) as (x & y & Hx & Hy & ?). specialize (Hne Ht).
      assert (x <> b) by congruence. exists x, y. by rewrite list_lookup_insert_ne.
  - intros x Hx. destruct (decide (x = b)) as [->|Hne].
    + exists blk', s. by rewrite list_lookup_insert_eq.
    + rewrite list_lookup_insert_ne by done. apply Hstr. by apply Hgrow in Hx as [?|?].
Qed.
End Strings.

(** ** Starting the client *)

(** The calls [exo_init] makes leave what will arrive as it is. *)
Class Boot (E : Type) `{Peer E} := {
  boot_init e rc e' : quiet e -> exopal_init e = (rc, e') -> quiet e' /\ pending e' <= pending e;
  boot_time e t e' : quiet e -> libc_time e = (t, e') -> quiet e' /\ pending e' <= pending e;
  boot_srand t e : quiet e -> quiet (libc_srand t e) /\ pending (libc_srand t e) <= pending e;
  boot_retrieve e rc data e' : quiet e -> exopal_retrieve_cik e = (rc, data, e') ->
    quiet e' /\ pending e' <= pending e;
  boot_sock e rc e' : quiet e -> exopal_udp_sock e = (rc, e') -> quiet e' /\ pending e' <= pending e
}.

#[export] Instance posix_boot subs : Boot Posix.os (subs := subs).
Proof.
  split; cbn.
  - intros e rc e' Hq [= <- <-]. split; [done|lia].
  - intros e t e' Hq [= <- <-]. split; [done|lia].
  - intros t e Hq. split; [done|lia].
  - intros e rc data e' Hq. unfold Posix.exopal_retrieve_cik.
    destruct (Posix.os_cik_file e); [zcases|]; intros [= <- <- <-]; (split; [exact Hq|simpl; lia]).
  - intros e rc e' Hq. unfold Posix.exopal_udp_sock.
    destruct (Posix.os_resolve e) as [l|]; [destruct (Posix.first_socket l); [zcases|]|];
      intros [= <- <-]; (split; [exact Hq|lia]).
Qed.

Section Start.
Context {E : Type} {subs : bool} `{Boot E subs}.
Implicit Types (w : world E).

(** What [exo_init] leaves alone and what it keeps. *)
Record booted w w' : Prop := mk_booted {
  bt_ops : w_ops w' = w_ops w;
  bt_heap : w_heap w' = w_heap w;
  bt_cik : length (w_cik w') = 41%nat;
  bt_cik_bytes : bytes (w_cik w');
  bt_mid : 0 <= w_mid w' < 65536;
  bt_quiet : quiet (w_env w');
  bt_pending : pending (w_env w') <= pending (w_env w)
}.

Lemma init_safe w v m s : length (w_cik w) = 41%nat -> bytes (w_cik w) -> 0 <= w_mid w < 65536 -> quiet (w_env w) ->
  returns (exo_init v m s w) (fun '(err, w') => booted w w' /\
    (err = EXO_OK /\ w_device w' = EXO_STATE_INITIALIZED /\ w_vendor w' = v /\ w_model w' = m /\ w_serial w' = s \/
     err <> EXO_OK /\ w_device w' = EXO_STATE_UNINITIALIZED)).
Proof.
  intros Hl Hb Hm Hq. unfold exo_init. apply bind_puts.
  destruct (exopal_init (w_env w)) as [rc1 e1] eqn:E1. destruct (boot_init _ _ _ Hq E1) as [Hq1 Hp1].
  eapply bind_platform; [exact E1|]. destruct (_ =? _); cbn [negb].
  2: { split; [by constructor|]. right. done. }
  destruct (libc_time e1) as [t e2] eqn:E2. destruct (boot_time _ _ _ Hq1 E2) as [Hq2 Hp2].
  eapply bind_platform; [exact E2|]. destruct (boot_srand t e2 Hq2) as [Hq3 Hp3]. set (e3 := libc_srand t e2) in *.
  eapply bind_platform; [reflexivity|]. fold e3.
  destruct (libc_rand e3) as [r e4] eqn:E4. destruct (rand_quiet _ _ _ Hq3 E4) as [Hq4 Hp4].
  eapply bind_platform; [exact E4|]. do 2 apply bind_puts.
  destruct (exopal_retrieve_cik e4) as [[rc2 data] e5] eqn:E5. destruct (boot_retrieve _ _ _ _ Hq4 E5) as [Hq5 Hp5].
  eapply bind_platform; [exact E5|]. pose proof (retrieve_ok _ _ _ _ E5) as [Hd Hdb]. apply bind_gets.
  destruct (split_at (w_cik w) (zlen data)) as (x & y & Hxy & Hx); [unfold zlen in *; lia|].
  cbn [w_cik set_env set_identity set_mid set_device].
  eapply bind_lift_eq; [rewrite Hxy; by apply (store_bytes_at [] x y data)|]. apply bind_puts. cbn [app].
  assert (Hlen : length (data ++ y) = 41%nat) by (rewrite Hxy, length_app in Hl; rewrite length_app; unfold zlen in Hx; lia).
  assert (Hby : bytes (data ++ y)) by (rewrite Hxy in Hb; apply Forall_app in Hb as [_ ?]; by apply Forall_app).
  pose proof (Z.mod_pos_bound r 65536 ltac:(lia)) as Hr.
  destruct (_ <? _); [split; [constructor; simpl; (done || lia)|by right]|].
  assert (Hst : exists c, store (data ++ y) 40 0 = Ok c /\ length c = 41%nat /\ bytes c).
  { unfold store. rewrite (proj2 (Z.ltb_lt _ _)) by (unfold zlen; lia). eexists. split; [done|].
    rewrite length_insert. split; [done|]. by apply Forall_insert. }
  destruct Hst as (c & Ec & Hcl & Hcb). eapply bind_lift_eq; [exact Ec|]. apply bind_puts.
  destruct (exopal_udp_sock e5) as [rc3 e6] eqn:E6. destruct (boot_sock _ _ _ Hq5 E6) as [Hq6 Hp6].
  eapply bind_platform; [exact E6|]. destruct (_ =? _); cbn [negb].
  - apply bind_puts. split; [constructor; simpl; (done || lia)|]. by left.
  - split; [constructor; simpl; (done || lia)|]. by right.
Qed.
End Start.
