(* ===== verification/ExoSamples.v ===== *)
(** * The Exosite client: sample states

    Concrete clients on the POSIX platform and concrete responses, on which the
    theorems about the client are instantiated. *)

From S2P Require Import Prelude Mem CoapDefs CoapMessage Pal ExoDefs.

(** A response in a buffer of the size of a datagram. *)
Definition response_pdu (m : message) : coap_pdu :=
  mk_pdu 4096 (encode m ++ List.repeat 0 (576 - length (encode m))) (zlen (encode m)) 576 None.

Definition response (code : Z) (opts : list (Z * list Z)) (payload : option (list Z)) : message :=
  mk_msg 1 CT_ACK code 7 [] opts payload.

(** A client with the request [o] in slot 1, whose value buffer is block 4. *)
Definition client (o : exo_op) : world Posix.os :=
  mk_world (lit "a32c85ba9dda45823be416246cf8b433baa068d7" ++ [0]) (Some 0%nat) (Some 1%nat) (Some 2%nat)
    7 EXO_STATE_GOOD
    [lit "vnd" ++ [0]; lit "mdl" ++ [0]; lit "001" ++ [0]; lit "temp" ++ [0]; List.repeat 7 8]
    [mk_op EXO_NULL EXO_REQUEST_NULL None None 0 0 0 0 0 0 0; o]
    (Posix.mk_os [] [] [] [(100, 0)] [100; 200] None true 1000 0 None).

(** A request of type [t] that was sent with message id 7. *)
Definition sent (t : exo_request_type) : exo_op :=
  mk_op t EXO_REQUEST_PENDING (Some 3%nat) (Some 4%nat) 8 7 0 0 100 0 0.

(** Check [represents] for a response by evaluation. *)
Ltac rep_eval :=
  constructor; [constructor; vm_compute; repeat (split || constructor || discriminate)
               |eexists; reflexivity|reflexivity|reflexivity|reflexivity].

Lemma response_rep : represents (response_pdu (response CC_CONTENT [] (Some (lit "42"))))
  (response CC_CONTENT [] (Some (lit "42"))).
Proof. rep_eval. Qed.

Lemma client_cstring : cstring (lit "temp") (lit "temp" ++ [0]).
Proof. split; [|split]; [vm_compute; repeat (split || constructor || discriminate)..|by exists []]. Qed.

(** Discharge a hypothesis about the sample client. *)
Ltac witness_eval :=
  first [ exact client_cstring | reflexivity
        | vm_compute; repeat (split || constructor || discriminate) ].

(** A read of the dataport "temp" that is queued. *)
Definition new_read : exo_op :=
  mk_op EXO_READ EXO_REQUEST_NEW (Some 3%nat) (Some 4%nat) 8 0 0 0 0 0 0.

Definition sample_cik : list Z := lit "a32c85ba9dda45823be416246cf8b433baa068d7".

Definition empty_datagram : coap_pdu := mk_pdu 4096 (List.repeat 170 576) 0 576 None.

(** The platform of the sample client. *)
Definition sample_platform (inbox : list Posix.recv_event) (sent : list (list Z)) (rand : list Z)
    (fails : list bool) : Posix.os :=
  Posix.mk_os inbox sent fails [(100, 0)] rand None true 1000 0 None.

Definition with_platform (e : Posix.os) (w : world Posix.os) : world Posix.os := set_env e w.

Lemma repeat_cstring n : cstring (List.repeat 97 n) (List.repeat 97 n ++ [0]).
Proof.
  split; [|split; [|by exists []]]; induction n as [|n IH]; simpl; constructor; (done || lia || exact IH).
Qed.
