(* ===== verification/ExoSafeProps.v ===== *)
(** * The Exosite client: programs without undefined behaviour

    The application as a sequence of calls: it queues and completes requests with
    buffers that are what it says they are, and calls [exo_operate]. *)

From S2P Require Import Prelude Mem CoapDefs CoapMessage Pal ExoDefs ExoProcess ExoSpec ExoEnds ExoProps ExoSafe ExoSamples.

Section Program.
Context {E : Type} {subs : bool} `{Peer E subs}.
Context (str : nat -> Prop) (count : nat).
Implicit Types (w : world E).

(** A call of the application on the request [o]: aliases and values to write are
    strings, buffers for values are not, and have the size that is given. *)
Inductive good_call (heap : list (list Z)) (o : exo_op) : exo_op -> Prop :=
| good_write alias value : str alias -> str value -> good_call heap o (exo_write o (Some alias) (Some value))
| good_read alias b blk n : str alias -> ~ str b -> heap !! b = Some blk -> 0 < zlen blk -> n <= zlen blk ->
    n < 2 ^ 64 -> good_call heap o (exo_read o (Some alias) (Some b) n)
| good_subscribe alias b blk n : str alias -> ~ str b -> heap !! b = Some blk -> 0 < zlen blk -> n <= zlen blk ->
    n < 2 ^ 64 -> subs = true -> good_call heap o (exo_subscribe o (Some alias) (Some b) n)
| good_activate : good_call heap o (exo_activate o)
| good_done : good_call heap o (exo_op_done o)
| good_init : good_call heap o (exo_op_init o).

(** What a program that starts in [w0] can reach. *)
Inductive program w0 : world E -> Prop :=
| prog_start : program w0 w0
| prog_call w i o o' : program w0 w -> w_ops w !! i = Some o -> good_call (w_heap w) o o' ->
    program w0 (set_ops (<[i := o']> (w_ops w)) w)
| prog_operate addr1 stack1 addr2 stack2 w r w' : program w0 w -> zlen stack1 = 576 -> zlen stack2 = 576 ->
    exo_operate addr1 stack1 addr2 stack2 count w = Ok (r, w') -> program w0 w'.

Lemma good_call_ready heap o o' :
  op_ready (subs := subs) str heap o -> good_call heap o o' -> op_ready (subs := subs) str heap o'.
Proof.
  intros Hop [alias value|alias b blk n|alias b blk n| | |].
  1-3: pose proof (rd_tkl _ _ _ Hop); constructor; simpl; try done; eauto 10;
       unfold subscribing, holds_value; intros; repeat destruct_or?; done.
  - by apply op_ready_activate.
  - by apply op_ready_done.
  - apply op_ready_init.
Qed.

Lemma program_ready w0 w : ready str count w0 -> pending (w_env w0) < 2 ^ 64 -> program w0 w ->
  ready str count w /\ pending (w_env w) < 2 ^ 64.
Proof.
  intros Hr0 Hp0. induction 1 as [|w i o o' _ [Hr Hp] Ho Hc|a1 s1 a2 s2 w r w' _ [Hr Hp] Hl1 Hl2 He]; [done|..].
  - split; [|exact Hp]. apply ready_set_op; [done|]. eapply good_call_ready; [|exact Hc]. by eapply ready_op.
  - pose proof (operate_safe str count a1 s1 a2 s2 w Hl1 Hl2 Hr Hp) as Hs. unfold runs in Hs. rewrite He in Hs.
    destruct Hs as [[Hr' Hp'] _]. simpl in *. split; [done|lia].
Qed.

(** C2. A program that passes valid pointers to the library has no undefined
    behaviour: wherever it got to by calls of the library, starting from a state
    in which its strings are terminated and its buffers have the size it gave, the
    next [exo_operate] runs to its end without an access out of bounds, a null
    dereference or an overwide shift, whatever well-formed CoAP messages arrive
    (for a program that subscribes: messages whose Observe option can be read),
    and leaves the program ready for the next call, with a terminated string in the
    value buffer of every read and subscription that succeeded. *)
Theorem programs_have_no_undefined_behaviour addr1 stack1 addr2 stack2 w0 w :
  ready str count w0 -> pending (w_env w0) < 2 ^ 64 -> program w0 w ->
  zlen stack1 = 576 -> zlen stack2 = 576 ->
  returns (exo_operate addr1 stack1 addr2 stack2 count w) (fun '(_, w') => ready str count w' /\
    forall i o, w_ops w' !! i = Some o -> op_type o = EXO_READ \/ op_type o = EXO_SUBSCRIBE ->
      exo_is_op_success o = true -> filled (w_heap w') o).
Proof.
  intros Hr Hp Hw Hl1 Hl2. destruct (program_ready w0 w Hr Hp Hw) as [Hr' Hp'].
  eapply returns_mono; [by apply operate_safe|]. intros [r w'] [[H' _] _]. split; [exact H'|].
  intros i o Ho Hty Hs. apply (rd_filled _ _ _ (ready_op _ _ _ _ _ H' Ho) Hty). left. by apply bool_decide_eq_true in Hs.
Qed.

(** C4. Well-formed messages change nothing but the value buffers of reads and
    subscriptions.  For a program in a ready state (its strings are terminated, its
    value buffers have the size it gave) that gets well-formed CoAP messages (with an
    Observe option that can be read, if it subscribes), [exo_operate] runs to its end without a fault, in particular without a write
    outside a block or through a null pointer, and a byte of the caller's memory
    changes only if it lies in the value buffer of a read or a subscription, below
    the size given with that request (or is the first byte); a string that is not
    also such a buffer never changes.  For any program and any datagrams at all the
    same bytes are unchanged after every call without undefined behaviour. *)
Theorem network_writes_only_value_buffers addr1 stack1 addr2 stack2 w b j :
  callable stack1 stack2 w -> protected (w_ops w) b j ->
  let unchanged := fun '(_, w') => byte_of (w_heap w') b j = byte_of (w_heap w) b j in
  (ready str count w -> returns (exo_operate addr1 stack1 addr2 stack2 count w) unchanged) /\
  ends (exo_operate addr1 stack1 addr2 stack2 count w) unchanged.
Proof.
  intros Hw Hp unchanged. pose proof (operate_protects addr1 addr2 stack1 stack2 count w b j Hw Hp) as He.
  split; [|exact He]. destruct Hw as (_ & Hl1 & _ & Hl2 & _ & Hpe). intros Hr.
  pose proof (operate_safe str count addr1 stack1 addr2 stack2 w Hl1 Hl2 Hr Hpe) as Hs.
  unfold runs, operate in *. by destruct (exo_operate addr1 stack1 addr2 stack2 count w).
Qed.
End Program.

(** ** A program that reads and subscribes *)

(** Blocks 0 to 3 are strings, block 4 is the buffer for values. *)
Definition sample_str (b : nat) : Prop := (b < 4)%nat.

(** A response and a notification wait, and a message of another version. *)
Definition sample_messages : list message :=
  [mk_msg 1 CT_ACK CC_CONTENT 7 [] [(6, [5]); (14, [60])] (Some (lit "42"));
   mk_msg 1 CT_CON CC_CONTENT 99 [1; 2] [(6, [6]); (14, [60])] (Some (lit "on"));
   mk_msg 2 CT_CON CC_GET 5 [] [(11, lit "x")] None].

Definition sample_program : world Posix.os :=
  set_env (Posix.mk_os (List.map (fun m => Posix.Datagram (encode m)) sample_messages) [] [] [(100, 0)]
             [100; 200; 300] None true 1000 0 None) (client (exo_op_init new_read)).

Lemma terminated s : forallb (fun b => (0 <? b) && (b <? 256)) s = true -> cstring s (s ++ [0]).
Proof.
  intros Hs. assert (Hf : Forall (fun b => 0 < b < 256) s).
  { induction s as [|b s IH]; [constructor|]. simpl in Hs. apply andb_true_iff in Hs as [Hb Hs].
    constructor; [lia|by apply IH]. }
  split; [|split; [|by exists []]]; (eapply Forall_impl; [exact Hf|]); unfold is_byte; simpl; lia.
Qed.

Lemma client_ready e o : posix_quiet true e -> op_ready (subs := true) sample_str (w_heap (client o)) o ->
  ready (subs := true) sample_str 2 (set_env e (client o)).
Proof.
  intros He Ho. constructor; try (vm_compute; lia); try (vm_compute; reflexivity); try exact He.
  - constructor; [|by constructor]. constructor; simpl; try lia; unfold subscribing, holds_value; intuition congruence.
  - intros b Hb. unfold sample_str in Hb.
    destruct b as [|[|[|[|b]]]]; [..|lia]; eexists;
      [exists (lit "vnd")|exists (lit "mdl")|exists (lit "001")|exists (lit "temp")];
      (split; [reflexivity|]; split; [by apply terminated|reflexivity]).
  - exists 0%nat. by unfold sample_str; split; [|lia].
  - exists 1%nat. by unfold sample_str; split; [|lia].
  - exists 2%nat. by unfold sample_str; split; [|lia].
  - vm_compute. repeat constructor; discriminate.
  - by vm_compute.
Qed.

Lemma sample_program_ready : ready (subs := true) sample_str 2 sample_program.
Proof.
  apply client_ready.
  - unfold posix_quiet.
    repeat (constructor; [split; [vm_compute; repeat constructor; discriminate|];
      split; [vm_compute; discriminate|]; right; eexists; split; [reflexivity|];
      split; [constructor; vm_compute; repeat (split || constructor || discriminate)|];
      split; [repeat constructor|]; intros _; vm_compute; by (discriminate || left)|]). constructor.
  - apply op_ready_init.
Qed.

Lemma programs_have_no_undefined_behaviour_witness :
  returns (exo_operate (E := Posix.os) 4096 (List.repeat 170 576) 8192 (List.repeat 170 576) 2
    (set_ops (<[1%nat := exo_subscribe (exo_op_init new_read) (Some 3%nat) (Some 4%nat) 8]> (w_ops sample_program))
       sample_program)) (fun '(_, w') => ready (subs := true) sample_str 2 w').
Proof.
  eapply returns_mono; [apply (programs_have_no_undefined_behaviour (subs := true) sample_str 2 4096 _ 8192 _ sample_program)|].
  - exact sample_program_ready.
  - reflexivity.
  - apply (prog_call _ _ _ sample_program 1 (exo_op_init new_read)); [apply prog_start|reflexivity|].
    apply (good_subscribe _ _ _ 3 4 (List.repeat 7 8) 8); unfold sample_str; (lia || reflexivity || (vm_compute; discriminate)).
  - reflexivity.
  - reflexivity.
  - intros [r w'] [Hr _]. exact Hr.
Defined.

Lemma sample_program_ok : world_ok sample_program.
Proof.
  split; [|vm_compute; repeat constructor; discriminate|done|].
  - vm_compute. repeat (constructor; [repeat constructor; discriminate|]). constructor.
  - repeat constructor; simpl; unfold is_u16, is_u32, is_u64, is_byte; lia.
Qed.

Lemma sample_program_callable : callable sample_stack sample_stack sample_program.
Proof.
  split; [apply sample_stack_bytes|]. split; [reflexivity|]. split; [apply sample_stack_bytes|].
  split; [reflexivity|]. split; [exact sample_program_ok|reflexivity].
Qed.

Lemma temp_protected : protected (w_ops sample_program) 3 0.
Proof. intros i o Hi _. destruct i as [|[|i]]; simplify_eq/=; discriminate. Qed.

Lemma network_writes_only_value_buffers_witness :
  returns (exo_operate (E := Posix.os) 4096 sample_stack 8192 sample_stack 2 sample_program) (fun '(_, w') =>
    byte_of (w_heap w') 3 0 = byte_of (w_heap sample_program) 3 0).
Proof.
  exact (proj1 (network_writes_only_value_buffers (subs := true) sample_str 2 4096 sample_stack 8192 sample_stack
    sample_program 3 0 sample_program_callable temp_protected) sample_program_ready).
Defined.
