(* ===== verification/ExoSilent.v ===== *)
(** * The Exosite client on a silent network

    When nothing arrives, a call of [exo_operate] does [timer_step] to each of its
    requests and nothing else.  Hence what the timers guarantee: reads and writes
    are given up after a bounded number of timeouts, subscriptions never. *)

From stdpp Require Import relations.
From S2P Require Import Prelude Mem CoapDefs CoapGet CoapSet CoapTerm Pal ExoDefs ExoBuild ExoProcess ExoRules ExoSpec ExoEnds ExoTimer ExoProps ExoSafe ExoSamples ExoSafeProps.

#[local] Opaque loop.

Section Silent.
Context {E : Type} `{PalLaws E}.
Implicit Types (w : world E).

(** Nothing waits and nothing will. *)
Definition silent w : Prop := pending (w_env w) = 0.

Lemma advances_silent w w' : advances w w' -> silent w -> silent w'.
Proof.
  intros Ha Hs. unfold silent in *. pose proof (adv_pending _ _ Ha). pose proof (pending_nonneg (w_env w')). lia.
Qed.

(** The platform after the attempt to receive, and what its clock shows then. *)
Definition after_recv w : E :=
  let '(_, _, e) := exopal_udp_recv MINIMUM_DATAGRAM_SIZE (w_env w) in e.
Definition clock_of w : Z := fst (exopal_get_time (after_recv w)).

Lemma waiting_datagrams_silent addr stack count w : silent w ->
  ends (exo_process_waiting_datagrams addr stack count w) (fun r => snd r = set_env (after_recv w) w).
Proof.
  intros Hs. unfold exo_process_waiting_datagrams, loopM, after_recv.
  destruct (exopal_udp_recv MINIMUM_DATAGRAM_SIZE (w_env w)) as [[rc data] e] eqn:He.
  assert (Hrc : rc <> 0).
  { intros ->. pose proof (recv_ok MINIMUM_DATAGRAM_SIZE _ _ _ _ ltac:(done) He) as (_ & _ & _ & Hlt). specialize (Hlt eq_refl).
    unfold silent in Hs. pose proof (pending_nonneg e). lia. }
  assert (Hb : ends (recv_step count (stack_pdu addr stack) w) (fun r =>
    fst r = Break tt /\ snd r = set_env e w)).
  { unfold recv_step. apply ends_platform. intros [rc' data'] e' He'. cbn [pdu_max stack_pdu] in He'.
    rewrite He in He'. injection He' as <- <- <-. eapply ends_lift; [apply store_bytes_ends|]. intros m _.
    by rewrite (proj2 (Z.eqb_neq rc 0) Hrc). }
  rewrite loop_first; cbn [fst snd]; destruct (recv_step _ _ w) as [[st w']|] eqn:Er; rewrite ?Er; cbn [rbind].
  - simpl in Hb. destruct Hb as [-> ->]. done.
  - exact Hb.
  - simpl in Hb. destruct Hb as [-> _]. done.
  - done.
Qed.

Lemma active_silent addr stack count w : bytes stack -> zlen stack = 576 -> world_ok w ->
  ends (exo_process_active_ops addr stack count w) (fun r =>
    each_timer (pending (w_env w)) (fst (exopal_get_time (w_env w))) 0 count w (snd r)).
Proof.
  intros Hb Hl Hok. unfold exo_process_active_ops. apply ends_platform. intros now e He. rewrite He.
  pose proof (time_ok _ _ _ He) as [_ Hp]. assert (Ha : advances w (set_env e w)) by (by apply advances_env).
  eapply ends_mono; [apply active_ops_timer; [by apply stack_pdu576|by apply (adv_ok _ _ Ha)|exact Hp]|].
  intros r Hr. exact Hr.
Qed.

(** The step of the device leaves all requests but the first alone. *)
Lemma ensure_activation_other w :
  ends (ensure_activation w) (fun r => forall j, j <> 0%nat -> w_ops (snd r) !! j = w_ops w !! j).
Proof.
  unfold ensure_activation. apply ends_get_op. intros o0 _.
  eapply (ends_M _ _ _ (fun r => w_ops (snd r) = w_ops w)).
  - case_bool_decide; [done|]. apply ends_platform. by intros now e _.
  - intros [] w' Hw; simpl in Hw; [|by simpl; rewrite Hw]. unfold upd_op.
    destruct (w_ops w' !! 0%nat); [|done]. simpl. intros j Hj. by rewrite list_lookup_insert_ne, Hw by done.
Qed.

(** ** One call *)

Section Call.
Context (addr1 addr2 : Z) (stack1 stack2 : list Z) (count : nat).
#[local] Abbreviation operate := (operate addr1 addr2 stack1 stack2 count).
#[local] Abbreviation callable := (callable stack1 stack2).

(** The slots of which the device state does not dispose. *)
Definition own_slot w (i : nat) : Prop := i <> 0%nat \/ w_device w = EXO_STATE_GOOD.

(** A request the call steps at the time [now]. *)
Definition ticks (now : Z) (i : nat) w w' : Prop :=
  forall o, w_ops w !! i = Some o -> exists o', w_ops w' !! i = Some o' /\ timer_step 0 now o o'.

Lemma operate_silent w i : callable w -> silent w -> w_device w <> EXO_STATE_UNINITIALIZED ->
  (i < count)%nat -> own_slot w i ->
  ends (operate w) (fun r => exists now, ticks now i w (snd r) /\
    (w_device w = EXO_STATE_GOOD -> now = clock_of w)).
Proof.
  intros (Hb1 & Hl1 & Hb2 & Hl2 & Hok & Hp) Hs Hd Hi Hown. unfold ExoProps.operate, exo_operate. apply ends_gets.
  rewrite decide_False by done.
  eapply (ends_M _ _ _ (fun r => advances w (snd r) /\ w_ops (snd r) !! i = w_ops w !! i /\
    (w_device w = EXO_STATE_GOOD -> snd r = w))).
  { destruct (w_device w) eqn:Ed; try (by split; [simpl; reflexivity|]).
    - destruct Hown as [Hne|]; [|congruence].
      eapply ends_mono; [apply ends_and; [apply ensure_activation_ends|apply ensure_activation_other]|].
      intros r [Ha Ho]. split; [exact Ha|]. split; [by apply Ho|done].
    - destruct Hown as [Hne|]; [|congruence].
      eapply ends_mono; [apply ends_and; [apply ensure_activation_ends|apply ensure_activation_other]|].
      intros r [Ha Ho]. split; [exact Ha|]. split; [by apply Ho|done]. }
  intros u w1 (Ha1 & Ho1 & Hw1). simpl in *. pose proof (advances_silent _ _ Ha1 Hs) as Hs1.
  eapply ends_M; [apply ends_and; [apply waiting_datagrams_ends; [done|done|unfold silent in Hs1; lia]|
                                   by apply waiting_datagrams_silent]|].
  intros u2 w2 [Ha2 Hw2]. unfold adv in Ha2. simpl in *.
  assert (Ha : advances w w2) by (by etransitivity). pose proof (advances_silent _ _ Ha Hs) as Hs2.
  eapply ends_M; [apply active_silent; [done|done|by apply (adv_ok _ _ Ha)]|]. intros u3 w3 Ht. simpl in Ht.
  assert (Hgo : exists now, ticks now i w w3 /\ (w_device w = EXO_STATE_GOOD -> now = clock_of w)).
  { exists (fst (exopal_get_time (w_env w2))). split.
    - intros o Ho. destruct (Ht i) as [Hti _]. rewrite Hs2 in Hti. apply Hti; [lia|]. rewrite Hw2. simpl. congruence.
    - intros Hg. rewrite Hw2. simpl. by rewrite (Hw1 Hg). }
  eapply ends_M; [apply any_in_state_ends|]. intros busy w' [Hw' _]. simpl in Hw'. subst w'.
  destruct busy; [exact Hgo|].
  eapply ends_M; [apply any_in_state_ends|]. intros waiting w' [Hw' _]. simpl in Hw'. subst w'.
  by destruct waiting.
Qed.
End Call.

(** ** Timeouts *)

(** How many more timeouts an unanswered request outlives. *)
Definition patience (o : exo_op) : Z :=
  match op_state o with
  | EXO_REQUEST_NEW => 6 - op_retries o
  | EXO_REQUEST_PENDING => 5 - op_retries o
  | _ => 0
  end.

(** A read, write or activation that was not answered. *)
Definition unanswered (o : exo_op) : Prop :=
  retransmitted (op_type o) /\ 0 <= op_retries o <= COAP_MAX_RETRANSMIT /\
  (op_state o = EXO_REQUEST_NEW \/ op_state o = EXO_REQUEST_PENDING \/ op_state o = EXO_REQUEST_ERROR).

Lemma unanswered_patience o : unanswered o -> 0 <= patience o /\ (patience o <= 0 -> op_state o = EXO_REQUEST_ERROR).
Proof.
  unfold unanswered, patience, COAP_MAX_RETRANSMIT.
  intros (_ & ? & [Hs|[Hs|Hs]]); rewrite Hs; (split; [lia|]); [lia|lia|done].
Qed.

Lemma timer_patience now o o' : ~ send_fails (E := E) 0 -> unanswered o -> timer_step 0 now o o' ->
  unanswered o' /\ patience o' <= Z.max 0 (patience o - (if op_timeout o <=? now then 1 else 0)).
Proof.
  intros Hsend Hu Hs. pose proof Hu as (Hty & Hr & Hst). unfold retransmitted, COAP_MAX_RETRANSMIT in *.
  assert (Hsame : now < op_timeout o \/ op_state o = EXO_REQUEST_ERROR ->
    unanswered o /\ patience o <= Z.max 0 (patience o - (if op_timeout o <=? now then 1 else 0))).
  { intros Hc. split; [done|]. unfold patience. destruct (Z.leb_spec (op_timeout o) now); [|lia].
    destruct Hc as [Hc|Hc]; [lia|rewrite Hc; lia]. }
  inversion Hs; subst; unfold in_flight, retransmitted, COAP_MAX_RETRANSMIT in *;
    try (apply Hsame; intuition congruence).
  - split; [unfold unanswered, retransmitted, COAP_MAX_RETRANSMIT; simpl; auto|].
    assert (op_state o = EXO_REQUEST_NEW) as Hn by done. unfold patience. simpl. rewrite Hn. zcase; lia.
  - assert (op_state o = EXO_REQUEST_PENDING) as Hp by (intuition congruence).
    assert (Hu8 : u8 (op_retries o + 1) = op_retries o + 1) by (apply u8_id; unfold is_byte; lia).
    split; [unfold unanswered, retransmitted, COAP_MAX_RETRANSMIT; simpl; rewrite Hu8; repeat split; auto; lia|].
    unfold patience. simpl. rewrite Hp, Hu8. zcase; lia.
  - split; [unfold unanswered, retransmitted, COAP_MAX_RETRANSMIT; simpl; auto|]. unfold patience at 1. simpl. lia.
  - intuition congruence.
  - intuition congruence.
  - intuition congruence.
Qed.
End Silent.

(** ** A sequence of calls *)

Section Calls.
Context {E : Type} {subs : bool} `{Peer E subs}.
Context (str : nat -> Prop) (count : nat).
Implicit Types (w : world E).

(** The two datagram buffers of a call, with their addresses. *)
Definition frame : Type := (Z * list Z) * (Z * list Z).
Definition frame_ok (f : frame) : Prop :=
  bytes (snd (fst f)) /\ zlen (snd (fst f)) = 576 /\ bytes (snd (snd f)) /\ zlen (snd (snd f)) = 576.

(** Has the timeout of request [i] passed when the call looks at it? *)
Definition expired (i : nat) w : Z :=
  match w_ops w !! i with
  | Some o => if op_timeout o <=? clock_of w then 1 else 0
  | None => 0
  end.

(** A call of [exo_operate] for each of the frames; the result counts those that
    found the timeout of request [i] passed. *)
Fixpoint calls (i : nat) (frames : list frame) (n : Z) : M E Z :=
  match frames with
  | [] => retM n
  | ((addr1, stack1), (addr2, stack2)) :: frames =>
      let! x := gets (expired i) in
      let! _ := exo_operate addr1 stack1 addr2 stack2 count in
      calls i frames (n + x)
  end.

(** A client that serves requests on a silent network. *)
Record serving w : Prop := mk_serving {
  sv_ready : ready str count w;
  sv_ok : world_ok w;
  sv_silent : silent w;
  sv_good : w_device w = EXO_STATE_GOOD
}.

Lemma serving_operate addr1 stack1 addr2 stack2 w i o : serving w -> frame_ok ((addr1, stack1), (addr2, stack2)) ->
  (i < count)%nat -> w_ops w !! i = Some o ->
  exists r w' o', exo_operate addr1 stack1 addr2 stack2 count w = Ok (r, w') /\ serving w' /\
    w_ops w' !! i = Some o' /\ timer_step 0 (clock_of w) o o'.
Proof.
  intros [Hr Hok Hs Hg] (Hb1 & Hl1 & Hb2 & Hl2) Hi Ho. cbn [fst snd] in *.
  assert (Hp : pending (w_env w) < 2 ^ 64) by (unfold silent in Hs; lia).
  pose proof (operate_safe str count addr1 stack1 addr2 stack2 w Hl1 Hl2 Hr Hp) as Hsafe.
  assert (Hc : callable stack1 stack2 w) by done.
  pose proof (operate_spec addr1 addr2 stack1 stack2 count w Hc) as Hspec.
  assert (Hun : w_device w <> EXO_STATE_UNINITIALIZED) by congruence.
  pose proof (operate_silent addr1 addr2 stack1 stack2 count w i Hc Hs Hun Hi (or_intror Hg)) as Hsil.
  unfold operate, runs in *. apply returns_inv in Hsafe as ([r w'] & He & [Hr' _] & _).
  rewrite He in Hspec, Hsil. destruct Hspec as [Ha _]. destruct Hsil as (now & Ht & Hnow). simpl in *.
  destruct (Ht o Ho) as (o' & Ho' & Hstep). rewrite (Hnow Hg) in Hstep. exists r, w', o'. split; [done|].
  split; [|done]. constructor; [done|by apply (adv_ok _ _ Ha)|by eapply advances_silent|].
  by destruct (adv_device _ _ Ha) as [->| ->].
Qed.

Lemma calls_patience i frames : ~ send_fails (E := E) 0 -> (i < count)%nat -> Forall frame_ok frames ->
  forall n w o, serving w -> w_ops w !! i = Some o -> unanswered o ->
  returns (calls i frames n w) (fun '(n', w') => n <= n' /\ exists o', w_ops w' !! i = Some o' /\ unanswered o' /\
    patience o' <= Z.max 0 (patience o - (n' - n))).
Proof.
  intros Hsend Hi. induction 1 as [|[[a1 s1] [a2 s2]] fs Hf _ IH]; intros n w o Hsv Ho Hu.
  - cbn. split; [lia|]. exists o. split; [done|]. split; [done|]. lia.
  - destruct (serving_operate a1 s1 a2 s2 w i o Hsv Hf Hi Ho) as (r & w1 & o1 & He & Hsv1 & Ho1 & Ht).
    destruct (timer_patience _ _ _ Hsend Hu Ht) as [Hu1 Hpat].
    cbn [calls]. apply bind_gets. unfold bindM. rewrite He. cbn [rbind].
    assert (Hx : expired i w = if op_timeout o <=? clock_of w then 1 else 0) by (unfold expired; by rewrite Ho).
    rewrite <- Hx in Hpat. eapply returns_mono; [by eapply IH|]. intros [n' w'] (Hn & o' & ? & ? & Hp').
    assert (0 <= expired i w) by (rewrite Hx; zcase; lia). split; [lia|]. exists o'.
    split; [done|]. split; [done|]. lia.
Qed.

(** C8. For a program with valid buffers on an activated device (state good) no read,
    write or activation waits forever on a silent network: however often [exo_operate] is called, none of the
    calls has undefined behaviour, and once five of them (six for a request that was
    not sent yet, one fewer for each retransmission already counted) found the
    timeout of the request passed, it has failed, provided the platform takes the
    datagrams it is given.  Nothing is claimed for a device without a CIK, for which
    [exo_operate] itself queues activations in slot 0 again and again. *)
Theorem unanswered_requests_fail i frames w o :
  ~ send_fails (E := E) 0 -> (i < count)%nat -> Forall frame_ok frames ->
  serving w -> w_ops w !! i = Some o -> retransmitted (op_type o) -> 0 <= op_retries o <= COAP_MAX_RETRANSMIT ->
  op_state o = EXO_REQUEST_NEW \/ op_state o = EXO_REQUEST_PENDING ->
  returns (calls i frames 0 w) (fun '(n, w') => patience o <= n ->
    exists o', w_ops w' !! i = Some o' /\ op_state o' = EXO_REQUEST_ERROR).
Proof.
  intros Hsend Hi Hf Hsv Ho Hty Hr Hst. eapply returns_mono.
  - apply (calls_patience i frames Hsend Hi Hf 0 w o Hsv Ho). split; [done|]. split; [done|]. intuition.
  - intros [n w'] (_ & o' & Ho' & Hu & Hp) Hn. exists o'. split; [done|]. apply (unanswered_patience _ Hu). lia.
Qed.
End Calls.

(** ** Subscriptions *)

Section Subscriptions.
Context {E : Type} `{PalLaws E}.
Context (addr1 addr2 : Z) (stack1 stack2 : list Z) (count : nat).
Implicit Types (w : world E).

(** A subscription that was not confirmed. *)
Definition unconfirmed (o : exo_op) : Prop :=
  op_type o = EXO_SUBSCRIBE /\ (op_state o = EXO_REQUEST_NEW \/ op_state o = EXO_REQUEST_PENDING).

Lemma timer_unconfirmed now o o' : unconfirmed o -> timer_step (E := E) 0 now o o' -> unconfirmed o'.
Proof.
  intros [Hty Hst] Hs. unfold unconfirmed.
  destruct Hs; simpl; try done; unfold in_flight, retransmitted in *; intuition congruence.
Qed.

(** On a silent network a subscription that was not confirmed is never given
    up: every call of [exo_operate] leaves it new or pending, and reports that it
    is busy or waiting, never that it is idle. *)
Theorem unconfirmed_subscription_never_idle w i o :
  callable stack1 stack2 w -> silent w -> w_device w <> EXO_STATE_UNINITIALIZED ->
  (i < count)%nat -> own_slot w i -> w_ops w !! i = Some o -> unconfirmed o ->
  ends (operate addr1 addr2 stack1 stack2 count w) (fun '(r, w') =>
    (r = EXO_BUSY \/ r = EXO_WAITING) /\
    callable stack1 stack2 w' /\ silent w' /\ w_device w' <> EXO_STATE_UNINITIALIZED /\ own_slot w' i /\
    exists o', w_ops w' !! i = Some o' /\ unconfirmed o').
Proof.
  intros Hc Hs Hd Hi Hown Ho Hu. pose proof Hc as (? & ? & ? & ? & Hok & _).
  eapply ends_mono; [apply ends_and; [by apply operate_spec|by apply (operate_silent _ _ _ _ _ w i)]|].
  intros [r w'] [[Ha Hrep] (now & Ht & _)]. cbn [fst snd] in *.
  destruct (Ht o Ho) as (o' & Ho' & Hstep). pose proof (timer_unconfirmed _ _ _ Hu Hstep) as Hu'.
  assert (Hs' : silent w') by (by eapply advances_silent).
  assert (Hd' : w_device w' <> EXO_STATE_UNINITIALIZED) by (by destruct (adv_device _ _ Ha) as [->| ->]).
  split; [|split; [repeat split; try done; [by apply (adv_ok _ _ Ha)..|unfold silent in Hs'; lia]|]].
  - destruct Hu' as [_ Hst]. destruct r; simpl in Hrep; try done; auto. exfalso.
    destruct Hrep as [Hn Hp]. destruct Hst; [apply Hn|apply Hp]; eauto.
  - repeat split; [done|done| |by eexists].
    destruct Hown as [?|Hg]; [by left|right]. by destruct (adv_device _ _ Ha) as [->| ->].
Qed.
End Subscriptions.

(** ** Instances *)

(** On POSIX nothing is pending when the inbox is empty and no failure of [send] is
    to come. *)
Lemma posix_reliable : ~ send_fails (E := Posix.os) 0.
Proof.
  intros (bs & e & rc & e' & Hp & Hs & Hrc). cbn in Hp, Hs. unfold Posix.exopal_udp_send in Hs.
  destruct (Posix.os_send_fails e) as [|b f]; [by simplify_eq|]. rewrite zlen_cons in Hp. zlen_pos. lia.
Qed.

(** The sample client with a clock that runs ten seconds between its readings. *)
Definition deaf_client (o : exo_op) : world Posix.os :=
  set_env (Posix.mk_os [] [] [] (List.map (fun n => (10 * Z.of_nat n, 0)) (List.seq 1 20)) [100; 200; 300]
             None true 1000 0 None) (client o).

Definition sample_frame : frame := ((4096, sample_stack), (8192, sample_stack)).

Lemma sample_frame_ok : frame_ok sample_frame.
Proof. split; [apply sample_stack_bytes|]. split; [done|]. split; [apply sample_stack_bytes|done]. Qed.

Lemma deaf_client_ok o : op_typed o -> world_ok (deaf_client o).
Proof.
  intros Ho. split; [by apply blocks_eval|by apply bytes_eval|done|]. constructor; [apply null_op_typed|by constructor].
Qed.

Lemma unanswered_requests_fail_witness :
  calls (E := Posix.os) 2 1 (List.repeat sample_frame 6) 0 (deaf_client new_read) <> Fault OutOfBounds /\
  returns (calls (E := Posix.os) 2 1 (List.repeat sample_frame 6) 0 (deaf_client new_read)) (fun '(n, w') =>
    6 <= n -> exists o', w_ops w' !! 1%nat = Some o' /\ op_state o' = EXO_REQUEST_ERROR).
Proof.
  assert (Hr : returns (calls (E := Posix.os) 2 1 (List.repeat sample_frame 6) 0 (deaf_client new_read)) (fun '(n, w') =>
    patience new_read <= n -> exists o', w_ops w' !! 1%nat = Some o' /\ op_state o' = EXO_REQUEST_ERROR)).
  { apply (unanswered_requests_fail (subs := true) sample_str 2 1).
    - exact posix_reliable.
    - lia.
    - repeat (constructor; [exact sample_frame_ok|]). constructor.
    - constructor; [|apply deaf_client_ok|reflexivity|reflexivity].
      + apply client_ready; [constructor|]. constructor; simpl; unfold subscribing, holds_value; try lia; try intuition congruence.
        * intros _. exists 3%nat. split; [done|]. unfold sample_str. lia.
        * intros _. exists 4%nat, (List.repeat 7 8). unfold sample_str. repeat split; (done || lia).
      + constructor; simpl; unfold is_u16, is_u32, is_u64, is_byte; lia.
    - reflexivity.
    - by left.
    - done.
    - by left. }
  split; [|exact Hr]. intros Hc. rewrite Hc in Hr. exact Hr.
Defined.

(** Six calls do give the request up: the count reaches 6. *)
Example six_timeouts :
  match calls (E := Posix.os) 2 1 (List.repeat sample_frame 6) 0 (deaf_client new_read) with
  | Ok (n, w') => (n, op_state <$> w_ops w' !! 1%nat)
  | Fault _ => (0, None)
  end = (6, Some EXO_REQUEST_ERROR).
Proof. vm_compute. reflexivity. Qed.

Lemma unconfirmed_subscription_never_idle_witness :
  ends (operate (E := Posix.os) 4096 8192 sample_stack sample_stack 2
    (deaf_client (exo_subscribe null_op (Some 3%nat) (Some 4%nat) 8))) (fun '(r, _) => r = EXO_BUSY \/ r = EXO_WAITING).
Proof.
  eapply ends_mono; [apply (unconfirmed_subscription_never_idle (E := Posix.os) 4096 8192 sample_stack sample_stack 2
    (deaf_client (exo_subscribe null_op (Some 3%nat) (Some 4%nat) 8)) 1
    (exo_subscribe null_op (Some 3%nat) (Some 4%nat) 8))|].
  - split; [apply sample_stack_bytes|]. split; [done|]. split; [apply sample_stack_bytes|].
    split; [done|]. split; [|done]. apply deaf_client_ok. constructor; simpl; unfold is_u16, is_u32, is_u64, is_byte; lia.
  - reflexivity.
  - discriminate.
  - lia.
  - by left.
  - reflexivity.
  - split; [reflexivity|by left].
  - intros [r w'] [Hr _]. exact Hr.
Defined.
