(* ===== verification/ExoMsgProps.v ===== *)
(** * The Exosite client: properties of requests and responses

    What the builders send, and what each kind of response does to the request it
    answers. *)

From S2P Require Import Prelude Mem CoapDefs CoapGet CoapSet CoapMessage CoapGetFacts CoapSetFacts Pal ExoDefs ExoBuild ExoProcess ExoRules ExoBuildFacts ExoHandleFacts ExoSamples.

(** ** What is sent *)

Section Requests.
Context {E : Type} `{PalLaws E}.
Implicit Types (w : world E).

(** [exo_build_msg_read] builds the confirmable GET of 1a/ALIAS?CIK with the
    next message id and a token from two random bytes: it reports [EXO_OK] exactly
    when that message fits the buffer, and the packet then holds exactly that
    message; otherwise the packet holds a message with the same header that lacks
    options. *)
Theorem read_request pdu w r e cik junk ba blk alias :
  pdu_max pdu = zlen (pdu_buf pdu) -> 6 <= pdu_max pdu < 2 ^ 62 ->
  0 <= w_mid w < 65536 -> libc_rand (w_env w) = (r, e) ->
  w_cik w = cik ++ junk -> bytes cik -> zlen cik = 40 ->
  w_heap w !! ba = Some blk -> cstring alias blk -> zlen alias < 65536 ->
  let target := mk_msg 1 CT_CON CC_GET (w_mid w) (le_bytes 2 r)
                  [(11, lit "1a"); (11, alias); (15, cik)] None in
  returns (exo_build_msg_read pdu (Some ba) w) (fun '((err, pdu'), w') =>
    (err = EXO_OK <-> zlen (encode target) <= pdu_max pdu) /\
    (err = EXO_OK -> represents pdu' target) /\
    (exists m, represents pdu' m /\ header_of m = header_of target) /\
    w' = set_env e (set_mid (u16 (w_mid w + 1)) w)).
Proof.
  intros. eapply returns_mono; [by eapply build_read|].
  intros [[err p] w'] [(m & HR & _ & Hh & Hiff & Hm) Hw]. simpl in *.
  split; [done|]. split; [intros E0; rewrite (Hm E0) in HR; exact HR|]. split; [by exists m|done].
Qed.

(** [exo_build_msg_observe] builds the same request with an Observe option of
    value 0, under the same conditions. *)
Theorem observe_request pdu w r e cik junk ba blk alias :
  pdu_max pdu = zlen (pdu_buf pdu) -> 6 <= pdu_max pdu < 2 ^ 62 ->
  0 <= w_mid w < 65536 -> libc_rand (w_env w) = (r, e) ->
  w_cik w = cik ++ junk -> bytes cik -> zlen cik = 40 ->
  w_heap w !! ba = Some blk -> cstring alias blk -> zlen alias < 65536 ->
  let target := mk_msg 1 CT_CON CC_GET (w_mid w) (le_bytes 2 r)
                  [(6, [0]); (11, lit "1a"); (11, alias); (15, cik)] None in
  returns (exo_build_msg_observe pdu (Some ba) w) (fun '((err, pdu'), w') =>
    (err = EXO_OK <-> zlen (encode target) <= pdu_max pdu) /\
    (err = EXO_OK -> represents pdu' target) /\
    w' = set_env e (set_mid (u16 (w_mid w + 1)) w)).
Proof.
  intros. eapply returns_mono; [by eapply build_observe|].
  intros [[err p] w'] [(m & HR & _ & Hh & Hiff & Hm) Hw]. simpl in *.
  split; [done|]. split; [intros E0; rewrite (Hm E0) in HR; exact HR|done].
Qed.

(** C22. [exo_build_msg_write] builds the confirmable POST to 1a/ALIAS?CIK with the
    value as its payload, under the same conditions. *)
Theorem write_request pdu w r e cik junk ba blk alias bv vblk value :
  pdu_max pdu = zlen (pdu_buf pdu) -> 6 <= pdu_max pdu < 2 ^ 62 ->
  0 <= w_mid w < 65536 -> libc_rand (w_env w) = (r, e) ->
  w_cik w = cik ++ junk -> bytes cik -> zlen cik = 40 ->
  w_heap w !! ba = Some blk -> cstring alias blk -> zlen alias < 65536 ->
  w_heap w !! bv = Some vblk -> cstring value vblk -> zlen value < 2 ^ 62 ->
  let target := mk_msg 1 CT_CON CC_POST (w_mid w) (le_bytes 2 r)
                  [(11, lit "1a"); (11, alias); (15, cik)] (Some value) in
  returns (exo_build_msg_write pdu (Some ba) (Some bv) w) (fun '((err, pdu'), w') =>
    (err = EXO_OK <-> zlen (encode target) <= pdu_max pdu) /\
    (err = EXO_OK -> represents pdu' target) /\
    w' = set_env e (set_mid (u16 (w_mid w + 1)) w)).
Proof.
  intros. eapply returns_mono; [by eapply build_write|].
  intros [[err p] w'] [(m & HR & _ & Hh & Hiff & Hm) Hw]. simpl in *.
  split; [done|]. split; [intros E0; rewrite (Hm E0) in HR; exact HR|done].
Qed.

(** C17. For terminated strings shorter than 64 KiB [exo_build_msg_activate] builds the confirmable POST to
    provision/activate/VENDOR/MODEL/SERIAL with the next message id and a token from
    two random bytes: it reports [EXO_OK] exactly when that message fits the buffer,
    and the packet then holds exactly that message; it takes one message id and one
    random number and changes nothing else. *)
Theorem activate_request pdu w r e bv bm bs vb mb sb vendor model serial :
  pdu_max pdu = zlen (pdu_buf pdu) -> 6 <= pdu_max pdu < 2 ^ 62 ->
  0 <= w_mid w < 65536 -> libc_rand (w_env w) = (r, e) ->
  w_heap w !! bv = Some vb -> cstring vendor vb -> zlen vendor < 65536 ->
  w_heap w !! bm = Some mb -> cstring model mb -> zlen model < 65536 ->
  w_heap w !! bs = Some sb -> cstring serial sb -> zlen serial < 65536 ->
  let target := mk_msg 1 CT_CON CC_POST (w_mid w) (le_bytes 2 r)
                  [(11, lit "provision"); (11, lit "activate"); (11, vendor); (11, model); (11, serial)] None in
  returns (exo_build_msg_activate pdu (Some bv) (Some bm) (Some bs) w) (fun '((err, pdu'), w') =>
    (err = EXO_OK <-> zlen (encode target) <= pdu_max pdu) /\
    (err = EXO_OK -> represents pdu' target) /\
    w' = set_env e (set_mid (u16 (w_mid w + 1)) w)).
Proof.
  intros. eapply returns_mono; [by eapply build_activate|].
  intros [[err p] w'] [(m & HR & _ & Hh & Hiff & Hm) Hw]. simpl in *.
  split; [done|]. split; [intros E0; rewrite (Hm E0) in HR; exact HR|done].
Qed.
End Requests.

(** The answer to a confirmable message nobody waits for cannot fail, as the
    comment in the code says: for every message id, token and token length a valid
    packet can have, [exo_build_msg_rst] reports [EXO_OK] and the packet is the
    empty reset message that echoes the message id and the token bytes. *)
Theorem reset_cannot_fail pdu mid token tkl :
  pdu_max pdu = zlen (pdu_buf pdu) -> pdu_max pdu = 576 -> 0 <= mid < 65536 -> 0 <= tkl <= 8 ->
  returns (exo_build_msg_rst pdu mid token tkl) (fun '(err, pdu') =>
    err = EXO_OK /\ represents pdu' (mk_msg 1 CT_RST CC_EMPTY mid (le_bytes (Z.to_nat tkl) token) [] None)).
Proof.
  intros Hm Hx Hmid Ht. eapply returns_mono; [apply build_rst; [done|lia|done|done|lia]|].
  intros [err p] H. exact H.
Qed.

(** ** Witnesses *)

Lemma read_request_witness :
  returns (exo_build_msg_read (response_pdu (response 0 [] None)) (Some 3%nat) (client (sent EXO_READ)))
    (fun '((err, _), _) => err = EXO_OK).
Proof.
  eapply returns_mono; [eapply (read_request _ (client (sent EXO_READ)) 100 _
    (lit "a32c85ba9dda45823be416246cf8b433baa068d7") [0] 3 _ (lit "temp"))|].
  1-10: witness_eval.
  intros [[err p] w'] (Hiff & _). apply Hiff. vm_compute. discriminate.
Defined.

Lemma observe_request_witness :
  returns (exo_build_msg_observe (response_pdu (response 0 [] None)) (Some 3%nat) (client (sent EXO_SUBSCRIBE)))
    (fun '((err, _), _) => err = EXO_OK).
Proof.
  eapply returns_mono; [eapply (observe_request _ (client (sent EXO_SUBSCRIBE)) 100 _
    (lit "a32c85ba9dda45823be416246cf8b433baa068d7") [0] 3 _ (lit "temp"))|].
  1-10: witness_eval.
  intros [[err p] w'] (Hiff & _). apply Hiff. vm_compute. discriminate.
Defined.

Lemma write_request_witness :
  returns (exo_build_msg_write (response_pdu (response 0 [] None)) (Some 3%nat) (Some 3%nat) (client (sent EXO_WRITE)))
    (fun '((err, _), _) => err = EXO_OK).
Proof.
  eapply returns_mono; [eapply (write_request _ (client (sent EXO_WRITE)) 100 _
    (lit "a32c85ba9dda45823be416246cf8b433baa068d7") [0] 3 _ (lit "temp") 3 _ (lit "temp"))|].
  1-13: witness_eval.
  intros [[err p] w'] (Hiff & _). apply Hiff. vm_compute. discriminate.
Defined.

Lemma activate_request_witness :
  returns (exo_build_msg_activate (response_pdu (response 0 [] None)) (Some 3%nat) (Some 3%nat) (Some 3%nat)
      (client (sent EXO_ACTIVATE)))
    (fun '((err, _), _) => err = EXO_OK).
Proof.
  eapply returns_mono; [eapply (activate_request _ (client (sent EXO_ACTIVATE)) 100 _ 3 3 3 _ _ _
    (lit "temp") (lit "temp") (lit "temp"))|].
  1-13: witness_eval.
  intros [[err p] w'] (Hiff & _). apply Hiff. vm_compute. discriminate.
Defined.

Lemma reset_cannot_fail_witness :
  returns (exo_build_msg_rst (response_pdu (response 0 [] None)) 0x1234 0xABCD 2) (fun '(err, _) => err = EXO_OK).
Proof.
  eapply returns_mono; [apply (reset_cannot_fail (response_pdu (response 0 [] None)) 0x1234 0xABCD 2)|];
    [reflexivity|reflexivity|lia|lia|]. intros [err p] (H & _). exact H.
Defined.

(** ** What responses do *)

Section Responses.
Context {E : Type} `{Pal E}.
Context (pdu : coap_pdu) (m : message) (HR : represents pdu m).
Implicit Types (w : world E).

(** The message is for the request [i] and for none before it. *)
Definition addressed w (count i : nat) (o : exo_op) : Prop :=
  (i < count)%nat /\ w_ops w !! i = Some o /\
  forall j, (j < i)%nat -> exists x, w_ops w !! j = Some x /\ matches m x = false.

(** C9. A success response to a pending read, the first request it is for, whose value
    buffer is a non-empty block with at least the size given with the request, in all
    cases: a payload that
    leaves room for its NUL is copied to the start of the buffer, terminated, the
    rest of the buffer and everything else stay as they were, and the request is a
    success; a payload too large for the size given fails the request and writes
    nothing; and a response without a payload only makes the first byte of the
    buffer NUL and leaves the request pending, so that the empty value is not
    reported. *)
Theorem read_response_delivered w count i o b blk :
  addressed w count i o -> m_type m = CT_ACK -> m_code m / 32 = 2 ->
  op_type o = EXO_READ -> op_state o = EXO_REQUEST_PENDING -> op_mid o = m_mid m ->
  op_value o = Some b -> w_heap w !! b = Some blk ->
  0 < zlen blk -> op_value_max o <= zlen blk -> op_value_max o < 2 ^ 64 ->
  let pl := default [] (m_payload m) in
  match_ops pdu 0 count w = Ok (true,
    if decide (pl = []) then set_heap (<[b := 0 :: drop 1 blk]> (w_heap w)) w
    else if op_value_max o <? zlen pl + 1 then set_ops (<[i := op_set_state EXO_REQUEST_ERROR o]> (w_ops w)) w
    else set_ops (<[i := op_set_state EXO_REQUEST_SUCCESS o]> (w_ops w))
           (set_heap (<[b := pl ++ 0 :: drop (length pl + 1) blk]> (w_heap w)) w)).
Proof.
  intros (Hi & Ho & Hj) Ht Hc Hty Hst Hmid Hv Hb Hl Hblk Hsz pl.
  apply (match_ops_found pdu m HR count w i _ Hi Hj).
  rewrite (ack_dispatch pdu m HR w i o Ho Ht Hst Hmid Hc). by apply (success_read_result pdu m HR w i o b blk).
Qed.

(** C34. A success response with an Observe option of at most four bytes, and without
    the invalid option number 0, to a pending subscription (the first request it is
    for, value buffer as for reads), in all cases: a payload that fits is
    delivered as for a read, the request is a success, its sequence number becomes
    the old one shifted and combined with the bytes of the option, and it is due for
    renewal at its Max-Age (120 s unless the option has exactly one byte) and up to
    1.5 s from now; a payload too large fails the request; and without a payload the
    first byte of the buffer becomes NUL and the request stays pending with its
    sequence number and timeout. *)
Theorem subscription_response w count i o b blk o1 sv now r e1 e2 :
  addressed w count i o -> m_type m = CT_ACK -> m_code m / 32 = 2 ->
  op_type o = EXO_SUBSCRIBE -> op_state o = EXO_REQUEST_PENDING -> op_mid o = m_mid m ->
  op_value o = Some b -> w_heap w !! b = Some blk ->
  0 < zlen blk -> op_value_max o <= zlen blk -> op_value_max o < 2 ^ 64 ->
  Forall (fun x => 0 < fst x) (m_options m) ->
  find_occ 6 0 [] (m_options m) = Some (o1, sv) -> zlen sv <= 4 ->
  exopal_get_time (w_env w) = (now, e1) -> libc_rand e1 = (r, e2) ->
  let pl := default [] (m_payload m) in
  match_ops pdu 0 count w = Ok (true,
    if decide (pl = []) then set_heap (<[b := 0 :: drop 1 blk]> (w_heap w)) w
    else if op_value_max o <? zlen pl + 1 then set_ops (<[i := op_set_state EXO_REQUEST_ERROR o]> (w_ops w)) w
    else set_ops (<[i := op_set_timeout (u64 (now + max_age m * 1000000 + u64 r mod 1500000))
                           (op_set_obs_seq (seq_from 0 (op_obs_seq o) sv)
                             (op_set_state EXO_REQUEST_SUCCESS o))]> (w_ops w))
           (set_env e2 (set_heap (<[b := pl ++ 0 :: drop (length pl + 1) blk]> (w_heap w)) w))).
Proof.
  intros (Hi & Ho & Hj) Ht Hc Hty Hst Hmid Hv Hb Hl Hblk Hsz Hpos Hobs Hsv Htime Hrand pl.
  apply (match_ops_found pdu m HR count w i _ Hi Hj).
  rewrite (ack_dispatch pdu m HR w i o Ho Ht Hst Hmid Hc).
  rewrite (subscription_answered pdu m HR w i o b blk now r e1 e2) by done. fold pl.
  rewrite (observe_found pdu m HR Hpos o1 sv Hobs Hsv). cbn [rbind].
  destruct (decide (pl = [])); [done|]. by destruct (_ <? _).
Qed.

(** C40. The Observe option of a success response to a pending subscription is used
    without checking that it is there.  For every such response with a payload that
    fits, with option numbers above 0 and without an Observe option, which the
    protocol allows, in a packet that lies in the address space: if an option
    number above 6 is present the response is handled and the sequence number kept;
    if there are other options only, the code dereferences a null pointer; and if
    there is no option at all the payload is taken for the sequence number, which
    for more than four bytes shifts by the width of the type. *)
Theorem subscription_without_observe w count i o b blk pl now r e1 e2 :
  addressed w count i o -> m_type m = CT_ACK -> m_code m / 32 = 2 ->
  op_type o = EXO_SUBSCRIBE -> op_state o = EXO_REQUEST_PENDING -> op_mid o = m_mid m ->
  op_value o = Some b -> w_heap w !! b = Some blk ->
  m_payload m = Some pl -> pl <> [] -> zlen pl + 1 <= op_value_max o -> op_value_max o <= zlen blk ->
  op_value_max o < 2 ^ 64 ->
  Forall (fun x => 0 < fst x) (m_options m) -> Forall (fun x => fst x <> 6) (m_options m) ->
  0 <= pdu_addr pdu -> pdu_addr pdu + pdu_len pdu < 2 ^ 64 ->
  exopal_get_time (w_env w) = (now, e1) -> libc_rand e1 = (r, e2) ->
  let answered seq := Ok (true,
    set_ops (<[i := op_set_timeout (u64 (now + max_age m * 1000000 + u64 r mod 1500000))
                      (op_set_obs_seq seq (op_set_state EXO_REQUEST_SUCCESS o))]> (w_ops w))
      (set_env e2 (set_heap (<[b := pl ++ 0 :: drop (length pl + 1) blk]> (w_heap w)) w))) in
  match_ops pdu 0 count w =
    if existsb (fun x => 6 <? fst x) (m_options m) then answered (op_obs_seq o)
    else match m_options m with
         | [] => if zlen pl <=? 4 then answered (seq_from 0 (op_obs_seq o) pl) else Fault BadShift
         | _ => Fault NullPointer
         end.
Proof.
  intros (Hi & Ho & Hj) Ht Hc Hty Hst Hmid Hv Hb Hp Hne Hmax Hblk Hsz Hpos Habs Ha Hal Htime Hrand answered.
  assert (0 < zlen pl) by (destruct pl; [done|len_lia]).
  assert (Hs : handle_op pdu i w = (let* seq :=
    if existsb (fun x => 6 <? fst x) (m_options m) then Ok (op_obs_seq o)
    else match m_options m with
         | [] => if zlen pl <=? 4 then Ok (seq_from 0 (op_obs_seq o) pl) else Fault BadShift
         | _ => Fault NullPointer
         end in answered seq)).
  { rewrite (ack_dispatch pdu m HR w i o Ho Ht Hst Hmid Hc).
    rewrite (subscription_answered pdu m HR w i o b blk now r e1 e2) by (done || lia).
    rewrite (observe_missing pdu m HR pl) by done. rewrite Hp. cbn [default from_option].
    rewrite decide_False, (proj2 (Z.ltb_ge _ _)) by (done || lia). done. }
  rewrite (match_ops_at pdu m HR count w i Hi Hj), Hs.
  destruct (existsb _ _); [done|]. destruct (m_options m); [|done]. by destruct (zlen pl <=? 4).
Qed.

(** A success response with 40 bytes to an activation installs them as the CIK,
    NUL terminated, hands it to the platform for storage, makes the device good
    and frees the request. *)
Theorem activation_installs_cik w count i o cik rc e :
  addressed w count i o -> m_type m = CT_ACK -> m_code m / 32 = 2 -> m_payload m = Some cik -> zlen cik = 40 ->
  op_type o = EXO_ACTIVATE -> op_state o = EXO_REQUEST_PENDING -> op_mid o = m_mid m ->
  length (w_cik w) = 41%nat -> exopal_store_cik (cik ++ [0]) (w_env w) = (rc, e) ->
  match_ops pdu 0 count w = Ok (true,
    mk_world (cik ++ [0]) (w_vendor w) (w_model w) (w_serial w) (w_mid w) EXO_STATE_GOOD (w_heap w)
      (<[i := exo_op_init o]> (w_ops w)) e).
Proof.
  intros (Hi & Ho & Hj) Ht Hc Hp Hl Hty Hst Hmid Hlc He.
  apply (match_ops_found pdu m HR count w i _ Hi Hj).
  rewrite (ack_dispatch pdu m HR w i o Ho Ht Hst Hmid Hc).
  by apply (success_activate pdu m HR w i o cik rc e).
Qed.

(** C16. A response of another class than success fails the request, whatever its
    type, and changes no buffer.  A not-found response also makes the device good.
    After an unauthorized response the code looks at slot 0, where the request
    itself may have failed just now: if it is unused, or its timeout has passed, an
    activation is queued there, which for a request in slot 0 replaces the failed
    one by a new activation; otherwise nothing else changes. *)
Theorem error_response_fails w count i o o0 :
  addressed w count i o -> m_type m = CT_ACK -> m_code m / 32 <> 2 ->
  op_state o = EXO_REQUEST_PENDING -> op_mid o = m_mid m ->
  let failed := <[i := op_set_state EXO_REQUEST_ERROR o]> (w_ops w) in
  failed !! 0%nat = Some o0 ->
  match_ops pdu 0 count w = Ok (true,
    if m_code m =? CC_UNAUTHORIZED then
      if decide (op_type o0 = EXO_NULL) then set_ops (<[0%nat := exo_activate o0]> failed) w
      else let '(now, e) := exopal_get_time (w_env w) in
           set_ops (if op_timeout o0 <? now then <[0%nat := exo_activate o0]> failed else failed) (set_env e w)
    else if m_code m =? CC_NOT_FOUND then set_device EXO_STATE_GOOD (set_ops failed w)
    else set_ops failed w).
Proof.
  intros (Hi & Ho & Hj) Ht Hc Hst Hmid failed Ho0. apply (match_ops_found pdu m HR count w i _ Hi Hj).
  destruct (Z.eqb_spec (m_code m) CC_UNAUTHORIZED) as [Hu|Hu].
  - by apply (ack_unauthorized pdu m HR w i o o0).
  - by rewrite (ack_failure pdu m HR w i o Ho Ht Hst Hmid Hc Hu).
Qed.

(** A message that is for none of the requests changes nothing, and the search
    over the requests ends without a hit (the caller then answers a confirmable
    message with a reset). *)
Theorem unmatched_message_ignored w count :
  (forall j, (j < count)%nat -> exists x, w_ops w !! j = Some x /\ matches m x = false) ->
  match_ops pdu 0 count w = Ok (false, w).
Proof. intros Hj. by apply (match_ops_none pdu m HR). Qed.

(** C10. A notification for a subscription (the first request it is for, value buffer
    as for reads), with an Observe option of at most four bytes and without the
    invalid option number 0, in all cases: a payload that fits is
    delivered like a read; the request waits for its acknowledgement to be sent, as
    new exactly when the sequence number differs from the last one, remembers the
    message id to acknowledge, and is due for renewal between Max-Age and
    Max-Age + 1.5 s from now, where Max-Age is the value of the option only if that
    has exactly one byte and 120 s for every other length, although the comment says
    that the option is used if there is one; a payload too large fails the request;
    and a notification without a payload only clears the first byte of the buffer. *)
Theorem notification_updates_subscription w count i o b blk o1 sv now r e1 e2 :
  addressed w count i o -> m_type m = CT_CON \/ m_type m = CT_NON -> m_code m = CC_CONTENT ->
  op_state o = EXO_REQUEST_SUBSCRIBED -> op_token o = le_value (m_token m) ->
  Forall (fun x => 0 < fst x) (m_options m) ->
  find_occ 6 0 [] (m_options m) = Some (o1, sv) -> zlen sv <= 4 ->
  op_value o = Some b -> w_heap w !! b = Some blk ->
  0 < zlen blk -> op_value_max o <= zlen blk -> op_value_max o < 2 ^ 64 ->
  exopal_get_time (w_env w) = (now, e1) -> libc_rand e1 = (r, e2) ->
  let pl := default [] (m_payload m) in
  let seq := seq_from 0 0 sv in
  let age := match find_occ 14 0 [] (m_options m) with Some (_, [a]) => a | _ => 120 end in
  let timeout := u64 (now + age * 1000000 + u64 r mod 1500000) in
  let o' := op_set_mid (m_mid m) o in
  match_ops pdu 0 count w = Ok (true,
    if decide (pl = []) then set_heap (<[b := 0 :: drop 1 blk]> (w_heap w)) w
    else if op_value_max o <? zlen pl + 1 then set_ops (<[i := op_set_state EXO_REQUEST_ERROR o]> (w_ops w)) w
    else set_ops (<[i := op_set_timeout timeout
           (if op_obs_seq o =? seq then op_set_state EXO_REQUEST_SUB_ACK o'
            else op_set_obs_seq seq (op_set_state EXO_REQUEST_SUB_ACK_NEW o'))]> (w_ops w))
           (set_env e2 (set_heap (<[b := pl ++ 0 :: drop (length pl + 1) blk]> (w_heap w)) w))).
Proof.
  intros (Hi & Ho & Hj) Ht Hc Hst Htok Hpos Hobs Hsv Hv Hb Hl Hblk Hsz Htime Hrand pl seq age timeout o'.
  apply (match_ops_found pdu m HR count w i _ Hi Hj).
  pose proof (deliver_result pdu m HR w i o b blk Ho Hv Hb Hl Hblk Hsz) as Hd. cbv zeta in Hd. fold pl in Hd.
  pose proof (observe_found pdu m HR Hpos o1 sv Hobs Hsv 0) as Hof.
  revert Hd. destruct (decide (pl = [])) as [|Hne]; [intros; by apply (notification_undelivered pdu m HR sv w _ i o)|].
  destruct (Z.ltb_spec (op_value_max o) (zlen pl + 1)) as [|Hfit];
    intros Hd; [by apply (notification_undelivered pdu m HR sv w _ i o)|].
  assert (Hp : m_payload m = Some pl) by (unfold pl in *; by destruct (m_payload m)).
  destruct (notification_delivered pdu m HR Hpos o1 sv Hobs Hsv w i o b blk pl Ho Hv Hb Hp Hne Hfit Hblk Hsz
    now r e1 e2 Htime Hrand Ht Hc Hst Htok) as (rest & Hr & ->).
  rewrite <- (take_drop (length pl + 1) blk) in Hr at 1. by apply app_inv_head in Hr as <-.
Qed.
End Responses.

(** ** Sequence numbers *)

(** The unsigned integer of the protocol: big-endian, at most three bytes, written
    without leading zeros. *)
Definition be_value (v : list Z) : Z := fold_left (fun n b => n * 256 + b) v 0.

Definition minimal (v : list Z) : Prop :=
  zlen v <= 3 /\ bytes v /\ match v with [] => True | b :: _ => b <> 0 end.

(** What the shifts of the code make of the bytes. *)
Lemma seq_from_value v : zlen v <= 3 -> bytes v ->
  seq_from 0 0 v = match v with
                   | [a; b; c] => (a * 256 + b) * 65536 + c
                   | _ => be_value v
                   end.
Proof.
  intros Hl Hb.
  assert (Hstep : forall n k x, is_byte x -> 0 <= n -> 8 <= k -> n * 2 ^ k < 2 ^ 32 ->
    Z.lor (u32 (Z.shiftl n k)) x = n * 2 ^ k + x).
  { intros n k x Hx Hn Hk Hlt. unfold is_byte in Hx. pose proof (Z.pow_le_mono_r 2 8 k ltac:(lia) Hk).
    rewrite Z.shiftl_mul_pow2 by lia. unfold u32. rewrite Z.mod_small by nia.
    rewrite <- (Z.shiftl_mul_pow2 n k) at 1 by lia. apply shiftl_lor_add; lia. }
  assert (H0 : forall x, is_byte x -> Z.lor (u32 (Z.shiftl 0 (8 * 0))) x = x) by (intros; by rewrite Z.shiftl_0_l).
  destruct v as [|a [|b [|c [|? ?]]]]; [done|..|len_lia];
    repeat (apply Forall_cons in Hb as [? Hb]); cbn [seq_from]; rewrite H0 by done;
    unfold be_value; cbn [fold_left]; unfold is_byte in *; [done|..];
    change (8 * (0 + 1)) with 8; change (8 * (0 + 1 + 1)) with 16; rewrite (Hstep a 8 b) by (unfold is_byte; lia); [lia|].
  rewrite (Hstep (a * 2 ^ 8 + b) 16 c) by (unfold is_byte; lia). lia.
Qed.

(** C33. The engine tells the notifications of a subscription apart as the protocol
    does: the sequence number of a notification is read from zero, and although the code shifts
    the bytes of an Observe option further than a big-endian number needs, two
    options in the form the protocol asks for give the same sequence number exactly
    when they stand for the same number. *)
Theorem sequence_numbers_distinguish pdu1 m1 o1 v1 pdu2 m2 o2 v2 :
  represents pdu1 m1 -> represents pdu2 m2 ->
  Forall (fun x => 0 < fst x) (m_options m1) -> Forall (fun x => 0 < fst x) (m_options m2) ->
  find_occ 6 0 [] (m_options m1) = Some (o1, v1) -> find_occ 6 0 [] (m_options m2) = Some (o2, v2) ->
  minimal v1 -> minimal v2 ->
  exists n1 n2,
    (let* opt := coap_get_option_by_num pdu1 CON_OBSERVE 0 in observe_seq pdu1 opt 0) = Ok n1 /\
    (let* opt := coap_get_option_by_num pdu2 CON_OBSERVE 0 in observe_seq pdu2 opt 0) = Ok n2 /\
    (n1 = n2 <-> be_value v1 = be_value v2).
Proof.
  intros H1 H2 P1 P2 F1 F2 (L1 & B1 & N1) (L2 & B2 & N2). exists (seq_from 0 0 v1), (seq_from 0 0 v2).
  split; [apply (observe_found pdu1 m1 H1 P1 o1 v1 F1); lia|].
  split; [apply (observe_found pdu2 m2 H2 P2 o2 v2 F2); lia|].
  rewrite !seq_from_value by done. clear -L1 B1 N1 L2 B2 N2.
  destruct v1 as [|a1 [|b1 [|c1 [|? ?]]]], v2 as [|a2 [|b2 [|c2 [|? ?]]]]; try len_lia;
    repeat match goal with Hf : bytes (_ :: _) |- _ => apply Forall_cons in Hf as [? Hf] end;
    unfold be_value, is_byte in *; cbn [fold_left]; lia.
Qed.

(** ** Witnesses *)

Lemma sample_addressed t m : m_type m = CT_ACK -> m_mid m = 7 ->
  addressed m (client (sent t)) 2 1 (sent t).
Proof.
  intros Ht Hm. split; [lia|]. split; [done|]. intros j Hj. assert (j = 0%nat) as -> by lia.
  eexists. split; [reflexivity|]. unfold matches. by rewrite Ht.
Qed.

Lemma read_response_delivered_witness :
  match_ops (response_pdu (response CC_CONTENT [] (Some (lit "42")))) 0 2 (client (sent EXO_READ))
  = Ok (true, set_ops (<[1%nat := op_set_state EXO_REQUEST_SUCCESS (sent EXO_READ)]> (w_ops (client (sent EXO_READ))))
      (set_heap (<[4%nat := lit "42" ++ 0 :: List.repeat 7 5]> (w_heap (client (sent EXO_READ)))) (client (sent EXO_READ)))).
Proof.
  apply (read_response_delivered (E := Posix.os) _ _ response_rep (client (sent EXO_READ)) 2 1 (sent EXO_READ) 4
    (List.repeat 7 8)).
  1: apply sample_addressed; reflexivity.
  1-7: reflexivity.
  1: reflexivity.
  1: vm_compute; discriminate.
  reflexivity.
Defined.

Lemma subscription_response_witness :
  exists w', match_ops (response_pdu (response CC_CONTENT [(6, [5])] None)) 0 2 (client (sent EXO_SUBSCRIBE))
    = Ok (true, w') /\ op_state <$> (w_ops w' !! 1%nat) = Some EXO_REQUEST_PENDING.
Proof.
  eexists. split; [eapply (subscription_response (E := Posix.os) (response_pdu (response CC_CONTENT [(6, [5])] None))
    (response CC_CONTENT [(6, [5])] None) ltac:(rep_eval) (client (sent EXO_SUBSCRIBE)) 2 1 (sent EXO_SUBSCRIBE) 4
    (List.repeat 7 8) [] [5])|].
  1: apply sample_addressed; reflexivity.
  1-7: reflexivity.
  1: reflexivity.
  1: vm_compute; discriminate.
  1: reflexivity.
  1: repeat constructor.
  1: reflexivity.
  1: vm_compute; discriminate.
  1-2: reflexivity.
  reflexivity.
Defined.

(** An ETag, which comes before the place of Observe. *)
Lemma subscription_without_observe_witness :
  match_ops (response_pdu (response CC_CONTENT [(4, [9])] (Some (lit "x")))) 0 2 (client (sent EXO_SUBSCRIBE))
  = Fault NullPointer.
Proof.
  eapply (subscription_without_observe (E := Posix.os) (response_pdu (response CC_CONTENT [(4, [9])] (Some (lit "x"))))
    (response CC_CONTENT [(4, [9])] (Some (lit "x"))) ltac:(rep_eval) (client (sent EXO_SUBSCRIBE)) 2 1
    (sent EXO_SUBSCRIBE) 4 (List.repeat 7 8) (lit "x")).
  1: apply sample_addressed; reflexivity.
  1-8: reflexivity.
  1: discriminate.
  1-2: vm_compute; discriminate.
  1: reflexivity.
  1: repeat constructor.
  1: repeat constructor; discriminate.
  1: vm_compute; discriminate.
  1-3: reflexivity.
Defined.

Definition new_cik : list Z := lit "0123456789abcdef0123456789abcdef01234567".

Lemma activation_installs_cik_witness :
  exists w', match_ops (response_pdu (response CC_CONTENT [] (Some new_cik))) 0 2 (client (sent EXO_ACTIVATE))
    = Ok (true, w') /\ Posix.os_cik_file (w_env w') = Some new_cik.
Proof.
  eexists. split; [eapply (activation_installs_cik (E := Posix.os) (response_pdu (response CC_CONTENT [] (Some new_cik)))
    (response CC_CONTENT [] (Some new_cik)) ltac:(rep_eval) (client (sent EXO_ACTIVATE)) 2 1 (sent EXO_ACTIVATE) new_cik)|].
  - apply sample_addressed; reflexivity.
  - reflexivity.
  - reflexivity.
  - reflexivity.
  - reflexivity.
  - reflexivity.
  - reflexivity.
  - reflexivity.
  - reflexivity.
  - reflexivity.
  - reflexivity.
Defined.

Lemma error_response_fails_witness :
  exists w', match_ops (response_pdu (response CC_UNAUTHORIZED [] None)) 0 2 (client (sent EXO_READ))
    = Ok (true, w') /\ op_type <$> (w_ops w' !! 0%nat) = Some EXO_ACTIVATE.
Proof.
  eexists. split; [eapply (error_response_fails (E := Posix.os) (response_pdu (response CC_UNAUTHORIZED [] None))
    (response CC_UNAUTHORIZED [] None) ltac:(rep_eval) (client (sent EXO_READ)) 2 1 (sent EXO_READ))|].
  1: apply sample_addressed; reflexivity.
  1: reflexivity.
  1: discriminate.
  1-3: reflexivity.
  reflexivity.
Defined.

Lemma unmatched_message_ignored_witness :
  match_ops (response_pdu (response CC_CONTENT [] (Some (lit "42")))) 0 1 (client (sent EXO_READ))
  = Ok (false, client (sent EXO_READ)).
Proof.
  apply (unmatched_message_ignored (E := Posix.os) _ _ response_rep). intros j Hj. assert (j = 0%nat) as -> by lia.
  eexists. split; reflexivity.
Defined.

Definition subscribed : exo_op :=
  mk_op EXO_SUBSCRIBE EXO_REQUEST_SUBSCRIBED (Some 3%nat) (Some 4%nat) 8 7 5 0 513 0 0.
Definition notification : message :=
  mk_msg 1 CT_CON CC_CONTENT 99 [1; 2] [(6, [6]); (14, [60])] (Some (lit "on")).

Lemma notification_updates_subscription_witness :
  exists w', match_ops (response_pdu notification) 0 2 (client subscribed) = Ok (true, w') /\
    op_state <$> (w_ops w' !! 1%nat) = Some EXO_REQUEST_SUB_ACK_NEW.
Proof.
  eexists. split; [eapply (notification_updates_subscription (E := Posix.os) (response_pdu notification) notification
    ltac:(rep_eval) (client subscribed) 2 1 subscribed 4 (List.repeat 7 8) [] [6] 100000000 100
    (w_env (client subscribed)) (Posix.set_rand (w_env (client subscribed)) [200]))|].
  - split; [lia|]. split; [reflexivity|]. intros j Hj. assert (j = 0%nat) as -> by lia.
    eexists. split; reflexivity.
  - left. reflexivity.
  - reflexivity.
  - reflexivity.
  - reflexivity.
  - repeat constructor.
  - reflexivity.
  - vm_compute. discriminate.
  - reflexivity.
  - reflexivity.
  - reflexivity.
  - vm_compute. discriminate.
  - reflexivity.
  - reflexivity.
  - reflexivity.
  - reflexivity.
Defined.

Lemma sequence_numbers_distinguish_witness :
  exists n1 n2,
    (let* opt := coap_get_option_by_num (response_pdu notification) CON_OBSERVE 0 in
     observe_seq (response_pdu notification) opt 0) = Ok n1 /\
    (let* opt := coap_get_option_by_num (response_pdu (response CC_CONTENT [(6, [1; 2; 3])] None)) CON_OBSERVE 0 in
     observe_seq (response_pdu (response CC_CONTENT [(6, [1; 2; 3])] None)) opt 0) = Ok n2 /\ n1 <> n2.
Proof.
  destruct (sequence_numbers_distinguish (response_pdu notification) notification [] [6]
    (response_pdu (response CC_CONTENT [(6, [1; 2; 3])] None)) (response CC_CONTENT [(6, [1; 2; 3])] None) [] [1; 2; 3])
    as (n1 & n2 & H1 & H2 & Hn).
  - rep_eval.
  - rep_eval.
  - repeat constructor.
  - repeat constructor.
  - reflexivity.
  - reflexivity.
  - repeat split; vm_compute; repeat constructor; discriminate.
  - repeat split; vm_compute; repeat constructor; discriminate.
  - exists n1, n2. split; [exact H1|]. split; [exact H2|]. intros Hc. apply Hn in Hc. discriminate Hc.
Defined.

(** The response to a renewed subscription is not counted from zero: the new number is
    combined with the last one, and a later notification that happens to have the
    combined number is taken for a repetition.  Here 5, 6 and 7 are the numbers of
    three different values. *)
Example renewed_subscription_misses_value :
  let renewed := op_set_obs_seq 5 (sent EXO_SUBSCRIBE) in
  let answer := response CC_CONTENT [(6, [6])] (Some (lit "on")) in
  let next := mk_msg 1 CT_CON CC_CONTENT 99 [100] [(6, [7])] (Some (lit "off")) in
  match match_ops (response_pdu answer) 0 2 (client renewed) with
  | Ok (_, w1) =>
      match upd_op 1 exo_op_done w1 with
      | Ok (_, w2) =>
          match match_ops (response_pdu next) 0 2 w2 with
          | Ok (_, w3) => (op_obs_seq <$> w_ops w1 !! 1%nat, op_state <$> w_ops w3 !! 1%nat)
          | Fault _ => (None, None)
          end
      | Fault _ => (None, None)
      end
  | Fault _ => (None, None)
  end = (Some 7, Some EXO_REQUEST_SUB_ACK).
Proof. vm_compute. reflexivity. Qed.
