(* ===== verification/ExoSendProps.v ===== *)
(** * The Exosite client: sending, retransmitting, initialising

    Properties of the pass over the active requests, of the answer to unknown
    messages, of [exo_init] and of the POSIX platform. *)

From S2P Require Import Prelude Mem CoapDefs CoapGet CoapSet CoapMessage CoapGetFacts CoapSetFacts Pal ExoDefs ExoBuild ExoProcess ExoRules ExoBuildFacts ExoHandleFacts ExoSamples.

(** ** Sending a packet that holds a message *)

Section Send.
Context {E : Type} `{PalLaws E}.
Implicit Types (w : world E).

(** The request in slot [i] once the packet with the message [m] is out. *)
Definition now_pending (m : message) (now : Z) (o : exo_op) : exo_op :=
  op_set_token (le_value (m_token m)) (op_set_mid (m_mid m)
    (op_set_timeout (u64 (now + 4000000)) (op_set_state EXO_REQUEST_PENDING o))).

Lemma send_new_rep i pdu w o p w1 m now e2 e3 :
  w_ops w !! i = Some o -> build_request pdu o w = Ok (Some p, w1) -> represents p m ->
  w_ops w1 = w_ops w -> exopal_udp_send (encode m) (w_env w1) = (0, e2) -> exopal_get_time e2 = (now, e3) ->
  send_new i pdu w = Ok (p, set_ops (<[i := now_pending m now o]> (w_ops w)) (set_env e3 w1)).
Proof.
  intros Ho Hb HR Hw Hs Ht. pose proof (lookup_lt_Some _ _ _ Ho) as Hi.
  unfold send_new, bindM, get_op. rewrite Ho. cbn [rbind]. rewrite Hb. cbn [rbind].
  rewrite (send_pdu_rep p m w1 0 e2 HR Hs). cbn [rbind Z.eqb]. unfold upd_op at 1. cbn [set_env w_ops].
  rewrite Hw, Ho. cbn [rbind]. unfold platform. cbn [set_ops set_env w_env]. rewrite Ht. cbn [rbind].
  unfold upd_op at 1. cbn [set_ops set_env w_ops]. rewrite list_lookup_insert_eq by done. cbn [rbind].
  unfold lift at 1. rewrite (get_mid_rep p m HR). cbn [rbind].
  unfold upd_op at 1. cbn [set_ops set_env w_ops].
  rewrite list_insert_insert_eq, list_lookup_insert_eq by done. cbn [rbind].
  unfold lift at 1. rewrite (get_token_rep p m HR). cbn [rbind].
  unfold upd_op at 1. cbn [set_ops set_env w_ops].
  rewrite list_insert_insert_eq, list_lookup_insert_eq by done. cbn [rbind].
  by rewrite list_insert_insert_eq.
Qed.

Lemma send_new_fails i pdu w o p w1 m rc e2 :
  w_ops w !! i = Some o -> build_request pdu o w = Ok (Some p, w1) -> represents p m ->
  exopal_udp_send (encode m) (w_env w1) = (rc, e2) -> rc <> 0 ->
  send_new i pdu w = Ok (p, set_env e2 w1).
Proof.
  intros Ho Hb HR Hs Hrc. unfold send_new, bindM, get_op. rewrite Ho. cbn [rbind]. rewrite Hb. cbn [rbind].
  rewrite (send_pdu_rep p m w1 rc e2 HR Hs). cbn [rbind]. by rewrite (proj2 (Z.eqb_neq rc 0) Hrc).
Qed.

(** ** A read request *)

Section Read.
Context (pdu : coap_pdu) (Hm : pdu_max pdu = zlen (pdu_buf pdu)) (Hs : 6 <= pdu_max pdu < 2 ^ 62).
Context (w : world E) (i : nat) (o : exo_op) (ba : nat) (blk alias cik junk : list Z) (r : Z) (e1 : E).
Context (Ho : w_ops w !! i = Some o) (Hty : op_type o = EXO_READ) (Ha : op_alias o = Some ba).
Context (Hblk : w_heap w !! ba = Some blk) (Hal : cstring alias blk) (Hln : zlen alias < 65536).
Context (Hcik : w_cik w = cik ++ junk) (Hcb : bytes cik) (Hcl : zlen cik = 40).
Context (Hmid : 0 <= w_mid w < 65536) (Hr : libc_rand (w_env w) = (r, e1)).
Context (Hfit : zlen (encode (read_msg (w_mid w) r alias cik)) <= pdu_max pdu).

Lemma build_read_request : exists p,
  build_request pdu o w = Ok (Some p, set_env e1 (set_mid (u16 (w_mid w + 1)) w)) /\
  represents p (read_msg (w_mid w) r alias cik) /\ pdu_max p = pdu_max pdu.
Proof.
  pose proof (build_read pdu Hm Hs w r e1 Hmid Hr cik junk Hcik Hcb Hcl ba blk alias Hblk Hal Hln) as Hb.
  apply returns_inv in Hb as ([[err p] w'] & Eb & (m & HR & Hmx & _ & Hiff & Hok) & Hw). simpl in *.
  assert (Herr : err = EXO_OK) by (by apply Hiff). rewrite (Hok Herr) in HR. exists p. split; [|done].
  unfold build_request. rewrite Hty, Ha. unfold bindM. rewrite Eb. cbn [rbind]. by rewrite Hw.
Qed.

Lemma retransmit_read_rep e2 now e3 r2 e4 :
  op_retries o < COAP_MAX_RETRANSMIT -> 0 <= op_retries o -> op_tkl o = 0 -> 0 <= op_mid o < 65536 ->
  let m' := mk_msg 1 CT_CON CC_GET (op_mid o) [] [(11, lit "1a"); (11, alias); (15, cik)] None in
  exopal_udp_send (encode m') e1 = (0, e2) -> exopal_get_time e2 = (now, e3) -> libc_rand e3 = (r2, e4) ->
  exists p, retransmit i pdu w = Ok (p, set_ops
    (<[i := op_set_timeout (u64 (now + (op_retries o + 1) * COAP_PROBING_RATE * 1000000 + u64 r2 mod 1500000))
         (op_set_retries (op_retries o + 1) o)]> (w_ops w))
    (set_env e4 (set_mid (u16 (w_mid w + 1)) w))).
Proof.
  intros Hlt H0r Htkl Hmo m' Hsend Htime Hrand. destruct build_read_request as (p & Eb & HR & Hmx).
  pose proof (lookup_lt_Some _ _ _ Ho) as Hi. unfold retransmit, bindM, get_op. rewrite Ho. cbn [rbind].
  rewrite (proj2 (Z.ltb_lt _ _) Hlt), Eb. cbn [rbind default from_option id].
  pose proof (set_mid_rep p _ HR (op_mid o) Hmo) as H1. apply returns_inv in H1 as ([er1 p1] & Ep1 & _ & HR1 & Hmx1 & _).
  unfold lift at 1. rewrite Ep1. cbn [rbind]. cbn [snd] in HR1, Hmx1.
  pose proof (set_token_rep p1 _ HR1 0 ltac:(lia) (op_token o)) as H2. unfold sets in H2.
  rewrite (proj2 (Z.ltb_ge _ _)) in H2.
  2: { rewrite Hmx1, Hmx. etransitivity; [|exact Hfit]. unfold encode, with_token, with_mid, encode_head.
       cbn [read_msg request m_token m_options m_payload le_bytes Z.to_nat]. len_lia. }
  apply returns_inv in H2 as ([er2 p2] & Ep2 & _ & HR2 & _). cbn [snd] in HR2. unfold lift at 1. rewrite Htkl, Ep2. cbn [rbind].
  rewrite (send_pdu_rep p2 m' _ 0 e2 HR2) by exact Hsend. cbn [rbind Z.eqb].
  exists p2. unfold COAP_MAX_RETRANSMIT in Hlt. rewrite u8_id by (unfold is_byte; lia).
  unfold upd_op at 1. cbn [set_env set_mid w_ops]. rewrite Ho. cbn [rbind].
  unfold rand, platform. cbn [set_ops set_env set_mid w_env]. rewrite Htime. cbn [rbind set_env w_env]. rewrite Hrand. cbn [rbind].
  unfold upd_op at 1. cbn [set_ops set_env w_ops]. rewrite list_lookup_insert_eq by done. cbn [rbind].
  by rewrite list_insert_insert_eq.
Qed.

(** A new read whose request fits a datagram is sent as exactly the encoding of
    its request; when the platform takes it, the request becomes pending with the
    message id and the token of the datagram and a timeout of four seconds. *)
Theorem new_read_is_sent now0 e2 now e3 :
  op_state o = EXO_REQUEST_NEW ->
  exopal_udp_send (encode (read_msg (w_mid w) r alias cik)) e1 = (0, e2) -> exopal_get_time e2 = (now, e3) ->
  exists p, active_op now0 i pdu w = Ok (p,
    set_ops (<[i := op_set_token (r mod 65536) (op_set_mid (w_mid w)
                (op_set_timeout (u64 (now + 4000000)) (op_set_state EXO_REQUEST_PENDING o)))]> (w_ops w))
      (set_env e3 (set_mid (u16 (w_mid w + 1)) w))).
Proof.
  intros Hst Hsend Htime. destruct build_read_request as (p & Eb & HR & _). exists p.
  pose proof (rand_ok _ _ _ Hr) as [Hrr _].
  unfold active_op, bindM, get_op. rewrite Ho. cbn [rbind]. rewrite Hst.
  rewrite (send_new_rep i pdu w o p _ _ now e2 e3 Ho Eb HR eq_refl Hsend Htime).
  unfold now_pending. cbn [read_msg request m_token m_mid].
  by rewrite le_value_le_bytes_mod by lia.
Qed.

(** When the platform does not take the datagram, the request stays new and will
    be tried again: nothing changes but the counters. *)
Theorem unsent_read_stays_new now0 rc e2 :
  op_state o = EXO_REQUEST_NEW ->
  exopal_udp_send (encode (read_msg (w_mid w) r alias cik)) e1 = (rc, e2) -> rc <> 0 ->
  exists p, active_op now0 i pdu w = Ok (p, set_env e2 (set_mid (u16 (w_mid w + 1)) w)).
Proof.
  intros Hst Hsend Hrc. destruct build_read_request as (p & Eb & HR & _). exists p.
  unfold active_op, bindM, get_op. rewrite Ho. cbn [rbind]. rewrite Hst.
  by rewrite (send_new_fails i pdu w o p _ _ rc e2 Ho Eb HR Hsend Hrc).
Qed.

End Read.

(** After [COAP_MAX_RETRANSMIT] retransmissions the next timeout fails the read,
    write or activation without sending anything; a subscription whose timeout has
    passed is never failed but sent again as a new observe request. *)
Theorem timeout_gives_up now i pdu w o :
  w_ops w !! i = Some o -> op_state o = EXO_REQUEST_PENDING \/ op_state o = EXO_REQUEST_SUBSCRIBED ->
  op_timeout o <= now -> COAP_MAX_RETRANSMIT <= op_retries o -> op_type o <> EXO_NULL ->
  active_op now i pdu w = Ok (pdu,
    set_ops (<[i := op_set_state (if decide (op_type o = EXO_SUBSCRIBE) then EXO_REQUEST_NEW
                                  else EXO_REQUEST_ERROR) o]> (w_ops w)) w).
Proof.
  intros Ho Hst Htmo Hret Hty. unfold active_op, bindM, get_op. rewrite Ho. cbn [rbind].
  replace (match op_state o with
           | EXO_REQUEST_NEW => send_new i pdu
           | EXO_REQUEST_SUBSCRIBED | EXO_REQUEST_PENDING => check_timeout now i pdu
           | EXO_REQUEST_SUB_ACK_NEW | EXO_REQUEST_SUB_ACK => send_ack i pdu
           | _ => retM pdu
           end) with (check_timeout (E := E) now i pdu) by (destruct Hst as [-> | ->]; done).
  unfold check_timeout, bindM, get_op. rewrite Ho. cbn [rbind]. rewrite (proj2 (Z.leb_le _ _) Htmo).
  assert (Hrt : op_type o <> EXO_SUBSCRIBE -> retransmit i pdu w =
    Ok (pdu, set_ops (<[i := op_set_state EXO_REQUEST_ERROR o]> (w_ops w)) w)).
  { intros _. unfold retransmit, bindM, get_op. rewrite Ho. cbn [rbind].
    rewrite (proj2 (Z.ltb_ge _ _) Hret). unfold upd_op. by rewrite Ho. }
  destruct (op_type o); try done; try (by apply Hrt). unfold upd_op. by rewrite Ho.
Qed.

(** ** Unknown messages *)

(** A message of version 1 that is for none of the requests ends the pass over the
    waiting datagrams, after a reset message if it is confirmable. *)
Lemma recv_step_unmatched count pdu w m e1 :
  pdu_max pdu = 576 -> zlen (pdu_buf pdu) = 576 -> wf_msg m -> m_ver m = 1 ->
  exopal_udp_recv 576 (w_env w) = (0, encode m, e1) ->
  (forall j, (j < count)%nat -> exists x, w_ops w !! j = Some x /\ matches m x = false) ->
  recv_step count pdu w = Ok (Break tt, set_env
    (if m_type m =? CT_CON
     then snd (exopal_udp_send (encode (mk_msg 1 CT_RST CC_EMPTY (m_mid m) (m_token m) [] None)) e1) else e1) w).
Proof.
  intros Hmax Hbuf Hwf Hver Hrecv Hno. unfold recv_step, bindM, platform. rewrite Hmax, Hrecv. cbn [rbind].
  pose proof (recv_ok 576 _ _ _ _ ltac:(lia) Hrecv) as (Hlen & _).
  destruct (split_at (pdu_buf pdu) (zlen (encode m))) as (x & y & Ex & Hx); [zlen_pos; lia|].
  unfold lift at 1. rewrite Ex. replace (store_bytes (x ++ y) 0 (encode m)) with (Ok (encode m ++ y))
    by (symmetry; by apply (store_bytes_at [] x y)). cbn [rbind Z.eqb negb].
  assert (HR : represents (set_len (set_buf pdu (encode m ++ y)) (zlen (encode m))) m).
  { constructor; cbn [set_len set_buf pdu_buf pdu_len pdu_max]; [done|by exists y| | |].
    - rewrite size_t_id; zlen_pos; lia.
    - rewrite Hmax, <- Hbuf, Ex, !zlen_app. lia.
    - lia. }
  unfold lift at 1. rewrite (validate_rep _ m HR Hver). cbn [rbind].
  set (p := set_opt_ptr _ None). assert (HR' : represents p m) by (by destruct HR; constructor).
  destruct (decide _) as [c|_]; [by destruct c|].
  rewrite (match_ops_none p m HR' count (set_env e1 w) Hno). cbn [rbind].
  unfold lift at 1. rewrite (get_type_rep p m HR'). cbn [rbind]. destruct (m_type m =? CT_CON); [|done].
  unfold lift at 1. rewrite (get_mid_rep p m HR'). cbn [rbind].
  unfold lift at 1. rewrite (get_token_rep p m HR'). cbn [rbind].
  unfold lift at 1. rewrite (get_tkl_scan p m HR'). cbn [rbind].
  assert (Hpm : pdu_max p = 576) by done. destruct Hwf as [_ _ _ Hmid Htok Htkl _ _].
  pose proof (build_rst p (rep_max _ _ HR') ltac:(lia) (m_mid m) Hmid (le_value (m_token m)) (zlen (m_token m))
    ltac:(zlen_pos; lia) ltac:(zlen_pos; lia)) as Hb.
  apply returns_inv in Hb as ([err p2] & Eb & _ & HR2). cbn [snd] in HR2. unfold lift at 1. rewrite Eb. cbn [rbind].
  replace (Z.to_nat (zlen (m_token m))) with (length (m_token m)) in HR2 by (unfold zlen; lia).
  rewrite le_bytes_le_value in HR2 by done.
  destruct (exopal_udp_send _ e1) as [rc e2] eqn:Hsend. by rewrite (send_pdu_rep p2 _ (set_env e1 w) rc e2 HR2 Hsend).
Qed.

(** C14. A confirmable message of version 1 that is for none of the requests is
    answered: one receive step sends exactly the empty reset message with the same
    message id and the same token, changes no request and no buffer, and ends the
    pass over the waiting datagrams. *)
Theorem unknown_message_reset count pdu w m e1 rc e2 :
  pdu_max pdu = 576 -> zlen (pdu_buf pdu) = 576 -> wf_msg m -> m_ver m = 1 -> m_type m = CT_CON ->
  exopal_udp_recv 576 (w_env w) = (0, encode m, e1) ->
  (forall j, (j < count)%nat -> exists x, w_ops w !! j = Some x /\ matches m x = false) ->
  exopal_udp_send (encode (mk_msg 1 CT_RST CC_EMPTY (m_mid m) (m_token m) [] None)) e1 = (rc, e2) ->
  recv_step count pdu w = Ok (Break tt, set_env e2 w).
Proof.
  intros Hmax Hbuf Hwf Hver Hty Hrecv Hno Hsend.
  by rewrite (recv_step_unmatched count pdu w m e1 Hmax Hbuf Hwf Hver Hrecv Hno), Hty, Hsend.
Qed.
End Send.

(** ** Initialisation *)

Section Init.
Context {E : Type} `{PalLaws E}.
Implicit Types (w : world E).

(** C23. [exo_init] has no undefined behaviour when the CIK buffer has its 41 bytes.
    It succeeds exactly when the platform initialises, the stored CIK is read or
    absent (status at most 1) and the socket opens; then the client is initialised,
    knows the identity it was given and its CIK is NUL terminated.  Otherwise it
    reports [EXO_FATAL_ERROR_PAL] and leaves the client uninitialised.  It never
    touches a request or a buffer of the caller. *)
Theorem init_outcome w vendor model serial rc1 e1 t e2 e3 r e4 rc2 data e5 rc3 e6 :
  length (w_cik w) = 41%nat ->
  exopal_init (w_env w) = (rc1, e1) -> libc_time e1 = (t, e2) -> libc_srand t e2 = e3 ->
  libc_rand e3 = (r, e4) -> exopal_retrieve_cik e4 = (rc2, data, e5) -> exopal_udp_sock e5 = (rc3, e6) ->
  returns (exo_init vendor model serial w) (fun '(err, w') =>
    (err = EXO_OK <-> rc1 = 0 /\ rc2 <= 1 /\ rc3 = 0) /\
    (err <> EXO_OK -> err = EXO_FATAL_ERROR_PAL /\ w_device w' = EXO_STATE_UNINITIALIZED) /\
    (err = EXO_OK -> w_device w' = EXO_STATE_INITIALIZED /\ w_mid w' = u16 r /\ w_vendor w' = vendor /\
       w_model w' = model /\ w_serial w' = serial /\ w_env w' = e6 /\ w_cik w' !! 40%nat = Some 0 /\
       take (length data) (w_cik w') = data) /\
    w_ops w' = w_ops w /\ w_heap w' = w_heap w /\ length (w_cik w') = 41%nat).
Proof.
  intros Hlc E1 E2 E3 E4 E5 E6. unfold exo_init, bindM, puts, platform. cbn [rbind set_device w_env]. rewrite E1.
  cbn [rbind]. destruct (Z.eqb_spec rc1 0) as [->|Hn]; cbn [negb].
  2: { simpl. repeat split; try done; intuition congruence. }
  cbn [set_env w_env]. rewrite E2. cbn [rbind set_env w_env]. rewrite E3. cbn [rbind].
  unfold rand, platform. cbn [set_env w_env]. rewrite E4. cbn [rbind set_mid set_identity set_env w_env]. rewrite E5. cbn [rbind].
  unfold gets, lift. cbn [rbind w_cik set_env set_identity set_mid set_device].
  pose proof (retrieve_ok _ _ _ _ E5) as [Hd Hdb].
  assert (Hc : exists x y, w_cik w = x ++ y /\ length x = length data).
  { destruct (split_at (w_cik w) (zlen data)) as (x & y & ? & Hx); [unfold zlen in *; lia|].
    exists x, y. split; [done|unfold zlen in Hx; lia]. }
  destruct Hc as (x & y & Hxy & Hx). rewrite Hxy in Hlc |- *. rewrite length_app in Hlc.
  rewrite (store_bytes_at [] x y data) by (done || unfold zlen; lia). cbn [rbind app set_cik].
  destruct (Z.ltb_spec 1 rc2) as [Hrc|Hrc].
  { simpl. rewrite length_app. repeat split; try done; try lia; intuition (congruence || lia). }
  assert (Hst : exists c, store (data ++ y) 40 0 = Ok c /\ length c = 41%nat /\ c !! 40%nat = Some 0 /\
    take (length data) c = data).
  { unfold store. rewrite (proj2 (Z.ltb_lt _ _)) by (rewrite zlen_app; unfold zlen in *; lia). eexists.
    split; [done|]. rewrite length_insert, length_app. unfold zlen in Hd.
    split; [lia|]. split; [apply list_lookup_insert_eq; rewrite length_app; lia|].
    rewrite insert_app_r_alt by (simpl; lia). rewrite take_app_length. done. }
  destruct Hst as (c & -> & Hcl & Hc40 & Hct). cbn [rbind w_env set_cik set_env]. rewrite E6. cbn [rbind].
  destruct (Z.eqb_spec rc3 0) as [->|Hn3]; simpl.
  - repeat split; try done; intuition congruence.
  - repeat split; try done; intuition congruence.
Qed.
End Init.

(** On the POSIX platform a device that has never been activated cannot start:
    without the file that holds the CIK [exo_init] fails, because
    [exopal_retrieve_cik] returns 2 for a missing file while its documentation
    gives 1 for "no CIK has been saved". *)
Theorem fresh_posix_device_fails v m s w :
  length (w_cik w) = 41%nat -> Posix.os_cik_file (w_env w) = None ->
  returns (exo_init (E := Posix.os) v m s w) (fun '(err, w') =>
    err = EXO_FATAL_ERROR_PAL /\ w_device w' = EXO_STATE_UNINITIALIZED).
Proof.
  intros Hl Hf. destruct w as [cik v0 m0 s0 mid dev heap ops e]. cbn [w_cik w_env] in *.
  unfold exo_init, bindM, puts, platform, rand, platform, gets, lift.
  cbn [rbind set_device set_env set_mid set_identity w_env w_cik exopal_init posix_pal Posix.exopal_init libc_time
    libc_srand libc_rand exopal_retrieve_cik Z.eqb negb].
  unfold Posix.rand. destruct (Posix.os_rand e); cbn [rbind set_mid set_identity set_env w_env];
    unfold Posix.exopal_retrieve_cik; cbn [Posix.set_rand Posix.os_cik_file]; rewrite Hf; done.
Qed.

(** The CIK survives in the file of the POSIX platform: after a successful store
    of 40 or more bytes, retrieving it succeeds and gives the first 40 of them. *)
Theorem posix_cik_roundtrip cik o o' :
  bytes cik -> 40 <= zlen cik -> Posix.exopal_store_cik cik o = (0, o') ->
  exists o'', Posix.exopal_retrieve_cik o' = (0, take 40 cik, o'') /\
    Posix.os_open_files o'' = Posix.os_open_files o.
Proof.
  intros Hb Hl Hs. unfold Posix.exopal_store_cik in Hs. destruct (negb _); [done|].
  destruct (Z.eqb_spec (Z.min 40 (Posix.os_disk_free o)) 40) as [Hmin|]; cbn [negb] in Hs; [|done].
  injection Hs as <-. rewrite Hmin. unfold Posix.exopal_retrieve_cik.
  cbn [Posix.set_file Posix.os_cik_file Posix.os_open_files]. change (Z.to_nat 40) with 40%nat.
  rewrite take_take, Nat.min_id. replace (List.map u8 (take 40 cik)) with (take 40 cik).
  - rewrite (proj2 (Z.eqb_eq _ _)) by (apply (zlen_take 40); lia). cbn [negb]. eexists. split; [done|].
    cbn [Posix.set_file Posix.os_open_files]. lia.
  - apply (Forall_take _ 40) in Hb. induction Hb as [|x l Hx _ IH]; [done|]. simpl. rewrite u8_id by done. by f_equal.
Qed.

(** A CIK file that is too short leaves the file open: the POSIX
    [exopal_retrieve_cik] returns 1 without closing it, so each call loses one
    file handle. *)
Theorem posix_short_file_leaks o content :
  Posix.os_cik_file o = Some content -> zlen content < 40 ->
  exists data o', Posix.exopal_retrieve_cik o = (1, data, o') /\
    Posix.os_open_files o' = Posix.os_open_files o + 1.
Proof.
  intros Hf Hl. unfold Posix.exopal_retrieve_cik. rewrite Hf. cbn [Posix.os_cik_file].
  rewrite (proj2 (Z.eqb_neq _ _)); [cbn [negb]; eauto|].
  unfold zlen in *. rewrite length_map, length_take. lia.
Qed.

(** [exo_util_is_ascii_hex] returns 0 exactly when the first [len] characters are
    decimal digits or lower-case letters from a to f, and 1 otherwise, reading no
    character behind them. *)
Theorem is_ascii_hex_decides str len :
  0 <= len <= zlen str -> len < 2 ^ 64 ->
  exo_util_is_ascii_hex str len =
  Ok (if forallb (fun c => ((97 <=? c) && (c <=? 102)) || ((48 <=? c) && (c <=? 57))) (take (Z.to_nat len) str)
      then 0 else 1).
Proof.
  intros Hl H64. change (fun c => _) with is_hex_char. unfold exo_util_is_ascii_hex.
  set (f := fun i => _). assert (Hr : returns (loop f 0) (fun r =>
    r = if forallb is_hex_char (take (Z.to_nat len) str) then 0 else 1)).
  { apply (loop_total f (fun i => 0 <= i <= len /\ forallb is_hex_char (take (Z.to_nat i) str) = true)
      (fun i => len - i)); [|split; [lia|done]|lia].
    intros i [Hi Hall]. unfold f. destruct (Z.ltb_spec i len).
    - destruct (load_ok str i ltac:(lia)) as (c & -> & Hc). cbn [rbind].
      assert (Ht : take (Z.to_nat (i + 1)) str = take (Z.to_nat i) str ++ [c]).
      { replace (Z.to_nat (i + 1)) with (S (Z.to_nat i)) by lia. by apply take_S_r. }
      destruct (is_hex_char c) eqn:Ec; cbn [negb returns].
      + split; [|lia]. split; [lia|]. rewrite Ht, forallb_app, Hall. simpl. by rewrite Ec.
      + replace (forallb is_hex_char (take (Z.to_nat len) str)) with false; [done|]. symmetry.
        rewrite <- (take_drop (Z.to_nat (i + 1)) (take (Z.to_nat len) str)), take_take.
        replace (Z.to_nat (i + 1) `min` Z.to_nat len)%nat with (Z.to_nat (i + 1)) by lia.
        rewrite Ht, !forallb_app. simpl. rewrite Ec. by rewrite andb_false_r.
    - assert (i = len) as -> by lia. by rewrite Hall. }
  apply returns_inv in Hr as (? & -> & ->). done.
Qed.

(** Errors of the builders are not looked at: a read of an alias that does not
    fit a datagram is sent anyway, as a request without the alias, and becomes
    pending. *)
Theorem oversized_request_sent_truncated :
  exists w w' p alias, cstring alias (default [] (w_heap w !! 3%nat)) /\
    576 < zlen (encode (read_msg (w_mid w) 100 alias sample_cik)) /\
    active_op (E := Posix.os) 0 1 empty_datagram w = Ok (p, w') /\
    Posix.os_sent (w_env w') = [encode (mk_msg 1 CT_CON CC_GET (w_mid w) [100; 0]
      [(11, lit "1a"); (15, sample_cik)] None)] /\
    op_state <$> w_ops w' !! 1%nat = Some EXO_REQUEST_PENDING.
Proof.
  set (w := set_heap (<[3%nat := List.repeat 97 600 ++ [0]]> (w_heap (client new_read))) (client new_read)).
  destruct (active_op 0 1 empty_datagram w) as [[p w']|f] eqn:Ea; [|vm_compute in Ea; discriminate].
  exists w, w', p, (List.repeat 97 600).
  split; [exact (repeat_cstring 600)|].
  split; [vm_compute; reflexivity|]. split; [done|].
  vm_compute in Ea. injection Ea as _ <-. split; vm_compute; reflexivity.
Qed.

(** ** Witnesses *)

(** Discharge the hypotheses of a theorem about a read of the sample client. *)
Ltac read_eval :=
  first [ exact client_cstring | reflexivity | lia
        | vm_compute; repeat (split || constructor || discriminate) ].

Lemma new_read_is_sent_witness :
  exists p w', active_op 0 1 empty_datagram (client new_read) = Ok (p, w') /\
    Posix.os_sent (w_env w') = [encode (read_msg 7 100 (lit "temp") sample_cik)] /\
    op_state <$> w_ops w' !! 1%nat = Some EXO_REQUEST_PENDING.
Proof.
  edestruct (new_read_is_sent (E := Posix.os) empty_datagram) with
    (w := client new_read) (i := 1%nat) (o := new_read) (ba := 3%nat) (blk := lit "temp" ++ [0])
    (alias := lit "temp") (cik := sample_cik) (junk := [0]) (r := 100)
    (e1 := sample_platform [] [] [200] [])
    (e2 := sample_platform [] [encode (read_msg 7 100 (lit "temp") sample_cik)] [200] [])
    (e3 := sample_platform [] [encode (read_msg 7 100 (lit "temp") sample_cik)] [200] [])
    (now := 100000000) (now0 := 0) as (p & Hp); [read_eval..|].
  exists p. eexists. split; [exact Hp|]. split; reflexivity.
Defined.

Lemma unsent_read_stays_new_witness :
  exists p w', active_op 0 1 empty_datagram
      (with_platform (sample_platform [] [] [100; 200] [true]) (client new_read)) = Ok (p, w') /\
    w_ops w' !! 1%nat = Some new_read.
Proof.
  edestruct (unsent_read_stays_new (E := Posix.os) empty_datagram) with
    (w := with_platform (sample_platform [] [] [100; 200] [true]) (client new_read)) (i := 1%nat) (o := new_read)
    (ba := 3%nat) (blk := lit "temp" ++ [0]) (alias := lit "temp") (cik := sample_cik) (junk := [0]) (r := 100)
    (e1 := sample_platform [] [] [200] [true]) (e2 := sample_platform [] [] [200] []) (rc := 1)
    (now0 := 0) as (p & Hp); [read_eval..|].
  exists p. eexists. split; [exact Hp|reflexivity].
Defined.


Lemma timeout_gives_up_witness :
  active_op 9 1 empty_datagram (client (op_set_retries 4 (sent EXO_WRITE))) =
  Ok (empty_datagram, client (op_set_state EXO_REQUEST_ERROR (op_set_retries 4 (sent EXO_WRITE)))).
Proof.
  etransitivity; [apply (timeout_gives_up (E := Posix.os) 9 1 empty_datagram
    (client (op_set_retries 4 (sent EXO_WRITE))) (op_set_retries 4 (sent EXO_WRITE)))|].
  - reflexivity.
  - left. reflexivity.
  - simpl. lia.
  - simpl. unfold COAP_MAX_RETRANSMIT. lia.
  - discriminate.
  - reflexivity.
Defined.

Definition unknown : message := mk_msg 1 CT_CON CC_CONTENT 4660 [1; 2; 3] [(6, [1])] (Some (lit "x")).

Lemma unknown_message_reset_witness :
  exists w', recv_step 2 empty_datagram
      (with_platform (sample_platform [Posix.Datagram (encode unknown)] [] [] []) (client new_read))
    = Ok (Break tt, w') /\
    Posix.os_sent (w_env w') = [[0x73; 0; 0x12; 0x34; 1; 2; 3]].
Proof.
  eexists. split; [eapply (unknown_message_reset (E := Posix.os) 2 empty_datagram) with
    (m := unknown) (e1 := sample_platform [] [] [] []) (rc := 0)
    (e2 := sample_platform [] [[0x73; 0; 0x12; 0x34; 1; 2; 3]] [] [])|].
  - reflexivity.
  - reflexivity.
  - constructor; vm_compute; repeat (split || constructor || discriminate).
  - reflexivity.
  - reflexivity.
  - vm_compute. reflexivity.
  - intros j Hj. destruct j as [|[|j]]; [..|lia]; (eexists; split; reflexivity).
  - vm_compute. reflexivity.
  - reflexivity.
Defined.

(** A platform with a stored CIK, and one without. *)
Definition cik_platform (file : option (list Z)) : Posix.os :=
  Posix.mk_os [] [] [] [] [70000] file true 1000 0 (Some [Posix.mk_addr false true; Posix.mk_addr true true]).

Lemma init_outcome_witness :
  returns (exo_init (Some 0%nat) (Some 1%nat) (Some 2%nat)
      (with_platform (cik_platform (Some sample_cik)) (client new_read)))
    (fun '(err, w') => err = EXO_OK /\ w_mid w' = 4464).
Proof.
  eapply returns_mono; [eapply (init_outcome (E := Posix.os)); reflexivity|].
  intros [err w'] (Hiff & _ & Hok & _). assert (He : err = EXO_OK) by (apply Hiff; split; [|split]; (reflexivity || lia)).
  split; [exact He|]. destruct (Hok He) as (_ & Hm & _). exact Hm.
Defined.

Lemma fresh_posix_device_fails_witness :
  returns (exo_init (Some 0%nat) (Some 1%nat) (Some 2%nat) (with_platform (cik_platform None) (client new_read)))
    (fun '(err, _) => err = EXO_FATAL_ERROR_PAL).
Proof.
  eapply returns_mono; [apply (fresh_posix_device_fails (Some 0%nat) (Some 1%nat) (Some 2%nat)
    (with_platform (cik_platform None) (client new_read))); reflexivity|].
  intros [err w'] (He & _). exact He.
Defined.

Lemma posix_cik_roundtrip_witness :
  exists o'', Posix.exopal_retrieve_cik (snd (Posix.exopal_store_cik (sample_cik ++ [0]) (cik_platform None))) =
    (0, sample_cik, o'').
Proof.
  destruct (posix_cik_roundtrip (sample_cik ++ [0]) (cik_platform None)
    (snd (Posix.exopal_store_cik (sample_cik ++ [0]) (cik_platform None)))) as (o'' & Ho & _).
  - vm_compute. repeat (split || constructor || discriminate).
  - vm_compute. discriminate.
  - reflexivity.
  - exists o''. exact Ho.
Defined.

Lemma posix_short_file_leaks_witness :
  exists data o', Posix.exopal_retrieve_cik (cik_platform (Some [48])) = (1, data, o') /\ Posix.os_open_files o' = 1.
Proof. apply (posix_short_file_leaks (cik_platform (Some [48])) [48]); reflexivity. Defined.

Lemma is_ascii_hex_decides_witness : exo_util_is_ascii_hex (lit "0123456789abcdefG") 16 = Ok 0.
Proof.
  etransitivity; [apply (is_ascii_hex_decides (lit "0123456789abcdefG") 16)|]; [|lia|reflexivity].
  vm_compute. split; discriminate.
Defined.
