(* ===== verification/ExoRun.v ===== *)
(** * The Exosite client: whole conversations

    The passes of [exo_operate] put together: two calls take a queued read to its
    value, and two calls take a device without a CIK to an activated one.  The
    lemmas before them say what a call does when all requests but one rest. *)

From S2P Require Import Prelude Mem CoapDefs CoapGet CoapSet CoapMessage CoapGetFacts CoapSetFacts Pal ExoDefs ExoBuild ExoProcess ExoRules ExoBuildFacts ExoHandleFacts ExoSafe ExoSamples ExoMsgProps ExoSendProps.

#[local] Opaque loop.

(** Nothing is to be done for the request at the time [now]: it is unused or
    finished, or a subscription that need not be renewed yet. *)
Definition resting (now : Z) (o : exo_op) : Prop :=
  op_state o = EXO_REQUEST_NULL \/ op_state o = EXO_REQUEST_SUCCESS \/ op_state o = EXO_REQUEST_ERROR \/
  (op_state o = EXO_REQUEST_SUBSCRIBED /\ now < op_timeout o).

(** All requests but [i] rest. *)
Definition others_rest (now : Z) (count i : nat) (ops : list exo_op) : Prop :=
  forall j, (j < count)%nat -> j <> i -> exists x, ops !! j = Some x /\ resting now x.

Lemma resting_state now o s : resting now o -> s = EXO_REQUEST_NEW \/ s = EXO_REQUEST_PENDING -> op_state o <> s.
Proof. unfold resting. intuition congruence. Qed.

Lemma resting_ack now o m : resting now o -> m_type m = CT_ACK -> matches m o = false.
Proof.
  intros Hr Ht. unfold matches. rewrite Ht. cbn [coap_type_val Z.eqb Pos.eqb orb].
  by rewrite bool_decide_eq_false_2 by (eapply resting_state; eauto).
Qed.

Lemma others_rest_insert now count i ops o : others_rest now count i ops -> others_rest now count i (<[i := o]> ops).
Proof.
  intros Hr j Hj Hne. destruct (Hr j Hj Hne) as (x & Hx & Hs). exists x. by rewrite list_lookup_insert_ne by done.
Qed.

(** [success_read] with the rest of the buffer spelled out. *)
Lemma success_read_exact {E} `{Pal E} pdu m (HR : represents pdu m) (w : world E) i o b blk pl :
  w_ops w !! i = Some o -> op_type o = EXO_READ -> op_value o = Some b -> w_heap w !! b = Some blk ->
  m_payload m = Some pl -> pl <> [] -> zlen pl + 1 <= op_value_max o -> op_value_max o <= zlen blk ->
  op_value_max o < 2 ^ 64 ->
  handle_success pdu i w = Ok (true,
    set_ops (<[i := op_set_state EXO_REQUEST_SUCCESS o]> (w_ops w))
      (set_heap (<[b := pl ++ 0 :: drop (length pl + 1) blk]> (w_heap w)) w)).
Proof.
  intros Ho Hty Hv Hb Hp Hne Hmax Hblk Hsz.
  destruct (success_read pdu m HR w i o b blk pl Ho Hty Hv Hb Hp Hne Hmax Hblk Hsz) as (rest & Hr & ->).
  rewrite <- (take_drop (length pl + 1) blk) in Hr at 1. by apply app_inv_head in Hr as ->.
Qed.

Section Run.
Context {E : Type} `{PalLaws E}.
Implicit Types (w : world E).

(** ** The pass over the active requests *)

Lemma active_op_rests now j pdu w x : w_ops w !! j = Some x -> resting now x -> active_op now j pdu w = Ok (pdu, w).
Proof.
  intros Hx Hr. unfold active_op, bindM, get_op. rewrite Hx. cbn [rbind].
  destruct Hr as [-> | [-> | [-> | [-> Ht]]]]; try done.
  unfold check_timeout, bindM, get_op. rewrite Hx. cbn [rbind]. by rewrite (proj2 (Z.leb_gt _ _)) by lia.
Qed.

Lemma active_ops_rest now pdu w n : forall i,
  (forall j, (i <= j < i + n)%nat -> exists x, w_ops w !! j = Some x /\ resting now x) ->
  active_ops now i n pdu w = Ok (tt, w).
Proof.
  induction n as [|n IH]; intros i Hr; [done|]. cbn [active_ops]. unfold bindM.
  destruct (Hr i ltac:(lia)) as (x & Hx & Hs). rewrite (active_op_rests now i pdu w x Hx Hs). cbn [rbind].
  apply IH. intros j Hj. apply Hr. lia.
Qed.

Lemma active_ops_one now pdu w p w' k n : forall i,
  (k < n)%nat -> (forall j, (i <= j < i + n)%nat -> j <> (i + k)%nat -> exists x, w_ops w !! j = Some x /\ resting now x) ->
  active_op now (i + k) pdu w = Ok (p, w') -> (forall j, j <> (i + k)%nat -> w_ops w' !! j = w_ops w !! j) ->
  active_ops now i n pdu w = Ok (tt, w').
Proof.
  revert n. induction k as [|k IH]; intros [|n] i Hk Hr Ha Hw; [lia| |lia|]; cbn [active_ops]; unfold bindM.
  - rewrite Nat.add_0_r in *. rewrite Ha. cbn [rbind]. apply active_ops_rest.
    intros j Hj. rewrite Hw by lia. apply Hr; lia.
  - destruct (Hr i ltac:(lia) ltac:(lia)) as (x & Hx & Hs). rewrite (active_op_rests now i pdu w x Hx Hs). cbn [rbind].
    replace (i + S k)%nat with (S i + k)%nat in * by lia.
    apply IH; [lia| |done|done]. intros j Hj Hne. apply Hr; lia.
Qed.

(** ** What a call reports *)

Lemma any_in_state_none s w n : forall i,
  (forall j, (i <= j < i + n)%nat -> exists x, w_ops w !! j = Some x /\ op_state x <> s) ->
  any_in_state s i n w = Ok (false, w).
Proof.
  induction n as [|n IH]; intros i Hr; [done|]. cbn [any_in_state]. unfold bindM, get_op.
  destruct (Hr i ltac:(lia)) as (x & Hx & Hs). rewrite Hx. cbn [rbind].
  rewrite bool_decide_eq_false_2 by done. apply IH. intros j Hj. apply Hr. lia.
Qed.

Lemma any_in_state_found s w o k n : forall i,
  (k < n)%nat -> (forall j, (i <= j < i + n)%nat -> is_Some (w_ops w !! j)) ->
  w_ops w !! (i + k)%nat = Some o -> op_state o = s ->
  any_in_state s i n w = Ok (true, w).
Proof.
  revert n. induction k as [|k IH]; intros [|n] i Hk Hr Ho Hs; [lia| |lia|]; cbn [any_in_state]; unfold bindM, get_op.
  - rewrite Nat.add_0_r in Ho. rewrite Ho. cbn [rbind]. by rewrite bool_decide_eq_true_2.
  - destruct (Hr i ltac:(lia)) as (x & ->). cbn [rbind]. case_bool_decide; [done|].
    replace (i + S k)%nat with (S i + k)%nat in Ho by lia. apply IH; [lia| |done|done]. intros j Hj. apply Hr. lia.
Qed.

(** The report of a call after which request [i] is in state [s] and the others
    rest. *)
Lemma report now count i o w : (i < count)%nat -> w_ops w !! i = Some o -> others_rest now count i (w_ops w) ->
  op_state o <> EXO_REQUEST_NEW ->
  (let! busy := any_in_state EXO_REQUEST_NEW 0 count in
   if (busy : bool) then retM EXO_BUSY
   else
     let! waiting := any_in_state EXO_REQUEST_PENDING 0 count in
     if (waiting : bool) then retM EXO_WAITING else retM EXO_IDLE) w =
  Ok (if decide (op_state o = EXO_REQUEST_PENDING) then EXO_WAITING else EXO_IDLE, w).
Proof.
  intros Hi Ho Hr Hn. unfold bindM at 1. rewrite any_in_state_none.
  2: { intros j Hj. destruct (decide (j = i)) as [->|Hne]; [by exists o|].
       destruct (Hr j ltac:(lia) Hne) as (x & Hx & Hs). exists x. split; [done|]. eapply resting_state; eauto. }
  cbn [rbind]. unfold bindM. destruct (decide _) as [Hp|Hp].
  - rewrite (any_in_state_found _ w o i); [done|done| |done|done].
    intros j Hj. destruct (decide (j = i)) as [->|Hne]; [by exists o|].
    destruct (Hr j ltac:(lia) Hne) as (x & Hx & _). by exists x.
  - rewrite any_in_state_none; [done|].
    intros j Hj. destruct (decide (j = i)) as [->|Hne]; [by exists o|].
    destruct (Hr j ltac:(lia) Hne) as (x & Hx & Hs). exists x. split; [done|]. eapply resting_state; eauto.
Qed.

(** ** The pass over the waiting datagrams *)

Lemma store_front m data : zlen data <= zlen m ->
  exists y, store_bytes m 0 data = Ok (data ++ y) /\ zlen (data ++ y) = zlen m.
Proof.
  intros Hl. destruct (split_at m (zlen data)) as (x & y & -> & Hx); [zlen_pos; lia|].
  exists y. split; [by apply (store_bytes_at [] x y)|]. rewrite !zlen_app. lia.
Qed.

(** Nothing is waiting. *)
Lemma recv_step_empty count pdu w rc data e :
  fits576 pdu -> exopal_udp_recv 576 (w_env w) = (rc, data, e) -> rc <> 0 ->
  recv_step count pdu w = Ok (Break tt, set_env e w).
Proof.
  intros [Hmax Hbuf] He Hrc. unfold recv_step, bindM, platform. rewrite Hmax, He. cbn [rbind].
  destruct (recv_ok 576 _ _ _ _ ltac:(lia) He) as (Hlen & _).
  destruct (store_front (pdu_buf pdu) data ltac:(lia)) as (y & Hs & _).
  unfold lift. rewrite Hs. cbn [rbind].
  by rewrite (proj2 (Z.eqb_neq _ _) Hrc).
Qed.

Lemma waiting_none addr stack count w rc data e :
  zlen stack = 576 -> exopal_udp_recv 576 (w_env w) = (rc, data, e) -> rc <> 0 ->
  exo_process_waiting_datagrams addr stack count w = Ok (tt, set_env e w).
Proof.
  intros Hl He Hrc. unfold exo_process_waiting_datagrams, loopM.
  assert (HF : fits576 (stack_pdu addr stack)) by done.
  rewrite loop_first; cbn [fst snd]; rewrite (recv_step_empty count _ w rc data e HF He Hrc); done.
Qed.

(** One message for one of the requests, and then nothing. *)
Lemma recv_step_message count pdu w m e w1 :
  fits576 pdu -> wf_msg m -> m_ver m = 1 -> exopal_udp_recv 576 (w_env w) = (0, encode m, e) ->
  (forall p, represents p m -> match_ops p 0 count (set_env e w) = Ok (true, w1)) ->
  exists p, recv_step count pdu w = Ok (Continue p, w1) /\ fits576 p.
Proof.
  intros [Hmax Hbuf] Hwf Hv He Hm. unfold recv_step, bindM, platform. rewrite Hmax, He. cbn [rbind].
  destruct (recv_ok 576 _ _ _ _ ltac:(lia) He) as (Hlen & _).
  destruct (store_front (pdu_buf pdu) (encode m) ltac:(lia)) as (y & Hs & Hl). rewrite Hbuf in Hl.
  unfold lift. rewrite Hs. cbn [rbind Z.eqb negb].
  pose proof (received pdu m y (conj Hmax Hbuf) Hwf Hl) as HR. rewrite (validate_rep _ m HR Hv). cbn [rbind].
  set (p := set_opt_ptr _ None). assert (HR' : represents p m) by (by destruct HR; constructor).
  assert (Hpm : pdu_max p = 576) by done. clearbody p.
  destruct (decide _) as [c|_]; [by destruct c|]. rewrite (Hm p HR'). cbn [rbind].
  exists p. split; [done|]. by eapply rep_fits576.
Qed.

Lemma waiting_message_then addr stack count w m e w1 w2 :
  zlen stack = 576 -> wf_msg m -> m_ver m = 1 -> exopal_udp_recv 576 (w_env w) = (0, encode m, e) ->
  (forall p, represents p m -> match_ops p 0 count (set_env e w) = Ok (true, w1)) ->
  (forall p, fits576 p -> recv_step count p w1 = Ok (Break tt, w2)) ->
  exo_process_waiting_datagrams addr stack count w = Ok (tt, w2).
Proof.
  intros Hl Hwf Hv He Hm Hlast. unfold exo_process_waiting_datagrams, loopM.
  assert (HF : fits576 (stack_pdu addr stack)) by done.
  destruct (recv_step_message count _ w m e w1 HF Hwf Hv He Hm) as (p & Hp & HFp).
  assert (Hr : returns (loop (fun sw : coap_pdu * world E =>
      let* '(r, w) := recv_step count (fst sw) (snd sw) in
      Ok match r with Continue s => Continue (s, w) | Break r => Break (r, w) end) (stack_pdu addr stack, w))
    (fun r => r = (tt, w2))).
  { apply (loop_bounded _ (fun k s => k = 1 /\ s = (stack_pdu addr stack, w) \/ k = 0 /\ s = (p, w1)) _ 1); [|by left|lia].
    intros k s [[-> ->]|[-> ->]]; cbn [fst snd].
    - rewrite Hp. cbn [rbind returns]. exists 0. split; [lia|by right].
    - by rewrite (Hlast p HFp). }
  by apply returns_inv in Hr as (? & -> & ->).
Qed.

Lemma waiting_message addr stack count w m e w1 rc data e1 :
  zlen stack = 576 -> wf_msg m -> m_ver m = 1 -> exopal_udp_recv 576 (w_env w) = (0, encode m, e) ->
  (forall p, represents p m -> match_ops p 0 count (set_env e w) = Ok (true, w1)) ->
  exopal_udp_recv 576 (w_env w1) = (rc, data, e1) -> rc <> 0 ->
  exo_process_waiting_datagrams addr stack count w = Ok (tt, set_env e1 w1).
Proof.
  intros Hl Hwf Hv He Hm He1 Hrc. eapply waiting_message_then; try done.
  intros p HF. by eapply recv_step_empty.
Qed.

(** ** One call *)

(** The first part of [exo_operate], by the state of the device. *)
Definition device_stage w : res (unit * world E) :=
  match w_device w with
  | EXO_STATE_INITIALIZED | EXO_STATE_BAD_CIK => ensure_activation w
  | _ => Ok (tt, w)
  end.

Section Call.
Context (addr1 : Z) (stack1 : list Z) (addr2 : Z) (stack2 : list Z) (count : nat).
Context (Hs1 : zlen stack1 = 576).

Lemma operate_passes w w0 w1 t e w2 :
  w_device w <> EXO_STATE_UNINITIALIZED -> device_stage w = Ok (tt, w0) ->
  exo_process_waiting_datagrams addr1 stack1 count w0 = Ok (tt, w1) -> exopal_get_time (w_env w1) = (t, e) ->
  active_ops t 0 count (stack_pdu addr2 stack2) (set_env e w1) = Ok (tt, w2) ->
  exo_operate addr1 stack1 addr2 stack2 count w =
  (let! busy := any_in_state EXO_REQUEST_NEW 0 count in
   if (busy : bool) then retM EXO_BUSY
   else
     let! waiting := any_in_state EXO_REQUEST_PENDING 0 count in
     if (waiting : bool) then retM EXO_WAITING else retM EXO_IDLE) w2.
Proof.
  intros Hd Hst Hwait Ht Ha. unfold exo_operate. unfold bindM at 1, gets. cbn [rbind].
  rewrite decide_False by done. unfold bindM at 1.
  replace (match w_device w with
           | EXO_STATE_INITIALIZED | EXO_STATE_BAD_CIK => ensure_activation
           | _ => retM tt
           end w) with (device_stage w) by (unfold device_stage; by destruct (w_device w)).
  rewrite Hst. cbn [rbind]. unfold bindM at 1. rewrite Hwait. cbn [rbind].
  unfold bindM at 1. unfold exo_process_active_ops, bindM at 1, platform. rewrite Ht. cbn [rbind]. by rewrite Ha.
Qed.

Lemma operate_call w w0 w1 t e w2 now i o :
  w_device w <> EXO_STATE_UNINITIALIZED -> device_stage w = Ok (tt, w0) ->
  exo_process_waiting_datagrams addr1 stack1 count w0 = Ok (tt, w1) -> exopal_get_time (w_env w1) = (t, e) ->
  active_ops t 0 count (stack_pdu addr2 stack2) (set_env e w1) = Ok (tt, w2) ->
  (i < count)%nat -> w_ops w2 !! i = Some o -> others_rest now count i (w_ops w2) -> op_state o <> EXO_REQUEST_NEW ->
  exo_operate addr1 stack1 addr2 stack2 count w =
  Ok (if decide (op_state o = EXO_REQUEST_PENDING) then EXO_WAITING else EXO_IDLE, w2).
Proof.
  intros Hd Hst Hwait Ht Ha Hi Ho Hr Hn. rewrite (operate_passes w w0 w1 t e w2) by done. by apply (report now count i o).
Qed.

(** A call that sends the new request in slot [i], whose message is [m]. *)
Lemma call_sends w w0 i o m rc1 d1 e1 t1 e2 p w' e4 t2 e5 :
  w_device w <> EXO_STATE_UNINITIALIZED -> device_stage w = Ok (tt, w0) ->
  exopal_udp_recv 576 (w_env w0) = (rc1, d1, e1) -> rc1 <> 0 -> exopal_get_time e1 = (t1, e2) ->
  (i < count)%nat -> w_ops w0 !! i = Some o -> op_state o = EXO_REQUEST_NEW -> others_rest t1 count i (w_ops w0) ->
  build_request (stack_pdu addr2 stack2) o (set_env e2 w0) = Ok (Some p, w') -> represents p m ->
  w_ops w' = w_ops w0 -> exopal_udp_send (encode m) (w_env w') = (0, e4) -> exopal_get_time e4 = (t2, e5) ->
  exo_operate addr1 stack1 addr2 stack2 count w =
  Ok (EXO_WAITING, set_ops (<[i := now_pending m t2 o]> (w_ops w0)) (set_env e5 w')).
Proof.
  intros Hd Hst Hrecv Hrc Ht1 Hi Ho Hnew Hr Hb HR Hw Hsend Ht2. pose proof (lookup_lt_Some _ _ _ Ho) as Hl.
  rewrite (operate_call w w0 (set_env e1 w0) t1 e2 (set_ops (<[i := now_pending m t2 o]> (w_ops w0)) (set_env e5 w'))
    t1 i (now_pending m t2 o)); [done|done|done|by eapply waiting_none|done| |done| | |done].
  - apply (active_ops_one t1 _ _ p _ i); [done| | |]; cbn [plus set_env set_ops w_ops].
    + intros j Hj Hne. apply Hr; lia.
    + unfold active_op, bindM, get_op. cbn [set_env w_ops]. rewrite Ho. cbn [rbind]. rewrite Hnew.
      by apply (send_new_rep i _ (set_env e2 (set_env e1 w0)) o p w' m t2 e4 e5).
    + intros j Hj. by apply list_lookup_insert_ne.
  - cbn [set_ops w_ops]. by apply list_lookup_insert_eq.
  - cbn [set_ops w_ops]. by apply others_rest_insert.
Qed.

(** A call that receives one message [m], which puts the request in slot [i] to
    rest. *)
Lemma call_receives w w0 i m e5 w1 o' rc2 d2 e6 t3 e7 :
  w_device w <> EXO_STATE_UNINITIALIZED -> device_stage w = Ok (tt, w0) -> wf_msg m -> m_ver m = 1 ->
  exopal_udp_recv 576 (w_env w0) = (0, encode m, e5) ->
  (forall p, represents p m -> match_ops p 0 count (set_env e5 w0) = Ok (true, w1)) ->
  exopal_udp_recv 576 (w_env w1) = (rc2, d2, e6) -> rc2 <> 0 -> exopal_get_time e6 = (t3, e7) ->
  (i < count)%nat -> w_ops w1 !! i = Some o' -> resting t3 o' -> others_rest t3 count i (w_ops w1) ->
  exo_operate addr1 stack1 addr2 stack2 count w = Ok (EXO_IDLE, set_env e7 w1).
Proof.
  intros Hd Hst Hwf Hv Hrecv Hm Hrecv2 Hrc Ht3 Hi Ho Hrest Hr.
  rewrite (operate_call w w0 (set_env e6 w1) t3 e7 (set_env e7 w1) t3 i o');
    [|done|done|by eapply waiting_message|done| |done|done|done|by eapply resting_state; eauto].
  - by rewrite decide_False by (eapply resting_state; eauto).
  - apply active_ops_rest. intros j Hj. destruct (decide (j = i)) as [->|Hne]; [by exists o'|].
    apply Hr; [lia|done].
Qed.
End Call.

(** ** Conversations

    Two calls, with the stack buffers [stack1] to [stack4].  The first finds no
    datagram and sends the request, the second finds the answer [m] and nothing
    else. *)

Section Conversation.
Context (addr1 addr2 addr3 addr4 : Z) (stack1 stack2 stack3 stack4 : list Z) (count : nat).
Context (Hs1 : zlen stack1 = 576) (Hs2 : zlen stack2 = 576) (Hs3 : zlen stack3 = 576).
Context (w : world E) (m : message).
Context (Hwf : wf_msg m) (Hver : m_ver m = 1) (Hack : m_type m = CT_ACK) (Hcode : m_code m / 32 = 2).
Context (Hmid : 0 <= w_mid w < 65536) (Hanswer : m_mid m = w_mid w).
Context (rc1 rc2 t1 r t2 t3 : Z) (d1 d2 : list Z) (e1 e2 e3 e4 e5 e6 e7 e8 : E).
Context (Hrecv1 : exopal_udp_recv 576 (w_env w) = (rc1, d1, e1)) (Hrc1 : rc1 <> 0).
Context (Htime1 : exopal_get_time e1 = (t1, e2)) (Hrand : libc_rand e2 = (r, e3)).

Lemma stack_max : pdu_max (stack_pdu addr2 stack2) = zlen (pdu_buf (stack_pdu addr2 stack2)) /\
  6 <= pdu_max (stack_pdu addr2 stack2) < 2 ^ 62.
Proof. simpl. unfold MINIMUM_DATAGRAM_SIZE. lia. Qed.

(** The answer finds the request that waits for it in slot [i]. *)
Lemma answer_found now i w' o q w'' : represents q m -> (i < count)%nat -> w_ops w' !! i = Some o ->
  others_rest now count i (w_ops w') -> op_state o = EXO_REQUEST_PENDING -> op_mid o = w_mid w ->
  handle_success q i w' = Ok (true, w'') -> match_ops q 0 count w' = Ok (true, w'').
Proof.
  intros HR Hi Ho Hr Hp Hm Hs. apply (match_ops_found q m HR count w' i _ Hi).
  - intros j Hj. destruct (Hr j ltac:(lia) ltac:(lia)) as (x & Hx & Hrest). exists x. split; [done|].
    by eapply resting_ack.
  - rewrite (ack_dispatch q m HR w' i o Ho Hack Hp ltac:(congruence) Hcode). exact Hs.
Qed.

Section Read.
Context (i : nat) (o : exo_op) (ba b : nat) (ablk blk alias cik junk pl : list Z).
Context (Hi : (i < count)%nat) (Ho : w_ops w !! i = Some o).
Context (Hty : op_type o = EXO_READ) (Hst : op_state o = EXO_REQUEST_NEW).
Context (Ha : op_alias o = Some ba) (Hablk : w_heap w !! ba = Some ablk) (Hal : cstring alias ablk).
Context (Hln : zlen alias < 65536) (Hcik : w_cik w = cik ++ junk) (Hcb : bytes cik) (Hcl : zlen cik = 40).
Context (Hfit : zlen (encode (read_msg (w_mid w) r alias cik)) <= 576).
Context (Hv : op_value o = Some b) (Hblk : w_heap w !! b = Some blk) (Hmax : op_value_max o <= zlen blk).
Context (Hsz : op_value_max o < 2 ^ 64) (Hp : m_payload m = Some pl) (Hne : pl <> []) (Hpl : zlen pl + 1 <= op_value_max o).
Context (Hsend : exopal_udp_send (encode (read_msg (w_mid w) r alias cik)) e3 = (0, e4)).
Context (Htime2 : exopal_get_time e4 = (t2, e5)) (Hrecv2 : exopal_udp_recv 576 e5 = (0, encode m, e6)).
Context (Hrecv3 : exopal_udp_recv 576 e6 = (rc2, d2, e7)) (Hrc2 : rc2 <> 0) (Htime3 : exopal_get_time e7 = (t3, e8)).

(** A read of an activated client takes two calls of [exo_operate] when the
    server answers and nothing else happens: the first sends exactly the request
    and returns [EXO_WAITING]; the second takes in the answer, a success response
    with the message id of the request, and returns [EXO_IDLE] with the request
    marked a success and the payload, NUL terminated, at the start of its value
    buffer.  The other requests, unused, finished or subscriptions that are not
    due, and everything else in the client are as before. *)
Theorem read_conversation :
  w_device w = EXO_STATE_GOOD -> others_rest t1 count i (w_ops w) -> others_rest t3 count i (w_ops w) ->
  exists w1,
    exo_operate addr1 stack1 addr2 stack2 count w = Ok (EXO_WAITING, w1) /\
    exo_operate addr3 stack3 addr4 stack4 count w1 = Ok (EXO_IDLE,
      set_ops (<[i := op_set_state EXO_REQUEST_SUCCESS (op_set_token (r mod 65536) (op_set_mid (w_mid w)
                        (op_set_timeout (u64 (t2 + 4000000)) o)))]> (w_ops w))
        (set_heap (<[b := pl ++ 0 :: drop (length pl + 1) blk]> (w_heap w))
          (set_mid (u16 (w_mid w + 1)) (set_env e8 w)))).
Proof.
  intros Hgood Hr1 Hr3. destruct stack_max as [Hm1 Hm2]. pose proof (lookup_lt_Some _ _ _ Ho) as Hl.
  pose proof (rand_ok _ _ _ Hrand) as [Hrr _].
  destruct (build_read_request (stack_pdu addr2 stack2) Hm1 Hm2 (set_env e2 w) o ba ablk alias cik junk r e3
    Hty Ha Hablk Hal Hln Hcik Hcb Hcl Hmid Hrand Hfit) as (p & Hb & HR & _).
  set (m0 := read_msg (w_mid w) r alias cik) in *. set (o1 := now_pending m0 t2 o).
  set (w1 := set_ops (<[i := o1]> (w_ops w)) (set_env e5 (set_env e3 (set_mid (u16 (w_mid w + 1)) w)))).
  assert (Htok : le_value (m_token m0) = r mod 65536) by (by apply (le_value_le_bytes_mod 2); lia).
  assert (Hstage : forall w', w_device w' = EXO_STATE_GOOD -> device_stage w' = Ok (tt, w')).
  { intros w' Hw. unfold device_stage. by rewrite Hw. }
  assert (Ho1 : w_ops w1 !! i = Some o1) by (by apply list_lookup_insert_eq).
  set (w2 := set_ops (<[i := op_set_state EXO_REQUEST_SUCCESS o1]> (w_ops w1))
    (set_heap (<[b := pl ++ 0 :: drop (length pl + 1) blk]> (w_heap w)) (set_env e6 w1))).
  exists w1. split.
  - apply (call_sends addr1 stack1 addr2 stack2 count Hs1 w w i o m0 rc1 d1 e1 t1 e2 p _ e4 t2 e5);
      try done; [congruence|by apply Hstage].
  - etransitivity; [apply (call_receives addr3 stack3 addr4 stack4 count Hs3 w1 w1 i m e6 w2
      (op_set_state EXO_REQUEST_SUCCESS o1) rc2 d2 e7 t3 e8); try done|].
    + cbn. congruence.
    + by apply Hstage.
    + intros q HRq. apply (answer_found t3 i (set_env e6 w1) o1); try done; [by apply others_rest_insert|].
      by apply (success_read_exact q m HRq (set_env e6 w1) i o1 b blk pl).
    + apply list_lookup_insert_eq. cbn. by rewrite length_insert.
    + right. by left.
    + by do 2 apply others_rest_insert.
    + unfold w2, w1. cbn [set_ops w_ops]. rewrite list_insert_insert_eq. unfold o1, now_pending. by rewrite Htok.
Qed.
End Read.

Section Activation.
Context (o0 : exo_op) (bv bm bs : nat) (vb mb sb vendor model serial cik : list Z).
Context (Hi : (0 < count)%nat) (Ho : w_ops w !! 0%nat = Some o0) (Hst : op_state o0 = EXO_REQUEST_NULL).
Context (Hwv : w_vendor w = Some bv) (Hvb : w_heap w !! bv = Some vb) (Hvs : cstring vendor vb) (Hvl : zlen vendor < 65536).
Context (Hwm : w_model w = Some bm) (Hmb : w_heap w !! bm = Some mb) (Hms : cstring model mb) (Hml : zlen model < 65536).
Context (Hws : w_serial w = Some bs) (Hsb : w_heap w !! bs = Some sb) (Hss : cstring serial sb) (Hsl : zlen serial < 65536).
Context (Hfit : zlen (encode (activate_msg (w_mid w) r vendor model serial)) <= 576).
Context (Hlc : length (w_cik w) = 41%nat) (Hp : m_payload m = Some cik) (Hcl : zlen cik = 40).
Context (ta rc3 : Z) (ea es : E).
Context (Hsend : exopal_udp_send (encode (activate_msg (w_mid w) r vendor model serial)) e3 = (0, e4)).
Context (Htime2 : exopal_get_time e4 = (t2, e5)) (Htimea : exopal_get_time e5 = (ta, ea)).
Context (Hsoon : ta <= u64 (t2 + 4000000)) (Hrecv2 : exopal_udp_recv 576 ea = (0, encode m, e6)).
Context (Hstore : exopal_store_cik (cik ++ [0]) e6 = (rc3, es)).
Context (Hrecv3 : exopal_udp_recv 576 es = (rc2, d2, e7)) (Hrc2 : rc2 <> 0) (Htime3 : exopal_get_time e7 = (t3, e8)).

Lemma build_activate_request w0 o : op_type o = EXO_ACTIVATE -> w_env w0 = e2 -> w_mid w0 = w_mid w ->
  w_heap w0 = w_heap w -> w_vendor w0 = w_vendor w -> w_model w0 = w_model w -> w_serial w0 = w_serial w ->
  exists p, build_request (stack_pdu addr2 stack2) o w0 = Ok (Some p, set_env e3 (set_mid (u16 (w_mid w + 1)) w0)) /\
    represents p (activate_msg (w_mid w) r vendor model serial).
Proof.
  intros Hty He Hm Hh Hv1 Hm1 Hs1'. destruct stack_max as [Hb1 Hb2].
  pose proof (build_activate (stack_pdu addr2 stack2) Hb1 Hb2 w0 r e3 ltac:(by rewrite Hm) ltac:(by rewrite He)
    bv bm bs vb mb sb vendor model serial) as Hb. rewrite Hh, Hm in Hb. specialize (Hb Hvb Hvs Hvl Hmb Hms Hml Hsb Hss Hsl).
  apply returns_inv in Hb as ([[err p] w'] & Eb & (m' & HR & _ & _ & Hiff & Hok) & Hw). simpl in *.
  assert (Herr : err = EXO_OK) by (by apply Hiff). rewrite (Hok Herr) in HR. exists p. split; [|done].
  unfold build_request. rewrite Hty. unfold bindM, gets. cbn [rbind]. rewrite Hv1, Hm1, Hs1', Hwv, Hwm, Hws, Eb.
  cbn [rbind]. rewrite Hw. unfold after_build. by rewrite Hm.
Qed.

(** The first call queues the activation in the unused slot 0; the second leaves
    it alone while it is not overdue. *)
Lemma stage_queues : w_device w = EXO_STATE_INITIALIZED \/ w_device w = EXO_STATE_BAD_CIK ->
  device_stage w = Ok (tt, set_ops (<[0%nat := exo_activate o0]> (w_ops w)) w).
Proof.
  intros Hd. replace (device_stage w) with (ensure_activation w) by (unfold device_stage; by destruct Hd as [-> | ->]).
  unfold ensure_activation, bindM, get_op. rewrite Ho. cbn [rbind]. rewrite bool_decide_eq_true_2 by done.
  unfold retM at 1. cbn [rbind]. unfold upd_op. by rewrite Ho.
Qed.

Lemma stage_waits w' o e : w_device w' = EXO_STATE_INITIALIZED \/ w_device w' = EXO_STATE_BAD_CIK ->
  w_ops w' !! 0%nat = Some o -> op_state o <> EXO_REQUEST_NULL -> exopal_get_time (w_env w') = (ta, e) ->
  ta <= op_timeout o -> device_stage w' = Ok (tt, set_env e w').
Proof.
  intros Hd Ho' Hn Ht Hle. replace (device_stage w') with (ensure_activation w') by (unfold device_stage; by destruct Hd as [-> | ->]).
  unfold ensure_activation, bindM, get_op. rewrite Ho'. cbn [rbind]. rewrite bool_decide_eq_false_2 by done.
  unfold platform. rewrite Ht. cbn [rbind retM]. by rewrite (proj2 (Z.ltb_ge _ _) Hle).
Qed.

(** C15. A device that has no valid CIK is activated by two calls of [exo_operate]
    when the server answers within four seconds and nothing else happens: the
    first queues the activation in slot 0, sends exactly the request with the
    vendor, the model and the serial number given to [exo_init] and returns
    [EXO_WAITING]; the second takes in the 40 bytes of the answer as the CIK, hands
    it to the platform for storage, makes the device good whether or not it could
    be stored, frees slot 0 and returns [EXO_IDLE]. *)
Theorem activation_conversation :
  w_device w = EXO_STATE_INITIALIZED \/ w_device w = EXO_STATE_BAD_CIK ->
  others_rest t1 count 0 (w_ops w) -> others_rest t3 count 0 (w_ops w) ->
  exists w1,
    exo_operate addr1 stack1 addr2 stack2 count w = Ok (EXO_WAITING, w1) /\
    exo_operate addr3 stack3 addr4 stack4 count w1 = Ok (EXO_IDLE,
      mk_world (cik ++ [0]) (w_vendor w) (w_model w) (w_serial w) (u16 (w_mid w + 1)) EXO_STATE_GOOD (w_heap w)
        (<[0%nat := mk_op EXO_NULL EXO_REQUEST_NULL None None 0 0 0 0 0 0 0]> (w_ops w)) e8).
Proof.
  intros Hd Hr1 Hr3. pose proof (lookup_lt_Some _ _ _ Ho) as Hl.
  set (m0 := activate_msg (w_mid w) r vendor model serial) in *. set (o1 := now_pending m0 t2 (exo_activate o0)).
  set (w0 := set_ops (<[0%nat := exo_activate o0]> (w_ops w)) w).
  destruct (build_activate_request (set_env e2 w0) (exo_activate o0)) as (p & Hb & HR); try done.
  set (w1 := set_ops (<[0%nat := o1]> (w_ops w0)) (set_env e5 (set_env e3 (set_mid (u16 (w_mid w + 1)) (set_env e2 w0))))).
  assert (Ho1 : w_ops w1 !! 0%nat = Some o1) by (apply list_lookup_insert_eq; cbn; by rewrite length_insert).
  set (w2 := mk_world (cik ++ [0]) (w_vendor w) (w_model w) (w_serial w) (u16 (w_mid w + 1)) EXO_STATE_GOOD (w_heap w)
    (<[0%nat := exo_op_init o1]> (w_ops w1)) es).
  assert (Hd1 : w_device w1 = w_device w) by done.
  exists w1. split.
  - apply (call_sends addr1 stack1 addr2 stack2 count Hs1 w w0 0 (exo_activate o0) m0 rc1 d1 e1 t1 e2 p _ e4 t2 e5);
      try done; [by destruct Hd as [-> | ->]|by apply stage_queues|by apply list_lookup_insert_eq|by apply others_rest_insert].
  - etransitivity; [apply (call_receives addr3 stack3 addr4 stack4 count Hs3 w1 (set_env ea w1) 0 m e6 w2
      (exo_op_init o1) rc2 d2 e7 t3 e8); try done|].
    + rewrite Hd1. by destruct Hd as [-> | ->].
    + by apply (stage_waits w1 o1); [rewrite Hd1| | | |].
    + intros q HRq. apply (answer_found t3 0 (set_env e6 w1) o1); try done; [by do 2 apply others_rest_insert|].
      by apply (success_activate q m HRq (set_env e6 w1) 0 o1 cik rc3 es).
    + apply list_lookup_insert_eq. cbn. by rewrite !length_insert.
    + by left.
    + by do 3 apply others_rest_insert.
    + unfold w2, w1, w0. cbn [set_ops set_env set_mid w_ops]. by rewrite !list_insert_insert_eq.
Qed.
End Activation.
End Conversation.
End Run.

(** ** Witnesses *)

Lemma sample_cstring s : bytes s -> Forall (fun c => c <> 0) s -> cstring s (s ++ [0]).
Proof. intros Hb Hn. split; [done|]. split; [done|]. by exists []. Qed.

(** Discharge the hypotheses of a conversation of the sample client. *)
Ltac run_eval :=
  lazymatch goal with
  | |- exists _, _ => idtac
  | |- others_rest _ _ _ _ => idtac
  | |- _ \/ _ => left; reflexivity
  | |- cstring _ _ => apply sample_cstring; vm_compute; repeat (split || constructor || discriminate)
  | |- _ = _ => reflexivity
  | |- _ => first [ lia | vm_compute; repeat (split || constructor || discriminate) ]
  end.

Definition stack : list Z := List.repeat 170 576.

(** The network of a client that is answered with [m] after its first call. *)
Definition answered (m : message) : list Posix.recv_event := [Posix.RecvError Posix.EAGAIN; Posix.Datagram (encode m)].

Definition reading : world Posix.os :=
  with_platform (sample_platform (answered (response CC_CONTENT [] (Some (lit "42")))) [] [100] []) (client new_read).

Lemma first_slot_rests now (o : exo_op) : others_rest now 2 1 (w_ops (client o)).
Proof.
  intros j Hj Hne. assert (j = 0%nat) as -> by lia. eexists. split; [reflexivity|]. left. reflexivity.
Qed.

Lemma read_conversation_witness : exists w1 w2,
  exo_operate 4096 stack 8192 stack 2 reading = Ok (EXO_WAITING, w1) /\
  exo_operate 4096 stack 8192 stack 2 w1 = Ok (EXO_IDLE, w2) /\
  w_heap w2 !! 4%nat = Some (lit "42" ++ [0; 7; 7; 7; 7; 7]) /\
  Posix.os_sent (w_env w2) = [encode (read_msg 7 100 (lit "temp") sample_cik)].
Proof.
  set (bs := encode (read_msg 7 100 (lit "temp") sample_cik)). set (m := response CC_CONTENT [] (Some (lit "42"))).
  edestruct (read_conversation (E := Posix.os) 4096 8192 4096 8192 stack stack stack stack 2) with
    (w := reading) (m := m) (i := 1%nat) (o := new_read) (ba := 3%nat) (b := 4%nat) (ablk := lit "temp" ++ [0])
    (blk := List.repeat 7 8) (alias := lit "temp") (cik := sample_cik) (junk := [0]) (pl := lit "42")
    (rc1 := 2) (rc2 := 2) (t1 := 100000000) (t2 := 100000000) (t3 := 100000000) (r := 100)
    (e1 := sample_platform [Posix.Datagram (encode m)] [] [100] [])
    (e2 := sample_platform [Posix.Datagram (encode m)] [] [100] [])
    (e3 := sample_platform [Posix.Datagram (encode m)] [] [] [])
    (e4 := sample_platform [Posix.Datagram (encode m)] [bs] [] [])
    (e5 := sample_platform [Posix.Datagram (encode m)] [bs] [] [])
    (e6 := sample_platform [] [bs] [] []) (e7 := sample_platform [] [bs] [] []) (e8 := sample_platform [] [bs] [] [])
    as (w1 & H1 & H2).
  all: run_eval.
  1-2: apply first_slot_rests.
  exists w1. eexists. split; [exact H1|]. split; [exact H2|]. split; reflexivity.
Defined.

(** A device that was initialised without a CIK. *)
Definition fresh : world Posix.os :=
  set_device EXO_STATE_INITIALIZED (with_platform
    (sample_platform (answered (response CC_CONTENT [] (Some new_cik))) [] [100] [])
    (client (exo_op_init new_read))).

Lemma activation_conversation_witness : exists w1 w2,
  exo_operate 4096 stack 8192 stack 2 fresh = Ok (EXO_WAITING, w1) /\
  exo_operate 4096 stack 8192 stack 2 w1 = Ok (EXO_IDLE, w2) /\
  w_device w2 = EXO_STATE_GOOD /\ w_cik w2 = new_cik ++ [0] /\ Posix.os_cik_file (w_env w2) = Some new_cik.
Proof.
  set (bs := encode (activate_msg 7 100 (lit "vnd") (lit "mdl") (lit "001"))).
  set (m := response CC_CONTENT [] (Some new_cik)).
  set (stored := Posix.mk_os [] [bs] [] [(100, 0)] [] (Some new_cik) true 1000 0 None).
  edestruct (activation_conversation (E := Posix.os) 4096 8192 4096 8192 stack stack stack stack 2) with
    (w := fresh) (m := m) (o0 := exo_op_init new_read) (bv := 0%nat) (bm := 1%nat) (bs := 2%nat)
    (vb := lit "vnd" ++ [0]) (mb := lit "mdl" ++ [0]) (sb := lit "001" ++ [0])
    (vendor := lit "vnd") (model := lit "mdl") (serial := lit "001") (cik := new_cik)
    (rc1 := 2) (rc2 := 2) (rc3 := 0) (t1 := 100000000) (t2 := 100000000) (ta := 100000000) (t3 := 100000000) (r := 100)
    (e1 := sample_platform [Posix.Datagram (encode m)] [] [100] [])
    (e2 := sample_platform [Posix.Datagram (encode m)] [] [100] [])
    (e3 := sample_platform [Posix.Datagram (encode m)] [] [] [])
    (e4 := sample_platform [Posix.Datagram (encode m)] [bs] [] [])
    (e5 := sample_platform [Posix.Datagram (encode m)] [bs] [] [])
    (ea := sample_platform [Posix.Datagram (encode m)] [bs] [] [])
    (e6 := sample_platform [] [bs] [] []) (es := stored) (e7 := stored) (e8 := stored)
    as (w1 & H1 & H2).
  all: run_eval.
  - intros j Hj Hne. assert (j = 1%nat) as -> by lia. eexists. split; [reflexivity|]. left. reflexivity.
  - intros j Hj Hne. assert (j = 1%nat) as -> by lia. eexists. split; [reflexivity|]. left. reflexivity.
  - exists w1. eexists. split; [exact H1|]. split; [exact H2|]. split; [reflexivity|]. split; reflexivity.
Defined.
