(* ===== verification/ExoLoss.v ===== *)
(** * The Exosite client: a read over a network that loses datagrams

    Any number of calls of [exo_operate] that find no datagram, some of them late
    enough for a retransmission, between the request and its answer: the read still
    gets its value. *)

From S2P Require Import Prelude Mem CoapDefs CoapGet CoapSet CoapMessage CoapGetFacts CoapSetFacts Pal ExoDefs ExoBuild ExoProcess ExoRules ExoBuildFacts ExoHandleFacts ExoSafe ExoSamples ExoMsgProps ExoSendProps ExoRun.

#[local] Opaque loop.

Section Loss.
Context {E : Type} `{PalLaws E}.
Context (count : nat).
Implicit Types (w : world E).

(** A call gives [r] and leads to [w'], whatever is on the stack. *)
Definition call (r : exo_state) w w' : Prop := forall addr1 stack1 addr2 stack2,
  zlen stack1 = 576 -> zlen stack2 = 576 -> exo_operate addr1 stack1 addr2 stack2 count w = Ok (r, w').

(** The results of calls one after the other. *)
Inductive calls : list exo_state -> world E -> world E -> Prop :=
| calls_nil w : calls [] w w
| calls_cons r rs w w1 w2 : call r w w1 -> calls rs w1 w2 -> calls (r :: rs) w w2.

Lemma calls_snoc rs r w w1 w2 : calls rs w w1 -> call r w1 w2 -> calls (rs ++ [r]) w w2.
Proof.
  intros Hc Hr. induction Hc as [|? ? ? ? ? Hc1 _ IH]; cbn [app]; [|econstructor; eauto].
  econstructor; [done|constructor].
Qed.

(** The next timeout after retransmission [n]: [n] seconds and up to 1.5 s more. *)
Definition backoff (n now r : Z) : Z := u64 (now + n * COAP_PROBING_RATE * 1000000 + u64 r mod 1500000).

(** What the platform goes through in [k] calls that find no datagram, while a
    request with [n] retransmissions and the timeout [t] is pending: a call before
    the timeout does nothing, a later one sends the message [m] again. *)
Inductive unanswered (m : message) : nat -> Z -> Z -> E -> Z -> Z -> E -> Prop :=
| answered_now n t e : unanswered m 0 n t e n t e
| too_early k n t e rc d e1 now e2 n' t' e' :
    exopal_udp_recv 576 e = (rc, d, e1) -> rc <> 0 -> exopal_get_time e1 = (now, e2) -> now < t ->
    unanswered m k n t e2 n' t' e' -> unanswered m (S k) n t e n' t' e'
| sent_again k n t e rc d e1 now e2 r e3 e4 now2 e5 r2 e6 n' t' e' :
    exopal_udp_recv 576 e = (rc, d, e1) -> rc <> 0 -> exopal_get_time e1 = (now, e2) -> t <= now ->
    n < COAP_MAX_RETRANSMIT -> libc_rand e2 = (r, e3) -> exopal_udp_send (encode m) e3 = (0, e4) ->
    exopal_get_time e4 = (now2, e5) -> libc_rand e5 = (r2, e6) ->
    unanswered m k (n + 1) (backoff (n + 1) now2 r2) e6 n' t' e' -> unanswered m (S k) n t e n' t' e'.

(** All requests but [i] are unused or finished. *)
Definition others_idle (i : nat) (ops : list exo_op) : Prop :=
  forall j, (j < count)%nat -> j <> i -> exists x, ops !! j = Some x /\
    (op_state x = EXO_REQUEST_NULL \/ op_state x = EXO_REQUEST_SUCCESS \/ op_state x = EXO_REQUEST_ERROR).

Lemma idle_rest i ops now : others_idle i ops -> others_rest now count i ops.
Proof. intros Hi j Hj Hne. destruct (Hi j Hj Hne) as (x & Hx & Hs). exists x. unfold resting. tauto. Qed.

Section Read.
Context (w : world E) (i : nat) (o : exo_op) (ba : nat) (ablk alias cik junk : list Z).
Context (Hi : (i < count)%nat) (Ho : w_ops w !! i = Some o) (Hty : op_type o = EXO_READ) (Htkl : op_tkl o = 0).
Context (Ha : op_alias o = Some ba) (Hablk : w_heap w !! ba = Some ablk) (Hal : cstring alias ablk).
Context (Hln : zlen alias < 65536) (Hcik : w_cik w = cik ++ junk) (Hcb : bytes cik) (Hcl : zlen cik = 40).
Context (Hfit : forall mid r, zlen (encode (read_msg mid r alias cik)) <= 576).
Context (Hgood : w_device w = EXO_STATE_GOOD) (Hidle : others_idle i (w_ops w)) (Hmid : 0 <= w_mid w < 65536).

(** The request once it is pending, and the client that waits for its answer. *)
Definition asked (token n t : Z) : exo_op :=
  op_set_timeout t (op_set_retries n (op_set_token token (op_set_mid (w_mid w) (op_set_state EXO_REQUEST_PENDING o)))).

Definition waiting (token counter n t : Z) (e : E) : world E :=
  set_ops (<[i := asked token n t]> (w_ops w)) (set_mid counter (set_env e w)).

Lemma waiting_op token counter n t e : w_ops (waiting token counter n t e) !! i = Some (asked token n t).
Proof. apply list_lookup_insert_eq. by eapply lookup_lt_Some. Qed.

Lemma waiting_rest token counter n t e now : others_rest now count i (w_ops (waiting token counter n t e)).
Proof. by apply others_rest_insert, idle_rest. Qed.

Lemma good_stage w' : w_device w' = EXO_STATE_GOOD -> device_stage w' = Ok (tt, w').
Proof. intros Hw. unfold device_stage. by rewrite Hw. Qed.

(** A call that changes nothing but what the pass over the active requests does to
    slot [i], which stays pending. *)
Lemma waiting_call token counter n t e rc d e1 now e2 counter' n' t' e' :
  exopal_udp_recv 576 e = (rc, d, e1) -> rc <> 0 -> exopal_get_time e1 = (now, e2) ->
  (forall pdu, pdu_max pdu = zlen (pdu_buf pdu) -> pdu_max pdu = 576 -> exists p,
     active_op now i pdu (waiting token counter n t e2) = Ok (p, waiting token counter' n' t' e')) ->
  call EXO_WAITING (waiting token counter n t e) (waiting token counter' n' t' e').
Proof.
  intros Hrecv Hrc Htime Hact addr1 stack1 addr2 stack2 Hs1 Hs2. pose proof (lookup_lt_Some _ _ _ Ho) as Hl.
  destruct (Hact (stack_pdu addr2 stack2)) as (p & Hp); [exact (eq_sym Hs2)|done|].
  rewrite (operate_call addr1 stack1 addr2 stack2 count (waiting token counter n t e) (waiting token counter n t e)
    (waiting token counter n t e1) now e2 (waiting token counter' n' t' e') now i (asked token n' t')).
  - done.
  - cbn. congruence.
  - by apply good_stage.
  - by apply (waiting_none addr1 stack1 count (waiting token counter n t e) rc d e1).
  - done.
  - apply (active_ops_one now _ _ p _ i count 0 Hi).
    + intros j Hj Hne. apply waiting_rest; lia.
    + exact Hp.
    + intros j Hj. cbn. by rewrite !list_lookup_insert_ne by done.
  - done.
  - apply waiting_op.
  - apply waiting_rest.
  - done.
Qed.

Lemma early_call token counter n t e rc d e1 now e2 :
  exopal_udp_recv 576 e = (rc, d, e1) -> rc <> 0 -> exopal_get_time e1 = (now, e2) -> now < t ->
  call EXO_WAITING (waiting token counter n t e) (waiting token counter n t e2).
Proof.
  intros Hrecv Hrc Htime Hlt. eapply waiting_call; [done..|]. intros pdu _ _. exists pdu.
  unfold active_op, bindM, get_op. rewrite waiting_op. cbn [rbind asked op_set_timeout op_set_retries op_set_token op_set_mid op_set_state op_state].
  unfold check_timeout, bindM, get_op. rewrite waiting_op. cbn [rbind asked op_set_timeout op_timeout].
  by rewrite (proj2 (Z.leb_gt _ _) Hlt).
Qed.

(** The retransmission has the message id of the request and no token. *)
Definition again : message := mk_msg 1 CT_CON CC_GET (w_mid w) [] [(11, lit "1a"); (11, alias); (15, cik)] None.

Lemma late_call token counter n t e rc d e1 now e2 r e3 e4 now2 e5 r2 e6 :
  0 <= counter < 65536 -> 0 <= n ->
  exopal_udp_recv 576 e = (rc, d, e1) -> rc <> 0 -> exopal_get_time e1 = (now, e2) -> t <= now ->
  n < COAP_MAX_RETRANSMIT -> libc_rand e2 = (r, e3) -> exopal_udp_send (encode again) e3 = (0, e4) ->
  exopal_get_time e4 = (now2, e5) -> libc_rand e5 = (r2, e6) ->
  call EXO_WAITING (waiting token counter n t e) (waiting token (u16 (counter + 1)) (n + 1) (backoff (n + 1) now2 r2) e6).
Proof.
  intros Hc Hn Hrecv Hrc Htime Hle Hlim Hrand Hsend Htime2 Hrand2. eapply waiting_call; [done..|].
  intros pdu Hm1 Hm2. set (w1 := waiting token counter n t e2).
  assert (Hop : w_ops w1 !! i = Some (asked token n t)) by apply waiting_op.
  destruct (retransmit_read_rep pdu Hm1 ltac:(lia) w1 i (asked token n t) ba ablk alias cik junk r e3) with
    (e2 := e4) (now := now2) (e3 := e5) (r2 := r2) (e4 := e6) as (p & Hp); try done.
  - rewrite Hm2. apply Hfit.
  - exists p. unfold active_op, bindM, get_op. rewrite Hop.
    cbn [rbind asked op_set_timeout op_set_retries op_set_token op_set_mid op_set_state op_state].
    unfold check_timeout, bindM, get_op. rewrite Hop. cbn [rbind asked op_set_timeout op_timeout].
    rewrite (proj2 (Z.leb_le _ _) Hle). change (op_type _) with (op_type o). rewrite Hty. etransitivity; [exact Hp|].
    do 2 f_equal. unfold w1, waiting. cbn [set_ops set_mid set_env w_ops]. by rewrite list_insert_insert_eq.
Qed.

Lemma unanswered_calls token k n t e n' t' e' : unanswered again k n t e n' t' e' -> forall counter,
  0 <= counter < 65536 -> 0 <= n ->
  exists counter', calls (List.repeat EXO_WAITING k) (waiting token counter n t e) (waiting token counter' n' t' e').
Proof.
  induction 1 as [n t e|k n t e rc d e1 now e2 n' t' e' Hrecv Hrc Htime Hlt _ IH
    |k n t e rc d e1 now e2 r e3 e4 now2 e5 r2 e6 n' t' e' Hrecv Hrc Htime Hle Hlim Hrand Hsend Htime2 Hrand2 _ IH];
    intros counter Hc Hn.
  - exists counter. constructor.
  - destruct (IH counter Hc Hn) as (c' & Hcalls). exists c'. cbn [List.repeat]. econstructor; [by eapply early_call|done].
  - destruct (IH (u16 (counter + 1))) as (c' & Hcalls); [apply Z.mod_pos_bound; lia|lia|].
    exists c'. cbn [List.repeat]. econstructor; [by eapply late_call|done].
Qed.

(** ** From the request to the value *)

Context (Hst : op_state o = EXO_REQUEST_NEW) (Hret : op_retries o = 0).

Lemma first_call rc1 d1 e1 t1 e2 r e3 e4 t2 e5 :
  exopal_udp_recv 576 (w_env w) = (rc1, d1, e1) -> rc1 <> 0 -> exopal_get_time e1 = (t1, e2) -> libc_rand e2 = (r, e3) ->
  exopal_udp_send (encode (read_msg (w_mid w) r alias cik)) e3 = (0, e4) -> exopal_get_time e4 = (t2, e5) ->
  call EXO_WAITING w (waiting (r mod 65536) (u16 (w_mid w + 1)) 0 (u64 (t2 + 4000000)) e5).
Proof.
  intros Hrecv Hrc Htime Hrand Hsend Htime2 addr1 stack1 addr2 stack2 Hs1 Hs2.
  pose proof (rand_ok _ _ _ Hrand) as [Hrr _].
  destruct (build_read_request (stack_pdu addr2 stack2) ltac:(exact (eq_sym Hs2)) ltac:(cbn; unfold MINIMUM_DATAGRAM_SIZE; lia)
    (set_env e2 w) o ba ablk alias cik junk r e3 Hty Ha Hablk Hal Hln Hcik Hcb Hcl Hmid Hrand (Hfit _ _)) as (p & Hb & HR & _).
  rewrite (call_sends addr1 stack1 addr2 stack2 count Hs1 w w i o _ rc1 d1 e1 t1 e2 p _ e4 t2 e5) with
    (6 := Hi) (7 := Ho) (10 := Hb) (11 := HR); try done; [|congruence|by apply good_stage|by apply idle_rest].
  do 2 f_equal. unfold waiting, asked, now_pending. cbn [set_env w_mid read_msg ExoBuildFacts.request m_token m_mid].
  rewrite le_value_le_bytes_mod by lia. change (256 ^ Z.of_nat 2) with 65536.
  replace (op_set_retries 0 _) with (op_set_token (r mod 65536) (op_set_mid (w_mid w) (op_set_state EXO_REQUEST_PENDING o)));
    [done|]. clear -Hret. destruct o; cbn in *. by subst.
Qed.

Section Answer.
Context (m : message) (b : nat) (blk pl : list Z).
Context (Hwf : wf_msg m) (Hver : m_ver m = 1) (Hack : m_type m = CT_ACK) (Hcode : m_code m / 32 = 2).
Context (Hanswer : m_mid m = w_mid w) (Hv : op_value o = Some b) (Hblk : w_heap w !! b = Some blk).
Context (Hmax : op_value_max o <= zlen blk) (Hsz : op_value_max o < 2 ^ 64).
Context (Hp : m_payload m = Some pl) (Hne : pl <> []) (Hpl : zlen pl + 1 <= op_value_max o).

(** The client with the value. *)
Definition told (token counter n t : Z) (e : E) : world E :=
  set_ops (<[i := op_set_state EXO_REQUEST_SUCCESS (asked token n t)]> (w_ops w))
    (set_heap (<[b := pl ++ 0 :: drop (length pl + 1) blk]> (w_heap w)) (set_mid counter (set_env e w))).

Lemma last_call token counter n t e e6 rc2 d2 e7 t3 e8 :
  exopal_udp_recv 576 e = (0, encode m, e6) -> exopal_udp_recv 576 e6 = (rc2, d2, e7) -> rc2 <> 0 ->
  exopal_get_time e7 = (t3, e8) -> call EXO_IDLE (waiting token counter n t e) (told token counter n t e8).
Proof.
  intros Hrecv Hrecv2 Hrc Htime addr1 stack1 addr2 stack2 Hs1 Hs2. pose proof (lookup_lt_Some _ _ _ Ho) as Hl.
  rewrite (call_receives addr1 stack1 addr2 stack2 count Hs1 (waiting token counter n t e) (waiting token counter n t e) i m e6
    (told token counter n t e6) (op_set_state EXO_REQUEST_SUCCESS (asked token n t)) rc2 d2 e7 t3 e8); try done.
  - cbn. congruence.
  - by apply good_stage.
  - intros q HR. apply (answer_found count w m Hack Hcode Hanswer t3 i (waiting token counter n t e6) (asked token n t)); try done.
    + apply waiting_op.
    + apply waiting_rest.
    + rewrite (success_read_exact q m HR (waiting token counter n t e6) i (asked token n t) b blk pl); try done; [|apply waiting_op].
      do 2 f_equal. unfold told, waiting. cbn [set_ops set_mid set_env w_ops]. by rewrite list_insert_insert_eq.
  - by apply list_lookup_insert_eq.
  - right. by left.
  - by apply others_rest_insert, idle_rest.
Qed.

End Answer.
End Read.
End Loss.

(** ** Witness *)

(** The platform of the sample client with a clock. *)
Definition lossy (inbox : list Posix.recv_event) (sent : list (list Z)) (clock : list (Z * Z)) (rand : list Z) : Posix.os :=
  Posix.mk_os inbox sent [] clock rand None true 1000 0 None.

Definition nothing : Posix.recv_event := Posix.RecvError Posix.EAGAIN.
Definition answer : message := response CC_CONTENT [] (Some (lit "42")).

(** The first call sends the request, the second is too early, the third sends it
    again, the fourth finds the answer. *)
Definition lossy_client : world Posix.os :=
  with_platform (lossy [nothing; nothing; nothing; Posix.Datagram (encode answer)] []
    [(100, 0); (100, 0); (101, 0); (110, 0); (110, 0); (111, 0)] [100; 1; 2]) (client new_read).

