(* ===== verification/ExoFlight.v ===== *)
(** * The Exosite client: several requests in flight

    Any number of pending reads and writes whose answers arrive before the next call
    of [exo_operate]: the call takes in all of them, each for its own request, and
    the order in which the network delivers them makes no difference. *)

From S2P Require Import Prelude Mem CoapDefs CoapGet CoapSet CoapMessage CoapGetFacts CoapSetFacts Pal ExoDefs ExoBuild ExoProcess ExoRules ExoBuildFacts ExoHandleFacts ExoSafe ExoSamples ExoMsgProps ExoSendProps ExoRun.

#[local] Opaque loop.

(** An answer: the request it is for, the message, and the block of memory that
    takes the payload, if any. *)
Record answer := mk_answer { a_slot : nat; a_msg : message; a_into : option nat }.

(** The state in which an answer leaves its request. *)
Definition verdict (m : message) : exo_request_state :=
  if m_code m / 32 =? 2 then EXO_REQUEST_SUCCESS else EXO_REQUEST_ERROR.

(** A value at the start of its buffer. *)
Definition value_in (pl blk : list Z) : list Z := pl ++ 0 :: drop (length pl + 1) blk.

(** The payload of an answer in the memory. *)
Definition value_stored (a : answer) (heap : list (list Z)) : list (list Z) :=
  match a_into a with
  | Some b => alter (value_in (default [] (m_payload (a_msg a)))) b heap
  | None => heap
  end.

(** Two answers to different requests with different message ids, which are not
    stored in the same block. *)
Definition apart (a a' : answer) : Prop :=
  a_slot a <> a_slot a' /\ m_mid (a_msg a) <> m_mid (a_msg a') /\ (a_into a = None \/ a_into a <> a_into a').

Definition all_apart (answers : list answer) : Prop := forall k k' a a',
  k <> k' -> answers !! k = Some a -> answers !! k' = Some a' -> apart a a'.

Lemma all_apart_perm l1 l2 : l1 ≡ₚ l2 -> all_apart l1 -> all_apart l2.
Proof.
  intros Hp Ha k k' a a' Hk Hl Hl'. symmetry in Hp. apply Permutation_inj in Hp as (_ & f & Hf & Hlk).
  rewrite Hlk in Hl, Hl'. by apply (Ha (f k) (f k')); [intros ?%Hf|..].
Qed.

Lemma all_apart_cons a l : all_apart (a :: l) -> (forall a', a' ∈ l -> apart a a') /\ all_apart l.
Proof.
  intros Ha. split.
  - intros a' (k & Hk)%list_elem_of_lookup. by apply (Ha 0%nat (S k)).
  - intros k k' x x' Hk Hx Hx'. apply (Ha (S k) (S k')); [lia|done|done].
Qed.

(** The answer is in order for the request: a value for a read with a buffer that has
    room for it, the success of a write, or a failure other than "unauthorized". *)
Definition fitting (heap : list (list Z)) (o : exo_op) (a : answer) : Prop :=
  let m := a_msg a in
  (m_code m / 32 <> 2 /\ m_code m <> CC_UNAUTHORIZED /\ a_into a = None) \/
  (m_code m / 32 = 2 /\ op_type o = EXO_WRITE /\ a_into a = None) \/
  (m_code m / 32 = 2 /\ op_type o = EXO_READ /\ exists b blk pl,
     a_into a = Some b /\ op_value o = Some b /\ heap !! b = Some blk /\ m_payload m = Some pl /\ pl <> [] /\
     zlen pl + 1 <= op_value_max o /\ op_value_max o <= zlen blk /\ op_value_max o < 2 ^ 64).

Section Flight.
Context {E : Type} `{PalLaws E}.
Context (count : nat).
Implicit Types (w : world E).

(** ** One answer *)

(** The client after an answer. *)
Definition settled w (a : answer) : world E :=
  set_ops (alter (op_set_state (verdict (a_msg a))) (a_slot a) (w_ops w)) (set_heap (value_stored a (w_heap w)) w).

(** The answer is for a pending request of [w]. *)
Definition answers_request w (a : answer) : Prop :=
  let m := a_msg a in
  wf_msg m /\ m_ver m = 1 /\ m_type m = CT_ACK /\ (a_slot a < count)%nat /\
  exists o, w_ops w !! a_slot a = Some o /\ op_state o = EXO_REQUEST_PENDING /\ op_mid o = m_mid m /\
    fitting (w_heap w) o a.

(** Every other request either is not waiting for an acknowledgement or has another
    message id. *)
Definition others_differ w (a : answer) : Prop := forall j, (j < count)%nat -> j <> a_slot a ->
  exists x, w_ops w !! j = Some x /\ (op_state x <> EXO_REQUEST_PENDING \/ op_mid x <> m_mid (a_msg a)).

Lemma alter_insert {A} (f : A -> A) (l : list A) i x : l !! i = Some x -> alter f i l = <[i := f x]> l.
Proof. intros Hx. apply list_eq. intros j. destruct (decide (j = i)) as [->|Hne].
  - by rewrite list_lookup_alter_eq, Hx, list_lookup_insert_eq by (by eapply lookup_lt_Some).
  - by rewrite list_lookup_alter_ne, list_lookup_insert_ne by done.
Qed.

Lemma settled_message p w a : represents p (a_msg a) -> w_device w = EXO_STATE_GOOD -> answers_request w a ->
  others_differ w a -> match_ops p 0 count w = Ok (true, settled w a).
Proof.
  intros HR Hd (_ & _ & Hack & Hi & o & Ho & Hst & Hmid & Hcase) Hdiff.
  unfold fitting in Hcase. cbv zeta in Hcase. set (m := a_msg a) in *.
  apply (match_ops_found p m HR count w (a_slot a) _ Hi).
  { intros j Hj. destruct (Hdiff j ltac:(lia) ltac:(lia)) as (x & Hx & Hne). exists x. split; [done|].
    unfold matches. fold m in Hne. rewrite Hack. cbn [coap_type_val Z.eqb Pos.eqb orb].
    destruct Hne as [Hne|Hne]; [by rewrite bool_decide_eq_false_2|by rewrite (proj2 (Z.eqb_neq _ _) Hne), andb_false_r]. }
  unfold settled, value_stored, verdict. fold m. rewrite (alter_insert _ _ _ o Ho).
  destruct Hcase as [(Hc & Hu & Hin)|[(Hc & Hty & Hin)|(Hc & Hty & b & blk & pl & Hin & Hv & Hb & Hp & Hne & Hpl & Hmax & Hsz)]].
  - rewrite (ack_failure p m HR w _ o Ho Hack Hst Hmid Hc Hu), (proj2 (Z.eqb_neq _ _) Hc), Hin. do 2 f_equal.
    destruct (_ =? _); clear -Hd; destruct w; cbn in *; by subst.
  - rewrite (ack_dispatch p m HR w _ o Ho Hack Hst Hmid Hc), (success_type p w _ o Ho), Hty, Hc, Hin.
    done.
  - rewrite (ack_dispatch p m HR w _ o Ho Hack Hst Hmid Hc), Hc, Hin.
    rewrite (success_read_exact p m HR w _ o b blk pl) by done. rewrite Hp. by rewrite (alter_insert _ _ _ blk Hb).
Qed.

(** ** All answers *)

(** The platform has exactly these messages, in this order. *)
Inductive arrives : list message -> E -> E -> Prop :=
| arrives_none e rc d e' : exopal_udp_recv 576 e = (rc, d, e') -> rc <> 0 -> arrives [] e e'
| arrives_more m ms e e1 e' : exopal_udp_recv 576 e = (0, encode m, e1) -> arrives ms e1 e' -> arrives (m :: ms) e e'.

Definition inactive (s : exo_request_state) : Prop :=
  s = EXO_REQUEST_NULL \/ s = EXO_REQUEST_SUBSCRIBED \/ s = EXO_REQUEST_SUCCESS \/ s = EXO_REQUEST_ERROR.

Lemma verdict_inactive m : inactive (verdict m).
Proof. unfold inactive, verdict. destruct (_ =? _); tauto. Qed.

(** An activated client with these answers on their way: one for every pending
    request, while the other requests are unused, finished or subscriptions. *)
Record awaited w (answers : list answer) : Prop := mk_awaited {
  fl_device : w_device w = EXO_STATE_GOOD;
  fl_apart : all_apart answers;
  fl_answers : forall a, a ∈ answers -> answers_request w a;
  fl_others : forall j, (j < count)%nat -> (exists a, a ∈ answers /\ a_slot a = j) \/
    exists x, w_ops w !! j = Some x /\ inactive (op_state x)
}.

Definition all_settled w (answers : list answer) : world E := foldl settled w answers.

Lemma all_settled_env e l : forall w, all_settled (set_env e w) l = set_env e (all_settled w l).
Proof. induction l as [|a l IH]; intros w; [done|]. exact (IH (settled w a)). Qed.

Lemma awaited_differ w a l : awaited w (a :: l) -> others_differ w a.
Proof.
  intros [_ Hap Han Hot] j Hj Hne. apply all_apart_cons in Hap as [Hap _].
  destruct (Hot j Hj) as [(a' & [->|Hin]%elem_of_cons & Hs)|(x & Hx & Hs)]; [done| |].
  - destruct (Han a') as (_ & _ & _ & _ & o & Ho & _ & Hm & _); [by right|]. rewrite Hs in Ho. exists o. split; [done|].
    right. rewrite Hm. intros Heq. by destruct (Hap a' Hin) as (_ & Hd & _).
  - exists x. split; [done|]. left. unfold inactive in Hs. intuition congruence.
Qed.

(** An answer leaves those to other requests as they were. *)
Lemma settled_answers w a a' : apart a a' -> answers_request w a' -> answers_request (settled w a) a'.
Proof.
  intros (Hs & _ & Hb) (Hwf & Hv & Ht & Hi & o & Ho & Hst & Hm & Hc). do 4 (split; [done|]). exists o.
  cbn [settled set_ops set_heap w_ops w_heap]. rewrite list_lookup_alter_ne by done. do 3 (split; [done|]).
  destruct Hc as [Hc|[Hc|(Hc & Hty & b & blk & pl & Hin & Hval & Hblk & Hrest)]]; [by left|by right; left|].
  right. right. do 2 (split; [done|]). exists b, blk, pl. do 2 (split; [done|]). split; [|done].
  unfold value_stored. destruct (a_into a) as [b'|] eqn:Hin'; [|done].
  rewrite list_lookup_alter_ne; [done|]. intros ->. destruct Hb; congruence.
Qed.

Lemma awaited_settled w a l : awaited w (a :: l) -> awaited (settled w a) l.
Proof.
  intros Hf. pose proof Hf as [Hd [Hap Hap']%all_apart_cons Han Hot]. constructor; [done|done| |].
  - intros a' Hin. apply settled_answers; [by apply Hap|]. apply Han. by right.
  - intros j Hj. cbn [settled set_ops w_ops]. destruct (decide (a_slot a = j)) as [Hs|Hne].
    + right. destruct (Han a) as (_ & _ & _ & _ & o & Ho & _); [by left|]. rewrite <- Hs, list_lookup_alter_eq, Ho.
      eexists. split; [done|]. apply verdict_inactive.
    + rewrite list_lookup_alter_ne by done.
      destruct (Hot j Hj) as [(a' & [->|Hin]%elem_of_cons & Hs)|Hx]; [done|left; by exists a'|by right].
Qed.

Lemma awaited_env w e l : awaited w l -> awaited (set_env e w) l.
Proof. by intros []. Qed.

Lemma awaited_length w answers : awaited w answers -> (length answers <= count)%nat.
Proof.
  intros [_ Hap Han _]. rewrite <- (length_fmap a_slot answers). rewrite <- (length_seq count 0).
  apply submseteq_length, NoDup_submseteq.
  - apply NoDup_alt. intros k k' i Hk Hk'. apply list_lookup_fmap_Some in Hk as (a & -> & Hk), Hk' as (a' & Hs & Hk').
    destruct (decide (k = k')) as [|Hne]; [done|]. by destruct (Hap k k' a a' Hne Hk Hk').
  - intros i (a & -> & Ha)%list_elem_of_fmap. destruct (Han a Ha) as (_ & _ & _ & Hi & _). apply elem_of_seq. lia.
Qed.

(** The pass over the waiting datagrams takes in all of them. *)
Lemma waiting_answers addr stack w answers e : zlen stack = 576 -> Z.of_nat count < 256 -> awaited w answers ->
  arrives (a_msg <$> answers) (w_env w) e ->
  exo_process_waiting_datagrams addr stack count w = Ok (tt, set_env e (all_settled w answers)).
Proof.
  intros Hs Hcount Hf Harr. pose proof (awaited_length w answers Hf) as Hlen.
  unfold exo_process_waiting_datagrams, loopM.
  assert (Hr : returns (loop (fun sw : coap_pdu * world E =>
      let* '(r, w) := recv_step count (fst sw) (snd sw) in
      Ok match r with Continue s => Continue (s, w) | Break r => Break (r, w) end) (stack_pdu addr stack, w))
    (fun r => r = (tt, set_env e (all_settled w answers)))).
  { apply (loop_bounded _ (fun k s => exists l, k = zlen l /\ fits576 (fst s) /\ awaited (snd s) l /\
      arrives (a_msg <$> l) (w_env (snd s)) e /\
      set_env e (all_settled (snd s) l) = set_env e (all_settled w answers)) _ (zlen answers));
      [|by exists answers|unfold zlen; lia].
    clear Hf Harr Hlen. intros k [p w1] (l & -> & HF & Hf & Harr & Hend). cbn [fst snd] in *. destruct l as [|a l].
    - inversion Harr as [? rc d ? Hrecv Hrc|]; subst. rewrite (recv_step_empty count p w1 rc d e HF Hrecv Hrc).
      cbn [rbind returns]. by rewrite <- Hend.
    - inversion Harr as [|? ? ? e1 ? Hrecv Harr']; subst. destruct (fl_answers _ _ Hf a ltac:(by left)) as (Hwf & Hv & _).
      destruct (recv_step_message count p w1 (a_msg a) e1 (set_env e1 (settled w1 a)) HF Hwf Hv Hrecv) as (p' & -> & HF').
      { intros q HR. apply (settled_message q (set_env e1 w1) a HR); [by apply Hf|by apply (fl_answers _ _ Hf a); left|].
        by apply (awaited_differ w1 a l). }
      cbn [rbind returns]. exists (zlen l). split; [rewrite zlen_cons; zlen_pos; lia|]. exists l. split; [done|]. split; [done|].
      split; [by apply awaited_env, awaited_settled|]. split; [done|]. cbn [fst snd]. by rewrite all_settled_env. }
  by apply returns_inv in Hr as (? & -> & ->).
Qed.
(** ** The order makes no difference *)

Lemma settled_comm w a a' : apart a a' -> settled (settled w a) a' = settled (settled w a') a.
Proof.
  intros (Hs & _ & Hb). unfold settled. cbn [set_ops set_heap w_ops w_heap].
  rewrite (list_alter_alter_ne _ _ (w_ops w) (a_slot a') (a_slot a)) by done.
  replace (value_stored a' (value_stored a (w_heap w))) with (value_stored a (value_stored a' (w_heap w))); [done|].
  unfold value_stored. destruct (a_into a) as [b|], (a_into a') as [b'|]; try done.
  apply list_alter_alter_ne. destruct Hb as [Hb|Hb]; congruence.
Qed.

Lemma all_settled_perm w l1 l2 : all_apart l1 -> l1 ≡ₚ l2 -> all_settled w l1 = all_settled w l2.
Proof.
  intros Hap Hp. unfold all_settled. revert w. induction Hp as [|a l1 l2 Hp IH|a a' l|l1 l2 l3 Hp1 IH1 Hp2 IH2]; intros w; cbn.
  - done.
  - apply IH. by apply all_apart_cons in Hap as [_ ?].
  - by rewrite settled_comm by (by apply (Hap 0%nat 1%nat)).
  - rewrite IH1 by done. apply IH2. by eapply all_apart_perm.
Qed.

Lemma awaited_perm w l1 l2 : l1 ≡ₚ l2 -> awaited w l1 -> awaited w l2.
Proof.
  intros Hp [Hd Hap Han Hot]. constructor; [done|by eapply all_apart_perm| |].
  - intros a. rewrite <- Hp. apply Han.
  - intros j Hj. destruct (Hot j Hj) as [(a & Ha & Hs)|?]; [left|by right]. exists a. by rewrite <- Hp.
Qed.

(** What becomes of each request and each block. *)
Lemma all_settled_other i l : forall w, (forall a, a ∈ l -> a_slot a <> i) -> w_ops (all_settled w l) !! i = w_ops w !! i.
Proof.
  induction l as [|a l IH]; intros w Hn; [done|]. cbn. rewrite IH by (intros a' Ha; apply Hn; by right).
  cbn. apply list_lookup_alter_ne. apply Hn. by left.
Qed.

Lemma all_settled_op a o l : forall w, all_apart l -> a ∈ l -> w_ops w !! a_slot a = Some o ->
  w_ops (all_settled w l) !! a_slot a = Some (op_set_state (verdict (a_msg a)) o).
Proof.
  induction l as [|a' l IH]; intros w Hap Ha Ho; [by apply not_elem_of_nil in Ha|].
  apply all_apart_cons in Hap as [Hap Hap'].
  apply elem_of_cons in Ha as [->|Ha]; cbn.
  - rewrite all_settled_other by (intros x Hx; by destruct (Hap x Hx) as [? _]). cbn. by rewrite list_lookup_alter_eq, Ho.
  - apply IH; [done|done|]. cbn. rewrite list_lookup_alter_ne by (by destruct (Hap a Ha)). done.
Qed.

Lemma all_settled_block_other b l : forall w, (forall a, a ∈ l -> a_into a <> Some b) ->
  w_heap (all_settled w l) !! b = w_heap w !! b.
Proof.
  induction l as [|a l IH]; intros w Hn; [done|]. cbn. rewrite IH by (intros a' Ha; apply Hn; by right).
  cbn. unfold value_stored. destruct (a_into a) as [b'|] eqn:Hb; [|done]. apply list_lookup_alter_ne.
  intros ->. apply (Hn a); [by left|done].
Qed.

Lemma all_settled_block a b blk l : forall w, all_apart l -> a ∈ l -> a_into a = Some b -> w_heap w !! b = Some blk ->
  w_heap (all_settled w l) !! b = Some (value_in (default [] (m_payload (a_msg a))) blk).
Proof.
  induction l as [|a' l IH]; intros w Hap Ha Hb Hblk; [by apply not_elem_of_nil in Ha|].
  apply all_apart_cons in Hap as [Hap Hap'].
  apply elem_of_cons in Ha as [->|Ha]; cbn.
  - rewrite all_settled_block_other.
    + cbn. unfold value_stored. by rewrite Hb, list_lookup_alter_eq, Hblk.
    + intros x Hx. destruct (Hap x Hx) as (_ & _ & [?|?]); congruence.
  - apply IH; [done|done|done|]. cbn. unfold value_stored. destruct (a_into a') as [b'|] eqn:Hb'; [|done].
    rewrite list_lookup_alter_ne; [done|]. destruct (Hap a Ha) as (_ & _ & [?|?]); congruence.
Qed.

(** Once all answers are in, all requests rest. *)
Lemma all_settled_rest now w l j : awaited w l -> (j < count)%nat ->
  (forall x, w_ops w !! j = Some x -> op_state x = EXO_REQUEST_SUBSCRIBED -> now < op_timeout x) ->
  exists x, w_ops (all_settled w l) !! j = Some x /\ resting now x.
Proof.
  intros [_ Hap Han Hot] Hj Hnow. destruct (decide (Exists (fun a => a_slot a = j) l)) as [(a & Ha & <-)%Exists_exists|Hno].
  - destruct (Han a Ha) as (_ & _ & _ & _ & o & Ho & _). eexists. split; [by apply all_settled_op|].
    unfold resting. cbn. unfold verdict. destruct (_ =? _); tauto.
  - rewrite Exists_exists in Hno. destruct (Hot j Hj) as [(a & Ha)|(x & Hx & Hs)]; [by destruct Hno; exists a|].
    exists x. rewrite all_settled_other by (intros a Ha Heq; apply Hno; by exists a).
    split; [done|]. unfold resting. destruct Hs as [?|[?|?]]; [tauto| |tauto]. right. right. right. auto.
Qed.

(** When an answer for every pending read and write has arrived, a call takes in all
    of them, whatever their order. *)
Lemma answers_taken_in w answers addr1 stack1 addr2 stack2 :
  zlen stack1 = 576 -> (0 < count)%nat -> Z.of_nat count < 256 -> awaited w answers ->
  exists w',
    (forall answers' e e1 t e2, answers' ≡ₚ answers -> arrives (a_msg <$> answers') e e1 -> exopal_get_time e1 = (t, e2) ->
       (forall j x, w_ops w !! j = Some x -> op_state x = EXO_REQUEST_SUBSCRIBED -> t < op_timeout x) ->
       exo_operate addr1 stack1 addr2 stack2 count (set_env e w) = Ok (EXO_IDLE, set_env e2 w')) /\
    (forall a o, a ∈ answers -> w_ops w !! a_slot a = Some o ->
       w_ops w' !! a_slot a = Some (op_set_state (verdict (a_msg a)) o)) /\
    (forall i, (forall a, a ∈ answers -> a_slot a <> i) -> w_ops w' !! i = w_ops w !! i) /\
    (forall a b blk, a ∈ answers -> a_into a = Some b -> w_heap w !! b = Some blk ->
       w_heap w' !! b = Some (value_in (default [] (m_payload (a_msg a))) blk)) /\
    (forall b, (forall a, a ∈ answers -> a_into a <> Some b) -> w_heap w' !! b = w_heap w !! b).
Proof.
  intros Hs1 Hpos Hcount Hf. pose proof (fl_apart _ _ Hf) as Hap. exists (all_settled w answers). split.
  2: { split; [intros; by apply all_settled_op|]. split; [intros; by apply all_settled_other|].
       split; [intros; by eapply all_settled_block|]. intros. by apply all_settled_block_other. }
  intros answers' e e1 t e2 Hp Harr Ht Hsub. pose proof (awaited_perm w _ _ (symmetry Hp) Hf) as Hf'.
  pose proof (fun j Hj => all_settled_rest t w answers j Hf Hj (Hsub j)) as Hrest.
  destruct (Hrest 0%nat Hpos) as (x & Hx & Hx').
  rewrite (operate_call addr1 stack1 addr2 stack2 count (set_env e w) (set_env e w) (set_env e1 (all_settled w answers))
    t e2 (set_env e2 (all_settled w answers)) t 0 x).
  - by rewrite decide_False by (eapply resting_state; eauto).
  - cbn. by rewrite (fl_device _ _ Hf).
  - unfold device_stage. cbn. by rewrite (fl_device _ _ Hf).
  - rewrite (waiting_answers addr1 stack1 (set_env e w) answers' e1) by (done || by apply awaited_env).
    by rewrite all_settled_env, (all_settled_perm w answers answers').
  - done.
  - apply active_ops_rest. intros j Hj. apply Hrest. lia.
  - done.
  - done.
  - intros j Hj _. by apply Hrest.
  - eapply resting_state; eauto.
Qed.
End Flight.
