(* ===== verification/ExoQueue.v ===== *)
(** * The Exosite client: a queue of requests and its answers

    The first call of [exo_operate] after an application queued any number of reads
    and writes sends all of them, in the order of their slots and with message ids
    that follow one another; the next call takes in the answers ([ExoFlight]). *)

From S2P Require Import Prelude Mem CoapDefs CoapGet CoapSet CoapMessage CoapGetFacts CoapSetFacts Pal ExoDefs ExoBuild ExoProcess ExoRules ExoBuildFacts ExoHandleFacts ExoSafe ExoSamples ExoMsgProps ExoSendProps ExoRun ExoFlight.

#[local] Opaque loop.

(** A request and its answer: the slot, the message that asks for a message id and a
    random number, the message that answers a message id, and the block that takes
    the value, if any. *)
Record exchange := mk_exchange { x_slot : nat; x_ask : Z -> Z -> message; x_reply : Z -> message; x_into : option nat }.

(** The message ids go up and wrap around. *)
Definition id_after (c : Z) (k : nat) : Z := u16 (c + Z.of_nat k).

Lemma id_range c k : 0 <= id_after c k < 65536.
Proof. apply Z.mod_pos_bound. lia. Qed.

Lemma id_next c k : id_after (u16 (c + 1)) k = id_after c (S k).
Proof. unfold id_after, u16. rewrite Zplus_mod_idemp_l. f_equal. lia. Qed.

Lemma id_distinct c k k' : (k < 256)%nat -> (k' < 256)%nat -> k <> k' -> id_after c k <> id_after c k'.
Proof. intros Hk Hk' Hne. unfold id_after. assert (Z.of_nat k <> Z.of_nat k') by lia. wrap_lia. Qed.

(** The answers to the requests of a queue that was sent from the message id [c] on. *)
Definition replies (c : Z) (xs : list exchange) : list answer :=
  imap (fun k x => mk_answer (x_slot x) (x_reply x (id_after c k)) (x_into x)) xs.

(** The slots go up from [i] on. *)
Fixpoint ascending (i : nat) (xs : list exchange) : Prop :=
  match xs with
  | [] => True
  | x :: xs => (i <= x_slot x)%nat /\ ascending (S (x_slot x)) xs
  end.

Lemma ascending_weaken xs : forall i i', (i <= i')%nat -> ascending i' xs -> ascending i xs.
Proof. destruct xs; cbn; [done|]. intros i i' Hi [? ?]. split; [lia|done]. Qed.

Lemma ascending_from xs : forall i k x, ascending i xs -> xs !! k = Some x -> (i <= x_slot x)%nat.
Proof.
  induction xs as [|y xs IH]; intros i [|k] x Ha Hk; try done; destruct Ha as [Hi Ha].
  - by injection Hk as <-.
  - specialize (IH _ _ _ Ha Hk). lia.
Qed.

Lemma ascending_lt xs : forall i k k' x x', ascending i xs -> xs !! k = Some x -> xs !! k' = Some x' -> (k < k')%nat ->
  (x_slot x < x_slot x')%nat.
Proof.
  induction xs as [|y xs IH]; intros i [|k] [|k'] x x' Ha Hk Hk' Hlt; try done; try lia; destruct Ha as [Hi Ha].
  - injection Hk as <-. by apply (ascending_from xs (S (x_slot y)) k').
  - apply (IH _ k k' x x' Ha Hk Hk'). lia.
Qed.

Lemma ascending_distinct xs i k k' x x' : ascending i xs -> xs !! k = Some x -> xs !! k' = Some x' -> k <> k' ->
  x_slot x <> x_slot x'.
Proof.
  intros Ha Hk Hk' Hne. destruct (decide (k < k')%nat) as [Hlt|Hge].
  - pose proof (ascending_lt xs i k k' x x' Ha Hk Hk' Hlt). lia.
  - pose proof (ascending_lt xs i k' k x' x Ha Hk' Hk ltac:(lia)). lia.
Qed.

(** The message of a read or a write of the dataport [alias]. *)
Inductive asks (heap : list (list Z)) (cik : list Z) (o : exo_op) : (Z -> Z -> message) -> Prop :=
| asks_read ba blk alias :
    op_type o = EXO_READ -> op_alias o = Some ba -> heap !! ba = Some blk -> cstring alias blk -> zlen alias < 65536 ->
    (forall mid r, zlen (encode (read_msg mid r alias cik)) <= 576) ->
    asks heap cik o (fun mid r => read_msg mid r alias cik)
| asks_write ba blk alias bv vblk value :
    op_type o = EXO_WRITE -> op_alias o = Some ba -> heap !! ba = Some blk -> cstring alias blk -> zlen alias < 65536 ->
    op_value o = Some bv -> heap !! bv = Some vblk -> cstring value vblk ->
    (forall mid r, zlen (encode (write_msg mid r alias cik value)) <= 576) ->
    asks heap cik o (fun mid r => write_msg mid r alias cik value).

Lemma asks_mid heap cik o ask mid r : asks heap cik o ask -> m_mid (ask mid r) = mid.
Proof. by intros []. Qed.

Section Queue.
Context {E : Type} `{PalLaws E}.
Implicit Types (w : world E).

Section Build.
Context (cik junk : list Z) (Hcb : bytes cik) (Hcl : zlen cik = 40).

Lemma build_asked pdu w o ask r e : fits576 pdu -> asks (w_heap w) cik o ask -> w_cik w = cik ++ junk ->
  0 <= w_mid w < 65536 -> libc_rand (w_env w) = (r, e) ->
  exists p, build_request pdu o w = Ok (Some p, set_env e (set_mid (u16 (w_mid w + 1)) w)) /\
    represents p (ask (w_mid w) r) /\ fits576 p.
Proof.
  intros [Hmax Hbuf] Ha Hcik Hmid Hr. assert (Hm : pdu_max pdu = zlen (pdu_buf pdu)) by lia.
  assert (Hs : 6 <= pdu_max pdu < 2 ^ 62) by (rewrite Hmax; lia).
  destruct Ha as [ba blk alias Hty Hal Hblk Hcs Hln Hfit|ba blk alias bv vblk value Hty Hal Hblk Hcs Hln Hv Hvblk Hvs Hfit].
  - destruct (build_read_request pdu Hm Hs w o ba blk alias cik junk r e Hty Hal Hblk Hcs Hln Hcik Hcb Hcl Hmid Hr)
      as (p & Hb & HR & Hp); [by rewrite Hmax|]. exists p. split; [done|]. split; [done|]. by eapply rep_fits576; [|lia].
  - assert (Hvl : zlen value < 2 ^ 62).
    { specialize (Hfit 0 0). unfold encode in Hfit. rewrite !zlen_app in Hfit.
      cbn [write_msg ExoBuildFacts.request m_payload encode_payload] in Hfit. rewrite zlen_cons in Hfit. zlen_pos. lia. }
    pose proof (build_write pdu Hm Hs w r e Hmid Hr cik junk Hcik Hcb Hcl ba blk alias Hblk Hcs Hln bv vblk value Hvblk Hvs Hvl) as Hb.
    apply returns_inv in Hb as ([[err p] w'] & Eb & (m & HR & Hmx & _ & Hiff & Hok) & Hw). simpl in *.
    assert (Herr : err = EXO_OK) by (apply Hiff; rewrite Hmax; apply Hfit). rewrite (Hok Herr) in HR. exists p. split.
    + unfold build_request. rewrite Hty, Hal, Hv. unfold bindM. rewrite Eb. cbn [rbind]. by rewrite Hw.
    + split; [done|]. eapply rep_fits576; [done|lia].
Qed.

(** ** Sending *)

(** The platform sends the messages of the queue, each for the next message id and
    the next random number; the list has the slots, the messages and the times. *)
Inductive accepts : list exchange -> Z -> E -> list (nat * message * Z) -> E -> Prop :=
| accepts_none c e : accepts [] c e [] e
| accepts_more x xs c e r e1 e2 now e3 sent e' :
    libc_rand e = (r, e1) -> exopal_udp_send (encode (x_ask x c r)) e1 = (0, e2) -> exopal_get_time e2 = (now, e3) ->
    accepts xs (u16 (c + 1)) e3 sent e' ->
    accepts (x :: xs) c e ((x_slot x, x_ask x c r, now) :: sent) e'.

(** The client once they are out. *)
Definition pending_ops (sent : list (nat * message * Z)) (ops : list exo_op) : list exo_op :=
  foldl (fun ops '(i, m, now) => alter (now_pending m now) i ops) ops sent.

Definition all_sent w (sent : list (nat * message * Z)) (e : E) : world E :=
  set_ops (pending_ops sent (w_ops w)) (set_mid (id_after (w_mid w) (length sent)) (set_env e w)).

(** The request in the slot of [x] is queued and its message is that of [x]. *)
Definition queued w (x : exchange) : Prop :=
  exists o, w_ops w !! x_slot x = Some o /\ op_state o = EXO_REQUEST_NEW /\ asks (w_heap w) cik o (x_ask x).

(** The slots from [i] on: those of the queue, and requests that rest. *)
Record prepared (t : Z) (i n : nat) (xs : list exchange) w : Prop := mk_prepared {
  pr_cik : w_cik w = cik ++ junk;
  pr_mid : 0 <= w_mid w < 65536;
  pr_slots : ascending i xs;
  pr_queued : forall x, x ∈ xs -> queued w x /\ (x_slot x < i + n)%nat;
  pr_others : forall j, (i <= j < i + n)%nat -> (exists x, x ∈ xs /\ x_slot x = j) \/
    exists o, w_ops w !! j = Some o /\ resting t o
}.

(** A slot that rests is passed over. *)
Lemma prepared_skip t i n xs w : prepared t i (S n) xs w -> (forall x, x ∈ xs -> x_slot x <> i) ->
  prepared t (S i) n xs w /\ exists o, w_ops w !! i = Some o /\ resting t o.
Proof.
  intros [Hcik Hmid Hasc Hq Hot] Hne. split; [constructor; try done|].
  - destruct xs as [|x xs]; [done|]. destruct Hasc as [Hi Hasc]. split; [|done]. specialize (Hne x ltac:(by left)). lia.
  - intros x Hx. destruct (Hq x Hx). split; [done|lia].
  - intros j Hj. apply Hot. lia.
  - destruct (Hot i ltac:(lia)) as [(x & Hx & Hs)|]; [by destruct (Hne x Hx)|done].
Qed.

(** The first of the queue is sent. *)
Lemma prepared_send t n x xs w o' e : prepared t (x_slot x) (S n) (x :: xs) w ->
  prepared t (S (x_slot x)) n xs
    (set_ops (<[x_slot x := o']> (w_ops w)) (set_env e (set_mid (u16 (w_mid w + 1)) w))).
Proof.
  intros [Hcik Hmid [_ Hasc] Hq Hot]. constructor; cbn [set_ops set_env set_mid w_ops w_cik w_mid].
  - done.
  - apply Z.mod_pos_bound. lia.
  - done.
  - intros y Hy. destruct (Hq y ltac:(by right)) as [Hqy Hlt]. split; [|lia].
    apply list_elem_of_lookup in Hy as (k & Hk). pose proof (ascending_from xs _ k y Hasc Hk).
    unfold queued. cbn [set_ops set_env set_mid w_ops w_heap]. by rewrite list_lookup_insert_ne by lia.
  - intros j Hj. rewrite list_lookup_insert_ne by lia.
    destruct (Hot j ltac:(lia)) as [(y & [->|Hy]%elem_of_cons & Hs)|Hr]; [lia|left; by exists y|by right].
Qed.

Lemma active_ops_send t n : forall i xs sent e pdu w,
  fits576 pdu -> prepared t i n xs w -> accepts xs (w_mid w) (w_env w) sent e ->
  active_ops t i n pdu w = Ok (tt, all_sent w sent e).
Proof.
  induction n as [|n IH]; intros i xs sent e pdu w HF Hpr Hacc; cbn [active_ops].
  - destruct Hpr as [_ Hmid Hasc Hq _]. destruct xs as [|x xs]; [|destruct (Hq x) as [_ Hlt]; [by left|]; destruct Hasc; lia].
    inversion Hacc; subst. destruct w. unfold all_sent, retM, id_after. cbn in *. rewrite Z.add_0_r. by rewrite u16_id.
  - unfold bindM. destruct (decide (Exists (fun x => x_slot x = i) xs)) as [Hx|Hx].
    + destruct xs as [|x xs]; [by apply Exists_nil in Hx|]. assert (Hs : x_slot x = i).
      { apply Exists_cons in Hx as [?|(y & Hy & Hs)%Exists_exists]; [done|]. destruct (pr_slots _ _ _ _ _ Hpr) as [Hi Hasc].
        apply list_elem_of_lookup in Hy as (k & Hk). pose proof (ascending_from xs _ k y Hasc Hk). lia. }
      subst i. destruct (pr_queued _ _ _ _ _ Hpr x ltac:(by left)) as [(o & Ho & Hnew & Ha) _].
      inversion Hacc as [|? ? ? ? r e1 e2 now e3 sent' ? Hr Hsend Ht Hacc']; subst.
      destruct (build_asked pdu w o _ r e1 HF Ha (pr_cik _ _ _ _ _ Hpr) (pr_mid _ _ _ _ _ Hpr) Hr) as (p & Hb & HR & HFp).
      unfold active_op, bindM, get_op. rewrite Ho. cbn [rbind]. rewrite Hnew.
      rewrite (send_new_rep (x_slot x) pdu w o p _ _ now e2 e3 Ho Hb HR eq_refl Hsend Ht). cbn [rbind].
      rewrite (IH _ xs sent' e p _ HFp (prepared_send t n x xs w _ e3 Hpr) Hacc').
      do 2 f_equal. unfold all_sent. cbn [set_ops set_env set_mid w_ops w_mid length pending_ops foldl].
      rewrite id_next. by rewrite (alter_insert _ _ _ o Ho).
    + rewrite Exists_exists in Hx. destruct (prepared_skip t i n xs w Hpr) as (Hpr' & o & Ho & Hr).
      { intros x Hin Hs. apply Hx. by exists x. }
      rewrite (active_op_rests t i pdu w o Ho Hr). cbn [rbind]. by apply (IH _ xs).
Qed.

(** What was sent: the message of each of the queue, in order. *)
Lemma accepts_length xs c e sent e' : accepts xs c e sent e' -> length sent = length xs.
Proof. induction 1; cbn; congruence. Qed.

Lemma accepts_lookup xs c e sent e' : accepts xs c e sent e' -> 0 <= c < 65536 -> forall k x, xs !! k = Some x ->
  exists r now, sent !! k = Some (x_slot x, x_ask x (id_after c k) r, now).
Proof.
  induction 1 as [|x xs c e r e1 e2 now e3 sent e' _ _ _ _ IH]; intros Hc k y Hk; [done|]. destruct k as [|k].
  - injection Hk as <-. exists r, now. unfold id_after. rewrite Z.add_0_r. by rewrite u16_id.
  - rewrite <- id_next. apply IH; [apply Z.mod_pos_bound; lia|done].
Qed.

(** What becomes of each request. *)
Lemma pending_other j xs c e sent e' : accepts xs c e sent e' -> (forall x, x ∈ xs -> x_slot x <> j) ->
  forall ops, pending_ops sent ops !! j = ops !! j.
Proof.
  induction 1 as [|x xs c e r e1 e2 now e3 sent e' _ _ _ _ IH]; intros Hne ops; [done|]. cbn [pending_ops foldl].
  etransitivity; [apply IH; intros y Hy; apply Hne; by right|]. apply list_lookup_alter_ne. apply Hne. by left.
Qed.

Lemma pending_one xs c e sent e' : accepts xs c e sent e' -> forall i k x ops o,
  0 <= c < 65536 -> ascending i xs -> xs !! k = Some x -> ops !! x_slot x = Some o -> exists r now,
  pending_ops sent ops !! x_slot x = Some (now_pending (x_ask x (id_after c k) r) now o).
Proof.
  induction 1 as [|x xs c e r e1 e2 now e3 sent e' _ _ _ Hacc IH]; intros i k y ops o Hc Hasc Hk Ho; [done|].
  destruct Hasc as [Hi Hasc].
  cbn [pending_ops foldl]. destruct k as [|k].
  - injection Hk as <-. exists r, now. etransitivity; [eapply pending_other; [done|]|].
    + intros y (k & Hk)%list_elem_of_lookup. pose proof (ascending_from xs _ k y Hasc Hk). lia.
    + rewrite list_lookup_alter_eq, Ho. unfold id_after. rewrite Z.add_0_r. by rewrite u16_id.
  - rewrite <- id_next. apply (IH (S (x_slot x)) k y _ o); [apply Z.mod_pos_bound; lia|done|done|].
    pose proof (ascending_from xs _ k y Hasc Hk). by rewrite list_lookup_alter_ne by lia.
Qed.

(** ** Conversations

    Two calls, with the stack buffers [stack1] to [stack4]. *)

Section Conversation.
Context (addr1 addr2 addr3 addr4 : Z) (stack1 stack2 stack3 stack4 : list Z) (count : nat).
Context (Hs1 : zlen stack1 = 576) (Hs2 : zlen stack2 = 576) (Hs3 : zlen stack3 = 576) (Hcount : Z.of_nat count < 256).
Context (w : world E) (xs : list exchange) (t1 : Z) (sent : list (nat * message * Z)) (e2 e3 : E).
Context (Hgood : w_device w = EXO_STATE_GOOD) (Hne : xs <> []) (Hpr : prepared t1 0 count xs w).
Context (Hacc : accepts xs (w_mid w) e2 sent e3).

(** The answer of [x] is in order, whatever the message id of the request is. *)
Definition replies_to (x : exchange) : Prop := forall o mid, w_ops w !! x_slot x = Some o -> 0 <= mid < 65536 ->
  let m := x_reply x mid in
  wf_msg m /\ m_ver m = 1 /\ m_type m = CT_ACK /\ m_mid m = mid /\
  fitting (w_heap w) o (mk_answer (x_slot x) m (x_into x)).

(** No two values go to the same block. *)
Definition own_blocks : Prop := forall k k' x x', k <> k' -> xs !! k = Some x -> xs !! k' = Some x' ->
  x_into x = None \/ x_into x <> x_into x'.

Lemma queue_length : (length xs <= 256)%nat.
Proof.
  destruct (last xs) as [x|] eqn:Hx; [|by apply last_None in Hx as ->].
  rewrite last_lookup in Hx. destruct Hpr as [_ _ Hasc Hq _].
  destruct (Hq x) as [_ Hlt]; [by eapply list_elem_of_lookup_2|].
  assert (Hk : forall k i l x, ascending i l -> l !! k = Some x -> (i + k <= x_slot x)%nat).
  { clear. induction k as [|k IH]; intros i [|y l] x Ha Hk; try done; destruct Ha as [Hi Ha].
    - injection Hk as ->. lia.
    - specialize (IH _ _ _ Ha Hk). lia. }
  specialize (Hk _ _ _ _ Hasc Hx). lia.
Qed.

Lemma sent_op k x o : xs !! k = Some x -> w_ops w !! x_slot x = Some o -> exists r now,
  w_ops (all_sent w sent e3) !! x_slot x = Some (now_pending (x_ask x (id_after (w_mid w) k) r) now o).
Proof. intros Hk Ho. by apply (pending_one xs _ _ _ _ Hacc 0 k); [apply Hpr|apply Hpr|..]. Qed.

Lemma queue_head : exists x, xs !! 0%nat = Some x.
Proof. destruct xs; [done|by eexists]. Qed.

(** A slot is one of the queue or not. *)
Lemma queue_slot j : (exists k x o, xs !! k = Some x /\ x_slot x = j /\ w_ops w !! j = Some o) \/
  (forall x, x ∈ xs -> x_slot x <> j).
Proof.
  destruct (decide (Exists (fun x => x_slot x = j) xs)) as [(x & Hx & <-)%Exists_exists|Hn].
  - left. destruct (pr_queued _ _ _ _ _ Hpr x Hx) as [(o & Ho & _) _]. apply list_elem_of_lookup in Hx as (k & Hk).
    by exists k, x, o.
  - right. intros x Hx Hs. apply Hn, Exists_exists. by exists x.
Qed.

(** When the queue is out the answers to it are in flight. *)
Lemma queue_awaited : (forall x, x ∈ xs -> replies_to x) -> own_blocks ->
  awaited count (all_sent w sent e3) (replies (w_mid w) xs).
Proof.
  intros Hrep Hown. pose proof queue_length as Hlen. destruct Hpr as [_ Hmid Hasc Hq Hot]. constructor.
  - done.
  - intros k k' a a' Hk Ha Ha'. unfold replies in Ha, Ha'. rewrite list_lookup_imap in Ha, Ha'.
    apply fmap_Some in Ha as (x & Hx & ->), Ha' as (x' & Hx' & ->). unfold apart. cbn [a_slot a_msg a_into].
    split; [by eapply ascending_distinct|]. split; [|by eapply Hown].
    assert (Hids : forall k x, xs !! k = Some x -> (k < 256)%nat /\ m_mid (x_reply x (id_after (w_mid w) k)) = id_after (w_mid w) k).
    { intros l y Hy. pose proof (list_elem_of_lookup_2 _ _ _ Hy) as Hin. destruct (Hq y Hin) as [(o & Ho & _) _].
      destruct (Hrep y Hin o (id_after (w_mid w) l) Ho (id_range _ _)) as (_ & _ & _ & ? & _).
      apply lookup_lt_Some in Hy. split; [lia|done]. }
    destruct (Hids k x Hx) as [? ->], (Hids k' x' Hx') as [? ->]. by apply id_distinct.
  - intros a (k & Ha)%list_elem_of_lookup. unfold replies in Ha. rewrite list_lookup_imap in Ha.
    apply fmap_Some in Ha as (x & Hx & ->). pose proof (list_elem_of_lookup_2 _ _ _ Hx) as Hin.
    destruct (Hq x Hin) as [(o & Ho & _ & Hask) Hlt].
    destruct (Hrep x Hin o (id_after (w_mid w) k) Ho (id_range _ _)) as (Hwf & Hv & Ht & Hm & Hfit).
    destruct (sent_op k x o Hx Ho) as (r & now & Hop). unfold answers_request. cbn [a_slot a_msg].
    do 4 (split; [done|]). eexists. split; [done|]. split; [done|]. split; [|done].
    rewrite Hm. by eapply asks_mid.
  - intros j Hj. destruct (Hot j ltac:(lia)) as [(x & Hx & Hs)|(o & Ho & Hr)].
    + left. apply list_elem_of_lookup in Hx as (k & Hk).
      exists (mk_answer (x_slot x) (x_reply x (id_after (w_mid w) k)) (x_into x)). split; [|done].
      apply list_elem_of_lookup. exists k. unfold replies. by rewrite list_lookup_imap, Hk.
    + right. exists o. split; [|unfold resting in Hr; unfold inactive; tauto]. cbn.
      rewrite (pending_other j xs _ _ _ _ Hacc); [done|]. intros x Hx <-.
      destruct (Hq x Hx) as [(o' & Ho' & Hn & _) _]. assert (o' = o) as -> by congruence.
      apply (resting_state t1 o EXO_REQUEST_NEW Hr); [by left|done].
Qed.

(** The call that sends the queue. *)
Lemma queue_call rc d e1 : exopal_udp_recv 576 (w_env w) = (rc, d, e1) -> rc <> 0 -> exopal_get_time e1 = (t1, e2) ->
  exo_operate addr1 stack1 addr2 stack2 count w = Ok (EXO_WAITING, all_sent w sent e3).
Proof.
  intros Hrecv Hrc Htime. assert (Hpr' : prepared t1 0 count xs (set_env e2 w)) by (by destruct Hpr).
  rewrite (operate_passes addr1 stack1 addr2 stack2 count w w (set_env e1 w) t1 e2 (all_sent w sent e3)).
  - assert (Hop : forall j, (j < count)%nat -> exists o, w_ops (all_sent w sent e3) !! j = Some o /\ op_state o <> EXO_REQUEST_NEW).
    { intros j Hj. destruct (queue_slot j) as [(k & x & o & Hk & <- & Ho)|Hn].
      - destruct (sent_op k x o Hk Ho) as (r & now & ->). by eexists.
      - destruct (pr_others _ _ _ _ _ Hpr j ltac:(lia)) as [(x & Hx & Hs)|(o & Ho & Hr)]; [by destruct (Hn x Hx)|].
        exists o. cbn. rewrite (pending_other j xs _ _ _ _ Hacc) by done. split; [done|eapply resting_state; eauto]. }
    unfold bindM at 1. rewrite any_in_state_none by (intros j Hj; apply Hop; lia). cbn [rbind]. unfold bindM.
    destruct queue_head as (x & Hk). destruct (pr_queued _ _ _ _ _ Hpr x) as [(o & Ho & _) Hlt]; [by eapply list_elem_of_lookup_2|].
    destruct (sent_op 0 x o Hk Ho) as (r & now & Hx).
    erewrite any_in_state_found; [done|exact Hlt| |exact Hx|done].
    intros j Hj. destruct (Hop j ltac:(lia)) as (y & -> & _). by eexists.
  - congruence.
  - unfold device_stage. by rewrite Hgood.
  - by eapply waiting_none.
  - done.
  - by apply (active_ops_send t1 count 0 xs sent e3 _ (set_env e2 w)).
Qed.

(** C12. Several requests in flight, on an activated device: when reads and writes
    whose messages fit a datagram are queued in any slots, all other requests are unused, finished or subscriptions
    that are not due, nothing has arrived and the platform takes the datagrams, the
    first call of [exo_operate] returns [EXO_WAITING] and leaves the platform in the
    state that sending the message of each of them, once, in the order of the slots,
    leads to (a random number, a send and a look at the clock for each), with
    message ids that follow one another.  When an answer to each of them has arrived
    (well-formed acknowledgements of version 1 with the message ids of the requests:
    a non-empty value that fits for a read, a success for a write, or an error other
    than unauthorized), the next call takes in all of them and returns [EXO_IDLE];
    what it does is the same for every order in which the network delivers them.
    Each request ends as a success or a failure by the code of the answer with its
    own message id, each value is, NUL terminated, at the start of the buffer of its
    own request, and all other requests and memory are as before.  The buffers of
    two reads must not be the same, and there are fewer than 256 requests. *)
Theorem requests_in_flight rc d e1 :
  exopal_udp_recv 576 (w_env w) = (rc, d, e1) -> rc <> 0 -> exopal_get_time e1 = (t1, e2) ->
  (forall x, x ∈ xs -> replies_to x) -> own_blocks ->
  let w1 := all_sent w sent e3 in
  exo_operate addr1 stack1 addr2 stack2 count w = Ok (EXO_WAITING, w1) /\ w_env w1 = e3 /\
  length sent = length xs /\
  (forall k x, xs !! k = Some x -> exists r now, sent !! k = Some (x_slot x, x_ask x (id_after (w_mid w) k) r, now)) /\
  exists w2,
    (forall answers e e4 t e5, answers ≡ₚ replies (w_mid w) xs -> arrives (a_msg <$> answers) e e4 ->
       exopal_get_time e4 = (t, e5) ->
       (forall j o, w_ops w !! j = Some o -> op_state o = EXO_REQUEST_SUBSCRIBED -> t < op_timeout o) ->
       exo_operate addr3 stack3 addr4 stack4 count (set_env e w1) = Ok (EXO_IDLE, set_env e5 w2)) /\
    (forall k x o, xs !! k = Some x -> w_ops w !! x_slot x = Some o ->
       let mid := id_after (w_mid w) k in
       (exists r now, w_ops w2 !! x_slot x =
          Some (op_set_state (verdict (x_reply x mid)) (now_pending (x_ask x mid r) now o))) /\
       (forall b blk, x_into x = Some b -> w_heap w !! b = Some blk ->
          w_heap w2 !! b = Some (value_in (default [] (m_payload (x_reply x mid))) blk))) /\
    (forall j, (forall x, x ∈ xs -> x_slot x <> j) -> w_ops w2 !! j = w_ops w !! j) /\
    (forall b, (forall x, x ∈ xs -> x_into x <> Some b) -> w_heap w2 !! b = w_heap w !! b).
Proof.
  intros Hrecv Hrc Htime Hrep Hown. pose proof (queue_awaited Hrep Hown) as Hf.
  assert (Hpos : (0 < count)%nat).
  { destruct queue_head as (x & Hk). destruct (pr_queued _ _ _ _ _ Hpr x) as [_ ?]; [by eapply list_elem_of_lookup_2|lia]. }
  destruct (answers_taken_in count _ _ addr3 stack3 addr4 stack4 Hs3 Hpos Hcount Hf) as (w2 & Hcall & Hops & Hother & Hval & Hblk).
  assert (Hin : forall a, a ∈ replies (w_mid w) xs <-> exists k x, xs !! k = Some x /\
    a = mk_answer (x_slot x) (x_reply x (id_after (w_mid w) k)) (x_into x)).
  { intros a. unfold replies. rewrite list_elem_of_lookup. setoid_rewrite list_lookup_imap. setoid_rewrite fmap_Some. done. }
  intros w1. split; [by eapply queue_call|]. split; [done|]. split; [by eapply accepts_length|].
  split; [intros k x; eapply accepts_lookup; [exact Hacc|apply Hpr]|]. exists w2. split.
  { intros answers e e4 t e5 Hp Harr Ht Hsub. apply (Hcall answers e e4 t e5 Hp Harr Ht). intros j o Ho Hs.
    destruct (queue_slot j) as [(k & x & o' & Hk & <- & Ho')|Hn].
    - destruct (sent_op k x o' Hk Ho') as (r & now & Hop). rewrite Hop in Ho. by injection Ho as <-.
    - apply (Hsub j o); [|done]. rewrite <- Ho. symmetry. by apply (pending_other j xs _ _ _ _ Hacc). }
  split; [|split].
  - intros k x o Hk Ho mid. assert (Ha : mk_answer (x_slot x) (x_reply x mid) (x_into x) ∈ replies (w_mid w) xs)
      by (apply Hin; by exists k, x). split.
    + destruct (sent_op k x o Hk Ho) as (r & now & Hop). exists r, now. by apply (Hops _ _ Ha).
    + intros b blk Hb Hbk. by apply (Hval _ b blk Ha).
  - intros j Hj. rewrite Hother; [by apply (pending_other j xs _ _ _ _ Hacc)|].
    intros a (k & x & Hk & ->)%Hin. apply Hj. by eapply list_elem_of_lookup_2.
  - intros b Hb. apply Hblk. intros a (k & x & Hk & ->)%Hin. apply Hb. by eapply list_elem_of_lookup_2.
Qed.
End Conversation.
End Build.
End Queue.

(** ** Witness *)

(** A read of "temp" in slot 1 and a write of "42" to "temp" in slot 2. *)
Definition new_write : exo_op := mk_op EXO_WRITE EXO_REQUEST_NEW (Some 3%nat) (Some 5%nat) 0 0 0 0 0 0 0.

Definition two_queued (e : Posix.os) : world Posix.os :=
  mk_world (sample_cik ++ [0]) (Some 0%nat) (Some 1%nat) (Some 2%nat) 65535 EXO_STATE_GOOD
    [lit "vnd" ++ [0]; lit "mdl" ++ [0]; lit "001" ++ [0]; lit "temp" ++ [0]; List.repeat 7 8; lit "42" ++ [0]]
    [exo_op_init new_read; new_read; new_write] e.

Definition reply (code : Z) (payload : option (list Z)) (mid : Z) : message := mk_msg 1 CT_ACK code mid [] [] payload.

Definition two_exchanges : list exchange :=
  [mk_exchange 1 (fun mid r => read_msg mid r (lit "temp") sample_cik) (reply CC_CONTENT (Some (lit "21"))) (Some 4%nat);
   mk_exchange 2 (fun mid r => write_msg mid r (lit "temp") sample_cik (lit "42")) (reply CC_CHANGED None) None].

Lemma reply_wf code payload mid : is_byte code -> 0 <= mid < 65536 -> bytes (default [] payload) ->
  wf_msg (reply code payload mid).
Proof. intros Hc Hm Hp. constructor; cbn; try done; lia. Qed.

Definition quiet (inbox : list Posix.recv_event) (sent : list (list Z)) (rand : list Z) : Posix.os :=
  sample_platform inbox sent rand [].

Lemma two_prepared e : prepared (E := Posix.os) sample_cik [0] 100000000 0 3 two_exchanges (two_queued e).
Proof.
  constructor; [reflexivity|cbn; lia|cbn; lia| |].
  - intros x Hx. unfold two_exchanges in Hx. rewrite !elem_of_cons in Hx. destruct Hx as [->|[->|Hx]]; [| |by apply not_elem_of_nil in Hx].
    + split; [|cbn; lia]. exists new_read. do 2 (split; [reflexivity|]).
      apply (asks_read _ sample_cik new_read 3 (lit "temp" ++ [0])); try reflexivity; [exact client_cstring|].
      intros mid r. vm_compute. discriminate.
    + split; [|cbn; lia]. exists new_write. do 2 (split; [reflexivity|]).
      apply (asks_write _ sample_cik new_write 3 (lit "temp" ++ [0]) (lit "temp") 5 (lit "42" ++ [0])); try reflexivity;
        [exact client_cstring|by apply sample_cstring; [apply bytes_eval|repeat constructor]|].
      intros mid r. vm_compute. discriminate.
  - intros j Hj. destruct j as [|[|[|j]]]; [right|left|left|lia].
    + eexists. split; [reflexivity|]. by left.
    + eexists. split; [by left|reflexivity].
    + eexists. split; [by right; left|reflexivity].
Qed.

(** The message ids are 65535 and 0, and the answer to the write comes first. *)
Lemma requests_in_flight_witness : exists w1 w2,
  exo_operate 4096 stack 8192 stack 3 (two_queued (quiet [] [] [100; 200])) = Ok (EXO_WAITING, w1) /\
  Posix.os_sent (w_env w1) =
    [encode (read_msg 65535 100 (lit "temp") sample_cik); encode (write_msg 0 200 (lit "temp") sample_cik (lit "42"))] /\
  exo_operate 4096 stack 8192 stack 3
    (set_env (quiet [Posix.Datagram (encode (reply CC_CHANGED None 0));
                     Posix.Datagram (encode (reply CC_CONTENT (Some (lit "21")) 65535))] [] []) w1) = Ok (EXO_IDLE, w2) /\
  w_heap w2 !! 4%nat = Some (lit "21" ++ [0; 7; 7; 7; 7; 7]) /\
  op_state <$> (w_ops w2 !! 1%nat) = Some EXO_REQUEST_SUCCESS /\ op_state <$> (w_ops w2 !! 2%nat) = Some EXO_REQUEST_SUCCESS.
Proof.
  set (m1 := reply CC_CONTENT (Some (lit "21")) 65535). set (m2 := reply CC_CHANGED None 0).
  set (q1 := encode (read_msg 65535 100 (lit "temp") sample_cik)).
  set (q2 := encode (write_msg 0 200 (lit "temp") sample_cik (lit "42"))).
  edestruct (requests_in_flight (E := Posix.os) sample_cik [0]) with
    (addr1 := 4096) (addr2 := 8192) (addr3 := 4096) (addr4 := 8192) (stack1 := stack) (stack2 := stack) (stack3 := stack)
    (stack4 := stack) (count := 3%nat) (w := two_queued (quiet [] [] [100; 200])) (xs := two_exchanges) (t1 := 100000000)
    (e2 := quiet [] [] [100; 200]) (e1 := quiet [] [] [100; 200]) (rc := 2) (e3 := quiet [] [q1; q2] [])
    as (H1 & He & _ & _ & w2 & H2 & Hx & _).
  - by apply bytes_eval.
  - reflexivity.
  - reflexivity.
  - reflexivity.
  - reflexivity.
  - lia.
  - reflexivity.
  - discriminate.
  - exact (two_prepared _).
  - eapply (accepts_more _ _ _ _ 100 (quiet [] [] [200]) (quiet [] [q1] [200])); [reflexivity..|].
    eapply (accepts_more _ _ _ _ 200 (quiet [] [q1] []) (quiet [] [q1; q2] [])); [reflexivity..|]. apply accepts_none.
  - reflexivity.
  - lia.
  - reflexivity.
  - intros x Hx. unfold two_exchanges in Hx. rewrite !elem_of_cons in Hx.
    destruct Hx as [->|[->|Hx]]; [| |by apply not_elem_of_nil in Hx]; intros o mid Ho Hm; injection Ho as <-;
      (split; [apply reply_wf; [unfold is_byte; cbn; lia|done|by apply bytes_eval]|]); do 3 (split; [reflexivity|]).
    + right. right. split; [reflexivity|]. split; [reflexivity|]. exists 4%nat, (List.repeat 7 8), (lit "21").
      repeat (split; [reflexivity || discriminate || (vm_compute; discriminate)|]). reflexivity.
    + right. left. done.
  - intros k k' x x' Hk Hx Hx'. destruct k as [|[|k]], k' as [|[|k']]; try done; injection Hx as <-; injection Hx' as <-; first [left; reflexivity | right; discriminate].
  - eexists _, _. split; [exact H1|]. split; [exact (f_equal Posix.os_sent He)|]. split.
    { apply (H2 (reverse (replies 65535 two_exchanges)) _ (quiet [] [] []) 100000000 (quiet [] [] [])).
      - apply reverse_Permutation.
      - eapply (arrives_more m2 [m1]); [reflexivity|]. eapply (arrives_more m1 []); [reflexivity|].
        eapply arrives_none; [reflexivity|lia].
      - reflexivity.
      - intros j o Hj Hs. destruct j as [|[|[|j]]]; [injection Hj as <-; discriminate Hs..|discriminate Hj]. }
    destruct (Hx 0%nat _ _ eq_refl eq_refl) as ((r & now & Ho1) & Hv).
    destruct (Hx 1%nat _ _ eq_refl eq_refl) as ((r' & now' & Ho2) & _).
    split; [exact (Hv 4%nat _ eq_refl eq_refl)|]. split; [exact (f_equal (fmap op_state) Ho1)|exact (f_equal (fmap op_state) Ho2)].
Defined.
