(* ===== verification/Subscribe.v ===== *)
(** * The example application [examples/subscribe.c]

    A program that subscribes to the dataport "command", writes its loop counter to
    "uptime" every hundred rounds and reports failures to "errorcount".  Its arrays
    and string literals are blocks of the heap, its requests the four requests of
    the client, and what it prints is a list of lines.  It never ends: [main]
    counts the rounds that are run. *)

From S2P Require Import Prelude Mem CoapDefs Pal ExoDefs ExoBuild ExoProcess.

(** ** Memory *)

Definition VENDOR : ptr := Some 0%nat.
Definition MODEL : ptr := Some 1%nat.
Definition SERIAL : ptr := Some 2%nat.
Definition command : ptr := Some 3%nat.
Definition uptime : ptr := Some 4%nat.
Definition errorcount : ptr := Some 5%nat.
Definition read_str : ptr := Some 6%nat.
Definition loop_str : ptr := Some 7%nat.
Definition error_str : ptr := Some 8%nat.

Definition literals : list (list Z) :=
  [lit "patrick" ++ [0]; lit "generic_test" ++ [0]; lit "001" ++ [0];
   lit "command" ++ [0]; lit "uptime" ++ [0]; lit "errorcount" ++ [0]].

Definition op_count : nat := 4.

(** ** The C library *)

(** The digits of a number below [10 ^ fuel]. *)
Fixpoint digits (fuel : nat) (n : Z) (acc : list Z) : list Z :=
  match fuel with
  | O => acc
  | S fuel =>
      let acc := 48 + n mod 10 :: acc in
      if n <? 10 then acc else digits fuel (n / 10) acc
  end.

(** What "%llu" prints; 2^64 has 20 digits. *)
Definition decimal (n : Z) : list Z := digits 20 n [].

(** [snprintf(buf, size, "%llu", n)]: at most [size - 1] characters and a NUL. *)
Definition snprintf_llu (buf : list Z) (size n : Z) : res (list Z) :=
  store_bytes buf 0 (take (Z.to_nat (size - 1)) (decimal n) ++ [0]).

Section Main.
Context {E : Type} `{Pal E}.

(** The argument of a "%s". *)
Definition string_at (p : ptr) : M E (list Z) :=
  let! blk := deref p in
  let! n := lift (strlen blk) in
  retM (take (Z.to_nat n) blk).

Definition lines : Type := list (list Z).

(** ** [command_handler], which nothing calls *)
Definition command_handler (value : ptr) : M E lines :=
  let! v := string_at value in
  retM [lit "Got Command: " ++ v ++ [10]].

(** ** [main] *)

(** Lines 58 to 65. *)
Fixpoint init_ops (i n : nat) : M E unit :=
  match n with
  | O => retM tt
  | S n' => let! _ := upd_op i exo_op_init in init_ops (S i) n'
  end.

Definition start : M E unit :=
  let! _ := exo_init VENDOR MODEL SERIAL in
  let! _ := init_ops 0 op_count in
  upd_op 1 (fun op => exo_subscribe op command read_str 32).

(** [snprintf] into a block, then [exo_write] with it. *)
Definition write_number (i : nat) (alias buf : ptr) (n : Z) : M E unit :=
  let! blk := deref buf in
  let! blk := lift (snprintf_llu blk 15 n) in
  let! _ := put_block buf blk in
  upd_op i (fun op => exo_write op alias buf).

(** [while (exo_operate(ops, op_count) != EXO_IDLE);] the [k]-th call finds the
    buffers [frames k] on its stack; the result is the number of calls made. *)
Context (frames : Z -> (Z * list Z) * (Z * list Z)).

Definition drain (k : Z) : M E Z :=
  loopM (fun k =>
    let '((addr1, stack1), (addr2, stack2)) := frames k in
    let! r := exo_operate addr1 stack1 addr2 stack2 op_count in
    match r with
    | EXO_IDLE => retM (Break (k + 1))
    | _ => retM (Continue (k + 1))
    end) k.

(** Lines 82 to 101. *)
Definition report_op (errors : Z) (i : nat) : M E lines :=
  let! op := get_op i in
  if exo_is_op_finished op then
    let! out :=
      if exo_is_op_success op then
        if exo_is_op_read op || exo_is_op_subscribe op then
          let! alias := string_at (op_alias op) in
          let! value := string_at (op_value op) in
          retM [lit "[SUCCESS] got '" ++ alias ++ lit "' = `" ++ value ++ lit "`" ++ [10]]
        else if exo_is_op_write op then
          let! alias := string_at (op_alias op) in
          let! value := string_at (op_value op) in
          retM [lit "[SUCCESS] set '" ++ alias ++ lit "' = `" ++ value ++ lit "`" ++ [10]]
        else
          retM [lit "[WARNING] something succeeded, but I don't know what" ++ [10]]
      else
        let! alias := string_at (op_alias op) in
        (* queue a write to error count next time *)
        let! _ := write_number 3 errorcount error_str errors in
        retM [lit "[ERROR] on '" ++ alias ++ lit "'" ++ [10];
              lit "        error count is now " ++ decimal errors ++ [10]] in
    let! _ := upd_op i exo_op_done in
    retM out
  else retM [].

(** [for (int i = 1; i < op_count; i++)], [n] requests from [i] on. *)
Fixpoint report_ops (errors : Z) (i n : nat) : M E lines :=
  match n with
  | O => retM []
  | S n' =>
      let! out := report_op errors i in
      let! rest := report_ops errors (S i) n' in
      retM (out ++ rest)
  end.

(** The local variables: the two counters, the calls made and what was printed. *)
Record locals := mk_locals {
  l_loopcount : Z;
  l_errorcount : Z;
  l_calls : Z;
  l_out : lines
}.

(** One round of [while(1)]. *)
Definition round (l : locals) : M E locals :=
  let! _ :=
    if l_loopcount l mod 100 =? 0
    then write_number 2 uptime loop_str (l_loopcount l)
    else retM tt in
  let! k := drain (l_calls l) in
  let! out := report_ops (l_errorcount l) 1 (op_count - 1) in
  retM (mk_locals (u64 (l_loopcount l + 1)) (l_errorcount l) k (l_out l ++ out)).

Fixpoint rounds (n : nat) (l : locals) : M E locals :=
  match n with
  | O => retM l
  | S n' => let! l := round l in rounds n' l
  end.

Definition main (n : nat) : M E locals :=
  let! _ := start in
  rounds n (mk_locals 0 0 0 []).
End Main.
