(* ===== verification/SubscribeFacts.v ===== *)
(** * The example application: its invariant

    What holds of the state of [examples/subscribe.c] between the calls it makes:
    which requests sit in which slot, which of its arrays hold strings, and that
    the client is ready for the next call ([ExoSafe]). *)

From stdpp Require Import relations.
From S2P Require Import Prelude Mem CoapDefs CoapMessage Pal ExoDefs ExoBuild ExoProcess ExoRules ExoSpec ExoEnds ExoProps ExoSafe ExoSafeProps ExoSilent Subscribe.

(** ** Numbers *)

(** The number a list of digits stands for. *)
Fixpoint from_digits (acc : Z) (l : list Z) : Z :=
  match l with
  | [] => acc
  | c :: l => from_digits (10 * acc + (c - 48)) l
  end.

Definition digit (c : Z) : Prop := 48 <= c < 58.

Lemma digits_spec fuel : forall n acc, 0 <= n < 10 ^ Z.of_nat fuel -> (0 < fuel)%nat ->
  exists l, digits fuel n acc = l ++ acc /\ Forall digit l /\ (length l <= fuel)%nat /\ l <> [] /\
    forall a, from_digits a l = a * 10 ^ zlen l + n.
Proof.
  induction fuel as [|fuel IH]; intros n acc Hn Hf; [lia|]. cbn [digits].
  pose proof (Z.mod_pos_bound n 10 ltac:(lia)) as Hm. destruct (Z.ltb_spec n 10).
  - exists [48 + n mod 10]. split; [done|]. split; [by repeat constructor; unfold digit; lia|].
    split; [simpl; lia|]. split; [done|]. intros a. cbn [from_digits]. change (zlen [48 + n mod 10]) with 1.
    rewrite Z.mod_small by lia. lia.
  - rewrite Nat2Z.inj_succ, Z.pow_succ_r in Hn by lia.
    destruct fuel as [|fuel]; [simpl in Hn; lia|].
    destruct (IH (n / 10) (48 + n mod 10 :: acc)) as (l & Hl & Hd & Hlen & Hne & Hv); [|lia|].
    { split; [apply Z.div_pos; lia|]. apply Z.div_lt_upper_bound; lia. }
    exists (l ++ [48 + n mod 10]). rewrite Hl, <- app_assoc. split; [done|].
    split; [apply Forall_app; split; [done|by repeat constructor; unfold digit; lia]|].
    rewrite length_app. split; [simpl; lia|]. split; [by destruct l|]. intros a.
    assert (Happ : forall x a, from_digits a (x ++ [48 + n mod 10]) = 10 * from_digits a x + n mod 10).
    { intros x. induction x as [|c x IHx]; intros a'; simpl; [lia|apply IHx]. }
    rewrite Happ, Hv, zlen_app. change (zlen [48 + n mod 10]) with 1. zlen_pos.
    rewrite Z.pow_add_r by lia. pose proof (Z.div_mod n 10 ltac:(lia)). lia.
Qed.

Lemma decimal_digits n : 0 <= n < 2 ^ 64 -> Forall digit (decimal n) /\ (length (decimal n) <= 20)%nat /\
  decimal n <> [] /\ from_digits 0 (decimal n) = n.
Proof.
  intros Hn. unfold decimal. destruct (digits_spec 20 n []) as (l & -> & ? & ? & ? & Hv); [|lia|].
  - change (10 ^ Z.of_nat 20) with 100000000000000000000. lia.
  - rewrite app_nil_r. split; [done|]. split; [done|]. split; [done|]. rewrite Hv. lia.
Qed.

(** The digits of a smaller number are fewer: its fuel does not matter. *)
Lemma digits_fuel k fuel : forall n acc, 0 <= n < 10 ^ Z.of_nat k -> (0 < k <= fuel)%nat ->
  digits fuel n acc = digits k n acc.
Proof.
  revert fuel. induction k as [|k IH]; intros fuel n acc Hn Hk; [lia|]. destruct fuel as [|fuel]; [lia|].
  cbn [digits]. destruct (Z.ltb_spec n 10); [done|]. rewrite Nat2Z.inj_succ, Z.pow_succ_r in Hn by lia.
  destruct k as [|k]; [simpl in Hn; lia|]. apply IH; [|lia].
  split; [apply Z.div_pos; lia|apply Z.div_lt_upper_bound; lia].
Qed.

Lemma decimal_short n : 0 <= n < 10 ^ 14 -> (length (decimal n) <= 14)%nat.
Proof.
  intros Hn. unfold decimal. rewrite (digits_fuel 14 20) by (done || lia).
  destruct (digits_spec 14 n []) as (l & -> & _ & ? & _); [done|lia|]. by rewrite app_nil_r.
Qed.

(** A number in a buffer is a string of at most 14 characters. *)
Lemma snprintf_string buf n : zlen buf = 16 -> 0 <= n < 2 ^ 64 ->
  exists buf', snprintf_llu buf 15 n = Ok buf' /\ length buf' = length buf /\ (bytes buf -> bytes buf') /\
    cstring (take 14 (decimal n)) buf' /\ zlen (take 14 (decimal n)) < 65536.
Proof.
  intros Hb Hn. destruct (decimal_digits n Hn) as (Hd & Hl & _). unfold snprintf_llu.
  change (Z.to_nat (15 - 1)) with 14%nat. apply (Forall_take _ 14) in Hd.
  assert (Hlt : zlen (take 14 (decimal n)) <= 14) by (unfold zlen; rewrite length_take; lia).
  set (s := take 14 (decimal n)) in *. destruct (split_at buf (zlen (s ++ [0]))) as (x & y & -> & Hx).
  { rewrite zlen_app. change (zlen [0]) with 1. zlen_pos. lia. }
  exists ((s ++ [0]) ++ y). rewrite (store_bytes_at [] x y (s ++ [0])) by done.
  assert (Hbs : bytes s) by (eapply Forall_impl; [exact Hd|]; unfold digit, is_byte; lia).
  split; [done|]. split; [unfold zlen in Hx; rewrite !length_app in *; lia|].
  split; [intros Hby; apply Forall_app in Hby as [_ Hy]; apply Forall_app; split; [|done];
    apply Forall_app; by split; [|repeat constructor]|].
  split; [|lia]. split; [done|]. split.
  - eapply Forall_impl; [exact Hd|]. unfold digit. simpl. lia.
  - exists y. by rewrite <- app_assoc.
Qed.

(** ** Slots *)

(** The string literals, and the arrays [extra] that hold a string by now. *)
Definition strs (extra : list nat) (b : nat) : Prop := (b < 6)%nat \/ b ∈ extra.

(** What the request in slot [i] can be. *)
Record slot_ok (extra : list nat) (i : nat) (o : exo_op) : Prop := mk_slot_ok {
  so_read : op_type o <> EXO_READ;
  so_subscribe : op_type o = EXO_SUBSCRIBE ->
    i = 1%nat /\ op_alias o = command /\ op_value o = read_str /\ op_value_max o = 32;
  so_write : op_type o = EXO_WRITE ->
    i = 2%nat /\ op_alias o = uptime /\ op_value o = loop_str /\ 7%nat ∈ extra \/
    i = 3%nat /\ op_alias o = errorcount /\ op_value o = error_str /\ 8%nat ∈ extra;
  so_activate : op_type o = EXO_ACTIVATE -> i = 0%nat
}.

Lemma slot_ok_grow extra extra' i o : extra ⊆ extra' -> slot_ok extra i o -> slot_ok extra' i o.
Proof.
  intros Hsub [? ? Hw ?]. constructor; auto. intros Ht.
  destruct (Hw Ht) as [(? & ? & ? & ?)|(? & ? & ? & ?)]; [left|right]; auto.
Qed.

Lemma slot_ok_null extra i o : op_type o = EXO_NULL -> slot_ok extra i o.
Proof. intros Ht. constructor; rewrite Ht; done. Qed.

(** The client changes the type of a request only to none or, in slot 0, to an
    activation. *)
Lemma op_step_kind i o o' : op_step i o o' ->
  op_type o' = op_type o /\ op_alias o' = op_alias o /\ op_value o' = op_value o /\
    op_value_max o' = op_value_max o \/
  op_type o' = EXO_NULL \/ op_type o' = EXO_ACTIVATE /\ i = 0%nat.
Proof. intros []; simpl; auto. Qed.

Lemma slot_ok_step extra i o o' : op_step i o o' -> slot_ok extra i o -> slot_ok extra i o'.
Proof.
  intros Hs [? Hsub Hw Ha]. destruct (op_step_kind _ _ _ Hs) as [(Ht & Hal & Hv & Hm)|[Ht|[Ht ->]]].
  - constructor; rewrite ?Ht, ?Hal, ?Hv, ?Hm; auto.
  - by apply slot_ok_null.
  - constructor; rewrite Ht; done.
Qed.

Lemma slot_ok_steps extra i o o' : rtc (op_step i) o o' -> slot_ok extra i o -> slot_ok extra i o'.
Proof. induction 1; eauto using slot_ok_step. Qed.

Lemma slot_ok_done extra i o : slot_ok extra i o -> slot_ok extra i (exo_op_done o).
Proof.
  intros [? ? ? ?]. unfold exo_op_done. destruct (exo_is_op_subscribe o); [|by apply slot_ok_null].
  by constructor.
Qed.

(** A property of requests that every transition keeps holds after a call. *)
Lemma ops_steps_forall (P : nat -> exo_op -> Prop) ops ops' :
  (forall i o o', op_step i o o' -> P i o -> P i o') -> ops_steps ops ops' ->
  (forall i o, ops !! i = Some o -> P i o) -> forall i o, ops' !! i = Some o -> P i o.
Proof.
  intros HP Hs H0 i o Ho. pose proof (ops_steps_length _ _ Hs) as Hl.
  destruct (lookup_lt_is_Some_2 ops i) as [o0 Ho0]; [rewrite <- Hl; by eapply lookup_lt_Some|].
  destruct (ops_steps_slot _ _ i o0 Hs Ho0) as (o1 & Ho1 & Hst). assert (o1 = o) as -> by congruence.
  specialize (H0 i o0 Ho0). clear Ho Ho1 Ho0. induction Hst; eauto.
Qed.

(** ** The invariant *)

Section Invariant.
Context {E : Type} `{Peer E true}.
Implicit Types (w : world E).

Definition sizes : list nat := map length literals ++ [32%nat; 16%nat; 16%nat].

Record inv (extra : list nat) w : Prop := mk_inv {
  iv_ready : ready (strs extra) op_count w;
  iv_ok : world_ok w;
  iv_ops i o : w_ops w !! i = Some o -> op_inv o /\ slot_ok extra i o;
  iv_count : length (w_ops w) = op_count;
  iv_sizes : map length (w_heap w) = sizes;
  iv_pending : pending (w_env w) < 2 ^ 64;
  iv_device : w_device w <> EXO_STATE_UNINITIALIZED
}.

Lemma inv_lookup extra w i : inv extra w -> (i < op_count)%nat -> exists o, w_ops w !! i = Some o.
Proof. intros Hi Hlt. apply lookup_lt_is_Some_2. by rewrite (iv_count _ _ Hi). Qed.

Lemma inv_block extra w b n : inv extra w -> sizes !! b = Some n ->
  exists blk, w_heap w !! b = Some blk /\ length blk = n.
Proof.
  intros Hi Hb. rewrite <- (iv_sizes _ _ Hi), list_lookup_fmap in Hb.
  destruct (w_heap w !! b) as [blk|] eqn:Hblk; [|done]. exists blk. simpl in Hb. split; [done|congruence].
Qed.

(** One call of the library. *)
Lemma inv_operate extra w addr1 stack1 addr2 stack2 : inv extra w ->
  frame_ok ((addr1, stack1), (addr2, stack2)) ->
  returns (exo_operate addr1 stack1 addr2 stack2 op_count w) (fun '(r, w') =>
    inv extra w' /\ advances w w' /\ reports op_count r w').
Proof.
  intros [Hr Hok Hops Hc Hsz Hp Hd] (Hb1 & Hl1 & Hb2 & Hl2). cbn [fst snd] in *.
  pose proof (operate_safe _ _ addr1 stack1 addr2 stack2 w Hl1 Hl2 Hr Hp) as Hsafe.
  pose proof (operate_ends addr1 stack1 addr2 stack2 op_count w Hb1 Hl1 Hb2 Hl2 Hok Hp) as Hends.
  unfold runs in Hsafe. apply returns_inv in Hsafe as ([r w'] & He & [Hr' Hp'] & _). rewrite He in Hends |- *.
  destruct Hends as [Ha Hrep]. cbn [fst snd returns] in *. split; [|done]. pose proof (adv_ops _ _ Ha) as Hst.
  constructor; [done|by apply (adv_ok _ _ Ha)| | | |lia|].
  - apply (ops_steps_forall (fun i o => op_inv o /\ slot_ok extra i o) _ _ (fun i o o' Hs HP =>
      conj (op_inv_step i o o' (proj1 HP) Hs) (slot_ok_step extra i o o' Hs (proj2 HP))) Hst Hops).
  - by rewrite (ops_steps_length _ _ Hst).
  - by rewrite (adv_heap _ _ Ha).
  - by destruct (adv_device _ _ Ha) as [->| ->].
Qed.

(** A call of the application on a request. *)
Lemma inv_set_op extra w i o o' : inv extra w -> w_ops w !! i = Some o -> api_call o o' ->
  op_ready (subs := true) (strs extra) (w_heap w) o' -> slot_ok extra i o' ->
  inv extra (set_ops (<[i := o']> (w_ops w)) w).
Proof.
  intros [Hr Hok Hops Hc Hsz Hp Hd] Ho Hcall Hrd Hslot.
  constructor; cbn [set_ops w_ops w_heap w_env w_device]; try done.
  - by apply ready_set_op.
  - destruct Hok. constructor; try done. simpl. apply Forall_insert; [done|].
    eapply api_call_typed; [|exact Hcall]. by eapply Forall_lookup_1.
  - intros j x Hx. destruct (decide (j = i)) as [->|Hne].
    + rewrite list_lookup_insert_eq in Hx by (by eapply lookup_lt_Some). injection Hx as <-.
      split; [|done]. eapply op_inv_call; [|exact Hcall]. by apply (Hops i o).
    + rewrite list_lookup_insert_ne in Hx by done. by apply Hops.
  - by rewrite length_insert.
Qed.

Lemma inv_done extra w i o : inv extra w -> w_ops w !! i = Some o ->
  inv extra (set_ops (<[i := exo_op_done o]> (w_ops w)) w).
Proof.
  intros Hi Ho. eapply inv_set_op; [done|exact Ho|constructor| |].
  - eapply op_ready_done, ready_op; [apply (iv_ready _ _ Hi)|exact Ho].
  - by apply slot_ok_done, (iv_ops _ _ Hi).
Qed.

(** ** The statements of the program *)

Lemma cstring_take s blk : cstring s blk -> take (Z.to_nat (zlen s)) blk = s.
Proof. intros (_ & _ & rest & ->). unfold zlen. by rewrite Nat2Z.id, take_app_length. Qed.

(** A buffer with a NUL is a string up to the first one. *)
Lemma nul_cstring (blk : list Z) : bytes blk -> 0 ∈ blk -> exists s, cstring s blk.
Proof.
  induction blk as [|b blk IH]; intros Hb Hz; [by apply not_elem_of_nil in Hz|].
  apply Forall_cons in Hb as [Hb Hbs]. destruct (decide (b = 0)) as [->|Hne].
  - exists []. split; [constructor|]. split; [constructor|]. by exists blk.
  - destruct IH as (s & Hs & Hnz & rest & ->); [done|by apply elem_of_cons in Hz as [?|?]|].
    exists (b :: s). split; [by constructor|]. split; [by constructor|]. by exists rest.
Qed.

Lemma string_at_returns w b blk s : w_heap w !! b = Some blk -> cstring s blk ->
  string_at (Some b) w = Ok (s, w).
Proof.
  intros Hb Hs. unfold string_at, bindM, deref, lift. rewrite Hb. cbn [rbind].
  rewrite (strlen_cstring _ _ Hs). cbn [rbind]. unfold retM. by rewrite cstring_take.
Qed.

Lemma string_at_str extra w b : inv extra w -> strs extra b -> exists s, string_at (Some b) w = Ok (s, w).
Proof.
  intros Hi Hb. destruct (r_str _ _ _ (iv_ready _ _ Hi) b Hb) as (blk & s & Hblk & Hs & _).
  exists s. by eapply string_at_returns.
Qed.

Lemma string_at_filled extra w o : inv extra w -> filled (w_heap w) o -> exists s, string_at (op_value o) w = Ok (s, w).
Proof.
  intros Hi (b & blk & -> & Hblk & Hz).
  destruct (nul_cstring blk) as [s Hs]; [by eapply Forall_lookup_1; [apply (ok_heap _ (iv_ok _ _ Hi))|]|done|].
  exists s. by eapply string_at_returns.
Qed.

(** A number goes to one of the two arrays and is queued as a write. *)
Definition writes (i b : nat) (alias : ptr) : Prop :=
  i = 2%nat /\ b = 7%nat /\ alias = uptime \/ i = 3%nat /\ b = 8%nat /\ alias = errorcount.

Lemma write_number_returns w i b blk blk' alias n o : w_heap w !! b = Some blk -> snprintf_llu blk 15 n = Ok blk' ->
  w_ops w !! i = Some o ->
  write_number i alias (Some b) n w =
    Ok (tt, set_ops (<[i := exo_write o alias (Some b)]> (w_ops w)) (set_heap (<[b := blk']> (w_heap w)) w)).
Proof.
  intros Hblk Hsn Ho. unfold write_number, bindM, deref, lift, put_block, upd_op. rewrite Hblk. cbn [rbind].
  rewrite Hsn. cbn [rbind]. rewrite (proj2 (Nat.ltb_lt _ _)) by (by eapply lookup_lt_Some). cbn [rbind set_heap w_ops].
  by rewrite Ho.
Qed.

Lemma inv_write_number extra w i b alias n o : writes i b alias -> inv extra w -> 0 <= n < 2 ^ 64 ->
  w_ops w !! i = Some o ->
  exists w', write_number i alias (Some b) n w = Ok (tt, w') /\ inv (b :: extra) w' /\
    w_ops w' = <[i := exo_write o alias (Some b)]> (w_ops w) /\ w_env w' = w_env w /\
    exists blk, w_heap w' !! b = Some blk /\ cstring (take 14 (decimal n)) blk.
Proof.
  intros Hw Hi Hn Ho.
  destruct (inv_block extra w b 16 Hi) as (blk & Hblk & Hlen); [by destruct Hw as [(-> & -> & ->)|(-> & -> & ->)]|].
  destruct (snprintf_string blk n) as (blk' & Hsn & Hlen' & Hbs & Hs & Hsz); [unfold zlen; lia|done|].
  set (w1 := set_heap (<[b := blk']> (w_heap w)) w).
  assert (Hi1 : inv (b :: extra) w1).
  { destruct Hi as [Hr Hok Hops Hc Hszs Hp Hd]. constructor; try done.
    - eapply ready_new_string; [exact Hr|exact Hblk|done|exact Hs|done| |].
      + intros x. unfold strs. rewrite elem_of_cons. intuition.
      + intros j x Hx Hty. destruct (Hops j x Hx) as [_ [Hnr Hsub _ _]]. destruct Hty as [?|Hty]; [done|].
        destruct (Hsub Hty) as (_ & _ & -> & _). destruct Hw as [(_ & -> & _)|(_ & -> & _)]; done.
    - destruct Hok. constructor; try done. simpl. apply Forall_insert; [done|].
      apply Hbs. by eapply Forall_lookup_1.
    - intros j x Hx. destruct (Hops j x Hx). split; [done|]. eapply slot_ok_grow; [|done]. intros y Hy. by right.
    - rewrite <- Hszs. unfold w1. simpl. apply list_eq. intros k. rewrite !list_lookup_fmap.
      destruct (decide (k = b)) as [->|].
      + rewrite list_lookup_insert_eq, Hblk by (by eapply lookup_lt_Some). simpl. congruence.
      + by rewrite list_lookup_insert_ne. }
  exists (set_ops (<[i := exo_write o alias (Some b)]> (w_ops w)) w1).
  rewrite (write_number_returns w i b blk blk' alias n o Hblk Hsn Ho). split; [done|]. split; [|split; [done|split; [done|]]].
  - apply (inv_set_op (b :: extra) w1 i o); [done|done|constructor| |].
    + destruct (iv_ops _ _ Hi i o Ho) as [Hop _].
      constructor; simpl; unfold subscribing, holds_value; try (intuition congruence); try lia.
      * intros _. exists (default 0%nat alias). unfold strs.
        by destruct Hw as [(_ & _ & ->)|(_ & _ & ->)]; (split; [|left; simpl; lia]).
      * intros _. exists b. split; [done|]. right. by left.
      * apply (inv_tkl _ Hop).
    + constructor; simpl; try done. intros _.
      destruct Hw as [(-> & -> & ->)|(-> & -> & ->)]; [left|right]; (repeat split; by left).
  - exists blk'. cbn. rewrite list_lookup_insert_eq by (by eapply lookup_lt_Some). done.
Qed.

(** ** Looking at a request *)

Definition got_line (alias value : list Z) : list Z :=
  lit "[SUCCESS] got '" ++ alias ++ lit "' = `" ++ value ++ lit "`" ++ [10].
Definition set_line (alias value : list Z) : list Z :=
  lit "[SUCCESS] set '" ++ alias ++ lit "' = `" ++ value ++ lit "`" ++ [10].
Definition error_lines (alias : list Z) (errors : Z) : lines :=
  [lit "[ERROR] on '" ++ alias ++ lit "'" ++ [10];
   lit "        error count is now " ++ decimal errors ++ [10]].

(** A finished request outside of slot 0 is the subscription or one of the writes. *)
Lemma finished_kind extra w i o : inv extra w -> i <> 0%nat -> w_ops w !! i = Some o ->
  exo_is_op_finished o = true ->
  (op_type o = EXO_SUBSCRIBE \/ op_type o = EXO_WRITE) /\ exists b, op_alias o = Some b /\ strs extra b.
Proof.
  intros Hi H0' Ho Hf. destruct (iv_ops _ _ Hi i o Ho) as [Hop Hsl].
  assert (Hty : op_type o = EXO_SUBSCRIBE \/ op_type o = EXO_WRITE).
  { destruct (op_type o) eqn:Et; auto; exfalso.
    - apply (inv_null _ Hop) in Et. unfold exo_is_op_finished in Hf. rewrite Et in Hf. done.
    - by apply (so_read _ _ _ Hsl).
    - by apply (so_activate _ _ _ Hsl) in Et. }
  split; [done|]. pose proof (ready_op _ _ _ _ _ (iv_ready _ _ Hi) Ho) as Hr. apply (rd_alias _ _ _ Hr). tauto.
Qed.

(** What a successful request shows. *)
Lemma success_value extra w i o : inv extra w -> i <> 0%nat -> w_ops w !! i = Some o ->
  exo_is_op_success o = true -> op_type o = EXO_SUBSCRIBE \/ op_type o = EXO_WRITE ->
  exists value, string_at (op_value o) w = Ok (value, w).
Proof.
  intros Hi H0' Ho Hs Hty. pose proof (ready_op _ _ _ _ _ (iv_ready _ _ Hi) Ho) as Hr.
  apply bool_decide_eq_true in Hs. destruct Hty as [Hty|Hty].
  - eapply string_at_filled; [done|]. apply (rd_filled _ _ _ Hr); [by right|by left].
  - destruct (rd_write _ _ _ Hr Hty) as (b & -> & Hb). by eapply string_at_str.
Qed.

Lemma kind_tests o :
  (op_type o = EXO_SUBSCRIBE -> exo_is_op_read o || exo_is_op_subscribe o = true /\ exo_is_op_subscribe o = true) /\
  (op_type o = EXO_WRITE -> exo_is_op_read o || exo_is_op_subscribe o = false /\
     exo_is_op_subscribe o = false /\ exo_is_op_write o = true).
Proof. unfold exo_is_op_read, exo_is_op_subscribe, exo_is_op_write. by split; intros ->. Qed.

(** The effect of [report_op] on a request that succeeded. *)
Lemma report_success extra w i o errors : inv extra w -> i <> 0%nat -> w_ops w !! i = Some o ->
  exo_is_op_success o = true ->
  exists alias value, string_at (op_alias o) w = Ok (alias, w) /\ string_at (op_value o) w = Ok (value, w) /\
    report_op errors i w = Ok ([(if exo_is_op_subscribe o then got_line else set_line) alias value],
      set_ops (<[i := exo_op_done o]> (w_ops w)) w).
Proof.
  intros Hi H0' Ho Hs.
  assert (Hf : exo_is_op_finished o = true) by (change (exo_is_op_success o || bool_decide (op_state o = EXO_REQUEST_ERROR) = true); by rewrite Hs).
  destruct (finished_kind extra w i o Hi H0' Ho Hf) as [Hty (b & Ha & Hb)].
  destruct (success_value extra w i o Hi H0' Ho Hs Hty) as [value Hv].
  destruct (string_at_str extra w b Hi Hb) as [alias Hal]. rewrite <- Ha in Hal. exists alias, value.
  split; [done|]. split; [done|]. unfold report_op, bindM, get_op. rewrite Ho. cbn [rbind]. rewrite Hf, Hs.
  destruct (kind_tests o) as [Hk1 Hk2]. destruct Hty as [Hty|Hty].
  - destruct (Hk1 Hty) as [-> ->]. rewrite Hal. cbn [rbind]. rewrite Hv. cbn [rbind]. unfold retM, upd_op. cbn [rbind].
    by rewrite Ho.
  - destruct (Hk2 Hty) as (-> & -> & ->). rewrite Hal. cbn [rbind]. rewrite Hv. cbn [rbind]. unfold retM, upd_op. cbn [rbind].
    by rewrite Ho.
Qed.

(** On one that failed: a write of the error count is queued in slot 3, then the
    request is put away. *)
Lemma report_error extra w i o o3 errors : inv extra w -> i <> 0%nat -> w_ops w !! i = Some o ->
  w_ops w !! 3%nat = Some o3 -> op_state o = EXO_REQUEST_ERROR -> 0 <= errors < 2 ^ 64 ->
  exists alias w', string_at (op_alias o) w = Ok (alias, w) /\
    report_op errors i w = Ok (error_lines alias errors, w') /\ inv (8%nat :: extra) w' /\ w_env w' = w_env w /\
    w_ops w' = <[i := exo_op_done (default o (<[3%nat := exo_write o3 errorcount error_str]> (w_ops w) !! i))]>
                 (<[3%nat := exo_write o3 errorcount error_str]> (w_ops w)) /\
    exists blk, w_heap w' !! 8%nat = Some blk /\ cstring (take 14 (decimal errors)) blk.
Proof.
  intros Hi H0' Ho Ho3 Hst Hn.
  assert (Hf : exo_is_op_finished o = true) by (unfold exo_is_op_finished; by rewrite Hst).
  assert (Hs : exo_is_op_success o = false) by (unfold exo_is_op_success; by rewrite Hst).
  destruct (finished_kind extra w i o Hi H0' Ho Hf) as [Hty (b & Ha & Hb)].
  destruct (string_at_str extra w b Hi Hb) as [alias Hal]. rewrite <- Ha in Hal.
  destruct (inv_write_number extra w 3 8 errorcount errors o3 (or_intror (conj eq_refl (conj eq_refl eq_refl)))
    Hi Hn Ho3) as (w1 & Hw1 & Hi1 & Hops1 & Henv1 & blk & Hblk & Hcs).
  destruct (lookup_lt_is_Some_2 (w_ops w1) i) as [x Hx].
  { rewrite Hops1, length_insert. by eapply lookup_lt_Some. }
  exists alias, (set_ops (<[i := exo_op_done x]> (w_ops w1)) w1). split; [done|].
  unfold report_op, bindM, get_op. rewrite Ho. cbn [rbind]. rewrite Hf, Hs, Hal. cbn [rbind].
  change error_str with (Some 8%nat). rewrite Hw1. cbn [rbind]. unfold retM, upd_op. cbn [rbind]. rewrite Hx. cbn [rbind].
  split; [done|]. split; [by apply inv_done|]. split; [done|]. split; [|by exists blk].
  cbn [set_ops w_ops]. rewrite Hops1 in Hx |- *. change (Some 8%nat) with error_str in *. by rewrite Hx.
Qed.

(** On any request. *)
Lemma inv_report_op extra w i errors : inv extra w -> i <> 0%nat -> (i < op_count)%nat -> 0 <= errors < 2 ^ 64 ->
  returns (report_op errors i w) (fun '(_, w') => exists extra', inv extra' w' /\ w_env w' = w_env w).
Proof.
  intros Hi H0' Hlt Hn. destruct (inv_lookup extra w i Hi Hlt) as [o Ho].
  destruct (inv_lookup extra w 3 Hi) as [o3 Ho3]; [unfold op_count; lia|].
  destruct (exo_is_op_finished o) eqn:Hf.
  - destruct (exo_is_op_success o) eqn:Hs.
    + destruct (report_success extra w i o errors Hi H0' Ho Hs) as (alias & value & _ & _ & ->).
      exists extra. split; [by apply inv_done|done].
    + assert (Hst : op_state o = EXO_REQUEST_ERROR).
      { change (exo_is_op_success o || bool_decide (op_state o = EXO_REQUEST_ERROR) = true) in Hf.
        rewrite Hs in Hf. by apply bool_decide_eq_true in Hf. }
      destruct (report_error extra w i o o3 errors Hi H0' Ho Ho3 Hst Hn) as (alias & w' & _ & -> & ? & ? & _).
      by exists (8%nat :: extra).
  - unfold report_op, bindM, get_op. rewrite Ho. cbn [rbind]. rewrite Hf. by exists extra.
Qed.

Lemma inv_report_ops errors n : 0 <= errors < 2 ^ 64 -> forall extra w i, inv extra w -> i <> 0%nat -> (i + n <= op_count)%nat ->
  returns (report_ops errors i n w) (fun '(_, w') => exists extra', inv extra' w' /\ w_env w' = w_env w).
Proof.
  intros Hn. induction n as [|n IH]; intros extra w i Hi H0' Hle; [by exists extra|]. cbn [report_ops].
  eapply bind_M; [apply (inv_report_op extra); [done|done|lia|done]|]. intros out w1 (e1 & Hi1 & Hw1).
  eapply bind_M; [apply (IH e1); [done|done|lia]|]. intros rest w2 (e2 & Hi2 & Hw2).
  exists e2. split; [done|congruence].
Qed.
End Invariant.

(** ** Starting *)

Section Start.
Context {E : Type} `{Boot E true}.
Implicit Types (w : world E).

(** The memory of the program before [main]: the literals, and arrays and requests
    with whatever is on the stack. *)
Record fresh w : Prop := mk_fresh {
  fr_heap : exists r l e, w_heap w = literals ++ [r; l; e] /\ length r = 32%nat /\ length l = 16%nat /\ length e = 16%nat;
  fr_ok : world_ok w;
  fr_ops : length (w_ops w) = op_count;
  fr_cik : length (w_cik w) = 41%nat;
  fr_env : quiet (w_env w);
  fr_pending : pending (w_env w) < 2 ^ 64
}.

Lemma fresh_sizes w : fresh w -> map length (w_heap w) = sizes.
Proof.
  intros [(r & l & e & -> & Hr & Hl & He) ? ? ? ? ?]. rewrite map_app. unfold sizes. f_equal. simpl. congruence.
Qed.

Lemma literal_cstring b blk : literals !! b = Some blk -> exists s, cstring s blk /\ zlen s < 65536.
Proof.
  intros Hb. exists (take (length blk - 1) blk).
  assert (Hall : Forall (fun blk => blk = take (length blk - 1) blk ++ [0] /\
    forallb (fun b => (0 <? b) && (b <? 256)) (take (length blk - 1) blk) = true /\ zlen blk < 65536) literals).
  { unfold literals. repeat (constructor; [split; [reflexivity|split; reflexivity]|]). constructor. }
  destruct (Forall_lookup_1 _ _ _ _ Hall Hb) as (He & Hf & Hl). split.
  - pose proof (terminated _ Hf) as Ht. by rewrite <- He in Ht.
  - unfold zlen in *. rewrite length_take. lia.
Qed.

(** The requests after lines 60 to 65. *)
Definition first_ops : list exo_op :=
  [null_op; exo_subscribe null_op command read_str 32; null_op; null_op].

Lemma init_ops_returns w : length (w_ops w) = op_count ->
  (let! _ := init_ops 0 op_count in upd_op 1 (fun op => exo_subscribe op command read_str 32)) w =
  Ok (tt, set_ops first_ops w).
Proof.
  intros Hl. destruct w as [cik ve mo se mid dev heap ops e]. cbn [w_ops] in Hl.
  destruct ops as [|a [|b [|c [|d [|? ?]]]]]; try done.
Qed.

Lemma first_ops_typed : Forall op_typed first_ops.
Proof.
  unfold first_ops. repeat constructor; simpl; unfold is_u16, is_u32, is_u64, is_byte; lia.
Qed.

(** The first statements of [main]: when [exo_init] succeeds the invariant holds and
    the subscription is queued, otherwise the client is not initialised. *)
Lemma start_spec w : fresh w ->
  returns (start w) (fun '(_, w') => w_ops w' = first_ops /\ w_heap w' = w_heap w /\
    pending (w_env w') <= pending (w_env w) /\
    (inv [] w' \/ w_device w' = EXO_STATE_UNINITIALIZED)).
Proof.
  intros Hfr. pose proof Hfr as [(r & l & e & Hheap & Hr & Hl & He) Hok Hops Hcik Hq Hp]. unfold start.
  pose proof (init_safe w VENDOR MODEL SERIAL Hcik (ok_cik _ Hok) (ok_mid _ Hok) Hq) as Hinit.
  eapply bind_M; [exact Hinit|]. intros err w1 [[Hb1 Hb2 Hb3 Hb4 Hb5 Hb6 Hb7] Hres].
  rewrite init_ops_returns by congruence. split; [done|]. split; [done|]. split; [done|].
  destruct Hres as [(_ & Hd & Hv & Hm & Hs)|[_ Hd]]; [left|by right].
  assert (Hsz : map length (w_heap w1) = sizes) by (rewrite Hb2; by apply fresh_sizes).
  assert (Hlit : forall b blk, literals !! b = Some blk -> w_heap w1 !! b = Some blk).
  { intros b blk Hb. rewrite Hb2, Hheap. by apply lookup_app_l_Some. }
  constructor; cbn [set_ops w_ops w_heap w_env w_device]; try done; [| | |lia|by rewrite Hd].
  - constructor; cbn [set_ops w_ops w_heap w_env w_cik w_mid w_vendor w_model w_serial]; try done.
    + assert (Hnull : op_ready (subs := true) (strs []) (w_heap w1) null_op) by exact (op_ready_init _ _ null_op).
      apply Forall_cons; split; [done|]. apply Forall_cons; split; [|by repeat (apply Forall_cons; split)].
      constructor; simpl; unfold subscribing, holds_value; try (intuition congruence); try lia.
      * intros _. exists 3%nat. split; [done|]. left. lia.
      * intros _. exists 6%nat, r. rewrite Hb2, Hheap. unfold strs, zlen. rewrite Hr.
        repeat split; try lia. intros [?|Hx]; [lia|by apply not_elem_of_nil in Hx].
    + simpl. lia.
    + intros b [Hb|Hb]; [|by apply not_elem_of_nil in Hb].
      destruct (lookup_lt_is_Some_2 literals b Hb) as [blk Hblk].
      destruct (literal_cstring b blk Hblk) as (s & ? & ?). exists blk, s. auto.
    + exists 0%nat. split; [done|]. left. lia.
    + exists 1%nat. split; [done|]. left. lia.
    + exists 2%nat. split; [done|]. left. lia.
  - constructor; cbn [set_ops w_ops w_heap w_cik w_mid]; [|done|done|apply first_ops_typed].
    rewrite Hb2. apply (ok_heap _ Hok).
  - intros i o Ho. assert (Hnull : op_inv null_op) by exact (op_inv_init null_op).
    destruct i as [|[|[|[|i]]]]; simplify_eq/=; (split; [|try (by apply slot_ok_null)]); try done.
Qed.

(** ** Running *)

Context (frames : Z -> frame) (Hframes : forall k, frame_ok (frames k)).

(** No request is new or pending. *)
Definition idle w : Prop := forall i o, w_ops w !! i = Some o ->
  op_state o <> EXO_REQUEST_NEW /\ op_state o <> EXO_REQUEST_PENDING.

Lemma reports_idle extra w : inv extra w -> reports op_count EXO_IDLE w -> idle w.
Proof.
  intros Hi [Hn Hp] i o Ho. assert (i < op_count)%nat by (rewrite <- (iv_count _ _ Hi); by eapply lookup_lt_Some).
  split; intros Hs; [apply Hn|apply Hp]; by exists i, o.
Qed.

Lemma drain_inv extra k w : inv extra w ->
  runs_or_hangs (drain frames k w) (fun '(_, w') => inv extra w' /\ idle w' /\ advances w w').
Proof.
  intros Hi. unfold drain, loopM.
  apply (loop_invariant _ (fun sw => inv extra (snd sw) /\ advances w (snd sw))); [|by split].
  intros [k1 w1] [Hi1 Ha1]. cbn [fst snd] in *. pose proof (Hframes k1) as Hf.
  destruct (frames k1) as [[a1 s1] [a2 s2]]. pose proof (inv_operate extra w1 a1 s1 a2 s2 Hi1 Hf) as Hop.
  unfold bindM. apply returns_inv in Hop as ([r w2] & -> & Hi2 & Ha2 & Hrep). cbn [rbind].
  assert (Ha : advances w w2) by (by etransitivity).
  destruct r; cbn [retM rbind returns]; try done. split; [done|]. split; [by eapply reports_idle|done].
Qed.

(** A client that is not initialised never gets out of the loop. *)
Lemma drain_uninitialised k w : w_device w = EXO_STATE_UNINITIALIZED -> drain frames k w = Fault OutOfFuel.
Proof.
  intros Hd. apply only_hangs. unfold drain, loopM.
  apply (loop_invariant _ (fun sw => snd sw = w)); [|done].
  intros [k1 w1] Hw. cbn [fst snd] in *. subst w1. destruct (frames k1) as [[a1 s1] [a2 s2]].
  unfold bindM at 1, exo_operate. unfold bindM at 1, gets. cbn [rbind]. rewrite Hd. by cbn.
Qed.

Lemma round_inv extra l w : inv extra w -> 0 <= l_loopcount l < 2 ^ 64 -> 0 <= l_errorcount l < 2 ^ 64 ->
  runs_or_hangs (round frames l w) (fun '(l', w') => exists extra', inv extra' w' /\
    l_loopcount l' = u64 (l_loopcount l + 1) /\ l_errorcount l' = l_errorcount l).
Proof.
  intros Hi Hl He. unfold round. destruct (inv_lookup extra w 2 Hi) as [o Ho]; [unfold op_count; lia|].
  assert (Hw : exists extra1 w1, (if l_loopcount l mod 100 =? 0
    then write_number 2 uptime loop_str (l_loopcount l) else retM tt) w = Ok (tt, w1) /\ inv extra1 w1).
  { destruct (_ =? 0); [|by exists extra, w].
    destruct (inv_write_number extra w 2 7 uptime (l_loopcount l) o
      (or_introl (conj eq_refl (conj eq_refl eq_refl))) Hi Hl Ho) as (w1 & Hw1 & Hi1 & _). by exists (7%nat :: extra), w1. }
  destruct Hw as (extra1 & w1 & Hw1 & Hi1). unfold bindM at 1. rewrite Hw1. cbn [rbind].
  unfold bindM at 1. eapply hangs_bind; [by apply drain_inv|]. intros [k w2] (Hi2 & _ & _).
  apply returns_hangs. eapply bind_M; [apply (inv_report_ops _ _ He extra1); [done|done|unfold op_count; lia]|].
  intros out w3 (extra3 & Hi3 & _). by exists extra3.
Qed.

Lemma rounds_inv n : forall extra l w, inv extra w -> 0 <= l_loopcount l < 2 ^ 64 -> 0 <= l_errorcount l < 2 ^ 64 ->
  runs_or_hangs (rounds frames n l w) (fun '(l', w') => exists extra', inv extra' w' /\
    l_errorcount l' = l_errorcount l).
Proof.
  induction n as [|n IH]; intros extra l w Hi Hl He; [by exists extra|]. cbn [rounds]. unfold bindM.
  eapply hangs_bind; [by apply (round_inv extra)|]. intros [l1 w1] (extra1 & Hi1 & Hl1 & He1).
  eapply hangs_mono; [apply (IH extra1 l1 w1); [done|rewrite Hl1; apply u64_typed|by rewrite He1]|].
  intros [l2 w2] (extra2 & Hi2 & He2). exists extra2. split; [done|congruence].
Qed.

(** The first round of a client whose [exo_init] failed. *)
Lemma round_uninitialised w l : w_device w = EXO_STATE_UNINITIALIZED -> map length (w_heap w) = sizes ->
  w_ops w = first_ops -> 0 <= l_loopcount l < 2 ^ 64 -> round frames l w = Fault OutOfFuel.
Proof.
  intros Hd Hsz Hops Hl. unfold round, bindM at 1.
  assert (Hw : exists w1, (if l_loopcount l mod 100 =? 0
    then write_number 2 uptime loop_str (l_loopcount l) else retM tt) w = Ok (tt, w1) /\
    w_device w1 = EXO_STATE_UNINITIALIZED).
  { destruct (_ =? 0); [|by exists w].
    assert (Hb : map length (w_heap w) !! 7%nat = Some 16%nat) by (by rewrite Hsz).
    rewrite list_lookup_fmap in Hb. destruct (w_heap w !! 7%nat) as [blk|] eqn:Hblk; [|done]. injection Hb as Hlen.
    destruct (snprintf_string blk (l_loopcount l)) as (blk' & Hsn & _); [unfold zlen; lia|done|].
    eexists. split; [apply (write_number_returns w 2 7 blk blk' uptime _ null_op Hblk Hsn); by rewrite Hops|done]. }
  destruct Hw as (w1 & -> & Hd1). cbn [rbind]. unfold bindM at 1. by rewrite drain_uninitialised.
Qed.
End Start.
