(* ===== verification/SubscribeRound.v ===== *)
(** * The example application: rounds with notifications

    [examples/subscribe.c] once its subscription stands: round after round it
    acknowledges the notifications that come in and prints the new values. *)

From S2P Require Import Prelude Mem CoapDefs CoapGet CoapSet CoapMessage CoapGetFacts CoapSetFacts Pal ExoDefs ExoBuild ExoProcess ExoRules ExoBuildFacts ExoHandleFacts ExoSafe ExoSamples ExoMsgProps ExoSendProps ExoRun Subscribe SubscribeFacts.

#[local] Opaque loop.

Section Rounds.
Context {E : Type} `{PalLaws E}.
Implicit Types (w : world E).

(** ** Acknowledging *)

(** The state of a request when its acknowledgement is out. *)
Definition acknowledged (s : exo_request_state) : exo_request_state :=
  match s with
  | EXO_REQUEST_SUB_ACK => EXO_REQUEST_SUBSCRIBED
  | EXO_REQUEST_SUB_ACK_NEW => EXO_REQUEST_SUCCESS
  | s => s
  end.

Lemma active_op_acks now i pdu w o e : fits576 pdu -> w_ops w !! i = Some o ->
  op_state o = EXO_REQUEST_SUB_ACK \/ op_state o = EXO_REQUEST_SUB_ACK_NEW -> 0 <= op_mid o < 65536 ->
  exopal_udp_send (encode (ack_msg (op_mid o))) (w_env w) = (0, e) ->
  exists p, active_op now i pdu w =
    Ok (p, set_ops (<[i := op_set_state (acknowledged (op_state o)) o]> (w_ops w)) (set_env e w)).
Proof.
  intros [Hmax Hbuf] Ho Hst Hmid Hsend.
  pose proof (build_ack pdu ltac:(lia) ltac:(lia) (op_mid o) Hmid ltac:(lia)) as Hb.
  apply returns_inv in Hb as ([err p] & Hb & _ & HR & _). cbn [snd] in HR. exists p.
  unfold active_op, bindM, get_op. rewrite Ho. cbn [rbind].
  transitivity (send_ack i pdu w); [by destruct Hst as [-> | ->]|].
  unfold send_ack, bindM, get_op. rewrite Ho. cbn [rbind]. unfold lift. rewrite Hb. cbn [rbind].
  rewrite (send_pdu_rep p _ w 0 e HR Hsend). cbn [rbind Z.eqb]. unfold upd_op.
  by destruct Hst as [-> | ->]; cbn [acknowledged set_env w_ops]; rewrite Ho.
Qed.

(** ** The program between two rounds *)

Definition unused (o : exo_op) : Prop := op_state o = EXO_REQUEST_NULL.

(** The subscription [o] stands and nothing else is under way. *)
Record listening w (o : exo_op) : Prop := mk_listening {
  ls_device : w_device w = EXO_STATE_GOOD;
  ls_ops : exists o0 o2 o3, w_ops w = [o0; o; o2; o3] /\ unused o0 /\ unused o2 /\ unused o3;
  ls_type : op_type o = EXO_SUBSCRIBE;
  ls_state : op_state o = EXO_REQUEST_SUBSCRIBED;
  ls_alias : op_alias o = command;
  ls_value : op_value o = read_str;
  ls_max : op_value_max o = 32;
  ls_command : exists blk, w_heap w !! 3%nat = Some blk /\ cstring (lit "command") blk;
  ls_buffer : exists blk, w_heap w !! 6%nat = Some blk /\ zlen blk = 32
}.

(** A notification for the subscription [o] with the value [pl], a string, and the
    Observe option [sv]. *)
Record notifies (m : message) (o : exo_op) (pl sv : list Z) : Prop := mk_notifies {
  nt_wf : wf_msg m;
  nt_ver : m_ver m = 1;
  nt_type : m_type m = CT_CON \/ m_type m = CT_NON;
  nt_code : m_code m = CC_CONTENT;
  nt_token : op_token o = le_value (m_token m);
  nt_options : Forall (fun x => 0 < fst x) (m_options m);
  nt_observe : exists o1, find_occ 6 0 [] (m_options m) = Some (o1, sv);
  nt_seq : zlen sv <= 4;
  nt_payload : m_payload m = Some pl;
  nt_value : pl <> [] /\ Forall (fun c => c <> 0) pl;
  nt_fits : zlen pl + 1 <= 32
}.

(** How the pass over the waiting datagrams ends behind the notification: nothing more
    is waiting, or there is another message.  While the acknowledgement of the first
    notification has not been sent a second one, or any other message, is for no
    request: it is answered with a reset if it is confirmable and otherwise dropped,
    and the pass ends. *)
Inductive pass_ends (e : E) : E -> Prop :=
| pass_empty rc d e1 : exopal_udp_recv 576 e = (rc, d, e1) -> rc <> 0 -> pass_ends e e1
| pass_reset m e1 rc e2 :
    exopal_udp_recv 576 e = (0, encode m, e1) -> wf_msg m -> m_ver m = 1 -> m_type m = CT_CON ->
    exopal_udp_send (encode (mk_msg 1 CT_RST CC_EMPTY (m_mid m) (m_token m) [] None)) e1 = (rc, e2) -> pass_ends e e2
| pass_dropped m e1 :
    exopal_udp_recv 576 e = (0, encode m, e1) -> wf_msg m -> m_ver m = 1 -> m_type m <> CT_CON -> pass_ends e e1.

(** What the platform does in one round for the subscription [o], what is printed,
    and the subscription afterwards: nothing comes in before the subscription has to
    be renewed, or a notification, which is acknowledged, and perhaps another message
    behind it; the value of the notification is printed when its sequence number is
    not the last one. *)
Inductive round_of (o : exo_op) (e : E) : lines -> exo_op -> E -> Prop :=
| quiet_round rc d e1 t e2 :
    exopal_udp_recv 576 e = (rc, d, e1) -> rc <> 0 -> exopal_get_time e1 = (t, e2) -> t < op_timeout o ->
    round_of o e [] o e2
| news_round m pl sv e1 now e2 r e3 e4 t e5 e6 :
    notifies m o pl sv -> exopal_udp_recv 576 e = (0, encode m, e1) ->
    exopal_get_time e1 = (now, e2) -> libc_rand e2 = (r, e3) ->
    pass_ends e3 e4 -> exopal_get_time e4 = (t, e5) ->
    exopal_udp_send (encode (ack_msg (m_mid m))) e5 = (0, e6) ->
    round_of o e (if op_obs_seq o =? seq_from 0 0 sv then [] else [got_line (lit "command") pl])
      (op_set_timeout (renewal m now r) (op_set_obs_seq (seq_from 0 0 sv) (op_set_mid (m_mid m) o))) e6.

(** Rounds one after the other. *)
Inductive rounds_of : nat -> exo_op -> E -> lines -> exo_op -> E -> Prop :=
| rounds_none o e : rounds_of 0 o e [] o e
| rounds_more n o e out o1 e1 outs o' e' :
    round_of o e out o1 e1 -> rounds_of n o1 e1 outs o' e' -> rounds_of (S n) o e (out ++ outs) o' e'.

(** ** One call of [exo_operate] *)

Section Call.
Context (addr1 : Z) (stack1 : list Z) (addr2 : Z) (stack2 : list Z).
Context (Hs1 : zlen stack1 = 576) (Hs2 : zlen stack2 = 576).

Lemma listening_op w o : listening w o -> w_ops w !! 1%nat = Some o.
Proof. intros Hl. by destruct (ls_ops _ _ Hl) as (o0 & o2 & o3 & -> & _). Qed.

Lemma listening_unused w o j : listening w o -> (j < op_count)%nat -> j <> 1%nat ->
  exists x, w_ops w !! j = Some x /\ unused x.
Proof.
  intros Hl Hj Hne. destruct (ls_ops _ _ Hl) as (o0 & o2 & o3 & -> & H0' & H2 & H3).
  destruct j as [|[|[|[|j]]]]; [by exists o0|done|by exists o2|by exists o3|unfold op_count in Hj; lia].
Qed.

Lemma listening_others w o now : listening w o -> others_rest now op_count 1 (w_ops w).
Proof.
  intros Hl j Hj Hne. destruct (listening_unused w o j Hl Hj Hne) as (x & Hx & Hu). exists x. split; [done|by left].
Qed.

Lemma quiet_call w o rc d e1 t e2 : listening w o ->
  exopal_udp_recv 576 (w_env w) = (rc, d, e1) -> rc <> 0 -> exopal_get_time e1 = (t, e2) -> t < op_timeout o ->
  exo_operate addr1 stack1 addr2 stack2 op_count w = Ok (EXO_IDLE, set_env e2 w).
Proof.
  intros Hl Hrecv Hrc Ht Hlt. pose proof (listening_op w o Hl) as Ho. pose proof (listening_others w o t Hl) as Hoth.
  assert (Hr : resting t o) by (right; right; right; split; [apply Hl|done]).
  rewrite (operate_call addr1 stack1 addr2 stack2 op_count w w (set_env e1 w) t e2 (set_env e2 w) t 1 o); try done.
  - by rewrite (ls_state _ _ Hl).
  - by rewrite (ls_device _ _ Hl).
  - unfold device_stage. by rewrite (ls_device _ _ Hl).
  - by eapply waiting_none.
  - apply active_ops_rest. intros j Hj. destruct (decide (j = 1%nat)) as [->|Hne]; [by exists o|]. apply Hoth; [lia|done].
  - unfold op_count. lia.
  - by rewrite (ls_state _ _ Hl).
Qed.

(** The subscription when its notification is acknowledged and not reported yet. *)
Definition notified (o : exo_op) (m : message) (sv : list Z) (now r : Z) : exo_op :=
  op_set_state (if op_obs_seq o =? seq_from 0 0 sv then EXO_REQUEST_SUBSCRIBED else EXO_REQUEST_SUCCESS)
    (op_set_timeout (renewal m now r) (op_set_obs_seq (seq_from 0 0 sv) (op_set_mid (m_mid m) o))).

(** Before that. *)
Definition to_acknowledge (o : exo_op) (m : message) (sv : list Z) (now r : Z) : exo_op :=
  op_set_timeout (renewal m now r) (if op_obs_seq o =? seq_from 0 0 sv
    then op_set_state EXO_REQUEST_SUB_ACK (op_set_mid (m_mid m) o)
    else op_set_obs_seq (seq_from 0 0 sv) (op_set_state EXO_REQUEST_SUB_ACK_NEW (op_set_mid (m_mid m) o))).

Lemma notified_acknowledged o m sv now r : let oa := to_acknowledge o m sv now r in
  (op_state oa = EXO_REQUEST_SUB_ACK \/ op_state oa = EXO_REQUEST_SUB_ACK_NEW) /\ op_mid oa = m_mid m /\
  op_set_state (acknowledged (op_state oa)) oa = notified o m sv now r.
Proof.
  unfold to_acknowledge, notified. destruct (Z.eqb_spec (op_obs_seq o) (seq_from 0 0 sv)) as [Heq|_]; cbn.
  - rewrite <- Heq. split; [by left|]. by destruct o.
  - split; [by right|done].
Qed.

Lemma news_matched w o m pl sv blk e1 now e2 r e3 p : listening w o -> notifies m o pl sv ->
  w_heap w !! 6%nat = Some blk -> zlen blk = 32 -> exopal_get_time e1 = (now, e2) -> libc_rand e2 = (r, e3) ->
  represents p m ->
  match_ops p 0 op_count (set_env e1 w) = Ok (true,
    set_ops (<[1%nat := to_acknowledge o m sv now r]> (w_ops w))
      (set_env e3 (set_heap (<[6%nat := pl ++ 0 :: drop (length pl + 1) blk]> (w_heap w)) w))).
Proof.
  intros Hl [_ _ Hty Hcode Htok Hpos (o1 & Hobs) Hsv Hp [Hne _] Hfit] Hblk Hbl Htime Hrand HR.
  pose proof (ls_max _ _ Hl) as Hmax. pose proof (listening_op w o Hl) as Ho.
  destruct (notification_delivered p m HR Hpos o1 sv Hobs Hsv (set_env e1 w) 1 o 6 blk pl) with
    (now := now) (r := r) (e1 := e2) (e2 := e3) as (rest & Hr & Hh); try done; try (rewrite Hmax; lia); try apply Hl.
  apply (match_ops_found p m HR op_count (set_env e1 w) 1); [unfold op_count; lia| |].
  - intros j Hj. destruct (ls_ops _ _ Hl) as (o0 & o2 & o3 & Hops & Hu & _). assert (j = 0%nat) as -> by lia.
    exists o0. cbn [set_env w_ops]. rewrite Hops. split; [done|]. unfold unused in Hu. unfold matches.
    replace ((m_type m =? CT_CON) || (m_type m =? CT_NON)) with true by (destruct Hty as [-> | ->]; done). by rewrite Hu.
  - rewrite <- (take_drop (length pl + 1) blk) in Hr at 1. apply app_inv_head in Hr as <-. exact Hh.
Qed.

(** No message is for a client whose requests wait for no answer. *)
Lemma matches_inert m x : op_state x <> EXO_REQUEST_PENDING -> op_state x <> EXO_REQUEST_SUBSCRIBED -> matches m x = false.
Proof.
  intros Hp Hs. unfold matches. rewrite !bool_decide_eq_false_2 by done.
  by destruct (_ || _); [|destruct (_ =? _)].
Qed.

Lemma pass_ends_step p w e : fits576 p -> pass_ends (w_env w) e ->
  (forall j, (j < op_count)%nat -> exists x, w_ops w !! j = Some x /\
     op_state x <> EXO_REQUEST_PENDING /\ op_state x <> EXO_REQUEST_SUBSCRIBED) ->
  recv_step op_count p w = Ok (Break tt, set_env e w).
Proof.
  intros HF Hend Hin.
  assert (Hno : forall m j, (j < op_count)%nat -> exists x, w_ops w !! j = Some x /\ matches m x = false).
  { intros m j Hj. destruct (Hin j Hj) as (x & Hx & ? & ?). exists x. split; [done|]. by apply matches_inert. }
  destruct HF as [Hmax Hbuf]. destruct Hend as [rc d e1 Hrecv Hrc|m e1 rc e2 Hrecv Hwf Hv Ht Hs|m e1 Hrecv Hwf Hv Ht].
  - by eapply recv_step_empty.
  - by rewrite (recv_step_unmatched op_count p w m e1 Hmax Hbuf Hwf Hv Hrecv (Hno m)), Ht, Hs.
  - by rewrite (recv_step_unmatched op_count p w m e1 Hmax Hbuf Hwf Hv Hrecv (Hno m)), (proj2 (Z.eqb_neq _ _) Ht).
Qed.

Lemma news_call w o m pl sv blk e1 now e2 r e3 e4 t e5 e6 : listening w o -> notifies m o pl sv ->
  w_heap w !! 6%nat = Some blk -> zlen blk = 32 ->
  exopal_udp_recv 576 (w_env w) = (0, encode m, e1) -> exopal_get_time e1 = (now, e2) -> libc_rand e2 = (r, e3) ->
  pass_ends e3 e4 -> exopal_get_time e4 = (t, e5) ->
  exopal_udp_send (encode (ack_msg (m_mid m))) e5 = (0, e6) ->
  exo_operate addr1 stack1 addr2 stack2 op_count w = Ok (EXO_IDLE,
    set_ops (<[1%nat := notified o m sv now r]> (w_ops w))
      (set_env e6 (set_heap (<[6%nat := pl ++ 0 :: drop (length pl + 1) blk]> (w_heap w)) w))).
Proof.
  intros Hl Hn Hblk Hbl Hrecv Htime Hrand Hend Ht Hsend.
  pose proof (lookup_lt_Some _ _ _ (listening_op w o Hl)) as Hlt. pose proof (listening_others w o t Hl) as Hoth.
  set (heap := <[6%nat := _]> (w_heap w)).
  set (oa := to_acknowledge o m sv now r). set (ob := notified o m sv now r).
  set (wa := set_ops (<[1%nat := oa]> (w_ops w)) (set_env e3 (set_heap heap w))).
  set (wb := set_ops (<[1%nat := ob]> (w_ops w)) (set_env e6 (set_heap heap w))).
  destruct (notified_acknowledged o m sv now r) as (Hst & Hmid & Hack). fold oa ob in Hst, Hmid, Hack.
  destruct (active_op_acks t 1 (stack_pdu addr2 stack2) (set_env e5 wa) oa e6) as (p & Hact); try done.
  { by apply list_lookup_insert_eq. }
  { rewrite Hmid. apply Hn. }
  { by rewrite Hmid. }
  rewrite Hack in Hact. cbn [wa set_ops set_env set_heap w_ops] in Hact. rewrite list_insert_insert_eq in Hact.
  rewrite (operate_call addr1 stack1 addr2 stack2 op_count w w (set_env e4 wa) t e5 wb t 1 ob); try done.
  - unfold ob, notified. by destruct (_ =? _).
  - by rewrite (ls_device _ _ Hl).
  - unfold device_stage. by rewrite (ls_device _ _ Hl).
  - apply (waiting_message_then addr1 stack1 op_count w m e1 wa); try done; [apply Hn..| |].
    + intros q HR. by eapply news_matched.
    + intros q HF. apply pass_ends_step; [done|done|]. intros j Hj. destruct (decide (j = 1%nat)) as [->|Hne].
      * exists oa. split; [by apply list_lookup_insert_eq|]. destruct Hst as [-> | ->]; done.
      * destruct (listening_unused w o j Hl Hj Hne) as (x & Hx & Hu). exists x. cbn.
        rewrite list_lookup_insert_ne by done. unfold unused in Hu. by rewrite Hu.
  - apply (active_ops_one t _ _ p _ 1); [unfold op_count; lia| |done|].
    + intros j Hj Hne1. cbn. rewrite list_lookup_insert_ne by done. apply Hoth; [lia|done].
    + intros j Hj. cbn. by rewrite !list_lookup_insert_ne by done.
  - unfold op_count. lia.
  - by apply list_lookup_insert_eq.
  - by apply others_rest_insert.
  - unfold ob, notified. by destruct (_ =? _).
Qed.
End Call.

(** ** One round *)

Lemma report_unused errors i w o : w_ops w !! i = Some o -> op_state o <> EXO_REQUEST_SUCCESS ->
  op_state o <> EXO_REQUEST_ERROR -> report_op errors i w = Ok ([], w).
Proof.
  intros Ho Hs He. unfold report_op, bindM, get_op. rewrite Ho. cbn [rbind]. unfold exo_is_op_finished.
  by rewrite !bool_decide_eq_false_2 by done.
Qed.

Lemma report_got errors i w o ba ablk alias bv vblk value : w_ops w !! i = Some o -> op_state o = EXO_REQUEST_SUCCESS ->
  op_type o = EXO_SUBSCRIBE -> op_alias o = Some ba -> w_heap w !! ba = Some ablk -> cstring alias ablk ->
  op_value o = Some bv -> w_heap w !! bv = Some vblk -> cstring value vblk ->
  report_op errors i w = Ok ([got_line alias value], set_ops (<[i := exo_op_done o]> (w_ops w)) w).
Proof.
  intros Ho Hs Hty Ha Hab Hal Hv Hvb Hval. unfold report_op, bindM, get_op. rewrite Ho. cbn [rbind].
  assert (Hf : exo_is_op_finished o = true) by (unfold exo_is_op_finished; by rewrite Hs).
  assert (Hok : exo_is_op_success o = true) by (unfold exo_is_op_success; by rewrite Hs).
  destruct (kind_tests o) as [Hk _]. destruct (Hk Hty) as [Hsub _]. rewrite Hf, Hok, Hsub, Ha, Hv.
  rewrite (string_at_returns w ba ablk alias Hab Hal). cbn [rbind].
  rewrite (string_at_returns w bv vblk value Hvb Hval). cbn [rbind]. unfold retM, upd_op. cbn [rbind]. by rewrite Ho.
Qed.

Section Program.
Context (frames : Z -> (Z * list Z) * (Z * list Z)).
Context (Hframes : forall k, zlen (snd (fst (frames k))) = 576 /\ zlen (snd (snd (frames k))) = 576).

Lemma drain_once k w w1 :
  (forall addr1 stack1 addr2 stack2, zlen stack1 = 576 -> zlen stack2 = 576 ->
     exo_operate addr1 stack1 addr2 stack2 op_count w = Ok (EXO_IDLE, w1)) ->
  drain frames k w = Ok (k + 1, w1).
Proof.
  intros Hop. destruct (Hframes k) as [Hk1 Hk2]. unfold drain, loopM.
  rewrite loop_first; cbn [fst snd]; destruct (frames k) as [[a1 s1] [a2 s2]]; unfold bindM;
    rewrite (Hop a1 s1 a2 s2 Hk1 Hk2); done.
Qed.

(** A round that calls [exo_operate] once. *)
Lemma round_once l w w1 out w2 : l_loopcount l mod 100 <> 0 ->
  (forall addr1 stack1 addr2 stack2, zlen stack1 = 576 -> zlen stack2 = 576 ->
     exo_operate addr1 stack1 addr2 stack2 op_count w = Ok (EXO_IDLE, w1)) ->
  report_op (l_errorcount l) 1 w1 = Ok (out, w2) ->
  (exists o0 o1 o2 o3, w_ops w2 = [o0; o1; o2; o3] /\ unused o2 /\ unused o3) ->
  round frames l w = Ok (mk_locals (u64 (l_loopcount l + 1)) (l_errorcount l) (l_calls l + 1) (l_out l ++ out), w2).
Proof.
  intros Hc Hop Hr (o0 & o1 & o2 & o3 & Hops & H2 & H3). unfold round, bindM at 1.
  rewrite (proj2 (Z.eqb_neq _ _) Hc). unfold retM at 1. cbn [rbind]. unfold bindM at 1.
  rewrite (drain_once _ w w1 Hop). cbn [rbind op_count Nat.sub report_ops]. unfold bindM. rewrite Hr. cbn [rbind].
  unfold unused in H2, H3.
  rewrite (report_unused _ 2 w2 o2) by (congruence || by rewrite Hops). cbn [rbind].
  rewrite (report_unused _ 3 w2 o3) by (congruence || by rewrite Hops). cbn [rbind retM]. by rewrite !app_nil_r.
Qed.

(** The subscription after a notification, once its value is reported. *)
Definition renewed (o : exo_op) (m : message) (sv : list Z) (now r : Z) : exo_op :=
  op_set_timeout (renewal m now r) (op_set_obs_seq (seq_from 0 0 sv) (op_set_mid (m_mid m) o)).

Lemma listening_renewed w o m pl sv blk now r e : listening w o -> notifies m o pl sv ->
  w_heap w !! 6%nat = Some blk -> zlen blk = 32 ->
  listening (set_ops (<[1%nat := renewed o m sv now r]> (w_ops w))
    (set_env e (set_heap (<[6%nat := pl ++ 0 :: drop (length pl + 1) blk]> (w_heap w)) w))) (renewed o m sv now r).
Proof.
  intros Hl Hn Hblk Hbl. pose proof (nt_fits _ _ _ _ Hn) as Hfit. destruct (ls_ops _ _ Hl) as (o0 & o2 & o3 & Hops & Hu).
  constructor; cbn; try apply Hl.
  - exists o0, o2, o3. by rewrite Hops.
  - destruct (ls_command _ _ Hl) as (cblk & Hc & Hcs). exists cblk. by rewrite list_lookup_insert_ne.
  - eexists. split; [apply list_lookup_insert_eq; by eapply lookup_lt_Some|].
    unfold zlen in *. rewrite length_app. cbn [length]. rewrite length_drop. lia.
Qed.

(** What the report makes of the notification. *)
Lemma report_news errors w o m pl sv blk now r e : listening w o -> notifies m o pl sv -> w_heap w !! 6%nat = Some blk ->
  let w1 o' := set_ops (<[1%nat := o']> (w_ops w))
    (set_env e (set_heap (<[6%nat := pl ++ 0 :: drop (length pl + 1) blk]> (w_heap w)) w)) in
  report_op errors 1 (w1 (notified o m sv now r)) =
  Ok (if op_obs_seq o =? seq_from 0 0 sv then [] else [got_line (lit "command") pl], w1 (renewed o m sv now r)).
Proof.
  intros Hl Hn Hblk w1. pose proof (lookup_lt_Some _ _ _ (listening_op w o Hl)) as Hlt.
  assert (Ho : forall x, w_ops (w1 x) !! 1%nat = Some x) by (intros x; by apply list_lookup_insert_eq).
  pose proof (ls_state _ _ Hl) as Hst. pose proof (ls_type _ _ Hl) as Hty.
  destruct (op_obs_seq o =? seq_from 0 0 sv) eqn:Hseq.
  - assert (Heq : notified o m sv now r = renewed o m sv now r).
    { unfold notified, renewed. rewrite Hseq. destruct o; cbn in *. by subst. }
    rewrite Heq. apply (report_unused _ 1 _ (renewed o m sv now r)); [apply Ho|by cbn; rewrite Hst..].
  - destruct (ls_command _ _ Hl) as (cblk & Hc & Hcs). destruct (nt_value _ _ _ _ Hn) as [_ Hnz].
    rewrite (report_got errors 1 _ (notified o m sv now r) 3 cblk (lit "command") 6
      (pl ++ 0 :: drop (length pl + 1) blk) pl); try apply Hl; try done.
    + assert (Hd : exo_op_done (notified o m sv now r) = renewed o m sv now r).
      { unfold notified, renewed, exo_op_done, exo_is_op_subscribe. rewrite Hseq. destruct o; cbn in *. by subst. }
      unfold w1. cbn [set_ops w_ops]. by rewrite list_insert_insert_eq, Hd.
    + unfold notified. by rewrite Hseq.
    + cbn. by rewrite list_lookup_insert_ne.
    + cbn. apply list_lookup_insert_eq. by eapply lookup_lt_Some.
    + split; [|split; [done|by eexists]]. pose proof (wf_payload _ (nt_wf _ _ _ _ Hn)) as Hb.
      by rewrite (nt_payload _ _ _ _ Hn) in Hb.
Qed.

Lemma round_listens l w o out o' e' : l_loopcount l mod 100 <> 0 -> listening w o -> round_of o (w_env w) out o' e' ->
  exists w', round frames l w =
      Ok (mk_locals (u64 (l_loopcount l + 1)) (l_errorcount l) (l_calls l + 1) (l_out l ++ out), w') /\
    listening w' o' /\ w_env w' = e'.
Proof.
  intros Hc Hl Hr. pose proof (listening_op w o Hl) as Ho. destruct (ls_ops _ _ Hl) as (o0 & o2 & o3 & Hops & Hu0 & Hu2 & Hu3).
  destruct Hr as [rc d e1 t e2 Hrecv Hrc Ht Hlt|m pl sv e1 now e2 r e3 e4 t e5 e6 Hn Hrecv Htime Hrand Hend Ht Hsend].
  - exists (set_env e2 w). split; [|by destruct Hl].
    apply (round_once l w (set_env e2 w)); [done| | |by exists o0, o, o2, o3].
    + intros. by eapply quiet_call.
    + apply (report_unused _ 1 _ o); [done|by rewrite (ls_state _ _ Hl)..].
  - destruct (ls_buffer _ _ Hl) as (blk & Hblk & Hbl). eexists. split; [|split].
    + eapply round_once; [done|intros; by eapply news_call|by apply report_news|].
      cbn. rewrite Hops. by eexists _, _, o2, o3.
    + by apply listening_renewed.
    + done.
Qed.

(** C21. Once the subscription of the example stands, with the device activated and
    nothing else under way, every round deals with the first message that is waiting: if it is a notification of the subscription whose value
    is a non-empty string that fits the buffer, and the platform takes the
    acknowledgement, it is acknowledged and its value is printed in the same round,
    with the name of the dataport, exactly when its sequence number differs from
    that of the last one.  A second message behind it is lost: it finds no request,
    even if it is the next notification, is answered with a reset message if it is
    confirmable, and no more is received in this round.  A round in which nothing is
    waiting and the subscription is not due prints nothing.  Each round calls
    [exo_operate] once, and the subscription stands again afterwards.  (Rounds in
    which the uptime is written, every hundredth, and other first messages are left
    out.) *)
Theorem new_values_are_printed n : forall l w o outs o' e',
  listening w o -> rounds_of n o (w_env w) outs o' e' ->
  0 <= l_loopcount l -> (forall k, 0 <= k < Z.of_nat n -> (l_loopcount l + k) mod 100 <> 0) ->
  l_loopcount l + Z.of_nat n < 2 ^ 64 ->
  exists w', rounds frames n l w =
      Ok (mk_locals (l_loopcount l + Z.of_nat n) (l_errorcount l) (l_calls l + Z.of_nat n) (l_out l ++ outs), w') /\
    listening w' o' /\ w_env w' = e'.
Proof.
  induction n as [|n IH]; intros l w o outs o' e' Hl Hr H0' Hmod Hmax; inversion Hr as [|? ? ? out o1 e1 outs' ? ? Hr1 Hrs]; subst.
  - exists w. split; [|done]. cbn [rounds]. rewrite !Z.add_0_r, app_nil_r. by destruct l.
  - destruct (round_listens l w o out o1 e1) as (w1 & Hw1 & Hl1 & He1); [|done|done|].
    { specialize (Hmod 0 ltac:(lia)). by rewrite Z.add_0_r in Hmod. }
    subst e1. cbn [rounds]. unfold bindM. rewrite Hw1. cbn [rbind].
    assert (Hu : u64 (l_loopcount l + 1) = l_loopcount l + 1) by (apply u64_id; lia). rewrite Hu.
    edestruct (IH (mk_locals (l_loopcount l + 1) (l_errorcount l) (l_calls l + 1) (l_out l ++ out)) w1 o1 outs' o' e')
      as (w' & Hw' & Hrest); cbn [l_loopcount] in *; try done; try lia.
    { intros k Hk. specialize (Hmod (k + 1) ltac:(lia)). by replace (l_loopcount l + 1 + k) with (l_loopcount l + (k + 1)) by lia. }
    exists w'. split; [|done]. rewrite Hw'. cbn [l_loopcount l_errorcount l_calls l_out]. rewrite <- app_assoc.
    do 3 f_equal; lia.
Qed.
End Program.
End Rounds.

(** ** Witness *)

Definition standing : exo_op := mk_op EXO_SUBSCRIBE EXO_REQUEST_SUBSCRIBED command read_str 32 101 5 0 513 160000000 0.

Definition listener (e : Posix.os) : world Posix.os :=
  mk_world (sample_cik ++ [0]) VENDOR MODEL SERIAL 103 EXO_STATE_GOOD
    (literals ++ [List.repeat 7 32; lit "100" ++ 0 :: List.repeat 7 12; List.repeat 7 16])
    [exo_op_init new_read; standing; exo_op_init new_read; exo_op_init new_read] e.

(** A notification, the same one again, and then nothing. *)
Definition busy_network : list Posix.recv_event :=
  [Posix.Datagram (encode notification); Posix.RecvError Posix.EAGAIN;
   Posix.Datagram (encode notification); Posix.RecvError Posix.EAGAIN].

Definition receiving (inbox : list Posix.recv_event) (acks : nat) (rand : list Z) : Posix.os :=
  sample_platform inbox (List.repeat (encode (ack_msg 99)) acks) rand [].

Definition sample_stacks (k : Z) : (Z * list Z) * (Z * list Z) := ((4096, List.repeat 170 576), (8192, List.repeat 170 576)).

Lemma listener_listens e : listening (listener e) standing.
Proof.
  constructor; try reflexivity.
  - eexists _, _, _. split; [reflexivity|]. done.
  - eexists. split; [reflexivity|]. by apply sample_cstring; [apply bytes_eval|repeat constructor].
  - eexists. split; reflexivity.
Qed.

Lemma notification_notifies o : op_token o = 513 -> notifies notification o (lit "on") [6].
Proof.
  intros Ht. constructor; try reflexivity.
  - constructor; vm_compute; repeat (split || constructor || discriminate).
  - by left.
  - done.
  - repeat constructor.
  - by exists [].
  - vm_compute. discriminate.
  - split; [discriminate|by repeat constructor].
  - vm_compute. discriminate.
Qed.

Lemma new_values_are_printed_witness : exists w',
  rounds sample_stacks 3 (mk_locals 7 0 9 []) (listener (receiving busy_network 0 [100; 200])) =
    Ok (mk_locals 10 0 12 [got_line (lit "command") (lit "on")], w') /\
  Posix.os_sent (w_env w') = [encode (ack_msg 99); encode (ack_msg 99)].
Proof.
  set (again := [Posix.Datagram (encode notification); Posix.RecvError Posix.EAGAIN]).
  set (o1 := renewed standing notification [6] 100000000 100).
  edestruct (new_values_are_printed (E := Posix.os) sample_stacks (fun _ => conj eq_refl eq_refl) 3 (mk_locals 7 0 9 [])
    (listener (receiving busy_network 0 [100; 200])) standing) with (e' := receiving [] 2 []) as (w' & Hw & _ & He).
  - apply listener_listens.
  - eapply rounds_more.
    { apply (news_round standing _ notification (lit "on") [6] (receiving (Posix.RecvError Posix.EAGAIN :: again) 0 [100; 200])
        100000000 (receiving (Posix.RecvError Posix.EAGAIN :: again) 0 [100; 200]) 100
        (receiving (Posix.RecvError Posix.EAGAIN :: again) 0 [200]) (receiving again 0 [200]) 100000000
        (receiving again 0 [200]) (receiving again 1 [200])); try reflexivity; [by apply notification_notifies|].
      by eapply (pass_empty _ 2 []). }
    eapply rounds_more.
    { apply (news_round o1 _ notification (lit "on") [6] (receiving [Posix.RecvError Posix.EAGAIN] 1 [200])
        100000000 (receiving [Posix.RecvError Posix.EAGAIN] 1 [200]) 200
        (receiving [Posix.RecvError Posix.EAGAIN] 1 []) (receiving [] 1 []) 100000000
        (receiving [] 1 []) (receiving [] 2 [])); try reflexivity; [by apply notification_notifies|].
      by eapply (pass_empty _ 2 []). }
    eapply rounds_more; [|apply rounds_none].
    eapply (quiet_round _ _ 2 [] (receiving [] 2 []) 100000000); try reflexivity. discriminate.
  - cbn. lia.
  - cbn [l_loopcount]. intros k Hk. rewrite Z.mod_small; lia.
  - cbn. lia.
  - exists w'. split; [exact Hw|]. rewrite He. reflexivity.
Defined.
