(* ===== verification/SubscribeProps.v ===== *)
(** * The example application: properties

    [examples/subscribe.c] from its first statement on, for whatever the platform
    answers, and what it reports about its requests. *)

From stdpp Require Import relations.
From S2P Require Import Prelude Mem CoapDefs CoapMessage Pal ExoDefs ExoBuild ExoProcess ExoRules ExoSpec ExoEnds ExoProps ExoSafe ExoSamples ExoTimer ExoSilent Subscribe SubscribeFacts.

Section Program.
Context {E : Type} `{Boot E true}.
Context (frames : Z -> frame).
Implicit Types (w : world E).

(** C18. The example application has no undefined behaviour: whatever is on its stack
    at the start, whether or not [exo_init] succeeds, and whatever well-formed
    messages with a readable Observe option arrive, any number of rounds either
    completes or hangs in its loop around [exo_operate]; no string it prints lacks
    its NUL.  The error count it reports is 0 after any number of rounds. *)
Theorem subscribe_no_undefined_behaviour n w :
  (forall k, frame_ok (frames k)) -> fresh w ->
  runs_or_hangs (main frames n w) (fun '(l, _) => l_errorcount l = 0).
Proof.
  intros Hf Hw. unfold main, bindM. eapply hangs_bind; [by apply returns_hangs, start_spec|].
  intros [u w1] (Hops & Hheap & _ & [Hi|Hd]).
  - eapply hangs_mono; [by apply (rounds_inv frames Hf n [])|]. intros [l w2] (_ & _ & He). exact He.
  - destruct n as [|n]; [done|]. cbn [rounds]. unfold bindM. rewrite (round_uninitialised frames); try done.
    rewrite Hheap. by apply fresh_sizes.
Qed.

(** The state of a program that waits for its subscription on a silent network. *)
Definition stuck extra w : Prop :=
  inv extra w /\ silent w /\ exists o, w_ops w !! 1%nat = Some o /\ unconfirmed o.

Lemma stuck_operate extra w addr1 stack1 addr2 stack2 : stuck extra w ->
  frame_ok ((addr1, stack1), (addr2, stack2)) ->
  returns (exo_operate addr1 stack1 addr2 stack2 op_count w) (fun '(r, w') => stuck extra w' /\ r <> EXO_IDLE).
Proof.
  intros (Hi & Hs & o & Ho & Hu) Hf. pose proof (inv_operate extra w addr1 stack1 addr2 stack2 Hi Hf) as Hop.
  destruct Hf as (Hb1 & Hl1 & Hb2 & Hl2). cbn [fst snd] in *.
  assert (Hc : callable stack1 stack2 w) by (repeat split; try done; [apply (iv_ok _ _ Hi)..|apply (iv_pending _ _ Hi)]).
  pose proof (operate_silent addr1 addr2 stack1 stack2 op_count w 1 Hc Hs (iv_device _ _ Hi) ltac:(unfold op_count; lia)
    (or_introl (Nat.neq_succ_0 0))) as Hsil.
  apply returns_inv in Hop as ([r w'] & He & Hi' & Ha & Hrep). unfold operate in Hsil. rewrite He in Hsil |- *.
  destruct Hsil as (now & Ht & _). cbn [fst snd] in Ht. destruct (Ht o Ho) as (o' & Ho' & Hstep).
  pose proof (timer_unconfirmed now o o' Hu Hstep) as Hu'. split.
  - split; [done|]. split; [by eapply advances_silent|]. by exists o'.
  - intros ->. destruct Hrep as [Hn Hp]. destruct Hu' as [_ [Hst|Hst]]; [apply Hn|apply Hp];
      (exists 1%nat, o'; split; [unfold op_count; lia|done]).
Qed.

Lemma drain_stuck extra k w : (forall k, frame_ok (frames k)) -> stuck extra w -> drain frames k w = Fault OutOfFuel.
Proof.
  intros Hf Hw. apply only_hangs. unfold drain, loopM.
  apply (loop_invariant _ (fun sw => stuck extra (snd sw))); [|done].
  intros [k1 w1] Hs. cbn [fst snd] in *. pose proof (Hf k1) as Hf1. destruct (frames k1) as [[a1 s1] [a2 s2]].
  pose proof (stuck_operate extra w1 a1 s1 a2 s2 Hs Hf1) as Hop. unfold bindM.
  apply returns_inv in Hop as ([r w2] & -> & Hs2 & Hr). cbn [rbind]. by destruct r.
Qed.

(** C19. On a silent network the example never gets out of its first round, although a
    comment promises to operate "until all are done or failed": the subscription is
    neither, so [exo_operate] never reports [EXO_IDLE].  (The same if [exo_init]
    fails.) *)
Theorem subscribe_hangs_on_silent_network n w :
  (forall k, frame_ok (frames k)) -> fresh w -> silent w -> (0 < n)%nat ->
  main frames n w = Fault OutOfFuel.
Proof.
  intros Hf Hw Hs Hn. destruct n as [|n]; [lia|]. pose proof (start_spec w Hw) as Hst.
  unfold main, bindM at 1. apply returns_inv in Hst as ([u w1] & -> & Hops & Hheap & Hp & Hres). cbn [rbind rounds].
  unfold bindM at 1. destruct Hres as [Hi|Hd].
  - assert (Hs1 : silent w1) by (unfold silent in *; pose proof (pending_nonneg (w_env w1)); lia).
    unfold round, bindM at 1. cbn [l_loopcount l_calls]. change (0 mod 100 =? 0) with true. cbn iota.
    destruct (inv_write_number [] w1 2 7 uptime 0 null_op (or_introl (conj eq_refl (conj eq_refl eq_refl))) Hi
      ltac:(lia) ltac:(by rewrite Hops)) as (w2 & Hw2 & Hi2 & Hops2 & Henv2 & _).
    change loop_str with (Some 7%nat). rewrite Hw2. cbn [rbind]. unfold bindM at 1.
    rewrite (drain_stuck [7%nat] 0 w2 Hf); [done|]. split; [done|]. split; [unfold silent; by rewrite Henv2|].
    exists (exo_subscribe null_op command read_str 32). rewrite Hops2, Hops. split; [done|]. split; [done|by left].
  - rewrite (round_uninitialised frames); try done.
    rewrite Hheap. by apply fresh_sizes.
Qed.

(** The example ignores the result of [exo_init]: when the client could not be
    initialised (for instance because there is no file with a CIK) it hangs in the
    loop around [exo_operate], which reports [EXO_ERROR] forever. *)
Theorem subscribe_hangs_without_init n w err w1 :
  fresh w -> exo_init VENDOR MODEL SERIAL w = Ok (err, w1) -> err <> EXO_OK -> (0 < n)%nat ->
  main frames n w = Fault OutOfFuel.
Proof.
  intros Hw He Herr Hn. destruct n as [|n]; [lia|]. pose proof Hw as [_ Hok Hops Hcik Hq Hp].
  pose proof (init_safe w VENDOR MODEL SERIAL Hcik (ok_cik _ Hok) (ok_mid _ Hok) Hq) as Hi. rewrite He in Hi.
  destruct Hi as [[Hb1 Hb2 _ _ _ _ _] [[? _]|[_ Hd]]]; [done|].
  unfold main, bindM at 1, start, bindM at 1. rewrite He. cbn [rbind]. rewrite init_ops_returns by congruence.
  cbn [rbind rounds]. unfold bindM at 1. rewrite (round_uninitialised frames); try done.
  cbn [set_ops w_heap]. rewrite Hb2. by apply fresh_sizes.
Qed.

(** C20. What the example reports: of a request that succeeded it prints the alias and
    the value, both as terminated strings, and puts it away ([exo_op_done]: the
    subscription waits for its next value, a write is over); of one that failed it
    prints the alias, and queues a write of the error count in slot 3; a request
    that is not finished is left alone.  When the request in slot 3 itself failed the
    write queued for it is put away at once, so that failure is never reported. *)
Theorem requests_are_reported extra w i o o3 errors :
  inv extra w -> i <> 0%nat -> w_ops w !! i = Some o -> w_ops w !! 3%nat = Some o3 -> 0 <= errors < 2 ^ 64 ->
  returns (report_op errors i w) (fun '(out, w') =>
    match op_state o with
    | EXO_REQUEST_SUCCESS =>
        exists alias value, string_at (op_alias o) w = Ok (alias, w) /\ string_at (op_value o) w = Ok (value, w) /\
          out = [(if exo_is_op_subscribe o then got_line else set_line) alias value] /\
          w' = set_ops (<[i := exo_op_done o]> (w_ops w)) w
    | EXO_REQUEST_ERROR =>
        exists alias, string_at (op_alias o) w = Ok (alias, w) /\ out = error_lines alias errors /\
          (i <> 3%nat -> w_ops w' !! i = Some (exo_op_done o) /\
             w_ops w' !! 3%nat = Some (exo_write o3 errorcount error_str) /\
             string_at error_str w' = Ok (take 14 (decimal errors), w')) /\
          (i = 3%nat -> w_ops w' !! 3%nat = Some (exo_op_init o))
    | _ => out = [] /\ w' = w
    end).
Proof.
  intros Hi H0' Ho Ho3 Hn. destruct (op_state o) eqn:Es.
  1-6: unfold report_op, bindM, get_op; rewrite Ho; cbn [rbind]; unfold exo_is_op_finished; by rewrite Es.
  - assert (Hs : exo_is_op_success o = true) by (unfold exo_is_op_success; by rewrite Es).
    destruct (report_success extra w i o errors Hi H0' Ho Hs) as (alias & value & Ha & Hv & ->). by exists alias, value.
  - destruct (report_error extra w i o o3 errors Hi H0' Ho Ho3 Es Hn) as (alias & w' & Ha & -> & Hi' & _ & Hops & blk & Hb & Hc).
    exists alias. split; [done|]. split; [done|]. rewrite Hops. pose proof (lookup_lt_Some _ _ _ Ho) as Hlt.
    split; intros Hne.
    2: { subst i. rewrite list_lookup_insert_eq by (by rewrite length_insert). by rewrite list_lookup_insert_eq. }
    rewrite list_lookup_insert_eq by (by rewrite length_insert).
    rewrite (list_lookup_insert_ne (w_ops w)) by done. rewrite Ho. split; [done|].
    rewrite (list_lookup_insert_ne (<[3%nat := _]> (w_ops w))), list_lookup_insert_eq by (done || by eapply lookup_lt_Some).
    split; [done|]. by eapply string_at_returns.
Qed.

End Program.

(** The numbers the example sends: printing a counter into one of its arrays
    writes within the array and gives a string of decimal digits, the whole number
    when it is below 10^14 and its first 14 digits otherwise. *)
Theorem counters_are_printed buf n :
  zlen buf = 16 -> 0 <= n < 2 ^ 64 ->
  exists buf', snprintf_llu buf 15 n = Ok buf' /\ length buf' = length buf /\
    cstring (take 14 (decimal n)) buf' /\ Forall digit (decimal n) /\ from_digits 0 (decimal n) = n /\
    (n < 10 ^ 14 -> from_digits 0 (take 14 (decimal n)) = n).
Proof.
  intros Hb Hn. destruct (snprintf_string buf n Hb Hn) as (buf' & ? & ? & _ & ? & _). exists buf'.
  destruct (decimal_digits n Hn) as (? & ? & ? & Hv). do 5 (split; [done|]). intros Hsmall.
  rewrite take_ge; [done|]. apply decimal_short. lia.
Qed.

(** ** Instances *)

(** The program on POSIX, with rubbish on its stack. *)
Definition posix_start (file : option (list Z)) (inbox : list Posix.recv_event) : world Posix.os :=
  mk_world (List.repeat 0 41) None None None 0 EXO_STATE_UNINITIALIZED
    (literals ++ [List.repeat 7 32; List.repeat 7 16; List.repeat 7 16])
    (List.repeat (mk_op EXO_READ EXO_REQUEST_PENDING (Some 99%nat) None 5 4 3 2 1 9 8) 4)
    (Posix.mk_os inbox [] [] [(100, 0)] [100; 200; 300; 400] file true 1000 0 (Some [Posix.mk_addr true true])).

Definition sample_frames (k : Z) : frame := sample_frame.

Lemma posix_start_fresh file : fresh (posix_start file []).
Proof.
  constructor; try reflexivity.
  - exists (List.repeat 7 32), (List.repeat 7 16), (List.repeat 7 16). done.
  - constructor; [by apply blocks_eval|by apply bytes_eval|done|].
    repeat (constructor; [constructor; simpl; unfold is_u16, is_u32, is_u64, is_byte; lia|]). constructor.
  - constructor.
Qed.

(** A run in which the server answers: the activation, the subscription and the
    first write succeed, and the second round has nothing to report. *)
Example two_rounds :
  let answer mid opts payload := Posix.Datagram (encode (mk_msg 1 CT_ACK CC_CONTENT mid [] opts payload)) in
  match main (E := Posix.os) sample_frames 2 (posix_start (Some sample_cik)
    [Posix.RecvError Posix.EAGAIN; answer 100 [] (Some sample_cik);
     answer 101 [(6, [5]); (14, [60])] (Some (lit "on")); answer 102 [] None]) with
  | Ok (l, w) => (l_loopcount l, l_calls l, l_out l, w_device w, List.map op_state (w_ops w))
  | Fault _ => (0, 0, [], EXO_STATE_BAD_CIK, [])
  end = (2, 3, [got_line (lit "command") (lit "on"); set_line (lit "uptime") (lit "0")], EXO_STATE_GOOD,
         [EXO_REQUEST_NULL; EXO_REQUEST_SUBSCRIBED; EXO_REQUEST_NULL; EXO_REQUEST_NULL]).
Proof. vm_compute. reflexivity. Qed.

Lemma subscribe_no_undefined_behaviour_witness :
  main (E := Posix.os) sample_frames 5 (posix_start (Some sample_cik) []) <> Fault OutOfBounds.
Proof.
  intros Hc. pose proof (subscribe_no_undefined_behaviour sample_frames 5 (posix_start (Some sample_cik) [])
    (fun _ => sample_frame_ok) (posix_start_fresh _)) as Hs. rewrite Hc in Hs. discriminate Hs.
Defined.

Lemma subscribe_hangs_on_silent_network_witness :
  main (E := Posix.os) sample_frames 1 (posix_start (Some sample_cik) []) = Fault OutOfFuel.
Proof.
  apply (subscribe_hangs_on_silent_network sample_frames 1 (posix_start (Some sample_cik) [])).
  - exact (fun _ => sample_frame_ok).
  - exact (posix_start_fresh _).
  - reflexivity.
  - lia.
Defined.

Lemma subscribe_hangs_without_init_witness :
  main (E := Posix.os) sample_frames 1 (posix_start None []) = Fault OutOfFuel.
Proof.
  eapply (subscribe_hangs_without_init sample_frames 1 (posix_start None [])).
  - exact (posix_start_fresh _).
  - vm_compute. reflexivity.
  - discriminate.
  - lia.
Defined.

(** A state between two rounds: a value arrived, the last report of errors failed. *)
Definition between_rounds : world Posix.os :=
  mk_world (sample_cik ++ [0]) VENDOR MODEL SERIAL 103 EXO_STATE_GOOD
    (literals ++ [lit "on" ++ 0 :: List.repeat 7 29; lit "100" ++ 0 :: List.repeat 7 12; lit "0" ++ 0 :: List.repeat 7 14])
    [null_op; mk_op EXO_SUBSCRIBE EXO_REQUEST_SUCCESS command read_str 32 101 5 0 300 160000000 0; null_op;
     mk_op EXO_WRITE EXO_REQUEST_ERROR errorcount error_str 0 102 0 0 400 104000000 4]
    (sample_platform [] [] [] []).

Lemma between_rounds_inv : inv [7%nat; 8%nat] between_rounds.
Proof.
  assert (Hn : op_ready (subs := true) (strs [7%nat; 8%nat]) (w_heap between_rounds) null_op)
    by exact (op_ready_init _ _ null_op).
  assert (H8 : 8%nat ∈ [7%nat; 8%nat]) by (right; by left).
  apply mk_inv; [| | |reflexivity|reflexivity|reflexivity|discriminate].
  - apply mk_ready; [|simpl; unfold op_count; lia|simpl; lia| | | | |reflexivity|by apply bytes_eval|simpl; lia|constructor].
    + apply Forall_cons; split; [done|]. apply Forall_cons; split; [|apply Forall_cons; split; [done|]; apply Forall_cons; split; [|done]].
      * constructor; simpl; unfold subscribing, holds_value; try (intuition congruence); try lia.
        -- intros _. exists 3%nat. split; [done|]. left. lia.
        -- intros _. exists 6%nat. eexists. split; [done|]. split; [|split; [reflexivity|split; [reflexivity|vm_compute; discriminate]]].
           intros [?|Hx]; [lia|]. apply elem_of_cons in Hx as [?|Hx]; [done|]. apply list_elem_of_singleton in Hx. done.
        -- intros _ _. exists 6%nat. eexists. split; [done|]. split; [reflexivity|]. right. right. left.
      * constructor; simpl; unfold subscribing, holds_value; try (intuition congruence); try lia.
        -- intros _. exists 5%nat. split; [done|]. left. lia.
        -- intros _. exists 8%nat. split; [done|]. by right.
    + intros b [Hb|Hb].
      * destruct (lookup_lt_is_Some_2 literals b Hb) as [blk Hblk].
        destruct (literal_cstring b blk Hblk) as (s & ? & ?). exists blk, s. split; [|done].
        by apply lookup_app_l_Some.
      * apply elem_of_cons in Hb as [->|Hb]; [|apply list_elem_of_singleton in Hb as ->]; eexists;
          [exists (lit "100")|exists (lit "0")]; (split; [reflexivity|]; split; [|reflexivity]);
          (split; [by apply bytes_eval|split; [repeat constructor; discriminate|eexists; reflexivity]]).
    + exists 0%nat. split; [done|]. left. lia.
    + exists 1%nat. split; [done|]. left. lia.
    + exists 2%nat. split; [done|]. left. lia.
  - constructor; [by apply blocks_eval|by apply bytes_eval|done|].
    repeat (constructor; [constructor; simpl; unfold is_u16, is_u32, is_u64, is_byte; lia|]). constructor.
  - intros i o Ho. assert (Hi : op_inv null_op) by exact (op_inv_init null_op).
    destruct i as [|[|[|[|i]]]]; simplify_eq/=;
      (split; [try done; constructor; simpl; unfold COAP_MAX_RETRANSMIT; (lia || intuition congruence)|]);
      try (by apply slot_ok_null); constructor; simpl; try done. intros _. right. done.
Qed.

Lemma requests_are_reported_witness :
  exists w', report_op 0 1 between_rounds = Ok ([got_line (lit "command") (lit "on")], w') /\
    op_state <$> (w_ops w' !! 1%nat) = Some EXO_REQUEST_SUBSCRIBED.
Proof.
  pose proof (requests_are_reported _ between_rounds 1 _ _ 0 between_rounds_inv ltac:(discriminate)
    eq_refl eq_refl ltac:(lia)) as Hr.
  apply returns_inv in Hr as ([out w'] & He & alias & value & Ha & Hv & -> & ->). cbn in Ha, Hv.
  injection Ha as <-. injection Hv as <-. eexists. split; [exact He|]. reflexivity.
Defined.

(** The failed report of errors is dropped. *)
Example failed_report_is_lost :
  match report_op 0 3 between_rounds with
  | Ok (out, w') => out = error_lines (lit "errorcount") 0 /\ w_ops w' !! 3%nat = Some null_op
  | Fault _ => False
  end.
Proof. vm_compute. split; reflexivity. Qed.

Lemma counters_are_printed_witness :
  exists buf', snprintf_llu (List.repeat 7 16) 15 123456789012345678 = Ok buf' /\
    cstring (lit "12345678901234") buf'.
Proof.
  destruct (counters_are_printed (List.repeat 7 16) 123456789012345678) as (buf' & Hs & _ & Hc & _).
  - reflexivity.
  - lia.
  - exists buf'. split; [exact Hs|exact Hc].
Defined.
